(* ===== verification/_CoqProject ===== *)
-Q . S2P
Prelude.v
Sha256.v
GoTime.v
Json.v
Codec.v
JsonLines.v
Regexp.v
Domain.v
Paths.v
ObjectStore.v
RefStore.v
Documents.v
Pointers.v
Leases.v
Generations.v
Effects.v
Snapshot.v
Journal.v
JournalSafety.v
Reconcile.v
OperationLock.v
Base64.v
FileBackend.v
FileBackendRefinement.v
FileBackendListing.v
FileBackendLive.v
HaulManifest.v
HaulChunks.v
HaulLive.v
Acts.v
RegistryInventory.v
Checkpoint.v
CheckpointSafety.v
CheckpointLive.v
CheckpointResume.v
