(* ===== verification/Prelude.v ===== *)
(** A verification library of Camp (src/internal, Go).

    Camp keeps development workspaces ("camps") as generations of capsule archives in an
    object store.  One writer per lineage holds a lease, publishes a generation and moves
    the lineage's pointer; a journal on the local disk makes each of these steps
    survive a crash; hauler kits carry generations between disconnected sites.

    * The parts and their files

    Prelude (this file): the errors and results of the sources, Go's strings, strconv and
    sort as far as they are called, shared lemmas, tactics and hints.
    Sha256, GoTime, Json, Codec, JsonLines, Base64, Regexp, Paths: the Go standard library
    the code rests on (crypto/sha256, time, encoding/json with its struct tags,
    encoding/base64, regexp, path and path/filepath), executable and with its round trips.
    Domain, Snapshot: package domain; the documents, their validators, decoders and keys
    (blueprint.go, controller.go, provenance.go, lineage.go, generation.go, lease.go,
    session.go, recovery.go, ...).
    ObjectStore, RefStore: ports/objectstore.go; clients as trees of store calls, the
    contract [answers] of a store, [exec] with other clients between any two calls, and a
    small store that keeps the contract.
    Documents, Pointers, Leases, Generations: package coordination (pointers.go, leases.go,
    generations.go, history.go), every method of the three repositories.
    Effects: programs over a file state under a schedule of failures and crashes, with
    the rules [runs] and [ends] to reason over all schedules.
    Journal, JournalSafety, Reconcile, OperationLock: package journal (store.go,
    reconcile.go, operation_lock.go).
    FileBackend, FileBackendRefinement, FileBackendListing, FileBackendLive:
    adapters/filebackend/store.go, the object store on a directory.
    HaulManifest, HaulChunks, HaulLive: haulkit/manifest.go and haulkit/chunks.go.
    RegistryInventory: the image inventory of a sealed registry (registry/snapshot.go with
    the patterns of registry/catalog.go).
    Checkpoint, CheckpointSafety, CheckpointLive, CheckpointResume: app/checkpoint.go, the
    publication of a session's next generation.  The publisher is a tree of events, one for
    each call of the journal, the lock, the leases, the repositories and the external parts;
    CheckpointSafety watches every run of it whatever the answers are, CheckpointLive runs
    it on a journal and a store that work, and CheckpointResume does so after a crash.

    * What the theorems show

    Coordination, on every store that keeps the contract and under every interleaving
    with other clients: a pointer moves only from the version its caller read, to the next
    one, and its history is a chain; at most one live lease per lineage, and only its
    token renews or releases it; a generation is visible only with its verified bytes, and
    what is published resolves.
    The file backend refines the contract for every schedule of failures and crashes; its
    listing has no gaps; without failures a conditional write goes through.
    The journal: each operation is atomic at every crash point, a fact that was reported
    is there after a reload, the execution binding never changes; reconciliation settles
    every pending intent; the operation lock has one owner, and a lock file goes only
    when its process was found gone.
    Documents: canonical texts and keys round-trip and are injective.
    Hauler kits: an accepted manifest is within its bounds and has one text; splitting and
    reassembly touch nothing else, leave no partial output, and give the archive back.
    Publication: whatever the parts answer and wherever it is stopped, Publish touches the
    outside only under an intent in the journal that describes the request, moves the
    pointer at most once and only to a generation found stored, and answers what it did;
    on a store under interference its writes are exactly those; when the parts cooperate
    it publishes, also after a crash in the upload or in the move of the pointer.
    The inventory of a catalog has each image once with all its tags.
    Some theorems record what the code does where it surprises: a stale partial snapshot
    blocks the session, a fact for an unknown intent makes it unreadable, an ignored write
    error leaves an empty lock file, an upload is not resumed over another sidecar.

    * Bounds and fuel

    Integers are [Z]; the widths that matter (uint32 indices, uint64 versions, int64
    sizes) are written as wrap-around or range checks where the source relies on them.
    Loops that follow page tokens, retry, or read to an end take fuel, and a theorem says
    that the fuel chosen is enough ([GenerationList_returns], [split_terminates]) or that
    running out is an error the caller sees ([ErrNoProgress] in retry loops that the source
    bounds too).  The sources' own bounds (ten thousand attempts of [os.CreateTemp], the
    document sizes) are kept as they are.

    * What is not modelled

    Error texts: an error is its sentinel.  Loss of written but unsynced data: what the
    kernel has accepted survives a crash, so fsync calls can only fail.  Symbolic links to
    directories on the way to a kit's files; the creation of the file backend's root.
    Processes, containers, registries, network transports, the command line and the
    terminal UI: code whose behaviour is that of external programs.  The use cases of
    package app other than publication (open, sync, close, recover, serve), which compose
    the same parts with external processes; the local materialization of a camp
    (hydration, capsule ownership) and the import and export of camp kits.

    * Vocabulary of this file

    Go values as Rocq data: byte strings are [string]s (one [ascii] per byte), signed and
    unsigned integers are [Z], slices are lists, nil-able pointers are [option]s.  This
    file holds the error values and the result type of fallible code, the functions of
    Go's [strings], [strconv] and [sort] packages the sources call, generic lemmas on lists
    and strings, and the tactics and hint databases the other files use. *)
From Stdlib Require Export ZArith Lia Ascii.
From stdpp Require Export base tactics list strings gmap pretty sorting.

#[global] Set Default Goal Selector "!".

Open Scope Z_scope.

(** * Errors

    The sentinel errors of the packages, with [errors.Join].  [fmt.Errorf] with a
    [%w] verb keeps only the wrapped sentinel: texts are not modelled, so an error
    that wraps nothing the callers test for is an [ErrText]. *)
Inductive error :=
| ErrNotFound | ErrConflict | ErrIntegrity | ErrInvalidKey | ErrUnsafePath
| ErrInvalidCondition | ErrInvalidPageToken | ErrAmbiguous
| ErrInvalidDocument | ErrPointerChanged | ErrLeaseHeld | ErrLeaseLost
| ErrGenerationVerification
| ErrExecutionRetarget | ErrExecutionAlreadyStarted | ErrExecutionBindingUnknown
| ErrUnknownTransition | ErrOperationLocked | ErrOperationOwnership
| ErrInvalidControllerIdentity | ErrInvalidBlueprint | ErrInvalidBlueprintRef
| ErrInvalidExecutionBinding | ErrInvalidExecutionProvenance
| ErrNoActiveSession | ErrAmbiguousActiveSession
| ErrInvalidManifest | ErrRegistryDigestMismatch | ErrInvalidChunks | ErrArchiveLimit | ErrUnsafeKit | ErrIdentityMismatch
| ErrNotExist | ErrExist | ErrCanceled
| ErrNoProgress
| ErrText (label : string)
| ErrJoin (e1 e2 : error).

#[export] Instance error_eq_dec : EqDecision error.
Proof. solve_decision. Defined.

(** [errors.Is]: the error itself or, through [errors.Join], one of its parts. *)
Fixpoint errors_Is (e target : error) : bool :=
  match e with
  | ErrJoin e1 e2 => errors_Is e1 target || errors_Is e2 target
  | _ => bool_decide (e = target)
  end.

(** * Results of fallible code *)
Inductive result (A : Type) :=
| Ok (a : A)
| Err (e : error).
Arguments Ok {A} a.
Arguments Err {A} e.

#[export] Instance result_eq_dec {A} `{EqDecision A} : EqDecision (result A).
Proof. solve_decision. Defined.

Definition result_bind {A B} (r : result A) (k : A -> result B) : result B :=
  match r with Ok a => k a | Err e => Err e end.

Definition is_ok {A} (r : result A) : bool :=
  match r with Ok _ => true | Err _ => false end.

Declare Scope go_scope.
Delimit Scope go_scope with go.
Open Scope go_scope.

(** [let! x := r in k]: `x, err := r; if err != nil { return err }`. *)
Notation "'let!' x ':=' r 'in' k" := (result_bind r (fun x => k))
  (at level 10, x pattern, r at level 100, k at level 200) : go_scope.

(** [check c else e; k]: `if !c { return e }`. *)
Notation "'check' c 'else' e ';' k" := (if c then k else Err e)
  (at level 10, c at level 100, e at level 100, k at level 200) : go_scope.

(** * Bytes and strings *)
Abbreviation bytes := string (only parsing).

Definition byte_val (c : ascii) : Z := Z.of_N (N_of_ascii c).
Definition byte_of (z : Z) : ascii := ascii_of_N (Z.to_N z).
Definition str_len (s : string) : Z := Z.of_nat (String.length s).
Definition str_eqb (a b : string) : bool := bool_decide (a = b).
Definition str_ltb (a b : string) : bool := String.ltb a b.

Fixpoint str_all (p : ascii -> bool) (s : string) : bool :=
  match s with
  | EmptyString => true
  | String c s' => p c && str_all p s'
  end.

Fixpoint str_exists (p : ascii -> bool) (s : string) : bool :=
  match s with
  | EmptyString => false
  | String c s' => p c || str_exists p s'
  end.

Definition byte_in (set : string) (c : ascii) : bool :=
  str_exists (fun d => bool_decide (d = c)) set.

(** [strings.ContainsAny], for a set of ASCII characters. *)
Definition ContainsAny (s chars : string) : bool := str_exists (byte_in chars) s.

(** [strings.HasPrefix], [strings.HasSuffix], [strings.TrimSuffix]. *)
Fixpoint HasPrefix (s p : string) {struct p} : bool :=
  match p, s with
  | EmptyString, _ => true
  | String a p', String b s' => bool_decide (a = b) && HasPrefix s' p'
  | String _ _, EmptyString => false
  end.

Fixpoint HasSuffix (s suf : string) : bool :=
  str_eqb s suf || match s with EmptyString => false | String _ s' => HasSuffix s' suf end.

Fixpoint str_take (n : nat) (s : string) : string :=
  match n, s with
  | S n', String c s' => String c (str_take n' s')
  | _, _ => EmptyString
  end.

Definition TrimSuffix (s suf : string) : string :=
  if HasSuffix s suf then str_take (String.length s - String.length suf) s else s.

(** [strings.TrimPrefix] *)
Fixpoint str_drop (n : nat) (s : string) : string :=
  match n, s with
  | S n', String _ s' => str_drop n' s'
  | _, _ => s
  end.
Definition TrimPrefix (s p : string) : string := if HasPrefix s p then str_drop (String.length p) s else s.

(** [strings.Split] on a one-byte separator: always at least one part. *)
Fixpoint split_on (sep : ascii) (s : string) : string * list string :=
  match s with
  | EmptyString => (EmptyString, [])
  | String c s' =>
      let '(h, t) := split_on sep s' in
      if bool_decide (c = sep) then (EmptyString, h :: t) else (String c h, t)
  end.
Definition Split (s : string) (sep : ascii) : list string :=
  let '(h, t) := split_on sep s in h :: t.

Fixpoint Join (parts : list string) (sep : string) : string :=
  match parts with
  | [] => ""
  | [x] => x
  | x :: ps => x +:+ sep +:+ Join ps sep
  end.

(** [strings.ToLower] on ASCII. *)
Definition lower_byte (c : ascii) : ascii :=
  let v := byte_val c in
  if (65 <=? v) && (v <=? 90) then byte_of (v + 32) else c.
Fixpoint ToLower (s : string) : string :=
  match s with
  | EmptyString => EmptyString
  | String c s' => String (lower_byte c) (ToLower s')
  end.

Definition is_digit (c : ascii) : bool := let v := byte_val c in (48 <=? v) && (v <=? 57).
Definition is_lower_hex (c : ascii) : bool :=
  let v := byte_val c in is_digit c || ((97 <=? v) && (v <=? 102)).
Definition is_hex (c : ascii) : bool :=
  let v := byte_val c in is_lower_hex c || ((65 <=? v) && (v <=? 70)).

(** [hex.DecodeString] succeeds exactly on an even number of hex digits. *)
Definition hex_decodable (s : string) : bool :=
  str_all is_hex s && Z.even (str_len s).

(** The test the sources spell out in several places (filebackend.validSHA256,
    coordination.validateGenerationRef): 64 bytes, equal to its lower case, and
    decodable to 32 bytes. *)
Definition sha256_text (s : string) : bool :=
  (str_len s =? 64) && str_eqb s (ToLower s) &&
  (hex_decodable s && (str_len s / 2 =? 32)).

(** [strconv.FormatUint], [strconv.Itoa], the %d verb. *)
Definition FormatInt (z : Z) : string := pretty z.

(** * Sorting: [sort.Slice] with a strict order given as a boolean test *)
Section sort.
  Context {A : Type} (less : A -> A -> bool).

Fixpoint insert_sorted (x : A) (l : list A) : list A :=
  match l with
  | [] => [x]
  | y :: ys => if less y x then y :: insert_sorted x ys else x :: y :: ys
  end.

Fixpoint sort_slice (l : list A) : list A :=
  match l with
  | [] => []
  | x :: xs => insert_sorted x (sort_slice xs)
  end.

(** [~ less b a] for consecutive elements: the order a sort leaves. *)
Definition sorted_slice : list A -> Prop := Sorted (fun a b => less b a = false).

Lemma insert_sorted_perm x l : insert_sorted x l ≡ₚ x :: l.
Proof.
  induction l as [|y ys IH]; simpl; [done|].
  destruct (less y x); [|done]. rewrite IH. apply Permutation_swap.
Qed.

Lemma sort_slice_perm l : sort_slice l ≡ₚ l.
Proof. induction l as [|x xs IH]; simpl; [done|]. by rewrite insert_sorted_perm, IH. Qed.

Lemma insert_sorted_hd x y l :
  HdRel (fun a b => less b a = false) y l -> less x y = false ->
  HdRel (fun a b => less b a = false) y (insert_sorted x l).
Proof.
  intros Hl Hxy. destruct l as [|z zs]; simpl; [by constructor|].
  inversion Hl; subst. destruct (less z x); by constructor.
Qed.

Lemma insert_sorted_sorted x l :
  (forall a b, less a b = true -> less b a = false) ->
  sorted_slice l -> sorted_slice (insert_sorted x l).
Proof.
  intros Hasym Hl. induction Hl as [|y l Hl IH Hhd]; simpl; [by repeat constructor|].
  destruct (less y x) eqn:E.
  - constructor; [done|]. by apply insert_sorted_hd; [|apply Hasym].
  - constructor; [by constructor|]. by constructor.
Qed.

Lemma sort_slice_sorted l :
  (forall a b, less a b = true -> less b a = false) -> sorted_slice (sort_slice l).
Proof.
  intros Hasym. induction l as [|x xs IH]; simpl; [constructor|].
  by apply insert_sorted_sorted.
Qed.

(** A sorted slice stays as it is. *)
Lemma sort_slice_id l : sorted_slice l -> sort_slice l = l.
Proof.
  induction 1 as [|x l Hl IH Hhd]; [done|]. simpl. rewrite IH. destruct Hhd as [|y l Hxy]; [done|].
  simpl. by rewrite Hxy.
Qed.

(** Sorting does not depend on the order of the elements, when those that compare alike
    are equal. *)
Lemma sort_slice_unique l1 l2 :
  (forall a b, less a b = true -> less b a = false) ->
  (forall a b c, less b a = false -> less c b = false -> less c a = false) ->
  (forall a b, a ∈ l1 -> b ∈ l1 -> less a b = false -> less b a = false -> a = b) ->
  l1 ≡ₚ l2 -> sort_slice l1 = sort_slice l2.
Proof.
  intros Hasym Htrans Hanti Hp. apply (StronglySorted_unique_strong (fun a b => less b a = false)).
  - intros a b. rewrite !sort_slice_perm, <-Hp. intros Ha Hb H1 H2. by apply Hanti.
  - apply Sorted_StronglySorted; [exact Htrans|by apply sort_slice_sorted].
  - apply Sorted_StronglySorted; [exact Htrans|by apply sort_slice_sorted].
  - by rewrite !sort_slice_perm.
Qed.
End sort.

(** * String lemmas *)
Lemma str_app_nil_r s : s +:+ "" = s.
Proof. induction s as [|c s IH]; [done|]. change (String c (s +:+ "") = String c s). by f_equal. Qed.

Lemma str_app_cons c s t : String c s +:+ t = String c (s +:+ t).
Proof. done. Qed.

Lemma str_app_assoc a b c : (a +:+ b) +:+ c = a +:+ (b +:+ c).
Proof. induction a as [|x a IH]; [done|]. rewrite !str_app_cons. by f_equal. Qed.

Lemma str_length_app a b : String.length (a +:+ b) = (String.length a + String.length b)%nat.
Proof. induction a as [|x a IH]; [done|]. rewrite str_app_cons. simpl. by rewrite IH. Qed.

Lemma str_all_app p a b : str_all p (a +:+ b) = str_all p a && str_all p b.
Proof.
  induction a as [|x a IH]; [done|]. rewrite str_app_cons. simpl. rewrite IH. by rewrite andb_assoc.
Qed.

Lemma str_all_impl (p q : ascii -> bool) s :
  (forall c, p c = true -> q c = true) -> str_all p s = true -> str_all q s = true.
Proof.
  intros Hpq. induction s as [|c s IH]; simpl; [done|].
  intros [Hc Hs]%andb_true_iff. by rewrite (Hpq c Hc), IH.
Qed.

Lemma str_exists_all p s : str_exists p s = negb (str_all (fun c => negb (p c)) s).
Proof. induction s as [|c s IH]; simpl; [done|]. rewrite IH. by destruct (p c). Qed.

Lemma str_eqb_eq a b : str_eqb a b = true <-> a = b.
Proof. apply bool_decide_eq_true. Qed.

Lemma str_eqb_neq a b : str_eqb a b = false <-> a <> b.
Proof. apply bool_decide_eq_false. Qed.

Lemma str_eqb_refl a : str_eqb a a = true.
Proof. by apply str_eqb_eq. Qed.

Lemma str_take_app a b : str_take (String.length a) (a +:+ b) = a.
Proof. induction a as [|x a IH]; [by destruct b|]. rewrite str_app_cons. simpl. by rewrite IH. Qed.

Lemma str_take_all s : str_take (String.length s) s = s.
Proof. induction s as [|c s IH]; simpl; [done|]. by rewrite IH. Qed.

Lemma HasPrefix_app p s : HasPrefix (p +:+ s) p = true.
Proof. induction p as [|c p IH]; [done|]. rewrite str_app_cons. simpl. by rewrite bool_decide_true. Qed.

Lemma HasPrefix_inv s p : HasPrefix s p = true -> exists t, s = p +:+ t.
Proof.
  revert s. induction p as [|c p IH]; intros s; [by exists s|].
  destruct s as [|d s]; simpl; [done|]. intros [Hcd Hp]%andb_true_iff.
  apply bool_decide_eq_true in Hcd as <-. destruct (IH s Hp) as [t ->]. by exists t.
Qed.

Lemma split_on_no_sep sep s :
  str_all (fun c => negb (bool_decide (c = sep))) s = true -> split_on sep s = (s, []).
Proof.
  induction s as [|c s IH]; simpl; [done|]. intros [Hc Hs]%andb_true_iff.
  rewrite IH by done. destruct (bool_decide (c = sep)) eqn:E; done.
Qed.

Lemma split_on_app sep s t :
  str_all (fun c => negb (bool_decide (c = sep))) s = true ->
  split_on sep (s +:+ String sep t) = (s, Split t sep).
Proof.
  unfold Split. induction s as [|c s IH]; intros Hs.
  - change ("" +:+ String sep t) with (String sep t). simpl.
    destruct (split_on sep t) as [h r]. by rewrite bool_decide_true.
  - rewrite str_app_cons. simpl in Hs |- *. apply andb_true_iff in Hs as [Hc Hs].
    rewrite (IH Hs). destruct (bool_decide (c = sep)) eqn:E; done.
Qed.

Lemma Split_app sep s t :
  str_all (fun c => negb (bool_decide (c = sep))) s = true ->
  Split (s +:+ String sep t) sep = s :: Split t sep.
Proof. intros Hs. unfold Split at 1. by rewrite split_on_app. Qed.

Lemma Split_no_sep sep s :
  str_all (fun c => negb (bool_decide (c = sep))) s = true -> Split s sep = [s].
Proof. intros Hs. unfold Split. by rewrite split_on_no_sep. Qed.

Lemma Split_nonempty sep s : Split s sep <> [].
Proof. unfold Split. by destruct (split_on sep s). Qed.

Lemma Join_cons x y ps sep : Join (x :: y :: ps) sep = x +:+ sep +:+ Join (y :: ps) sep.
Proof. done. Qed.

(** Splitting loses nothing: joining the parts gives the string back. *)
Lemma Join_Split sep s : Join (Split s sep) (String sep "") = s.
Proof.
  unfold Split. induction s as [|c s IH]; [done|]. simpl.
  destruct (split_on sep s) as [h t]. case_bool_decide as E.
  - rewrite Join_cons, IH, E. done.
  - destruct t as [|y t]; [by rewrite <-IH|]. rewrite Join_cons, str_app_cons, <-Join_cons.
    by rewrite IH.
Qed.

(** The last byte of a string, to tell keys apart by their extensions. *)
Fixpoint last_byte (s : string) : option ascii :=
  match s with
  | EmptyString => None
  | String c EmptyString => Some c
  | String _ s' => last_byte s'
  end.

Lemma last_byte_app a c b : last_byte (a +:+ String c b) = last_byte (String c b).
Proof.
  induction a as [|d a IH]; [done|]. rewrite str_app_cons.
  change (last_byte (String d ?x)) with (match x with EmptyString => Some d | _ => last_byte x end).
  rewrite IH. by destruct a.
Qed.

Lemma str_ltb_asym (a b : string) : str_ltb a b = true -> str_ltb b a = false.
Proof.
  unfold str_ltb, String.ltb. rewrite (String.compare_antisym b a).
  by destruct (String.compare a b).
Qed.

Lemma str_ltb_cons a s b t :
  str_ltb (String a s) (String b t) = true <->
  (N_of_ascii a < N_of_ascii b)%N \/ (a = b /\ str_ltb s t = true).
Proof.
  unfold str_ltb, String.ltb. cbn [String.compare]. unfold Ascii.compare.
  destruct (N.compare_spec (N_of_ascii a) (N_of_ascii b)) as [H|H|H].
  - assert (a = b) as -> by (rewrite <-(ascii_N_embedding a), <-(ascii_N_embedding b); by rewrite H).
    split; [by right|]. intros [?|[_ ?]]; [lia|done].
  - split; [by left|done].
  - split; [done|]. intros [?|[-> _]]; lia.
Qed.

Lemma str_ltb_trans a b c : str_ltb a b = true -> str_ltb b c = true -> str_ltb a c = true.
Proof.
  revert b c. induction a as [|x a IH]; intros [|y b] [|z c]; try done. rewrite !str_ltb_cons.
  intros [H1|[-> H1]] [H2|[-> H2]]; [left; lia|by left|by left|right; split; [done|by eapply IH]].
Qed.

Lemma str_ltb_total a b : str_ltb a b = false -> str_ltb b a = false -> a = b.
Proof.
  revert b. induction a as [|x a IH]; intros [|y b]; try done. intros H1 H2.
  assert (~ str_ltb (String x a) (String y b) = true) as H1' by congruence.
  assert (~ str_ltb (String y b) (String x a) = true) as H2' by congruence.
  rewrite str_ltb_cons in H1', H2'.
  assert (x = y) as ->.
  { destruct (decide (x = y)) as [|Hne]; [done|]. exfalso.
    assert (N_of_ascii x <> N_of_ascii y) by (intros Heq; apply Hne; by rewrite <-(ascii_N_embedding x), <-(ascii_N_embedding y), Heq). lia. }
  f_equal. apply IH; [destruct (str_ltb a b) eqn:E|destruct (str_ltb b a) eqn:E]; try done; exfalso; naive_solver.
Qed.

(** * Proof automation *)

(** Splits boolean conjunctions in hypotheses and turns boolean tests into
    propositions. *)
Ltac bool_norm :=
  repeat match goal with
  | H : _ && _ = true |- _ => apply andb_true_iff in H as [? ?]
  | H : _ || _ = false |- _ => apply orb_false_iff in H as [? ?]
  | H : negb _ = true |- _ => apply negb_true_iff in H
  | H : negb _ = false |- _ => apply negb_false_iff in H
  | H : bool_decide _ = true |- _ => apply bool_decide_eq_true in H
  | H : bool_decide _ = false |- _ => apply bool_decide_eq_false in H
  | H : str_eqb _ _ = true |- _ => apply str_eqb_eq in H
  | H : str_eqb _ _ = false |- _ => apply str_eqb_neq in H
  | H : (_ =? _) = true |- _ => apply Z.eqb_eq in H
  | H : (_ =? _) = false |- _ => apply Z.eqb_neq in H
  | H : (_ <=? _) = true |- _ => apply Z.leb_le in H
  | H : (_ <=? _) = false |- _ => apply Z.leb_gt in H
  | H : (_ <? _) = true |- _ => apply Z.ltb_lt in H
  | H : (_ <? _) = false |- _ => apply Z.ltb_ge in H
  end.

(** Case analysis on the tests and matches of a hypothesis [H] that equates a
    piece of fallible code with an outcome, dropping the contradictory cases. *)
Ltac break_result H :=
  repeat (let E := fresh "E" in
    match type of H with
    | context [if ?c then _ else _] => destruct c eqn:E; try discriminate H
    | context [match ?x with _ => _ end] =>
        lazymatch x with
        | context [match _ with _ => _ end] => fail
        | _ => destruct x eqn:E; try discriminate H
        end
    end; simpl in H).


Create HintDb camp.
#[export] Hint Resolve HasPrefix_app str_eqb_refl Split_nonempty : camp.
