(* ===== verification/Sha256.v ===== *)
(** Go's [crypto/sha256] and [encoding/hex], as the sources use them:
    [sha256.Sum256] on a byte string and [hex.EncodeToString] of the sum.
    The compression function is FIPS 180-4, on 32-bit words kept as [Z] with the
    reduction modulo 2^32 written out. *)
From S2P Require Import Prelude.

Definition w32 (z : Z) : Z := Z.land z 4294967295.
Definition add32 (a b : Z) : Z := w32 (a + b).
Definition rotr (n x : Z) : Z :=
  Z.lor (Z.shiftr x n) (w32 (Z.shiftl x (32 - n))).

Definition round_constants : list Z :=
  [1116352408; 1899447441; 3049323471; 3921009573; 961987163; 1508970993; 2453635748; 2870763221;
   3624381080; 310598401; 607225278; 1426881987; 1925078388; 2162078206; 2614888103; 3248222580;
   3835390401; 4022224774; 264347078; 604807628; 770255983; 1249150122; 1555081692; 1996064986;
   2554220882; 2821834349; 2952996808; 3210313671; 3336571891; 3584528711; 113926993; 338241895;
   666307205; 773529912; 1294757372; 1396182291; 1695183700; 1986661051; 2177026350; 2456956037;
   2730485921; 2820302411; 3259730800; 3345764771; 3516065817; 3600352804; 4094571909; 275423344;
   430227734; 506948616; 659060556; 883997877; 958139571; 1322822218; 1537002063; 1747873779;
   1955562222; 2024104815; 2227730452; 2361852424; 2428436474; 2756734187; 3204031479; 3329325298].

Definition initial_state : list Z :=
  [1779033703; 3144134277; 1013904242; 2773480762; 1359893119; 2600822924; 528734635; 1541459225].

(** The message schedule, newest word first. *)
Fixpoint extend_schedule (n : nat) (w : list Z) : list Z :=
  match n with
  | O => w
  | S n' =>
      let at_ i := nth i w 0 in
      let s0 := Z.lxor (Z.lxor (rotr 7 (at_ 14%nat)) (rotr 18 (at_ 14%nat))) (Z.shiftr (at_ 14%nat) 3) in
      let s1 := Z.lxor (Z.lxor (rotr 17 (at_ 1%nat)) (rotr 19 (at_ 1%nat))) (Z.shiftr (at_ 1%nat) 10) in
      extend_schedule n' (w32 (at_ 15%nat + s0 + at_ 6%nat + s1) :: w)
  end.

Definition round (st : list Z) (kw : Z * Z) : list Z :=
  match st with
  | [a; b; c; d; e; f; g; h] =>
      let S1 := Z.lxor (Z.lxor (rotr 6 e) (rotr 11 e)) (rotr 25 e) in
      let ch := Z.lxor (Z.land e f) (Z.land (Z.lxor e 4294967295) g) in
      let t1 := w32 (h + S1 + ch + fst kw + snd kw) in
      let S0 := Z.lxor (Z.lxor (rotr 2 a) (rotr 13 a)) (rotr 22 a) in
      let maj := Z.lxor (Z.lxor (Z.land a b) (Z.land a c)) (Z.land b c) in
      let t2 := add32 S0 maj in
      [add32 t1 t2; a; b; c; add32 d t1; e; f; g]
  | _ => st
  end.

Definition compress (st block : list Z) : list Z :=
  let w := reverse (extend_schedule 48 (reverse block)) in
  zip_with add32 st (foldl round st (zip round_constants w)).

(** Padding: 0x80, zeros, and the bit length on eight bytes. *)
Fixpoint be_bytes (n : nat) (z : Z) : list Z :=
  match n with
  | O => []
  | S n' => be_bytes n' (Z.shiftr z 8) ++ [Z.land z 255]
  end.

Definition pad (msg : list Z) : list Z :=
  let len := Z.of_nat (length msg) in
  let zeros := Z.to_nat ((55 - len) mod 64) in
  msg ++ 128 :: replicate zeros 0 ++ be_bytes 8 (8 * len).

Fixpoint words32 (l : list Z) : list Z :=
  match l with
  | a :: b :: c :: d :: l' =>
      (Z.shiftl a 24 + Z.shiftl b 16 + Z.shiftl c 8 + d) :: words32 l'
  | _ => []
  end.

Fixpoint blocks (fuel : nat) (ws : list Z) : list (list Z) :=
  match fuel, ws with
  | S fuel', _ :: _ => take 16 ws :: blocks fuel' (drop 16 ws)
  | _, _ => []
  end.

Fixpoint string_bytes (s : string) : list Z :=
  match s with
  | EmptyString => []
  | String c s' => byte_val c :: string_bytes s'
  end.

Definition sum256_words (body : string) : list Z :=
  let ws := words32 (pad (string_bytes body)) in
  foldl compress initial_state (blocks (length ws) ws).

(** [hex.EncodeToString]: two lower-case digits per byte. *)
Definition hex_digit (z : Z) : ascii := byte_of (if z <? 10 then z + 48 else z + 87).
Fixpoint hex_of_bytes (l : list Z) : string :=
  match l with
  | [] => EmptyString
  | b :: l' => String (hex_digit (b / 16)) (String (hex_digit (b mod 16)) (hex_of_bytes l'))
  end.
Definition hex_encode (s : string) : string := hex_of_bytes (string_bytes s).

(** sha256Hex of the sources: the hex text of the sum of a byte string. *)
Definition sha256Hex (body : string) : string :=
  hex_of_bytes (concat (map (be_bytes 4) (sum256_words body))).

Example sha256_empty :
  sha256Hex "" = "e3b0c44298fc1c149afbf4c8996fb92427ae41e4649b934ca495991b7852b855".
Proof. vm_compute. reflexivity. Qed.

Example sha256_abc :
  sha256Hex "abc" = "ba7816bf8f01cfea414140de5dae2223b00361a396177a9cb410ff61f20015ad".
Proof. vm_compute. reflexivity. Qed.

Example sha256_two_blocks :
  sha256Hex "abcdbcdecdefdefgefghfghighijhijkijkljklmklmnlmnomnopnopq" =
  "248d6a61d20638b8e5c026930c3e6039a33ce45964ff2167f6ecedd419db06c1".
Proof. vm_compute. reflexivity. Qed.

(** * The digest text is always 64 lower-case hex digits *)
Lemma round_length st kw : length st = 8%nat -> length (round st kw) = 8%nat.
Proof.
  intros H. do 8 (destruct st as [|? st]; [done|]). destruct st; [done|]. simpl in H. lia.
Qed.

Lemma rounds_length kws st : length st = 8%nat -> length (foldl round st kws) = 8%nat.
Proof. revert st. induction kws as [|kw kws IH]; intros st H; simpl; [done|]. by apply IH, round_length. Qed.

Lemma compress_length st b : length st = 8%nat -> length (compress st b) = 8%nat.
Proof. intros H. unfold compress. rewrite length_zip_with, rounds_length; lia. Qed.

Lemma sum256_words_length body : length (sum256_words body) = 8%nat.
Proof.
  unfold sum256_words. generalize (blocks (length (words32 (pad (string_bytes body)))) (words32 (pad (string_bytes body)))).
  assert (length initial_state = 8%nat) as H0 by done. revert H0. generalize initial_state.
  intros st Hst bs. revert st Hst. induction bs as [|b bs IH]; intros st Hst; simpl; [done|].
  by apply IH, compress_length.
Qed.

Lemma be_bytes_length n z : length (be_bytes n z) = n.
Proof. revert z. induction n as [|n IH]; intros z; simpl; [done|]. rewrite length_app, IH. simpl. lia. Qed.

Lemma be_bytes_range n z : Forall (fun b => 0 <= b < 256) (be_bytes n z).
Proof.
  revert z. induction n as [|n IH]; intros z; simpl; [constructor|].
  apply Forall_app. split; [apply IH|]. constructor; [|constructor].
  change 255 with (Z.ones 8). rewrite Z.land_ones by lia. apply Z.mod_pos_bound. lia.
Qed.

Lemma byte_val_of z : 0 <= z < 256 -> byte_val (byte_of z) = z.
Proof. intros H. unfold byte_val, byte_of. rewrite N_ascii_embedding; lia. Qed.

Lemma hex_digit_lower z : 0 <= z < 16 -> is_lower_hex (hex_digit z) = true.
Proof.
  intros H. unfold hex_digit, is_lower_hex, is_digit.
  destruct (z <? 10) eqn:E; bool_norm; rewrite byte_val_of by lia; lia.
Qed.

Lemma hex_of_bytes_lower l :
  Forall (fun b => 0 <= b < 256) l ->
  str_all is_lower_hex (hex_of_bytes l) = true /\ str_len (hex_of_bytes l) = 2 * Z.of_nat (length l).
Proof.
  intros H. induction H as [|b l Hb Hl [IH1 IH2]]; [done|].
  cbn [hex_of_bytes str_all]. rewrite IH1, !hex_digit_lower.
  - split; [done|]. unfold str_len in *. cbn [String.length length]. lia.
  - apply Z.mod_pos_bound. lia.
  - split; [apply Z.div_pos; lia|]. apply Z.div_lt_upper_bound; lia.
Qed.

Lemma lower_hex_ToLower s : str_all is_lower_hex s = true -> ToLower s = s.
Proof.
  induction s as [|c s IH]; simpl; [done|]. intros [Hc Hs]%andb_true_iff. rewrite (IH Hs). f_equal.
  unfold lower_byte. unfold is_lower_hex, is_digit in Hc.
  destruct ((65 <=? byte_val c) && (byte_val c <=? 90)) eqn:E; [|done]. lia.
Qed.

Lemma lower_hex_hex c : is_lower_hex c = true -> is_hex c = true.
Proof. unfold is_hex. by intros ->. Qed.

Lemma sha256_text_intro s :
  str_all is_lower_hex s = true -> str_len s = 64 -> sha256_text s = true.
Proof.
  intros Hs Hl. unfold sha256_text, hex_decodable. rewrite (lower_hex_ToLower s Hs), str_eqb_refl, Hl.
  by rewrite (str_all_impl _ _ _ lower_hex_hex Hs).
Qed.

Lemma sha256Hex_digits body :
  str_all is_lower_hex (sha256Hex body) = true /\ str_len (sha256Hex body) = 64.
Proof.
  assert (Forall (fun b => 0 <= b < 256) (concat (map (be_bytes 4) (sum256_words body))) /\
          length (concat (map (be_bytes 4) (sum256_words body))) = (4 * length (sum256_words body))%nat) as [H1 H2].
  { induction (sum256_words body) as [|w ws [IH1 IH2]]; [done|]. cbn [map concat]. split.
    - apply Forall_app. split; [apply be_bytes_range|done].
    - rewrite length_app, be_bytes_length, IH2. simpl. lia. }
  apply hex_of_bytes_lower in H1 as [H1 Hl]. rewrite H2, sum256_words_length in Hl. done.
Qed.

Lemma sha256Hex_text body : sha256_text (sha256Hex body) = true.
Proof. destruct (sha256Hex_digits body). by apply sha256_text_intro. Qed.
#[export] Hint Resolve sha256Hex_text : camp.
