(* ===== verification/GoTime.v ===== *)
(** Go's [time.Time] and [time.Duration] as the sources use them: instants with a
    zone offset, comparison, saturating addition, and the strict RFC 3339 text of
    [time.Time.MarshalJSON] and [UnmarshalJSON].

    A time carries the nanoseconds since 0001-01-01T00:00:00Z (Go's zero time) and
    its zone offset in minutes.  Monotonic clock readings are not kept: the
    sources call [UTC()], which strips them, before a time is stored. *)
From S2P Require Import Prelude Sha256.

Record Time := mkTime { t_ns : Z; t_zone : Z }.

#[export] Instance Time_eq_dec : EqDecision Time.
Proof. solve_decision. Defined.

Definition zero_time : Time := mkTime 0 0.
Definition utc (ns : Z) : Time := mkTime ns 0.

Definition IsZero (t : Time) : bool := t_ns t =? 0.
Definition After (t u : Time) : bool := t_ns u <? t_ns t.
Definition Before (t u : Time) : bool := t_ns t <? t_ns u.
Definition EqualTime (t u : Time) : bool := t_ns t =? t_ns u.

Definition max_seconds : Z := 2 ^ 63 - 1.
Definition second_ns : Z := 1000000000.

(** [Time.Add]: the seconds are an int64 that saturates, the nanoseconds within the
    second are kept apart. *)
Definition AddTime (t : Time) (d : Z) : Time :=
  let sum := t_ns t + d in
  let sec := sum / second_ns in
  let sec' := if max_seconds <? sec then max_seconds
              else if sec <? - 2 ^ 63 then - max_seconds else sec in
  mkTime (sec' * second_ns + sum mod second_ns) (t_zone t).

Lemma AddTime_exact t d :
  - 2 ^ 63 * second_ns <= t_ns t + d < 2 ^ 63 * second_ns -> t_ns (AddTime t d) = t_ns t + d.
Proof.
  intros H. unfold AddTime, max_seconds, second_ns in *. cbn [t_ns].
  set (s := t_ns t + d) in *. pose proof (Z.div_mod s 1000000000 ltac:(lia)).
  pose proof (Z.mod_pos_bound s 1000000000 ltac:(lia)).
  destruct (_ <? _) eqn:E1; [bool_norm; lia|]. destruct (_ <? - _) eqn:E2; bool_norm; lia.
Qed.

(** * The proleptic Gregorian calendar *)

(** Days are counted from 0001-01-01; the era arithmetic counts from 0000-03-01, so
    that the leap day is the last day of its year.  [civil_from_doe] splits a day of
    a 400-year era into century, four-year cycle, year and day of the year. *)
Definition civil_from_doe (doe : Z) : Z * Z * Z :=
  let c := Z.min 3 (doe / 36524) in
  let doc := doe - c * 36524 in
  let q := doc / 1461 in
  let doq := doc - q * 1461 in
  let yq := Z.min 3 (doq / 365) in
  let doy := doq - yq * 365 in
  let mp := (5 * doy + 2) / 153 in
  let d := doy - (153 * mp + 2) / 5 + 1 in
  let m := if mp <? 10 then mp + 3 else mp - 9 in
  (100 * c + 4 * q + yq + (if m <=? 2 then 1 else 0), m, d).

Definition civil_from_days (days : Z) : Z * Z * Z :=
  let z := days + 306 in
  let '(y, m, d) := civil_from_doe (z mod 146097) in
  (y + 400 * (z / 146097), m, d).

Definition days_from_civil (y m d : Z) : Z :=
  let y' := if m <=? 2 then y - 1 else y in
  let era := y' / 400 in
  let yoe := y' mod 400 in
  let doy := (153 * (if 2 <? m then m - 3 else m + 9) + 2) / 5 + d - 1 in
  era * 146097 + (yoe * 365 + yoe / 4 - yoe / 100 + doy) - 306.

Definition is_leap (y : Z) : bool :=
  (y mod 4 =? 0) && (negb (y mod 100 =? 0) || (y mod 400 =? 0)).
Definition days_in_month (y m : Z) : Z :=
  if m =? 2 then (if is_leap y then 29 else 28)
  else if (m =? 4) || (m =? 6) || (m =? 9) || (m =? 11) then 30 else 31.

(** The month part, for the 366 days of a year that starts in March. *)
Definition month_check (doy : Z) : bool :=
  let mp := (5 * doy + 2) / 153 in
  let d := doy - (153 * mp + 2) / 5 + 1 in
  let m := if mp <? 10 then mp + 3 else mp - 9 in
  ((153 * (if 2 <? m then m - 3 else m + 9) + 2) / 5 + d - 1 =? doy) &&
  (1 <=? m) && (m <=? 12) && (1 <=? d) && (d <=? days_in_month (if doy =? 365 then 4 else 1) m).

Lemma month_check_all doy : 0 <= doy < 366 -> month_check doy = true.
Proof.
  intros H. assert (forallb month_check (seqZ 0 366) = true) as Hall by (vm_compute; reflexivity).
  rewrite forallb_forall in Hall. apply Hall, list_elem_of_In, elem_of_seqZ. lia.
Qed.

Lemma days_in_month_le y y' m :
  (is_leap y = true -> is_leap y' = true) -> days_in_month y m <= days_in_month y' m.
Proof. unfold days_in_month. destruct (is_leap y), (is_leap y'), (m =? 2); naive_solver lia. Qed.

(** The year part: with [yoe] and [doy] as computed, the day of the era comes back,
    and the 366th day only occurs before a leap year's March. *)
Lemma year_split doe :
  0 <= doe < 146097 ->
  let c := Z.min 3 (doe / 36524) in
  let q := (doe - c * 36524) / 1461 in
  let doq := doe - c * 36524 - q * 1461 in
  let yq := Z.min 3 (doq / 365) in
  let yoe := 100 * c + 4 * q + yq in
  let doy := doq - yq * 365 in
  yoe / 4 = 25 * c + q /\ yoe / 100 = c /\ 0 <= yoe < 400 /\ 0 <= doy < 366 /\
  yoe * 365 + yoe / 4 - yoe / 100 + doy = doe /\
  (doy = 365 -> yq = 3 /\ (q < 24 \/ c = 3)) /\ 0 <= c <= 3 /\ 0 <= q <= 24.
Proof.
  intros H c q doq yq yoe doy.
  assert (0 <= c <= 3 /\ 0 <= doe - c * 36524 /\ doe - c * 36524 <= 36524 /\
          (c < 3 -> doe - c * 36524 < 36524)) as (Hc & Hd1 & Hd2 & Hd3).
  { unfold c. pose proof (Z.div_mod doe 36524 ltac:(lia)). pose proof (Z.mod_pos_bound doe 36524 ltac:(lia)). lia. }
  assert (0 <= q <= 24 /\ 0 <= doq < 1461 /\ (q = 24 -> c < 3 -> doq < 1460)) as (Hq & Hdoq & Hlast).
  { unfold doq, q. set (x := doe - c * 36524) in *. pose proof (Z.div_mod x 1461 ltac:(lia)).
    pose proof (Z.mod_pos_bound x 1461 ltac:(lia)). lia. }
  assert (0 <= yq <= 3 /\ 0 <= doy < 366 /\ (doy = 365 -> yq = 3 /\ doq = 1460)) as (Hyq & Hdoy & Hfull).
  { unfold doy, yq. pose proof (Z.div_mod doq 365 ltac:(lia)). pose proof (Z.mod_pos_bound doq 365 ltac:(lia)). lia. }
  assert (yoe / 4 = 25 * c + q) as H4.
  { unfold yoe. symmetry. apply (Z.div_unique _ _ _ yq); lia. }
  assert (yoe / 100 = c) as H100.
  { unfold yoe. symmetry. apply (Z.div_unique _ _ _ (4 * q + yq)); lia. }
  repeat split; try lia; unfold yoe, doy, doq in *; lia.
Qed.

Lemma leap_after c q :
  0 <= c <= 3 -> 0 <= q <= 24 -> (q < 24 \/ c = 3) -> is_leap (100 * c + 4 * q + 3 + 1) = true.
Proof.
  intros Hc Hq Hqc. unfold is_leap.
  replace ((100 * c + 4 * q + 3 + 1) mod 4) with 0 by (symmetry; rewrite <-(Z_mod_mult (25 * c + q + 1) 4); f_equal; lia).
  simpl. destruct (decide (q = 24)) as [->|].
  - replace c with 3 by lia. done.
  - replace ((100 * c + 4 * q + 3 + 1) mod 100) with (4 * q + 4); [|apply (Z.mod_unique _ _ c); lia].
    replace (4 * q + 4 =? 0) with false by lia. done.
Qed.

Lemma is_leap_shift y k : is_leap (y + 400 * k) = is_leap y.
Proof.
  unfold is_leap.
  replace (y + 400 * k) with (y + (100 * k) * 4) at 1 by lia. rewrite Z_mod_plus_full.
  replace (y + 400 * k) with (y + (4 * k) * 100) at 1 by lia. rewrite Z_mod_plus_full.
  replace (y + 400 * k) with (y + k * 400) by lia. by rewrite Z_mod_plus_full.
Qed.

Lemma days_from_civil_shift y m d k :
  days_from_civil (y + 400 * k) m d = days_from_civil y m d + 146097 * k.
Proof.
  unfold days_from_civil.
  replace (if m <=? 2 then y + 400 * k - 1 else y + 400 * k)
    with ((if m <=? 2 then y - 1 else y) + k * 400) by (destruct (m <=? 2); lia).
  rewrite Z_div_plus_full, Z_mod_plus_full by lia. lia.
Qed.

Lemma civil_doe_ok doe :
  0 <= doe < 146097 ->
  let '(y, m, d) := civil_from_doe doe in
  days_from_civil y m d = doe - 306 /\ 1 <= m <= 12 /\ 1 <= d <= days_in_month y m.
Proof.
  intros H. pose proof (year_split doe H) as Hy. unfold civil_from_doe. cbv zeta in Hy |- *.
  set (c := Z.min 3 (doe / 36524)) in *. set (q := (doe - c * 36524) / 1461) in *.
  set (doq := doe - c * 36524 - q * 1461) in *. set (yq := Z.min 3 (doq / 365)) in *.
  set (doy := doq - yq * 365) in *. destruct Hy as (H4 & H100 & Hyoe & Hdoy & Hsum & Hfull & Hc & Hq).
  pose proof (month_check_all doy Hdoy) as Hm. unfold month_check in Hm.
  set (mp := (5 * doy + 2) / 153) in *. set (d := doy - (153 * mp + 2) / 5 + 1) in *.
  set (m := if mp <? 10 then mp + 3 else mp - 9) in *. bool_norm.
  split; [|split; [lia|split; [lia|]]].
  - unfold days_from_civil. replace (if m <=? 2 then _ else _) with (100 * c + 4 * q + yq) by (destruct (m <=? 2); lia).
    rewrite (Z.div_small _ 400), (Z.mod_small _ 400) by lia. lia.
  - etransitivity; [eassumption|]. apply days_in_month_le. destruct (doy =? 365) eqn:E; [|done]. intros _. bool_norm.
    destruct (Hfull E) as [-> Hqc]. rewrite E in *.
    assert ((m <=? 2) = true) as -> by (unfold m, mp; rewrite E; done). by apply leap_after.
Qed.

(** The calendar date of a day, and back: no date is lost and every date printed
    is a valid one. *)
Lemma civil_days_ok days :
  let '(y, m, d) := civil_from_days days in
  days_from_civil y m d = days /\ 1 <= m <= 12 /\ 1 <= d <= days_in_month y m.
Proof.
  unfold civil_from_days. pose proof (Z.mod_pos_bound (days + 306) 146097 ltac:(lia)) as Hd.
  apply civil_doe_ok in Hd.
  destruct (civil_from_doe ((days + 306) mod 146097)) as [[y m] d].
  rewrite days_from_civil_shift. unfold days_in_month in *. rewrite is_leap_shift.
  pose proof (Z.div_mod (days + 306) 146097 ltac:(lia)). repeat split; lia.
Qed.

(** * RFC 3339 text *)
Definition dec_digit (z : Z) : ascii := byte_of (z + 48).

(** Fixed-width decimal. *)
Fixpoint fixed (k : nat) (n : Z) : string :=
  match k with
  | O => EmptyString
  | S k' => String (dec_digit (n / 10 ^ Z.of_nat k')) (fixed k' (n mod 10 ^ Z.of_nat k'))
  end.

(** A fraction of [k] digits with its trailing zeros dropped. *)
Fixpoint fraction (k : nat) (n : Z) : string :=
  match k with
  | O => EmptyString
  | S k' =>
      if n =? 0 then EmptyString
      else String (dec_digit (n / 10 ^ Z.of_nat k')) (fraction k' (n mod 10 ^ Z.of_nat k'))
  end.

Definition zone_text (zone : Z) : string :=
  if zone =? 0 then "Z"
  else (if zone <? 0 then "-" else "+") +:+ fixed 2 (Z.abs zone / 60) +:+ ":" +:+ fixed 2 (Z.abs zone mod 60).

(** [Time.appendStrictRFC3339]: fails outside years 0..9999 and for zone offsets of a
    day or more. *)
Definition format_rfc3339 (t : Time) : option string :=
  let local := t_ns t + t_zone t * 60 * second_ns in
  let secs := local / second_ns in
  let ns := local mod second_ns in
  let days := secs / 86400 in
  let sod := secs mod 86400 in
  let '(y, m, d) := civil_from_days days in
  if (0 <=? y) && (y <=? 9999) && (Z.abs (t_zone t) <? 1440) then
    Some (fixed 4 y +:+ "-" +:+ fixed 2 m +:+ "-" +:+ fixed 2 d +:+ "T" +:+
          fixed 2 (sod / 3600) +:+ ":" +:+ fixed 2 (sod / 60 mod 60) +:+ ":" +:+ fixed 2 (sod mod 60) +:+
          (if ns =? 0 then "" else "." +:+ fraction 9 ns) +:+ zone_text (t_zone t))
  else None.

(** Readers: each consumes a piece of the text. *)
Definition digit_val (c : ascii) : option Z := if is_digit c then Some (byte_val c - 48) else None.

Fixpoint read_fixed (k : nat) (acc : Z) (s : string) : option (Z * string) :=
  match k, s with
  | O, _ => Some (acc, s)
  | S k', String c s' =>
      match digit_val c with Some v => read_fixed k' (acc * 10 + v) s' | None => None end
  | S _, EmptyString => None
  end.

Definition read_char (c : ascii) (s : string) : option string :=
  match s with
  | String d s' => if bool_decide (c = d) then Some s' else None
  | EmptyString => None
  end.

(** The digits of a fraction: at least one; digits after the ninth are dropped. *)
Fixpoint read_fraction (k : nat) (s : string) : Z * string :=
  match s with
  | String c s' =>
      match digit_val c with
      | Some v =>
          match k with
          | O => read_fraction O s'
          | S k' => let '(r, rest) := read_fraction k' s' in (v * 10 ^ Z.of_nat k' + r, rest)
          end
      | None => (0, s)
      end
  | EmptyString => (0, s)
  end.

(** An optional fraction: a dot followed by a digit. *)
Definition read_opt_fraction (s : string) : Z * string :=
  match s with
  | String "." (String c r) => if is_digit c then read_fraction 9 (String c r) else (0, s)
  | _ => (0, s)
  end.

Definition read_zone (s : string) : option Z :=
  match s with
  | String "Z" "" => Some 0
  | String c s' =>
      let sign := if bool_decide (c = "+"%char) then Some 1
                  else if bool_decide (c = "-"%char) then Some (-1) else None in
      match sign, read_fixed 2 0 s' with
      | Some sg, Some (h, s1) =>
          match read_char ":" s1 with
          | Some s2 =>
              match read_fixed 2 0 s2 with
              | Some (mi, "") => if (h <=? 23) && (mi <=? 59) then Some (sg * (h * 60 + mi)) else None
              | _ => None
              end
          | None => None
          end
      | _, _ => None
      end
  | EmptyString => None
  end.

(** [Time.UnmarshalJSON]'s parseStrictRFC3339. *)
Definition parse_rfc3339 (s : string) : option Time :=
  y ← read_fixed 4 0 s; s ← read_char "-" y.2; mo ← read_fixed 2 0 s; s ← read_char "-" mo.2;
  d ← read_fixed 2 0 s; s ← read_char "T" d.2; h ← read_fixed 2 0 s; s ← read_char ":" h.2;
  mi ← read_fixed 2 0 s; s ← read_char ":" mi.2; sec ← read_fixed 2 0 s;
  let '(ns, s) := read_opt_fraction sec.2 in
  zone ← read_zone s;
  if (1 <=? mo.1) && (mo.1 <=? 12) && (1 <=? d.1) && (d.1 <=? days_in_month y.1 mo.1) &&
     (h.1 <=? 23) && (mi.1 <=? 59) && (sec.1 <=? 59)
  then Some (mkTime ((days_from_civil y.1 mo.1 d.1 * 86400 + h.1 * 3600 + mi.1 * 60 + sec.1 - zone * 60)
                     * second_ns + ns) zone)
  else None.

Example format_example :
  format_rfc3339 (utc (63850118400 * second_ns + 120000000)) = Some "2024-05-01T00:00:00.12Z".
Proof. vm_compute. reflexivity. Qed.

Example parse_example :
  parse_rfc3339 "2024-05-01T02:30:00.12+02:30" = Some (mkTime (63850118400 * second_ns + 120000000) 150).
Proof. vm_compute. reflexivity. Qed.

(** * The text reads back *)
Lemma digit_val_dec z : 0 <= z < 10 -> digit_val (dec_digit z) = Some z.
Proof.
  intros H. unfold digit_val, dec_digit, is_digit. rewrite byte_val_of by lia.
  replace ((48 <=? z + 48) && (z + 48 <=? 57)) with true by lia. f_equal. lia.
Qed.

Lemma digit_bounds n k : 0 <= n < 10 ^ (k + 1) -> 0 <= k -> 0 <= n / 10 ^ k < 10 /\ 0 <= n mod 10 ^ k < 10 ^ k.
Proof.
  intros H Hk. assert (0 < 10 ^ k) by (apply Z.pow_pos_nonneg; lia).
  rewrite Z.pow_add_r in H by lia. split.
  - split; [apply Z.div_pos; lia|]. apply Z.div_lt_upper_bound; lia.
  - apply Z.mod_pos_bound. lia.
Qed.

Lemma read_fixed_app k acc n rest :
  0 <= n < 10 ^ Z.of_nat k ->
  read_fixed k acc (fixed k n +:+ rest) = Some (acc * 10 ^ Z.of_nat k + n, rest).
Proof.
  revert acc n. induction k as [|k IH]; intros acc n H.
  - simpl in *. f_equal. f_equal; lia.
  - cbn [fixed]. rewrite str_app_cons. cbn [read_fixed].
    replace (Z.of_nat (S k)) with (Z.of_nat k + 1) in H by lia.
    destruct (digit_bounds n (Z.of_nat k) H ltac:(lia)) as [H1 H2].
    rewrite digit_val_dec by done. rewrite (IH _ _ H2). do 2 f_equal.
    replace (Z.of_nat (S k)) with (Z.of_nat k + 1) by lia. rewrite Z.pow_add_r by lia.
    pose proof (Z.div_mod n (10 ^ Z.of_nat k) ltac:(apply Z.pow_nonzero; lia)). lia.
Qed.

(** The text goes on with something that is not a digit. *)
Definition stops_digits (s : string) : bool :=
  match s with String c _ => negb (is_digit c) | EmptyString => true end.

Lemma read_fraction_stop k s : stops_digits s = true -> read_fraction k s = (0, s).
Proof.
  destruct s as [|c s]; destruct k; simpl; try done; unfold digit_val;
    intros H; by rewrite (proj1 (negb_true_iff _) H).
Qed.

Lemma read_fraction_app k n rest :
  0 <= n < 10 ^ Z.of_nat k -> stops_digits rest = true ->
  read_fraction k (fraction k n +:+ rest) = (n, rest).
Proof.
  revert n. induction k as [|k IH]; intros n H Hr.
  - simpl in H. replace n with 0 by lia. by apply read_fraction_stop.
  - cbn [fraction]. destruct (n =? 0) eqn:E; bool_norm.
    + subst. by apply read_fraction_stop.
    + rewrite str_app_cons. cbn [read_fraction].
      replace (Z.of_nat (S k)) with (Z.of_nat k + 1) in H by lia.
      destruct (digit_bounds n (Z.of_nat k) H ltac:(lia)) as [H1 H2].
      rewrite digit_val_dec by done. rewrite (IH _ H2 Hr). f_equal.
      pose proof (Z.div_mod n (10 ^ Z.of_nat k) ltac:(apply Z.pow_nonzero; lia)). lia.
Qed.

Lemma read_zone_text zone : Z.abs zone < 1440 -> read_zone (zone_text zone) = Some zone.
Proof.
  intros H. unfold zone_text. destruct (zone =? 0) eqn:E0; bool_norm; [by subst|].
  assert (0 <= Z.abs zone / 60 < 24 /\ 0 <= Z.abs zone mod 60 < 60) as [Hh Hm].
  { split; [split; [apply Z.div_pos; lia|apply Z.div_lt_upper_bound; lia]|apply Z.mod_pos_bound; lia]. }
  assert (forall c sg, (if bool_decide (c = "+"%char) then Some 1
                  else if bool_decide (c = "-"%char) then Some (-1) else None) = Some sg ->
     read_zone (String c (fixed 2 (Z.abs zone / 60) +:+ ":" +:+ fixed 2 (Z.abs zone mod 60)))
     = Some (sg * Z.abs zone)) as Hread.
  { intros c sg Hsg. remember (fixed 2 (Z.abs zone / 60) +:+ ":" +:+ fixed 2 (Z.abs zone mod 60)) as txt eqn:Ht.
    assert (read_zone (String c txt) =
      match read_fixed 2 0 txt with
      | Some (h, s1) =>
          match read_char ":" s1 with
          | Some s2 =>
              match read_fixed 2 0 s2 with
              | Some (mi, "") => if (h <=? 23) && (mi <=? 59) then Some (sg * (h * 60 + mi)) else None
              | _ => None
              end
          | None => None
          end
      | None => None
      end) as ->.
    { unfold read_zone. rewrite Hsg. destruct (decide (c = "Z"%char)) as [->|Hc]; [done|].
      destruct c as [[] [] [] [] [] [] [] []]; try done; by destruct Hc. }
    rewrite Ht, read_fixed_app by (simpl; lia). change (":" +:+ ?x) with (String ":" x). cbn [read_char].
    rewrite bool_decide_true by done. rewrite <-(str_app_nil_r (fixed 2 (_ mod _))), read_fixed_app by (simpl; lia).
    replace (_ && _) with true by lia. do 2 f_equal. pose proof (Z.div_mod (Z.abs zone) 60 ltac:(lia)). lia. }
  destruct (zone <? 0) eqn:E1; bool_norm.
  - change ("-" +:+ ?x) with (String "-" x). rewrite (Hread _ (-1)) by done. f_equal. lia.
  - change ("+" +:+ ?x) with (String "+" x). rewrite (Hread _ 1) by done. f_equal. lia.
Qed.

Lemma zone_text_stops zone : stops_digits (zone_text zone) = true.
Proof. unfold zone_text. destruct (zone =? 0); [done|]. by destruct (zone <? 0). Qed.

Lemma zone_text_head zone r : zone_text zone <> String "." r.
Proof. unfold zone_text. destruct (zone =? 0); [done|]. by destruct (zone <? 0). Qed.

(** Seconds, split into the printed fields and put together again. *)
Lemma second_fields sod :
  0 <= sod < 86400 ->
  0 <= sod / 3600 <= 23 /\ 0 <= sod / 60 mod 60 <= 59 /\ 0 <= sod mod 60 <= 59 /\
  sod / 3600 * 3600 + sod / 60 mod 60 * 60 + sod mod 60 = sod.
Proof.
  intros H. pose proof (Z.div_mod sod 3600 ltac:(lia)). pose proof (Z.mod_pos_bound sod 3600 ltac:(lia)).
  pose proof (Z.div_mod sod 60 ltac:(lia)). pose proof (Z.mod_pos_bound sod 60 ltac:(lia)).
  pose proof (Z.div_mod (sod / 60) 60 ltac:(lia)). pose proof (Z.mod_pos_bound (sod / 60) 60 ltac:(lia)).
  rewrite Z.div_div in * by lia. change (60 * 60) with 3600 in *. lia.
Qed.

(** Reading a time's tail: the fraction, if printed, and the zone. *)
Lemma read_tail ns zone :
  0 <= ns < second_ns ->
  read_opt_fraction ((if ns =? 0 then "" else "." +:+ fraction 9 ns) +:+ zone_text zone)
  = (ns, zone_text zone).
Proof.
  intros H. unfold read_opt_fraction. destruct (ns =? 0) eqn:E; bool_norm; subst.
  - change ("" +:+ ?x) with x. pose proof (zone_text_head zone) as Hz.
    destruct (zone_text zone) as [|c r]; [done|].
    destruct (decide (c = "."%char)) as [->|Hc]; [by destruct (Hz r)|].
    destruct c as [[] [] [] [] [] [] [] []]; try done; by destruct Hc.
  - change ("." +:+ ?x) with (String "." x). rewrite str_app_cons.
    pose proof (read_fraction_app 9 ns (zone_text zone) H (zone_text_stops zone)) as Hr.
    cbn [fraction] in *. rewrite (proj2 (Z.eqb_neq _ _) E) in *. rewrite str_app_cons in *.
    assert (0 <= ns < 10 ^ (8 + 1)) as H9 by (unfold second_ns in H; lia).
    destruct (digit_bounds ns 8 H9 ltac:(lia)) as [H1 H2].
    assert (is_digit (dec_digit (ns / 10 ^ Z.of_nat 8)) = true) as ->; [|done].
    pose proof (digit_val_dec _ H1) as Hd. unfold digit_val in Hd. by destruct (is_digit _).
Qed.

Lemma read_char_app c s : read_char c (String c "" +:+ s) = Some s.
Proof. rewrite str_app_cons. simpl. by rewrite bool_decide_true. Qed.

Lemma parse_format t s : format_rfc3339 t = Some s -> parse_rfc3339 s = Some t.
Proof.
  unfold format_rfc3339. set (local := t_ns t + t_zone t * 60 * second_ns).
  pose proof (civil_days_ok (local / second_ns / 86400)) as Hc.
  destruct (civil_from_days _) as [[y m] d]. destruct Hc as (Hdays & Hm & Hd).
  destruct (_ && _ && _) eqn:E; [|done]. intros <-%Some_inj. bool_norm.
  assert (0 <= local mod second_ns < second_ns) as Hns by (apply Z.mod_pos_bound; done).
  pose proof (read_tail (local mod second_ns) (t_zone t) Hns) as Htail.
  assert (d <= 31) by (unfold days_in_month in Hd; repeat case_match; lia).
  pose proof (second_fields (local / second_ns mod 86400) (Z.mod_pos_bound (local / second_ns) 86400 ltac:(lia))) as (Hh & Hmi & Hs & Hsod).
  set (sod := local / second_ns mod 86400) in *.
  unfold parse_rfc3339.
  repeat (rewrite read_fixed_app by (simpl; lia); cbn [mbind option_bind fst snd];
          rewrite ?read_char_app; cbn [mbind option_bind]).
  rewrite Htail. cbn [fst snd]. rewrite (read_zone_text (t_zone t)) by lia. cbn [mbind option_bind].
  rewrite !Z.mul_0_l, !Z.add_0_l. replace (_ && _) with true by lia.
  f_equal. destruct t as [tn tz]. cbn [t_ns t_zone] in *. f_equal. rewrite Hdays.
  pose proof (Z.div_mod local second_ns ltac:(done)). pose proof (Z.div_mod (local / second_ns) 86400 ltac:(done)).
  fold sod in H4. unfold local in *. lia.
Qed.
