(* ===== verification/Json.v ===== *)
(** Go's [encoding/json] at the level of texts: JSON values, the text of a value
    ([json.Marshal], with its HTML-safe string escapes), the reader of a text, and
    the proof that a well-formed value reads back from its text.  The mapping
    between Go types and JSON values is in Codec.v. *)
From S2P Require Import Prelude Sha256 GoTime.

#[local] Set Warnings "-register-all".

Inductive json :=
| JNull
| JBool (b : bool)
| JNum (lit : string)
| JStr (s : string)
| JArr (l : list json)
| JObj (m : list (string * json)).

(** * UTF-8 *)
Definition is_cont (c : ascii) : bool := let v := byte_val c in (128 <=? v) && (v <=? 191).
Definition second_ok (lead : Z) (c : ascii) : bool :=
  let v := byte_val c in
  let lo := if lead =? 224 then 160 else if lead =? 240 then 144 else 128 in
  let hi := if lead =? 237 then 159 else if lead =? 244 then 143 else 191 in
  (lo <=? v) && (v <=? hi).

(** The length of the encoded rune a string starts with, 0 when it is invalid
    ([utf8.DecodeRuneInString] returning RuneError with size 1). *)
Definition rune_size (s : string) : nat :=
  match s with
  | String a r =>
      let v := byte_val a in
      if v <? 128 then 1%nat
      else match r with
      | String b r2 =>
          if (194 <=? v) && (v <=? 223) then (if is_cont b then 2%nat else O)
          else match r2 with
          | String c r3 =>
              if (224 <=? v) && (v <=? 239) then (if second_ok v b && is_cont c then 3%nat else O)
              else match r3 with
              | String d _ =>
                  if (240 <=? v) && (v <=? 244)
                  then (if second_ok v b && is_cont c && is_cont d then 4%nat else O) else O
              | EmptyString => O
              end
          | EmptyString => O
          end
      | EmptyString => O
      end
  | EmptyString => O
  end.

Definition byte_str (l : list Z) : string :=
  foldr (fun z s => String (byte_of z) s) EmptyString l.

(** [utf8.AppendRune], with the replacement character for surrogates and for
    values beyond the last code point. *)
Definition utf8_encode (cp : Z) : string :=
  if cp <? 128 then byte_str [cp]
  else if cp <? 2048 then byte_str [192 + cp / 64; 128 + cp mod 64]
  else if ((55296 <=? cp) && (cp <=? 57343)) || (1114111 <? cp) then byte_str [239; 191; 189]
  else if cp <? 65536 then byte_str [224 + cp / 4096; 128 + cp / 64 mod 64; 128 + cp mod 64]
  else byte_str [240 + cp / 262144; 128 + cp / 4096 mod 64; 128 + cp / 64 mod 64; 128 + cp mod 64].

Definition replacement : string := byte_str [239; 191; 189].

(** * Strings *)
Definition quote_char : ascii := byte_of 34.
Definition backslash : ascii := byte_of 92.

Definition escape_ascii (c : ascii) : string :=
  let v := byte_val c in
  if (v =? 34) || (v =? 92) then String backslash (String c "")
  else if v =? 8 then String backslash "b"
  else if v =? 12 then String backslash "f"
  else if v =? 10 then String backslash "n"
  else if v =? 13 then String backslash "r"
  else if v =? 9 then String backslash "t"
  else if (v <? 32) || (v =? 60) || (v =? 62) || (v =? 38)
  then String backslash ("u00" +:+ String (hex_digit (v / 16)) (String (hex_digit (v mod 16)) ""))
  else String c "".

(** The runes U+2028 and U+2029, escaped for JavaScript's sake. *)
Definition escape_rune (r : string) : string :=
  if str_eqb r (byte_str [226; 128; 168]) then String backslash "u2028"
  else if str_eqb r (byte_str [226; 128; 169]) then String backslash "u2029"
  else r.

Fixpoint escape (fuel : nat) (s : string) : string :=
  match fuel, s with
  | S f, String a r =>
      if byte_val a <? 128 then escape_ascii a +:+ escape f r
      else match rune_size s with
           | O => String backslash "ufffd" +:+ escape f r
           | n => escape_rune (str_take n s) +:+ escape f (str_drop n s)
           end
  | _, _ => EmptyString
  end.

Definition print_string (s : string) : string :=
  String quote_char (escape (String.length s) s +:+ String quote_char "").

(** Whether the encoder can write the string without replacing bytes. *)
Fixpoint valid_utf8_fuel (fuel : nat) (s : string) : bool :=
  match fuel, s with
  | _, EmptyString => true
  | S f, String a r =>
      match rune_size s with
      | O => false
      | n => valid_utf8_fuel f (str_drop n s)
      end
  | O, _ => false
  end.
Definition valid_utf8 (s : string) : bool := valid_utf8_fuel (String.length s) s.

Definition hex_val (c : ascii) : option Z :=
  let v := byte_val c in
  if (48 <=? v) && (v <=? 57) then Some (v - 48)
  else if (97 <=? v) && (v <=? 102) then Some (v - 87)
  else if (65 <=? v) && (v <=? 70) then Some (v - 55)
  else None.

Definition read_hex4 (s : string) : option (Z * string) :=
  match s with
  | String a (String b (String c (String d r))) =>
      x ← hex_val a; y ← hex_val b; z ← hex_val c; w ← hex_val d;
      Some (((x * 16 + y) * 16 + z) * 16 + w, r)
  | _ => None
  end.

Definition simple_escape (c : ascii) : option ascii :=
  let v := byte_val c in
  if (v =? 34) || (v =? 92) || (v =? 47) then Some c
  else if v =? 98 then Some (byte_of 8)
  else if v =? 102 then Some (byte_of 12)
  else if v =? 110 then Some (byte_of 10)
  else if v =? 114 then Some (byte_of 13)
  else if v =? 116 then Some (byte_of 9)
  else None.

Definition is_surrogate (cp : Z) : bool := (55296 <=? cp) && (cp <=? 57343).

(** The second half of a surrogate pair, when the text has one. *)
Definition read_low_surrogate (hi : Z) (s : string) : option (Z * string) :=
  match s with
  | String a (String b r) =>
      if bool_decide (a = backslash) && (byte_val b =? 117) then
        match read_hex4 r with
        | Some (lo, r') =>
            if (hi <=? 56319) && (56320 <=? lo) && (lo <=? 57343)
            then Some (65536 + (hi - 55296) * 1024 + (lo - 56320), r') else None
        | None => None
        end
      else None
  | _ => None
  end.

(** Reads a string after its opening quote: the decoded bytes and what follows the
    closing quote. *)
Fixpoint unquote (fuel : nat) (s : string) : option (string * string) :=
  match fuel, s with
  | S f, String a r =>
      let put txt rest := p ← unquote f rest; Some (txt +:+ p.1, p.2) in
      if bool_decide (a = quote_char) then Some (EmptyString, r)
      else if bool_decide (a = backslash) then
        match r with
        | String e r2 =>
            match simple_escape e with
            | Some c => put (String c "") r2
            | None =>
                if byte_val e =? 117 then
                  match read_hex4 r2 with
                  | Some (cp, r3) =>
                      if is_surrogate cp then
                        match read_low_surrogate cp r3 with
                        | Some (cp', r4) => put (utf8_encode cp') r4
                        | None => put replacement r3
                        end
                      else put (utf8_encode cp) r3
                  | None => None
                  end
                else None
            end
        | EmptyString => None
        end
      else if byte_val a <? 32 then None
      else match rune_size s with
           | O => put replacement r
           | n => put (str_take n s) (str_drop n s)
           end
  | _, _ => None
  end.

(** * Numbers *)
Fixpoint span_digits (s : string) : string * string :=
  match s with
  | String c r => if is_digit c then let '(d, t) := span_digits r in (String c d, t) else ("", s)
  | EmptyString => ("", "")
  end.

Definition scan_fraction (s : string) : option (string * string) :=
  match s with
  | String c r =>
      if byte_val c =? 46 then
        match span_digits r with
        | (EmptyString, _) => None
        | (d, t) => Some (String c d, t)
        end
      else Some ("", s)
  | EmptyString => Some ("", "")
  end.

Definition scan_exponent (s : string) : option (string * string) :=
  match s with
  | String c r =>
      if (byte_val c =? 101) || (byte_val c =? 69) then
        let '(sign, r') :=
          match r with
          | String d r1 => if (byte_val d =? 43) || (byte_val d =? 45) then (String d "", r1) else ("", r)
          | EmptyString => ("", r)
          end in
        match span_digits r' with
        | (EmptyString, _) => None
        | (d, t) => Some (String c (sign +:+ d), t)
        end
      else Some ("", s)
  | EmptyString => Some ("", "")
  end.

Definition scan_number (s : string) : option (string * string) :=
  let '(sign, s1) :=
    match s with
    | String c r => if byte_val c =? 45 then (String c "", r) else ("", s)
    | EmptyString => ("", s)
    end in
  ip ← match s1 with
       | String c r =>
           if byte_val c =? 48 then Some (String c "", r)
           else match span_digits s1 with (EmptyString, _) => None | p => Some p end
       | EmptyString => None
       end;
  fr ← scan_fraction ip.2; ex ← scan_exponent fr.2;
  Some (sign +:+ ip.1 +:+ fr.1 +:+ ex.1, ex.2).

(** * Values *)
Fixpoint print_json (j : json) : string :=
  match j with
  | JNull => "null"
  | JBool true => "true"
  | JBool false => "false"
  | JNum lit => lit
  | JStr s => print_string s
  | JArr l => "[" +:+ Join (map print_json l) "," +:+ "]"
  | JObj m => "{" +:+ Join (map (fun kv => print_string kv.1 +:+ ":" +:+ print_json kv.2) m) "," +:+ "}"
  end.

Definition is_ws (c : ascii) : bool :=
  let v := byte_val c in (v =? 32) || (v =? 9) || (v =? 10) || (v =? 13).
Fixpoint skip_ws (s : string) : string :=
  match s with
  | String c r => if is_ws c then skip_ws r else s
  | EmptyString => s
  end.

Fixpoint strip_prefix (p s : string) : option string :=
  match p, s with
  | EmptyString, _ => Some s
  | String a p', String b s' => if bool_decide (a = b) then strip_prefix p' s' else None
  | _, _ => None
  end.

(** Nesting deeper than this is refused (decode.go's maxNestingDepth). *)
Definition max_depth : Z := 10000.

Fixpoint parse_value (fuel : nat) (depth : Z) (s : string) {struct fuel} : option (json * string) :=
  match fuel with
  | O => None
  | S f =>
      match skip_ws s with
      | EmptyString => None
      | String c r as s1 =>
          if bool_decide (c = "{"%char) then
            if max_depth <=? depth then None
            else match skip_ws r with
                 | String d r' =>
                     if bool_decide (d = "}"%char) then Some (JObj [], r')
                     else p ← parse_members f (depth + 1) (String d r'); Some (JObj p.1, p.2)
                 | EmptyString => None
                 end
          else if bool_decide (c = "["%char) then
            if max_depth <=? depth then None
            else match skip_ws r with
                 | String d r' =>
                     if bool_decide (d = "]"%char) then Some (JArr [], r')
                     else p ← parse_elems f (depth + 1) (String d r'); Some (JArr p.1, p.2)
                 | EmptyString => None
                 end
          else if bool_decide (c = quote_char) then
            p ← unquote (String.length r) r; Some (JStr p.1, p.2)
          else match strip_prefix "null" s1, strip_prefix "true" s1, strip_prefix "false" s1 with
               | Some t, _, _ => Some (JNull, t)
               | _, Some t, _ => Some (JBool true, t)
               | _, _, Some t => Some (JBool false, t)
               | _, _, _ => p ← scan_number s1; Some (JNum p.1, p.2)
               end
      end
  end
with parse_elems (fuel : nat) (depth : Z) (s : string) {struct fuel} : option (list json * string) :=
  match fuel with
  | O => None
  | S f =>
      v ← parse_value f depth s;
      match skip_ws v.2 with
      | String c r =>
          if bool_decide (c = ","%char) then p ← parse_elems f depth r; Some (v.1 :: p.1, p.2)
          else if bool_decide (c = "]"%char) then Some ([v.1], r) else None
      | EmptyString => None
      end
  end
with parse_members (fuel : nat) (depth : Z) (s : string) {struct fuel} : option (list (string * json) * string) :=
  match fuel with
  | O => None
  | S f =>
      k ← (match skip_ws s with
           | String c r => if bool_decide (c = quote_char) then unquote (String.length r) r else None
           | EmptyString => None
           end);
      s1 ← strip_prefix ":" (skip_ws k.2);
      v ← parse_value f depth s1;
      match skip_ws v.2 with
      | String c r =>
          if bool_decide (c = ","%char) then p ← parse_members f depth r; Some ((k.1, v.1) :: p.1, p.2)
          else if bool_decide (c = "}"%char) then Some ([(k.1, v.1)], r) else None
      | EmptyString => None
      end
  end.

(** One value and nothing but white space after it. *)
Definition parse_json (s : string) : option json :=
  p ← parse_value (2 * String.length s + 2) 0 s;
  if str_eqb (skip_ws p.2) "" then Some p.1 else None.

Definition Valid (s : string) : bool := bool_decide (is_Some (parse_json s)).

Example print_example :
  print_json (JObj [("a", JArr [JNum "1"; JNull]); ("b<", JStr (String backslash (byte_str [10; 195; 169])))])
  = "{" +:+ print_string "a" +:+ ":[1,null]," +:+
    String quote_char ("b" +:+ String backslash ("u003c" +:+ String quote_char (":" +:+
    String quote_char (String backslash (String backslash (String backslash ("n" +:+ byte_str [195; 169] +:+
    String quote_char "}"))))))).
Proof. vm_compute. reflexivity. Qed.

(** * Strings read back *)
Lemma str_take_drop n s : str_take n s +:+ str_drop n s = s.
Proof.
  revert s. induction n as [|n IH]; intros s; [by destruct s|].
  destruct s as [|c s]; [done|]. cbn [str_take str_drop]. rewrite str_app_cons. by rewrite IH.
Qed.

Lemma str_drop_app a b : str_drop (String.length a) (a +:+ b) = b.
Proof. induction a as [|x a IH]; [by destruct b|]. by rewrite str_app_cons. Qed.

Lemma rune_size_le s : (rune_size s <= String.length s)%nat.
Proof.
  unfold rune_size. destruct s as [|a [|b [|c [|d s]]]]; cbn [String.length]; repeat case_match; lia.
Qed.

Lemma str_take_short n s : (String.length s <= n)%nat -> str_take n s = s.
Proof.
  revert n. induction s as [|c s IH]; intros [|n] H; cbn in *; try done; [lia|]. f_equal. apply IH. lia.
Qed.

Lemma str_take_length n s : (n <= String.length s)%nat -> String.length (str_take n s) = n.
Proof.
  revert s. induction n as [|n IH]; intros s H; [by destruct s|].
  destruct s as [|c s]; cbn [String.length] in H; [lia|]. cbn. rewrite IH; lia.
Qed.

Lemma str_drop_length n s : String.length (str_drop n s) = (String.length s - n)%nat.
Proof.
  revert s. induction n as [|n IH]; intros s; [destruct s; cbn; lia|].
  destruct s as [|c s]; cbn; [done|]. by rewrite IH.
Qed.

(** A rune stays a rune whatever follows it. *)
Lemma rune_size_take s n r :
  rune_size s = S n -> rune_size (str_take (S n) s +:+ r) = S n.
Proof.
  unfold rune_size. destruct s as [|a s]; [done|].
  destruct (byte_val a <? 128) eqn:E1; [by intros [= <-]; cbn [str_take]; rewrite !str_app_cons, E1|].
  destruct s as [|b s]; [done|].
  destruct ((194 <=? byte_val a) && (byte_val a <=? 223)) eqn:E2.
  { destruct (is_cont b) eqn:E3; [|done]. intros [= <-]. cbn [str_take]. rewrite !str_app_cons. by rewrite E1, E2, E3. }
  destruct s as [|c s]; [done|].
  destruct ((224 <=? byte_val a) && (byte_val a <=? 239)) eqn:E4.
  { destruct (second_ok (byte_val a) b && is_cont c) eqn:E5; [|done].
    intros [= <-]. cbn [str_take]. rewrite !str_app_cons. by rewrite E1, E2, E4, E5. }
  destruct s as [|d s]; [done|].
  destruct ((240 <=? byte_val a) && (byte_val a <=? 244)) eqn:E6; [|done].
  destruct (second_ok (byte_val a) b && is_cont c && is_cont d) eqn:E7; [|done].
  intros [= <-]. cbn [str_take]. rewrite !str_app_cons. by rewrite E1, E2, E4, E6, E7.
Qed.

Definition unquote_put (txt : string) (o : option (string * string)) : option (string * string) :=
  p ← o; Some (txt +:+ p.1, p.2).

Lemma unquote_escape_ascii a f r :
  (byte_val a <? 128) = true ->
  unquote (S f) (escape_ascii a +:+ r) = unquote_put (String a "") (unquote f r).
Proof. intros Ha. destruct a as [[] [] [] [] [] [] [] []]; try discriminate Ha; reflexivity. Qed.

Lemma unquote_rune s n f r :
  rune_size s = S n -> (byte_val (match s with String a _ => a | _ => zero end) <? 128) = false ->
  unquote (S f) (str_take (S n) s +:+ r) = unquote_put (str_take (S n) s) (unquote f r).
Proof.
  intros Hn Ha. pose proof (rune_size_take s n r Hn) as Hr.
  pose proof (rune_size_le s) as Hle. rewrite Hn in Hle.
  destruct s as [|a s]; [done|]. cbn [str_take] in *. rewrite str_app_cons in *. cbn [unquote].
  assert (a <> quote_char /\ a <> backslash /\ (byte_val a <? 32) = false) as (H1 & H2 & H3).
  { bool_norm. repeat split; [intros ->|intros ->|]; [by vm_compute in Ha..|]. apply Z.ltb_ge. lia. }
  rewrite bool_decide_false by done. rewrite bool_decide_false by done. rewrite H3, Hr.
  assert (String.length (str_take n s) = n) as Hl by (apply str_take_length; cbn in Hle; lia).
  cbn [str_take str_drop].
  pose proof (str_take_app (str_take n s) r) as Ht. pose proof (str_drop_app (str_take n s) r) as Hdr.
  rewrite Hl in Ht, Hdr. by rewrite Ht, Hdr.
Qed.

Lemma unquote_escape_rune s n f r :
  rune_size s = S n -> (byte_val (match s with String a _ => a | _ => zero end) <? 128) = false ->
  unquote (S f) (escape_rune (str_take (S n) s) +:+ r) = unquote_put (str_take (S n) s) (unquote f r).
Proof.
  intros Hn Ha. unfold escape_rune.
  destruct (str_eqb _ (byte_str [226; 128; 168])) eqn:E1; [apply str_eqb_eq in E1; by rewrite E1|].
  destruct (str_eqb _ (byte_str [226; 128; 169])) eqn:E2; [apply str_eqb_eq in E2; by rewrite E2|].
  by apply unquote_rune.
Qed.

Lemma escape_ascii_length a : (1 <= String.length (escape_ascii a))%nat.
Proof. unfold escape_ascii. repeat case_match; cbn; lia. Qed.

Lemma escape_rune_length s : (1 <= String.length s)%nat -> (1 <= String.length (escape_rune s))%nat.
Proof. unfold escape_rune. repeat case_match; cbn; lia. Qed.

Lemma unquote_escape fuel s f rest :
  valid_utf8_fuel fuel s = true -> (String.length (escape fuel s) < f)%nat ->
  unquote f (escape fuel s +:+ String quote_char rest) = Some (s, rest).
Proof.
  revert s f. induction fuel as [|fuel IH]; intros s f Hs Hf.
  - destruct s; [|done]. destruct f; [cbn in Hf; lia|]. reflexivity.
  - destruct f as [|f]; [lia|]. destruct s as [|a s]; [reflexivity|].
    cbn [valid_utf8_fuel escape] in Hs, Hf |- *.
    destruct (byte_val a <? 128) eqn:Ha.
    + assert (rune_size (String a s) = 1%nat) as Hr by (unfold rune_size; by rewrite Ha).
      rewrite Hr in Hs. rewrite str_app_assoc, unquote_escape_ascii by done.
      rewrite str_length_app in Hf. pose proof (escape_ascii_length a).
      rewrite IH; [done|done|lia].
    + destruct (rune_size (String a s)) as [|n] eqn:Hr; [done|].
      rewrite str_app_assoc, unquote_escape_rune by done.
      rewrite str_length_app in Hf.
      assert (1 <= String.length (escape_rune (str_take (S n) (String a s))))%nat
        by (apply escape_rune_length; cbn; lia).
      rewrite IH; [|done|lia]. cbn [unquote_put mbind option_bind fst snd].
      by rewrite str_take_drop.
Qed.

Lemma print_string_read s rest :
  valid_utf8 s = true ->
  exists r, print_string s +:+ rest = String quote_char r /\ unquote (String.length r) r = Some (s, rest).
Proof.
  intros Hs. unfold print_string. rewrite str_app_cons. eexists. split; [done|].
  rewrite str_app_assoc. change (String quote_char "" +:+ rest) with (String quote_char rest).
  apply unquote_escape; [done|]. rewrite str_length_app. cbn. lia.
Qed.

(** ASCII text without repair. *)
Lemma ascii_valid_utf8 s : str_all (fun c => byte_val c <? 128) s = true -> valid_utf8 s = true.
Proof.
  unfold valid_utf8. induction s as [|c s IH]; [done|]. cbn [str_all String.length valid_utf8_fuel].
  intros [Hc Hs]%andb_true_iff. unfold rune_size. rewrite Hc. cbn [str_drop]. by apply IH.
Qed.

(** * Numbers read back *)

(** The value of a run of digits. *)
Fixpoint digits_value (acc : Z) (s : string) : Z :=
  match s with
  | String c r => digits_value (acc * 10 + (byte_val c - 48)) r
  | EmptyString => acc
  end.

(** [strconv.ParseInt] on the literal of a number: an optional sign and digits. *)
Definition parse_int (lit : string) : option Z :=
  match lit with
  | String c r =>
      if byte_val c =? 45 then
        if str_all is_digit r && negb (str_eqb r "") then Some (- digits_value 0 r) else None
      else if str_all is_digit lit then Some (digits_value 0 lit) else None
  | EmptyString => None
  end.

Definition nonzero_digit (c : ascii) : bool := let v := byte_val c in (49 <=? v) && (v <=? 57).

Lemma digits_value_app acc a b : digits_value acc (a +:+ b) = digits_value (digits_value acc a) b.
Proof. revert acc. induction a as [|c a IH]; intros acc; [done|]. rewrite str_app_cons. apply IH. Qed.

Lemma pretty_N_char_val x : (x < 10)%N -> byte_val (pretty_N_char x) = Z.of_N x + 48.
Proof.
  intros H. assert (x = 0 \/ x = 1 \/ x = 2 \/ x = 3 \/ x = 4 \/ x = 5 \/ x = 6 \/ x = 7 \/ x = 8 \/ x = 9)%N as Hx by lia.
  destruct_or! Hx; subst; reflexivity.
Qed.

Lemma pretty_N_go_digits x s :
  exists t, pretty_N_go x s = t +:+ s /\ str_all is_digit t = true /\ digits_value 0 t = Z.of_N x /\
    (x <> 0%N -> exists c t', t = String c t' /\ nonzero_digit c = true).
Proof.
  revert s. induction (N.lt_wf_0 x) as [x _ IH]; intros s.
  destruct (decide (x = 0%N)) as [->|Hx]; [exists ""; done|].
  assert (0 < x)%N as Hpos by lia. rewrite pretty_N_go_step by done.
  destruct (IH (x `div` 10)%N (N.div_lt x 10 Hpos eq_refl) (String (pretty_N_char (x `mod` 10)) s))
    as (t & Ht & Hd & Hv & Hh).
  assert (x `mod` 10 < 10)%N as Hm by (by apply N.mod_lt). pose proof (pretty_N_char_val _ Hm) as Hc.
  exists (t +:+ String (pretty_N_char (x `mod` 10)) "").
  split; [rewrite str_app_assoc; exact Ht|]. split; [|split].
  - rewrite str_all_app, Hd. cbn [str_all]. unfold is_digit. cbv zeta. rewrite Hc.
    clear -Hm. generalize dependent (x `mod` 10)%N. intros y Hy. lia.
  - rewrite digits_value_app, Hv. cbn [digits_value]. rewrite Hc. pose proof (N.div_mod x 10 ltac:(done)). lia.
  - intros _. destruct (decide (x `div` 10 = 0)%N) as [E|E].
    + rewrite E in Hv. destruct t as [|c t'].
      * eexists _, _. split; [reflexivity|]. unfold nonzero_digit. cbv zeta. rewrite Hc.
        pose proof (N.div_mod x 10 ltac:(done)) as Hdm. rewrite E in Hdm.
        clear -Hm Hdm Hx. generalize dependent (x `mod` 10)%N. intros y Hy. lia.
      * destruct (decide (x `div` 10 = 0)%N); [|done]. rewrite E, pretty_N_go_0 in Ht.
        apply (f_equal String.length) in Ht. rewrite str_length_app in Ht. cbn in Ht. lia.
    + destruct (Hh E) as (c & t' & -> & H0). eexists c, _. by rewrite str_app_cons.
Qed.

(** The decimal text of a non-negative number: digits, without a leading zero. *)
Definition nat_literal (s : string) : Prop :=
  str_all is_digit s = true /\ (s = "0" \/ exists c t, s = String c t /\ nonzero_digit c = true).

Lemma pretty_N_literal n : nat_literal (pretty n) /\ digits_value 0 (pretty n) = Z.of_N n.
Proof.
  unfold pretty, pretty_N. destruct (decide (n = 0%N)) as [->|Hn].
  - repeat split; auto.
  - destruct (pretty_N_go_digits n "") as (t & Ht & Hd & Hv & Hh). rewrite str_app_nil_r in Ht. rewrite Ht.
    repeat split; auto.
Qed.

Lemma FormatInt_cases z :
  (0 <= z /\ nat_literal (FormatInt z) /\ digits_value 0 (FormatInt z) = z) \/
  (z < 0 /\ exists t, FormatInt z = String "-" t /\ nat_literal t /\ digits_value 0 t = - z).
Proof.
  unfold FormatInt. destruct z as [|p|p].
  - left. split; [done|]. split; [|done]. split; [done|by left].
  - left. change (pretty (Z.pos p)) with (pretty (N.pos p)). destruct (pretty_N_literal (N.pos p)) as [H1 H2].
    split; [lia|]. split; [done|]. rewrite H2. lia.
  - right. split; [lia|]. exists (pretty (N.pos p)). split; [done|].
    destruct (pretty_N_literal (N.pos p)) as [H1 H2]. split; [done|]. rewrite H2. lia.
Qed.

Lemma nat_literal_nonempty s : nat_literal s -> exists c t, s = String c t /\ is_digit c = true.
Proof.
  intros [Hd H]. destruct s as [|c t]; [by destruct H as [|(? & ? & ? & _)]|]. exists c, t. split; [done|].
  cbn in Hd. by apply andb_true_iff in Hd as [? _].
Qed.

Lemma parse_int_FormatInt z : parse_int (FormatInt z) = Some z.
Proof.
  destruct (FormatInt_cases z) as [(Hz & Hl & Hv)|(Hz & t & -> & Hl & Hv)].
  - destruct (nat_literal_nonempty _ Hl) as (c & t & Hs & Hc). destruct Hl as [Hd _]. rewrite Hs in *.
    unfold parse_int. assert ((byte_val c =? 45) = false) as ->.
    { unfold is_digit in Hc. lia. }
    by rewrite Hd, Hv.
  - unfold parse_int. change (byte_val "-" =? 45) with true. cbn iota.
    destruct (nat_literal_nonempty _ Hl) as (c & t' & Hs & Hc). destruct Hl as [Hd _]. rewrite Hd.
    rewrite (proj2 (str_eqb_neq t "")) by (by rewrite Hs). cbn. rewrite Hv. f_equal. lia.
Qed.

Lemma span_digits_app t rest :
  str_all is_digit t = true -> stops_digits rest = true -> span_digits (t +:+ rest) = (t, rest).
Proof.
  intros Ht Hr. induction t as [|c t IH].
  - change ("" +:+ rest) with rest. destruct rest as [|c r]; [done|]. cbn in Hr |- *.
    by rewrite (proj1 (negb_true_iff _) Hr).
  - rewrite str_app_cons. cbn in Ht |- *. apply andb_true_iff in Ht as [Hc Ht]. by rewrite Hc, IH.
Qed.

(** What may follow a number without extending it. *)
Definition stops_number (s : string) : bool :=
  stops_digits s &&
  match s with
  | String c _ => let v := byte_val c in negb (v =? 46) && negb (v =? 101) && negb (v =? 69)
  | EmptyString => true
  end.

Lemma scan_tail_stop rest :
  stops_number rest = true -> scan_fraction rest = Some ("", rest) /\ scan_exponent rest = Some ("", rest).
Proof.
  unfold stops_number, scan_fraction, scan_exponent. destruct rest as [|c r]; [done|].
  intros [_ H]%andb_true_iff. bool_norm. split.
  - by replace (byte_val c =? 46) with false by lia.
  - by replace (byte_val c =? 101) with false by lia; replace (byte_val c =? 69) with false by lia.
Qed.

Lemma scan_int_part t rest :
  nat_literal t -> stops_number rest = true ->
  match t +:+ rest with
  | String c r =>
      if byte_val c =? 48 then Some (String c "", r)
      else match span_digits (t +:+ rest) with (EmptyString, _) => None | p => Some p end
  | EmptyString => None
  end = Some (t, rest).
Proof.
  intros [Hd Hz] Hr. unfold stops_number in Hr. apply andb_true_iff in Hr as [Hr _].
  rewrite span_digits_app by done. destruct Hz as [->|(c & t' & -> & Hc)]; [done|].
  rewrite str_app_cons. unfold nonzero_digit in Hc. by replace (byte_val c =? 48) with false by lia.
Qed.

Lemma scan_number_app z rest :
  stops_number rest = true -> scan_number (FormatInt z +:+ rest) = Some (FormatInt z, rest).
Proof.
  intros Hr. unfold scan_number. destruct (scan_tail_stop rest Hr) as [H1 H2].
  destruct (FormatInt_cases z) as [(Hz & Hl & Hv)|(Hz & t & -> & Hl & Hv)].
  - destruct (nat_literal_nonempty _ Hl) as (c & t & Hs & Hc).
    assert (match FormatInt z +:+ rest with
            | String c r => if byte_val c =? 45 then (String c "", r) else ("", FormatInt z +:+ rest)
            | EmptyString => ("", FormatInt z +:+ rest) end = ("", FormatInt z +:+ rest)) as ->.
    { rewrite Hs, str_app_cons. unfold is_digit in Hc. by replace (byte_val c =? 45) with false by lia. }
    rewrite (scan_int_part _ _ Hl Hr). cbn [mbind option_bind fst snd]. rewrite H1. cbn [mbind option_bind fst snd].
    rewrite H2. cbn [mbind option_bind fst snd]. by rewrite str_app_nil_r.
  - rewrite str_app_cons. change (byte_val "-" =? 45) with true. cbn iota.
    rewrite (scan_int_part _ _ Hl Hr). cbn [mbind option_bind fst snd]. rewrite H1. cbn [mbind option_bind fst snd].
    rewrite H2. cbn [mbind option_bind fst snd]. by rewrite str_app_nil_r.
Qed.

(** * Values read back *)

(** The values the encoder writes without repair: integers and valid strings. *)
Inductive json_wf : json -> Prop :=
| wf_null : json_wf JNull
| wf_bool b : json_wf (JBool b)
| wf_num z : json_wf (JNum (FormatInt z))
| wf_str s : valid_utf8 s = true -> json_wf (JStr s)
| wf_arr l : Forall json_wf l -> json_wf (JArr l)
| wf_obj m : Forall (fun kv => valid_utf8 kv.1 = true /\ json_wf kv.2) m -> json_wf (JObj m).

Fixpoint json_depth (j : json) : Z :=
  match j with
  | JArr l => 1 + foldr Z.max 0 (map json_depth l)
  | JObj m => 1 + foldr Z.max 0 (map (fun kv => json_depth kv.2) m)
  | _ => 0
  end.

(** Reading steps a value needs. *)
Fixpoint json_steps (j : json) : nat :=
  match j with
  | JArr l => 1 + foldr (fun x n => 1 + x + n) 0 (map json_steps l)
  | JObj m => 1 + foldr (fun x n => 1 + x + n) 0 (map (fun kv => json_steps kv.2) m)
  | _ => 1
  end%nat.

Lemma json_depth_nonneg j : 0 <= json_depth j.
Proof.
  assert (forall l, 0 <= foldr Z.max 0 l) as H by (induction l; simpl; lia).
  destruct j; simpl; try done; match goal with |- context [foldr Z.max 0 ?l] => specialize (H l) end; lia.
Qed.

(** The first byte of a value's text: never white space nor a closing bracket. *)
Definition value_start (c : ascii) : bool :=
  negb (is_ws c) && negb (bool_decide (c = "]"%char)) && negb (bool_decide (c = "}"%char)).

Lemma is_digit_start c : is_digit c = true -> value_start c = true.
Proof. destruct c as [[] [] [] [] [] [] [] []]; vm_compute; congruence. Qed.

Lemma FormatInt_head z rest :
  exists c t, FormatInt z +:+ rest = String c t /\ (is_digit c = true \/ c = "-"%char).
Proof.
  destruct (FormatInt_cases z) as [(Hz & Hl & _)|(Hz & t & -> & Hl & _)].
  - destruct (nat_literal_nonempty _ Hl) as (c & t & -> & Hc). exists c, (t +:+ rest). by rewrite str_app_cons; auto.
  - exists "-"%char, (t +:+ rest). rewrite str_app_cons. auto.
Qed.

Lemma print_head j : json_wf j -> exists c t, (forall rest, print_json j +:+ rest = String c (t +:+ rest)) /\ value_start c = true.
Proof.
  intros H. inversion H; subst.
  - exists "n"%char, "ull". done.
  - destruct b; [by exists "t"%char, "rue"|by exists "f"%char, "alse"].
  - cbn [print_json]. destruct (FormatInt_head z "") as (c & t & Hz & Hc). rewrite str_app_nil_r in Hz. rewrite Hz.
    exists c, t. split; [done|]. destruct Hc as [Hc| ->]; [by apply is_digit_start|done].
  - eexists quote_char, _. split; [intros rest; cbn [print_json]; unfold print_string; by rewrite str_app_cons|done].
  - eexists "["%char, _. split; [intros rest; cbn [print_json]; by rewrite str_app_cons|done].
  - eexists "{"%char, _. split; [intros rest; cbn [print_json]; by rewrite str_app_cons|done].
Qed.

Lemma skip_ws_start c t : value_start c = true -> skip_ws (String c t) = String c t.
Proof. unfold value_start. intros H. bool_norm. cbn. by rewrite H. Qed.

Lemma skip_ws_print j rest : json_wf j -> skip_ws (print_json j +:+ rest) = print_json j +:+ rest.
Proof. intros H. destruct (print_head j H) as (c & t & -> & Hc). by apply skip_ws_start. Qed.

(** Number texts start neither a bracket, a quote nor a literal name. *)
Lemma strip_prefix_head p c t :
  match p with String d _ => bool_decide (d = c) = false | EmptyString => False end ->
  strip_prefix p (String c t) = None.
Proof. destruct p as [|d p]; [done|]. cbn. by intros ->. Qed.

Lemma parse_number_value f depth z rest :
  stops_number rest = true ->
  parse_value (S f) depth (FormatInt z +:+ rest) = Some (JNum (FormatInt z), rest).
Proof.
  intros Hr. pose proof (scan_number_app z rest Hr) as Hn.
  destruct (FormatInt_head z rest) as (c & t & Hs & Hc). rewrite Hs in *. cbn [parse_value].
  assert (value_start c = true) as Hv by (destruct Hc as [Hc| ->]; [by apply is_digit_start|done]).
  rewrite skip_ws_start by done.
  assert (c <> "{"%char /\ c <> "["%char /\ c <> quote_char /\ c <> "n"%char /\ c <> "t"%char /\ c <> "f"%char)
    as (H1 & H2 & H3 & H4 & H5 & H6).
  { destruct Hc as [Hc| ->]; [|done]. repeat split; intros ->; vm_compute in Hc; discriminate. }
  rewrite !bool_decide_false by done.
  rewrite (strip_prefix_head "null"), (strip_prefix_head "true"), (strip_prefix_head "false")
    by (by apply bool_decide_eq_false). by rewrite Hn.
Qed.

(** The elements and members after the opening bracket. *)
Definition elems_text (l : list json) (rest : string) : string := Join (map print_json l) "," +:+ "]" +:+ rest.
Definition member_text (kv : string * json) : string := print_string kv.1 +:+ ":" +:+ print_json kv.2.
Definition members_text (m : list (string * json)) (rest : string) : string :=
  Join (map member_text m) "," +:+ "}" +:+ rest.

(** A value reads back in every context that ends it. *)
Definition reads_back (j : json) : Prop := forall f depth rest,
  (json_steps j <= f)%nat -> depth + json_depth j <= max_depth -> stops_number rest = true ->
  parse_value f depth (print_json j +:+ rest) = Some (j, rest).

Lemma parse_elems_text l f depth rest :
  l <> [] -> Forall json_wf l -> Forall reads_back l ->
  (foldr (fun x n => 1 + x + n) 0 (map json_steps l) <= f)%nat ->
  depth + foldr Z.max 0 (map json_depth l) <= max_depth ->
  parse_elems f depth (elems_text l rest) = Some (l, rest).
Proof.
  revert f. induction l as [|x l IH]; intros f Hne Hwf Hrb Hf Hd; [done|]. clear Hne.
  apply Forall_cons in Hwf as [Hx Hwf]. apply Forall_cons in Hrb as [Rx Hrb]. simpl in Hf, Hd.
  destruct f as [|f]; [lia|]. cbn [parse_elems]. unfold elems_text in *. destruct l as [|y l].
  - cbn [map Join]. rewrite Rx by (try done; lia). done.
  - cbn [map]. rewrite Join_cons, !str_app_assoc. rewrite Rx by (try done; simpl in *; lia).
    cbn [mbind option_bind fst snd]. change ("," +:+ ?x) with (String "," x). cbn [skip_ws].
    change (is_ws ",") with false. cbn iota. rewrite bool_decide_true by done.
    cbn [map] in IH. rewrite IH; [done|done|done|done|simpl in *; lia|simpl in *; lia].
Qed.

Lemma parse_members_text m f depth rest :
  m <> [] -> Forall (fun kv => valid_utf8 kv.1 = true /\ json_wf kv.2) m ->
  Forall (fun kv => reads_back kv.2) m ->
  (foldr (fun x n => 1 + x + n) 0 (map (fun kv => json_steps kv.2) m) <= f)%nat ->
  depth + foldr Z.max 0 (map (fun kv => json_depth kv.2) m) <= max_depth ->
  parse_members f depth (members_text m rest) = Some (m, rest).
Proof.
  revert f. induction m as [|[k x] m IH]; intros f Hne Hwf Hrb Hf Hd; [done|]. clear Hne.
  apply Forall_cons in Hwf as [[Hk Hx] Hwf]. apply Forall_cons in Hrb as [Rx Hrb]. simpl in Hf, Hd, Hk, Hx, Rx.
  destruct f as [|f]; [lia|]. cbn [parse_members]. unfold members_text in *.
  assert (forall tail, stops_number tail = true ->
    (match skip_ws (member_text (k, x) +:+ tail) with
     | String c r => if bool_decide (c = quote_char) then unquote (String.length r) r else None
     | EmptyString => None
     end) = Some (k, ":" +:+ print_json x +:+ tail)) as Hkey.
  { intros tail _. unfold member_text. cbn [fst snd]. rewrite !str_app_assoc.
    destruct (print_string_read k (":" +:+ print_json x +:+ tail) Hk) as (r & -> & Hr). done. }
  destruct m as [|y m].
  - cbn [map Join]. rewrite Hkey by done. cbn [mbind option_bind fst snd].
    change (strip_prefix ":" (skip_ws (":" +:+ ?x))) with (Some x). cbn [mbind option_bind].
    rewrite Rx by (try done; lia). done.
  - cbn [map]. rewrite Join_cons, !str_app_assoc, Hkey by done. cbn [mbind option_bind fst snd].
    change (strip_prefix ":" (skip_ws (":" +:+ ?x))) with (Some x). cbn [mbind option_bind].
    rewrite Rx by (try done; simpl in *; lia). cbn [mbind option_bind fst snd].
    change ("," +:+ ?x) with (String "," x). cbn [skip_ws]. change (is_ws ",") with false. cbn iota.
    rewrite bool_decide_true by done. cbn [map] in IH. rewrite IH; [done|done|done|done|simpl in *; lia|simpl in *; lia].
Qed.

Lemma elems_head l rest :
  l <> [] -> Forall json_wf l -> exists c t, elems_text l rest = String c t /\ value_start c = true.
Proof.
  intros Hne H. destruct l as [|x l]; [done|]. apply Forall_cons in H as [Hx _].
  destruct (print_head x Hx) as (c & t & Ht & Hc). unfold elems_text. cbn [map].
  destruct l; [|cbn [map]; rewrite Join_cons, !str_app_assoc]; eexists c, _; split; eauto.
Qed.

Lemma members_head m rest :
  m <> [] -> exists t, members_text m rest = String quote_char t.
Proof.
  intros Hne. destruct m as [|kv m]; [done|]. unfold members_text. cbn [map].
  destruct m; [|cbn [map]; rewrite Join_cons, !str_app_assoc];
    unfold member_text, print_string; rewrite !str_app_cons; eauto.
Qed.

Lemma foldr_max_nonneg l : 0 <= foldr Z.max 0 l.
Proof. induction l; simpl; lia. Qed.

Lemma json_steps_elem {A} (g : A -> nat) l x :
  x ∈ l -> (g x < foldr (fun x n => 1 + x + n) 0 (map g l))%nat.
Proof.
  induction l as [|y l IH]; intros Hx; [by apply not_elem_of_nil in Hx|].
  simpl. apply elem_of_cons in Hx as [->|Hx]; [lia|]. specialize (IH Hx). simpl in *. lia.
Qed.

Lemma value_reads_back n j : (json_steps j <= n)%nat -> json_wf j -> reads_back j.
Proof.
  revert j. induction n as [|n IH]; intros j Hn Hwf f depth rest Hf Hd Hr.
  { destruct j; simpl in Hn; lia. }
  destruct f as [|f]; [destruct j; simpl in Hf; lia|].
  inversion Hwf as [| b | z | s Hs | l Hl | m Hm]; subst.
  - done.
  - by destruct b.
  - by apply parse_number_value.
  - cbn [print_json parse_value]. destruct (print_string_read s rest Hs) as (r & -> & Hu).
    change (skip_ws (String quote_char r)) with (String quote_char r). cbn iota.
    rewrite !bool_decide_false by done. rewrite bool_decide_true by done. by rewrite Hu.
  - cbn [print_json]. rewrite !str_app_assoc. change ("[" +:+ ?x) with (String "[" x).
    cbn [parse_value]. change (skip_ws (String "[" ?x)) with (String "[" x). cbn iota.
    rewrite bool_decide_false by done. rewrite bool_decide_true by done.
    cbn [json_depth] in Hd. cbn [json_steps] in Hn, Hf.
    pose proof (foldr_max_nonneg (map json_depth l)) as Hd0.
    rewrite (proj2 (Z.leb_gt max_depth depth)) by lia.
    fold (elems_text l rest). destruct (decide (l = [])) as [->|Hne]; [done|].
    destruct (elems_head l rest Hne Hl) as (c & t & Ht & Hc). rewrite Ht, skip_ws_start by done.
    unfold value_start in Hc. bool_norm. rewrite bool_decide_false by done. rewrite <-Ht.
    rewrite parse_elems_text; [done|done|done| |lia|lia].
    apply Forall_forall. intros x Hx. apply IH; [|by eapply Forall_forall in Hl].
    pose proof (json_steps_elem json_steps l x Hx). lia.
  - cbn [print_json]. rewrite !str_app_assoc. change ("{" +:+ ?x) with (String "{" x).
    cbn [parse_value]. change (skip_ws (String "{" ?x)) with (String "{" x). cbn iota.
    rewrite bool_decide_true by done. cbn [json_depth] in Hd. cbn [json_steps] in Hn, Hf.
    pose proof (foldr_max_nonneg (map (fun kv => json_depth kv.2) m)) as Hd0.
    rewrite (proj2 (Z.leb_gt max_depth depth)) by lia.
    change (Join _ "," +:+ "}" +:+ rest) with (members_text m rest).
    destruct (decide (m = [])) as [->|Hne]; [done|].
    destruct (members_head m rest Hne) as (t & Ht). rewrite Ht.
    change (skip_ws (String quote_char t)) with (String quote_char t). cbn iota.
    rewrite bool_decide_false by done. rewrite <-Ht.
    rewrite parse_members_text; [done|done|done| |lia|lia].
    apply Forall_forall. intros kv Hx. apply IH; [|by eapply Forall_forall in Hm as [_ ?]].
    pose proof (json_steps_elem (fun kv => json_steps kv.2) m kv Hx). simpl in *. lia.
Qed.

(** The fuel [parse_json] takes is enough: a value's steps are at most twice
    the bytes of its text. *)
Lemma Join_length l sep :
  String.length sep = 1%nat ->
  (foldr (fun x n => 1 + x + n) 0 (map String.length l) <= String.length (Join l sep) + 1)%nat.
Proof.
  intros Hs. induction l as [|x l IH]; [simpl; lia|]. destruct l as [|y l]; [simpl; lia|].
  rewrite Join_cons, !str_length_app. simpl in *. lia.
Qed.

Lemma print_string_length s : (2 <= String.length (print_string s))%nat.
Proof. unfold print_string. simpl. rewrite str_length_app. simpl. lia. Qed.

Lemma sum_steps_mono {A} (g h : A -> nat) l :
  (forall x, x ∈ l -> g x <= 2 * h x)%nat ->
  (foldr (fun x n => 1 + x + n) 0 (map g l) <= 2 * foldr (fun x n => 1 + x + n) 0 (map h l))%nat.
Proof.
  induction l as [|x l IH]; intros H; [done|]. cbn [map foldr].
  pose proof (H x (list_elem_of_here _ _)). specialize (IH ltac:(intros y Hy; apply H; by right)). lia.
Qed.

Lemma json_steps_length n j :
  (json_steps j <= n)%nat -> json_wf j -> (json_steps j <= 2 * String.length (print_json j))%nat.
Proof.
  revert j. induction n as [|n IH]; intros j Hn Hwf; [destruct j; simpl in Hn; lia|].
  inversion Hwf as [|b|z|s Hs|l Hl|m Hm]; subst; cbn [json_steps print_json] in *.
  - simpl. lia.
  - destruct b; simpl; lia.
  - destruct (FormatInt_head z "") as (c & t & Hc & _). rewrite str_app_nil_r in Hc. rewrite Hc. simpl. lia.
  - pose proof (print_string_length s). lia.
  - rewrite !str_length_app. pose proof (Join_length (map print_json l) "," eq_refl) as Hj.
    rewrite map_map in Hj.
    change (String.length "[") with 1%nat. change (String.length "]") with 1%nat.
    change (String.length "{") with 1%nat. change (String.length "}") with 1%nat.
    enough (foldr (fun x n => 1 + x + n) 0 (map json_steps l)
      <= 2 * foldr (fun x n => 1 + x + n) 0 (map (fun x => String.length (print_json x)) l))%nat by lia.
    apply sum_steps_mono. intros x Hx. apply IH; [|by eapply Forall_forall in Hl].
    pose proof (json_steps_elem json_steps l x Hx). lia.
  - change (map (fun kv => print_string kv.1 +:+ ":" +:+ print_json kv.2) m) with (map member_text m).
    rewrite !str_length_app. pose proof (Join_length (map member_text m) "," eq_refl) as Hj.
    rewrite map_map in Hj.
    change (String.length "[") with 1%nat. change (String.length "]") with 1%nat.
    change (String.length "{") with 1%nat. change (String.length "}") with 1%nat.
    enough (foldr (fun x n => 1 + x + n) 0 (map (fun kv => json_steps kv.2) m)
      <= 2 * foldr (fun x n => 1 + x + n) 0 (map (fun x => String.length (member_text x)) m))%nat
      by lia.
    apply sum_steps_mono. intros kv Hx. pose proof (json_steps_elem (fun kv => json_steps kv.2) m kv Hx).
    unfold member_text. rewrite !str_length_app.
    enough (json_steps kv.2 <= 2 * String.length (print_json kv.2))%nat by lia.
    apply IH; [lia|]. by eapply Forall_forall in Hm as [_ ?].
Qed.

(** What the encoder writes, the decoder reads back. *)
Lemma parse_print_json j : json_wf j -> json_depth j <= max_depth -> parse_json (print_json j) = Some j.
Proof.
  intros Hwf Hd. unfold parse_json.
  pose proof (json_steps_length (json_steps j) j (le_n _) Hwf) as Hs.
  pose proof (value_reads_back (json_steps j) j (le_n _) Hwf
    (2 * String.length (print_json j) + 2)%nat 0 "" ltac:(lia) ltac:(lia) eq_refl) as Hr.
  rewrite str_app_nil_r in Hr. rewrite Hr. done.
Qed.
