(* ===== verification/Codec.v ===== *)
(** The mapping between Go types and JSON values that [encoding/json] derives from
    a type: integer widths, nil-able pointers and slices, [time.Time], and structs
    with their field names, [omitempty], case-insensitive field match, later
    duplicates winning and null leaving a value as it was.

    [Codec A] is the mapping of one Go type; [CodecLaws A] is what it promises: a
    value that needs no repair ([c_ok]) reads back from its own text.  Structs get
    both from the list of their fields.  The escapes inside the text of a time are
    not told apart from the characters they stand for. *)
From S2P Require Import Prelude Sha256 GoTime Json.

Class Codec (A : Type) := {
  c_zero : A;
  c_enc : A -> option json;
  c_dec : bool -> json -> A -> option A;
  c_empty : A -> bool;
  c_blank : A -> bool;
  c_ok : A -> bool;
  c_depth : Z }.

(** [c_dec strict j old]: decoding [j] into a variable that holds [old]; [strict]
    is DisallowUnknownFields.  [c_empty] is what omitempty leaves out; [c_blank]
    holds only of the zero value; [c_depth] bounds the nesting of the text. *)

(** * Scalars *)
#[export] Instance codec_string : Codec string := {
  c_zero := "";
  c_enc := fun s => Some (JStr s);
  c_dec := fun _ j old => match j with JStr s => Some s | JNull => Some old | _ => None end;
  c_empty := fun s => str_eqb s "";
  c_blank := fun s => str_eqb s "";
  c_ok := valid_utf8;
  c_depth := 0 }.

#[export] Instance codec_bool : Codec bool := {
  c_zero := false;
  c_enc := fun b => Some (JBool b);
  c_dec := fun _ j old => match j with JBool b => Some b | JNull => Some old | _ => None end;
  c_empty := negb;
  c_blank := negb;
  c_ok := fun _ => true;
  c_depth := 0 }.

(** Integers of a Go width; [int] is 64 bits on the platforms Camp runs on.  A
    negative literal is refused for an unsigned type even when it is -0. *)
Definition dec_int (signed : bool) (lo hi : Z) (j : json) (old : Z) : option Z :=
  match j with
  | JNum lit =>
      if negb signed && HasPrefix lit "-" then None
      else z ← parse_int lit; if (lo <=? z) && (z <=? hi) then Some z else None
  | JNull => Some old
  | _ => None
  end.

Definition codec_int (signed : bool) (lo hi : Z) : Codec Z := {|
  c_zero := 0;
  c_enc := fun z => Some (JNum (FormatInt z));
  c_dec := fun _ j old => dec_int signed lo hi j old;
  c_empty := fun z => z =? 0;
  c_blank := fun z => z =? 0;
  c_ok := fun z => (lo <=? z) && (z <=? hi);
  c_depth := 0 |}.

Definition int64_codec : Codec Z := codec_int true (- 2 ^ 63) (2 ^ 63 - 1).
Definition int_codec : Codec Z := int64_codec.
Definition uint64_codec : Codec Z := codec_int false 0 (2 ^ 64 - 1).
Definition uint32_codec : Codec Z := codec_int false 0 (2 ^ 32 - 1).

#[export] Instance codec_time : Codec Time := {
  c_zero := zero_time;
  c_enc := fun t => JStr <$> format_rfc3339 t;
  c_dec := fun _ j old =>
    match j with JStr s => parse_rfc3339 s | JNull => Some old | _ => None end;
  c_empty := fun _ => false;
  c_blank := fun _ => false;
  c_ok := fun t => match format_rfc3339 t with Some s => valid_utf8 s | None => false end;
  c_depth := 0 }.

(** * Pointers and slices: a nil pointer is [None], a nil slice [SNil] *)
#[export] Instance codec_pointer {A} `{Codec A} : Codec (option A) := {
  c_zero := None;
  c_enc := fun p => match p with Some a => c_enc a | None => Some JNull end;
  c_dec := fun strict j old =>
    match j with JNull => Some None | _ => Some <$> c_dec strict j (default c_zero old) end;
  c_empty := fun p => match p with Some _ => false | None => true end;
  c_blank := fun p => match p with Some _ => false | None => true end;
  c_ok := fun p =>
    match p with
    | Some a => c_ok a && match c_enc a with Some JNull => false | _ => true end
    | None => true
    end;
  c_depth := Z.max 0 c_depth }.

Inductive slice (A : Type) :=
| SNil
| SList (l : list A).
Arguments SNil {A}.
Arguments SList {A} l.

#[export] Instance slice_eq_dec {A} `{EqDecision A} : EqDecision (slice A).
Proof. solve_decision. Defined.

Definition elems {A} (s : slice A) : list A := match s with SNil => [] | SList l => l end.

Fixpoint enc_list {A} `{Codec A} (l : list A) : option (list json) :=
  match l with
  | [] => Some []
  | a :: l' => j ← c_enc a; js ← enc_list l'; Some (j :: js)
  end.

(** Element [i] is decoded over the slice's old element [i], a zero value past its
    length. *)
Fixpoint dec_list {A} `{Codec A} (strict : bool) (js : list json) (old : list A) : option (list A) :=
  match js with
  | [] => Some []
  | j :: js' =>
      a ← c_dec strict j (default c_zero (head old));
      l ← dec_list strict js' (tail old);
      Some (a :: l)
  end.

#[export] Instance codec_slice {A} `{Codec A} : Codec (slice A) := {
  c_zero := SNil;
  c_enc := fun s => match s with SNil => Some JNull | SList l => JArr <$> enc_list l end;
  c_dec := fun strict j old =>
    match j with
    | JNull => Some SNil
    | JArr js => SList <$> dec_list strict js (elems old)
    | _ => None
    end;
  c_empty := fun s => match elems s with [] => true | _ => false end;
  c_blank := fun s => match s with SNil => true | SList _ => false end;
  c_ok := fun s => forallb c_ok (elems s);
  c_depth := 1 + Z.max 0 c_depth }.

(** * Structs *)
Inductive fields : Type -> Type :=
| FNil : fields unit
| FCons {A B : Type} (name : string) (omitempty : bool) (c : Codec A) (rest : fields B) : fields (A * B).

(** Folding a key the way the decoder compares field names: ASCII letters, and
    the two other runes that fold to one (U+017F to s, U+212A to k). *)
Definition upper_byte (c : ascii) : ascii :=
  let v := byte_val c in if (97 <=? v) && (v <=? 122) then byte_of (v - 32) else c.

Fixpoint fold_name (s : string) : string :=
  match s with
  | EmptyString => EmptyString
  | String a r =>
      match r with
      | String b r2 =>
          if (byte_val a =? 197) && (byte_val b =? 191) then String "S" (fold_name r2)
          else match r2 with
          | String c r3 =>
              if (byte_val a =? 226) && (byte_val b =? 132) && (byte_val c =? 170)
              then String "K" (fold_name r3)
              else String (upper_byte a) (fold_name r)
          | EmptyString => String (upper_byte a) (fold_name r)
          end
      | EmptyString => String (upper_byte a) (fold_name r)
      end
  end.

Fixpoint field_names {T} (fs : fields T) : list string :=
  match fs with FNil => [] | FCons name _ _ rest => name :: field_names rest end.

Fixpoint fields_zero {T} (fs : fields T) : T :=
  match fs with FNil => tt | FCons _ _ c rest => (@c_zero _ c, fields_zero rest) end.

Fixpoint enc_fields {T} (fs : fields T) : T -> option (list (string * json)) :=
  match fs with
  | FNil => fun _ => Some []
  | FCons name omitempty c rest => fun t =>
      if omitempty && @c_empty _ c t.1 then enc_fields rest t.2
      else j ← @c_enc _ c t.1; ms ← enc_fields rest t.2; Some ((name, j) :: ms)
  end.

(** Decodes [j] into the first field whose name satisfies [p]; [None] when no
    field does. *)
Fixpoint dec_field {T} (fs : fields T) (p : string -> bool) (strict : bool) (j : json) : T -> option (option T) :=
  match fs with
  | FNil => fun _ => None
  | FCons name _ c rest => fun t =>
      if p name then Some (a ← @c_dec _ c strict j t.1; Some (a, t.2))
      else match dec_field rest p strict j t.2 with
           | Some r => Some (b ← r; Some (t.1, b))
           | None => None
           end
  end.

Definition dec_member {T} (fs : fields T) (strict : bool) (kv : string * json) (t : T) : option T :=
  match dec_field fs (str_eqb kv.1) strict kv.2 t with
  | Some r => r
  | None =>
      match dec_field fs (fun name => str_eqb (fold_name kv.1) (fold_name name)) strict kv.2 t with
      | Some r => r
      | None => if strict then None else Some t
      end
  end.

Fixpoint dec_members {T} (fs : fields T) (strict : bool) (ms : list (string * json)) (t : T) : option T :=
  match ms with
  | [] => Some t
  | kv :: ms' => t' ← dec_member fs strict kv t; dec_members fs strict ms' t'
  end.

Fixpoint fields_ok {T} (fs : fields T) : T -> bool :=
  match fs with
  | FNil => fun _ => true
  | FCons _ omitempty c rest => fun t =>
      (if omitempty && @c_empty _ c t.1 then @c_blank _ c t.1 else @c_ok _ c t.1) && fields_ok rest t.2
  end.

Fixpoint fields_depth {T} (fs : fields T) : Z :=
  match fs with FNil => 0 | FCons _ _ c rest => Z.max (@c_depth _ c) (fields_depth rest) end.

(** The codec of a struct that [to] and [from] identify with the tuple of its
    fields. *)
Definition codec_struct {R T} (fs : fields T) (to : R -> T) (from : T -> R) : Codec R := {|
  c_zero := from (fields_zero fs);
  c_enc := fun r => JObj <$> enc_fields fs (to r);
  c_dec := fun strict j old =>
    match j with
    | JObj ms => from <$> dec_members fs strict ms (to old)
    | JNull => Some old
    | _ => None
    end;
  c_empty := fun _ => false;
  c_blank := fun _ => false;
  c_ok := fun r => fields_ok fs (to r);
  c_depth := 1 + fields_depth fs |}.

(** * Entry points *)
Definition Marshal {A} `{Codec A} (a : A) : option bytes := print_json <$> c_enc a.

(** [json.Unmarshal] into a fresh variable. *)
Definition Unmarshal {A} `{Codec A} (text : bytes) : option A :=
  j ← parse_json text; c_dec false j c_zero.

(** A [json.Decoder] with DisallowUnknownFields that must find one value. *)
Definition UnmarshalStrict {A} `{Codec A} (text : bytes) : option A :=
  j ← parse_json text; c_dec true j c_zero.

(** * Round trips *)
Class CodecLaws (A : Type) (c : Codec A) : Prop := {
  enc_total a : c_ok a = true -> exists j, c_enc a = Some j /\ json_wf j /\ json_depth j <= c_depth;
  dec_enc strict a j : c_ok a = true -> c_enc a = Some j -> c_dec strict j c_zero = Some a;
  blank_zero a : c_blank a = true -> a = c_zero }.

#[export] Instance laws_string : CodecLaws string _.
Proof.
  split; simpl.
  - intros s Hs. eexists. split; [done|]. split; [by constructor|simpl; lia].
  - by intros strict s j Hs [= <-].
  - intros s Hs. by bool_norm.
Qed.

#[export] Instance laws_bool : CodecLaws bool _.
Proof.
  split; simpl.
  - intros b _. eexists. split; [done|]. split; [by constructor|simpl; lia].
  - by intros strict b j _ [= <-].
  - by intros [].
Qed.

Lemma FormatInt_no_sign z : 0 <= z -> HasPrefix (FormatInt z) "-" = false.
Proof.
  intros Hz. destruct (FormatInt_cases z) as [(_ & Hl & _)|(Hneg & _)]; [|lia].
  destruct (nat_literal_nonempty _ Hl) as (c & t & -> & Hc). simpl.
  rewrite bool_decide_false; [done|]. by intros <-.
Qed.

Lemma laws_int signed lo hi : (signed = true \/ lo = 0) -> CodecLaws Z (codec_int signed lo hi).
Proof.
  intros Hsl. split; simpl.
  - intros z Hz. eexists. split; [done|]. split; [by constructor|simpl; lia].
  - intros strict z j Hz <-%Some_inj. unfold dec_int.
    destruct (negb signed && HasPrefix (FormatInt z) "-") eqn:E.
    + destruct Hsl as [-> | ->]; [done|]. apply andb_true_iff in E as [_ E].
      rewrite FormatInt_no_sign in E by lia. done.
    + rewrite parse_int_FormatInt. simpl. by rewrite Hz.
  - intros z Hz. by apply Z.eqb_eq.
Qed.

#[export] Instance laws_int64 : CodecLaws Z int64_codec.
Proof. apply laws_int. by left. Qed.
#[export] Instance laws_goint : CodecLaws Z int_codec.
Proof. apply laws_int. by left. Qed.
#[export] Instance laws_uint64 : CodecLaws Z uint64_codec.
Proof. apply laws_int. by right. Qed.
#[export] Instance laws_uint32 : CodecLaws Z uint32_codec.
Proof. apply laws_int. by right. Qed.

#[export] Instance laws_time : CodecLaws Time _.
Proof.
  split; simpl.
  - intros t Ht. destruct (format_rfc3339 t) as [s|]; [|done]. eexists. split; [done|].
    split; [by constructor|simpl; lia].
  - intros strict t j Ht Hj. destruct (format_rfc3339 t) as [s|] eqn:E; [|done].
    injection Hj as <-. by apply parse_format.
  - done.
Qed.

#[export] Instance laws_pointer {A} `{Codec A} `{!CodecLaws A _} : CodecLaws (option A) _.
Proof.
  split; simpl.
  - intros [a|] Ha.
    + bool_norm. destruct (enc_total a) as (j & Hj & Hwf & Hd); [done|]. exists j. split; [done|]. split; [done|lia].
    + eexists. split; [done|]. split; [constructor|simpl; lia].
  - intros strict [a|] j Ha Hj; [|by injection Hj as <-]. bool_norm. rewrite Hj in *.
    pose proof (dec_enc strict a j ltac:(done) Hj) as Hdec. destruct j; try done; by rewrite Hdec.
  - by intros [].
Qed.

Lemma enc_list_total {A} `{Codec A} `{!CodecLaws A _} (l : list A) :
  forallb c_ok l = true ->
  exists js, enc_list l = Some js /\ Forall json_wf js /\ foldr Z.max 0 (map json_depth js) <= Z.max 0 c_depth.
Proof.
  induction l as [|a l IH]; simpl; intros Hl; [exists []; simpl; repeat split; [constructor|lia]|].
  bool_norm. destruct (enc_total a) as (j & -> & Hwf & Hd); [done|].
  destruct IH as (js & -> & Hwfs & Hds); [done|]. exists (j :: js). simpl.
  split; [done|]. split; [by constructor|lia].
Qed.

Lemma dec_list_enc {A} `{Codec A} `{!CodecLaws A _} strict (l : list A) js :
  forallb c_ok l = true -> enc_list l = Some js -> dec_list strict js [] = Some l.
Proof.
  revert js. induction l as [|a l IH]; simpl; intros js Hl Hjs; [by injection Hjs as <-|]. bool_norm.
  destruct (c_enc a) as [j|] eqn:Ej; [|done]. destruct (enc_list l) as [js'|] eqn:El; [|done].
  injection Hjs as <-. simpl. rewrite (dec_enc strict a j) by done. simpl. by rewrite (IH js').
Qed.

#[export] Instance laws_slice {A} `{Codec A} `{!CodecLaws A _} : CodecLaws (slice A) _.
Proof.
  split; simpl.
  - intros [|l] Hl; [eexists; split; [done|]; split; [constructor|simpl; lia]|].
    destruct (enc_list_total l Hl) as (js & -> & Hwf & Hd). eexists. split; [done|].
    split; [by constructor|simpl; lia].
  - intros strict [|l] j Hl Hj; [by injection Hj as <-|]. simpl in Hl.
    destruct (enc_list l) as [js|] eqn:E; [|done]. injection Hj as <-. simpl.
    by rewrite (dec_list_enc strict l js).
  - by intros [].
Qed.

(** The laws of a list of fields, and that their names are valid and distinct. *)
Inductive fields_laws : forall T, fields T -> Prop :=
| laws_nil : fields_laws unit FNil
| laws_cons A B name omitempty (c : Codec A) (rest : fields B) :
    CodecLaws A c -> fields_laws B rest -> fields_laws (A * B) (FCons name omitempty c rest).

Definition names_ok {T} (fs : fields T) : bool :=
  forallb valid_utf8 (field_names fs) && bool_decide (NoDup (field_names fs)).

Lemma enc_fields_total {T} (fs : fields T) :
  fields_laws T fs -> forallb valid_utf8 (field_names fs) = true -> forall t, fields_ok fs t = true ->
  exists ms, enc_fields fs t = Some ms /\
    Forall (fun kv => valid_utf8 kv.1 = true /\ json_wf kv.2) ms /\
    Forall (fun kv => kv.1 ∈ field_names fs) ms /\
    foldr Z.max 0 (map (fun kv => json_depth kv.2) ms) <= fields_depth fs.
Proof.
  induction 1 as [|A B name om c rest Hc Hrest IH]; intros Hn t Ht; simpl in *.
  { exists []. repeat split; try constructor. simpl. lia. }
  destruct t as [a b]. simpl in *. bool_norm.
  destruct (IH ltac:(done) b ltac:(done)) as (ms & Hms & Hwf & Hin & Hd).
  assert (Forall (fun kv => kv.1 ∈ name :: field_names rest) ms) as Hin'.
  { eapply Forall_impl; [exact Hin|]. intros kv Hkv. by right. }
  destruct (om && c_empty a).
  { exists ms. repeat split; [done|done|done|lia]. }
  destruct (enc_total a) as (j & -> & Hj & Hdj); [done|]. rewrite Hms. simpl.
  eexists. split; [done|]. split; [by constructor|]. split; [constructor; [by left|done]|]. simpl. lia.
Qed.

Lemma dec_field_found {T} (fs : fields T) strict k j t :
  k ∈ field_names fs -> exists r, dec_field fs (str_eqb k) strict j t = Some r.
Proof.
  induction fs as [|A B name om c rest IH]; simpl; intros Hk; [by apply not_elem_of_nil in Hk|].
  destruct (str_eqb k name) eqn:E; [by eexists|]. bool_norm.
  apply elem_of_cons in Hk as [->|Hk]; [done|]. destruct (IH t.2 Hk) as [r ->]. by eexists.
Qed.

(** Members named after later fields leave the first one alone. *)
Lemma dec_members_tail {A B} name om (c : Codec A) (rest : fields B) strict ms a b :
  name ∉ field_names rest -> Forall (fun kv => kv.1 ∈ field_names rest) ms ->
  dec_members (FCons name om c rest) strict ms (a, b) =
  (b' ← dec_members rest strict ms b; Some (a, b')).
Proof.
  intros Hn. revert b. induction ms as [|[k j] ms IH]; intros b Hms; [done|].
  apply Forall_cons in Hms as [Hk Hms]. simpl in Hk. cbn [dec_members]. unfold dec_member.
  cbn [fst snd dec_field]. rewrite (proj2 (str_eqb_neq k name)) by (by intros ->).
  destruct (dec_field_found rest strict k j b Hk) as [r ->].
  destruct r as [b1|]; simpl; [|done]. by rewrite IH.
Qed.

Lemma dec_members_enc {T} (fs : fields T) strict :
  fields_laws T fs -> names_ok fs = true -> forall t ms,
  fields_ok fs t = true -> enc_fields fs t = Some ms -> dec_members fs strict ms (fields_zero fs) = Some t.
Proof.
  induction 1 as [|A B name om c rest Hc Hrest IH]; intros Hn t ms Ht Hms; simpl in *.
  { injection Hms as <-. by destruct t. }
  unfold names_ok in *. simpl in *. destruct t as [a b]. simpl in *. bool_norm.
  match goal with H : NoDup _ |- _ => apply NoDup_cons in H as [Hni Hnd] end.
  assert (names_ok rest = true) as Hr.
  { unfold names_ok. rewrite bool_decide_true by done. by rewrite andb_true_r. }
  destruct (enc_fields_total rest Hrest ltac:(done) b ltac:(done)) as (ms' & Hms' & _ & Hin & _).
  specialize (IH ltac:(unfold names_ok in Hr; done) b ms' ltac:(done) Hms').
  destruct (om && c_empty a) eqn:Eo.
  - rewrite Hms' in Hms. injection Hms as <-. rewrite dec_members_tail by done. rewrite IH. simpl.
    f_equal. f_equal. symmetry. apply blank_zero. done.
  - destruct (c_enc a) as [j|] eqn:Ej; [|done]. simpl in Hms. rewrite Hms' in Hms. injection Hms as <-.
    cbn [dec_members]. unfold dec_member. cbn [fst snd dec_field]. rewrite str_eqb_refl.
    rewrite (dec_enc strict a j) by done. simpl. rewrite dec_members_tail by done. by rewrite IH.
Qed.

(** A struct inherits the laws from its fields. *)
Lemma laws_struct {R T} (fs : fields T) (to : R -> T) (from : T -> R) :
  (forall r, from (to r) = r) -> (forall t, to (from t) = t) ->
  fields_laws T fs -> names_ok fs = true -> CodecLaws R (codec_struct fs to from).
Proof.
  intros Hr Ht Hl Hn. split; simpl.
  - intros r Hok. pose proof Hn as Hn'. unfold names_ok in Hn'. bool_norm.
    destruct (enc_fields_total fs Hl ltac:(done) (to r) Hok) as (ms & -> & Hwf & _ & Hd).
    eexists. split; [done|]. split; [by constructor|simpl; lia].
  - intros strict r j Hok Hj. destruct (enc_fields fs (to r)) as [ms|] eqn:E; [|done].
    injection Hj as <-. rewrite Ht, (dec_members_enc fs strict Hl Hn (to r) ms Hok E). simpl. by rewrite Hr.
  - done.
Qed.

(** What a value's own text decodes to, strictly or not. *)
Lemma Unmarshal_Marshal {A} `{Codec A} `{!CodecLaws A _} (a : A) :
  c_ok a = true -> c_depth <= max_depth ->
  exists text, Marshal a = Some text /\ Unmarshal text = Some a /\ UnmarshalStrict text = Some a.
Proof.
  intros Hok Hd. destruct (enc_total a Hok) as (j & Hj & Hwf & Hjd). exists (print_json j).
  unfold Marshal, Unmarshal, UnmarshalStrict. rewrite Hj.
  rewrite parse_print_json by (done || lia). simpl. split; [done|]. split; by apply dec_enc.
Qed.

(** Two clean values with one text are equal. *)
Lemma Marshal_inj {A} `{Codec A} `{!CodecLaws A _} (a b : A) text :
  c_ok a = true -> c_ok b = true -> c_depth <= max_depth ->
  Marshal a = Some text -> Marshal b = Some text -> a = b.
Proof.
  intros Ha Hb Hd Hma Hmb. destruct (Unmarshal_Marshal a Ha Hd) as (ta & Hta & Hua & _).
  destruct (Unmarshal_Marshal b Hb Hd) as (tb & Htb & Hub & _). congruence.
Qed.

(** ** [json.RawMessage]

    A raw value is kept as text; reading one gives the text the encoder writes for
    it (white space and escapes are normalised). *)
Fixpoint json_wfb (fuel : nat) (j : json) : bool :=
  match fuel with
  | O => false
  | S fuel' =>
      match j with
      | JNull | JBool _ => true
      | JNum lit => match parse_int lit with Some z => str_eqb (FormatInt z) lit | None => false end
      | JStr s => valid_utf8 s
      | JArr l => forallb (json_wfb fuel') l
      | JObj m => forallb (fun kv => valid_utf8 kv.1 && json_wfb fuel' kv.2) m
      end
  end.

Definition raw_depth : Z := 1000.

Definition raw_codec : Codec bytes := {|
  c_zero := "";
  c_enc := fun raw => if str_eqb raw "" then Some JNull else parse_json raw;
  c_dec := fun _ j _ => Some (print_json j);
  c_empty := fun raw => str_eqb raw "";
  c_blank := fun raw => str_eqb raw "";
  c_ok := fun raw => negb (str_eqb raw "") &&
    match parse_json raw with
    | Some j => str_eqb (print_json j) raw && json_wfb (S (String.length raw)) j && (json_depth j <=? raw_depth)
    | None => false
    end;
  c_depth := raw_depth |}.

Lemma json_wfb_wf fuel j : json_wfb fuel j = true -> json_wf j.
Proof.
  revert j. induction fuel as [|fuel IH]; intros j H; [done|]. destruct j; simpl in H.
  - constructor.
  - constructor.
  - destruct (parse_int lit) as [z|]; [|done]. bool_norm. subst. constructor.
  - by constructor.
  - constructor. apply Forall_forall. intros x Hx. apply IH. rewrite forallb_forall in H. apply H.
    by apply list_elem_of_In.
  - constructor. apply Forall_forall. intros x Hx. rewrite forallb_forall in H.
    specialize (H x (proj1 (list_elem_of_In _ _) Hx)). bool_norm. auto.
Qed.

#[export] Instance laws_raw : CodecLaws bytes raw_codec.
Proof.
  split; cbn [c_ok c_enc c_dec c_zero c_blank c_depth raw_codec].
  - intros raw H. bool_norm. rewrite (proj2 (str_eqb_neq _ _)) by done.
    destruct (parse_json raw) as [j|]; [|done]. bool_norm. exists j. split; [done|]. split; [by eapply json_wfb_wf|done].
  - intros strict raw j H Hj. bool_norm. rewrite (proj2 (str_eqb_neq _ _)) in Hj by done.
    rewrite Hj in *. bool_norm. by f_equal.
  - intros raw H. by bool_norm.
Qed.

(** Proves the laws of a struct codec from the instances of its fields. *)
Ltac solve_struct_laws :=
  apply laws_struct;
  [by intros [] | by intros; destruct_and?; repeat match goal with t : _ * _ |- _ => destruct t | t : unit |- _ => destruct t end
  | repeat (apply laws_cons; [apply _|]); apply laws_nil | vm_compute; reflexivity].
