(* ===== verification/JsonLines.v ===== *)
(** JSON documents one per line, as the journal log keeps them: the encoder writes no
    newline, so a document and a newline read back as the document. *)
From S2P Require Import Prelude Sha256 GoTime Json Codec.

(** A text on one line. *)
Definition one_line (s : string) : bool := str_all (fun c => negb (byte_val c =? 10)) s.

Lemma rune_bytes a r :
  (byte_val a <? 128) = false ->
  str_all (fun c => 128 <=? byte_val c) (str_take (rune_size (String a r)) (String a r)) = true.
Proof.
  intros Ha. unfold rune_size. rewrite Ha. bool_norm.
  assert (forall lead c, second_ok lead c = true -> 128 <= byte_val c) as Hs.
  { intros lead c. unfold second_ok. destruct (lead =? 224), (lead =? 240); lia. }
  assert (forall c, is_cont c = true -> 128 <= byte_val c) as Hc by (intros c; unfold is_cont; lia).
  destruct r as [|b r]; [done|].
  destruct (_ && _) eqn:E1; [destruct (is_cont b) eqn:E2; [|done]|].
  { simpl. specialize (Hc b E2). lia. }
  destruct r as [|c r]; [done|].
  repeat (match goal with |- context [if ?x then _ else _] => destruct x eqn:? end; try done);
  try (destruct r as [|d r]; try done);
  repeat (match goal with |- context [if ?x then _ else _] => destruct x eqn:? end; try done);
  simpl; bool_norm;
  repeat match goal with H : second_ok _ _ = true |- _ => apply Hs in H | H : is_cont _ = true |- _ => apply Hc in H end;
  lia.
Qed.
Lemma escape_ascii_one_line a : one_line (escape_ascii a) = true.
Proof. destruct a as [[] [] [] [] [] [] [] []]; vm_compute; reflexivity. Qed.

Lemma escape_one_line fuel s : one_line (escape fuel s) = true.
Proof.
  revert s. induction fuel as [|fuel IH]; intros [|a r]; try done. cbn [escape]. unfold one_line in *.
  destruct (byte_val a <? 128) eqn:Ea.
  - rewrite str_all_app, IH, andb_true_r. apply escape_ascii_one_line.
  - destruct (rune_size (String a r)) as [|n] eqn:En; rewrite str_all_app, IH; [done|]. rewrite andb_true_r.
    unfold escape_rune. destruct (str_eqb _ _); [done|]. destruct (str_eqb _ _); [done|].
    rewrite <-En. eapply str_all_impl; [|apply rune_bytes; done]. cbn beta. intros c. lia.
Qed.

Lemma print_string_one_line s : one_line (print_string s) = true.
Proof. unfold print_string, one_line. simpl. rewrite str_all_app. by rewrite escape_one_line. Qed.

Lemma Join_one_line l sep : one_line sep = true -> Forall (fun s => one_line s = true) l -> one_line (Join l sep) = true.
Proof.
  intros Hs H. unfold one_line in *. induction H as [|x l Hx Hl IH]; [done|]. destruct l as [|y l]; [done|].
  rewrite Join_cons, !str_all_app, Hx, Hs. done.
Qed.

Lemma FormatInt_one_line z : one_line (FormatInt z) = true.
Proof.
  assert (forall s, str_all is_digit s = true -> one_line s = true) as Hd.
  { intros s. apply str_all_impl. intros c. unfold is_digit. lia. }
  destruct (FormatInt_cases z) as [(_ & [H _] & _)|(_ & t & -> & [H _] & _)]; [by apply Hd|].
  unfold one_line in *. simpl. by apply Hd.
Qed.

Lemma print_json_one_line n j : (json_steps j <= n)%nat -> json_wf j -> one_line (print_json j) = true.
Proof.
  revert j. induction n as [|n IH]; intros j Hn Hwf; [destruct j; simpl in Hn; lia|].
  inversion Hwf as [|b|z|s Hs|l Hl|m Hm]; subst; cbn [print_json json_steps] in *.
  - done.
  - by destruct b.
  - apply FormatInt_one_line.
  - apply print_string_one_line.
  - unfold one_line. rewrite !str_all_app. fold (one_line (Join (map print_json l) ",")).
    rewrite Join_one_line; [done|done|]. apply Forall_map, Forall_forall. intros x Hx.
    apply IH; [pose proof (json_steps_elem json_steps l x Hx); lia|by eapply Forall_forall in Hl].
  - unfold one_line. rewrite !str_all_app.
    fold (one_line (Join (map (fun kv => print_string kv.1 +:+ ":" +:+ print_json kv.2) m) ",")).
    rewrite Join_one_line; [done|done|]. apply Forall_map, Forall_forall. intros kv Hx.
    unfold one_line. rewrite !str_all_app. fold (one_line (print_string kv.1)). fold (one_line (print_json kv.2)).
    rewrite print_string_one_line, IH; [done| |].
    + pose proof (json_steps_elem (fun kv => json_steps kv.2) m kv Hx). simpl in *. lia.
    + by eapply Forall_forall in Hm as [_ ?].
Qed.

(** A text followed by white space reads the same. *)
Lemma parse_print_line j : json_wf j -> json_depth j <= max_depth ->
  parse_json (print_json j +:+ String (byte_of 10) "") = Some j.
Proof.
  intros Hwf Hd. unfold parse_json. rewrite str_length_app.
  pose proof (json_steps_length (json_steps j) j (le_n _) Hwf) as Hs.
  rewrite (value_reads_back (json_steps j) j (le_n _) Hwf _ 0 (String (byte_of 10) "")); [done|simpl; lia|lia|done].
Qed.

Lemma Marshal_line {A} `{Codec A} `{!CodecLaws A _} (a : A) :
  c_ok a = true -> c_depth <= max_depth ->
  exists text, Marshal a = Some text /\ one_line text = true /\ Unmarshal (text +:+ String (byte_of 10) "") = Some a.
Proof.
  intros Hok Hd. destruct (enc_total a Hok) as (j & Hj & Hwf & Hjd). exists (print_json j).
  unfold Marshal, Unmarshal. rewrite Hj. split; [done|]. split; [by eapply print_json_one_line|].
  rewrite parse_print_line by (done || lia). simpl. by apply dec_enc.
Qed.
