(* ===== verification/Regexp.v ===== *)
(** Regular expressions as the sources use Go's [regexp] package: anchored
    patterns over byte classes, matched by derivatives, with the matcher proved
    equal to the language of the pattern. *)
From S2P Require Import Prelude.

Inductive re :=
| RNone
| REps
| RClass (p : ascii -> bool)
| RSeq (r1 r2 : re)
| RAlt (r1 r2 : re)
| RStar (r : re).

Inductive lang : re -> string -> Prop :=
| lang_eps : lang REps ""
| lang_class p c : p c = true -> lang (RClass p) (String c "")
| lang_seq r1 r2 s1 s2 : lang r1 s1 -> lang r2 s2 -> lang (RSeq r1 r2) (s1 +:+ s2)
| lang_alt_l r1 r2 s : lang r1 s -> lang (RAlt r1 r2) s
| lang_alt_r r1 r2 s : lang r2 s -> lang (RAlt r1 r2) s
| lang_star_nil r : lang (RStar r) ""
| lang_star_cons r c s1 s2 : lang r (String c s1) -> lang (RStar r) s2 -> lang (RStar r) (String c s1 +:+ s2).

Fixpoint nullable (r : re) : bool :=
  match r with
  | RNone | RClass _ => false
  | REps | RStar _ => true
  | RSeq r1 r2 => nullable r1 && nullable r2
  | RAlt r1 r2 => nullable r1 || nullable r2
  end.

(** Sequence and alternative that drop the branches which cannot match. *)
Definition seq (r1 r2 : re) : re :=
  match r1, r2 with
  | RNone, _ | _, RNone => RNone
  | REps, _ => r2
  | _, _ => RSeq r1 r2
  end.
Definition alt (r1 r2 : re) : re :=
  match r1, r2 with
  | RNone, _ => r2
  | _, RNone => r1
  | _, _ => RAlt r1 r2
  end.

Fixpoint deriv (c : ascii) (r : re) : re :=
  match r with
  | RNone | REps => RNone
  | RClass p => if p c then REps else RNone
  | RSeq r1 r2 =>
      let d := seq (deriv c r1) r2 in
      if nullable r1 then alt d (deriv c r2) else d
  | RAlt r1 r2 => alt (deriv c r1) (deriv c r2)
  | RStar r1 => seq (deriv c r1) (RStar r1)
  end.

(** A pattern between ^ and $. *)
Fixpoint MatchString (r : re) (s : string) : bool :=
  match s with
  | EmptyString => nullable r
  | String c s' => MatchString (deriv c r) s'
  end.

Definition ROpt (r : re) : re := RAlt REps r.
Definition RPlus (r : re) : re := RSeq r (RStar r).
Definition RChar (c : ascii) : re := RClass (fun d => bool_decide (d = c)).

(** [r{0,n}] and [r{n}]. *)
Fixpoint RUpTo (n : nat) (r : re) : re :=
  match n with O => REps | S n' => ROpt (RSeq r (RUpTo n' r)) end.
Fixpoint RTimes (n : nat) (r : re) : re :=
  match n with O => REps | S n' => RSeq r (RTimes n' r) end.

(** * The matcher decides the language *)
Lemma lang_seq_iff r1 r2 s : lang (seq r1 r2) s <-> lang (RSeq r1 r2) s.
Proof.
  split.
  - intros H. destruct r1, r2; simpl in H;
      first [exact H | inversion H; fail | change s with ("" +:+ s); constructor; [constructor|exact H]].
  - intros H. destruct r1, r2; simpl; try exact H;
      inversion H as [| |a b s1 s2 H1 H2| | | |]; subst;
      first [inversion H1; fail | inversion H2; fail | inversion H1; subst; exact H2].
Qed.

Lemma lang_alt_iff r1 r2 s : lang (alt r1 r2) s <-> lang r1 s \/ lang r2 s.
Proof.
  assert (forall t, ~ lang RNone t) as Hnone by (intros t H; inversion H).
  assert (lang (alt r1 r2) s <-> lang (RAlt r1 r2) s) as ->.
  { split.
    - intros H. destruct r1, r2; simpl in H; first [exact H | apply lang_alt_l; exact H | apply lang_alt_r; exact H].
    - intros H. destruct r1, r2; simpl; try exact H; inversion H; subst; first [assumption | exfalso; eapply Hnone; eassumption]. }
  split; [intros H; inversion H; subst; auto|]. intros [H|H]; by constructor.
Qed.

Lemma nullable_iff r : nullable r = true <-> lang r "".
Proof.
  split.
  - induction r; simpl; intros H; try done; try (by constructor).
    + bool_norm. change "" with ("" +:+ ""). constructor; auto.
    + apply orb_true_iff in H as [H|H]; [apply lang_alt_l|apply lang_alt_r]; auto.
  - intros H. remember "" as s eqn:Hs. induction H; simpl; try done.
    + destruct s1; [|done]. rewrite IHlang1 by done. by rewrite IHlang2.
    + by rewrite IHlang.
    + by rewrite IHlang, orb_true_r.
Qed.

Lemma deriv_iff c r s : lang (deriv c r) s <-> lang r (String c s).
Proof.
  revert s. induction r as [| |p|r1 IH1 r2 IH2|r1 IH1 r2 IH2|r IH]; intros s; simpl.
  - split; intros H; inversion H.
  - split; intros H; inversion H.
  - destruct (p c) eqn:E; split; intros H; inversion H; subst; try constructor; congruence.
  - assert (lang (seq (deriv c r1) r2) s <-> exists s1 s2, s = s1 +:+ s2 /\ lang r1 (String c s1) /\ lang r2 s2) as Hd.
    { rewrite lang_seq_iff. split.
      - intros H. inversion H; subst. rewrite IH1 in *. eauto.
      - intros (s1 & s2 & -> & H1 & H2). constructor; [by apply IH1|done]. }
    assert (lang (RSeq r1 r2) (String c s) <->
      (exists s1 s2, s = s1 +:+ s2 /\ lang r1 (String c s1) /\ lang r2 s2) \/ (lang r1 "" /\ lang r2 (String c s))) as Hs.
    { split.
      - intros H. inversion H as [| |a b s1 s2 H1 H2 Ha Hb| | | |]; subst. destruct s1 as [|d s1].
        + by right.
        + left. injection Hb as -> Hb. exists s1, s2. split; [by rewrite <-Hb|done].
      - intros [(s1 & s2 & -> & H1 & H2)|[H1 H2]].
        + rewrite <-str_app_cons. by constructor.
        + change (String c s) with ("" +:+ String c s). by constructor. }
    rewrite Hs. destruct (nullable r1) eqn:E.
    + rewrite lang_alt_iff, Hd, IH2. apply nullable_iff in E. clear Hd Hs; tauto.
    + rewrite Hd. split; [by left|]. intros [H|[H _]]; [done|]. apply nullable_iff in H. congruence.
  - rewrite lang_alt_iff, IH1, IH2. split.
    + intros [H|H]; by constructor.
    + intros H. inversion H; subst; auto.
  - rewrite lang_seq_iff. split.
    + intros H. inversion H; subst. rewrite <-str_app_cons. constructor; [by apply IH|done].
    + intros H. inversion H as [| | | | | |a d s1 s2 H1 H2 Ha Hb]; subst. constructor; [by apply IH|done].
Qed.

Lemma MatchString_lang r s : MatchString r s = true <-> lang r s.
Proof.
  revert r. induction s as [|c s IH]; intros r; simpl; [apply nullable_iff|]. by rewrite IH, deriv_iff.
Qed.

(** A string of the language uses only bytes of the pattern's classes. *)
Inductive classes_in (p : ascii -> bool) : re -> Prop :=
| ci_none : classes_in p RNone
| ci_eps : classes_in p REps
| ci_class q : (forall c, q c = true -> p c = true) -> classes_in p (RClass q)
| ci_seq r1 r2 : classes_in p r1 -> classes_in p r2 -> classes_in p (RSeq r1 r2)
| ci_alt r1 r2 : classes_in p r1 -> classes_in p r2 -> classes_in p (RAlt r1 r2)
| ci_star r : classes_in p r -> classes_in p (RStar r).

Lemma lang_bytes p r s : classes_in p r -> lang r s -> str_all p s = true.
Proof.
  intros Hp H. induction H; inversion Hp; subst; auto.
  - simpl. rewrite andb_true_r. auto.
  - rewrite str_all_app, IHlang1, IHlang2; auto.
  - rewrite str_all_app, IHlang1, IHlang2; auto.
Qed.

(** Where a pattern has counted classes only, it fixes the length. *)
Lemma RTimes_length n p s : lang (RTimes n (RClass p)) s -> String.length s = n /\ str_all p s = true.
Proof.
  revert s. induction n as [|n IH]; intros s H; inversion H as [| |a b s1 s2 H1 H2| | | |]; subst; [done|].
  inversion H1; subst. destruct (IH s2 H2) as [Hl Ha]. rewrite str_app_cons. simpl.
  change ("" +:+ s2) with s2. split; [by rewrite Hl|]. by rewrite Ha, andb_true_r.
Qed.

Lemma RTimes_intro p s : str_all p s = true -> lang (RTimes (String.length s) (RClass p)) s.
Proof.
  induction s as [|c s IH]; simpl; intros H; [constructor|]. bool_norm.
  change (String c s) with (String c "" +:+ s). constructor; [by constructor|auto].
Qed.
