(* ===== verification/Domain.v ===== *)
(** Package domain: the portable identity documents (controller, blueprint,
    execution binding and provenance), the coordination documents (generation
    references, latest pointers, generation metadata, writer leases) with the keys
    they live under, and their validation.

    Each Go struct is a record whose fields carry a two- or three-letter prefix,
    with the codec [encoding/json] derives from its tags.  The named string types
    of the package (CheckpointState and the like) are open in Go and are plain
    strings here. *)
From S2P Require Import Prelude Sha256 GoTime Json Codec Regexp.

(** * Coordination documents (lineage.go, generation.go, lease.go) *)
(** [Lineage] (lineage.go) *)
Record Lineage := mkLineage {
  ln_Branch : string }.

#[export] Instance Lineage_eq_dec : EqDecision Lineage.
Proof. solve_decision. Defined.

Definition Lineage_fields : fields _ :=
  FCons "branch" false codec_string ( FNil).
#[export] Instance Lineage_codec : Codec Lineage := codec_struct Lineage_fields
  (fun r => (ln_Branch r, tt))
  (fun t => let '(x0, _) := t in mkLineage x0).
#[export] Instance Lineage_laws : CodecLaws Lineage _.
Proof. solve_struct_laws. Qed.

(** [GenerationRef] (generation.go) *)
Record GenerationRef := mkGenerationRef {
  gr_Generation : Z;
  gr_ArchiveSHA256 : string }.

#[export] Instance GenerationRef_eq_dec : EqDecision GenerationRef.
Proof. solve_decision. Defined.

Definition GenerationRef_fields : fields _ :=
  FCons "generation" false uint64_codec (
  FCons "archiveSHA256" false codec_string ( FNil)).
#[export] Instance GenerationRef_codec : Codec GenerationRef := codec_struct GenerationRef_fields
  (fun r => (gr_Generation r, (gr_ArchiveSHA256 r, tt)))
  (fun t => let '(x0, (x1, _)) := t in mkGenerationRef x0 x1).
#[export] Instance GenerationRef_laws : CodecLaws GenerationRef _.
Proof. solve_struct_laws. Qed.

(** [ToolVersions] (generation.go) *)
Record ToolVersions := mkToolVersions {
  tv_DevPod : string;
  tv_Hauler : string }.

#[export] Instance ToolVersions_eq_dec : EqDecision ToolVersions.
Proof. solve_decision. Defined.

Definition ToolVersions_fields : fields _ :=
  FCons "devpod" false codec_string (
  FCons "hauler" false codec_string ( FNil)).
#[export] Instance ToolVersions_codec : Codec ToolVersions := codec_struct ToolVersions_fields
  (fun r => (tv_DevPod r, (tv_Hauler r, tt)))
  (fun t => let '(x0, (x1, _)) := t in mkToolVersions x0 x1).
#[export] Instance ToolVersions_laws : CodecLaws ToolVersions _.
Proof. solve_struct_laws. Qed.

(** [LatestPointer] (generation.go) *)
Record LatestPointer := mkLatestPointer {
  lp_SchemaVersion : Z;
  lp_Capsule : string;
  lp_Lineage : Lineage;
  lp_Generation : GenerationRef;
  lp_Parent : option GenerationRef;
  lp_ObjectKey : string;
  lp_Size : Z;
  lp_CreatedAt : Time;
  lp_Tools : ToolVersions;
  lp_SessionID : string }.

#[export] Instance LatestPointer_eq_dec : EqDecision LatestPointer.
Proof. solve_decision. Defined.

Definition LatestPointer_fields : fields _ :=
  FCons "schemaVersion" false int_codec (
  FCons "capsule" false codec_string (
  FCons "lineage" false (_ : Codec (Lineage)) (
  FCons "generation" false (_ : Codec (GenerationRef)) (
  FCons "parent" true (_ : Codec (option GenerationRef)) (
  FCons "objectKey" false codec_string (
  FCons "size" false int64_codec (
  FCons "createdAt" false codec_time (
  FCons "tools" false (_ : Codec (ToolVersions)) (
  FCons "sessionId" false codec_string ( FNil)))))))))).
#[export] Instance LatestPointer_codec : Codec LatestPointer := codec_struct LatestPointer_fields
  (fun r => (lp_SchemaVersion r, (lp_Capsule r, (lp_Lineage r, (lp_Generation r, (lp_Parent r,
  (lp_ObjectKey r, (lp_Size r, (lp_CreatedAt r, (lp_Tools r, (lp_SessionID r, tt)))))))))))
  (fun t => let '(x0, (x1, (x2, (x3, (x4, (x5, (x6, (x7, (x8, (x9, _)))))))))) := t in mkLatestPointer x0
  x1 x2 x3 x4 x5 x6 x7 x8 x9).
#[export] Instance LatestPointer_laws : CodecLaws LatestPointer _.
Proof. solve_struct_laws. Qed.

(** [Verification] (generation.go) *)
Record Verification := mkVerification {
  vf_LocalHaulLoadable : bool;
  vf_RemoteBytesVerified : bool }.

#[export] Instance Verification_eq_dec : EqDecision Verification.
Proof. solve_decision. Defined.

Definition Verification_fields : fields _ :=
  FCons "localHaulLoadable" false codec_bool (
  FCons "remoteBytesVerified" false codec_bool ( FNil)).
#[export] Instance Verification_codec : Codec Verification := codec_struct Verification_fields
  (fun r => (vf_LocalHaulLoadable r, (vf_RemoteBytesVerified r, tt)))
  (fun t => let '(x0, (x1, _)) := t in mkVerification x0 x1).
#[export] Instance Verification_laws : CodecLaws Verification _.
Proof. solve_struct_laws. Qed.

(** [GenerationMetadata] (generation.go) *)
Record GenerationMetadata := mkGenerationMetadata {
  gm_SchemaVersion : Z;
  gm_Capsule : string;
  gm_Lineage : Lineage;
  gm_Generation : GenerationRef;
  gm_Parent : option GenerationRef;
  gm_ObjectKey : string;
  gm_MetadataKey : string;
  gm_Size : Z;
  gm_CreatedAt : Time;
  gm_Tools : ToolVersions;
  gm_SessionID : string;
  gm_Verified : Verification }.

#[export] Instance GenerationMetadata_eq_dec : EqDecision GenerationMetadata.
Proof. solve_decision. Defined.

Definition GenerationMetadata_fields : fields _ :=
  FCons "schemaVersion" false int_codec (
  FCons "capsule" false codec_string (
  FCons "lineage" false (_ : Codec (Lineage)) (
  FCons "generation" false (_ : Codec (GenerationRef)) (
  FCons "parent" true (_ : Codec (option GenerationRef)) (
  FCons "objectKey" false codec_string (
  FCons "metadataKey" false codec_string (
  FCons "size" false int64_codec (
  FCons "createdAt" false codec_time (
  FCons "tools" false (_ : Codec (ToolVersions)) (
  FCons "sessionId" false codec_string (
  FCons "verified" false (_ : Codec (Verification)) ( FNil)))))))))))).
#[export] Instance GenerationMetadata_codec : Codec GenerationMetadata := codec_struct GenerationMetadata_fields
  (fun r => (gm_SchemaVersion r, (gm_Capsule r, (gm_Lineage r, (gm_Generation r, (gm_Parent r,
  (gm_ObjectKey r, (gm_MetadataKey r, (gm_Size r, (gm_CreatedAt r, (gm_Tools r, (gm_SessionID r,
  (gm_Verified r, tt)))))))))))))
  (fun t => let '(x0, (x1, (x2, (x3, (x4, (x5, (x6, (x7, (x8, (x9, (x10, (x11, _)))))))))))) := t in
  mkGenerationMetadata x0 x1 x2 x3 x4 x5 x6 x7 x8 x9 x10 x11).
#[export] Instance GenerationMetadata_laws : CodecLaws GenerationMetadata _.
Proof. solve_struct_laws. Qed.

(** [WriterLease] (lease.go) *)
Record WriterLease := mkWriterLease {
  wl_SchemaVersion : Z;
  wl_Capsule : string;
  wl_Lineage : Lineage;
  wl_SessionID : string;
  wl_Machine : string;
  wl_OpenedGeneration : option GenerationRef;
  wl_CreatedAt : Time;
  wl_HeartbeatAt : Time;
  wl_ExpiresAt : Time }.

#[export] Instance WriterLease_eq_dec : EqDecision WriterLease.
Proof. solve_decision. Defined.

Definition WriterLease_fields : fields _ :=
  FCons "schemaVersion" false int_codec (
  FCons "capsule" false codec_string (
  FCons "lineage" false (_ : Codec (Lineage)) (
  FCons "sessionId" false codec_string (
  FCons "machine" false codec_string (
  FCons "openedGeneration" true (_ : Codec (option GenerationRef)) (
  FCons "createdAt" false codec_time (
  FCons "heartbeatAt" false codec_time (
  FCons "expiresAt" false codec_time ( FNil))))))))).
#[export] Instance WriterLease_codec : Codec WriterLease := codec_struct WriterLease_fields
  (fun r => (wl_SchemaVersion r, (wl_Capsule r, (wl_Lineage r, (wl_SessionID r, (wl_Machine r,
  (wl_OpenedGeneration r, (wl_CreatedAt r, (wl_HeartbeatAt r, (wl_ExpiresAt r, tt))))))))))
  (fun t => let '(x0, (x1, (x2, (x3, (x4, (x5, (x6, (x7, (x8, _))))))))) := t in mkWriterLease x0 x1 x2 x3
  x4 x5 x6 x7 x8).
#[export] Instance WriterLease_laws : CodecLaws WriterLease _.
Proof. solve_struct_laws. Qed.

Definition SchemaVersion : Z := 1.

(** * Object keys of a lineage (lineage.go) *)
Definition key_separators : string := byte_str [47; 92; 0].

Definition validateObjectKeySegment (name value : string) : result unit :=
  if str_eqb value "" || str_eqb value "." || str_eqb value ".." || ContainsAny value key_separators
  then Err (ErrText "invalid object-key segment") else Ok tt.

Definition Lineage_IsMain (l : Lineage) : bool := str_eqb (ln_Branch l) "main".

Definition Lineage_PointerKey (l : Lineage) (capsule : string) : result string :=
  let! _ := validateObjectKeySegment "capsule" capsule in
  let! _ := validateObjectKeySegment "branch" (ln_Branch l) in
  if Lineage_IsMain l then Ok (capsule +:+ "/latest.json")
  else Ok (capsule +:+ "/branches/" +:+ ln_Branch l +:+ "/latest.json").

Definition Lineage_LeaseKey (l : Lineage) (capsule : string) : result string :=
  let! _ := validateObjectKeySegment "capsule" capsule in
  let! _ := validateObjectKeySegment "branch" (ln_Branch l) in
  if Lineage_IsMain l then Ok (capsule +:+ "/leases/writer.json")
  else Ok (capsule +:+ "/branches/" +:+ ln_Branch l +:+ "/leases/writer.json").

(** * Validation patterns (validation.go) *)
Definition in_range (lo hi : Z) (c : ascii) : bool := (lo <=? byte_val c) && (byte_val c <=? hi).
Definition class_digit : ascii -> bool := in_range 48 57.
Definition class_nonzero : ascii -> bool := in_range 49 57.
(** [A-Za-z-] *)
Definition class_letter_dash (c : ascii) : bool := in_range 65 90 c || in_range 97 122 c || (byte_val c =? 45).
(** [0-9A-Za-z-] *)
Definition class_identifier (c : ascii) : bool := class_digit c || class_letter_dash c.

(** 0|[1-9][0-9]* *)
Definition re_number : re := RAlt (RChar "0") (RSeq (RClass class_nonzero) (RStar (RClass class_digit))).
(** 0|[1-9][0-9]*|[0-9]*[A-Za-z-][0-9A-Za-z-]* *)
Definition re_prerelease : re :=
  RAlt re_number
    (RSeq (RStar (RClass class_digit)) (RSeq (RClass class_letter_dash) (RStar (RClass class_identifier)))).

(** (?:-pre(?:\.pre)* )? and (?:\+id(?:\.id)* )? *)
Definition re_prerelease_part : re :=
  ROpt (RSeq (RChar "-") (RSeq re_prerelease (RStar (RSeq (RChar ".") re_prerelease)))).
Definition re_build_part : re :=
  let id := RPlus (RClass class_identifier) in
  ROpt (RSeq (RChar "+") (RSeq id (RStar (RSeq (RChar ".") id)))).

Definition semanticVersionPattern : re :=
  RSeq (RChar "v") (RSeq re_number (RSeq (RChar ".") (RSeq re_number (RSeq (RChar ".") (RSeq re_number
    (RSeq re_prerelease_part re_build_part)))))).

(** [a-z0-9] and [a-z0-9._-] *)
Definition class_portable_first (c : ascii) : bool := in_range 97 122 c || class_digit c.
Definition class_portable (c : ascii) : bool := class_portable_first c || byte_in "._-" c.
Definition portableIDPattern : re := RSeq (RClass class_portable_first) (RUpTo 62 (RClass class_portable)).

Definition lowerSHA256Pattern : re := RTimes 64 (RClass (fun c => class_digit c || in_range 97 102 c)).

(** [strings.FieldsFunc]: the maximal non-empty runs of bytes that are not
    separators. *)
Fixpoint fields_func (sep : ascii -> bool) (s : string) (cur : string) : list string :=
  match s with
  | EmptyString => if str_eqb cur "" then [] else [cur]
  | String c s' =>
      if sep c then (if str_eqb cur "" then [] else [cur]) ++ fields_func sep s' ""
      else fields_func sep s' (cur +:+ String c "")
  end.
Definition FieldsFunc (s : string) (sep : ascii -> bool) : list string := fields_func sep s "".

Definition reserved_parts : list string :=
  ["secret"; "token"; "password"; "credential"; "port"; "timestamp"; "session"].

Definition validPortableID (value : string) : bool :=
  MatchString portableIDPattern value &&
  forallb (fun part => negb (bool_decide (part ∈ reserved_parts))) (FieldsFunc value (byte_in "-_.")).

Definition validLowerSHA256 (value : string) : bool := MatchString lowerSHA256Pattern value.

(** A strict decoder reads one value, then must find the end of the input. *)
Definition decodeExactJSON {A} `{Codec A} (encoded : bytes) (target : A) : result A :=
  match parse_value (2 * String.length encoded + 2) 0 encoded with
  | None => Err (ErrText "invalid JSON")
  | Some (j, rest) =>
      match c_dec true j target with
      | None => Err (ErrText "cannot decode into the target")
      | Some a => if str_eqb (skip_ws rest) "" then Ok a else Err (ErrText "multiple JSON values")
      end
  end.

(** * Controller identity (controller.go) *)
(** [ControllerIdentity] (controller.go) *)
Record ControllerIdentity := mkControllerIdentity {
  ci_SchemaVersion : Z;
  ci_Name : string;
  ci_Version : string }.

#[export] Instance ControllerIdentity_eq_dec : EqDecision ControllerIdentity.
Proof. solve_decision. Defined.

Definition ControllerIdentity_fields : fields _ :=
  FCons "schemaVersion" false int_codec (
  FCons "name" false codec_string (
  FCons "version" false codec_string ( FNil))).
#[export] Instance ControllerIdentity_codec : Codec ControllerIdentity := codec_struct ControllerIdentity_fields
  (fun r => (ci_SchemaVersion r, (ci_Name r, (ci_Version r, tt))))
  (fun t => let '(x0, (x1, (x2, _))) := t in mkControllerIdentity x0 x1 x2).
#[export] Instance ControllerIdentity_laws : CodecLaws ControllerIdentity _.
Proof. solve_struct_laws. Qed.

Definition ControllerIdentitySchemaVersion : Z := 1.
Definition ControllerNameCamp : string := "camp".

Definition ControllerIdentity_Validate (i : ControllerIdentity) : result unit :=
  check ci_SchemaVersion i =? ControllerIdentitySchemaVersion else ErrInvalidControllerIdentity;
  check str_eqb (ci_Name i) ControllerNameCamp else ErrInvalidControllerIdentity;
  check MatchString semanticVersionPattern (ci_Version i) else ErrInvalidControllerIdentity;
  Ok tt.

Definition NewControllerIdentity (version : string) : result ControllerIdentity :=
  let identity := mkControllerIdentity ControllerIdentitySchemaVersion ControllerNameCamp version in
  let! _ := ControllerIdentity_Validate identity in
  Ok identity.

(** [fmt.Errorf("%w: %v", sentinel, err)]: only the sentinel is kept. *)
Definition rewrap {A} (r : result A) (sentinel : error) : result A :=
  match r with Ok a => Ok a | Err _ => Err sentinel end.

Definition DecodeControllerIdentity (encoded : bytes) : result ControllerIdentity :=
  let! identity := rewrap (decodeExactJSON encoded c_zero) ErrInvalidControllerIdentity in
  let! _ := ControllerIdentity_Validate identity in
  Ok identity.

(** * Blueprint, reference and binding (blueprint.go) *)
(** [CampBlueprint] (blueprint.go) *)
Record CampBlueprint := mkCampBlueprint {
  cb_SchemaVersion : Z;
  cb_Controller : ControllerIdentity;
  cb_Capsule : string;
  cb_Lineage : string;
  cb_WorkspaceEngine : string;
  cb_ToolVersions : ToolVersions }.

#[export] Instance CampBlueprint_eq_dec : EqDecision CampBlueprint.
Proof. solve_decision. Defined.

Definition CampBlueprint_fields : fields _ :=
  FCons "schemaVersion" false int_codec (
  FCons "controller" false (_ : Codec (ControllerIdentity)) (
  FCons "capsule" false codec_string (
  FCons "lineage" false codec_string (
  FCons "workspaceEngine" false codec_string (
  FCons "toolVersions" false (_ : Codec (ToolVersions)) ( FNil)))))).
#[export] Instance CampBlueprint_codec : Codec CampBlueprint := codec_struct CampBlueprint_fields
  (fun r => (cb_SchemaVersion r, (cb_Controller r, (cb_Capsule r, (cb_Lineage r, (cb_WorkspaceEngine r,
  (cb_ToolVersions r, tt)))))))
  (fun t => let '(x0, (x1, (x2, (x3, (x4, (x5, _)))))) := t in mkCampBlueprint x0 x1 x2 x3 x4 x5).
#[export] Instance CampBlueprint_laws : CodecLaws CampBlueprint _.
Proof. solve_struct_laws. Qed.

(** [BlueprintRef] (blueprint.go) *)
Record BlueprintRef := mkBlueprintRef {
  br_SchemaVersion : Z;
  br_Digest : string }.

#[export] Instance BlueprintRef_eq_dec : EqDecision BlueprintRef.
Proof. solve_decision. Defined.

Definition BlueprintRef_fields : fields _ :=
  FCons "schemaVersion" false int_codec (
  FCons "digest" false codec_string ( FNil)).
#[export] Instance BlueprintRef_codec : Codec BlueprintRef := codec_struct BlueprintRef_fields
  (fun r => (br_SchemaVersion r, (br_Digest r, tt)))
  (fun t => let '(x0, (x1, _)) := t in mkBlueprintRef x0 x1).
#[export] Instance BlueprintRef_laws : CodecLaws BlueprintRef _.
Proof. solve_struct_laws. Qed.

(** [ExecutionBinding] (blueprint.go) *)
Record ExecutionBinding := mkExecutionBinding {
  eb_SchemaVersion : Z;
  eb_Blueprint : BlueprintRef;
  eb_ProfileDigest : string }.

#[export] Instance ExecutionBinding_eq_dec : EqDecision ExecutionBinding.
Proof. solve_decision. Defined.

Definition ExecutionBinding_fields : fields _ :=
  FCons "schemaVersion" false int_codec (
  FCons "blueprint" false (_ : Codec (BlueprintRef)) (
  FCons "profileDigest" true codec_string ( FNil))).
#[export] Instance ExecutionBinding_codec : Codec ExecutionBinding := codec_struct ExecutionBinding_fields
  (fun r => (eb_SchemaVersion r, (eb_Blueprint r, (eb_ProfileDigest r, tt))))
  (fun t => let '(x0, (x1, (x2, _))) := t in mkExecutionBinding x0 x1 x2).
#[export] Instance ExecutionBinding_laws : CodecLaws ExecutionBinding _.
Proof. solve_struct_laws. Qed.

Definition CampBlueprintSchemaVersion : Z := 1.
Definition BlueprintRefSchemaVersion : Z := 1.
Definition ExecutionBindingSchemaVersion : Z := 1.
Definition WorkspaceEngineDevPod : string := "devpod".

Definition CampBlueprint_Validate (b : CampBlueprint) : result unit :=
  check cb_SchemaVersion b =? CampBlueprintSchemaVersion else ErrInvalidBlueprint;
  let! _ := rewrap (ControllerIdentity_Validate (cb_Controller b)) ErrInvalidBlueprint in
  check validPortableID (cb_Capsule b) else ErrInvalidBlueprint;
  check validPortableID (cb_Lineage b) else ErrInvalidBlueprint;
  check str_eqb (cb_WorkspaceEngine b) WorkspaceEngineDevPod else ErrInvalidBlueprint;
  check MatchString semanticVersionPattern (tv_DevPod (cb_ToolVersions b)) &&
        MatchString semanticVersionPattern (tv_Hauler (cb_ToolVersions b)) else ErrInvalidBlueprint;
  Ok tt.

Definition NewCampBlueprint (controller : ControllerIdentity) (capsule lineage workspaceEngine : string)
    (tools : ToolVersions) : result CampBlueprint :=
  let blueprint := mkCampBlueprint CampBlueprintSchemaVersion controller capsule lineage workspaceEngine tools in
  let! _ := CampBlueprint_Validate blueprint in
  Ok blueprint.

Definition DecodeCampBlueprint (encoded : bytes) : result CampBlueprint :=
  let! blueprint := rewrap (decodeExactJSON encoded c_zero) ErrInvalidBlueprint in
  let! _ := CampBlueprint_Validate blueprint in
  Ok blueprint.

(** [json.Marshal] as fallible code. *)
Definition marshal {A} `{Codec A} (a : A) : result bytes :=
  match Marshal a with Some text => Ok text | None => Err (ErrText "json: unsupported value") end.

Definition CampBlueprint_CanonicalJSON (b : CampBlueprint) : result bytes :=
  let! _ := CampBlueprint_Validate b in
  marshal b.

Definition CampBlueprint_Ref (b : CampBlueprint) : result BlueprintRef :=
  let! encoded := CampBlueprint_CanonicalJSON b in
  Ok (mkBlueprintRef BlueprintRefSchemaVersion (sha256Hex encoded)).

Definition BlueprintRef_Validate (r : BlueprintRef) : result unit :=
  check br_SchemaVersion r =? BlueprintRefSchemaVersion else ErrInvalidBlueprintRef;
  check validLowerSHA256 (br_Digest r) else ErrInvalidBlueprintRef;
  Ok tt.

Definition DecodeBlueprintRef (encoded : bytes) : result BlueprintRef :=
  let! ref := rewrap (decodeExactJSON encoded c_zero) ErrInvalidBlueprintRef in
  let! _ := BlueprintRef_Validate ref in
  Ok ref.

Definition ExecutionBinding_Validate (b : ExecutionBinding) : result unit :=
  check eb_SchemaVersion b =? ExecutionBindingSchemaVersion else ErrInvalidExecutionBinding;
  let! _ := rewrap (BlueprintRef_Validate (eb_Blueprint b)) ErrInvalidExecutionBinding in
  if negb (str_eqb (eb_ProfileDigest b) "") && negb (validLowerSHA256 (eb_ProfileDigest b))
  then Err ErrInvalidExecutionBinding else Ok tt.

Definition NewExecutionBinding (blueprint : BlueprintRef) (profileDigest : string) : result ExecutionBinding :=
  let binding := mkExecutionBinding ExecutionBindingSchemaVersion blueprint profileDigest in
  let! _ := ExecutionBinding_Validate binding in
  Ok binding.

Definition DecodeExecutionBinding (encoded : bytes) : result ExecutionBinding :=
  let! binding := rewrap (decodeExactJSON encoded c_zero) ErrInvalidExecutionBinding in
  let! _ := ExecutionBinding_Validate binding in
  Ok binding.

(** * Provenance (provenance.go) *)
(** [ExecutionProvenance] (provenance.go) *)
Record ExecutionProvenance := mkExecutionProvenance {
  ep_SchemaVersion : Z;
  ep_Binding : ExecutionBinding;
  ep_CandidateSHA256 : string }.

#[export] Instance ExecutionProvenance_eq_dec : EqDecision ExecutionProvenance.
Proof. solve_decision. Defined.

Definition ExecutionProvenance_fields : fields _ :=
  FCons "schemaVersion" false int_codec (
  FCons "binding" false (_ : Codec (ExecutionBinding)) (
  FCons "candidateSha256" true codec_string ( FNil))).
#[export] Instance ExecutionProvenance_codec : Codec ExecutionProvenance := codec_struct ExecutionProvenance_fields
  (fun r => (ep_SchemaVersion r, (ep_Binding r, (ep_CandidateSHA256 r, tt))))
  (fun t => let '(x0, (x1, (x2, _))) := t in mkExecutionProvenance x0 x1 x2).
#[export] Instance ExecutionProvenance_laws : CodecLaws ExecutionProvenance _.
Proof. solve_struct_laws. Qed.

Definition ExecutionProvenanceSchemaVersion : Z := 1.

Definition ExecutionProvenance_Validate (p : ExecutionProvenance) : result unit :=
  check ep_SchemaVersion p =? ExecutionProvenanceSchemaVersion else ErrInvalidExecutionProvenance;
  let! _ := rewrap (ExecutionBinding_Validate (ep_Binding p)) ErrInvalidExecutionProvenance in
  if negb (str_eqb (ep_CandidateSHA256 p) "") && negb (validLowerSHA256 (ep_CandidateSHA256 p))
  then Err ErrInvalidExecutionProvenance else Ok tt.

Definition NewExecutionProvenance (binding : ExecutionBinding) (candidateSHA256 : string)
    : result ExecutionProvenance :=
  let provenance := mkExecutionProvenance ExecutionProvenanceSchemaVersion binding candidateSHA256 in
  let! _ := ExecutionProvenance_Validate provenance in
  Ok provenance.

Definition DecodeExecutionProvenance (encoded : bytes) : result ExecutionProvenance :=
  let! provenance := rewrap (decodeExactJSON encoded c_zero) ErrInvalidExecutionProvenance in
  let! _ := ExecutionProvenance_Validate provenance in
  Ok provenance.

(** * Lemmas *)
Lemma semver_utf8 s : MatchString semanticVersionPattern s = true -> valid_utf8 s = true.
Proof.
  intros H%MatchString_lang. apply ascii_valid_utf8. eapply lang_bytes; [|exact H].
  repeat constructor; intros c Hc; revert Hc;
    unfold class_identifier, class_letter_dash, class_digit, class_nonzero, in_range;
    rewrite ?bool_decide_eq_true; try (by intros ->); lia.
Qed.

Lemma RUpTo_bytes n q p : (forall c, q c = true -> p c = true) -> classes_in p (RUpTo n (RClass q)).
Proof. intros H. induction n; repeat constructor; done. Qed.

Lemma portable_utf8 s : validPortableID s = true -> valid_utf8 s = true.
Proof.
  unfold validPortableID. intros H. bool_norm.
  match goal with H : MatchString _ _ = true |- _ => apply MatchString_lang in H; rename H into Hm end.
  apply ascii_valid_utf8. eapply lang_bytes; [|exact Hm].
  assert (forall c, class_portable c = true -> byte_val c <? 128 = true) as Hc.
  { intros c. unfold class_portable, class_portable_first, class_digit, in_range.
    intros [H'|H']%orb_true_iff; [lia|]. unfold byte_in in H'. cbn in H'.
    repeat (apply orb_true_iff in H' as [H'|H']; [by apply bool_decide_eq_true in H' as <-|]). done. }
  constructor; [|by apply RUpTo_bytes]. constructor. intros c H'. apply Hc.
  unfold class_portable. by rewrite H'.
Qed.

(** A digest text is 64 lowercase hexadecimal digits. *)
Lemma validLowerSHA256_iff s :
  validLowerSHA256 s = true <-> str_len s = 64 /\ str_all is_lower_hex s = true.
Proof.
  assert (forall c, is_lower_hex c = (class_digit c || in_range 97 102 c)) as Hc by done.
  unfold validLowerSHA256. rewrite MatchString_lang. split.
  - intros [Hl Ha]%RTimes_length. split; [unfold str_len; by rewrite Hl|].
    eapply str_all_impl; [|exact Ha]. intros c. by rewrite Hc.
  - intros [Hl Ha]. unfold lowerSHA256Pattern, str_len in *.
    replace 64%nat with (String.length s) by lia. apply RTimes_intro.
    eapply str_all_impl; [|exact Ha]. intros c. by rewrite Hc.
Qed.

Lemma lower_hex_utf8 s : str_all is_lower_hex s = true -> valid_utf8 s = true.
Proof.
  intros H. apply ascii_valid_utf8. eapply str_all_impl; [|exact H].
  intros c. unfold is_lower_hex, is_digit. lia.
Qed.

Lemma digest_utf8 s : validLowerSHA256 s = true -> valid_utf8 s = true.
Proof. intros [_ H]%validLowerSHA256_iff. by apply lower_hex_utf8. Qed.

Lemma sha256Hex_lower body : validLowerSHA256 (sha256Hex body) = true.
Proof. apply validLowerSHA256_iff. by destruct (sha256Hex_digits body). Qed.

#[export] Hint Resolve semver_utf8 portable_utf8 digest_utf8 sha256Hex_lower : camp.

(** The text a value marshals to decodes strictly to the value. *)
Lemma decodeExactJSON_marshal {A} `{Codec A} `{!CodecLaws A _} (a : A) :
  c_ok a = true -> c_depth <= max_depth ->
  exists text, marshal a = Ok text /\ decodeExactJSON text c_zero = Ok a.
Proof.
  intros Hok Hd. destruct (Unmarshal_Marshal a Hok Hd) as (text & Hm & _ & Hu).
  exists text. unfold marshal. rewrite Hm. split; [done|].
  unfold UnmarshalStrict, parse_json, decodeExactJSON in *.
  destruct (parse_value _ 0 text) as [[j rest]|]; [|done]. cbn [mbind option_bind fst snd] in Hu.
  destruct (str_eqb (skip_ws rest) ""); [|done]. cbn in Hu. by rewrite Hu.
Qed.

(** ** Keys *)
Definition no_slash (s : string) : bool := str_all (fun c => negb (bool_decide (c = "/"%char))) s.

Lemma segment_no_slash name value u : validateObjectKeySegment name value = Ok u -> no_slash value = true.
Proof.
  unfold validateObjectKeySegment, ContainsAny, key_separators. intros H.
  destruct (_ || _) eqn:E in H; [done|]. bool_norm.
  match goal with H : str_exists _ _ = false |- _ => rename H into Hx end.
  rewrite str_exists_all in Hx. apply negb_false_iff in Hx. eapply str_all_impl; [|exact Hx].
  intros c Hc. apply negb_true_iff in Hc. unfold byte_in in Hc. cbn in Hc. bool_norm.
  apply negb_true_iff, bool_decide_eq_false. intros ->. done.
Qed.

(** The parts of the key of a lineage's document. *)
Definition pointer_parts (l : Lineage) (capsule : string) : list string :=
  if Lineage_IsMain l then [capsule; "latest.json"] else [capsule; "branches"; ln_Branch l; "latest.json"].
Definition lease_parts (l : Lineage) (capsule : string) : list string :=
  if Lineage_IsMain l then [capsule; "leases"; "writer.json"]
  else [capsule; "branches"; ln_Branch l; "leases"; "writer.json"].

Lemma PointerKey_parts l capsule key :
  Lineage_PointerKey l capsule = Ok key -> Split key "/" = pointer_parts l capsule.
Proof.
  unfold Lineage_PointerKey, pointer_parts, result_bind. intros H.
  destruct (validateObjectKeySegment "capsule" capsule) as [[]|] eqn:Ec; [|done].
  destruct (validateObjectKeySegment "branch" (ln_Branch l)) as [[]|] eqn:Eb; [|done].
  apply segment_no_slash in Ec, Eb. destruct (Lineage_IsMain l); injection H as <-.
  - by rewrite (Split_app "/" capsule "latest.json").
  - change ("/branches/" +:+ ?x) with (String "/" ("branches" +:+ String "/" x)).
    rewrite Split_app, Split_app, (Split_app "/" (ln_Branch l) "latest.json") by done. done.
Qed.

Lemma LeaseKey_parts l capsule key :
  Lineage_LeaseKey l capsule = Ok key -> Split key "/" = lease_parts l capsule.
Proof.
  unfold Lineage_LeaseKey, lease_parts, result_bind. intros H.
  destruct (validateObjectKeySegment "capsule" capsule) as [[]|] eqn:Ec; [|done].
  destruct (validateObjectKeySegment "branch" (ln_Branch l)) as [[]|] eqn:Eb; [|done].
  apply segment_no_slash in Ec, Eb. destruct (Lineage_IsMain l); injection H as <-.
  - rewrite (Split_app "/" capsule "leases/writer.json") by done. done.
  - change ("/branches/" +:+ ?x) with (String "/" ("branches" +:+ String "/" x)).
    rewrite Split_app, Split_app, (Split_app "/" (ln_Branch l) "leases/writer.json") by done. done.
Qed.

Lemma IsMain_branch l : Lineage_IsMain l = true -> l = mkLineage "main".
Proof. destruct l as [b]. unfold Lineage_IsMain. simpl. intros H. bool_norm. by subst. Qed.

Lemma pointer_parts_inj l1 c1 l2 c2 : pointer_parts l1 c1 = pointer_parts l2 c2 -> c1 = c2 /\ l1 = l2.
Proof.
  unfold pointer_parts. destruct (Lineage_IsMain l1) eqn:E1, (Lineage_IsMain l2) eqn:E2; intros H.
  - injection H as ->. by rewrite (IsMain_branch _ E1), (IsMain_branch _ E2).
  - done.
  - done.
  - destruct l1, l2. simpl in H. by injection H as -> ->.
Qed.

Lemma lease_parts_inj l1 c1 l2 c2 : lease_parts l1 c1 = lease_parts l2 c2 -> c1 = c2 /\ l1 = l2.
Proof.
  unfold lease_parts. destruct (Lineage_IsMain l1) eqn:E1, (Lineage_IsMain l2) eqn:E2; intros H.
  - injection H as ->. by rewrite (IsMain_branch _ E1), (IsMain_branch _ E2).
  - done.
  - done.
  - destruct l1, l2. simpl in H. by injection H as -> ->.
Qed.

Lemma pointer_lease_parts l1 c1 l2 c2 : pointer_parts l1 c1 <> lease_parts l2 c2.
Proof. unfold pointer_parts, lease_parts. by destruct (Lineage_IsMain l1), (Lineage_IsMain l2). Qed.

Lemma pointer_lease_distinct l1 c1 l2 c2 k1 k2 :
  Lineage_PointerKey l1 c1 = Ok k1 -> Lineage_LeaseKey l2 c2 = Ok k2 -> k1 <> k2.
Proof.
  intros H1 H2 ->. apply PointerKey_parts in H1. apply LeaseKey_parts in H2. rewrite H1 in H2.
  by apply pointer_lease_parts in H2.
Qed.

(** ** Valid documents survive the text *)

(** Splits the test of a struct's fields. *)
Ltac split_fields :=
  repeat match goal with |- _ && _ = true => apply andb_true_intro; split end.

Lemma ControllerIdentity_valid_ok i : ControllerIdentity_Validate i = Ok tt -> c_ok i = true.
Proof.
  unfold ControllerIdentity_Validate. intros H. break_result H. bool_norm.
  unfold c_ok, ControllerIdentity_codec, codec_struct, ControllerIdentity_fields. cbn [fields_ok fst snd].
  rewrite E, E0. split_fields; [done|done|by apply semver_utf8|done].
Qed.

Lemma CampBlueprint_valid_ok b : CampBlueprint_Validate b = Ok tt -> c_ok b = true.
Proof.
  unfold CampBlueprint_Validate. intros H.
  destruct (cb_SchemaVersion b =? _) eqn:Ev; [|done].
  destruct (ControllerIdentity_Validate (cb_Controller b)) as [[]|] eqn:Ec; [|done]. cbn [rewrap result_bind] in H.
  destruct (validPortableID (cb_Capsule b)) eqn:E1; [|done]. destruct (validPortableID (cb_Lineage b)) eqn:E2; [|done].
  destruct (str_eqb (cb_WorkspaceEngine b) _) eqn:E3; [|done]. destruct (_ && _) eqn:E4 in H; [|done]. bool_norm.
  unfold c_ok, CampBlueprint_codec, codec_struct, CampBlueprint_fields. cbn [fields_ok fst snd]. rewrite Ev, E3.
  split_fields; [done|by apply ControllerIdentity_valid_ok|by apply portable_utf8|by apply portable_utf8|done| |done].
  change (valid_utf8 (tv_DevPod (cb_ToolVersions b)) && (valid_utf8 (tv_Hauler (cb_ToolVersions b)) && true) = true).
  split_fields; [by apply semver_utf8|by apply semver_utf8|done].
Qed.

Lemma BlueprintRef_valid_ok r : BlueprintRef_Validate r = Ok tt -> c_ok r = true.
Proof.
  unfold BlueprintRef_Validate. intros H. break_result H. bool_norm.
  unfold c_ok, BlueprintRef_codec, codec_struct, BlueprintRef_fields. cbn [fields_ok fst snd].
  rewrite E. split_fields; [done|by apply digest_utf8|done].
Qed.

Lemma optional_digest_ok s : (negb (str_eqb s "") && negb (validLowerSHA256 s)) = false ->
  (if true && @c_empty _ codec_string s then @c_blank _ codec_string s else @c_ok _ codec_string s) = true.
Proof.
  intros H. cbn. destruct (str_eqb s "") eqn:E; [done|]. cbn in H. apply digest_utf8. by bool_norm.
Qed.

Lemma ExecutionBinding_valid_ok b : ExecutionBinding_Validate b = Ok tt -> c_ok b = true.
Proof.
  unfold ExecutionBinding_Validate. intros H. destruct (eb_SchemaVersion b =? _) eqn:Ev; [|done].
  destruct (BlueprintRef_Validate (eb_Blueprint b)) as [[]|] eqn:Er; [|done]. cbn [rewrap result_bind] in H.
  destruct (_ && _) eqn:Ed in H; [done|]. bool_norm.
  unfold c_ok, ExecutionBinding_codec, codec_struct, ExecutionBinding_fields. cbn [fields_ok fst snd]. rewrite Ev.
  split_fields; [done|by apply BlueprintRef_valid_ok|by apply optional_digest_ok|done].
Qed.

Lemma ExecutionProvenance_valid_ok p : ExecutionProvenance_Validate p = Ok tt -> c_ok p = true.
Proof.
  unfold ExecutionProvenance_Validate. intros H. destruct (ep_SchemaVersion p =? _) eqn:Ev; [|done].
  destruct (ExecutionBinding_Validate (ep_Binding p)) as [[]|] eqn:Er; [|done]. cbn [rewrap result_bind] in H.
  destruct (_ && _) eqn:Ed in H; [done|]. bool_norm.
  unfold c_ok, ExecutionProvenance_codec, codec_struct, ExecutionProvenance_fields. cbn [fields_ok fst snd]. rewrite Ev.
  split_fields; [done|by apply ExecutionBinding_valid_ok|by apply optional_digest_ok|done].
Qed.

(** * Properties *)

(** C30: the object keys of a lineage's pointer and of its writer lease identify the
    capsule and the lineage: no two lineages share a pointer key or a lease key, and no
    pointer key is a lease key. *)
Theorem lineage_keys_injective l1 c1 l2 c2 key :
  (Lineage_PointerKey l1 c1 = Ok key -> Lineage_PointerKey l2 c2 = Ok key -> c1 = c2 /\ l1 = l2) /\
  (Lineage_LeaseKey l1 c1 = Ok key -> Lineage_LeaseKey l2 c2 = Ok key -> c1 = c2 /\ l1 = l2) /\
  (Lineage_PointerKey l1 c1 = Ok key -> Lineage_LeaseKey l2 c2 <> Ok key).
Proof.
  split; [|split].
  - intros H1%PointerKey_parts H2%PointerKey_parts. apply pointer_parts_inj. by rewrite <-H1, <-H2.
  - intros H1%LeaseKey_parts H2%LeaseKey_parts. apply lease_parts_inj. by rewrite <-H1, <-H2.
  - intros H1 H2. by apply (pointer_lease_distinct _ _ _ _ _ _ H1 H2).
Qed.

Lemma lineage_keys_injective_witness :
  Lineage_PointerKey (mkLineage "main") "camp" = Ok "camp/latest.json" /\
  Lineage_LeaseKey (mkLineage "b") "camp" <> Ok "camp/latest.json".
Proof.
  split; [reflexivity|].
  apply (proj2 (proj2 (lineage_keys_injective (mkLineage "main") "camp" (mkLineage "b") "camp" "camp/latest.json"))).
  reflexivity.
Defined.

(** C31: a valid blueprint has a canonical text, decoding it gives the blueprint back, and
    its reference is valid and binds an execution: the digest of the canonical text is
    accepted by the checks on references and bindings, with or without a profile, and
    the binding's own text decodes to the binding. *)
Theorem blueprint_round_trip b profile :
  CampBlueprint_Validate b = Ok tt -> profile = "" \/ validLowerSHA256 profile = true ->
  exists text ref binding btext,
    CampBlueprint_CanonicalJSON b = Ok text /\ DecodeCampBlueprint text = Ok b /\
    CampBlueprint_Ref b = Ok ref /\ br_Digest ref = sha256Hex text /\
    NewExecutionBinding ref profile = Ok binding /\
    marshal binding = Ok btext /\ DecodeExecutionBinding btext = Ok binding.
Proof.
  intros Hb Hp. destruct (decodeExactJSON_marshal b) as (text & Hm & Hd); [by apply CampBlueprint_valid_ok|by vm_compute|].
  set (ref := mkBlueprintRef BlueprintRefSchemaVersion (sha256Hex text)).
  set (binding := mkExecutionBinding ExecutionBindingSchemaVersion ref profile).
  assert (ExecutionBinding_Validate binding = Ok tt) as Hv.
  { unfold ExecutionBinding_Validate, BlueprintRef_Validate, binding, ref. cbn [eb_SchemaVersion eb_Blueprint eb_ProfileDigest br_SchemaVersion br_Digest].
    rewrite !Z.eqb_refl, sha256Hex_lower. cbn [rewrap result_bind]. by destruct Hp as [->| ->]; rewrite ?andb_false_r. }
  destruct (decodeExactJSON_marshal binding) as (btext & Hbm & Hbd); [by apply ExecutionBinding_valid_ok|by vm_compute|].
  exists text, ref, binding, btext. unfold CampBlueprint_Ref, CampBlueprint_CanonicalJSON, NewExecutionBinding, DecodeCampBlueprint, DecodeExecutionBinding.
  rewrite Hb. cbn [result_bind]. rewrite Hm. cbn [result_bind]. rewrite Hd. cbn [rewrap result_bind]. rewrite Hb.
  fold binding. rewrite Hv, Hbm, Hbd. cbn [rewrap result_bind]. by rewrite Hv.
Qed.

Definition sample_blueprint : CampBlueprint :=
  mkCampBlueprint 1 (mkControllerIdentity 1 "camp" "v1.2.3") "capsule" "main" "devpod" (mkToolVersions "v0.6.1" "v1.4.0-rc.1+build.5").

Lemma blueprint_round_trip_witness :
  CampBlueprint_Validate sample_blueprint = Ok tt /\
  exists text ref binding btext,
    CampBlueprint_CanonicalJSON sample_blueprint = Ok text /\ DecodeCampBlueprint text = Ok sample_blueprint /\
    CampBlueprint_Ref sample_blueprint = Ok ref /\ br_Digest ref = sha256Hex text /\
    NewExecutionBinding ref "" = Ok binding /\
    marshal binding = Ok btext /\ DecodeExecutionBinding btext = Ok binding.
Proof.
  split; [vm_compute; reflexivity|].
  apply (blueprint_round_trip sample_blueprint ""); [vm_compute; reflexivity|left; reflexivity].
Defined.

(** A provenance record is accepted back from its text exactly when it is valid, and
    whatever text the decoder accepts gives a valid record. *)
Theorem provenance_round_trip p text q :
  (ExecutionProvenance_Validate p = Ok tt ->
   exists text', marshal p = Ok text' /\ DecodeExecutionProvenance text' = Ok p) /\
  (DecodeExecutionProvenance text = Ok q -> ExecutionProvenance_Validate q = Ok tt).
Proof.
  split.
  - intros Hp. destruct (decodeExactJSON_marshal p) as (text' & Hm & Hd); [by apply ExecutionProvenance_valid_ok|by vm_compute|].
    exists text'. split; [done|]. unfold DecodeExecutionProvenance. rewrite Hd. cbn [rewrap result_bind]. by rewrite Hp.
  - unfold DecodeExecutionProvenance. destruct (decodeExactJSON text c_zero) as [r|]; [|done]. cbn [rewrap result_bind].
    destruct (ExecutionProvenance_Validate r) as [[]|] eqn:Hr; [|done]. by intros [= <-].
Qed.

Definition sample_provenance : ExecutionProvenance :=
  mkExecutionProvenance 1 (mkExecutionBinding 1 (mkBlueprintRef 1 (sha256Hex "blueprint")) "") (sha256Hex "candidate").

Lemma provenance_round_trip_witness :
  ExecutionProvenance_Validate sample_provenance = Ok tt /\
  exists text', marshal sample_provenance = Ok text' /\ DecodeExecutionProvenance text' = Ok sample_provenance.
Proof.
  split; [vm_compute; reflexivity|].
  apply (proj1 (provenance_round_trip sample_provenance "" sample_provenance)). vm_compute. reflexivity.
Defined.
