(* ===== verification/Paths.v ===== *)
(** Go's lexical path functions ([path] and, on Unix, [path/filepath]). *)
From S2P Require Import Prelude.

(** One component against the cleaned ones so far, last first. *)
Definition clean_step (rooted : bool) (acc : list string) (part : string) : list string :=
  if str_eqb part "" || str_eqb part "." then acc
  else if str_eqb part ".." then
    match acc with
    | top :: rest => if str_eqb top ".." then ".." :: acc else rest
    | [] => if rooted then [] else [".."]
    end
  else part :: acc.

Definition Clean (path : string) : string :=
  let rooted := HasPrefix path "/" in
  let body := Join (rev (foldl (clean_step rooted) [] (Split path "/"))) "/" in
  if rooted then "/" +:+ body else if str_eqb body "" then "." else body.

(** Everything up to and including the last slash, and the rest. *)
Definition path_Split (path : string) : string * string :=
  let parts := Split path "/" in
  match rev parts with
  | last :: (x :: front) => (Join (rev (x :: front)) "/" +:+ "/", last)
  | _ => ("", path)
  end.

Definition Dir (path : string) : string := Clean (path_Split path).1.

(** [path.Base]: trailing slashes dropped, then the last component. *)
Fixpoint drop_empty (parts : list string) : list string :=
  match parts with p :: rest => if str_eqb p "" then drop_empty rest else parts | [] => [] end.
Definition Base (path : string) : string :=
  if str_eqb path "" then "."
  else match drop_empty (rev (Split path "/")) with last :: _ => last | [] => "/" end.

Fixpoint skip_empty (elems : list string) : list string :=
  match elems with e :: rest => if str_eqb e "" then skip_empty rest else elems | [] => [] end.
Definition path_Join (elems : list string) : string :=
  match skip_empty elems with [] => "" | es => Clean (Join es "/") end.

Definition IsAbs (path : string) : bool := HasPrefix path "/".

Example clean_1 : map Clean ["a//b/./c/../d/"; "/../x"; "../../y"; ""; "/"; "a/.."] = ["a/b/d"; "/x"; "../../y"; "."; "/"; "."].
Proof. vm_compute. reflexivity. Qed.
Example dir_1 : map Dir ["a/b"; "a"; "/a"; "a/b/"] = ["a"; "."; "/"; "a/b"].
Proof. vm_compute. reflexivity. Qed.
Example join_1 : map path_Join [["a"; "b"]; [""; "a"]; ["a"; ""; "/b"]; []] = ["a/b"; "a"; "a/b"; ""].
Proof. vm_compute. reflexivity. Qed.
Example base_1 : map Base ["a/b"; "a/b//"; "/"; ""] = ["b"; "b"; "/"; "."].
Proof. vm_compute. reflexivity. Qed.

(** A component [Clean] keeps. *)
Definition plain_part (s : string) : bool :=
  negb (str_eqb s "" || str_eqb s "." || str_eqb s "..") &&
  str_all (fun c => negb (bool_decide (c = "/"%char))) s.

Lemma clean_step_plain rooted acc part : plain_part part = true -> clean_step rooted acc part = part :: acc.
Proof. unfold plain_part, clean_step. intros H. bool_norm. by rewrite !(proj2 (str_eqb_neq _ _)) by done. Qed.

Lemma clean_parts rooted acc parts :
  forallb plain_part parts = true -> foldl (clean_step rooted) acc parts = rev parts ++ acc.
Proof.
  revert acc. induction parts as [|p ps IH]; intros acc H; [done|]. simpl in *. bool_norm.
  rewrite clean_step_plain, IH by done. by rewrite <-app_assoc.
Qed.

Lemma Split_Join parts :
  parts <> [] -> forallb plain_part parts = true -> Split (Join parts "/") "/" = parts.
Proof.
  induction parts as [|p ps IH]; intros Hne H; [done|]. simpl in H. bool_norm.
  assert (str_all (fun c => negb (bool_decide (c = "/"%char))) p = true) as Hp
    by (unfold plain_part in *; bool_norm; done).
  destruct ps as [|q qs]; [by apply Split_no_sep|]. rewrite Join_cons.
  change ("/" +:+ ?x) with (String "/" x). rewrite Split_app by done. f_equal. by apply IH.
Qed.

Lemma Join_plain_head parts :
  parts <> [] -> forallb plain_part parts = true ->
  HasPrefix (Join parts "/") "/" = false /\ Join parts "/" <> "".
Proof.
  destruct parts as [|p ps]; [done|]. intros _ H. simpl in H. bool_norm. unfold plain_part in *. bool_norm.
  destruct p as [|c p]; [done|]. simpl in *. bool_norm.
  assert (exists t, Join (String c p :: ps) "/" = String c t) as [t Ht].
  { destruct ps; [by exists p|]. by eexists. }
  change (match ps with [] => String c p | _ :: _ => String c p +:+ "/" +:+ Join ps "/" end)
    with (Join (String c p :: ps) "/"). rewrite Ht. simpl. by rewrite bool_decide_false by congruence.
Qed.

(** Clean leaves a path of plain components alone, and drops a trailing slash. *)
Lemma Clean_plain parts :
  parts <> [] -> forallb plain_part parts = true -> Clean (Join parts "/") = Join parts "/".
Proof.
  intros Hne H. destruct (Join_plain_head parts Hne H) as [Hp Hs]. unfold Clean.
  rewrite Hp, Split_Join, clean_parts, app_nil_r, rev_involutive by done.
  by rewrite (proj2 (str_eqb_neq _ _)).
Qed.

Lemma Split_app_slash parts :
  parts <> [] -> forallb plain_part parts = true -> Split (Join parts "/" +:+ "/") "/" = parts ++ [""].
Proof.
  induction parts as [|p ps IH]; intros Hne H; [done|]. simpl in H. bool_norm.
  assert (str_all (fun c => negb (bool_decide (c = "/"%char))) p = true) as Hp
    by (unfold plain_part in *; bool_norm; done).
  destruct ps as [|q qs].
  - change (Join [p] "/") with p. by rewrite (Split_app "/" p "").
  - rewrite Join_cons, !str_app_assoc. change ("/" +:+ (?x +:+ ?y)) with (String "/" (x +:+ y)).
    rewrite Split_app by done. simpl. f_equal. by apply IH.
Qed.

Lemma Clean_slash parts :
  parts <> [] -> forallb plain_part parts = true -> Clean (Join parts "/" +:+ "/") = Join parts "/".
Proof.
  intros Hne H. destruct (Join_plain_head parts Hne H) as [Hp Hs]. unfold Clean.
  assert (HasPrefix (Join parts "/" +:+ "/") "/" = false) as ->.
  { destruct (Join parts "/") as [|c t]; [done|]. rewrite str_app_cons. exact Hp. }
  rewrite (Split_app_slash parts Hne H), foldl_app, (clean_parts false [] parts H), app_nil_r.
  change (foldl (clean_step false) (rev parts) [""]) with (rev parts). rewrite rev_involutive. by rewrite (proj2 (str_eqb_neq _ _)).
Qed.

(** The directory of a path of plain components. *)
Lemma Dir_plain parts last :
  parts <> [] -> forallb plain_part parts = true -> plain_part last = true ->
  Dir (Join (parts ++ [last]) "/") = Join parts "/".
Proof.
  intros Hne H Hl. unfold Dir, path_Split.
  rewrite Split_Join; [|by destruct parts|rewrite forallb_app; simpl; by rewrite H, Hl].
  rewrite rev_app_distr. change (rev [last] ++ rev parts) with (last :: rev parts). destruct (rev parts) as [|x xs] eqn:E.
  { apply (f_equal (@rev _)) in E. rewrite rev_involutive in E. done. }
  cbn [fst]. rewrite <-E, rev_involutive. by apply Clean_slash.
Qed.

Lemma path_Join_plain a parts b :
  Join parts "/" = a -> parts <> [] -> forallb plain_part parts = true -> plain_part b = true ->
  path_Join [a; b] = a +:+ "/" +:+ b.
Proof.
  intros <- Hne H Hb. destruct (Join_plain_head parts Hne H) as [_ Hs]. unfold path_Join. cbn [skip_empty].
  rewrite (proj2 (str_eqb_neq _ _)) by done.
  assert (Join parts "/" +:+ "/" +:+ b = Join (parts ++ [b]) "/") as Hj.
  { clear -Hne. induction parts as [|p ps IH]; [done|]. destruct ps as [|q qs]; [done|].
    rewrite Join_cons, !str_app_assoc. rewrite IH by done. done. }
  rewrite Join_cons. change (Join [b] "/") with b. rewrite Hj.
  apply Clean_plain; [by destruct parts|]. rewrite forallb_app. simpl. by rewrite H, Hb.
Qed.
