(* ===== verification/ObjectStore.v ===== *)
(** The port [ports.ObjectStore]: the operations a client calls, the programs
    clients are, and the contract every store keeps.

    A client is a [prog]: a tree of store calls.  [answers] is the contract: which
    answers a call may get in a state of the store, and what it does to the state.
    [exec] runs a program against any store that keeps the contract, with other
    clients changing the store between any two calls; it records the program's own
    mutations as [commit]s.  [StoreImpl] is the interface an implementation
    discharges, and [run] executes a program on one. *)
From S2P Require Import Prelude Sha256 GoTime Json Codec.

(** * Data (objectstore.go) *)
Record ObjectMeta := mkObjectMeta {
  om_Key : string;
  om_Size : Z;
  om_Revision : string;
  om_SHA256 : string;
  om_Modified : Time }.

#[export] Instance ObjectMeta_eq_dec : EqDecision ObjectMeta.
Proof. solve_decision. Defined.

Definition zero_meta : ObjectMeta := mkObjectMeta "" 0 "" "" zero_time.

Record ObjectSourceFingerprint := mkObjectSourceFingerprint {
  sf_Kind : string;
  sf_Key : string;
  sf_Revision : string;
  sf_Size : Z;
  sf_SHA256 : string;
  sf_CanonicalPath : string;
  sf_Device : Z;
  sf_Inode : Z }.

#[export] Instance ObjectSourceFingerprint_eq_dec : EqDecision ObjectSourceFingerprint.
Proof. solve_decision. Defined.

Record WriteCondition := mkWriteCondition {
  wc_MustBeAbsent : bool;
  wc_MatchRevision : string }.

(** An [io.ReadCloser]: the bytes it delivers, the error that ends them (nil at
    end of file) and the error of Close. *)
Record Reader := mkReader {
  rd_body : bytes;
  rd_err : option error;
  rd_close : option error }.

(** A [RestartableSource]: what each call of Open gives. *)
Definition RestartableSource : Type := result Reader.

(** [io.ReadAll(r)] and [io.ReadAll(io.LimitReader(r, n))]. *)
Definition ReadAll (r : Reader) : result bytes :=
  match rd_err r with None => Ok (rd_body r) | Some e => Err e end.
Definition ReadAllLimit (n : Z) (r : Reader) : result bytes :=
  if n <=? str_len (rd_body r) then Ok (str_take (Z.to_nat n) (rd_body r)) else ReadAll r.

(** * Calls and programs *)
Inductive storeE : Type -> Type :=
| Get (key : string) : storeE (result (Reader * ObjectMeta))
| Head (key : string) : storeE (result ObjectMeta)
| PutImmutable (key : string) (source : RestartableSource) (expectedSHA256 : string) (expectedSize : Z)
    : storeE (result ObjectMeta)
| PutConditional (key : string) (body : bytes) (condition : WriteCondition) : storeE (result ObjectMeta)
| DeleteConditional (key : string) (expected : string) : storeE (result unit)
| List (prefix pageToken : string) : storeE (result (list ObjectMeta * string))
(** [None]: the store does not implement ObjectStoreIdentity. *)
| SourceIdentity (key : string) : storeE (option (result ObjectSourceFingerprint))
(** [ctx.Err()] *)
| CtxErr : storeE (option error).

(** [Spin] is a loop that has used up the iterations the model allows: it has no
    outcome. *)
Inductive prog (A : Type) :=
| Ret (a : A)
| Vis {X : Type} (e : storeE X) (k : X -> prog A)
| Spin.
Arguments Ret {A} a.
Arguments Vis {A X} e k.
Arguments Spin {A}.

Fixpoint prog_bind {A B} (p : prog A) (k : A -> prog B) : prog B :=
  match p with
  | Ret a => k a
  | Vis e c => Vis e (fun x => prog_bind (c x) k)
  | Spin => Spin
  end.

Definition call {X} (e : storeE X) : prog X := Vis e Ret.

(** [x <- p; k]: a call whose outcome the code inspects. *)
Notation "x <- p ; k" := (prog_bind p (fun x => k)) (at level 100, p at next level, right associativity) : go_scope.

(** [try! x := p in k]: `x, err := p; if err != nil { return err }`. *)
Notation "'try!' x ':=' p 'in' k" :=
  (prog_bind p (fun r => match r with Ok x => k | Err e => Ret (Err e) end))
  (at level 10, x pattern, p at level 100, k at level 200) : go_scope.

(** [pure! x := r in k]: the same for code that makes no call. *)
Notation "'pure!' x ':=' r 'in' k" := (match r with Ok x => k | Err e => Ret (Err e) end)
  (at level 10, x pattern, r at level 100, k at level 200) : go_scope.

(** [guard! c else e; k]: `if !c { return e }`. *)
Notation "'guard!' c 'else' e ';' k" := (if c then k else Ret (Err e))
  (at level 10, c at level 100, e at level 100, k at level 200) : go_scope.

(** * The state of a store *)
Record object := mkObject { o_body : bytes; o_rev : string }.

#[export] Instance object_eq_dec : EqDecision object.
Proof. solve_decision. Defined.

(** The objects, and every revision ever given out with what it named. *)
Record world := mkWorld {
  objs : gmap string object;
  hist : gmap string (string * bytes) }.

Definition wf (w : world) : Prop :=
  forall key o, objs w !! key = Some o -> o_rev o <> "" /\ hist w !! o_rev o = Some (key, o_body o).

Definition put_object (key : string) (body : bytes) (rev : string) (w : world) : world :=
  mkWorld (<[key := mkObject body rev]> (objs w)) (<[rev := (key, body)]> (hist w)).
Definition delete_object (key : string) (w : world) : world := mkWorld (delete key (objs w)) (hist w).

(** A mutation: the object a key named before and after. *)
Record commit := mkCommit { cm_key : string; cm_old : option object; cm_new : option object }.

(** * The contract *)
Definition meta_of (key : string) (o : object) (m : ObjectMeta) : Prop :=
  om_Key m = key /\ om_Size m = str_len (o_body o) /\ om_Revision m = o_rev o /\
  (om_SHA256 m = "" \/ om_SHA256 m = sha256Hex (o_body o)).

(** A reader that reports no error delivers the object's bytes, and its errors do
    not say the object is missing. *)
Definition not_missing (e : option error) : Prop :=
  match e with Some err => errors_Is err ErrNotFound = false | None => True end.
Definition reads (o : object) (rd : Reader) : Prop :=
  (rd_err rd = None -> rd_body rd = o_body o) /\ not_missing (rd_err rd) /\ not_missing (rd_close rd).

Definition condition_holds (c : WriteCondition) (current : option object) : Prop :=
  if wc_MustBeAbsent c then current = None
  else exists o, current = Some o /\ o_rev o = wc_MatchRevision c.

(** An error after which the mutation may have happened all the same. *)
Definition ambiguous (e : error) : Prop :=
  errors_Is e ErrAmbiguous = true /\ errors_Is e ErrConflict = false /\ errors_Is e ErrNotFound = false.

Definition fresh (rev : string) (w : world) : Prop := rev <> "" /\ hist w !! rev = None.

(** The bytes of an immutable object are those the caller announced. *)
Definition announced (sha : string) (size : Z) (body : bytes) : Prop :=
  sha256Hex body = sha /\ str_len body = size.

(** Per operation: the state before, the answer, the state after and the
    mutations made. *)
Inductive get_answers (key : string) (w : world) : result (Reader * ObjectMeta) -> world -> list commit -> Prop :=
| get_ok o rd m :
    objs w !! key = Some o -> reads o rd -> meta_of key o m -> get_answers key w (Ok (rd, m)) w []
| get_err e :
    (errors_Is e ErrNotFound = true -> objs w !! key = None) -> get_answers key w (Err e) w [].

Inductive head_answers (key : string) (w : world) : result ObjectMeta -> world -> list commit -> Prop :=
| head_ok o m : objs w !! key = Some o -> meta_of key o m -> head_answers key w (Ok m) w []
| head_err e :
    (errors_Is e ErrNotFound = true -> objs w !! key = None) -> head_answers key w (Err e) w [].

Inductive immutable_answers (key sha : string) (size : Z) (w : world)
    : result ObjectMeta -> world -> list commit -> Prop :=
| immutable_new body rev m :
    objs w !! key = None -> fresh rev w -> announced sha size body -> meta_of key (mkObject body rev) m ->
    immutable_answers key sha size w (Ok m) (put_object key body rev w)
      [mkCommit key None (Some (mkObject body rev))]
| immutable_same o m :
    objs w !! key = Some o -> announced sha size (o_body o) -> meta_of key o m ->
    immutable_answers key sha size w (Ok m) w []
| immutable_err e : immutable_answers key sha size w (Err e) w []
| immutable_ambiguous e body rev :
    ambiguous e -> objs w !! key = None -> fresh rev w -> announced sha size body ->
    immutable_answers key sha size w (Err e) (put_object key body rev w)
      [mkCommit key None (Some (mkObject body rev))].

Inductive put_answers (key : string) (body : bytes) (c : WriteCondition) (w : world)
    : result ObjectMeta -> world -> list commit -> Prop :=
| put_ok rev m :
    condition_holds c (objs w !! key) -> fresh rev w -> meta_of key (mkObject body rev) m ->
    put_answers key body c w (Ok m) (put_object key body rev w)
      [mkCommit key (objs w !! key) (Some (mkObject body rev))]
| put_err e : put_answers key body c w (Err e) w []
| put_ambiguous e rev :
    ambiguous e -> condition_holds c (objs w !! key) -> fresh rev w ->
    put_answers key body c w (Err e) (put_object key body rev w)
      [mkCommit key (objs w !! key) (Some (mkObject body rev))].

Inductive delete_answers (key rev : string) (w : world) : result unit -> world -> list commit -> Prop :=
| delete_ok o :
    objs w !! key = Some o -> o_rev o = rev ->
    delete_answers key rev w (Ok tt) (delete_object key w) [mkCommit key (Some o) None]
| delete_err e : delete_answers key rev w (Err e) w []
| delete_ambiguous e o :
    ambiguous e -> objs w !! key = Some o -> o_rev o = rev ->
    delete_answers key rev w (Err e) (delete_object key w) [mkCommit key (Some o) None].

Inductive list_answers (prefix : string) (w : world)
    : result (list ObjectMeta * string) -> world -> list commit -> Prop :=
| list_ok items next :
    Forall (fun m => HasPrefix (om_Key m) prefix = true /\
      exists o, objs w !! om_Key m = Some o /\ meta_of (om_Key m) o m) items ->
    list_answers prefix w (Ok (items, next)) w []
| list_err e : list_answers prefix w (Err e) w [].

Definition answers {X} (e : storeE X) (w : world) : X -> world -> list commit -> Prop :=
  match e with
  | Get key => get_answers key w
  | Head key => head_answers key w
  | PutImmutable key _ sha size => immutable_answers key sha size w
  | PutConditional key body c => put_answers key body c w
  | DeleteConditional key rev => delete_answers key rev w
  | List prefix _ => list_answers prefix w
  | SourceIdentity _ => fun _ w' cs => w' = w /\ cs = []
  | CtxErr => fun _ w' cs => w' = w /\ cs = []
  end.

(** What other clients may do between two calls: anything that keeps the store
    well formed and never gives a revision out twice. *)
Definition rely (w w' : world) : Prop := wf w' /\ hist w ⊆ hist w'.

Fixpoint exec {A} (p : prog A) (w : world) (a : A) (w' : world) (cs : list commit) : Prop :=
  match p with
  | Ret b => a = b /\ w' = w /\ cs = []
  | Vis e k => exists w1 x w2 cs1 cs2,
      rely w w1 /\ answers e w1 x w2 cs1 /\ exec (k x) w2 a w' cs2 /\ cs = cs1 ++ cs2
  | Spin => False
  end.

(** * Running a program on an implementation *)

(** [handle] answers calls on the implementation's own state, making the mutations
    [effects]; [abs] reads that state as a [world].  [si_ok] is the invariant the
    implementation keeps. *)
Class StoreImpl (S : Type) := {
  handle : forall X, storeE X -> S -> X * S;
  effects : forall X, storeE X -> S -> list commit;
  abs : S -> world;
  si_ok : S -> Prop;
  abs_wf s : si_ok s -> wf (abs s);
  handle_answers X (e : storeE X) s x s' :
    si_ok s -> handle X e s = (x, s') ->
    si_ok s' /\ answers e (abs s) x (abs s') (effects X e s) }.

Fixpoint run_with {S} (h : forall X, storeE X -> S -> X * S) {A} (p : prog A) (s : S) : option (A * S) :=
  match p with
  | Ret a => Some (a, s)
  | Vis e k => let '(x, s') := h _ e s in run_with h (k x) s'
  | Spin => None
  end.
Definition run {S} `{StoreImpl S} {A} (p : prog A) (s : S) : option (A * S) := run_with handle p s.

(** The mutations of a run. *)
Fixpoint trace {S} `{StoreImpl S} {A} (p : prog A) (s : S) : list commit :=
  match p with
  | Vis e k => effects _ e s ++ let '(x, s') := handle _ e s in trace (k x) s'
  | _ => []
  end.

(** * Facts about executions *)
Lemma rely_refl w : wf w -> rely w w.
Proof. by split. Qed.

Lemma put_object_wf key body rev w : wf w -> fresh rev w -> wf (put_object key body rev w).
Proof.
  intros Hw [Hne Hf] k o. unfold put_object. simpl. destruct (decide (k = key)) as [->|Hk].
  - rewrite lookup_insert_eq. intros [= <-]. simpl. split; [done|]. apply lookup_insert_eq.
  - rewrite lookup_insert_ne by done. intros Ho. destruct (Hw k o Ho) as [Hr Hh]. split; [done|].
    rewrite lookup_insert_ne; [done|]. intros Heq. congruence.
Qed.

Lemma delete_object_wf key w : wf w -> wf (delete_object key w).
Proof.
  intros Hw k o. unfold delete_object. simpl. intros [_ Ho]%lookup_delete_Some. by apply Hw.
Qed.

Lemma answers_grow {X} (e : storeE X) w x w' cs :
  answers e w x w' cs -> wf w -> wf w' /\ hist w ⊆ hist w'.
Proof.
  intros H Hw. assert (forall key body rev, fresh rev w -> hist w ⊆ hist (put_object key body rev w)) as Hput.
  { intros key body rev [_ Hf]. by apply insert_subseteq. }
  destruct e; simpl in H; try (by destruct H as [-> _]);
    destruct H; eauto using put_object_wf, delete_object_wf.
Qed.

Lemma exec_grow {A} (p : prog A) w a w' cs : exec p w a w' cs -> wf w -> wf w' /\ hist w ⊆ hist w'.
Proof.
  revert w cs. induction p as [b|X e c IH|]; intros w cs H Hw; simpl in H; [by destruct H as (_ & -> & _)| |done].
  destruct H as (w1 & x & w2 & cs1 & cs2 & [Hw1 Hh1] & Hans & Hex & _).
  destruct (answers_grow _ _ _ _ _ Hans Hw1) as [Hw2 Hh2]. destruct (IH x w2 cs2 Hex Hw2) as [Hw3 Hh3].
  split; [done|]. by etrans; [|etrans].
Qed.

Lemma exec_call_inv {X} (e : storeE X) w x w' cs :
  exec (call e) w x w' cs -> exists w1, rely w w1 /\ answers e w1 x w' cs.
Proof.
  intros (w1 & y & w2 & cs1 & cs2 & Hr & Ha & (-> & -> & ->) & ->). exists w1. by rewrite app_nil_r.
Qed.

Lemma exec_bind_inv {A B} (p : prog A) (k : A -> prog B) w b w' cs :
  exec (prog_bind p k) w b w' cs ->
  exists a w1 cs1 cs2, exec p w a w1 cs1 /\ exec (k a) w1 b w' cs2 /\ cs = cs1 ++ cs2.
Proof.
  revert w cs. induction p as [a|X e c IH|]; intros w cs H; simpl in H.
  - exists a, w, [], cs. done.
  - destruct H as (w1 & x & w2 & cs1 & cs2 & Hr & Ha & Hx & ->).
    apply IH in Hx as (a & w3 & cs3 & cs4 & H1 & H2 & ->).
    exists a, w3, (cs1 ++ cs3), cs4. split; [by exists w1, x, w2, cs1, cs3|]. by rewrite app_assoc.
  - done.
Qed.

(** A revision names the same bytes for ever. *)
Lemma revision_stable w w' key o rev body k :
  wf w' -> hist w ⊆ hist w' -> hist w !! rev = Some (k, body) ->
  objs w' !! key = Some o -> o_rev o = rev -> k = key /\ o_body o = body.
Proof.
  intros Hw Hsub Hh Ho <-. destruct (Hw key o Ho) as [_ Ho'].
  eapply lookup_weaken in Hh; [|exact Hsub]. rewrite Ho' in Hh. by injection Hh as -> ->.
Qed.

(** A run on an implementation is one of the contract's executions, without
    interference. *)
Lemma run_exec {S} `{StoreImpl S} {A} (p : prog A) s a s' :
  si_ok s -> run p s = Some (a, s') -> exec p (abs s) a (abs s') (trace p s) /\ si_ok s'.
Proof.
  unfold run. revert s. induction p as [b|X e c IH|]; intros s Hs Hrun; simpl in Hrun.
  - by injection Hrun as -> ->.
  - simpl. destruct (handle X e s) as [x s1] eqn:E.
    destruct (handle_answers X e s x s1 Hs E) as (Hs1 & Ha).
    destruct (IH x s1 Hs1 Hrun) as (Hex & Hs').
    split; [|done]. eexists (abs s), x, (abs s1), _, _. split; [|done]. apply rely_refl. by apply abs_wf.
  - done.
Qed.

Lemma run_with_bind {S} (h : forall X, storeE X -> S -> X * S) {A B} (p : prog A) (k : A -> prog B) s :
  run_with h (prog_bind p k) s = (r ← run_with h p s; run_with h (k r.1) r.2).
Proof.
  revert s. induction p as [a|X e c IH|]; intros s; simpl; [done| |done].
  destruct (h X e s) as [x s']. apply IH.
Qed.

(** Decomposes the execution of a program into those of its steps. *)
Ltac subst_lhs E :=
  lazymatch type of E with ?x = _ => tryif is_var x then try subst x else idtac end.

Ltac exec_done :=
  match goal with
  | H : exec (Ret _) _ _ _ _ |- _ =>
      let E1 := fresh "E" in let E2 := fresh "E" in let E3 := fresh "E" in
      destruct H as (E1 & E2 & E3); subst_lhs E1; subst_lhs E2; subst_lhs E3
  end.

(** The first step is a call: [w1] is the state it was answered in, [w2] the state
    it left. *)
Tactic Notation "exec_call" hyp(H) "as" ident(w1) ident(x) ident(w2) ident(cs1) ident(cs2) ident(Hr) ident(Ha) :=
  let E := fresh "E" in
  apply exec_bind_inv in H as (x & w2 & cs1 & cs2 & Ha & H & E); apply exec_call_inv in Ha as (w1 & Hr & Ha);
  simpl in Ha; subst_lhs E.

(** The first step is a program. *)
Tactic Notation "exec_sub" hyp(H) "as" ident(x) ident(w1) ident(cs1) ident(cs2) ident(Hs) :=
  let E := fresh "E" in
  apply exec_bind_inv in H as (x & w1 & cs1 & cs2 & Hs & H & E); subst_lhs E.
