(* ===== verification/RefStore.v ===== *)
(** An executable store that keeps the contract of ObjectStore.v: no faults, no
    interference, revisions numbered in order.  It is the store the concrete
    scenarios run on, and what the functional theorems of the repositories state
    their outcomes over. *)
From S2P Require Import Prelude Sha256 GoTime Json Codec ObjectStore.

Record ref_store := mkRefStore { rs_world : world; rs_next : nat }.

Definition ref_revision (n : nat) : string := "r" +:+ pretty n.

Definition ref_meta (key : string) (o : object) : ObjectMeta :=
  mkObjectMeta key (str_len (o_body o)) (o_rev o) (sha256Hex (o_body o)) zero_time.

Definition ref_put (key : string) (body : bytes) (s : ref_store) : result ObjectMeta * ref_store :=
  let rev := ref_revision (rs_next s) in
  (Ok (ref_meta key (mkObject body rev)),
   mkRefStore (put_object key body rev (rs_world s)) (S (rs_next s))).

Definition ref_put_conditional (key : string) (body : bytes) (c : WriteCondition) (s : ref_store)
    : result ObjectMeta * ref_store :=
  match objs (rs_world s) !! key with
  | None =>
      if wc_MustBeAbsent c then ref_put key body s
      else (Err ErrNotFound, s)
  | Some o =>
      if wc_MustBeAbsent c then (Err ErrConflict, s)
      else if str_eqb (o_rev o) (wc_MatchRevision c) then ref_put key body s
      else (Err ErrConflict, s)
  end.

Definition ref_put_immutable (key : string) (source : RestartableSource) (sha : string) (size : Z) (s : ref_store)
    : result ObjectMeta * ref_store :=
  match (let! rd := source in ReadAll rd) with
  | Err e => (Err e, s)
  | Ok body =>
      if str_eqb (sha256Hex body) sha && (str_len body =? size) then
        match objs (rs_world s) !! key with
        | None => ref_put key body s
        | Some o =>
            if str_eqb (sha256Hex (o_body o)) sha && (str_len (o_body o) =? size)
            then (Ok (ref_meta key o), s) else (Err ErrConflict, s)
        end
      else (Err ErrIntegrity, s)
  end.

Definition ref_handle (X : Type) (e : storeE X) : ref_store -> X * ref_store :=
  match e with
  | Get key => fun s =>
      match objs (rs_world s) !! key with
      | Some o => (Ok (mkReader (o_body o) None None, ref_meta key o), s)
      | None => (Err ErrNotFound, s)
      end
  | Head key => fun s =>
      match objs (rs_world s) !! key with
      | Some o => (Ok (ref_meta key o), s)
      | None => (Err ErrNotFound, s)
      end
  | PutImmutable key source sha size => ref_put_immutable key source sha size
  | PutConditional key body c => ref_put_conditional key body c
  | DeleteConditional key rev => fun s =>
      match objs (rs_world s) !! key with
      | None => (Err ErrNotFound, s)
      | Some o =>
          if str_eqb (o_rev o) rev then (Ok tt, mkRefStore (delete_object key (rs_world s)) (rs_next s))
          else (Err ErrConflict, s)
      end
  | List prefix _ => fun s =>
      (Ok (map (fun kv => ref_meta kv.1 kv.2)
             (filter (fun kv => HasPrefix kv.1 prefix = true) (map_to_list (objs (rs_world s)))), ""), s)
  | SourceIdentity _ => fun s => (None, s)
  | CtxErr => fun s => (None, s)
  end.

(** The mutation of a call: what its key named before and after. *)
Definition ref_change (key : string) (s s' : ref_store) : list commit :=
  let old := objs (rs_world s) !! key in
  let new := objs (rs_world s') !! key in
  if bool_decide (old = new) then [] else [mkCommit key old new].

Definition ref_effects (X : Type) (e : storeE X) (s : ref_store) : list commit :=
  let s' := (ref_handle X e s).2 in
  match e with
  | PutImmutable key _ _ _ | PutConditional key _ _ | DeleteConditional key _ => ref_change key s s'
  | _ => []
  end.

(** Revisions from [rs_next] on have not been given out. *)
Definition ref_ok (s : ref_store) : Prop :=
  wf (rs_world s) /\ forall n, (rs_next s <= n)%nat -> hist (rs_world s) !! ref_revision n = None.

Definition ref_empty : ref_store := mkRefStore (mkWorld ∅ ∅) 0.

Lemma ref_empty_ok : ref_ok ref_empty.
Proof. split; [|done]. intros key o. simpl. by rewrite lookup_empty. Qed.

Lemma ref_revision_inj m n : ref_revision m = ref_revision n -> m = n.
Proof. intros H. assert (pretty m = pretty n) as Hp by (unfold ref_revision in H; by apply (inj (String.append "r")) in H). by apply (inj pretty) in Hp. Qed.

Lemma ref_fresh s : ref_ok s -> fresh (ref_revision (rs_next s)) (rs_world s).
Proof. intros [_ H]. split; [done|]. by apply H. Qed.

Lemma ref_meta_of key o : meta_of key o (ref_meta key o).
Proof. repeat split; simpl; auto. Qed.

Lemma ref_put_ok key body s : ref_ok s -> ref_ok (ref_put key body s).2.
Proof.
  intros Hs. pose proof (ref_fresh s Hs) as Hf. destruct Hs as [Hw Hn]. split; simpl.
  - by apply put_object_wf.
  - intros n Hle. rewrite lookup_insert_ne; [apply Hn; lia|]. intros H%ref_revision_inj. lia.
Qed.

Lemma ref_change_none key s : ref_change key s s = [].
Proof. unfold ref_change. by rewrite bool_decide_true. Qed.

Lemma ref_change_put key body s :
  ref_ok s -> ref_change key s (ref_put key body s).2 =
  [mkCommit key (objs (rs_world s) !! key) (Some (mkObject body (ref_revision (rs_next s))))].
Proof.
  intros Hs. pose proof (ref_fresh s Hs) as [_ Hf]. unfold ref_change. simpl. rewrite lookup_insert_eq.
  rewrite bool_decide_false; [done|]. intros Ho. destruct (proj1 Hs _ _ Ho) as [_ Hh]. simpl in Hh. congruence.
Qed.

Lemma ref_change_delete key s o :
  objs (rs_world s) !! key = Some o ->
  ref_change key s (mkRefStore (delete_object key (rs_world s)) (rs_next s)) = [mkCommit key (Some o) None].
Proof. intros Ho. unfold ref_change. simpl. rewrite lookup_delete_eq, Ho. done. Qed.

Lemma ref_handle_answers X (e : storeE X) s x s' :
  ref_ok s -> ref_handle X e s = (x, s') ->
  ref_ok s' /\ answers e (rs_world s) x (rs_world s') (ref_effects X e s).
Proof.
  intros Hs H. pose proof (ref_fresh s Hs) as Hf. pose proof ref_meta_of as Hm.
  unfold ref_effects. rewrite H. cbn [snd].
  destruct e; simpl in H; unfold ref_put_conditional, ref_put_immutable in H.
  - destruct (objs (rs_world s) !! key) as [o|] eqn:E; injection H as <- <-; (split; [done|]).
    + apply (get_ok _ _ o); [done| |done]. by repeat split.
    + by apply get_err.
  - destruct (objs (rs_world s) !! key) as [o|] eqn:E; injection H as <- <-; (split; [done|]).
    + by apply (head_ok _ _ o).
    + by apply head_err.
  - destruct (result_bind source ReadAll) as [body|err];
      [|injection H as <- <-; split; [done|]; rewrite ref_change_none; constructor].
    destruct (_ && _) eqn:Ea in H; [|injection H as <- <-; split; [done|]; rewrite ref_change_none; constructor].
    bool_norm. destruct (objs (rs_world s) !! key) as [o|] eqn:E.
    + destruct (_ && _) eqn:Eb in H; injection H as <- <-; (split; [done|]); rewrite ref_change_none; [|constructor].
      bool_norm. by eapply immutable_same.
    + injection H as <- <-. split; [by apply (ref_put_ok key body)|].
      pose proof (ref_change_put key body s Hs) as Hc. simpl in Hc. simpl. rewrite Hc, E. by eapply immutable_new.
  - pose proof (ref_change_put key body s Hs) as Hc. simpl in Hc.
    destruct (objs (rs_world s) !! key) as [o|] eqn:E; destruct (wc_MustBeAbsent condition) eqn:Eab.
    + injection H as <- <-. split; [done|]. rewrite ref_change_none. constructor.
    + destruct (str_eqb _ _) eqn:Er in H; injection H as <- <-; [|split; [done|]; rewrite ref_change_none; constructor].
      bool_norm. split; [by apply (ref_put_ok key body)|]. simpl. rewrite Hc, <-E. eapply put_ok; [|done|done].
      unfold condition_holds. rewrite Eab, E. eauto.
    + injection H as <- <-. split; [by apply (ref_put_ok key body)|]. simpl. rewrite Hc, <-E. eapply put_ok; [|done|done].
      unfold condition_holds. by rewrite Eab.
    + injection H as <- <-. split; [done|]. rewrite ref_change_none. constructor.
  - destruct (objs (rs_world s) !! key) as [o|] eqn:E;
      [|injection H as <- <-; split; [done|]; rewrite ref_change_none; constructor].
    destruct (str_eqb _ _) eqn:Er in H; injection H as <- <-;
      [|split; [done|]; rewrite ref_change_none; constructor].
    bool_norm. rewrite (ref_change_delete key s o E). split; [|by eapply delete_ok].
    destruct Hs as [Hw Hn]. split; [by apply delete_object_wf|done].
  - injection H as <- <-. split; [done|]. apply list_ok. apply Forall_forall. intros m Hm'.
    apply list_elem_of_fmap in Hm' as ([k o] & -> & Hin).
    apply list_elem_of_filter in Hin as [Hp Hin]. simpl in *. split; [done|].
    exists o. split; [by apply elem_of_map_to_list|done].
  - by injection H as <- <-.
  - by injection H as <- <-.
Qed.

#[export] Instance RefStore : StoreImpl ref_store := {|
  handle := ref_handle;
  effects := ref_effects;
  abs := rs_world;
  si_ok := ref_ok;
  abs_wf := fun s H => proj1 H;
  handle_answers := ref_handle_answers |}.

Lemma ref_run_exec {A} (p : prog A) (s : ref_store) a s' :
  ref_ok s -> run p s = Some (a, s') -> exec p (rs_world s) a (rs_world s') (trace p s) /\ ref_ok s'.
Proof. exact (run_exec p s a s'). Qed.
