(* ===== verification/Documents.v ===== *)
(** Coordination documents (package coordination): generation references and the
    keys of a generation's archive and sidecar (generations.go), document
    comparison and the bounded JSON read every repository starts from
    (pointers.go). *)
From S2P Require Import Prelude Sha256 GoTime Json Codec Domain Paths ObjectStore RefStore.

(** * Generation references (generations.go) *)
Definition validateGenerationRef (generation : GenerationRef) : result unit :=
  if (gr_Generation generation =? 0) || negb (str_len (gr_ArchiveSHA256 generation) =? 32 * 2) ||
     negb (str_eqb (gr_ArchiveSHA256 generation) (ToLower (gr_ArchiveSHA256 generation)))
  then Err ErrInvalidDocument
  else if negb (hex_decodable (gr_ArchiveSHA256 generation)) ||
          negb (str_len (gr_ArchiveSHA256 generation) / 2 =? 32)
  then Err ErrInvalidDocument
  else Ok tt.

Definition validateGenerationParent (child : GenerationRef) (parent : option GenerationRef) : result unit :=
  match parent with
  | None => Ok tt
  | Some p =>
      let! _ := validateGenerationRef p in
      if gr_Generation child <=? gr_Generation p then Err ErrInvalidDocument else Ok tt
  end.

(** The %d-%s part both keys of a generation end in. *)
Definition generation_name (generation : GenerationRef) : string :=
  FormatInt (gr_Generation generation) +:+ "-" +:+ gr_ArchiveSHA256 generation.

Definition GenerationObjectKey (capsule : string) (lineage : Lineage) (generation : GenerationRef) : result string :=
  let! _ := Lineage_PointerKey lineage capsule in
  let! _ := validateGenerationRef generation in
  Ok (capsule +:+ "/generations/" +:+ generation_name generation +:+ ".tar.zst").

Definition generationMetadataPrefix (capsule : string) (lineage : Lineage) : result string :=
  let! pointerKey := Lineage_PointerKey lineage capsule in
  Ok (path_Join [Dir pointerKey; "generations"] +:+ "/").

Definition GenerationMetadataKey (capsule : string) (lineage : Lineage) (generation : GenerationRef) : result string :=
  let! prefix := generationMetadataPrefix capsule lineage in
  let! _ := validateGenerationRef generation in
  Ok (prefix +:+ generation_name generation +:+ ".json").

(** * Reading documents (pointers.go) *)
Definition maxCoordinationDocumentSize : Z := Z.shiftl 1 20.

(** [json.Marshal] of both sides, compared as bytes. *)
Definition documentsEqual {A} `{Codec A} (left right : A) : bool :=
  match Marshal left, Marshal right with
  | Some leftJSON, Some rightJSON => str_eqb leftJSON rightJSON
  | _, _ => false
  end.

Definition cloneGenerationRef (ref : option GenerationRef) : option GenerationRef := ref.

(** The body and the document of an object, with its metadata. *)
Definition readJSONWithBytes (T : Type) `{Codec T} (key : string) : prog (result (bytes * T * ObjectMeta)) :=
  try! (reader, meta) := call (Get key) in
  let readErr := ReadAllLimit (maxCoordinationDocumentSize + 1) reader in
  let closeErr := rd_close reader in
  pure! body := readErr in
  match closeErr with
  | Some e => Ret (Err e)
  | None =>
      if maxCoordinationDocumentSize <? str_len body then Ret (Err ErrInvalidDocument)
      else match Unmarshal body with
      | None => Ret (Err ErrInvalidDocument)
      | Some document => Ret (Ok (body, document, meta))
      end
  end.

(** The source spells the same steps out without keeping the body. *)
Definition readJSON (T : Type) `{Codec T} (key : string) : prog (result (T * ObjectMeta)) :=
  try! (reader, meta) := call (Get key) in
  let readErr := ReadAllLimit (maxCoordinationDocumentSize + 1) reader in
  let closeErr := rd_close reader in
  pure! body := readErr in
  match closeErr with
  | Some e => Ret (Err e)
  | None =>
      if maxCoordinationDocumentSize <? str_len body then Ret (Err ErrInvalidDocument)
      else match Unmarshal body with
      | None => Ret (Err ErrInvalidDocument)
      | Some document => Ret (Ok (document, meta))
      end
  end.

(** * Lemmas *)
Lemma validateGenerationRef_iff g :
  validateGenerationRef g = Ok tt <-> gr_Generation g <> 0 /\ sha256_text (gr_ArchiveSHA256 g) = true.
Proof.
  unfold validateGenerationRef, sha256_text. change (32 * 2) with 64.
  destruct (gr_Generation g =? 0) eqn:E1; bool_norm; simpl; [split; [done|lia]|].
  destruct (str_len (gr_ArchiveSHA256 g) =? 64); simpl; [|split; [done|by intros [_ ?]]].
  destruct (str_eqb _ _); simpl; [|split; [done|by intros [_ ?]]].
  destruct (hex_decodable _); simpl; [|split; [done|by intros [_ ?]]].
  destruct (_ =? 32); simpl; by split; [|intros [_ ?]].
Qed.

(** The object a key names holds document [d] at revision [rev]. *)
Definition holds {T : Type} `{Codec T} (w : world) (key rev : string) (d : T) : Prop :=
  exists o, objs w !! key = Some o /\ o_rev o = rev /\ Unmarshal (o_body o) = Some d.

(** A document once held at a revision is the one held whenever the object has
    that revision. *)
Lemma holds_stable {T : Type} `{Codec T} w w' key rev o (d : T) :
  holds w key rev d -> wf w -> rely w w' -> objs w' !! key = Some o -> o_rev o = rev ->
  Unmarshal (o_body o) = Some d.
Proof.
  intros (o0 & Ho0 & Hr0 & Hd) Hw [Hw' Hs] Ho Hr. destruct (Hw key o0 Ho0) as [_ Hh]. rewrite Hr0 in Hh.
  destruct (revision_stable w w' key o rev (o_body o0) key Hw' Hs Hh Ho Hr) as [_ ->]. done.
Qed.

Lemma holds_nonempty {T : Type} `{Codec T} w key rev (d : T) : wf w -> holds w key rev d -> rev <> "".
Proof. intros Hw (o & Ho & <- & _). by destruct (Hw key o Ho). Qed.

(** The bounded read delivers the object's own bytes. *)
Lemma ReadAllLimit_body o rd n b :
  0 <= n -> reads o rd -> ReadAllLimit (n + 1) rd = Ok b -> n <? str_len b = false -> b = o_body o.
Proof.
  intros Hn [Hrd _]. unfold ReadAllLimit, ReadAll. destruct (_ <=? _) eqn:El.
  - intros [= <-] Hlt. bool_norm. unfold str_len in *. exfalso.
    rewrite str_take_length in Hlt; lia.
  - destruct (rd_err rd) eqn:Ee; [done|]. intros [= <-] _. by apply Hrd.
Qed.

Lemma maxDocument_nonneg : 0 <= maxCoordinationDocumentSize.
Proof. by apply Z.shiftl_nonneg. Qed.
#[global] Opaque maxCoordinationDocumentSize.

(** What a read observed, in the state it leaves: no mutation, a document held at
    the revision reported, or an absent object when the error says so. *)
Lemma readJSON_spec {T : Type} `{HT : Codec T} key w r w' cs :
  exec (readJSON T key) w r w' cs ->
  cs = [] /\ rely w w' /\
  match r with
  | Ok (d, meta) => holds w' key (om_Revision meta) d
  | Err e => errors_Is e ErrNotFound = true -> objs w' !! key = None
  end.
Proof.
  intros Hex. unfold readJSON in Hex. exec_call Hex as w1 x w2 cs1 cs2 Hr Hcall.
  destruct Hcall as [o rd m Ho Hrd (Hk & Hsz & Hrev & _)|e He]; [|by exec_done].
  destruct (Hrd) as (Hb & Hn1 & Hn2).
  destruct (ReadAllLimit _ rd) as [b|e] eqn:Er.
  2:{ exec_done. split; [done|]. split; [done|]. unfold ReadAllLimit, ReadAll in Er. intros Hnf.
      destruct (_ <=? _); [done|]. destruct (rd_err rd); [|done]. injection Er as <-. simpl in Hn1. congruence. }
  destruct (rd_close rd) as [e|].
  { exec_done. split; [done|]. split; [done|]. simpl in Hn2. congruence. }
  destruct (maxCoordinationDocumentSize <? str_len b) eqn:El; [by exec_done|].
  destruct (Unmarshal b) as [d|] eqn:Eu; [|by exec_done]. exec_done.
  split; [done|]. split; [done|]. exists o. split; [done|]. split; [done|].
  by rewrite <-(ReadAllLimit_body o rd _ b maxDocument_nonneg Hrd Er El).
Qed.

(** On the reference store a read returns the document the key holds, or
    ErrNotFound. *)
Lemma ref_readJSON {T : Type} `{HT : Codec T} key (s : ref_store) o (d : T) :
  objs (rs_world s) !! key = Some o -> str_len (o_body o) <= maxCoordinationDocumentSize ->
  Unmarshal (o_body o) = Some d ->
  run (readJSON T key) s = Some (Ok (d, ref_meta key o), s).
Proof.
  intros Ho Hl Hd. unfold run, readJSON. rewrite run_with_bind. cbn [call run_with handle RefStore ref_handle].
  rewrite Ho. cbn [mbind option_bind fst snd]. unfold ReadAllLimit, ReadAll. cbn [rd_body rd_err rd_close].
  rewrite (proj2 (Z.leb_gt _ _)) by lia. rewrite (proj2 (Z.ltb_ge _ _)) by lia. by rewrite Hd.
Qed.

Lemma ref_readJSON_absent {T : Type} `{HT : Codec T} key (s : ref_store) :
  objs (rs_world s) !! key = None -> run (readJSON T key) s = Some (Err ErrNotFound, s).
Proof.
  intros Ho. unfold run, readJSON. rewrite run_with_bind. cbn [call run_with handle RefStore ref_handle].
  by rewrite Ho.
Qed.

(** What a read of a key gives on the reference store, in every case. *)
Definition document_at (T : Type) `{Codec T} (key : string) (s : ref_store) : result (T * ObjectMeta) :=
  match objs (rs_world s) !! key with
  | None => Err ErrNotFound
  | Some o =>
      if maxCoordinationDocumentSize <? str_len (o_body o) then Err ErrInvalidDocument
      else match Unmarshal (o_body o) with Some d => Ok (d, ref_meta key o) | None => Err ErrInvalidDocument end
  end.

Lemma ref_readJSON_at {T : Type} `{HT : Codec T} key (s : ref_store) :
  run (readJSON T key) s = Some (document_at T key s, s).
Proof.
  unfold document_at. destruct (objs (rs_world s) !! key) as [o|] eqn:Ho; [|by apply ref_readJSON_absent].
  unfold run, readJSON. rewrite run_with_bind. cbn [call run_with handle RefStore ref_handle]. rewrite Ho.
  cbn [mbind option_bind fst snd]. unfold ReadAllLimit, ReadAll. cbn [rd_body rd_err rd_close].
  destruct (_ <=? _) eqn:El; bool_norm.
  - rewrite (proj2 (Z.ltb_lt maxCoordinationDocumentSize (str_len (o_body o)))) by lia.
    rewrite (proj2 (Z.ltb_lt _ _)); [done|]. unfold str_len in *. rewrite str_take_length; [|pose proof maxDocument_nonneg; lia].
    pose proof maxDocument_nonneg. lia.
  - rewrite (proj2 (Z.ltb_ge _ _)) by lia. by destruct (Unmarshal (o_body o)).
Qed.

(** ** Keys of a generation *)
Lemma segment_plain name value : validateObjectKeySegment name value = Ok tt -> plain_part value = true.
Proof.
  intros H. pose proof (segment_no_slash _ _ _ H) as Hs. unfold plain_part. fold (no_slash value). rewrite Hs.
  unfold validateObjectKeySegment in H. destruct (_ || _) eqn:E in H; [done|].
  apply orb_false_iff in E as [E _]. by rewrite E.
Qed.

Definition metadata_parts (capsule : string) (lineage : Lineage) : list string :=
  if Lineage_IsMain lineage then [capsule; "generations"] else [capsule; "branches"; ln_Branch lineage; "generations"].

Lemma PointerKey_segments l c key :
  Lineage_PointerKey l c = Ok key ->
  plain_part c = true /\ plain_part (ln_Branch l) = true /\ key = Join (pointer_parts l c) "/".
Proof.
  intros H. pose proof (PointerKey_parts _ _ _ H) as Hp. unfold Lineage_PointerKey, result_bind in H.
  destruct (validateObjectKeySegment "capsule" c) as [[]|] eqn:Ec; [|done].
  destruct (validateObjectKeySegment "branch" (ln_Branch l)) as [[]|] eqn:Eb; [|done].
  split; [by eapply segment_plain|]. split; [by eapply segment_plain|]. by rewrite <-Hp, Join_Split.
Qed.

Lemma metadata_prefix l c key :
  Lineage_PointerKey l c = Ok key -> generationMetadataPrefix c l = Ok (Join (metadata_parts c l) "/" +:+ "/").
Proof.
  intros H. destruct (PointerKey_segments _ _ _ H) as (Hc & Hb & ->). unfold generationMetadataPrefix.
  rewrite H. simpl. f_equal. f_equal. unfold pointer_parts, metadata_parts.
  destruct (Lineage_IsMain l).
  - change [c; "latest.json"] with ([c] ++ ["latest.json"]).
    rewrite (Dir_plain [c] "latest.json") by (simpl; by rewrite ?Hc).
    rewrite (path_Join_plain (Join [c] "/") [c] "generations") by (simpl; by rewrite ?Hc). done.
  - change [c; "branches"; ln_Branch l; "latest.json"] with ([c; "branches"; ln_Branch l] ++ ["latest.json"]).
    rewrite (Dir_plain [c; "branches"; ln_Branch l] "latest.json") by (simpl; by rewrite ?Hc, ?Hb).
    rewrite (path_Join_plain (Join [c; "branches"; ln_Branch l] "/") [c; "branches"; ln_Branch l] "generations")
      by (simpl; by rewrite ?Hc, ?Hb).
    rewrite !Join_cons, !str_app_assoc. done.
Qed.

Lemma FormatInt_no_slash z : no_slash (FormatInt z) = true.
Proof.
  assert (forall s, str_all is_digit s = true -> no_slash s = true) as Hd.
  { intros s. apply str_all_impl. intros c Hc. apply negb_true_iff, bool_decide_eq_false. by intros ->. }
  destruct (FormatInt_cases z) as [(_ & [H _] & _)|(_ & t & -> & [H _] & _)]; [by apply Hd|].
  unfold no_slash. simpl. by apply Hd.
Qed.

Lemma sha256_text_facts s : sha256_text s = true -> String.length s = 64%nat /\ no_slash s = true.
Proof.
  unfold sha256_text, hex_decodable, str_len. intros H. bool_norm. split; [lia|].
  eapply str_all_impl; [|eassumption]. intros c Hc. apply negb_true_iff, bool_decide_eq_false. by intros ->.
Qed.

Lemma str_app_inj_length a b c d :
  a +:+ b = c +:+ d -> String.length b = String.length d -> a = c /\ b = d.
Proof.
  revert c. induction a as [|x a IH]; intros [|y c] H Hl.
  - done.
  - apply (f_equal String.length) in H. rewrite !str_length_app in H. simpl in H. lia.
  - apply (f_equal String.length) in H. rewrite !str_length_app in H. simpl in H. lia.
  - rewrite !str_app_cons in H. injection H as -> H. by destruct (IH c H Hl) as [-> ->].
Qed.

Lemma generation_name_inj g1 g2 :
  validateGenerationRef g1 = Ok tt -> validateGenerationRef g2 = Ok tt ->
  generation_name g1 = generation_name g2 -> g1 = g2.
Proof.
  intros [_ [H1 _]%sha256_text_facts]%validateGenerationRef_iff [_ [H2 _]%sha256_text_facts]%validateGenerationRef_iff H.
  unfold generation_name in H. rewrite <-!str_app_assoc in H.
  apply str_app_inj_length in H as [H Hs]; [|by rewrite H1, H2].
  apply str_app_inj_length in H as [H _]; [|done]. apply (inj pretty) in H. destruct g1, g2. simpl in *. by subst.
Qed.

Lemma MetadataKey_parts c l g key :
  GenerationMetadataKey c l g = Ok key ->
  validateGenerationRef g = Ok tt /\ Split key "/" = metadata_parts c l ++ [generation_name g +:+ ".json"].
Proof.
  unfold GenerationMetadataKey, result_bind. intros H.
  destruct (Lineage_PointerKey l c) as [pk|] eqn:Ep; [|unfold generationMetadataPrefix in H; by rewrite Ep in H].
  rewrite (metadata_prefix _ _ _ Ep) in H. destruct (validateGenerationRef g) as [[]|] eqn:Eg; [|done].
  injection H as <-. split; [done|]. destruct (PointerKey_segments _ _ _ Ep) as (Hc & Hb & _).
  apply validateGenerationRef_iff in Eg as [_ [_ Hsha]%sha256_text_facts].
  assert (no_slash (generation_name g +:+ ".json") = true) as Hn.
  { unfold generation_name, no_slash in *. rewrite !str_all_app.
    fold (no_slash (FormatInt (gr_Generation g))). rewrite FormatInt_no_slash. by rewrite Hsha. }
  assert (forall s t, plain_part s = true -> Split (s +:+ "/" +:+ t) "/" = s :: Split t "/") as Hsplit.
  { intros s t Hs. change ("/" +:+ t) with (String "/" t). apply Split_app. unfold plain_part in Hs. by bool_norm. }
  rewrite !str_app_assoc. unfold metadata_parts. destruct (Lineage_IsMain l).
  - rewrite Join_cons, !str_app_assoc, !Hsplit by done. by rewrite (Split_no_sep "/" _ Hn).
  - rewrite !Join_cons, !str_app_assoc, !Hsplit by done. by rewrite (Split_no_sep "/" _ Hn).
Qed.

Lemma ObjectKey_parts c l g key :
  GenerationObjectKey c l g = Ok key ->
  validateGenerationRef g = Ok tt /\ Split key "/" = [c; "generations"; generation_name g +:+ ".tar.zst"].
Proof.
  unfold GenerationObjectKey, result_bind. intros H. destruct (Lineage_PointerKey l c) as [pk|] eqn:Ep; [|done].
  destruct (validateGenerationRef g) as [[]|] eqn:Eg; [|done]. injection H as <-. split; [done|].
  destruct (PointerKey_segments _ _ _ Ep) as (Hc & _). unfold plain_part in Hc. bool_norm.
  apply validateGenerationRef_iff in Eg as [_ [_ Hsha]%sha256_text_facts].
  assert (no_slash (generation_name g +:+ ".tar.zst") = true) as Hn.
  { unfold generation_name, no_slash in *. rewrite !str_all_app.
    fold (no_slash (FormatInt (gr_Generation g))). rewrite FormatInt_no_slash. by rewrite Hsha. }
  change ("/generations/" +:+ ?x) with (String "/" ("generations" +:+ String "/" x)).
  rewrite Split_app, Split_app by done. by rewrite (Split_no_sep "/" _ Hn).
Qed.

Lemma name_json_tar a b : a +:+ ".json" <> b +:+ ".tar.zst".
Proof.
  intros H. apply (f_equal last_byte) in H.
  by rewrite (last_byte_app a "." "json"), (last_byte_app b "." "tar.zst") in H.
Qed.
