(* ===== verification/Pointers.v ===== *)
(** coordination.PointerRepository (pointers.go): the latest pointer of each
    lineage, published by compare-and-swap on the object's revision.

    The theorems hold for every store that keeps the contract of ObjectStore.v and
    for every interleaving with other clients: what a publication replaced, what it
    wrote, and that nothing else was touched. *)
From S2P Require Import Prelude Sha256 GoTime Json Codec Domain Paths ObjectStore RefStore Documents.

Record PointerRecord := mkPointerRecord {
  pr_Pointer : LatestPointer;
  pr_Revision : string }.

#[export] Instance PointerRecord_eq_dec : EqDecision PointerRecord.
Proof. solve_decision. Defined.

Definition validatePointer (pointer : LatestPointer) (capsule : string) (lineage : Lineage) : result unit :=
  if negb (lp_SchemaVersion pointer =? SchemaVersion) || negb (str_eqb (lp_Capsule pointer) capsule) ||
     negb (bool_decide (lp_Lineage pointer = lineage))
  then Err ErrInvalidDocument
  else
  let! _ := Lineage_PointerKey lineage capsule in
  let! _ := validateGenerationRef (lp_Generation pointer) in
  let! _ := validateGenerationParent (lp_Generation pointer) (lp_Parent pointer) in
  let! wantObjectKey := GenerationObjectKey capsule lineage (lp_Generation pointer) in
  if negb (str_eqb (lp_ObjectKey pointer) wantObjectKey) || (lp_Size pointer <? 0) ||
     IsZero (lp_CreatedAt pointer) || str_eqb (lp_SessionID pointer) ""
  then Err ErrInvalidDocument else Ok tt.

Definition Read (capsule : string) (lineage : Lineage) : prog (result PointerRecord) :=
  pure! key := Lineage_PointerKey lineage capsule in
  try! (pointer, meta) := readJSON LatestPointer key in
  pure! _ := validatePointer pointer capsule lineage in
  Ret (Ok (mkPointerRecord pointer (om_Revision meta))).

Definition pointerIdentityFromKey (key : string) : string * Lineage * bool :=
  match Split key "/" with
  | [p0; p1] =>
      if str_eqb p1 "latest.json" then (p0, mkLineage "main", negb (str_eqb p0 ""))
      else ("", mkLineage "", false)
  | [p0; p1; p2; p3] =>
      if str_eqb p1 "branches" && str_eqb p3 "latest.json"
      then (p0, mkLineage p2, negb (str_eqb p0 "") && negb (str_eqb p2 ""))
      else ("", mkLineage "", false)
  | _ => ("", mkLineage "", false)
  end.

(** The inner loop of List: the pointers of one page. *)
Fixpoint read_page (items : list ObjectMeta) (records : list PointerRecord) : prog (result (list PointerRecord)) :=
  match items with
  | [] => Ret (Ok records)
  | item :: rest =>
      let '(capsule, lineage, ok) := pointerIdentityFromKey (om_Key item) in
      if negb ok then read_page rest records
      else
        try! record := Read capsule lineage in
        read_page rest (records ++ [record])
  end.

Definition pointer_less (a b : PointerRecord) : bool :=
  if negb (str_eqb (lp_Capsule (pr_Pointer a)) (lp_Capsule (pr_Pointer b)))
  then str_ltb (lp_Capsule (pr_Pointer a)) (lp_Capsule (pr_Pointer b))
  else str_ltb (ln_Branch (lp_Lineage (pr_Pointer a))) (ln_Branch (lp_Lineage (pr_Pointer b))).

(** [fuel] bounds the pages: the source's loop has no bound of its own. *)
Fixpoint list_pages (fuel : nat) (token : string) (records : list PointerRecord)
    : prog (result (list PointerRecord)) :=
  match fuel with
  | O => Spin
  | S fuel' =>
      try! (items, next) := call (List "" token) in
      try! records := read_page items records in
      if str_eqb next "" then Ret (Ok records) else list_pages fuel' next records
  end.

Definition PointerList (fuel : nat) : prog (result (list PointerRecord)) :=
  try! records := list_pages fuel "" [] in
  Ret (Ok (sort_slice pointer_less records)).

Definition MustBeAbsent : WriteCondition := mkWriteCondition true "".
Definition MatchRevision (rev : string) : WriteCondition := mkWriteCondition false rev.

Definition Create (next : LatestPointer) : prog (result PointerRecord) :=
  pure! _ := validatePointer next (lp_Capsule next) (lp_Lineage next) in
  if negb (Lineage_IsMain (lp_Lineage next)) && bool_decide (lp_Parent next = None)
  then Ret (Err ErrInvalidDocument)
  else
  pure! key := Lineage_PointerKey (lp_Lineage next) (lp_Capsule next) in
  pure! body := marshal next in
  put <- call (PutConditional key body MustBeAbsent);
  match put with
  | Err err =>
      if errors_Is err ErrAmbiguous then
        reconciled <- Read (lp_Capsule next) (lp_Lineage next);
        match reconciled with
        | Ok record => if documentsEqual (pr_Pointer record) next then Ret (Ok record) else Ret (Err err)
        | Err _ => Ret (Err err)
        end
      else Ret (Err err)
  | Ok meta => Ret (Ok (mkPointerRecord next (om_Revision meta)))
  end.

Definition Revalidate (observed : PointerRecord) : prog (result unit) :=
  current <- Read (lp_Capsule (pr_Pointer observed)) (lp_Lineage (pr_Pointer observed));
  match current with
  | Err err => if errors_Is err ErrNotFound then Ret (Err ErrPointerChanged) else Ret (Err err)
  | Ok record =>
      if negb (str_eqb (pr_Revision record) (pr_Revision observed)) ||
         negb (documentsEqual (pr_Pointer record) (pr_Pointer observed))
      then Ret (Err ErrPointerChanged) else Ret (Ok tt)
  end.

(** The conditional write of CompareAndSwap and SelectHistorical: the same
    statements in both. *)
Definition swap_pointer (expected : PointerRecord) (next : LatestPointer) : prog (result PointerRecord) :=
  try! _ := Revalidate expected in
  pure! body := marshal next in
  let key := match Lineage_PointerKey (lp_Lineage next) (lp_Capsule next) with Ok k => k | Err _ => "" end in
  put <- call (PutConditional key body (MatchRevision (pr_Revision expected)));
  match put with
  | Err err =>
      let failed : prog (result PointerRecord) :=
        if errors_Is err ErrConflict || errors_Is err ErrNotFound then Ret (Err ErrPointerChanged)
        else Ret (Err err) in
      if errors_Is err ErrAmbiguous then
        reconciled <- Read (lp_Capsule next) (lp_Lineage next);
        match reconciled with
        | Ok record => if documentsEqual (pr_Pointer record) next then Ret (Ok record) else failed
        | Err _ => failed
        end
      else failed
  | Ok meta => Ret (Ok (mkPointerRecord next (om_Revision meta)))
  end.

Definition CompareAndSwap (expected : PointerRecord) (next : LatestPointer) : prog (result PointerRecord) :=
  let current := pr_Pointer expected in
  pure! _ := validatePointer current (lp_Capsule current) (lp_Lineage current) in
  if str_eqb (pr_Revision expected) "" then Ret (Err ErrInvalidDocument)
  else
  pure! _ := validatePointer next (lp_Capsule current) (lp_Lineage current) in
  guard! bool_decide (lp_Parent next = Some (lp_Generation current)) else ErrInvalidDocument;
  if gr_Generation (lp_Generation next) <=? gr_Generation (lp_Generation current)
  then Ret (Err ErrInvalidDocument)
  else swap_pointer expected next.

Definition SelectHistorical (expected : PointerRecord) (historical : LatestPointer) : prog (result PointerRecord) :=
  let current := pr_Pointer expected in
  pure! _ := validatePointer current (lp_Capsule current) (lp_Lineage current) in
  if str_eqb (pr_Revision expected) "" then Ret (Err ErrInvalidDocument)
  else
  pure! _ := validatePointer historical (lp_Capsule current) (lp_Lineage current) in
  if gr_Generation (lp_Generation current) <=? gr_Generation (lp_Generation historical)
  then Ret (Err ErrInvalidDocument)
  else swap_pointer expected historical.

(** * The baseline a session publishes against *)
Record PointerBaseline := mkPointerBaseline {
  pb_OpenedGeneration : option GenerationRef;
  pb_CurrentGeneration : option GenerationRef;
  pb_ExpectedRevision : string }.

Definition NewPointerBaseline (observed : option PointerRecord) : PointerBaseline :=
  match observed with
  | None => mkPointerBaseline None None ""
  | Some o =>
      mkPointerBaseline (cloneGenerationRef (Some (lp_Generation (pr_Pointer o))))
        (cloneGenerationRef (Some (lp_Generation (pr_Pointer o)))) (pr_Revision o)
  end.

Definition Advance (b : PointerBaseline) (published : PointerRecord) : PointerBaseline :=
  mkPointerBaseline (pb_OpenedGeneration b) (cloneGenerationRef (Some (lp_Generation (pr_Pointer published))))
    (pr_Revision published).

(** * Lemmas *)
Lemma segment_err name value e :
  validateObjectKeySegment name value = Err e -> errors_Is e ErrNotFound = false.
Proof. unfold validateObjectKeySegment. destruct (_ || _); [by intros [= <-]|done]. Qed.

Lemma PointerKey_err l capsule e : Lineage_PointerKey l capsule = Err e -> errors_Is e ErrNotFound = false.
Proof.
  unfold Lineage_PointerKey, result_bind. intros H.
  destruct (validateObjectKeySegment "capsule" capsule) eqn:E1; [|injection H as <-; by eapply segment_err].
  destruct (validateObjectKeySegment "branch" (ln_Branch l)) eqn:E2; [|injection H as <-; by eapply segment_err].
  by destruct (Lineage_IsMain l).
Qed.

Lemma GenerationRef_err g e : validateGenerationRef g = Err e -> e = ErrInvalidDocument.
Proof. unfold validateGenerationRef. intros H. break_result H; congruence. Qed.

Lemma GenerationParent_err g p e : validateGenerationParent g p = Err e -> e = ErrInvalidDocument.
Proof.
  unfold validateGenerationParent, result_bind. intros H. destruct p as [p|]; [|done].
  destruct (validateGenerationRef p) eqn:E; [break_result H; congruence|].
  injection H as <-. by eapply GenerationRef_err.
Qed.

Lemma GenerationObjectKey_err c l g e : GenerationObjectKey c l g = Err e -> errors_Is e ErrNotFound = false.
Proof.
  unfold GenerationObjectKey, result_bind. intros H.
  destruct (Lineage_PointerKey l c) eqn:E1; [|injection H as <-; by eapply PointerKey_err].
  destruct (validateGenerationRef g) eqn:E2; [done|]. injection H as <-.
  by rewrite (GenerationRef_err _ _ E2).
Qed.

(** What a valid pointer is. *)
Lemma validatePointer_ok p c l :
  validatePointer p c l = Ok tt ->
  lp_Capsule p = c /\ lp_Lineage p = l /\ (exists key, Lineage_PointerKey l c = Ok key) /\
  validateGenerationRef (lp_Generation p) = Ok tt /\
  GenerationObjectKey c l (lp_Generation p) = Ok (lp_ObjectKey p) /\ 0 <= lp_Size p.
Proof.
  unfold validatePointer, result_bind. intros H. destruct (_ || _) eqn:E0 in H; [done|]. bool_norm. subst.
  destruct (Lineage_PointerKey _ _) as [key|] eqn:E1; [|done].
  destruct (validateGenerationRef _) as [[]|] eqn:E2; [|done].
  destruct (validateGenerationParent _ _) eqn:E3; [|done].
  destruct (GenerationObjectKey _ _ _) as [want|] eqn:E4; [|done].
  destruct (_ || _) eqn:E5 in H; [done|]. bool_norm. subst. eauto 10.
Qed.

Lemma validatePointer_err p c l e : validatePointer p c l = Err e -> errors_Is e ErrNotFound = false.
Proof.
  unfold validatePointer, result_bind. intros H. destruct (_ || _) eqn:E0 in H; [by injection H as <-|].
  destruct (Lineage_PointerKey _ _) as [key|] eqn:E1; [|injection H as <-; by eapply PointerKey_err].
  destruct (validateGenerationRef _) eqn:E2; [|injection H as <-; by rewrite (GenerationRef_err _ _ E2)].
  destruct (validateGenerationParent _ _) eqn:E3; [|injection H as <-; by rewrite (GenerationParent_err _ _ _ E3)].
  destruct (GenerationObjectKey _ _ _) as [want|] eqn:E4; [|injection H as <-; by eapply GenerationObjectKey_err].
  destruct (_ || _) in H; [by injection H as <-|done].
Qed.

(** Read makes no mutation; in the state it leaves, the record is what the lineage's
    key holds, or the key is absent when the error says so. *)
Lemma Read_spec c l w r w' cs :
  exec (Read c l) w r w' cs -> wf w ->
  cs = [] /\ rely w w' /\
  match r with
  | Ok rec => exists key, Lineage_PointerKey l c = Ok key /\ holds w' key (pr_Revision rec) (pr_Pointer rec) /\
      validatePointer (pr_Pointer rec) c l = Ok tt
  | Err e => errors_Is e ErrNotFound = true ->
      exists key, Lineage_PointerKey l c = Ok key /\ objs w' !! key = None
  end.
Proof.
  intros Hex Hw. unfold Read in Hex. destruct (Lineage_PointerKey l c) as [key|e] eqn:Ek.
  2:{ exec_done. split; [done|]. split; [by apply rely_refl|]. rewrite (PointerKey_err _ _ _ Ek). done. }
  exec_sub Hex as x w1 cs1 cs2 Hsub. apply readJSON_spec in Hsub as (-> & Hr & Hres).
  destruct x as [[p meta]|e]; [|exec_done; split; [done|]; split; [done|]; eauto].
  destruct (validatePointer p c l) as [[]|e] eqn:Ev; exec_done; split; try done; split; try done.
  - exists key. done.
  - rewrite (validatePointer_err _ _ _ _ Ev). done.
Qed.

Lemma Revalidate_spec observed w r w' cs :
  exec (Revalidate observed) w r w' cs -> wf w ->
  cs = [] /\ rely w w' /\
  match r with
  | Ok _ => exists key cur,
      Lineage_PointerKey (lp_Lineage (pr_Pointer observed)) (lp_Capsule (pr_Pointer observed)) = Ok key /\
      holds w' key (pr_Revision observed) cur /\ documentsEqual cur (pr_Pointer observed) = true
  | Err e => errors_Is e ErrNotFound = false
  end.
Proof.
  intros Hex Hw. unfold Revalidate in Hex. exec_sub Hex as x w1 cs1 cs2 Hsub.
  apply Read_spec in Hsub as (-> & Hr & Hres); [|done]. destruct x as [rec|e].
  - destruct Hres as (key & Hk & Hh & _). destruct (_ || _) eqn:E in Hex; exec_done; split; try done; split; try done.
    bool_norm. exists key, (pr_Pointer rec). split; [done|].
    match goal with H : pr_Revision rec = _ |- _ => rewrite <-H end. done.
  - destruct (errors_Is e ErrNotFound) eqn:E; exec_done; done.
Qed.

(** ** The commit of a publication *)

(** The mutation replaces exactly the document the caller expected, at the revision
    the caller observed, by the next pointer. *)
Definition replaces (expected : PointerRecord) (next : LatestPointer) (c : commit) : Prop :=
  Lineage_PointerKey (lp_Lineage next) (lp_Capsule next) = Ok (cm_key c) /\
  exists old new cur, cm_old c = Some old /\ cm_new c = Some new /\
    o_rev old = pr_Revision expected /\ o_rev new <> o_rev old /\
    Unmarshal (o_body old) = Some cur /\ documentsEqual cur (pr_Pointer expected) = true /\
    Marshal next = Some (o_body new).

(** A record the caller gets names the new object, or one the store holds with an
    equal document (the answer to an ambiguous write). *)
Definition names_published (w' : world) (cs : list commit) (next : LatestPointer) (rec : PointerRecord) : Prop :=
  documentsEqual (pr_Pointer rec) next = true /\
  ((exists c new, cs = [c] /\ cm_new c = Some new /\ o_rev new = pr_Revision rec) \/
   exists key, Lineage_PointerKey (lp_Lineage next) (lp_Capsule next) = Ok key /\
     holds w' key (pr_Revision rec) (pr_Pointer rec)).

Lemma documentsEqual_refl {A} `{Codec A} (a : A) body : Marshal a = Some body -> documentsEqual a a = true.
Proof. unfold documentsEqual. intros ->. apply str_eqb_refl. Qed.

Lemma marshal_ok {A} `{Codec A} (a : A) body : marshal a = Ok body -> Marshal a = Some body.
Proof. unfold marshal. by destruct (Marshal a); intros [= ->]. Qed.

Lemma rely_trans w1 w2 w3 : rely w1 w2 -> rely w2 w3 -> rely w1 w3.
Proof. intros [H1 H2] [H3 H4]. split; [done|]. by etrans. Qed.

Lemma put_rely key body rev w : wf w -> fresh rev w -> rely w (put_object key body rev w).
Proof. intros Hw Hf. split; [by apply put_object_wf|]. destruct Hf. by apply insert_subseteq. Qed.

Lemma swap_spec expected next w r w' cs key :
  exec (swap_pointer expected next) w r w' cs -> wf w ->
  lp_Lineage next = lp_Lineage (pr_Pointer expected) -> lp_Capsule next = lp_Capsule (pr_Pointer expected) ->
  Lineage_PointerKey (lp_Lineage next) (lp_Capsule next) = Ok key ->
  (cs = [] \/ exists c, cs = [c] /\ replaces expected next c) /\
  match r with
  | Ok rec => names_published w' cs next rec
  | Err e => cs <> [] -> errors_Is e ErrAmbiguous = true
  end.
Proof.
  intros Hex Hw Hl Hc Hkey. unfold swap_pointer in Hex. exec_sub Hex as rv w1 cs1 cs2 Hsub.
  apply Revalidate_spec in Hsub as (-> & Hr1 & Hrev); [|done].
  destruct rv as [[]|e]; [|exec_done; split; [by left|done]].
  destruct Hrev as (key' & cur & Hk' & Hh & Hdoc). rewrite <-Hl, <-Hc, Hkey in Hk'. injection Hk' as <-.
  destruct (marshal next) as [body|e] eqn:Em; [|exec_done; split; [by left|done]]. apply marshal_ok in Em.
  rewrite Hkey in Hex. exec_call Hex as w2 x w3 cs3 cs4 Hr2 Hcall.
  assert (wf w2) as Hw2 by (by destruct Hr2).
  assert (forall rev, condition_holds (MatchRevision (pr_Revision expected)) (objs w2 !! key) -> fresh rev w2 ->
    replaces expected next (mkCommit key (objs w2 !! key) (Some (mkObject body rev)))) as Hcommit.
  { intros rev (old & Hold & Hrevold) Hf. split; [done|].
    exists old, (mkObject body rev), cur. simpl in *. split; [done|]. split; [done|]. split; [done|].
    split; [|split; [by eapply holds_stable; [exact Hh|by destruct Hr1|exact Hr2|..]|done]].
    destruct (Hw2 key old Hold) as [_ Hh']. destruct Hf as [_ Hf]. congruence. }
  destruct Hcall as [rev m Hcond Hf Hm|e|e rev Hamb Hcond Hf].
  - exec_done. split; [right; eexists; split; [done|]; by apply Hcommit|].
    split; [by eapply documentsEqual_refl|]. left. destruct Hm as (_ & _ & Hrv & _). by eexists _, _.
  - assert (forall w, exec (if errors_Is e ErrConflict || errors_Is e ErrNotFound
        then Ret (Err ErrPointerChanged) else Ret (Err e)) w r w' cs4 -> cs4 = [] /\ exists e', r = Err e') as Hfail.
    { intros w4 H. destruct (_ || _) in H; exec_done; eauto. }
    destruct (errors_Is e ErrAmbiguous) eqn:Ea; [|destruct (Hfail _ Hex) as [-> [e' ->]]; split; [by left|done]].
    exec_sub Hex as x w4 cs5 cs6 Hsub. apply Read_spec in Hsub as (-> & _ & Hres); [|done].
    destruct x as [rec|e0]; [destruct (documentsEqual (pr_Pointer rec) next) eqn:Ed|];
      try (destruct (Hfail _ Hex) as [-> [e' ->]]; split; [by left|done]).
    exec_done. split; [by left|]. split; [done|]. right. destruct Hres as (k & Hk & Hho & _). by exists k.
  - destruct Hamb as (Ha & Hcf & Hnf). rewrite Ha, Hcf, Hnf in Hex. cbn [orb] in Hex.
    exec_sub Hex as x w4 cs5 cs6 Hsub.
    apply Read_spec in Hsub as (-> & _ & Hres); [|by apply put_object_wf].
    specialize (Hcommit rev Hcond Hf).
    destruct x as [rec|e0]; [destruct (documentsEqual (pr_Pointer rec) next) eqn:Ed|]; exec_done;
      (split; [right; by eexists|]); [|done|done].
    split; [done|]. right. destruct Hres as (k & Hk & Hho & _). by exists k.
Qed.

(** A creation writes only over an absent object. *)
Definition creates (next : LatestPointer) (c : commit) : Prop :=
  Lineage_PointerKey (lp_Lineage next) (lp_Capsule next) = Ok (cm_key c) /\ cm_old c = None /\
  exists new, cm_new c = Some new /\ Marshal next = Some (o_body new).

Lemma Create_spec next w r w' cs :
  exec (Create next) w r w' cs -> wf w ->
  (cs = [] \/ exists c, cs = [c] /\ creates next c) /\
  match r with
  | Ok rec => names_published w' cs next rec
  | Err e => cs <> [] -> errors_Is e ErrAmbiguous = true
  end.
Proof.
  intros Hex Hw. unfold Create in Hex.
  destruct (validatePointer _ _ _) as [[]|e] eqn:Ev; [|exec_done; split; [by left|done]].
  destruct (_ && _) in Hex; [exec_done; split; [by left|done]|].
  destruct (Lineage_PointerKey _ _) as [key|e] eqn:Hkey; [|exec_done; split; [by left|done]].
  destruct (marshal next) as [body|e] eqn:Em; [|exec_done; split; [by left|done]]. apply marshal_ok in Em.
  exec_call Hex as w2 x w3 cs3 cs4 Hr2 Hcall. assert (wf w2) as Hw2 by (by destruct Hr2).
  assert (forall rev, condition_holds MustBeAbsent (objs w2 !! key) ->
    creates next (mkCommit key (objs w2 !! key) (Some (mkObject body rev)))) as Hcommit.
  { intros rev Hc. split; [done|]. split; [done|]. by exists (mkObject body rev). }
  destruct Hcall as [rev m Hcond Hf Hm|e|e rev Hamb Hcond Hf].
  - exec_done. split; [right; eexists; split; [done|]; by apply Hcommit|].
    split; [by eapply documentsEqual_refl|]. left. destruct Hm as (_ & _ & Hrv & _). by eexists _, _.
  - destruct (errors_Is e ErrAmbiguous) eqn:Ea; [|exec_done; split; [by left|done]].
    exec_sub Hex as x w4 cs5 cs6 Hsub. apply Read_spec in Hsub as (-> & _ & Hres); [|done].
    destruct x as [rec|e0]; [destruct (documentsEqual (pr_Pointer rec) next) eqn:Ed|];
      exec_done; (split; [by left|]); [|done|done].
    split; [done|]. right. destruct Hres as (k & Hk & Hho & _). by exists k.
  - destruct Hamb as (Ha & _). rewrite Ha in Hex. exec_sub Hex as x w4 cs5 cs6 Hsub.
    apply Read_spec in Hsub as (-> & _ & Hres); [|by apply put_object_wf].
    specialize (Hcommit rev Hcond).
    destruct x as [rec|e0]; [destruct (documentsEqual (pr_Pointer rec) next) eqn:Ed|]; exec_done;
      (split; [right; by eexists|]); [|done|done].
    split; [done|]. right. destruct Hres as (k & Hk & Hho & _). by exists k.
Qed.

(** The guards of CompareAndSwap, once passed. *)
Definition advances (expected : PointerRecord) (next : LatestPointer) : Prop :=
  let current := pr_Pointer expected in
  validatePointer current (lp_Capsule current) (lp_Lineage current) = Ok tt /\
  validatePointer next (lp_Capsule current) (lp_Lineage current) = Ok tt /\
  pr_Revision expected <> "" /\ lp_Parent next = Some (lp_Generation current) /\
  gr_Generation (lp_Generation current) < gr_Generation (lp_Generation next).

(** Either a guard failed and nothing happened, or the guards hold and the swap
    ran. *)
Lemma CompareAndSwap_cases expected next w r w' cs :
  exec (CompareAndSwap expected next) w r w' cs ->
  (cs = [] /\ w' = w /\ exists e, r = Err e) \/
  (advances expected next /\ exec (swap_pointer expected next) w r w' cs).
Proof.
  intros Hex. unfold CompareAndSwap in Hex.
  destruct (validatePointer (pr_Pointer expected) _ _) as [[]|e] eqn:Ev1; [|exec_done; left; eauto].
  destruct (str_eqb _ _) eqn:Er in Hex; [exec_done; left; eauto|].
  destruct (validatePointer next _ _) as [[]|e] eqn:Ev2; [|exec_done; left; eauto].
  destruct (bool_decide _) eqn:Ep in Hex; [|exec_done; left; eauto].
  destruct (_ <=? _) eqn:Eg in Hex; [exec_done; left; eauto|]. bool_norm. right. split; [|done].
  by repeat split.
Qed.

Lemma CompareAndSwap_spec expected next w r w' cs :
  exec (CompareAndSwap expected next) w r w' cs -> wf w ->
  (cs = [] \/ exists c, cs = [c] /\ replaces expected next c /\ advances expected next) /\
  match r with
  | Ok rec => names_published w' cs next rec /\ advances expected next
  | Err e => cs <> [] -> errors_Is e ErrAmbiguous = true
  end.
Proof.
  intros Hex Hw. apply CompareAndSwap_cases in Hex as [(-> & -> & e & ->)|[Hadv Hex]]; [split; [by left|done]|].
  pose proof Hadv as (_ & Hv2 & _). destruct (validatePointer_ok _ _ _ Hv2) as (Hc & Hl & [key Hk] & _).
  eapply (swap_spec _ _ _ _ _ _ key) in Hex as [Hcs Hres]; [|done|done|done|by rewrite Hl, Hc].
  split; [destruct Hcs as [->|(c & -> & Hrep)]; [by left|right; by exists c]|].
  by destruct r.
Qed.

(** ** A lineage's publications in order *)
Record publication := mkPublication {
  pub_expected : PointerRecord;
  pub_next : LatestPointer;
  pub_commit : commit }.

(** Some client's CompareAndSwap made the commit, whatever the others did. *)
Definition by_swap (p : publication) : Prop :=
  exists w r w' cs, wf w /\ exec (CompareAndSwap (pub_expected p) (pub_next p)) w r w' cs /\ cs = [pub_commit p].

(** The documents are texts the encoder does not repair: valid UTF-8, years that
    fit the format. *)
Definition clean_publication (p : publication) : Prop :=
  c_ok (pr_Pointer (pub_expected p)) = true /\ c_ok (pub_next p) = true.

(** Each commit replaces the object the one before it wrote. *)
Fixpoint consecutive (ps : list publication) : Prop :=
  match ps with
  | p :: rest =>
      match rest with
      | q :: _ => cm_new (pub_commit p) = cm_old (pub_commit q) /\ consecutive rest
      | [] => True
      end
  | [] => True
  end.

Definition links (p q : LatestPointer) : Prop :=
  lp_Parent q = Some (lp_Generation p) /\
  gr_Generation (lp_Generation p) < gr_Generation (lp_Generation q).

Lemma LatestPointer_depth : @c_depth LatestPointer _ <= max_depth.
Proof. vm_compute. discriminate. Qed.

Lemma by_swap_replaces p :
  by_swap p -> replaces (pub_expected p) (pub_next p) (pub_commit p) /\ advances (pub_expected p) (pub_next p).
Proof.
  intros (w & r & w' & cs & Hw & Hex & ->).
  destruct (CompareAndSwap_spec _ _ _ _ _ _ Hex Hw) as [[Hn|(c & Hc & Hrep & Hadv)] _]; [done|].
  injection Hc as <-. done.
Qed.

(** The document a publication expected is the one the commit before it wrote. *)
Lemma consecutive_expected p q :
  by_swap p -> by_swap q -> clean_publication p -> clean_publication q ->
  cm_new (pub_commit p) = cm_old (pub_commit q) -> pr_Pointer (pub_expected q) = pub_next p.
Proof.
  intros Hp Hq [_ Hcp] [Hcq _] Heq.
  destruct (by_swap_replaces p Hp) as [(_ & _ & new & _ & _ & Hnew & _ & _ & _ & _ & Hm) _].
  destruct (by_swap_replaces q Hq) as [(_ & old & _ & cur & Hold & _ & _ & _ & Hu & Hdoc & _) _].
  rewrite Hnew, Hold in Heq. injection Heq as ->.
  destruct (Unmarshal_Marshal (pub_next p) Hcp LatestPointer_depth) as (text & Ht & Hut & _).
  rewrite Hm in Ht. injection Ht as <-. rewrite Hut in Hu. injection Hu as <-.
  unfold documentsEqual in Hdoc. rewrite Hm in Hdoc.
  destruct (Marshal (pr_Pointer (pub_expected q))) as [text|] eqn:E; [|done]. bool_norm. subst.
  symmetry. by eapply Marshal_inj; [..|exact LatestPointer_depth|exact Hm|exact E].
Qed.

Lemma consecutive_links ps :
  Forall by_swap ps -> Forall clean_publication ps -> consecutive ps -> Sorted links (map pub_next ps).
Proof.
  induction ps as [|p ps IH]; intros Hb Hc Hs; [constructor|].
  apply Forall_cons in Hb as [Hp Hb]. apply Forall_cons in Hc as [Cp Hc].
  destruct ps as [|q ps]; [by repeat constructor|]. destruct Hs as [Hpq Hs].
  constructor; [by apply IH|]. constructor.
  apply Forall_cons in Hb as [Hq Hb]. apply Forall_cons in Hc as [Cq Hc].
  pose proof (consecutive_expected p q Hp Hq Cp Cq Hpq) as He.
  destruct (by_swap_replaces q Hq) as [_ (_ & _ & _ & Hparent & Hlt)]. rewrite He in *. done.
Qed.

(** ** Outcomes on the reference store *)
Lemma ref_Read c l key (s : ref_store) o p :
  Lineage_PointerKey l c = Ok key -> objs (rs_world s) !! key = Some o ->
  str_len (o_body o) <= maxCoordinationDocumentSize -> Unmarshal (o_body o) = Some p ->
  validatePointer p c l = Ok tt ->
  run (Read c l) s = Some (Ok (mkPointerRecord p (o_rev o)), s).
Proof.
  intros Hk Ho Hl Hu Hv. unfold Read. rewrite Hk. unfold run. rewrite run_with_bind.
  pose proof (ref_readJSON key s o p Ho Hl Hu) as Hr. unfold run in Hr. rewrite Hr. simpl. by rewrite Hv.
Qed.

(** What a read of a lineage's pointer gives on the reference store, in every case. *)
Definition pointer_at (c : string) (l : Lineage) (s : ref_store) : result PointerRecord :=
  let! key := Lineage_PointerKey l c in
  let! (pointer, meta) := document_at LatestPointer key s in
  let! _ := validatePointer pointer c l in
  Ok (mkPointerRecord pointer (om_Revision meta)).

Lemma ref_Read_at c l (s : ref_store) : run (Read c l) s = Some (pointer_at c l s, s).
Proof.
  unfold Read, pointer_at, run. destruct (Lineage_PointerKey l c) as [key|e]; [|done]. rewrite run_with_bind.
  pose proof (ref_readJSON_at (T:=LatestPointer) key s) as Hr. unfold run in Hr. rewrite Hr. cbn [mbind option_bind fst snd result_bind].
  destruct (document_at LatestPointer key s) as [[pointer meta]|e]; [|done]. cbn. by destruct (validatePointer pointer c l) as [[]|].
Qed.

(** The pointer is there, at the observed revision, with the observed document. *)
Definition observed_in (observed : PointerRecord) (s : ref_store) : bool :=
  match pointer_at (lp_Capsule (pr_Pointer observed)) (lp_Lineage (pr_Pointer observed)) s with
  | Ok current => str_eqb (pr_Revision current) (pr_Revision observed) && documentsEqual (pr_Pointer current) (pr_Pointer observed)
  | Err _ => false
  end.

Lemma observed_in_object observed key (s : ref_store) :
  Lineage_PointerKey (lp_Lineage (pr_Pointer observed)) (lp_Capsule (pr_Pointer observed)) = Ok key ->
  observed_in observed s = true -> exists o, objs (rs_world s) !! key = Some o /\ o_rev o = pr_Revision observed.
Proof.
  intros Hk. unfold observed_in, pointer_at, document_at. rewrite Hk. cbn [result_bind].
  destruct (objs (rs_world s) !! key) as [o|]; [|done]. destruct (_ <? _); [done|]. destruct (Unmarshal (o_body o)) as [d|]; [|done].
  cbn [result_bind]. destruct (validatePointer d _ _); [|done]. cbn [result_bind pr_Revision om_Revision ref_meta].
  intros E. bool_norm. by exists o.
Qed.

(** What Revalidate answers. *)
Definition revalidate_answer (observed : PointerRecord) (s : ref_store) : result unit :=
  match pointer_at (lp_Capsule (pr_Pointer observed)) (lp_Lineage (pr_Pointer observed)) s with
  | Ok _ => if observed_in observed s then Ok tt else Err ErrPointerChanged
  | Err e => Err (if errors_Is e ErrNotFound then ErrPointerChanged else e)
  end.

Lemma ref_Revalidate_at observed (s : ref_store) : run (Revalidate observed) s = Some (revalidate_answer observed s, s).
Proof.
  unfold Revalidate, revalidate_answer, observed_in, run. rewrite run_with_bind.
  pose proof (ref_Read_at (lp_Capsule (pr_Pointer observed)) (lp_Lineage (pr_Pointer observed)) s) as Hr. unfold run in Hr. rewrite Hr.
  cbn [mbind option_bind fst snd]. destruct (pointer_at _ _ s) as [current|e]; [|by destruct (errors_Is e ErrNotFound)].
  destruct (str_eqb _ _); cbn [negb orb andb]; [|done]. by destruct (documentsEqual _ _).
Qed.

Lemma ref_Revalidate observed c l key (s : ref_store) o p :
  lp_Capsule (pr_Pointer observed) = c -> lp_Lineage (pr_Pointer observed) = l ->
  Lineage_PointerKey l c = Ok key -> objs (rs_world s) !! key = Some o ->
  str_len (o_body o) <= maxCoordinationDocumentSize -> Unmarshal (o_body o) = Some p ->
  validatePointer p c l = Ok tt ->
  run (Revalidate observed) s =
  Some (if str_eqb (o_rev o) (pr_Revision observed) && documentsEqual p (pr_Pointer observed)
        then Ok tt else Err ErrPointerChanged, s).
Proof.
  intros <- <- Hk Ho Hl Hu Hv. unfold Revalidate, run. rewrite run_with_bind.
  pose proof (ref_Read _ _ key s o p Hk Ho Hl Hu Hv) as Hr. unfold run in Hr. rewrite Hr. simpl.
  destruct (str_eqb _ _); simpl; [|done]. by destruct (documentsEqual _ _).
Qed.

(** The state a published pointer leaves. *)
Definition ref_publish (key : string) (body : bytes) (s : ref_store) : ref_store :=
  mkRefStore (put_object key body (ref_revision (rs_next s)) (rs_world s)) (S (rs_next s)).

(** The outcome of the conditional write: published over the expected pointer, or nothing. *)
Definition swap_answer (expected : PointerRecord) (next : LatestPointer) (key : string) (s : ref_store)
    : result PointerRecord * ref_store :=
  match revalidate_answer expected s, marshal next with
  | Err e, _ => (Err e, s)
  | Ok _, Err e => (Err e, s)
  | Ok _, Ok body => (Ok (mkPointerRecord next (ref_revision (rs_next s))), ref_publish key body s)
  end.

Lemma ref_swap expected next key (s : ref_store) :
  lp_Capsule next = lp_Capsule (pr_Pointer expected) -> lp_Lineage next = lp_Lineage (pr_Pointer expected) ->
  Lineage_PointerKey (lp_Lineage next) (lp_Capsule next) = Ok key ->
  run (swap_pointer expected next) s = Some (swap_answer expected next key s).
Proof.
  intros Hc Hl Hk. unfold swap_pointer, swap_answer, run. rewrite run_with_bind.
  pose proof (ref_Revalidate_at expected s) as Hr. unfold run in Hr. rewrite Hr. cbn [mbind option_bind fst snd].
  destruct (revalidate_answer expected s) as [[]|e] eqn:E; [|done].
  destruct (marshal next) as [body|e]; [|done]. rewrite Hk.
  destruct (observed_in_object expected key s) as (o & Ho & Hrev); [by rewrite <-Hc, <-Hl|unfold revalidate_answer in E;
    destruct (pointer_at _ _ s); [by destruct (observed_in expected s)|done]|].
  cbn [call prog_bind run_with handle RefStore ref_handle]. unfold ref_put_conditional. rewrite Ho. cbn [wc_MustBeAbsent wc_MatchRevision MatchRevision].
  by rewrite Hrev, str_eqb_refl.
Qed.

(** ** Keys and listing *)
Lemma pointer_less_asym a b : pointer_less a b = true -> pointer_less b a = false.
Proof.
  unfold pointer_less.
  destruct (str_eqb (lp_Capsule (pr_Pointer a)) (lp_Capsule (pr_Pointer b))) eqn:E; simpl; bool_norm.
  - rewrite E, str_eqb_refl. simpl. apply str_ltb_asym.
  - rewrite (proj2 (str_eqb_neq _ _)) by done. simpl. apply str_ltb_asym.
Qed.

Lemma segment_nonempty name value : validateObjectKeySegment name value = Ok tt -> str_eqb value "" = false.
Proof. unfold validateObjectKeySegment. intros H. destruct (_ || _) eqn:E in H; [done|]. bool_norm. by apply str_eqb_neq. Qed.

(** * Properties *)

(** A store after one publication, for the scenarios below. *)
Definition sample_sha : string := "ba7816bf8f01cfea414140de5dae2223b00361a396177a9cb410ff61f20015ad".
Definition sample_ref (n : Z) : GenerationRef := mkGenerationRef n sample_sha.
Definition sample_pointer (n : Z) (parent : option GenerationRef) : LatestPointer :=
  mkLatestPointer 1 "brain" (mkLineage "main") (sample_ref n) parent
    ("brain/generations/" +:+ FormatInt n +:+ "-" +:+ sample_sha +:+ ".tar.zst") 3
    (utc 63900000000000000000) (mkToolVersions "v0.26.1" "v2.0.2") "session-a".
Definition sample_record (n : Z) (parent : option GenerationRef) (rev : string) : PointerRecord :=
  mkPointerRecord (sample_pointer n parent) rev.

Definition state_after {A} (p : prog (result A)) (s : ref_store) : ref_store :=
  match run p s with Some (_, s') => s' | None => s end.
Definition sample_store : ref_store := state_after (Create (sample_pointer 1 None)) ref_empty.
Definition sample_next : LatestPointer := sample_pointer 2 (Some (sample_ref 1)).

Lemma sample_create : run (Create (sample_pointer 1 None)) ref_empty = Some (Ok (sample_record 1 None "r0"), sample_store).
Proof. vm_compute. reflexivity. Qed.

Lemma sample_store_ok : ref_ok sample_store.
Proof. by destruct (ref_run_exec _ _ _ _ ref_empty_ok sample_create) as (_ & ?). Qed.

Definition sample_store2 : ref_store := state_after (CompareAndSwap (sample_record 1 None "r0") sample_next) sample_store.

Lemma sample_swap :
  run (CompareAndSwap (sample_record 1 None "r0") sample_next) sample_store =
  Some (Ok (mkPointerRecord sample_next "r1"), sample_store2).
Proof. vm_compute. reflexivity. Qed.

(** C1: CompareAndSwap is atomic under any interference.  Whatever other clients do
    between its calls, it makes at most one mutation, which replaces exactly the
    expected document at the expected revision by the next pointer, whose parent is
    the replaced generation and whose generation is greater.  A success names the
    published document; a failure that is not ambiguous changed nothing. *)
Theorem CompareAndSwap_atomic expected next w r w' cs :
  wf w -> exec (CompareAndSwap expected next) w r w' cs ->
  (cs = [] \/ exists c, cs = [c] /\ replaces expected next c /\ advances expected next) /\
  match r with
  | Ok rec => names_published w' cs next rec /\ advances expected next
  | Err e => cs <> [] -> errors_Is e ErrAmbiguous = true
  end.
Proof. intros Hw Hex. by apply (CompareAndSwap_spec expected next w r w' cs). Qed.

Lemma CompareAndSwap_atomic_witness :
  exists cs, names_published (rs_world sample_store2) cs sample_next (mkPointerRecord sample_next "r1") /\
    advances (sample_record 1 None "r0") sample_next.
Proof.
  destruct (ref_run_exec _ _ _ _ sample_store_ok sample_swap) as (Hex & _). eexists.
  exact (proj2 (CompareAndSwap_atomic (sample_record 1 None "r0") sample_next (rs_world sample_store)
    (Ok (mkPointerRecord sample_next "r1")) (rs_world sample_store2) _ (proj1 sample_store_ok) Hex)).
Defined.

(** C10: The publications of a lineage form a chain.  When clients publish by
    CompareAndSwap and each commit replaces the object the previous one wrote, every
    pointer's parent is the generation published before it, and the generations
    strictly increase along the whole history. *)
Theorem lineage_chain ps :
  Forall by_swap ps -> Forall clean_publication ps -> consecutive ps ->
  Sorted links (map pub_next ps) /\
  StronglySorted (fun p q => gr_Generation (lp_Generation p) < gr_Generation (lp_Generation q)) (map pub_next ps).
Proof.
  intros Hb Hc Hs. pose proof (consecutive_links ps Hb Hc Hs) as Hl. split; [done|].
  apply Sorted_StronglySorted; [intros x y z; lia|]. eapply Sorted_ind; [constructor| |exact Hl].
  intros a l _ IH Hhd. constructor; [done|]. inv Hhd; constructor. by match goal with H : links _ _ |- _ => destruct H end.
Qed.

Definition sample_third : LatestPointer := sample_pointer 3 (Some (sample_ref 2)).
Definition sample_store3 : ref_store :=
  state_after (CompareAndSwap (mkPointerRecord sample_next "r1") sample_third) sample_store2.
Definition object_at (s : ref_store) : option object := objs (rs_world s) !! "brain/latest.json".
Definition sample_publications : list publication :=
  [mkPublication (sample_record 1 None "r0") sample_next
     (mkCommit "brain/latest.json" (object_at sample_store) (object_at sample_store2));
   mkPublication (mkPointerRecord sample_next "r1") sample_third
     (mkCommit "brain/latest.json" (object_at sample_store2) (object_at sample_store3))].

Lemma sample_publications_by_swap : Forall by_swap sample_publications.
Proof.
  destruct (ref_run_exec _ _ _ _ sample_store_ok sample_swap) as [Hex1 Hs2].
  assert (run (CompareAndSwap (mkPointerRecord sample_next "r1") sample_third) sample_store2 =
    Some (Ok (mkPointerRecord sample_third "r2"), sample_store3)) as Hrun by (vm_compute; reflexivity).
  destruct (ref_run_exec _ _ _ _ Hs2 Hrun) as [Hex2 _].
  repeat constructor; unfold by_swap; cbn [pub_expected pub_next pub_commit].
  - exists (rs_world sample_store). eexists _, _, _. split; [exact (proj1 sample_store_ok)|]. split; [exact Hex1|].
    vm_compute. reflexivity.
  - exists (rs_world sample_store2). eexists _, _, _. split; [exact (proj1 Hs2)|]. split; [exact Hex2|].
    vm_compute. reflexivity.
Qed.

Lemma lineage_chain_witness : Sorted links [sample_next; sample_third].
Proof.
  refine (proj1 (lineage_chain sample_publications sample_publications_by_swap _ _)).
  - repeat constructor; vm_compute; reflexivity.
  - vm_compute. done.
Defined.

(** C23: SelectHistorical moves the pointer back only to a strictly earlier
    generation of the same lineage, with one mutation that replaces exactly the
    expected document at the expected revision, under any interference; a failure
    that is not ambiguous changed nothing. *)
Theorem SelectHistorical_atomic expected historical w r w' cs :
  wf w -> exec (SelectHistorical expected historical) w r w' cs ->
  (cs = [] \/ exists c, cs = [c] /\ replaces expected historical c) /\
  (is_ok r = true \/ cs <> [] ->
   lp_Capsule historical = lp_Capsule (pr_Pointer expected) /\
   lp_Lineage historical = lp_Lineage (pr_Pointer expected) /\
   gr_Generation (lp_Generation historical) < gr_Generation (lp_Generation (pr_Pointer expected))) /\
  match r with
  | Ok rec => names_published w' cs historical rec
  | Err e => cs <> [] -> errors_Is e ErrAmbiguous = true
  end.
Proof.
  intros Hw Hex. unfold SelectHistorical in Hex.
  destruct (validatePointer (pr_Pointer expected) _ _) as [[]|e] eqn:Ev1; [|exec_done; naive_solver].
  destruct (str_eqb _ _) eqn:Er in Hex; [exec_done; naive_solver|].
  destruct (validatePointer historical _ _) as [[]|e] eqn:Ev2; [|exec_done; naive_solver].
  destruct (_ <=? _) eqn:Eg in Hex; [exec_done; naive_solver|]. bool_norm.
  destruct (validatePointer_ok _ _ _ Ev2) as (Hc & Hl & [key Hk] & _).
  eapply (swap_spec _ _ _ _ _ _ key) in Hex as [Hcs Hres]; [|done|done|done|by rewrite Hl, Hc].
  split; [done|]. split; [by intros _|]. done.
Qed.

Definition sample_back : prog (result PointerRecord) :=
  SelectHistorical (mkPointerRecord sample_next "r1") (sample_pointer 1 None).

Lemma SelectHistorical_atomic_witness :
  exists cs, names_published (rs_world (state_after sample_back sample_store2)) cs (sample_pointer 1 None)
    (sample_record 1 None "r2").
Proof.
  destruct (ref_run_exec _ _ _ _ sample_store_ok sample_swap) as [_ Hs2].
  assert (run sample_back sample_store2 = Some (Ok (sample_record 1 None "r2"), state_after sample_back sample_store2))
    as Hrun by (vm_compute; reflexivity).
  destruct (ref_run_exec _ _ _ _ Hs2 Hrun) as [Hex _]. eexists.
  exact (proj2 (proj2 (SelectHistorical_atomic _ _ _ _ _ _ (proj1 Hs2) Hex))).
Defined.

(** Create publishes only where no pointer exists: its one mutation writes the
    next pointer over an absent object, under any interference, and a failure that
    is not ambiguous changed nothing. *)
Theorem Create_only_absent next w r w' cs :
  wf w -> exec (Create next) w r w' cs ->
  (cs = [] \/ exists c, cs = [c] /\ creates next c) /\
  match r with
  | Ok rec => names_published w' cs next rec
  | Err e => cs <> [] -> errors_Is e ErrAmbiguous = true
  end.
Proof. intros Hw Hex. by apply (Create_spec next w r w' cs). Qed.

Lemma Create_only_absent_witness :
  exists cs, names_published (rs_world sample_store) cs (sample_pointer 1 None) (sample_record 1 None "r0").
Proof.
  destruct (ref_run_exec _ _ _ _ ref_empty_ok sample_create) as [Hex _]. eexists.
  exact (proj2 (Create_only_absent _ _ _ _ _ (proj1 ref_empty_ok) Hex)).
Defined.

Lemma ref_CompareAndSwap expected next key (s : ref_store) :
  advances expected next -> Lineage_PointerKey (lp_Lineage next) (lp_Capsule next) = Ok key ->
  run (CompareAndSwap expected next) s = Some (swap_answer expected next key s).
Proof.
  intros (Hv1 & Hv2 & Hne & Hp & Hg) Hk. unfold CompareAndSwap.
  rewrite Hv1, Hv2, bool_decide_true by done.
  rewrite (proj2 (str_eqb_neq _ _)) by done. rewrite (proj2 (Z.leb_gt _ _)) by done.
  destruct (validatePointer_ok _ _ _ Hv2) as (Hc & Hl & _). by apply ref_swap.
Qed.

(** Over the object that holds the expected document it publishes. *)
Lemma ref_CompareAndSwap_publishes expected next key (s : ref_store) o body :
  advances expected next -> Marshal next = Some body -> Lineage_PointerKey (lp_Lineage next) (lp_Capsule next) = Ok key ->
  objs (rs_world s) !! key = Some o -> str_len (o_body o) <= maxCoordinationDocumentSize ->
  Unmarshal (o_body o) = Some (pr_Pointer expected) -> o_rev o = pr_Revision expected ->
  documentsEqual (pr_Pointer expected) (pr_Pointer expected) = true ->
  run (CompareAndSwap expected next) s =
  Some (Ok (mkPointerRecord next (ref_revision (rs_next s))), ref_publish key body s).
Proof.
  intros Hadv Hm Hk Ho Hsz Hu Hrev Heq. rewrite (ref_CompareAndSwap expected next key) by done. f_equal.
  pose proof Hadv as (Hv1 & Hv2 & _). destruct (validatePointer_ok _ _ _ Hv2) as (Hc & Hl & _). rewrite Hc, Hl in Hk.
  unfold swap_answer, revalidate_answer, observed_in, pointer_at, document_at. rewrite Hk. cbn [result_bind]. rewrite Ho.
  rewrite (proj2 (Z.ltb_ge _ _)) by done. rewrite Hu. cbn [result_bind]. rewrite Hv1. cbn [result_bind pr_Revision pr_Pointer om_Revision ref_meta].
  rewrite Hrev, str_eqb_refl, Heq. unfold marshal. by rewrite Hm.
Qed.

Lemma ref_CompareAndSwap_refused expected next (s : ref_store) :
  ~ advances expected next -> exists e, run (CompareAndSwap expected next) s = Some (Err e, s) /\
    (validatePointer (pr_Pointer expected) (lp_Capsule (pr_Pointer expected)) (lp_Lineage (pr_Pointer expected)) = Ok tt ->
     validatePointer next (lp_Capsule (pr_Pointer expected)) (lp_Lineage (pr_Pointer expected)) = Ok tt -> e = ErrInvalidDocument).
Proof.
  intros Hn. unfold CompareAndSwap.
  destruct (validatePointer (pr_Pointer expected) _ _) as [[]|e] eqn:Ev1; [|by exists e].
  destruct (str_eqb _ _) eqn:Er; [by eexists|].
  destruct (validatePointer next _ _) as [[]|e] eqn:Ev2; [|by exists e].
  destruct (bool_decide _) eqn:Ep; [|by eexists].
  destruct (_ <=? _) eqn:Eg; [by eexists|]. bool_norm. by destruct Hn.
Qed.

(** C24: CompareAndSwap returns, and what it returns.  On the reference store without other
    clients, whatever the two pointers and the store are: when the next pointer does not
    advance the expected one (a document that is not valid, no revision, another parent, a
    generation that is not greater) it answers an error, ErrInvalidDocument where the
    documents themselves are valid, and changes nothing.  Otherwise, when the key holds the
    expected document at the expected revision it publishes the next one; when it holds
    another valid pointer or nothing it answers ErrPointerChanged; when what it holds cannot
    be read as a pointer it answers the error of the read; and none of these changes
    anything. *)
Theorem CompareAndSwap_outcome expected next (s : ref_store) :
  (~ advances expected next -> exists e, run (CompareAndSwap expected next) s = Some (Err e, s) /\
     (validatePointer (pr_Pointer expected) (lp_Capsule (pr_Pointer expected)) (lp_Lineage (pr_Pointer expected)) = Ok tt ->
      validatePointer next (lp_Capsule (pr_Pointer expected)) (lp_Lineage (pr_Pointer expected)) = Ok tt -> e = ErrInvalidDocument)) /\
  (advances expected next -> exists key, Lineage_PointerKey (lp_Lineage next) (lp_Capsule next) = Ok key /\
     run (CompareAndSwap expected next) s = Some
       match pointer_at (lp_Capsule next) (lp_Lineage next) s, marshal next with
       | Err e, _ => (Err (if errors_Is e ErrNotFound then ErrPointerChanged else e), s)
       | Ok current, text =>
           if str_eqb (pr_Revision current) (pr_Revision expected) && documentsEqual (pr_Pointer current) (pr_Pointer expected) then
             match text with
             | Ok body => (Ok (mkPointerRecord next (ref_revision (rs_next s))), ref_publish key body s)
             | Err e => (Err e, s)
             end
           else (Err ErrPointerChanged, s)
       end).
Proof.
  split; [by apply ref_CompareAndSwap_refused|]. intros Hadv. pose proof Hadv as (_ & Hv2 & _).
  destruct (validatePointer_ok _ _ _ Hv2) as (Hc & Hl & [key Hk] & _). rewrite <-Hc, <-Hl in Hk.
  exists key. split; [done|]. rewrite (ref_CompareAndSwap expected next key) by done. f_equal.
  unfold swap_answer, revalidate_answer, observed_in. rewrite Hc, Hl.
  destruct (pointer_at _ _ s) as [current|e]; [|done]. by destruct (_ && _).
Qed.

Lemma CompareAndSwap_outcome_witness :
  exists body, run (CompareAndSwap (sample_record 1 None "r0") sample_next) sample_store =
      Some (Ok (mkPointerRecord sample_next "r1"), ref_publish "brain/latest.json" body sample_store) /\
    run (CompareAndSwap (sample_record 1 None "r9") sample_next) sample_store = Some (Err ErrPointerChanged, sample_store) /\
    run (CompareAndSwap (sample_record 1 None "r0") (sample_pointer 1 None)) sample_store = Some (Err ErrInvalidDocument, sample_store).
Proof.
  assert (forall rev, rev <> "" -> advances (sample_record 1 None rev) sample_next) as Hadv.
  { intros rev Hrev. split; [vm_compute; reflexivity|]. split; [vm_compute; reflexivity|].
    split; [done|]. split; vm_compute; reflexivity. }
  exists (default "" (Marshal sample_next)). split; [|split].
  - destruct (proj2 (CompareAndSwap_outcome _ _ sample_store) (Hadv "r0" ltac:(done))) as (key & Hk & H).
    rewrite H. assert (key = "brain/latest.json") as -> by (vm_compute in Hk; by injection Hk as <-). vm_compute. reflexivity.
  - destruct (proj2 (CompareAndSwap_outcome _ _ sample_store) (Hadv "r9" ltac:(done))) as (key & _ & H). rewrite H. vm_compute. reflexivity.
  - destruct (proj1 (CompareAndSwap_outcome (sample_record 1 None "r0") (sample_pointer 1 None) sample_store)) as (e & H & He).
    + intros (_ & _ & _ & Hp & _). discriminate Hp.
    + rewrite H, He; vm_compute; reflexivity.
Defined.

(** The keys that List takes for pointers are read back to their capsule and
    lineage, so every pointer a repository publishes is listed as its own. *)
Theorem pointer_key_identity capsule lineage key :
  Lineage_PointerKey lineage capsule = Ok key -> pointerIdentityFromKey key = (capsule, lineage, true).
Proof.
  intros Hk. pose proof (PointerKey_parts _ _ _ Hk) as Hs. unfold pointerIdentityFromKey. rewrite Hs.
  unfold Lineage_PointerKey, result_bind in Hk.
  destruct (validateObjectKeySegment "capsule" capsule) as [[]|] eqn:Ec; [|done].
  destruct (validateObjectKeySegment "branch" (ln_Branch lineage)) as [[]|] eqn:Eb; [|done].
  unfold pointer_parts. destruct (Lineage_IsMain lineage) eqn:Em; simpl;
    rewrite ?(segment_nonempty _ _ Ec), ?(segment_nonempty _ _ Eb).
  - by rewrite (IsMain_branch _ Em).
  - by destruct lineage.
Qed.

Lemma pointer_key_identity_witness :
  pointerIdentityFromKey "brain/branches/exp/latest.json" = ("brain", mkLineage "exp", true).
Proof. apply (pointer_key_identity "brain" (mkLineage "exp")). vm_compute. reflexivity. Defined.
