(* ===== verification/Leases.v ===== *)
(** coordination.LeaseRepository (leases.go): the writer lease of each lineage.

    Acquire writes over an absent or expired lease only, checks afterwards that the
    pointer it was given is still current and withdraws the lease if not; Renew and
    Release touch only the object their token names.  The theorems hold for every
    store that keeps the contract and every interleaving with other clients. *)
From S2P Require Import Prelude Sha256 GoTime Json Codec Domain Paths ObjectStore RefStore Documents Pointers.

Record LeaseOwner := mkLeaseOwner { lo_SessionID : string; lo_Machine : string }.

Record LeaseToken := mkLeaseToken {
  lt_Lease : WriterLease;
  lt_Revision : string }.

#[export] Instance LeaseToken_eq_dec : EqDecision LeaseToken.
Proof. solve_decision. Defined.

Definition validateLease (lease : WriterLease) (capsule : string) (lineage : Lineage) : result unit :=
  if negb (wl_SchemaVersion lease =? SchemaVersion) || negb (str_eqb (wl_Capsule lease) capsule) ||
     negb (bool_decide (wl_Lineage lease = lineage))
  then Err ErrInvalidDocument
  else
  let! _ := Lineage_LeaseKey lineage capsule in
  if str_eqb (wl_SessionID lease) "" || str_eqb (wl_Machine lease) "" || IsZero (wl_CreatedAt lease) ||
     Before (wl_HeartbeatAt lease) (wl_CreatedAt lease) || negb (After (wl_ExpiresAt lease) (wl_HeartbeatAt lease))
  then Err ErrInvalidDocument
  else
  match wl_OpenedGeneration lease with
  | Some g => validateGenerationRef g
  | None => Ok tt
  end.

Definition ReadLease (capsule : string) (lineage : Lineage) : prog (result LeaseToken) :=
  pure! key := Lineage_LeaseKey lineage capsule in
  try! (lease, meta) := readJSON WriterLease key in
  pure! _ := validateLease lease capsule lineage in
  Ret (Ok (mkLeaseToken lease (om_Revision meta))).

Definition reconcileLease (expected : WriterLease) : prog (LeaseToken * bool) :=
  current <- ReadLease (wl_Capsule expected) (wl_Lineage expected);
  match current with
  | Ok token => Ret (token, documentsEqual (lt_Lease token) expected)
  | Err _ => Ret (mkLeaseToken c_zero "", false)
  end.

Definition releaseAcquiredLease (token : LeaseToken) : prog (result unit) :=
  pure! key := Lineage_LeaseKey (wl_Lineage (lt_Lease token)) (wl_Capsule (lt_Lease token)) in
  deleted <- call (DeleteConditional key (lt_Revision token));
  match deleted with
  | Ok _ => Ret (Ok tt)
  | Err err =>
      if errors_Is err ErrConflict || errors_Is err ErrNotFound
      then Ret (Err (ErrJoin ErrLeaseLost err)) else Ret (Err err)
  end.

(** The tail of finishAcquire: withdraw the lease and report why. *)
Definition withdrawAcquired (token : LeaseToken) (observationErr : error) : prog (result LeaseToken) :=
  released <- releaseAcquiredLease token;
  match released with
  | Ok _ => Ret (Err observationErr)
  | Err releaseErr => Ret (Err (ErrJoin observationErr releaseErr))
  end.

Definition finishAcquire (capsule : string) (lineage : Lineage) (token : LeaseToken)
    (observed : option PointerRecord) : prog (result LeaseToken) :=
  match observed with
  | None =>
      read <- Read capsule lineage;
      match read with
      | Ok _ => withdrawAcquired token ErrPointerChanged
      | Err err =>
          if errors_Is err ErrNotFound then Ret (Ok token)
          else withdrawAcquired token (ErrJoin ErrPointerChanged err)
      end
  | Some o =>
      revalidated <- Revalidate o;
      match revalidated with
      | Ok _ => Ret (Ok token)
      | Err err =>
          if errors_Is err ErrPointerChanged then withdrawAcquired token err
          else withdrawAcquired token (ErrJoin ErrPointerChanged err)
      end
  end.

(** The loop of acquire; [fuel] bounds its iterations. *)
Fixpoint acquire_loop (fuel : nat) (capsule : string) (lineage : Lineage) (key : string) (lease : WriterLease)
    (body : bytes) (observed : option PointerRecord) (now : Time) : prog (result LeaseToken) :=
  match fuel with
  | O => Spin
  | S fuel' =>
      let reconcile (putErr : error) : prog (result LeaseToken) :=
        reconciled <- reconcileLease lease;
        if reconciled.2 then finishAcquire capsule lineage reconciled.1 observed else Ret (Err putErr) in
      put <- call (PutConditional key body MustBeAbsent);
      match put with
      | Ok meta => finishAcquire capsule lineage (mkLeaseToken lease (om_Revision meta)) observed
      | Err putErr =>
          if errors_Is putErr ErrAmbiguous then reconcile putErr
          else if negb (errors_Is putErr ErrConflict) then Ret (Err putErr)
          else
          read <- ReadLease capsule lineage;
          match read with
          | Err readErr =>
              if errors_Is readErr ErrNotFound
              then acquire_loop fuel' capsule lineage key lease body observed now
              else Ret (Err readErr)
          | Ok current =>
              if After (wl_ExpiresAt (lt_Lease current)) now then Ret (Err ErrLeaseHeld)
              else
              put2 <- call (PutConditional key body (MatchRevision (lt_Revision current)));
              match put2 with
              | Ok meta => finishAcquire capsule lineage (mkLeaseToken lease (om_Revision meta)) observed
              | Err putErr2 =>
                  if errors_Is putErr2 ErrAmbiguous then reconcile putErr2
                  else if negb (errors_Is putErr2 ErrConflict) then Ret (Err putErr2)
                  else
                  ctxErr <- call CtxErr;
                  match ctxErr with
                  | Some err => Ret (Err err)
                  | None => acquire_loop fuel' capsule lineage key lease body observed now
                  end
              end
          end
      end
  end.

Definition new_lease (capsule : string) (lineage : Lineage) (owner : LeaseOwner) (opened : option GenerationRef)
    (now expiresAt : Time) : WriterLease :=
  mkWriterLease SchemaVersion capsule lineage (lo_SessionID owner) (lo_Machine owner) opened now now expiresAt.

Definition acquire (fuel : nat) (capsule : string) (lineage : Lineage) (owner : LeaseOwner)
    (observed : option PointerRecord) (opened : option GenerationRef) (now : Time) (ttl : Z)
    : prog (result LeaseToken) :=
  pure! key := Lineage_LeaseKey lineage capsule in
  if str_eqb (lo_SessionID owner) "" || str_eqb (lo_Machine owner) "" || IsZero now || (ttl <=? 0)
  then Ret (Err ErrInvalidDocument)
  else
  pure! _ := match opened with Some g => validateGenerationRef g | None => Ok tt end in
  let expiresAt := AddTime now ttl in
  guard! After expiresAt now else ErrInvalidDocument;
  let lease := new_lease capsule lineage owner opened now expiresAt in
  pure! body := marshal lease in
  acquire_loop fuel capsule lineage key lease body observed now.

Definition Acquire (fuel : nat) (capsule : string) (lineage : Lineage) (owner : LeaseOwner)
    (observed : option PointerRecord) (now : Time) (ttl : Z) : prog (result LeaseToken) :=
  match observed with
  | Some o =>
      if str_eqb (pr_Revision o) "" then Ret (Err ErrInvalidDocument)
      else
      pure! _ := validatePointer (pr_Pointer o) capsule lineage in
      acquire fuel capsule lineage owner observed (cloneGenerationRef (Some (lp_Generation (pr_Pointer o)))) now ttl
  | None => acquire fuel capsule lineage owner observed None now ttl
  end.

Definition AcquireBranchFrom (fuel : nat) (capsule : string) (lineage : Lineage) (owner : LeaseOwner)
    (source : PointerRecord) (now : Time) (ttl : Z) : prog (result LeaseToken) :=
  if Lineage_IsMain lineage || bool_decide (lp_Lineage (pr_Pointer source) = lineage) ||
     str_eqb (pr_Revision source) ""
  then Ret (Err ErrInvalidDocument)
  else
  pure! _ := validatePointer (pr_Pointer source) capsule (lp_Lineage (pr_Pointer source)) in
  try! _ := Revalidate source in
  try! token := acquire fuel capsule lineage owner None
    (cloneGenerationRef (Some (lp_Generation (pr_Pointer source)))) now ttl in
  revalidated <- Revalidate source;
  match revalidated with
  | Ok _ => Ret (Ok token)
  | Err _ => withdrawAcquired token ErrPointerChanged
  end.

Definition RevalidateLease (token : LeaseToken) (now : Time) : prog (result unit) :=
  if IsZero now || Before now (wl_HeartbeatAt (lt_Lease token)) then Ret (Err ErrInvalidDocument)
  else
  read <- ReadLease (wl_Capsule (lt_Lease token)) (wl_Lineage (lt_Lease token));
  match read with
  | Err err => if errors_Is err ErrNotFound then Ret (Err ErrLeaseLost) else Ret (Err err)
  | Ok current =>
      if negb (str_eqb (lt_Revision current) (lt_Revision token)) ||
         negb (documentsEqual (lt_Lease current) (lt_Lease token)) ||
         negb (After (wl_ExpiresAt (lt_Lease current)) now)
      then Ret (Err ErrLeaseLost) else Ret (Ok tt)
  end.

Definition with_heartbeat (now expiresAt : Time) (l : WriterLease) : WriterLease :=
  mkWriterLease (wl_SchemaVersion l) (wl_Capsule l) (wl_Lineage l) (wl_SessionID l) (wl_Machine l)
    (wl_OpenedGeneration l) (wl_CreatedAt l) now expiresAt.

Definition Renew (token : LeaseToken) (now : Time) (ttl : Z) : prog (result LeaseToken) :=
  if IsZero now || (ttl <=? 0) || Before now (wl_HeartbeatAt (lt_Lease token)) then Ret (Err ErrInvalidDocument)
  else
  let expiresAt := AddTime now ttl in
  guard! After expiresAt now else ErrInvalidDocument;
  read <- ReadLease (wl_Capsule (lt_Lease token)) (wl_Lineage (lt_Lease token));
  match read with
  | Err err => if errors_Is err ErrNotFound then Ret (Err ErrLeaseLost) else Ret (Err err)
  | Ok current =>
      if negb (str_eqb (lt_Revision current) (lt_Revision token)) ||
         negb (documentsEqual (lt_Lease current) (lt_Lease token))
      then Ret (Err ErrLeaseLost)
      else
      let renewed := with_heartbeat now expiresAt (lt_Lease token) in
      pure! body := marshal renewed in
      let key := match Lineage_LeaseKey (wl_Lineage renewed) (wl_Capsule renewed) with Ok k => k | Err _ => "" end in
      put <- call (PutConditional key body (MatchRevision (lt_Revision token)));
      match put with
      | Ok meta => Ret (Ok (mkLeaseToken renewed (om_Revision meta)))
      | Err err =>
          let failed : prog (result LeaseToken) :=
            if errors_Is err ErrConflict || errors_Is err ErrNotFound then Ret (Err ErrLeaseLost)
            else Ret (Err err) in
          if errors_Is err ErrAmbiguous then
            reconciled <- reconcileLease renewed;
            if reconciled.2 then Ret (Ok reconciled.1) else failed
          else failed
      end
  end.

Definition Release (token : LeaseToken) : prog (result unit) :=
  read <- ReadLease (wl_Capsule (lt_Lease token)) (wl_Lineage (lt_Lease token));
  match read with
  | Err err => if errors_Is err ErrNotFound then Ret (Err ErrLeaseLost) else Ret (Err err)
  | Ok current =>
      if negb (str_eqb (lt_Revision current) (lt_Revision token)) ||
         negb (documentsEqual (lt_Lease current) (lt_Lease token))
      then Ret (Err ErrLeaseLost)
      else
      let key := match Lineage_LeaseKey (wl_Lineage (lt_Lease token)) (wl_Capsule (lt_Lease token)) with
                 | Ok k => k | Err _ => "" end in
      deleted <- call (DeleteConditional key (lt_Revision token));
      match deleted with
      | Ok _ => Ret (Ok tt)
      | Err err =>
          let failed : prog (result unit) :=
            if errors_Is err ErrConflict || errors_Is err ErrNotFound then Ret (Err ErrLeaseLost)
            else Ret (Err err) in
          if errors_Is err ErrAmbiguous then
            head <- call (Head key);
            match head with
            | Err readErr => if errors_Is readErr ErrNotFound then Ret (Ok tt) else failed
            | Ok _ => failed
            end
          else failed
      end
  end.

(** * Lemmas *)
Lemma LeaseKey_err l capsule e : Lineage_LeaseKey l capsule = Err e -> errors_Is e ErrNotFound = false.
Proof.
  unfold Lineage_LeaseKey, result_bind. intros H.
  destruct (validateObjectKeySegment "capsule" capsule) eqn:E1; [|injection H as <-; by eapply segment_err].
  destruct (validateObjectKeySegment "branch" (ln_Branch l)) eqn:E2; [|injection H as <-; by eapply segment_err].
  by destruct (Lineage_IsMain l).
Qed.

Lemma validateLease_err lease c l e : validateLease lease c l = Err e -> errors_Is e ErrNotFound = false.
Proof.
  unfold validateLease, result_bind. intros H. destruct (_ || _) eqn:E0 in H; [by injection H as <-|].
  destruct (Lineage_LeaseKey _ _) as [key|] eqn:E1; [|injection H as <-; by eapply LeaseKey_err].
  destruct (_ || _) eqn:E2 in H; [by injection H as <-|].
  destruct (wl_OpenedGeneration lease); [|done]. by rewrite (GenerationRef_err _ _ H).
Qed.

Lemma validateLease_ok lease c l :
  validateLease lease c l = Ok tt -> wl_Capsule lease = c /\ wl_Lineage lease = l.
Proof.
  unfold validateLease, result_bind. intros H. destruct (_ || _) eqn:E0 in H; [done|]. by bool_norm.
Qed.

Lemma ReadLease_spec c l w r w' cs :
  exec (ReadLease c l) w r w' cs -> wf w ->
  cs = [] /\ rely w w' /\
  match r with
  | Ok t => exists key, Lineage_LeaseKey l c = Ok key /\ holds w' key (lt_Revision t) (lt_Lease t) /\
      wl_Capsule (lt_Lease t) = c /\ wl_Lineage (lt_Lease t) = l
  | Err e => errors_Is e ErrNotFound = true ->
      exists key, Lineage_LeaseKey l c = Ok key /\ objs w' !! key = None
  end.
Proof.
  intros Hex Hw. unfold ReadLease in Hex. destruct (Lineage_LeaseKey l c) as [key|e] eqn:Ek.
  2:{ exec_done. split; [done|]. split; [by apply rely_refl|]. rewrite (LeaseKey_err _ _ _ Ek). done. }
  exec_sub Hex as x w1 cs1 cs2 Hsub. apply readJSON_spec in Hsub as (-> & Hr & Hres).
  destruct x as [[p meta]|e]; [|exec_done; split; [done|]; split; [done|]; eauto].
  destruct (validateLease p c l) as [[]|e] eqn:Ev; exec_done; split; try done; split; try done.
  - exists key. split; [done|]. split; [done|]. by apply validateLease_ok.
  - rewrite (validateLease_err _ _ _ _ Ev). done.
Qed.

(** ** What the mutations of a lease client are *)

(** The text of the lease, or one that reads as an equal document. *)
Definition own_text (lease : WriterLease) (body : bytes) : Prop :=
  Marshal lease = Some body \/ exists cur, Unmarshal body = Some cur /\ documentsEqual cur lease = true.

(** Writes the lease over an absent object or over a lease that has expired. *)
Definition takes (key : string) (lease : WriterLease) (now : Time) (c : commit) : Prop :=
  cm_key c = key /\ (exists new, cm_new c = Some new /\ Marshal lease = Some (o_body new)) /\
  match cm_old c with
  | None => True
  | Some old => exists cur, Unmarshal (o_body old) = Some cur /\ After (wl_ExpiresAt cur) now = false
  end.

(** Deletes the lease itself, never another one. *)
Definition withdraws (key : string) (lease : WriterLease) (c : commit) : Prop :=
  cm_key c = key /\ cm_new c = None /\ exists old, cm_old c = Some old /\ own_text lease (o_body old).

(** The token's revision was given out for the lease. *)
Definition names_lease (w : world) (key : string) (lease : WriterLease) (t : LeaseToken) : Prop :=
  Lineage_LeaseKey (wl_Lineage (lt_Lease t)) (wl_Capsule (lt_Lease t)) = Ok key /\
  documentsEqual (lt_Lease t) lease = true /\
  exists body, hist w !! lt_Revision t = Some (key, body) /\ own_text lease body.

Lemma names_lease_mono w w' key lease t : hist w ⊆ hist w' -> names_lease w key lease t -> names_lease w' key lease t.
Proof.
  intros Hs (Hk & Hd & body & Hb & Ho). split; [done|]. split; [done|]. exists body.
  split; [by eapply lookup_weaken|done].
Qed.

(** The pointer observation a lease was acquired under still held. *)
Definition observation_holds (w : world) (capsule : string) (lineage : Lineage) (observed : option PointerRecord) : Prop :=
  match observed with
  | None => exists key, Lineage_PointerKey lineage capsule = Ok key /\ objs w !! key = None
  | Some o => exists key cur, Lineage_PointerKey (lp_Lineage (pr_Pointer o)) (lp_Capsule (pr_Pointer o)) = Ok key /\
      holds w key (pr_Revision o) cur /\ documentsEqual cur (pr_Pointer o) = true
  end.

Lemma reconcileLease_spec lease w x w' cs key :
  exec (reconcileLease lease) w x w' cs -> wf w ->
  Lineage_LeaseKey (wl_Lineage lease) (wl_Capsule lease) = Ok key ->
  cs = [] /\ rely w w' /\ (x.2 = true -> names_lease w' key lease x.1 /\ holds w' key (lt_Revision x.1) (lt_Lease x.1)).
Proof.
  intros Hex Hw Hk. unfold reconcileLease in Hex. exec_sub Hex as t w1 cs1 cs2 Hsub.
  apply ReadLease_spec in Hsub as (-> & Hr & Hres); [|done].
  destruct t as [t|e]; exec_done; split; try done; split; try done. simpl. intros Hd.
  destruct Hres as (k & Hk' & Hh & Hc & Hl). rewrite Hk in Hk'. injection Hk' as <-.
  split; [|done]. split; [by rewrite Hc, Hl|]. split; [done|]. destruct Hh as (o & Ho & Hrev & Hu).
  destruct (proj1 Hr key o Ho) as [_ Hh]. exists (o_body o). rewrite <-Hrev. split; [done|]. right. eauto.
Qed.

Lemma releaseAcquired_spec t w r w' cs key lease :
  exec (releaseAcquiredLease t) w r w' cs -> wf w -> names_lease w key lease t ->
  Forall (withdraws key lease) cs /\ (length cs <= 1)%nat.
Proof.
  intros Hex Hw (Hk & Hd & body & Hb & Ho). unfold releaseAcquiredLease in Hex. rewrite Hk in Hex.
  exec_call Hex as w1 x w2 cs1 cs2 Hr Hcall.
  assert (forall o, objs w1 !! key = Some o -> o_rev o = lt_Revision t ->
    withdraws key lease (mkCommit key (Some o) None)) as Hwd.
  { intros o Hobj Hrev. split; [done|]. split; [done|]. exists o. split; [done|]. destruct Hr as [Hw1 Hs].
    destruct (revision_stable w w1 key o _ body key Hw1 Hs Hb Hobj Hrev) as [_ ->]. done. }
  assert (cs2 = []) as ->.
  { destruct x as [[]|e]; [by exec_done|]. destruct (_ || _) in Hex; by exec_done. }
  rewrite app_nil_r. destruct Hcall; (split; [|simpl; lia]); repeat constructor; by apply Hwd.
Qed.

Lemma withdrawAcquired_spec t err w r w' cs key lease :
  exec (withdrawAcquired t err) w r w' cs -> wf w -> names_lease w key lease t ->
  errors_Is err ErrPointerChanged = true ->
  Forall (withdraws key lease) cs /\ exists e, r = Err e /\ errors_Is e ErrPointerChanged = true.
Proof.
  intros Hex Hw Hn He. unfold withdrawAcquired in Hex. exec_sub Hex as x w1 cs1 cs2 Hsub.
  apply (releaseAcquired_spec _ _ _ _ _ key lease) in Hsub as [Hf _]; [|done|done].
  destruct x as [[]|e]; exec_done; rewrite app_nil_r; split; try done; eexists; (split; [done|]); simpl; by rewrite He.
Qed.

(** An acquisition ends with the token and the observation, or with the lease
    withdrawn and ErrPointerChanged. *)
Lemma finishAcquire_spec capsule lineage t observed w r w' cs key lease :
  exec (finishAcquire capsule lineage t observed) w r w' cs -> wf w -> names_lease w key lease t ->
  Forall (withdraws key lease) cs /\
  match r with
  | Ok t' => t' = t /\ cs = [] /\ observation_holds w' capsule lineage observed /\ rely w w'
  | Err e => errors_Is e ErrPointerChanged = true
  end.
Proof.
  intros Hex Hw Hn. unfold finishAcquire in Hex.
  assert (forall err w1 cs0, exec (withdrawAcquired t err) w1 r w' cs0 -> rely w w1 ->
    errors_Is err ErrPointerChanged = true ->
    Forall (withdraws key lease) cs0 /\ exists e, r = Err e /\ errors_Is e ErrPointerChanged = true) as Hwd.
  { intros err w1 cs0 H [Hw1 Hs] He. eapply withdrawAcquired_spec; [exact H|done| |done].
    by eapply names_lease_mono. }
  destruct observed as [o|].
  - exec_sub Hex as x w1 cs1 cs2 Hsub. apply Revalidate_spec in Hsub as (-> & Hr & Hres); [|done].
    destruct x as [[]|err]; [exec_done; by split; [constructor|]|].
    destruct (errors_Is err ErrPointerChanged) eqn:Ee;
      (eapply Hwd in Hex as [Hf (e & -> & He)]; [done|done|simpl; by rewrite ?Ee]).
  - exec_sub Hex as x w1 cs1 cs2 Hsub. apply Read_spec in Hsub as (-> & Hr & Hres); [|done].
    destruct x as [rec|err]; [eapply Hwd in Hex as [Hf (e & -> & He)]; done|].
    destruct (errors_Is err ErrNotFound) eqn:Ee.
    + exec_done. split; [constructor|]. split; [done|]. split; [done|]. split; [|done].
      by apply Hres.
    + eapply Hwd in Hex as [Hf (e & -> & He)]; done.
Qed.

(** What an acquisition did, by outcome: a token names the lease and the pointer
    observation held; an error after a mutation is ambiguous or says the pointer
    changed. *)
Definition acquired (key : string) (lease : WriterLease) (now : Time) (capsule : string) (lineage : Lineage)
    (observed : option PointerRecord) (r : result LeaseToken) (w' : world) (cs : list commit) : Prop :=
  Forall (fun c => takes key lease now c \/ withdraws key lease c) cs /\
  match r with
  | Ok t => names_lease w' key lease t /\ observation_holds w' capsule lineage observed /\
      (cs = [] \/ exists c, cs = [c] /\ takes key lease now c)
  | Err e => cs <> [] -> errors_Is e ErrAmbiguous = true \/ errors_Is e ErrPointerChanged = true
  end.

Section acquire_loop.
  Context (capsule : string) (lineage : Lineage) (key : string) (lease : WriterLease) (body : bytes)
    (observed : option PointerRecord) (now : Time).
  Context (Hkey : Lineage_LeaseKey lineage capsule = Ok key) (Hm : Marshal lease = Some body)
    (Hc : wl_Capsule lease = capsule) (Hl : wl_Lineage lease = lineage).

Lemma finish_acquired t w r w' cs cs0 :
  exec (finishAcquire capsule lineage t observed) w r w' cs -> wf w -> names_lease w key lease t ->
  cs0 = [] \/ (exists c, cs0 = [c] /\ takes key lease now c) ->
  acquired key lease now capsule lineage observed r w' (cs0 ++ cs).
Proof.
  intros Hex Hw Hn H0. destruct (finishAcquire_spec _ _ _ _ _ _ _ _ _ _ Hex Hw Hn) as [Hf Hres].
  assert (Forall (fun c => takes key lease now c \/ withdraws key lease c) cs0) as Hf0.
  { destruct H0 as [->|(c & -> & Ht)]; [constructor|]. apply Forall_singleton. by left. }
  split; [apply Forall_app; split; [done|]; eapply Forall_impl; [exact Hf|]; by right|].
  destruct r as [t'|e]; [|by right]. destruct Hres as (-> & -> & Hobs & [_ Hs]). rewrite app_nil_r.
  split; [by eapply names_lease_mono|]. done.
Qed.

Lemma written_names w rev :
  fresh rev w -> names_lease (put_object key body rev w) key lease (mkLeaseToken lease rev).
Proof.
  intros [_ Hf]. unfold names_lease. cbn [lt_Lease lt_Revision]. split; [by rewrite Hc, Hl|]. split; [by eapply documentsEqual_refl|].
  exists body. simpl. split; [apply lookup_insert_eq|by left].
Qed.

(** The put of a lease, over whatever the condition allows. *)
Lemma put_acquired cond w1 x w2 cs1 :
  put_answers key body cond w1 x w2 cs1 -> wf w1 ->
  (forall o, condition_holds cond (Some o) -> objs w1 !! key = Some o ->
     exists cur, Unmarshal (o_body o) = Some cur /\ After (wl_ExpiresAt cur) now = false) ->
  wf w2 /\ (cs1 = [] \/ exists c, cs1 = [c] /\ takes key lease now c) /\
  match x with
  | Ok m => names_lease w2 key lease (mkLeaseToken lease (om_Revision m))
  | Err e => errors_Is e ErrAmbiguous = false -> cs1 = [] /\ w2 = w1
  end.
Proof.
  intros Ha Hw Hold.
  assert (forall rev, condition_holds cond (objs w1 !! key) ->
    takes key lease now (mkCommit key (objs w1 !! key) (Some (mkObject body rev)))) as Ht.
  { intros rev Hcond. split; [done|]. split; [by eexists|]. simpl.
    destruct (objs w1 !! key) as [o|] eqn:E; [by apply Hold|done]. }
  destruct Ha as [rev m Hcond Hf (_ & _ & Hrev & _)|e|e rev (Hamb & _) Hcond Hf].
  - split; [by apply put_object_wf|]. split; [right; eexists; split; [done|]; by apply Ht|].
    rewrite Hrev. by apply written_names.
  - split; [done|]. split; [by left|]. done.
  - split; [by apply put_object_wf|]. split; [right; eexists; split; [done|]; by apply Ht|].
    by rewrite Hamb.
Qed.

Lemma reconcile_acquired e w r w' cs cs0 :
  exec (reconciled <- reconcileLease lease;
        if reconciled.2 then finishAcquire capsule lineage reconciled.1 observed else Ret (Err e)) w r w' cs ->
  wf w -> errors_Is e ErrAmbiguous = true ->
  cs0 = [] \/ (exists c, cs0 = [c] /\ takes key lease now c) ->
  acquired key lease now capsule lineage observed r w' (cs0 ++ cs).
Proof.
  intros Hex Hw Ha H0. exec_sub Hex as x w1 cs1 cs2 Hsub.
  apply (reconcileLease_spec _ _ _ _ _ key) in Hsub as (-> & [Hw1 Hs] & Hn); [|done|by rewrite Hc, Hl].
  destruct x as [t []]; cbn [fst snd] in *.
  - eapply finish_acquired; [exact Hex|done|by apply Hn|done].
  - exec_done. rewrite app_nil_r. split; [|by left].
    destruct H0 as [->|(c & -> & Ht)]; [constructor|]. apply Forall_singleton. by left.
Qed.

Lemma acquire_loop_spec fuel w r w' cs :
  exec (acquire_loop fuel capsule lineage key lease body observed now) w r w' cs -> wf w ->
  acquired key lease now capsule lineage observed r w' cs.
Proof.
  revert w cs. induction fuel as [|fuel IH]; intros w cs Hex Hw; [done|]. cbn [acquire_loop] in Hex.
  assert (forall e w0, exec (Ret (Err e)) w0 r w' cs -> acquired key lease now capsule lineage observed r w' cs) as Hret.
  { intros e w0 H. exec_done. split; [constructor|done]. }
  exec_call Hex as w1 x w2 cs1 cs2 Hr1 Hcall. destruct Hr1 as [Hw1 Hs1].
  apply put_acquired in Hcall as (Hw2 & Hcs1 & Hx); [|done|by intros o [=]].
  destruct x as [m|e]; [by eapply finish_acquired|].
  destruct (errors_Is e ErrAmbiguous) eqn:Ea; [by eapply reconcile_acquired|].
  destruct (Hx eq_refl) as [-> ->]. clear Hcs1 Hx. cbn [app] in *.
  destruct (negb (errors_Is e ErrConflict)); [by eapply Hret|].
  exec_sub Hex as t w3 cs3 cs4 Hsub. apply ReadLease_spec in Hsub as (-> & Hr3 & Hres); [|done]. cbn [app] in *.
  assert (wf w3) as Hw3 by (by destruct Hr3).
  destruct t as [cur|e2]; [|destruct (errors_Is e2 ErrNotFound); [by eapply IH|by eapply Hret]].
  destruct (After (wl_ExpiresAt (lt_Lease cur)) now) eqn:Eexp; [by eapply Hret|].
  exec_call Hex as w4 x w5 cs5 cs6 Hr4 Hcall. assert (wf w4) as Hw4 by (by destruct Hr4).
  apply put_acquired in Hcall as (Hw5 & Hcs5 & Hx); [|done|].
  2:{ intros o (o' & [= <-] & Hrev) Ho. destruct Hres as (k & Hk & Hh & _). rewrite Hkey in Hk. injection Hk as <-.
      exists (lt_Lease cur). split; [|done]. by eapply holds_stable. }
  destruct x as [m|e2]; [by eapply finish_acquired|].
  destruct (errors_Is e2 ErrAmbiguous) eqn:Ea2; [by eapply reconcile_acquired|].
  destruct (Hx eq_refl) as [-> ->]. cbn [app] in *.
  destruct (negb (errors_Is e2 ErrConflict)); [by eapply Hret|].
  exec_call Hex as w6 x w7 cs7 cs8 Hr6 Hcall. destruct Hcall as [-> ->]. cbn [app] in *.
  destruct x as [err|]; [by eapply Hret|]. eapply IH; [exact Hex|by destruct Hr6].
Qed.
End acquire_loop.

(** The acquisition's own guards, then the loop. *)
Lemma acquire_spec fuel capsule lineage owner observed opened now ttl w r w' cs :
  exec (acquire fuel capsule lineage owner observed opened now ttl) w r w' cs -> wf w ->
  (cs = [] /\ exists e, r = Err e) \/
  exists key, Lineage_LeaseKey lineage capsule = Ok key /\ After (AddTime now ttl) now = true /\
    acquired key (new_lease capsule lineage owner opened now (AddTime now ttl)) now capsule lineage observed r w' cs.
Proof.
  intros Hex Hw. unfold acquire in Hex.
  destruct (Lineage_LeaseKey lineage capsule) as [key|] eqn:Ek; [|exec_done; eauto].
  destruct (_ || _) in Hex; [exec_done; eauto|].
  destruct (match opened with Some _ => _ | None => _ end) in Hex; [|exec_done; eauto].
  destruct (After (AddTime now ttl) now) eqn:Ea; [|exec_done; eauto].
  destruct (marshal _) as [body|] eqn:Em in Hex; [|exec_done; eauto]. apply marshal_ok in Em.
  right. exists key. split; [done|]. split; [done|]. by eapply acquire_loop_spec.
Qed.

(** Replaces the lease a token names by its renewal. *)
Definition renews (key : string) (token : LeaseToken) (renewed : WriterLease) (c : commit) : Prop :=
  cm_key c = key /\ exists old new cur, cm_old c = Some old /\ cm_new c = Some new /\
    o_rev old = lt_Revision token /\ Unmarshal (o_body old) = Some cur /\
    documentsEqual cur (lt_Lease token) = true /\ Marshal renewed = Some (o_body new).

Lemma Renew_spec token now ttl w r w' cs :
  exec (Renew token now ttl) w r w' cs -> wf w ->
  let renewed := with_heartbeat now (AddTime now ttl) (lt_Lease token) in
  (cs = [] \/ exists c key, cs = [c] /\ renews key token renewed c /\
     Lineage_LeaseKey (wl_Lineage (lt_Lease token)) (wl_Capsule (lt_Lease token)) = Ok key) /\
  match r with
  | Ok t => (exists key, Lineage_LeaseKey (wl_Lineage (lt_Lease token)) (wl_Capsule (lt_Lease token)) = Ok key /\
      names_lease w' key renewed t) /\ Before now (wl_HeartbeatAt (lt_Lease token)) = false
  | Err e => cs <> [] -> errors_Is e ErrAmbiguous = true
  end.
Proof.
  intros Hex Hw renewed. unfold Renew in Hex.
  assert (forall e w0, exec (Ret (Err e)) w0 r w' cs -> (cs = [] \/ exists c key, cs = [c] /\ renews key token renewed c /\
     Lineage_LeaseKey (wl_Lineage (lt_Lease token)) (wl_Capsule (lt_Lease token)) = Ok key) /\
    match r with
    | Ok t => (exists key, Lineage_LeaseKey (wl_Lineage (lt_Lease token)) (wl_Capsule (lt_Lease token)) = Ok key /\
      names_lease w' key renewed t) /\ Before now (wl_HeartbeatAt (lt_Lease token)) = false
    | Err e => cs <> [] -> errors_Is e ErrAmbiguous = true end) as Hret.
  { intros e w0 H. exec_done. split; [by left|done]. }
  destruct (_ || _) eqn:Eg in Hex; [by eapply Hret|]. bool_norm.
  destruct (After _ _) in Hex; [|by eapply Hret].
  exec_sub Hex as x w1 cs1 cs2 Hsub. apply ReadLease_spec in Hsub as (-> & Hr1 & Hres); [|done]. cbn [app] in *.
  destruct x as [cur|e]; [|destruct (errors_Is e ErrNotFound); by eapply Hret].
  destruct (_ || _) eqn:Ec in Hex; [by eapply Hret|]. bool_norm.
  destruct Hres as (key & Hk & Hh & _). fold renewed in Hex.
  match goal with H : lt_Revision cur = _ |- _ => rewrite H in Hh end.
  destruct (marshal renewed) as [body|e] eqn:Em in Hex; [|by eapply Hret]. apply marshal_ok in Em.
  change (wl_Lineage renewed) with (wl_Lineage (lt_Lease token)) in Hex.
  change (wl_Capsule renewed) with (wl_Capsule (lt_Lease token)) in Hex. rewrite Hk in Hex.
  exec_call Hex as w2 x w3 cs3 cs4 Hr2 Hcall. assert (wf w2) as Hw2 by (by destruct Hr2).
  assert (forall rev, condition_holds (MatchRevision (lt_Revision token)) (objs w2 !! key) ->
    renews key token renewed (mkCommit key (objs w2 !! key) (Some (mkObject body rev)))) as Hcommit.
  { intros rev (old & Hold & Hrev). split; [done|]. exists old, (mkObject body rev), (lt_Lease cur).
    split; [done|]. split; [done|]. split; [done|]. split; [|done].
    eapply holds_stable; [exact Hh|by destruct Hr1|exact Hr2|done|done]. }
  destruct Hcall as [rev m Hcond Hf Hm|e|e rev (Ha & Hcf & Hnf) Hcond Hf].
  - exec_done. split; [right; eexists _, key; split; [done|]; split; [by apply Hcommit|done]|].
    split; [|done]. exists key. split; [done|]. destruct Hm as (_ & _ & -> & _).
    by eapply (written_names (wl_Capsule renewed) (wl_Lineage renewed)).
  - cbn [app] in *. destruct (errors_Is e ErrAmbiguous) eqn:Ea; [|destruct (_ || _) in Hex; by eapply Hret].
    exec_sub Hex as x w4 cs5 cs6 Hsub.
    apply (reconcileLease_spec _ _ _ _ _ key) in Hsub as (-> & _ & Hn); [|done|done]. cbn [app] in *.
    destruct x as [t []]; cbn [fst snd] in *; [|destruct (_ || _) in Hex; by eapply Hret].
    exec_done. split; [by left|]. split; [|done]. exists key. split; [done|]. by apply Hn.
  - rewrite Ha, Hcf, Hnf in Hex. cbn [orb] in Hex. exec_sub Hex as x w4 cs5 cs6 Hsub.
    apply (reconcileLease_spec _ _ _ _ _ key) in Hsub as (-> & _ & Hn); [|by apply put_object_wf|done].
    cbn [app] in *. specialize (Hcommit rev Hcond).
    destruct x as [t []]; cbn [fst snd] in *; exec_done;
      (split; [right; by eexists _, key|]); [|by intros _].
    split; [|done]. exists key. split; [done|]. by apply Hn.
Qed.

Lemma Release_spec token w r w' cs :
  exec (Release token) w r w' cs -> wf w ->
  (cs = [] \/ exists c key, cs = [c] /\ withdraws key (lt_Lease token) c /\
     (exists old, cm_old c = Some old /\ o_rev old = lt_Revision token) /\
     Lineage_LeaseKey (wl_Lineage (lt_Lease token)) (wl_Capsule (lt_Lease token)) = Ok key) /\
  match r with
  | Ok _ => exists key, Lineage_LeaseKey (wl_Lineage (lt_Lease token)) (wl_Capsule (lt_Lease token)) = Ok key /\
      objs w' !! key = None
  | Err e => cs <> [] -> errors_Is e ErrAmbiguous = true
  end.
Proof.
  intros Hex Hw. unfold Release in Hex.
  exec_sub Hex as x w1 cs1 cs2 Hsub. apply ReadLease_spec in Hsub as (-> & Hr1 & Hres); [|done]. cbn [app] in *.
  destruct x as [cur|e]; [|destruct (errors_Is e ErrNotFound); exec_done; split; [by left|done|by left|done]].
  destruct (_ || _) eqn:Ec in Hex; [exec_done; split; [by left|done]|]. bool_norm.
  destruct Hres as (key & Hk & Hh & _). rewrite Hk in Hex.
  match goal with H : lt_Revision cur = _ |- _ => rewrite H in Hh end.
  exec_call Hex as w2 x w3 cs3 cs4 Hr2 Hcall. assert (wf w2) as Hw2 by (by destruct Hr2).
  assert (forall o, objs w2 !! key = Some o -> o_rev o = lt_Revision token ->
    exists c k, [mkCommit key (Some o) None] = [c] /\ withdraws k (lt_Lease token) c /\
     (exists old, cm_old c = Some old /\ o_rev old = lt_Revision token) /\
     Lineage_LeaseKey (wl_Lineage (lt_Lease token)) (wl_Capsule (lt_Lease token)) = Ok k) as Hcommit.
  { intros o Ho Hrev. eexists _, key. split; [done|]. split; [|split; [by exists o|done]].
    split; [done|]. split; [done|]. exists o. split; [done|]. right. exists (lt_Lease cur). split; [|done].
    eapply holds_stable; [exact Hh|by destruct Hr1|exact Hr2|done|done]. }
  destruct Hcall as [o Ho Hrev|e|e o (Ha & Hcf & Hnf) Ho Hrev].
  - exec_done. rewrite app_nil_r. split; [right; by apply Hcommit|]. exists key. split; [done|].
    apply lookup_delete_eq.
  - cbn [app] in *. destruct (errors_Is e ErrAmbiguous) eqn:Ea.
    2:{ destruct (_ || _) in Hex; exec_done; split; try (by left); done. }
    exec_call Hex as w4 x w5 cs5 cs6 Hr4 Hcall.
    destruct Hcall as [o m Ho Hm|e' He'].
    { destruct (_ || _) in Hex; exec_done; split; try (by left); done. }
    destruct (errors_Is e' ErrNotFound) eqn:En.
    { exec_done. split; [by left|]. exists key. split; [done|]. by apply He'. }
    destruct (_ || _) in Hex; exec_done; split; try (by left); done.
  - rewrite Ha, Hcf, Hnf in Hex. cbn [orb] in Hex. exec_call Hex as w4 x w5 cs5 cs6 Hr4 Hcall.
    destruct Hcall as [o' m Ho' Hm|e' He'].
    { exec_done. split; [right; by apply Hcommit|done]. }
    destruct (errors_Is e' ErrNotFound) eqn:En; exec_done; (split; [right; by apply Hcommit|]); [|done].
    exists key. split; [done|]. by apply He'.
Qed.

(** ** Who may write over whose lease *)

(** The generation a lease is opened on. *)
Definition opened_by (observed : option PointerRecord) : option GenerationRef :=
  option_map (fun o => lp_Generation (pr_Pointer o)) observed.

(** The calls that acquire a lease at a time, and the lease they write. *)
Inductive acquires (now : Time) (ttl : Z) : WriterLease -> prog (result LeaseToken) -> Prop :=
| acquires_lineage fuel capsule lineage owner observed :
    acquires now ttl
      (new_lease capsule lineage owner (opened_by observed) now (AddTime now ttl))
      (Acquire fuel capsule lineage owner observed now ttl)
| acquires_branch fuel capsule lineage owner source :
    acquires now ttl
      (new_lease capsule lineage owner (Some (lp_Generation (pr_Pointer source))) now (AddTime now ttl))
      (AcquireBranchFrom fuel capsule lineage owner source now ttl).

(** The calls that write a lease at a time: these and a renewal. *)
Definition writes_lease (now : Time) (ttl : Z) (lease : WriterLease) (p : prog (result LeaseToken)) : Prop :=
  acquires now ttl lease p \/
  exists token, lease = with_heartbeat now (AddTime now ttl) (lt_Lease token) /\ p = Renew token now ttl.

Lemma Acquire_commits fuel capsule lineage owner observed now ttl w r w' cs :
  exec (Acquire fuel capsule lineage owner observed now ttl) w r w' cs -> wf w ->
  let lease := new_lease capsule lineage owner (opened_by observed) now (AddTime now ttl) in
  exists key, Forall (fun c => takes key lease now c \/ withdraws key lease c) cs.
Proof.
  intros Hex Hw lease. unfold Acquire in Hex. assert (forall opened, opened = opened_by observed ->
    exec (acquire fuel capsule lineage owner observed opened now ttl) w r w' cs ->
    exists key, Forall (fun c => takes key lease now c \/ withdraws key lease c) cs) as Hacq.
  { intros opened -> [[-> _]|(key & _ & _ & Ha & _)]%acquire_spec; [by exists ""|by exists key|done]. }
  destruct observed as [o|]; [|by eapply Hacq]. destruct (str_eqb _ _); [by exec_done; exists ""|].
  destruct (validatePointer _ _ _); [by eapply Hacq|by exec_done; exists ""].
Qed.

(** A branch's lease is withdrawn when the pointer it starts from has moved. *)
Lemma AcquireBranchFrom_commits fuel capsule lineage owner source now ttl w r w' cs :
  exec (AcquireBranchFrom fuel capsule lineage owner source now ttl) w r w' cs -> wf w ->
  let lease := new_lease capsule lineage owner (Some (lp_Generation (pr_Pointer source))) now (AddTime now ttl) in
  exists key, Forall (fun c => takes key lease now c \/ withdraws key lease c) cs.
Proof.
  intros Hex Hw lease. unfold AcquireBranchFrom in Hex. destruct (_ || _) in Hex; [by exec_done; exists ""|].
  destruct (validatePointer _ _ _) in Hex; [|by exec_done; exists ""].
  exec_sub Hex as x w1 cs1 cs2 Hsub. apply Revalidate_spec in Hsub as (-> & [Hw1 _] & _); [|done]. cbn [app] in *.
  destruct x as [[]|e]; [|by exec_done; exists ""]. exec_sub Hex as t w2 cs3 cs4 Hsub.
  destruct (exec_grow _ _ _ _ _ Hsub Hw1) as [Hw2 _].
  apply acquire_spec in Hsub as [(-> & e & ->)|(key & _ & _ & Hf & Ht)]; [by exec_done; exists ""| |done]. exists key.
  destruct t as [t|e]; [|exec_done; by rewrite app_nil_r]. destruct Ht as (Hn & _).
  exec_sub Hex as y w3 cs5 cs6 Hsub. apply Revalidate_spec in Hsub as (-> & Hr3 & _); [|done]. cbn [app] in *.
  destruct y as [[]|e]; [exec_done; by rewrite app_nil_r|].
  apply (withdrawAcquired_spec _ _ _ _ _ _ key lease) in Hex as [Hfw _];
    [|by destruct Hr3|eapply names_lease_mono; [|exact Hn]; by destruct Hr3|done].
  apply Forall_app. split; [exact Hf|]. eapply Forall_impl; [exact Hfw|]. by right.
Qed.

Lemma acquires_commits now ttl lease p w r w' cs :
  acquires now ttl lease p -> exec p w r w' cs -> wf w ->
  exists key, Forall (fun c => takes key lease now c \/ withdraws key lease c) cs.
Proof. intros [] Hex Hw; [by eapply Acquire_commits|by eapply AcquireBranchFrom_commits]. Qed.

(** What such a call writes is the text of its lease. *)
Lemma writes_lease_text now ttl lease p w r w' cs c new :
  writes_lease now ttl lease p -> exec p w r w' cs -> wf w -> c ∈ cs -> cm_new c = Some new -> Marshal lease = Some (o_body new).
Proof.
  intros [Ha|(token & -> & ->)] Hex Hw Hc Hn.
  - destruct (acquires_commits _ _ _ _ _ _ _ _ Ha Hex Hw) as [key Hf].
    destruct (proj1 (Forall_forall _ _) Hf c Hc) as [(_ & (new' & Hn' & Hm) & _)|(_ & Hn' & _)]; congruence.
  - apply Renew_spec in Hex as [[->|(c' & key & -> & (_ & old & new' & cur & _ & Hn' & _ & _ & _ & Hm) & _)] _]; [|..|done].
    + by apply not_elem_of_nil in Hc.
    + apply list_elem_of_singleton in Hc as ->. congruence.
Qed.

(** ** Outcomes on the reference store *)
(** What a read of a lineage's lease gives on the reference store, in every case. *)
Definition lease_at (c : string) (l : Lineage) (s : ref_store) : result LeaseToken :=
  let! key := Lineage_LeaseKey l c in
  let! (lease, meta) := document_at WriterLease key s in
  let! _ := validateLease lease c l in
  Ok (mkLeaseToken lease (om_Revision meta)).

Lemma ref_ReadLease_at c l (s : ref_store) : run (ReadLease c l) s = Some (lease_at c l s, s).
Proof.
  unfold ReadLease, lease_at, run. destruct (Lineage_LeaseKey l c) as [key|e]; [|done]. rewrite run_with_bind.
  pose proof (ref_readJSON_at (T:=WriterLease) key s) as Hr. unfold run in Hr. rewrite Hr. cbn [mbind option_bind fst snd result_bind].
  destruct (document_at WriterLease key s) as [[lease meta]|e]; [|done]. cbn. by destruct (validateLease lease c l) as [[]|].
Qed.

Lemma document_at_missing {T : Type} `{Codec T} key (s : ref_store) e :
  document_at T key s = Err e -> errors_Is e ErrNotFound = true -> objs (rs_world s) !! key = None.
Proof.
  unfold document_at. destruct (objs (rs_world s) !! key); [|done]. destruct (_ <? _); [by intros [= <-]|].
  destruct (Unmarshal _); [done|by intros [= <-]].
Qed.

(** The object a lease was read from, or that there is none. *)
Lemma lease_at_object c l key (s : ref_store) :
  Lineage_LeaseKey l c = Ok key ->
  match lease_at c l s with
  | Ok t => exists o, objs (rs_world s) !! key = Some o /\ o_rev o = lt_Revision t
  | Err e => if errors_Is e ErrNotFound then objs (rs_world s) !! key = None
             else exists o, objs (rs_world s) !! key = Some o
  end.
Proof.
  intros Hk. unfold lease_at, document_at. rewrite Hk. cbn [result_bind].
  destruct (objs (rs_world s) !! key) as [o|]; [|done]. destruct (_ <? _); [by eexists|].
  destruct (Unmarshal (o_body o)) as [d|]; [|by eexists]. cbn [result_bind].
  destruct (validateLease d c l) as [[]|e] eqn:Ev; [by exists o|]. cbn [result_bind].
  rewrite (validateLease_err _ _ _ _ Ev). by eexists.
Qed.

(** What was observed of the pointer is what the store holds. *)
Definition observation_current (capsule : string) (lineage : Lineage) (observed : option PointerRecord) (s : ref_store) : bool :=
  match observed with
  | None => match pointer_at capsule lineage s with Ok _ => false | Err e => errors_Is e ErrNotFound end
  | Some o => observed_in o s
  end.

(** The state a withdrawn object leaves. *)
Definition ref_withdraw (key : string) (s : ref_store) : ref_store := mkRefStore (delete_object key (rs_world s)) (rs_next s).

(** Another object does not change what the pointer is. *)
Lemma pointer_at_publish c l c' l' key body (s : ref_store) :
  Lineage_LeaseKey l c = Ok key -> pointer_at c' l' (ref_publish key body s) = pointer_at c' l' s.
Proof.
  intros Hk. unfold pointer_at. destruct (Lineage_PointerKey l' c') as [pkey|e] eqn:Ep; [|done]. cbn [result_bind]. f_equal.
  unfold document_at. cbn [ref_publish rs_world objs put_object]. rewrite lookup_insert_ne; [done|].
  intros Heq. by eapply pointer_lease_distinct; [exact Ep|exact Hk|].
Qed.

Lemma ref_withdrawAcquired t key o err (s : ref_store) :
  Lineage_LeaseKey (wl_Lineage (lt_Lease t)) (wl_Capsule (lt_Lease t)) = Ok key ->
  objs (rs_world s) !! key = Some o -> o_rev o = lt_Revision t ->
  run (withdrawAcquired t err) s = Some (Err err, ref_withdraw key s).
Proof.
  intros Hk Ho Hrev. unfold withdrawAcquired, releaseAcquiredLease, run. rewrite run_with_bind, Hk.
  rewrite run_with_bind. cbn [call run_with handle RefStore ref_handle]. by rewrite Ho, Hrev, str_eqb_refl.
Qed.

(** The end of an acquisition whose lease is in the store: the token where the observation
    still holds, and otherwise the lease is withdrawn. *)
Lemma ref_finishAcquire capsule lineage key body lease observed (s : ref_store) :
  Lineage_LeaseKey lineage capsule = Ok key -> wl_Capsule lease = capsule -> wl_Lineage lease = lineage ->
  let t := mkLeaseToken lease (ref_revision (rs_next s)) in
  exists e, errors_Is e ErrPointerChanged = true /\
  run (finishAcquire capsule lineage t observed) (ref_publish key body s) = Some
    (if observation_current capsule lineage observed s then (Ok t, ref_publish key body s)
     else (Err e, ref_withdraw key (ref_publish key body s))).
Proof.
  intros Hk Hc Hl t.
  assert (forall err, run (withdrawAcquired t err) (ref_publish key body s) = Some (Err err, ref_withdraw key (ref_publish key body s))) as Hw.
  { intros err. eapply ref_withdrawAcquired; [|apply lookup_insert_eq|done]. by subst t; cbn; rewrite Hc, Hl. }
  unfold finishAcquire, observation_current, run in *. destruct observed as [o|].
  - rewrite run_with_bind. pose proof (ref_Revalidate_at o (ref_publish key body s)) as Hr. unfold run in Hr. rewrite Hr.
    cbn [mbind option_bind fst snd]. unfold revalidate_answer, observed_in.
    rewrite (pointer_at_publish _ _ (lp_Capsule (pr_Pointer o)) (lp_Lineage (pr_Pointer o)) key body s Hk).
    destruct (pointer_at _ _ s) as [current|e].
    + exists ErrPointerChanged. split; [done|]. destruct (_ && _); [done|]. apply Hw.
    + destruct (errors_Is e ErrNotFound); [exists ErrPointerChanged; split; [done|apply Hw]|].
      destruct (errors_Is e ErrPointerChanged) eqn:Ee; eexists; (split; [|apply Hw]); [done|]. cbn. by rewrite ?Ee.
  - rewrite run_with_bind. pose proof (ref_Read_at capsule lineage (ref_publish key body s)) as Hr. unfold run in Hr. rewrite Hr.
    cbn [mbind option_bind fst snd]. rewrite (pointer_at_publish _ _ capsule lineage key body s Hk).
    destruct (pointer_at capsule lineage s) as [current|e]; [exists ErrPointerChanged; split; [done|apply Hw]|].
    exists (ErrJoin ErrPointerChanged e). split; [done|]. destruct (errors_Is e ErrNotFound); [done|]. apply Hw.
Qed.

(** The outcome of an acquisition: the lease is held, the lease object cannot be read, or it
    is written and the observation decides. *)
Definition acquire_answer (capsule : string) (lineage : Lineage) (key : string) (lease : WriterLease) (body : bytes)
    (observed : option PointerRecord) (now : Time) (changed : error) (s : ref_store) : result LeaseToken * ref_store :=
  let written :=
    if observation_current capsule lineage observed s
    then (Ok (mkLeaseToken lease (ref_revision (rs_next s))), ref_publish key body s)
    else (Err changed, ref_withdraw key (ref_publish key body s)) in
  match lease_at capsule lineage s with
  | Ok current => if After (wl_ExpiresAt (lt_Lease current)) now then (Err ErrLeaseHeld, s) else written
  | Err e => if errors_Is e ErrNotFound then written else (Err e, s)
  end.

Lemma ref_acquire_loop fuel capsule lineage key lease body observed now (s : ref_store) :
  Lineage_LeaseKey lineage capsule = Ok key -> wl_Capsule lease = capsule -> wl_Lineage lease = lineage ->
  exists e, errors_Is e ErrPointerChanged = true /\
  run (acquire_loop (S fuel) capsule lineage key lease body observed now) s =
  Some (acquire_answer capsule lineage key lease body observed now e s).
Proof.
  intros Hk Hc Hl. destruct (ref_finishAcquire capsule lineage key body lease observed s Hk Hc Hl) as (e & He & Hfin).
  exists e. split; [done|]. unfold acquire_answer. pose proof (lease_at_object capsule lineage key s Hk) as Hobj.
  cbn [acquire_loop]. unfold run in *. rewrite run_with_bind. cbn [call run_with handle RefStore ref_handle].
  unfold ref_put_conditional. cbn [handle RefStore] in Hfin.
  pose proof (ref_ReadLease_at capsule lineage s) as Hr. unfold run in Hr. cbn [handle RefStore] in Hr.
  destruct (lease_at capsule lineage s) as [current|err].
  - destruct Hobj as (o & Ho & Hrev). rewrite Ho. cbn [wc_MustBeAbsent MustBeAbsent mbind option_bind fst snd].
    change (errors_Is ErrConflict ErrAmbiguous) with false. change (errors_Is ErrConflict ErrConflict) with true. cbn [negb].
    rewrite run_with_bind, Hr. cbn [mbind option_bind fst snd]. destruct (After _ now); [done|].
    rewrite run_with_bind. cbn [call run_with handle RefStore ref_handle]. unfold ref_put_conditional. rewrite Ho.
    cbn [wc_MustBeAbsent wc_MatchRevision MatchRevision]. rewrite Hrev, str_eqb_refl. exact Hfin.
  - destruct (errors_Is err ErrNotFound) eqn:En; [rewrite Hobj; exact Hfin|].
    destruct Hobj as (o & Ho). rewrite Ho. cbn [wc_MustBeAbsent MustBeAbsent mbind option_bind fst snd].
    change (errors_Is ErrConflict ErrAmbiguous) with false. change (errors_Is ErrConflict ErrConflict) with true. cbn [negb].
    rewrite run_with_bind, Hr. cbn [mbind option_bind fst snd]. by rewrite En.
Qed.

(** * Properties *)
Definition sample_now : Time := utc 63900000000000000000.
Definition sample_owner (name : string) : LeaseOwner := mkLeaseOwner name "laptop".
Definition minute : Z := 60 * second_ns.
Definition sample_acquire (name : string) (now : Time) : prog (result LeaseToken) :=
  Acquire 1 "brain" (mkLineage "exp") (sample_owner name) None now (10 * minute).
Definition sample_lease (name : string) (now : Time) : WriterLease :=
  new_lease "brain" (mkLineage "exp") (sample_owner name) None now (AddTime now (10 * minute)).
Definition sample_leased : ref_store := state_after (sample_acquire "session-a" sample_now) ref_empty.
Definition sample_token : LeaseToken := mkLeaseToken (sample_lease "session-a" sample_now) "r0".

Lemma sample_leased_run : run (sample_acquire "session-a" sample_now) ref_empty = Some (Ok sample_token, sample_leased).
Proof. vm_compute. reflexivity. Qed.

(** C7: A writer lease is exclusive.  Under any interference, every mutation an
    acquisition makes either writes its own lease over an absent object or over a
    lease that has expired at the caller's time, or withdraws its own lease; a token
    is returned only while the pointer observation it was given still held, and a
    failure after a mutation is ambiguous or reports the pointer change. *)
Theorem Acquire_exclusive fuel capsule lineage owner observed now ttl w r w' cs :
  wf w -> exec (Acquire fuel capsule lineage owner observed now ttl) w r w' cs ->
  (cs = [] /\ exists e, r = Err e) \/
  exists key lease, Lineage_LeaseKey lineage capsule = Ok key /\
    wl_SessionID lease = lo_SessionID owner /\ wl_ExpiresAt lease = AddTime now ttl /\
    acquired key lease now capsule lineage observed r w' cs.
Proof.
  intros Hw Hex. unfold Acquire in Hex.
  assert (forall opened, exec (acquire fuel capsule lineage owner observed opened now ttl) w r w' cs ->
    (cs = [] /\ exists e, r = Err e) \/
    exists key lease, Lineage_LeaseKey lineage capsule = Ok key /\
      wl_SessionID lease = lo_SessionID owner /\ wl_ExpiresAt lease = AddTime now ttl /\
      acquired key lease now capsule lineage observed r w' cs) as Hacq.
  { intros opened H. apply acquire_spec in H as [H|(key & Hk & _ & Ha)]; [by left| |done].
    right. by exists key, (new_lease capsule lineage owner opened now (AddTime now ttl)). }
  destruct observed as [o|]; [|by eapply Hacq].
  destruct (str_eqb _ _) in Hex; [exec_done; eauto|].
  destruct (validatePointer _ _ _) in Hex; [by eapply Hacq|exec_done; eauto].
Qed.

Lemma Acquire_exclusive_witness :
  exists cs key lease, wl_SessionID lease = "session-a" /\
    acquired key lease sample_now "brain" (mkLineage "exp") None (Ok sample_token) (rs_world sample_leased) cs.
Proof.
  destruct (ref_run_exec _ _ _ _ ref_empty_ok sample_leased_run) as [Hex _].
  destruct (Acquire_exclusive _ _ _ _ _ _ _ _ _ _ _ (proj1 ref_empty_ok) Hex) as [[_ [e He]]|H]; [discriminate He|].
  destruct H as (key & lease & _ & Hs & _ & Ha). eexists _, key, lease. exact (conj Hs Ha).
Defined.

(** C18: Lease periods do not overlap.  When some client's Acquire, AcquireBranchFrom or
    Renew at time [n1] wrote a lease, and another client's Acquire or AcquireBranchFrom at
    time [n2] replaces that very object by its own lease, the first lease had expired:
    [n1 + ttl1] is not after [n2], so the two periods are disjoint.  This holds for every run
    of the two calls, on any stores that keep the contract, with any clients in between. *)
Theorem lease_periods_disjoint p1 n1 ttl1 l1 p2 n2 ttl2 l2 w1 r1 w1' cs1 w2 r2 w2' cs2 c1 c2 o :
  writes_lease n1 ttl1 l1 p1 -> wf w1 -> exec p1 w1 r1 w1' cs1 -> c1 ∈ cs1 -> cm_new c1 = Some o ->
  acquires n2 ttl2 l2 p2 -> wf w2 -> exec p2 w2 r2 w2' cs2 -> c2 ∈ cs2 -> cm_old c2 = Some o -> cm_new c2 <> None ->
  c_ok l1 = true -> t_ns (AddTime n1 ttl1) <= t_ns n2.
Proof.
  intros H1 Hw1 Hex1 Hc1 Hn1 H2 Hw2 Hex2 Hc2 Ho2 Hn2 Hok.
  pose proof (writes_lease_text _ _ _ _ _ _ _ _ _ _ H1 Hex1 Hw1 Hc1 Hn1) as Hm.
  destruct (acquires_commits _ _ _ _ _ _ _ _ H2 Hex2 Hw2) as [key Hf].
  destruct (proj1 (Forall_forall _ _) Hf c2 Hc2) as [(_ & _ & Hold)|(_ & Hn' & _)]; [|done].
  rewrite Ho2 in Hold. destruct Hold as (cur & Hu & Hexp).
  destruct (Unmarshal_Marshal l1 Hok ltac:(vm_compute; discriminate)) as (text & Ht & Hut & _).
  rewrite Hm in Ht. injection Ht as <-. rewrite Hut in Hu. injection Hu as <-.
  assert (wl_ExpiresAt l1 = AddTime n1 ttl1) as He by (destruct H1 as [[]|(token & -> & _)]; reflexivity).
  rewrite He in Hexp. unfold After in Hexp. lia.
Qed.

Definition sample_later : Time := utc (63900000000000000000 + 11 * minute).
Definition sample_taken : ref_store := state_after (sample_acquire "session-b" sample_later) sample_leased.

Lemma lease_periods_disjoint_witness : t_ns (AddTime sample_now (10 * minute)) <= t_ns sample_later.
Proof.
  destruct (ref_run_exec _ _ _ _ ref_empty_ok sample_leased_run) as [Hex1 Hs1].
  assert (exists t, run (sample_acquire "session-b" sample_later) sample_leased = Some (t, sample_taken)) as [t Hrun]
    by (eexists; vm_compute; reflexivity).
  destruct (ref_run_exec _ _ _ _ Hs1 Hrun) as [Hex2 _].
  pose (o1 := objs (rs_world sample_leased) !! "brain/branches/exp/leases/writer.json").
  pose (o2 := objs (rs_world sample_taken) !! "brain/branches/exp/leases/writer.json").
  refine (lease_periods_disjoint (sample_acquire "session-a" sample_now) sample_now (10 * minute) (sample_lease "session-a" sample_now)
    (sample_acquire "session-b" sample_later) sample_later (10 * minute)
    (sample_lease "session-b" sample_later) _ _ _ _ _ _ _ _ (mkCommit "brain/branches/exp/leases/writer.json" None o1)
    (mkCommit "brain/branches/exp/leases/writer.json" o1 o2) (default (mkObject "" "") o1)
    (or_introl (acquires_lineage _ _ 1 "brain" (mkLineage "exp") (sample_owner "session-a") None)) (proj1 ref_empty_ok) Hex1 _ _
    (acquires_lineage _ _ 1 "brain" (mkLineage "exp") (sample_owner "session-b") None) (proj1 Hs1) Hex2 _ _ _ _).
  - apply list_elem_of_lookup. exists 0%nat. vm_compute. reflexivity.
  - vm_compute. reflexivity.
  - apply list_elem_of_lookup. exists 0%nat. vm_compute. reflexivity.
  - vm_compute. reflexivity.
  - vm_compute. discriminate.
  - vm_compute. reflexivity.
Defined.

(** C19: Renewal and release touch only the token's own lease.  Under any
    interference Renew replaces, and Release deletes, only the object at the token's
    revision holding the token's document; a successful Renew returns a token whose
    revision names the renewed lease in the store and moves the heartbeat forward, a
    successful Release leaves no lease, and a failure that is not ambiguous changed
    nothing. *)
Theorem lease_token_ownership token now ttl w w' cs :
  wf w ->
  (forall r, exec (Renew token now ttl) w r w' cs ->
    let renewed := with_heartbeat now (AddTime now ttl) (lt_Lease token) in
    (cs = [] \/ exists c key, cs = [c] /\ renews key token renewed c /\
       Lineage_LeaseKey (wl_Lineage (lt_Lease token)) (wl_Capsule (lt_Lease token)) = Ok key) /\
    match r with
    | Ok t => (exists key, Lineage_LeaseKey (wl_Lineage (lt_Lease token)) (wl_Capsule (lt_Lease token)) = Ok key /\
      names_lease w' key renewed t) /\ Before now (wl_HeartbeatAt (lt_Lease token)) = false
    | Err e => cs <> [] -> errors_Is e ErrAmbiguous = true
    end) /\
  (forall r, exec (Release token) w r w' cs ->
    (cs = [] \/ exists c key, cs = [c] /\ withdraws key (lt_Lease token) c /\
       (exists old, cm_old c = Some old /\ o_rev old = lt_Revision token) /\
       Lineage_LeaseKey (wl_Lineage (lt_Lease token)) (wl_Capsule (lt_Lease token)) = Ok key) /\
    match r with
    | Ok _ => exists key, Lineage_LeaseKey (wl_Lineage (lt_Lease token)) (wl_Capsule (lt_Lease token)) = Ok key /\
        objs w' !! key = None
    | Err e => cs <> [] -> errors_Is e ErrAmbiguous = true
    end).
Proof.
  intros Hw. split; intros r Hex; [by apply (Renew_spec token now ttl w r w' cs)|by apply (Release_spec token w r w' cs)].
Qed.

Lemma lease_token_ownership_witness :
  exists key, Lineage_LeaseKey (mkLineage "exp") "brain" = Ok key /\
    objs (rs_world (state_after (Release sample_token) sample_leased)) !! key = None.
Proof.
  destruct (ref_run_exec _ _ _ _ ref_empty_ok sample_leased_run) as [_ Hs].
  assert (run (Release sample_token) sample_leased = Some (Ok tt, state_after (Release sample_token) sample_leased))
    as Hrun by (vm_compute; reflexivity).
  destruct (ref_run_exec _ _ _ _ Hs Hrun) as [Hex _].
  exact (proj2 (proj2 (lease_token_ownership sample_token sample_now minute _ _ _ (proj1 Hs)) _ Hex)).
Defined.

(** The request passes the guards of Acquire. *)
Definition acquirable (capsule : string) (lineage : Lineage) (owner : LeaseOwner) (observed : option PointerRecord)
    (now : Time) (ttl : Z) : Prop :=
  lo_SessionID owner <> "" /\ lo_Machine owner <> "" /\ IsZero now = false /\ 0 < ttl /\ After (AddTime now ttl) now = true /\
  match observed with
  | Some o => pr_Revision o <> "" /\ validatePointer (pr_Pointer o) capsule lineage = Ok tt
  | None => True
  end.

(** C25: Acquire returns, and what it returns.  On the reference store without other clients
    one iteration of its loop is enough, for a lineage without a pointer as for one whose
    pointer was observed.  Over a lease that has not expired it answers ErrLeaseHeld, over
    an object that cannot be read as a lease the error of the read, and changes nothing.
    Over an absent or expired lease it writes its own; while the pointer is still the one
    observed (or still absent) it returns its token, and otherwise it takes the lease back
    and answers ErrPointerChanged. *)
Theorem Acquire_outcome fuel capsule lineage owner observed now ttl key body (s : ref_store) :
  let lease := new_lease capsule lineage owner (opened_by observed) now (AddTime now ttl) in
  Lineage_LeaseKey lineage capsule = Ok key -> acquirable capsule lineage owner observed now ttl -> Marshal lease = Some body ->
  exists e, errors_Is e ErrPointerChanged = true /\
  run (Acquire (S fuel) capsule lineage owner observed now ttl) s =
  Some (acquire_answer capsule lineage key lease body observed now e s).
Proof.
  intros lease Hk (Ho1 & Ho2 & Hz & Ht & Ha & Hobs) Hm.
  destruct (ref_acquire_loop fuel capsule lineage key lease body observed now s Hk eq_refl eq_refl) as (e & He & Hloop).
  exists e. split; [done|].
  assert (match opened_by observed with Some g => validateGenerationRef g | None => Ok tt end = Ok tt) as Hg.
  { destruct observed as [o|]; [|done]. destruct Hobs as [_ Hv]. by apply validatePointer_ok in Hv as (_ & _ & _ & ? & _). }
  assert (run (acquire (S fuel) capsule lineage owner observed (opened_by observed) now ttl) s =
    Some (acquire_answer capsule lineage key lease body observed now e s)) as Hacq.
  { unfold acquire. rewrite Hk, !(proj2 (str_eqb_neq _ _)) by done. rewrite Hz, (proj2 (Z.leb_gt _ _)) by lia. cbn [orb].
    rewrite Hg, Ha. unfold marshal. fold lease. by rewrite Hm. }
  unfold Acquire. destruct observed as [o|]; [|exact Hacq]. destruct Hobs as [Hrev Hv].
  by rewrite (proj2 (str_eqb_neq _ _)), Hv by done.
Qed.

(** The lease is held; it has expired and the observed pointer stands; the pointer was
    observed at another revision. *)
Lemma Acquire_outcome_witness :
  run (sample_acquire "session-b" sample_now) sample_leased = Some (Err ErrLeaseHeld, sample_leased) /\
  (exists t s', run (Acquire 1 "brain" (mkLineage "main") (sample_owner "session-b") (Some (sample_record 1 None "r0")) sample_now minute)
     sample_store = Some (Ok t, s')) /\
  exists e s', errors_Is e ErrPointerChanged = true /\
    run (Acquire 1 "brain" (mkLineage "main") (sample_owner "session-b") (Some (sample_record 1 None "r9")) sample_now minute)
      sample_store = Some (Err e, s').
Proof.
  pose (text o := default "" (Marshal (new_lease "brain" (mkLineage "main") (sample_owner "session-b") (opened_by o) sample_now (AddTime sample_now minute)))).
  assert (forall rev, rev <> "" -> acquirable "brain" (mkLineage "main") (sample_owner "session-b") (Some (sample_record 1 None rev)) sample_now minute) as Hq.
  { intros rev Hrev. split; [discriminate|]. split; [discriminate|]. split; [reflexivity|]. split; [reflexivity|].
    split; [vm_compute; reflexivity|]. split; [exact Hrev|vm_compute; reflexivity]. }
  split; [|split].
  - destruct (Acquire_outcome 0 "brain" (mkLineage "exp") (sample_owner "session-b") None sample_now (10 * minute)
      "brain/branches/exp/leases/writer.json" (default "" (Marshal (sample_lease "session-b" sample_now))) sample_leased) as (e & _ & H);
      [vm_compute; reflexivity| |vm_compute; reflexivity|].
    + split; [discriminate|]. split; [discriminate|]. split; [reflexivity|]. split; [reflexivity|]. split; [vm_compute; reflexivity|exact I].
    + unfold sample_acquire. rewrite H. vm_compute. reflexivity.
  - destruct (Acquire_outcome 0 "brain" (mkLineage "main") (sample_owner "session-b") (Some (sample_record 1 None "r0")) sample_now minute
      "brain/leases/writer.json" (text (Some (sample_record 1 None "r0"))) sample_store) as (e & _ & H);
      [vm_compute; reflexivity|by apply Hq|vm_compute; reflexivity|].
    eexists _, _. rewrite H. vm_compute. reflexivity.
  - destruct (Acquire_outcome 0 "brain" (mkLineage "main") (sample_owner "session-b") (Some (sample_record 1 None "r9")) sample_now minute
      "brain/leases/writer.json" (text (Some (sample_record 1 None "r9"))) sample_store) as (e & He & H);
      [vm_compute; reflexivity|by apply Hq|vm_compute; reflexivity|].
    eexists e, _. split; [exact He|]. rewrite H. unfold acquire_answer.
    assert (observation_current "brain" (mkLineage "main") (Some (sample_record 1 None "r9")) sample_store = false) as -> by (vm_compute; reflexivity).
    assert (lease_at "brain" (mkLineage "main") sample_store = Err ErrNotFound) as -> by (vm_compute; reflexivity). reflexivity.
Defined.
