(* ===== verification/Generations.v ===== *)
(** coordination.GenerationRepository (generations.go, history.go): immutable
    generation archives with their verified sidecars, the exact resolution of a
    generation and its re-validation, and a lineage's history.

    PutAndVerify writes the sidecar that makes a generation visible only after the
    archive is stored with the announced bytes; List ends on every store, since it
    refuses a page token it has followed before. *)
From S2P Require Import Prelude Sha256 GoTime Json Codec Domain Paths ObjectStore RefStore Documents Pointers.

Record GenerationRecord := mkGenerationRecord {
  ge_Metadata : GenerationMetadata;
  ge_Archive : ObjectMeta;
  ge_Sidecar : ObjectMeta }.

(** The sources reopen the objects their keys name; the store is the one the
    program runs on. *)
Record ExactGenerationRecord := mkExactGenerationRecord {
  xg_Metadata : GenerationMetadata;
  xg_MetadataBytes : bytes;
  xg_Archive : ObjectMeta;
  xg_Sidecar : ObjectMeta;
  xg_ArchiveSource : string;
  xg_SidecarSource : string;
  xg_ArchiveFingerprint : ObjectSourceFingerprint;
  xg_SidecarFingerprint : ObjectSourceFingerprint }.

(** ** Validation *)
Definition validateGenerationMetadata (metadata : GenerationMetadata) (capsule : string) (lineage : Lineage)
    (generation : GenerationRef) : result unit :=
  if negb (gm_SchemaVersion metadata =? SchemaVersion) || negb (str_eqb (gm_Capsule metadata) capsule) ||
     negb (bool_decide (gm_Lineage metadata = lineage)) || negb (bool_decide (gm_Generation metadata = generation))
  then Err ErrInvalidDocument
  else
  let! _ := validateGenerationRef (gm_Generation metadata) in
  let! _ := validateGenerationParent (gm_Generation metadata) (gm_Parent metadata) in
  let! wantObject := GenerationObjectKey capsule lineage generation in
  let! wantMetadata := GenerationMetadataKey capsule lineage generation in
  if negb (str_eqb (gm_ObjectKey metadata) wantObject) || negb (str_eqb (gm_MetadataKey metadata) wantMetadata) ||
     (gm_Size metadata <? 0) || IsZero (gm_CreatedAt metadata) || str_eqb (gm_SessionID metadata) ""
  then Err ErrInvalidDocument else Ok tt.

Definition validateStoredGenerationMetadata (metadata : GenerationMetadata) (capsule : string) (lineage : Lineage)
    (generation : GenerationRef) : result unit :=
  let! _ := validateGenerationMetadata metadata capsule lineage generation in
  if negb (vf_LocalHaulLoadable (gm_Verified metadata)) || negb (vf_RemoteBytesVerified (gm_Verified metadata))
  then Err ErrGenerationVerification else Ok tt.

(** ** Publication *)
Definition verifyArchive (metadata : GenerationMetadata) (archive : ObjectMeta) : prog (result unit) :=
  if negb (om_Size archive =? gm_Size metadata) then Ret (Err ErrGenerationVerification)
  else if negb (str_eqb (om_SHA256 archive) "") then
    if negb (str_eqb (om_SHA256 archive) (gr_ArchiveSHA256 (gm_Generation metadata)))
    then Ret (Err ErrGenerationVerification) else Ret (Ok tt)
  else
  try! (reader, _) := call (Get (gm_ObjectKey metadata)) in
  match rd_err reader, rd_close reader with
  | Some readErr, _ => Ret (Err readErr)
  | None, Some closeErr => Ret (Err closeErr)
  | None, None =>
      let size := str_len (rd_body reader) in
      let got := sha256Hex (rd_body reader) in
      if negb (size =? gm_Size metadata) || negb (str_eqb got (gr_ArchiveSHA256 (gm_Generation metadata)))
      then Ret (Err ErrGenerationVerification) else Ret (Ok tt)
  end.

Definition set_remote_verified (m : GenerationMetadata) : GenerationMetadata :=
  mkGenerationMetadata (gm_SchemaVersion m) (gm_Capsule m) (gm_Lineage m) (gm_Generation m) (gm_Parent m)
    (gm_ObjectKey m) (gm_MetadataKey m) (gm_Size m) (gm_CreatedAt m) (gm_Tools m) (gm_SessionID m)
    (mkVerification (vf_LocalHaulLoadable (gm_Verified m)) true).

(** [restartableBytes]: a source that delivers the bytes. *)
Definition restartableBytes (b : bytes) : RestartableSource := Ok (mkReader b None None).

(** PutImmutable, and after an ambiguous error the object's metadata when it is the
    announced object: both uploads of PutAndVerify do this. *)
Definition put_reconciled (key : string) (source : RestartableSource) (sha : string) (size : Z)
    : prog (result ObjectMeta) :=
  put <- call (PutImmutable key source sha size);
  match put with
  | Ok meta => Ret (Ok meta)
  | Err err =>
      if errors_Is err ErrAmbiguous then
        head <- call (Head key);
        match head with
        | Ok reconciled =>
            if (om_Size reconciled =? size) && str_eqb (om_SHA256 reconciled) sha
            then Ret (Ok reconciled) else Ret (Err err)
        | Err _ => Ret (Err err)
        end
      else Ret (Err err)
  end.

Definition PutAndVerify (metadata : GenerationMetadata) (source : option RestartableSource)
    : prog (result GenerationRecord) :=
  match source with
  | None => Ret (Err ErrGenerationVerification)
  | Some src =>
      pure! _ := validateGenerationMetadata metadata (gm_Capsule metadata) (gm_Lineage metadata)
        (gm_Generation metadata) in
      guard! vf_LocalHaulLoadable (gm_Verified metadata) else ErrGenerationVerification;
      try! archive := put_reconciled (gm_ObjectKey metadata) src (gr_ArchiveSHA256 (gm_Generation metadata))
        (gm_Size metadata) in
      try! _ := verifyArchive metadata archive in
      let metadata := set_remote_verified metadata in
      pure! body := marshal metadata in
      try! sidecar := put_reconciled (gm_MetadataKey metadata) (restartableBytes body) (sha256Hex body) (str_len body) in
      Ret (Ok (mkGenerationRecord metadata archive sidecar))
  end.

(** ** Reading *)
Definition ReadMetadata (capsule : string) (lineage : Lineage) (generation : GenerationRef)
    : prog (result (GenerationMetadata * ObjectMeta)) :=
  pure! key := GenerationMetadataKey capsule lineage generation in
  try! (metadata, meta) := readJSON GenerationMetadata key in
  pure! _ := validateStoredGenerationMetadata metadata capsule lineage generation in
  Ret (Ok (metadata, meta)).

Definition fingerprint_of (key : string) (meta : ObjectMeta) : ObjectSourceFingerprint :=
  mkObjectSourceFingerprint "" key (om_Revision meta) (om_Size meta) (om_SHA256 meta) "" 0 0.

(** The checks on an identity the store reports for an object. *)
Definition check_identity (key : string) (meta : ObjectMeta) (identity : ObjectSourceFingerprint) : bool :=
  str_eqb (sf_Key identity) key &&
  negb (negb (str_eqb (sf_Revision identity) "") && negb (str_eqb (sf_Revision identity) (om_Revision meta))) &&
  negb ((0 <? sf_Size identity) && negb (sf_Size identity =? om_Size meta)) &&
  negb (negb (str_eqb (sf_SHA256 identity) "") && negb (str_eqb (sf_SHA256 identity) (om_SHA256 meta))).

(** The fingerprint of a source: the store's identity where it has one. *)
Definition source_fingerprint (key : string) (meta : ObjectMeta) : prog (result ObjectSourceFingerprint) :=
  answer <- call (SourceIdentity key);
  match answer with
  | None => Ret (Ok (fingerprint_of key meta))
  | Some (Err err) => Ret (Err err)
  | Some (Ok identity) =>
      if check_identity key meta identity then Ret (Ok identity) else Ret (Err ErrGenerationVerification)
  end.

Definition ResolveExactGeneration (capsule : string) (lineage : Lineage) (generation : GenerationRef)
    : prog (result ExactGenerationRecord) :=
  pure! objectKey := GenerationObjectKey capsule lineage generation in
  pure! metadataKey := GenerationMetadataKey capsule lineage generation in
  try! (rawMetadata, metadata, sidecarMeta) := readJSONWithBytes GenerationMetadata metadataKey in
  pure! _ := validateStoredGenerationMetadata metadata capsule lineage generation in
  try! archiveMeta := call (Head objectKey) in
  try! _ := verifyArchive metadata archiveMeta in
  if negb (om_Size sidecarMeta =? str_len rawMetadata) then Ret (Err ErrGenerationVerification)
  else if negb (str_eqb (sha256Hex rawMetadata) (om_SHA256 sidecarMeta)) then Ret (Err ErrGenerationVerification)
  else
  try! archiveFingerprint := source_fingerprint (gm_ObjectKey metadata) archiveMeta in
  try! sidecarFingerprint := source_fingerprint (gm_MetadataKey metadata) sidecarMeta in
  Ret (Ok (mkExactGenerationRecord metadata rawMetadata archiveMeta sidecarMeta (gm_ObjectKey metadata)
    (gm_MetadataKey metadata) archiveFingerprint sidecarFingerprint)).

Definition revalidateSource (key : string) (expected : ObjectSourceFingerprint) : prog (result unit) :=
  try! meta := call (Head key) in
  if negb (om_Size meta =? sf_Size expected) || negb (str_eqb (om_SHA256 meta) (sf_SHA256 expected)) ||
     (negb (str_eqb (sf_Revision expected) "") && negb (str_eqb (om_Revision meta) (sf_Revision expected)))
  then Ret (Err (ErrText "source fingerprint changed"))
  else
  answer <- call (SourceIdentity key);
  match answer with
  | None => Ret (Ok tt)
  | Some (Err err) => Ret (Err err)
  | Some (Ok identity) =>
      if (negb (str_eqb (sf_CanonicalPath expected) "") &&
            negb (str_eqb (sf_CanonicalPath identity) (sf_CanonicalPath expected))) ||
         (negb (sf_Device expected =? 0) && negb (sf_Device identity =? sf_Device expected)) ||
         (negb (sf_Inode expected =? 0) && negb (sf_Inode identity =? sf_Inode expected))
      then Ret (Err (ErrText "source identity changed")) else Ret (Ok tt)
  end.

Definition RevalidateSources (r : ExactGenerationRecord) : prog (result unit) :=
  try! _ := revalidateSource (gm_ObjectKey (xg_Metadata r)) (xg_ArchiveFingerprint r) in
  try! _ := revalidateSource (gm_MetadataKey (xg_Metadata r)) (xg_SidecarFingerprint r) in
  Ret (Ok tt).

(** ** History (history.go) *)
Fixpoint history_page (capsule : string) (lineage : Lineage) (items : list ObjectMeta)
    (history : list GenerationMetadata) : prog (result (list GenerationMetadata)) :=
  match items with
  | [] => Ret (Ok history)
  | item :: rest =>
      if negb (HasSuffix (om_Key item) ".json") then history_page capsule lineage rest history
      else
      try! (metadata, _) := readJSON GenerationMetadata (om_Key item) in
      pure! _ := validateStoredGenerationMetadata metadata capsule lineage (gm_Generation metadata) in
      if negb (str_eqb (gm_MetadataKey metadata) (om_Key item)) then Ret (Err ErrInvalidDocument)
      else history_page capsule lineage rest (history ++ [metadata])
  end.

(** [fuel] bounds the pages; [seenTokens] is the set the source keeps. *)
Fixpoint history_pages (fuel : nat) (capsule : string) (lineage : Lineage) (prefix token : string)
    (seenTokens : gset string) (history : list GenerationMetadata) : prog (result (list GenerationMetadata)) :=
  match fuel with
  | O => Spin
  | S fuel' =>
      try! (items, next) := call (List prefix token) in
      try! history := history_page capsule lineage items history in
      if str_eqb next "" then Ret (Ok history)
      else if str_eqb next token then Ret (Err ErrInvalidPageToken)
      else if bool_decide (next ∈ seenTokens) then Ret (Err ErrInvalidPageToken)
      else history_pages fuel' capsule lineage prefix next ({[next]} ∪ seenTokens) history
  end.

(** Newest generation first, then newest creation, then digest. *)
Definition history_less (a b : GenerationMetadata) : bool :=
  if negb (gr_Generation (gm_Generation a) =? gr_Generation (gm_Generation b))
  then gr_Generation (gm_Generation b) <? gr_Generation (gm_Generation a)
  else if negb (EqualTime (gm_CreatedAt a) (gm_CreatedAt b)) then After (gm_CreatedAt a) (gm_CreatedAt b)
  else str_ltb (gr_ArchiveSHA256 (gm_Generation a)) (gr_ArchiveSHA256 (gm_Generation b)).

Definition GenerationList (fuel : nat) (capsule : string) (lineage : Lineage) : prog (result (list GenerationMetadata)) :=
  pure! prefix := generationMetadataPrefix capsule lineage in
  try! history := history_pages fuel capsule lineage prefix "" ∅ [] in
  Ret (Ok (sort_slice history_less history)).

(** * Lemmas *)

(** A revision was given out for an object with the announced bytes. *)
Definition immutable_at (w : world) (key rev sha : string) (size : Z) : Prop :=
  exists body, hist w !! rev = Some (key, body) /\ announced sha size body.

Lemma immutable_at_mono w w' key rev sha size :
  hist w ⊆ hist w' -> immutable_at w key rev sha size -> immutable_at w' key rev sha size.
Proof. intros Hs (body & Hb & Ha). exists body. split; [by eapply lookup_weaken|done]. Qed.

(** Creates an object with the announced bytes where there was none. *)
Definition uploads (key sha : string) (size : Z) (c : commit) : Prop :=
  cm_key c = key /\ cm_old c = None /\ exists new, cm_new c = Some new /\ announced sha size (o_body new).

Lemma put_reconciled_spec key source sha size w r w' cs :
  exec (put_reconciled key source sha size) w r w' cs -> wf w -> sha <> "" ->
  (cs = [] \/ exists c, cs = [c] /\ uploads key sha size c) /\ wf w' /\ hist w ⊆ hist w' /\
  match r with
  | Ok meta => immutable_at w' key (om_Revision meta) sha size
  | Err e => cs <> [] -> errors_Is e ErrAmbiguous = true
  end.
Proof.
  intros Hex Hw Hsha. pose proof (exec_grow _ _ _ _ _ Hex Hw) as [Hw' Hs'].
  unfold put_reconciled in Hex. exec_call Hex as w1 x w2 cs1 cs2 Hr1 Hcall. destruct Hr1 as [Hw1 Hs1].
  assert (forall body rev, announced sha size body -> uploads key sha size (mkCommit key None (Some (mkObject body rev))))
    as Hup by (intros body rev Ha; split; [done|]; split; [done|]; by eexists).
  assert (forall e w2, wf w2 -> exec (head <- call (Head key);
     match head with
     | Ok reconciled => if (om_Size reconciled =? size) && str_eqb (om_SHA256 reconciled) sha
         then Ret (Ok reconciled) else Ret (Err e)
     | Err _ => Ret (Err e) end) w2 r w' cs2 -> errors_Is e ErrAmbiguous = true ->
     cs2 = [] /\ match r with Ok meta => immutable_at w' key (om_Revision meta) sha size
       | Err e => errors_Is e ErrAmbiguous = true end) as Hhead.
  { intros e w3 Hw3 H Ha. exec_call H as w4 y w5 cs5 cs6 Hr4 Hcall2. destruct Hr4 as [Hw4 _].
    destruct Hcall2 as [o m Ho (Hmk & Hmsz & Hrv & Hmsha)|e2 He2]; [|by exec_done].
    destruct (_ && _) eqn:Ec in H; [|by exec_done]. exec_done. split; [done|]. bool_norm.
    destruct (Hw4 key o Ho) as [_ Hho]. exists (o_body o). rewrite Hrv. split; [done|].
    destruct Hmsha as [Hmsha|Hmsha]; [congruence|]. split; congruence. }
  destruct Hcall as [body rev m Ho Hf Han (Hmk & Hmsz & Hrv & _)|o m Ho Han (Hmk & Hmsz & Hrv & _)|e|e body rev (Ha & _) Ho Hf Han].
  - exec_done. split; [right; eexists; split; [done|]; by apply Hup|]. split; [done|]. split; [done|].
    exists body. rewrite Hrv. split; [apply lookup_insert_eq|done].
  - exec_done. split; [by left|]. split; [done|]. split; [done|]. exists (o_body o). rewrite Hrv.
    destruct (Hw1 key o Ho) as [_ Hho]. done.
  - cbn [app] in *. destruct (errors_Is e ErrAmbiguous) eqn:Ea; [|exec_done; split; [by left|done]].
    destruct (Hhead e w1 Hw1 Hex Ea) as [-> Hres]. split; [by left|]. split; [done|]. split; [done|].
    by destruct r.
  - rewrite Ha in Hex. destruct (Hhead e _ (put_object_wf key body rev w1 Hw1 Hf) Hex Ha) as [-> Hres].
    split; [right; eexists; split; [done|]; by apply Hup|]. split; [done|]. split; [done|]. by destruct r.
Qed.

Lemma verifyArchive_reads metadata archive w r w' cs :
  exec (verifyArchive metadata archive) w r w' cs -> cs = [].
Proof.
  intros Hex. unfold verifyArchive in Hex. destruct (negb _) in Hex; [by exec_done|].
  destruct (negb _) in Hex; [destruct (negb _) in Hex; by exec_done|].
  exec_call Hex as w1 x w2 cs1 cs2 Hr Hcall. destruct Hcall; [|by exec_done]. cbn [app] in *.
  destruct (rd_err rd); [by exec_done|]. destruct (rd_close rd); [by exec_done|].
  destruct (_ || _) in Hex; by exec_done.
Qed.

Lemma validMetadata_ok m c l g :
  validateGenerationMetadata m c l g = Ok tt ->
  gm_Capsule m = c /\ gm_Lineage m = l /\ gm_Generation m = g /\ validateGenerationRef g = Ok tt /\
  GenerationObjectKey c l g = Ok (gm_ObjectKey m) /\ GenerationMetadataKey c l g = Ok (gm_MetadataKey m).
Proof.
  unfold validateGenerationMetadata, result_bind. intros H. destruct (_ || _) eqn:E0 in H; [done|]. bool_norm. subst.
  destruct (validateGenerationRef _) as [[]|] eqn:E1; [|done].
  destruct (validateGenerationParent _ _) eqn:E2; [|done].
  destruct (GenerationObjectKey _ _ _) as [wo|] eqn:E3; [|done].
  destruct (GenerationMetadataKey _ _ _) as [wm|] eqn:E4; [|done].
  destruct (_ || _) eqn:E5 in H; [done|]. bool_norm. by subst.
Qed.

Lemma ref_sha_nonempty g : validateGenerationRef g = Ok tt -> gr_ArchiveSHA256 g <> "".
Proof. intros [_ H]%validateGenerationRef_iff E. by rewrite E in H. Qed.

Lemma sha256Hex_nonempty body : sha256Hex body <> "".
Proof. destruct (sha256Hex_digits body) as [_ H]. intros E. by rewrite E in H. Qed.

(** What a publication stored, in order. *)
Definition published_generation (m : GenerationMetadata) (w' : world) (cs : list commit) : Prop :=
  exists ca csd, cs = ca ++ csd /\
    (ca = [] \/ exists c, ca = [c] /\ uploads (gm_ObjectKey m) (gr_ArchiveSHA256 (gm_Generation m)) (gm_Size m) c) /\
    (csd = [] \/ exists c text rev, csd = [c] /\ Marshal (set_remote_verified m) = Some text /\
       uploads (gm_MetadataKey m) (sha256Hex text) (str_len text) c /\
       immutable_at w' (gm_ObjectKey m) rev (gr_ArchiveSHA256 (gm_Generation m)) (gm_Size m)).

Lemma PutAndVerify_spec m source w r w' cs :
  exec (PutAndVerify m source) w r w' cs -> wf w ->
  published_generation m w' cs /\
  match r with
  | Ok rec => ge_Metadata rec = set_remote_verified m /\
      immutable_at w' (gm_ObjectKey m) (om_Revision (ge_Archive rec)) (gr_ArchiveSHA256 (gm_Generation m)) (gm_Size m) /\
      exists text, Marshal (set_remote_verified m) = Some text /\
        immutable_at w' (gm_MetadataKey m) (om_Revision (ge_Sidecar rec)) (sha256Hex text) (str_len text)
  | Err _ => True
  end.
Proof.
  intros Hex Hw. unfold PutAndVerify in Hex.
  assert (forall ca, (ca = [] \/ exists c, ca = [c] /\
    uploads (gm_ObjectKey m) (gr_ArchiveSHA256 (gm_Generation m)) (gm_Size m) c) -> published_generation m w' (ca ++ [])) as Hnone
    by (intros ca Hca; exists ca, []; split; [done|]; split; [done|by left]).
  destruct source as [src|]; [|exec_done; split; [by apply (Hnone []); left|done]].
  destruct (validateGenerationMetadata _ _ _ _) as [[]|] eqn:Ev in Hex; [|exec_done; split; [by apply (Hnone []); left|done]].
  destruct (vf_LocalHaulLoadable _) in Hex; [|exec_done; split; [by apply (Hnone []); left|done]].
  destruct (validMetadata_ok _ _ _ _ Ev) as (_ & _ & _ & Hg & _).
  exec_sub Hex as archive w1 ca cs2 Hsub.
  apply put_reconciled_spec in Hsub as (Hca & Hw1 & Hs1 & Harch); [|done|by apply ref_sha_nonempty].
  destruct archive as [archive|e]; [|exec_done; split; [by apply Hnone|done]].
  exec_sub Hex as vres w2 cs3 cs4 Hsub. pose proof (exec_grow _ _ _ _ _ Hsub Hw1) as [Hw2 Hs2].
  apply verifyArchive_reads in Hsub as ->. cbn [app] in *.
  destruct vres as [[]|e]; [|exec_done; split; [by apply Hnone|done]].
  destruct (marshal (set_remote_verified m)) as [text|e] eqn:Em; [|exec_done; split; [by apply Hnone|done]].
  apply marshal_ok in Em. exec_sub Hex as sidecar w3 csd cs5 Hsub.
  apply put_reconciled_spec in Hsub as (Hcsd & Hw3 & Hs3 & Hside); [|done|by apply sha256Hex_nonempty].
  assert (immutable_at w3 (gm_ObjectKey m) (om_Revision archive) (gr_ArchiveSHA256 (gm_Generation m)) (gm_Size m)) as Hat
    by (eapply immutable_at_mono; [|exact Harch]; by etrans).
  assert (w' = w3 /\ cs5 = []) as [-> ->] by (destruct sidecar; by exec_done). rewrite app_nil_r.
  split.
  - exists ca, csd. split; [done|]. split; [done|]. destruct Hcsd as [->|(c & -> & Hup)]; [by left|].
    right. eexists c, text, _. split; [done|]. split; [done|]. split; [done|exact Hat].
  - destruct sidecar as [sidecar|e]; exec_done; [|done]. cbn [ge_Metadata ge_Archive ge_Sidecar].
    split; [done|]. split; [done|]. by exists text.
Qed.

(** ** History *)
Lemma history_less_asym a b : history_less a b = true -> history_less b a = false.
Proof.
  unfold history_less, EqualTime, After. rewrite (Z.eqb_sym (gr_Generation (gm_Generation b))).
  rewrite (Z.eqb_sym (t_ns (gm_CreatedAt b))).
  destruct (gr_Generation (gm_Generation a) =? gr_Generation (gm_Generation b)); simpl; [|lia].
  destruct (t_ns (gm_CreatedAt a) =? t_ns (gm_CreatedAt b)); simpl; [|lia]. apply str_ltb_asym.
Qed.

(** An entry of a lineage's history: what the store held under the entry's own metadata key,
    a fully verified sidecar of that lineage. *)
Definition history_entry (w : world) (capsule : string) (lineage : Lineage) (m : GenerationMetadata) : Prop :=
  validateStoredGenerationMetadata m capsule lineage (gm_Generation m) = Ok tt /\
  exists rev body, hist w !! rev = Some (gm_MetadataKey m, body) /\ Unmarshal body = Some m.

Lemma history_entry_mono w w' capsule lineage m : hist w ⊆ hist w' -> history_entry w capsule lineage m -> history_entry w' capsule lineage m.
Proof. intros Hs (Hv & rev & body & Hb & Hu). split; [done|]. exists rev, body. split; [by eapply lookup_weaken|done]. Qed.

Lemma history_entries_mono w w' capsule lineage h :
  hist w ⊆ hist w' -> Forall (history_entry w capsule lineage) h -> Forall (history_entry w' capsule lineage) h.
Proof. intros Hs H. eapply Forall_impl; [exact H|]. intros m. by apply history_entry_mono. Qed.

Lemma history_page_spec capsule lineage items h w r w' cs :
  exec (history_page capsule lineage items h) w r w' cs -> wf w ->
  Forall (history_entry w capsule lineage) h ->
  cs = [] /\ wf w' /\ match r with Ok h' => Forall (history_entry w' capsule lineage) h' | Err _ => True end.
Proof.
  revert h w cs. induction items as [|item items IH]; intros h w cs Hex Hw Hh; cbn [history_page] in Hex; [by exec_done|].
  destruct (negb _) in Hex; [by eapply IH|]. exec_sub Hex as x w1 cs1 cs2 Hsub.
  apply readJSON_spec in Hsub as (-> & [Hw1 Hs1] & Hx). cbn [app] in *.
  destruct x as [[m meta]|e]; [|by exec_done].
  destruct (validateStoredGenerationMetadata _ _ _ _) as [[]|] eqn:Ev in Hex; [|by exec_done].
  destruct (negb _) eqn:Ek in Hex; [by exec_done|]. eapply IH; [exact Hex|done|].
  apply Forall_app. split; [by eapply history_entries_mono|]. apply Forall_singleton. bool_norm.
  split; [done|]. destruct Hx as (o & Ho & Hrev & Hu). destruct (Hw1 _ o Ho) as [_ Hh1]. rewrite Ek. by exists (o_rev o), (o_body o).
Qed.

Lemma history_pages_spec fuel capsule lineage prefix token seen h w r w' cs :
  exec (history_pages fuel capsule lineage prefix token seen h) w r w' cs -> wf w ->
  Forall (history_entry w capsule lineage) h ->
  cs = [] /\ match r with Ok h' => Forall (history_entry w' capsule lineage) h' | Err _ => True end.
Proof.
  revert token seen h w cs. induction fuel as [|fuel IH]; intros token seen h w cs Hex Hw Hh; [done|].
  cbn [history_pages] in Hex. exec_call Hex as w1 x w2 cs1 cs2 Hr Hcall. destruct Hr as [Hw1 Hs1].
  apply (history_entries_mono _ _ _ _ _ Hs1) in Hh.
  destruct Hcall as [items next _|e]; [|by exec_done]. exec_sub Hex as y w3 cs3 cs4 Hsub.
  apply history_page_spec in Hsub as (-> & Hw3 & Hy); [|done|done]. cbn [app] in *.
  destruct y as [h'|e]; [|by exec_done]. destruct (str_eqb next "") in Hex; [by exec_done|].
  destruct (str_eqb next token) in Hex; [by exec_done|]. destruct (bool_decide _) in Hex; [by exec_done|].
  by eapply IH.
Qed.

(** On the reference store a page gives an entry for every sidecar it names. *)
Lemma ref_history_page capsule lineage items (s : ref_store) : forall h h' s',
  run (history_page capsule lineage items h) s = Some (Ok h', s') ->
  h ⊆ h' /\ forall item, item ∈ items -> HasSuffix (om_Key item) ".json" = true ->
    exists m meta, m ∈ h' /\ gm_MetadataKey m = om_Key item /\ document_at GenerationMetadata (om_Key item) s = Ok (m, meta).
Proof.
  induction items as [|item items IH]; intros h h' s' H; cbn [history_page] in H.
  { injection H as <- _. split; [done|]. by intros item ?%not_elem_of_nil. }
  assert (forall h1, run (history_page capsule lineage items h1) s = Some (Ok h', s') -> h ⊆ h1 ->
    (HasSuffix (om_Key item) ".json" = true ->
     exists m meta, m ∈ h1 /\ gm_MetadataKey m = om_Key item /\ document_at GenerationMetadata (om_Key item) s = Ok (m, meta)) ->
    h ⊆ h' /\ forall i, i ∈ item :: items -> HasSuffix (om_Key i) ".json" = true ->
      exists m meta, m ∈ h' /\ gm_MetadataKey m = om_Key i /\ document_at GenerationMetadata (om_Key i) s = Ok (m, meta)) as Hrest.
  { intros h1 H1 Hh Hi. destruct (IH h1 h' s' H1) as [Hsub Hitems]. split; [by etrans|].
    intros i [->|Hin]%elem_of_cons Hs; [|by apply Hitems]. destruct (Hi Hs) as (m & meta & Hm & Hk). exists m, meta. split; [by apply Hsub|done]. }
  destruct (HasSuffix (om_Key item) ".json") eqn:Es; cbn [negb] in H; [|by apply (Hrest h)].
  unfold run in *. rewrite run_with_bind in H. pose proof (ref_readJSON_at (T:=GenerationMetadata) (om_Key item) s) as Hr. unfold run in Hr.
  rewrite Hr in H. cbn [mbind option_bind fst snd] in H.
  destruct (document_at GenerationMetadata (om_Key item) s) as [[m meta]|e] eqn:Ed; [|done].
  destruct (validateStoredGenerationMetadata _ _ _ _); [|done].
  destruct (negb _) eqn:Ek in H; [done|]. bool_norm. apply (Hrest _ H); [set_solver|]. intros _. exists m, meta. split; [set_solver|done].
Qed.

(** The reference store lists in one page. *)
Lemma ref_history fuel capsule lineage prefix h (s s' : ref_store) key o :
  generationMetadataPrefix capsule lineage = Ok prefix ->
  run (GenerationList (S fuel) capsule lineage) s = Some (Ok h, s') ->
  objs (rs_world s) !! key = Some o -> HasPrefix key prefix = true -> HasSuffix key ".json" = true ->
  exists m, m ∈ h /\ gm_MetadataKey m = key /\ Unmarshal (o_body o) = Some m.
Proof.
  intros Hp H Ho Hpre Hsuf. unfold GenerationList in H. rewrite Hp in H. unfold run in H. rewrite run_with_bind in H.
  cbn [history_pages call prog_bind run_with handle RefStore ref_handle] in H. rewrite run_with_bind in H.
  match type of H with context [history_page _ _ ?l _] => set (items := l) in * end.
  destruct (run_with _ (history_page capsule lineage items []) s) as [[[h1|e] s1]|] eqn:E; [|done..].
  cbn in H. injection H as <- _. destruct (ref_history_page capsule lineage items s [] h1 s1 E) as [_ Hitems].
  destruct (Hitems (ref_meta key o)) as (m & meta & Hm & Hk & Hd); [|done|].
  - apply list_elem_of_fmap. exists (key, o). split; [done|]. apply list_elem_of_filter. split; [done|]. by apply elem_of_map_to_list.
  - exists m. split; [by rewrite sort_slice_perm|]. split; [done|].
    unfold document_at in Hd. cbn [om_Key ref_meta] in Hd. rewrite Ho in Hd. destruct (_ <? _); [done|]. destruct (Unmarshal (o_body o)); [congruence|done].
Qed.

(** A program without a spent loop returns on every store. *)
Definition total {A} (p : prog A) : Prop :=
  forall S (h : forall X, storeE X -> S -> X * S) s, exists r, run_with h p s = Some r.

Lemma total_ret {A} (a : A) : total (Ret a).
Proof. intros S h s. by eexists. Qed.
Lemma total_call {X} (e : storeE X) : total (call e).
Proof. intros S h s. simpl. destruct (h X e s). by eexists. Qed.
Lemma total_bind {A B} (p : prog A) (k : A -> prog B) : total p -> (forall a, total (k a)) -> total (prog_bind p k).
Proof. intros Hp Hk S h s. rewrite run_with_bind. destruct (Hp S h s) as [[a s'] ->]. apply Hk. Qed.

Create HintDb total.
#[export] Hint Resolve total_ret total_call total_bind : total.

Lemma total_readJSON {T : Type} `{Codec T} key : total (readJSON T key).
Proof.
  apply total_bind; [apply total_call|]. intros [[rd m]|e]; [cbn beta zeta iota|apply total_ret].
  destruct (ReadAllLimit _ rd) as [b|]; [|apply total_ret]. destruct (rd_close rd); [apply total_ret|].
  destruct (_ <? _); [apply total_ret|]. destruct (Unmarshal b); apply total_ret.
Qed.

Lemma total_history_page capsule lineage items h : total (history_page capsule lineage items h).
Proof.
  revert h. induction items as [|item items IH]; intros h; cbn [history_page]; [apply total_ret|].
  destruct (negb _); [done|]. apply total_bind; [apply total_readJSON|]. intros [[m meta]|e]; [|apply total_ret].
  destruct (validateStoredGenerationMetadata _ _ _ _); [|apply total_ret].
  destruct (negb _); [apply total_ret|done].
Qed.

(** The tokens a store may answer a listing with. *)
Definition tokens_in {S} (h : forall X, storeE X -> S -> X * S) (T : gset string) (prefix : string) : Prop :=
  forall s token items next s', h _ (List prefix token) s = (Ok (items, next), s') -> next = "" \/ next ∈ T.

Lemma history_pages_returns {S} (h : forall X, storeE X -> S -> X * S) T fuel capsule lineage prefix token seen hist s :
  tokens_in h T prefix -> seen ⊆ T -> (size T < fuel + size seen)%nat ->
  exists r, run_with h (history_pages fuel capsule lineage prefix token seen hist) s = Some r.
Proof.
  intros HT. revert token seen hist s. induction fuel as [|fuel IH]; intros token seen hist s Hsub Hf.
  { apply subseteq_size in Hsub. lia. }
  cbn [history_pages]. rewrite run_with_bind. cbn [call run_with].
  destruct (h _ (List prefix token) s) as [[[items next]|e] s1] eqn:E; [|by eexists].
  cbn [mbind option_bind fst snd]. rewrite run_with_bind.
  destruct (total_history_page capsule lineage items hist S h s1) as [[[h'|e] s2] ->]; [|by eexists].
  cbn [mbind option_bind fst snd]. destruct (str_eqb next "") eqn:En; [by eexists|].
  destruct (str_eqb next token); [by eexists|]. case_bool_decide as Hin; [by eexists|]. bool_norm.
  destruct (HT _ _ _ _ _ E) as [?|Hnext]; [done|]. apply IH; [set_solver|].
  rewrite size_union by set_solver. rewrite size_singleton. lia.
Qed.

(** ** Outcomes on the reference store *)
Lemma ref_put_reconciled key body sha size (s : ref_store) :
  objs (rs_world s) !! key = None -> announced sha size body ->
  run (put_reconciled key (restartableBytes body) sha size) s =
  Some (Ok (ref_meta key (mkObject body (ref_revision (rs_next s)))), ref_publish key body s).
Proof.
  intros Ho [Hs Hl]. unfold run, put_reconciled. rewrite run_with_bind. cbn [call run_with handle RefStore ref_handle].
  unfold ref_put_immutable. cbn [restartableBytes result_bind ReadAll rd_err rd_body].
  rewrite (proj2 (str_eqb_eq _ _)), (proj2 (Z.eqb_eq _ _)) by done. simpl. by rewrite Ho.
Qed.

Lemma ref_verifyArchive m o key (s : ref_store) :
  announced (gr_ArchiveSHA256 (gm_Generation m)) (gm_Size m) (o_body o) ->
  run (verifyArchive m (ref_meta key o)) s = Some (Ok tt, s).
Proof.
  intros [Hs Hl]. unfold run, verifyArchive. cbn [ref_meta om_Size om_SHA256].
  rewrite (proj2 (Z.eqb_eq _ _)) by done. cbn [negb].
  rewrite (proj2 (str_eqb_neq _ _)) by apply sha256Hex_nonempty. cbn [negb].
  by rewrite (proj2 (str_eqb_eq _ _)).
Qed.

Lemma archive_sidecar_distinct m c l g :
  validateGenerationMetadata m c l g = Ok tt -> gm_ObjectKey m <> gm_MetadataKey m.
Proof.
  intros (_ & _ & _ & _ & H1 & H2)%validMetadata_ok Heq. rewrite Heq in H1.
  apply ObjectKey_parts in H1 as [_ H1]. apply MetadataKey_parts in H2 as [_ H2]. rewrite H1 in H2.
  unfold metadata_parts in H2. destruct (Lineage_IsMain l); simpl in H2; [|done].
  injection H2 as H2. by apply eq_sym, name_json_tar in H2.
Qed.

Lemma ref_PutAndVerify m body text (s : ref_store) :
  validateGenerationMetadata m (gm_Capsule m) (gm_Lineage m) (gm_Generation m) = Ok tt ->
  vf_LocalHaulLoadable (gm_Verified m) = true ->
  announced (gr_ArchiveSHA256 (gm_Generation m)) (gm_Size m) body ->
  Marshal (set_remote_verified m) = Some text ->
  objs (rs_world s) !! gm_ObjectKey m = None -> objs (rs_world s) !! gm_MetadataKey m = None ->
  let s1 := ref_publish (gm_ObjectKey m) body s in
  let s2 := ref_publish (gm_MetadataKey m) text s1 in
  run (PutAndVerify m (Some (restartableBytes body))) s =
  Some (Ok (mkGenerationRecord (set_remote_verified m)
    (ref_meta (gm_ObjectKey m) (mkObject body (ref_revision (rs_next s))))
    (ref_meta (gm_MetadataKey m) (mkObject text (ref_revision (rs_next s1))))), s2).
Proof.
  intros Hv Hl Ha Hm Ho1 Ho2 s1 s2. unfold PutAndVerify. rewrite Hv, Hl. unfold run. rewrite run_with_bind.
  pose proof (ref_put_reconciled (gm_ObjectKey m) body _ _ s Ho1 Ha) as Hp1. unfold run in Hp1. rewrite Hp1.
  cbn [mbind option_bind fst snd]. rewrite run_with_bind.
  pose proof (ref_verifyArchive m (mkObject body (ref_revision (rs_next s))) (gm_ObjectKey m) s1 Ha) as Hva.
  unfold run in Hva. fold s1. rewrite Hva. cbn [mbind option_bind fst snd]. unfold marshal. rewrite Hm.
  rewrite run_with_bind. change (gm_MetadataKey (set_remote_verified m)) with (gm_MetadataKey m).
  assert (objs (rs_world s1) !! gm_MetadataKey m = None) as Ho3.
  { simpl. rewrite lookup_insert_ne; [done|]. by eapply archive_sidecar_distinct. }
  pose proof (ref_put_reconciled (gm_MetadataKey m) text (sha256Hex text) (str_len text) s1 Ho3 (conj eq_refl eq_refl)) as Hp2.
  unfold run in Hp2. by rewrite Hp2.
Qed.

Lemma ref_readJSONWithBytes {T : Type} `{HT : Codec T} key (s : ref_store) o (d : T) :
  objs (rs_world s) !! key = Some o -> str_len (o_body o) <= maxCoordinationDocumentSize ->
  Unmarshal (o_body o) = Some d ->
  run (readJSONWithBytes T key) s = Some (Ok (o_body o, d, ref_meta key o), s).
Proof.
  intros Ho Hl Hd. unfold run, readJSONWithBytes. rewrite run_with_bind. cbn [call run_with handle RefStore ref_handle].
  rewrite Ho. cbn [mbind option_bind fst snd]. unfold ReadAllLimit, ReadAll. cbn [rd_body rd_err rd_close].
  rewrite (proj2 (Z.leb_gt _ _)) by lia. rewrite (proj2 (Z.ltb_ge _ _)) by lia. by rewrite Hd.
Qed.

Lemma validMetadata_stored m :
  validateGenerationMetadata m (gm_Capsule m) (gm_Lineage m) (gm_Generation m) = Ok tt ->
  vf_LocalHaulLoadable (gm_Verified m) = true ->
  validateStoredGenerationMetadata (set_remote_verified m) (gm_Capsule m) (gm_Lineage m) (gm_Generation m) = Ok tt.
Proof.
  intros Hv Hl. unfold validateStoredGenerationMetadata.
  assert (validateGenerationMetadata (set_remote_verified m) (gm_Capsule m) (gm_Lineage m) (gm_Generation m) = Ok tt)
    as -> by exact Hv. simpl. by rewrite Hl.
Qed.

Lemma ref_Resolve m body text (s : ref_store) oa os :
  validateGenerationMetadata m (gm_Capsule m) (gm_Lineage m) (gm_Generation m) = Ok tt ->
  vf_LocalHaulLoadable (gm_Verified m) = true ->
  announced (gr_ArchiveSHA256 (gm_Generation m)) (gm_Size m) body ->
  Unmarshal text = Some (set_remote_verified m) -> str_len text <= maxCoordinationDocumentSize ->
  objs (rs_world s) !! gm_ObjectKey m = Some oa -> o_body oa = body ->
  objs (rs_world s) !! gm_MetadataKey m = Some os -> o_body os = text ->
  exists x, run (ResolveExactGeneration (gm_Capsule m) (gm_Lineage m) (gm_Generation m)) s = Some (Ok x, s) /\
    xg_Metadata x = set_remote_verified m /\ xg_MetadataBytes x = text /\
    xg_Archive x = ref_meta (gm_ObjectKey m) oa /\ xg_Sidecar x = ref_meta (gm_MetadataKey m) os.
Proof.
  intros Hv Hl Ha Hu Hsz Ho1 <- Ho2 <-. pose proof (validMetadata_ok _ _ _ _ Hv) as (_ & _ & _ & _ & Hok & Hmk).
  unfold ResolveExactGeneration. rewrite Hok, Hmk. unfold run. rewrite run_with_bind.
  pose proof (ref_readJSONWithBytes (gm_MetadataKey m) s os _ Ho2 Hsz Hu) as Hr. unfold run in Hr. rewrite Hr.
  cbn [mbind option_bind fst snd]. rewrite (validMetadata_stored m Hv Hl). rewrite run_with_bind.
  cbn [call run_with handle RefStore ref_handle]. rewrite Ho1. cbn [mbind option_bind fst snd]. rewrite run_with_bind.
  pose proof (ref_verifyArchive (set_remote_verified m) oa (gm_ObjectKey m) s Ha) as Hva. unfold run in Hva.
  cbn [handle RefStore] in Hva. rewrite Hva. cbn [mbind option_bind fst snd ref_meta om_Size om_SHA256].
  rewrite Z.eqb_refl, str_eqb_refl. cbn [negb]. simpl. eexists. split; [done|]. done.
Qed.

(** * Properties *)
Definition sample_metadata (n : Z) (parent : option GenerationRef) : GenerationMetadata :=
  mkGenerationMetadata 1 "brain" (mkLineage "main") (sample_ref n) parent
    ("brain/generations/" +:+ FormatInt n +:+ "-" +:+ sample_sha +:+ ".tar.zst")
    ("brain/generations/" +:+ FormatInt n +:+ "-" +:+ sample_sha +:+ ".json") 3
    (utc 63900000000000000000) (mkToolVersions "v0.26.1" "v2.0.2") "session-a" (mkVerification true false).

(** The digest of [sample_ref] is that of the three bytes of this archive. *)
Definition sample_archive : bytes := "abc".
Lemma sample_announced : announced sample_sha 3 sample_archive.
Proof. split; vm_compute; reflexivity. Qed.

(** C13: A generation is published only when its archive is stored.  Under any
    interference PutAndVerify only creates absent objects: first the archive with the
    announced digest and size, then the sidecar, which is written only when an object
    with the announced archive bytes was stored under the archive's key; a success
    reports both, with the sidecar marked as remotely verified. *)
Theorem PutAndVerify_verified m source w r w' cs :
  wf w -> exec (PutAndVerify m source) w r w' cs ->
  published_generation m w' cs /\
  match r with
  | Ok rec => ge_Metadata rec = set_remote_verified m /\
      immutable_at w' (gm_ObjectKey m) (om_Revision (ge_Archive rec)) (gr_ArchiveSHA256 (gm_Generation m)) (gm_Size m) /\
      exists text, Marshal (set_remote_verified m) = Some text /\
        immutable_at w' (gm_MetadataKey m) (om_Revision (ge_Sidecar rec)) (sha256Hex text) (str_len text)
  | Err _ => True
  end.
Proof. intros Hw Hex. by apply (PutAndVerify_spec m source w r w' cs). Qed.

Definition sample_publish : prog (result GenerationRecord) :=
  PutAndVerify (sample_metadata 1 None) (Some (restartableBytes sample_archive)).

Lemma PutAndVerify_verified_witness :
  exists cs, published_generation (sample_metadata 1 None) (rs_world (state_after sample_publish ref_empty)) cs.
Proof.
  pose (text := default "" (Marshal (set_remote_verified (sample_metadata 1 None)))).
  assert (exists r, run sample_publish ref_empty = Some (r, state_after sample_publish ref_empty)) as [r Hrun].
  { unfold state_after, sample_publish.
    rewrite (ref_PutAndVerify (sample_metadata 1 None) sample_archive text ref_empty); [by eexists|..];
      first [exact sample_announced | vm_compute; reflexivity]. }
  destruct (ref_run_exec _ _ _ _ ref_empty_ok Hrun) as [Hex _]. eexists.
  exact (proj1 (PutAndVerify_verified _ _ _ _ _ _ (proj1 ref_empty_ok) Hex)).
Defined.

(** C20: Publishing then resolving a generation gives it back.  Where neither object
    exists, PutAndVerify returns the record, and ResolveExactGeneration on the store
    it leaves returns the same metadata, byte for byte, with the same objects. *)
Theorem publish_resolve m body (s : ref_store) :
  validateGenerationMetadata m (gm_Capsule m) (gm_Lineage m) (gm_Generation m) = Ok tt ->
  vf_LocalHaulLoadable (gm_Verified m) = true ->
  announced (gr_ArchiveSHA256 (gm_Generation m)) (gm_Size m) body ->
  c_ok (set_remote_verified m) = true ->
  (forall text, Marshal (set_remote_verified m) = Some text -> str_len text <= maxCoordinationDocumentSize) ->
  objs (rs_world s) !! gm_ObjectKey m = None -> objs (rs_world s) !! gm_MetadataKey m = None ->
  exists rec x s', run (PutAndVerify m (Some (restartableBytes body))) s = Some (Ok rec, s') /\
    run (ResolveExactGeneration (gm_Capsule m) (gm_Lineage m) (gm_Generation m)) s' = Some (Ok x, s') /\
    xg_Metadata x = ge_Metadata rec /\ Marshal (ge_Metadata rec) = Some (xg_MetadataBytes x) /\
    xg_Archive x = ge_Archive rec /\ xg_Sidecar x = ge_Sidecar rec.
Proof.
  intros Hv Hl Ha Hok Hsz Ho1 Ho2.
  destruct (Unmarshal_Marshal (set_remote_verified m) Hok ltac:(vm_compute; discriminate)) as (text & Ht & Hu & _).
  eexists _. pose proof (ref_PutAndVerify m body text s Hv Hl Ha Ht Ho1 Ho2) as Hrun.
  set (s2 := ref_publish (gm_MetadataKey m) text (ref_publish (gm_ObjectKey m) body s)) in *.
  pose proof (archive_sidecar_distinct _ _ _ _ Hv) as Hne.
  assert (objs (rs_world s2) !! gm_ObjectKey m = Some (mkObject body (ref_revision (rs_next s)))) as H1.
  { simpl. rewrite lookup_insert_ne by done. apply lookup_insert_eq. }
  assert (objs (rs_world s2) !! gm_MetadataKey m = Some (mkObject text (ref_revision (S (rs_next s))))) as H2.
  { simpl. apply lookup_insert_eq. }
  destruct (ref_Resolve m body text s2 _ _ Hv Hl Ha Hu (Hsz text Ht) H1 eq_refl H2 eq_refl) as (x & Hx & Hxm & Hxb & Hxa & Hxs).
  exists x, s2. split; [exact Hrun|]. split; [exact Hx|]. cbn [ge_Metadata ge_Archive ge_Sidecar].
  split; [done|]. split; [by rewrite Hxb|]. done.
Qed.

Lemma publish_resolve_witness :
  exists rec x s', run sample_publish ref_empty = Some (Ok rec, s') /\
    run (ResolveExactGeneration "brain" (mkLineage "main") (sample_ref 1)) s' = Some (Ok x, s') /\
    xg_Metadata x = ge_Metadata rec /\ Marshal (ge_Metadata rec) = Some (xg_MetadataBytes x) /\
    xg_Archive x = ge_Archive rec /\ xg_Sidecar x = ge_Sidecar rec.
Proof.
  apply (publish_resolve (sample_metadata 1 None) sample_archive ref_empty); [vm_compute; reflexivity..| | | | |].
  - exact sample_announced.
  - vm_compute. reflexivity.
  - intros text Ht. vm_compute in Ht. injection Ht as <-. vm_compute. discriminate.
  - vm_compute. reflexivity.
  - vm_compute. reflexivity.
Defined.

(** C28: A lineage's history is read-only, verified, complete and newest first.  On every
    store, with other clients in between, listing changes nothing; every entry is what the
    store held under the entry's own metadata key, a fully verified sidecar of that lineage;
    and the entries come with the greatest generation first.  On the reference store every
    sidecar under the lineage's prefix has its entry. *)
Theorem GenerationList_sorted fuel capsule lineage :
  (forall w h w' cs, wf w -> exec (GenerationList fuel capsule lineage) w (Ok h) w' cs ->
     cs = [] /\ Forall (history_entry w' capsule lineage) h /\ sorted_slice history_less h /\
     Sorted (fun a b => gr_Generation (gm_Generation b) <= gr_Generation (gm_Generation a)) h) /\
  (forall (s s' : ref_store) prefix h key o, generationMetadataPrefix capsule lineage = Ok prefix ->
     run (GenerationList (S fuel) capsule lineage) s = Some (Ok h, s') ->
     objs (rs_world s) !! key = Some o -> HasPrefix key prefix = true -> HasSuffix key ".json" = true ->
     exists m, m ∈ h /\ gm_MetadataKey m = key /\ Unmarshal (o_body o) = Some m).
Proof.
  split; [|intros; by eapply ref_history]. intros w h w' cs Hw Hex. unfold GenerationList in Hex.
  destruct (generationMetadataPrefix capsule lineage) as [prefix|e]; [|destruct Hex as (? & _); congruence].
  exec_sub Hex as x w1 cs1 cs2 Hsub. apply history_pages_spec in Hsub as (-> & Hx); [|done|constructor].
  destruct x as [hist|e]; [|destruct Hex as (? & _); congruence]. destruct Hex as (He & -> & ->). injection He as ->.
  split; [done|]. split; [by rewrite sort_slice_perm|].
  pose proof (sort_slice_sorted history_less hist history_less_asym) as Hs. split; [done|].
  eapply Sorted_ind; [constructor| |exact Hs]. intros a l _ IH Hhd. constructor; [done|].
  inv Hhd; constructor. match goal with H : history_less _ _ = false |- _ => unfold history_less in H; rename H into Hl end.
  destruct (_ =? _) eqn:E in Hl; simpl in Hl; lia.
Qed.

Definition put_sidecar (m : GenerationMetadata) (s : ref_store) : ref_store :=
  ref_publish (gm_MetadataKey m) (default "" (Marshal m)) s.
Definition sample_entry (n : Z) (parent : option GenerationRef) : GenerationMetadata :=
  set_remote_verified (sample_metadata n parent).
Definition sample_history_store : ref_store :=
  put_sidecar (sample_entry 2 (Some (sample_ref 1))) (put_sidecar (sample_entry 1 None) ref_empty).

Definition sample_entries : list GenerationMetadata := [sample_entry 2 (Some (sample_ref 1)); sample_entry 1 None].

Lemma put_sidecar_ok m s : ref_ok s -> ref_ok (put_sidecar m s).
Proof. apply (ref_put_ok (gm_MetadataKey m) (default "" (Marshal m)) s). Qed.

Lemma sample_history_ok : ref_ok sample_history_store.
Proof. apply put_sidecar_ok, put_sidecar_ok, ref_empty_ok. Qed.

Lemma sample_history_run :
  run (GenerationList 1 "brain" (mkLineage "main")) sample_history_store = Some (Ok sample_entries, sample_history_store).
Proof. vm_cast_no_check (@eq_refl (option (result (list GenerationMetadata) * ref_store))
  (Some (Ok sample_entries, sample_history_store))). Qed.

Lemma GenerationList_sorted_witness :
  run (GenerationList 1 "brain" (mkLineage "main")) sample_history_store = Some (Ok sample_entries, sample_history_store) /\
  Sorted (fun a b => gr_Generation (gm_Generation b) <= gr_Generation (gm_Generation a)) sample_entries.
Proof.
  split; [exact sample_history_run|]. destruct (ref_run_exec _ _ _ _ sample_history_ok sample_history_run) as [Hex _].
  exact (proj2 (proj2 (proj2 (proj1 (GenerationList_sorted 1 "brain" (mkLineage "main")) _ _ _ _ (proj1 sample_history_ok) Hex)))).
Defined.

(** C27: Listing a history returns on every store.  Whatever the store answers and
    however its state changes, if its page tokens come from a set of [n] tokens then
    [n + 1] pages are enough: a cycle is refused as ErrInvalidPageToken. *)
Theorem GenerationList_returns {S} (h : forall X, storeE X -> S -> X * S) T capsule lineage prefix s :
  generationMetadataPrefix capsule lineage = Ok prefix -> tokens_in h T prefix ->
  exists r, run_with h (GenerationList (Datatypes.S (size T)) capsule lineage) s = Some r.
Proof.
  intros Hp HT. unfold GenerationList. rewrite Hp, run_with_bind.
  destruct (history_pages_returns h T (Datatypes.S (size T)) capsule lineage prefix "" ∅ [] s HT) as [[[x|e] s'] ->];
    [set_solver|rewrite size_empty; lia|by eexists|by eexists].
Qed.

(** A store that answers every listing with the same token. *)
Definition cycling (X : Type) (e : storeE X) : unit -> X * unit :=
  match e with
  | List _ _ => fun s => (Ok ([], "again"), s)
  | Get _ => fun s => (Err ErrNotFound, s)
  | Head _ => fun s => (Err ErrNotFound, s)
  | PutImmutable _ _ _ _ => fun s => (Err ErrConflict, s)
  | PutConditional _ _ _ => fun s => (Err ErrConflict, s)
  | DeleteConditional _ _ => fun s => (Err ErrNotFound, s)
  | SourceIdentity _ => fun s => (None, s)
  | CtxErr => fun s => (None, s)
  end.

Lemma GenerationList_returns_witness :
  exists r, run_with cycling (GenerationList 2 "brain" (mkLineage "main")) tt = Some r.
Proof.
  pose proof (GenerationList_returns cycling {["again"]} "brain" (mkLineage "main") "brain/generations/" tt) as H.
  rewrite size_singleton in H. apply H.
  - vm_compute. reflexivity.
  - intros s token items next s' Heq. injection Heq as _ <- _. right. set_solver.
Defined.
