(* ===== verification/Effects.v ===== *)
(** Code that acts on a file system, with the failures it has to survive.

    [io F A] is a program over a file state [F].  Every system call consults a
    schedule: it goes ahead, it fails (a write may leave a prefix behind), or the
    process dies there.  A theorem over all schedules covers every error path and
    every crash point; the empty schedule is the run without failures.  What the
    kernel has done survives the death of the process: losing data that was written
    but not synced is not modelled, so the fsync calls of the sources are calls that
    can only fail. *)
From S2P Require Import Prelude.

Inductive choice :=
| Proceed
| Fail (n : nat)
| Crash (n : nat).

Inductive outcome (A : Type) :=
| Done (a : A)
| Crashed.
Arguments Done {A} a.
Arguments Crashed {A}.

Section effects.
  Context {F : Type}.

(** The file state, the schedule of failures and the random bytes still to come. *)
Record sys := mkSys { s_fs : F; s_faults : list choice; s_random : list bytes }.

Definition io (A : Type) : Type := sys -> outcome A * sys.

Definition io_ret {A} (a : A) : io A := fun s => (Done a, s).

Definition io_bind {A B} (p : io A) (k : A -> io B) : io B := fun s =>
  match p s with
  | (Done a, s') => k a s'
  | (Crashed, s') => (Crashed, s')
  end.

Definition ErrIO : error := ErrText "input/output error".

Definition with_fs (f : F) (s : sys) : sys := mkSys f (s_faults s) (s_random s).
Definition next_fault (s : sys) : choice * sys :=
  match s_faults s with
  | [] => (Proceed, s)
  | c :: rest => (c, mkSys (s_fs s) rest (s_random s))
  end.

(** A system call: [act] when it goes ahead, [torn n] is what a failed or
    interrupted call leaves. *)
Definition syscall {A} (torn : nat -> F -> F) (act : F -> result A * F) : io (result A) := fun s =>
  let '(c, s') := next_fault s in
  match c with
  | Proceed => let '(r, f) := act (s_fs s') in (Done r, with_fs f s')
  | Fail n => (Done (Err ErrIO), with_fs (torn n (s_fs s')) s')
  | Crash n => (Crashed, with_fs (torn n (s_fs s')) s')
  end.

(** A call that fails or stops without an effect. *)
Definition atomic {A} (act : F -> result A * F) : io (result A) := syscall (fun _ f => f) act.

(** A call that only reads, and one that does nothing (sync, close, chmod, flock). *)
Definition inspect {A} (act : F -> result A) : io (result A) := atomic (fun f => (act f, f)).
Definition may_fail : io (result unit) := inspect (fun _ => Ok tt).

(** [ctx.Err()]: a failure is a cancelled context. *)
Definition ctx_err : io (result unit) := fun s =>
  match may_fail s with
  | (Done (Err _), s') => (Done (Err ErrCanceled), s')
  | r => r
  end.

(** [rand.Read]. *)
Definition rand_read : io (result bytes) := fun s =>
  match s_random s with
  | b :: rest => (Done (Ok b), mkSys (s_fs s) (s_faults s) rest)
  | [] => (Done (Err ErrIO), s)
  end.

(** A deferred clean-up: runs on every way out but the death of the process. *)
Definition defer {A} (body : io A) (cleanup : io (result unit)) : io A :=
  io_bind body (fun a => io_bind cleanup (fun _ => io_ret a)).
End effects.
Arguments sys F : clear implicits.
Arguments io F A : clear implicits.

(** [v <~ p; k] keeps the outcome; [do! v := p in k] returns its error. *)
Notation "x <~ p ; k" := (io_bind p (fun x => k)) (at level 100, p at next level, right associativity) : go_scope.
Notation "'do!' x ':=' p 'in' k" :=
  (io_bind p (fun r => match r with Ok x => k | Err e => io_ret (Err e) end))
  (at level 10, x pattern, p at level 100, k at level 200) : go_scope.
Notation "'expr!' x ':=' r 'in' k" := (match r with Ok x => k | Err e => io_ret (Err e) end)
  (at level 10, x pattern, r at level 100, k at level 200) : go_scope.

(** * Reasoning *)
Section wp.
  Context {F : Type}.

(** [runs p f o f']: under some schedule and some random bytes, [p] started on the
    files [f] ends with [o] and leaves [f']. *)
Definition runs {A} (p : io F A) (f : F) (o : outcome A) (f' : F) : Prop :=
  exists s s', p s = (o, s') /\ s_fs s = f /\ s_fs s' = f'.

Lemma runs_ret {A} (a : A) f o f' : runs (io_ret a) f o f' -> o = Done a /\ f' = f.
Proof. intros (s & s' & [= <- <-] & <- & <-). done. Qed.

Lemma runs_bind {A B} (p : io F A) (k : A -> io F B) f o f' :
  runs (io_bind p k) f o f' ->
  (o = Crashed /\ runs p f Crashed f') \/ (exists a g, runs p f (Done a) g /\ runs (k a) g o f').
Proof.
  intros (s & s' & H & <- & <-). unfold io_bind in H. destruct (p s) as [[a|] s1] eqn:E.
  - right. exists a, (s_fs s1). split; [by exists s, s1|by exists s1, s'].
  - injection H as <- <-. left. split; [done|by exists s, s1].
Qed.

Lemma next_fault_fs (s : sys F) : s_fs (next_fault s).2 = s_fs s.
Proof. unfold next_fault. by destruct (s_faults s). Qed.

Lemma runs_syscall {A} torn (act : F -> result A * F) f o f' :
  runs (syscall torn act) f o f' ->
  (o = Done (act f).1 /\ f' = (act f).2) \/ (exists n, f' = torn n f /\ (o = Done (Err ErrIO) \/ o = Crashed)).
Proof.
  intros (s & s' & H & <- & <-). unfold syscall in H. pose proof (next_fault_fs s) as Hf.
  destruct (next_fault s) as [c s1]. simpl in Hf. rewrite Hf in H. destruct c as [|n|n].
  - destruct (act (s_fs s)) as [r g]. injection H as <- <-. by left.
  - injection H as <- <-. right. exists n. split; [done|by left].
  - injection H as <- <-. right. exists n. split; [done|by right].
Qed.

Lemma runs_atomic {A} (act : F -> result A * F) f o f' :
  runs (atomic act) f o f' ->
  (o = Done (act f).1 /\ f' = (act f).2) \/ (f' = f /\ (o = Done (Err ErrIO) \/ o = Crashed)).
Proof. intros [H|(n & H)]%runs_syscall; [by left|by right]. Qed.

(** Code that leaves the files as they are. *)
Definition reads {A} (p : io F A) : Prop := forall f o f', runs p f o f' -> f' = f.

Lemma reads_ret {A} (a : A) : reads (io_ret a).
Proof. by intros f o f' [_ ->]%runs_ret. Qed.

Lemma reads_bind {A B} (p : io F A) (k : A -> io F B) :
  reads p -> (forall a, reads (k a)) -> reads (io_bind p k).
Proof.
  intros Hp Hk f o f' [[_ H]|(a & g & H1 & H2)]%runs_bind; [by apply Hp in H|].
  apply Hp in H1 as ->. by apply Hk in H2.
Qed.

Lemma reads_inspect {A} (act : F -> result A) : reads (inspect act).
Proof. by intros f o f' [[_ ->]|[-> _]]%runs_atomic. Qed.

Lemma reads_ctx_err : reads ctx_err.
Proof.
  intros f o f' (s & s' & H & <- & <-). unfold ctx_err in H.
  destruct (may_fail s) as [[[u|e]|] s1] eqn:E; injection H as <- <-;
    eapply (reads_inspect (fun _ => Ok tt)); by eexists s, s1.
Qed.

Lemma reads_rand_read : reads (@rand_read F).
Proof.
  intros f o f' (s & s' & H & <- & <-). unfold rand_read in H. by destruct (s_random s); injection H as <- <-.
Qed.

Lemma runs_inspect {A} (act : F -> result A) f a f' :
  runs (inspect act) f (Done (Ok a)) f' -> act f = Ok a /\ f' = f.
Proof. by intros [[[= ->] ->]|[-> [|]]]%runs_atomic. Qed.

(** [do!] and [expr!]. *)
Lemma runs_do {A B} (p : io F (result A)) (k : A -> io F (result B)) f o f' :
  runs (io_bind p (fun r => match r with Ok x => k x | Err e => io_ret (Err e) end)) f o f' ->
  (o = Crashed /\ runs p f Crashed f') \/
  (exists e, o = Done (Err e) /\ runs p f (Done (Err e)) f') \/
  (exists a g, runs p f (Done (Ok a)) g /\ runs (k a) g o f').
Proof.
  intros [H|([a|e] & g & H1 & H2)]%runs_bind; [by left|right; right; by exists a, g|].
  apply runs_ret in H2 as [-> ->]. right. left. by exists e.
Qed.

(** A step that only reads: the rest starts on the same files. *)
Lemma runs_do_reads {A B} (p : io F (result A)) (k : A -> io F (result B)) f o f' :
  reads p ->
  runs (io_bind p (fun r => match r with Ok x => k x | Err e => io_ret (Err e) end)) f o f' ->
  (f' = f /\ forall b, o <> Done (Ok b)) \/ (exists a, runs p f (Done (Ok a)) f /\ runs (k a) f o f').
Proof.
  intros Hp [[-> H]|[(e & -> & H)|(a & g & H1 & H2)]]%runs_do.
  - left. split; [by apply Hp in H|done].
  - left. split; [by apply Hp in H|done].
  - pose proof (Hp _ _ _ H1) as ->. right. by exists a.
Qed.

(** A reading step that hands its error to [bad]. *)
Lemma runs_guard {A B} (Q : outcome B -> F -> Prop) (q : io F (result A)) (bad : error -> io F B) (k : A -> io F B) f o f' :
  reads q -> Q Crashed f ->
  (forall e o g, runs (bad e) f o g -> Q o g) ->
  (forall x o g, runs q f (Done (Ok x)) f -> runs (k x) f o g -> Q o g) ->
  runs (io_bind q (fun r => match r with Ok x => k x | Err e => bad e end)) f o f' -> Q o f'.
Proof.
  intros Hq Hc Hb Hk [[-> H]|([x|e] & g & H1 & H2)]%runs_bind.
  - by apply Hq in H as ->.
  - pose proof (Hq _ _ _ H1) as ->. by eapply Hk.
  - apply Hq in H1 as ->. by eapply Hb.
Qed.

(** A reading step whose answer is not used. *)
Lemma runs_skip {A B} (Q : outcome B -> F -> Prop) (q : io F A) (k : io F B) f o f' :
  reads q -> Q Crashed f -> (forall o g, runs k f o g -> Q o g) -> runs (io_bind q (fun _ => k)) f o f' -> Q o f'.
Proof.
  intros Hq Hc Hk [[-> H]|(x & g & H1 & H2)]%runs_bind; [by apply Hq in H as ->|].
  apply Hq in H1 as ->. by apply Hk.
Qed.

(** The run without failures. *)
Definition calm (f : F) (random : list bytes) : sys F := mkSys f [] random.

Lemma calm_syscall {A} torn (act : F -> result A * F) f r :
  syscall torn act (calm f r) = (Done (act f).1, calm (act f).2 r).
Proof. unfold syscall. simpl. by destruct (act f). Qed.

Lemma calm_bind {A B} (p : io F A) (k : A -> io F B) f r a g r' :
  p (calm f r) = (Done a, calm g r') -> io_bind p k (calm f r) = k a (calm g r').
Proof. intros H. unfold io_bind. by rewrite H. Qed.

Lemma calm_inspect {A} (act : F -> result A) f r : inspect act (calm f r) = (Done (act f), calm f r).
Proof. done. Qed.

Lemma calm_ctx_err (f : F) r : ctx_err (calm f r) = (Done (Ok tt), calm f r).
Proof. done. Qed.

Lemma runs_calm {A} (p : io F A) f r : runs p f (p (calm f r)).1 (s_fs (p (calm f r)).2).
Proof. exists (calm f r), (p (calm f r)).2. split; [apply surjective_pairing|done]. Qed.

Lemma runs_at {A} (p : io F A) s o s' : p s = (o, s') -> runs p (s_fs s) o (s_fs s').
Proof. intros H. by exists s, s'. Qed.
End wp.

Lemma reads_may_fail {F} : reads (@may_fail F).
Proof. apply reads_inspect. Qed.

#[export] Hint Resolve reads_ret reads_inspect reads_ctx_err reads_rand_read reads_may_fail : camp.

(** Proves [reads] of code made of reading steps. *)
Ltac solve_reads :=
  repeat first
    [ progress eauto with camp
    | apply reads_bind; [|intros ?]
    | progress unfold may_fail
    | match goal with |- reads (match ?x with _ => _ end) => destruct x end
    | match goal with |- reads (let '(_, _) := ?x in _) => destruct x end ].

(** * Invariants that hold at every step

    [ends f p I Q]: from [f], the program [p] is in a state of [I] whenever it stops, dead
    or alive, and when it returns its answer and state are in [Q]. *)
Section ends.
  Context {F : Type}.

Definition ends {A} (f : F) (p : io F A) (I : F -> Prop) (Q : A -> F -> Prop) : Prop :=
  forall o g, runs p f o g -> I g /\ forall a, o = Done a -> Q a g.

Lemma ends_ret {A} f (a : A) (I : F -> Prop) (Q : A -> F -> Prop) : I f -> Q a f -> ends f (io_ret a) I Q.
Proof. intros Hi Hq o g [-> ->]%runs_ret. split; [done|]. by intros ? [= <-]. Qed.

Lemma ends_bind {A B} f (p : io F A) (k : A -> io F B) (I : F -> Prop) Q1 (Q : B -> F -> Prop) :
  ends f p I Q1 -> (forall a g, I g -> Q1 a g -> ends g (k a) I Q) -> ends f (io_bind p k) I Q.
Proof.
  intros Hp Hk o g [[-> H]|(a & g1 & H1 & H2)]%runs_bind.
  - destruct (Hp _ _ H) as [Hi _]. split; [exact Hi|]. intros a Ha. discriminate Ha.
  - destruct (Hp _ _ H1) as [Hi Hq]. by apply (Hk a g1 Hi (Hq a eq_refl)).
Qed.

Lemma ends_do {A B} f (p : io F (result A)) (k : A -> io F (result B)) (I : F -> Prop) Q1 (Q : result B -> F -> Prop) :
  ends f p I Q1 -> (forall a g, I g -> Q1 (Ok a) g -> ends g (k a) I Q) ->
  (forall e g, I g -> Q1 (Err e) g -> Q (Err e) g) ->
  ends f (io_bind p (fun r => match r with Ok x => k x | Err e => io_ret (Err e) end)) I Q.
Proof.
  intros Hp Hk He. eapply ends_bind; [exact Hp|]. intros [a|e] g Hi Hq; [by apply Hk|]. apply ends_ret; [done|by apply He].
Qed.

Lemma ends_conseq {A} f (p : io F A) (I I' : F -> Prop) (Q Q' : A -> F -> Prop) :
  ends f p I Q -> (forall g, I g -> I' g) -> (forall a g, I g -> Q a g -> Q' a g) -> ends f p I' Q'.
Proof.
  intros Hp HI HQ o g H. destruct (Hp o g H) as [Hi Hq]. split; [by apply HI|]. intros a Ha. apply HQ; [done|by apply Hq].
Qed.

Lemma ends_syscall {A} f torn (act : F -> result A * F) (I : F -> Prop) (Q : result A -> F -> Prop) :
  I (act f).2 -> Q (act f).1 (act f).2 -> (forall n, I (torn n f)) -> (forall n, Q (Err ErrIO) (torn n f)) ->
  ends f (syscall torn act) I Q.
Proof.
  intros H1 H2 H3 H4 o g [[-> ->]|(n & -> & [->| ->])]%runs_syscall; (split; [done|]); intros a Ha; by simplify_eq.
Qed.

Lemma ends_atomic {A} f (act : F -> result A * F) (I : F -> Prop) (Q : result A -> F -> Prop) :
  I f -> I (act f).2 -> Q (act f).1 (act f).2 -> Q (Err ErrIO) f -> ends f (atomic act) I Q.
Proof. intros. by apply ends_syscall. Qed.

Lemma ends_inspect {A} f (act : F -> result A) (I : F -> Prop) (Q : result A -> F -> Prop) :
  I f -> Q (act f) f -> Q (Err ErrIO) f -> ends f (inspect act) I Q.
Proof. intros. by apply ends_atomic. Qed.

Lemma ends_may_fail f (I : F -> Prop) (Q : result unit -> F -> Prop) : I f -> (forall r, Q r f) -> ends f may_fail I Q.
Proof. intros. by apply ends_inspect. Qed.

Lemma ends_reads {A} f (p : io F A) (I : F -> Prop) (Q : A -> F -> Prop) :
  reads p -> I f -> (forall a, Q a f) -> ends f p I Q.
Proof. intros Hp Hi Hq o g H. rewrite (Hp _ _ _ H). split; [done|]. intros a _. apply Hq. Qed.

Lemma ends_ctx_err f (I : F -> Prop) (Q : result unit -> F -> Prop) : I f -> (forall r, Q r f) -> ends f ctx_err I Q.
Proof. apply ends_reads. apply reads_ctx_err. Qed.

(** A step that does nothing but may stop the code. *)
Lemma ends_step {B} f (k : io F (result B)) (I : F -> Prop) (Q : result B -> F -> Prop) :
  I f -> ends f k I Q -> (forall e, Q (Err e) f) ->
  ends f (io_bind may_fail (fun r => match r with Ok _ => k | Err e => io_ret (Err e) end)) I Q.
Proof.
  intros Hi Hk He. eapply ends_do with (Q1 := fun _ g => g = f); [by apply ends_may_fail| |by intros; subst].
  intros _ g _ ->. done.
Qed.
End ends.
