(* ===== verification/Snapshot.v ===== *)
(** The journal's documents: the session snapshot of package domain with the
    records it is made of (session.go, recovery.go, checkpoint.go, image.go,
    materialization.go, remote_data_plane.go), and the intents, facts and envelopes
    the journal log is made of (ports/journal.go, journal/store.go).  Each record
    comes with the codec [encoding/json] derives from its tags, so that every document
    reads back from its own text. *)
From S2P Require Import Prelude Sha256 GoTime Json Codec Regexp Domain.

(** * Processes, services and endpoints (session.go) *)
(** [ProcessIdentity] (session.go) *)
Record ProcessIdentity := mkProcessIdentity {
  pi_PID : Z;
  pi_BootID : string;
  pi_StartTicks : Z }.

#[export] Instance ProcessIdentity_eq_dec : EqDecision ProcessIdentity.
Proof. solve_decision. Defined.

Definition ProcessIdentity_fields : fields _ :=
  FCons "pid" false int_codec (
  FCons "bootId" false codec_string (
  FCons "startTicks" false uint64_codec ( FNil))).
#[export] Instance ProcessIdentity_codec : Codec ProcessIdentity := codec_struct ProcessIdentity_fields
  (fun r => (pi_PID r, (pi_BootID r, (pi_StartTicks r, tt))))
  (fun t => let '(x0, (x1, (x2, _))) := t in mkProcessIdentity x0 x1 x2).
#[export] Instance ProcessIdentity_laws : CodecLaws ProcessIdentity _.
Proof. solve_struct_laws. Qed.

(** [ProcessRecord] (session.go) *)
Record ProcessRecord := mkProcessRecord {
  pr_Identity : ProcessIdentity;
  pr_DesiredExecutable : string;
  pr_ObservedExecutable : string;
  pr_Argv : slice string;
  pr_ArgvSHA256 : string;
  pr_ParentPID : Z;
  pr_PGID : Z;
  pr_SID : Z;
  pr_NetNS : string }.

#[export] Instance ProcessRecord_eq_dec : EqDecision ProcessRecord.
Proof. solve_decision. Defined.

Definition ProcessRecord_fields : fields _ :=
  FCons "identity" false (_ : Codec (ProcessIdentity)) (
  FCons "desiredExecutable" false codec_string (
  FCons "observedExecutable" false codec_string (
  FCons "argv" false (_ : Codec (slice string)) (
  FCons "argvSha256" false codec_string (
  FCons "parentPid" false int_codec (
  FCons "pgid" false int_codec (
  FCons "sid" false int_codec (
  FCons "netNs" false codec_string ( FNil))))))))).
#[export] Instance ProcessRecord_codec : Codec ProcessRecord := codec_struct ProcessRecord_fields
  (fun r => (pr_Identity r, (pr_DesiredExecutable r, (pr_ObservedExecutable r, (pr_Argv r,
  (pr_ArgvSHA256 r, (pr_ParentPID r, (pr_PGID r, (pr_SID r, (pr_NetNS r, tt))))))))))
  (fun t => let '(x0, (x1, (x2, (x3, (x4, (x5, (x6, (x7, (x8, _))))))))) := t in mkProcessRecord x0 x1 x2
  x3 x4 x5 x6 x7 x8).
#[export] Instance ProcessRecord_laws : CodecLaws ProcessRecord _.
Proof. solve_struct_laws. Qed.

(** [EndpointMapping] (session.go) *)
Record EndpointMapping := mkEndpointMapping {
  em_HostAddress : string;
  em_HostPort : Z;
  em_GuestPort : Z }.

#[export] Instance EndpointMapping_eq_dec : EqDecision EndpointMapping.
Proof. solve_decision. Defined.

Definition EndpointMapping_fields : fields _ :=
  FCons "hostAddress" false codec_string (
  FCons "hostPort" false int_codec (
  FCons "guestPort" false int_codec ( FNil))).
#[export] Instance EndpointMapping_codec : Codec EndpointMapping := codec_struct EndpointMapping_fields
  (fun r => (em_HostAddress r, (em_HostPort r, (em_GuestPort r, tt))))
  (fun t => let '(x0, (x1, (x2, _))) := t in mkEndpointMapping x0 x1 x2).
#[export] Instance EndpointMapping_laws : CodecLaws EndpointMapping _.
Proof. solve_struct_laws. Qed.

(** [ConfinementRecord] (session.go) *)
Record ConfinementRecord := mkConfinementRecord {
  cn_Executable : string;
  cn_Version : string;
  cn_EnvironmentFingerprint : string;
  cn_Boundary : string }.

#[export] Instance ConfinementRecord_eq_dec : EqDecision ConfinementRecord.
Proof. solve_decision. Defined.

Definition ConfinementRecord_fields : fields _ :=
  FCons "executable" false codec_string (
  FCons "version" false codec_string (
  FCons "environmentFingerprint" false codec_string (
  FCons "boundary" false codec_string ( FNil)))).
#[export] Instance ConfinementRecord_codec : Codec ConfinementRecord := codec_struct ConfinementRecord_fields
  (fun r => (cn_Executable r, (cn_Version r, (cn_EnvironmentFingerprint r, (cn_Boundary r, tt)))))
  (fun t => let '(x0, (x1, (x2, (x3, _)))) := t in mkConfinementRecord x0 x1 x2 x3).
#[export] Instance ConfinementRecord_laws : CodecLaws ConfinementRecord _.
Proof. solve_struct_laws. Qed.

(** [ServiceUnitRecord] (session.go) *)
Record ServiceUnitRecord := mkServiceUnitRecord {
  su_Name : string;
  su_LaunchToken : string;
  su_Confinement : ConfinementRecord;
  su_Mapping : EndpointMapping;
  su_PIDPath : string;
  su_LogPath : string;
  su_Helper : ProcessRecord;
  su_Child : ProcessRecord;
  su_DesiredState : string;
  su_ObservedState : string }.

#[export] Instance ServiceUnitRecord_eq_dec : EqDecision ServiceUnitRecord.
Proof. solve_decision. Defined.

Definition ServiceUnitRecord_fields : fields _ :=
  FCons "name" false codec_string (
  FCons "launchToken" false codec_string (
  FCons "confinement" false (_ : Codec (ConfinementRecord)) (
  FCons "mapping" false (_ : Codec (EndpointMapping)) (
  FCons "pidPath" false codec_string (
  FCons "logPath" false codec_string (
  FCons "helper" false (_ : Codec (ProcessRecord)) (
  FCons "child" false (_ : Codec (ProcessRecord)) (
  FCons "desiredState" false codec_string (
  FCons "observedState" false codec_string ( FNil)))))))))).
#[export] Instance ServiceUnitRecord_codec : Codec ServiceUnitRecord := codec_struct ServiceUnitRecord_fields
  (fun r => (su_Name r, (su_LaunchToken r, (su_Confinement r, (su_Mapping r, (su_PIDPath r, (su_LogPath r,
  (su_Helper r, (su_Child r, (su_DesiredState r, (su_ObservedState r, tt)))))))))))
  (fun t => let '(x0, (x1, (x2, (x3, (x4, (x5, (x6, (x7, (x8, (x9, _)))))))))) := t in mkServiceUnitRecord
  x0 x1 x2 x3 x4 x5 x6 x7 x8 x9).
#[export] Instance ServiceUnitRecord_laws : CodecLaws ServiceUnitRecord _.
Proof. solve_struct_laws. Qed.

(** [LeaseRecord] (session.go) *)
Record LeaseRecord := mkLeaseRecord {
  lr_Lease : option WriterLease;
  lr_Revision : string }.

#[export] Instance LeaseRecord_eq_dec : EqDecision LeaseRecord.
Proof. solve_decision. Defined.

Definition LeaseRecord_fields : fields _ :=
  FCons "lease" true (_ : Codec (option WriterLease)) (
  FCons "revision" true codec_string ( FNil)).
#[export] Instance LeaseRecord_codec : Codec LeaseRecord := codec_struct LeaseRecord_fields
  (fun r => (lr_Lease r, (lr_Revision r, tt)))
  (fun t => let '(x0, (x1, _)) := t in mkLeaseRecord x0 x1).
#[export] Instance LeaseRecord_laws : CodecLaws LeaseRecord _.
Proof. solve_struct_laws. Qed.

(** [MirrorAttemptRecord] (session.go) *)
Record MirrorAttemptRecord := mkMirrorAttemptRecord {
  ma_LogicalAttempt : Z;
  ma_AttemptID : string;
  ma_State : string;
  ma_Root : string;
  ma_RemoteRoot : string;
  ma_Method : string;
  ma_Exclusions : slice string }.

#[export] Instance MirrorAttemptRecord_eq_dec : EqDecision MirrorAttemptRecord.
Proof. solve_decision. Defined.

Definition MirrorAttemptRecord_fields : fields _ :=
  FCons "logicalAttempt" true uint64_codec (
  FCons "attemptId" true codec_string (
  FCons "state" true codec_string (
  FCons "root" true codec_string (
  FCons "remoteRoot" true codec_string (
  FCons "method" true codec_string (
  FCons "exclusions" true (_ : Codec (slice string)) ( FNil))))))).
#[export] Instance MirrorAttemptRecord_codec : Codec MirrorAttemptRecord := codec_struct MirrorAttemptRecord_fields
  (fun r => (ma_LogicalAttempt r, (ma_AttemptID r, (ma_State r, (ma_Root r, (ma_RemoteRoot r, (ma_Method r,
  (ma_Exclusions r, tt))))))))
  (fun t => let '(x0, (x1, (x2, (x3, (x4, (x5, (x6, _))))))) := t in mkMirrorAttemptRecord x0 x1 x2 x3 x4
  x5 x6).
#[export] Instance MirrorAttemptRecord_laws : CodecLaws MirrorAttemptRecord _.
Proof. solve_struct_laws. Qed.

(** [WorkspaceRecord] (session.go) *)
Record WorkspaceRecord := mkWorkspaceRecord {
  wr_ID : string;
  wr_Context : string;
  wr_Provider : string;
  wr_LocalProvider : bool;
  wr_LocalFolder : string;
  wr_Target : string;
  wr_StagingRoot : string;
  wr_EffectiveRoot : string;
  wr_HardlinksRestored : bool;
  wr_ImagesRestored : bool;
  wr_Mirror : MirrorAttemptRecord }.

#[export] Instance WorkspaceRecord_eq_dec : EqDecision WorkspaceRecord.
Proof. solve_decision. Defined.

Definition WorkspaceRecord_fields : fields _ :=
  FCons "id" true codec_string (
  FCons "context" true codec_string (
  FCons "provider" true codec_string (
  FCons "localProvider" true codec_bool (
  FCons "localFolder" true codec_string (
  FCons "target" true codec_string (
  FCons "stagingRoot" true codec_string (
  FCons "effectiveRoot" true codec_string (
  FCons "hardlinksRestored" true codec_bool (
  FCons "imagesRestored" true codec_bool (
  FCons "mirror" false (_ : Codec (MirrorAttemptRecord)) ( FNil))))))))))).
#[export] Instance WorkspaceRecord_codec : Codec WorkspaceRecord := codec_struct WorkspaceRecord_fields
  (fun r => (wr_ID r, (wr_Context r, (wr_Provider r, (wr_LocalProvider r, (wr_LocalFolder r, (wr_Target r,
  (wr_StagingRoot r, (wr_EffectiveRoot r, (wr_HardlinksRestored r, (wr_ImagesRestored r, (wr_Mirror r,
  tt))))))))))))
  (fun t => let '(x0, (x1, (x2, (x3, (x4, (x5, (x6, (x7, (x8, (x9, (x10, _))))))))))) := t in
  mkWorkspaceRecord x0 x1 x2 x3 x4 x5 x6 x7 x8 x9 x10).
#[export] Instance WorkspaceRecord_laws : CodecLaws WorkspaceRecord _.
Proof. solve_struct_laws. Qed.

(** [EndpointRecord] (session.go) *)
Record EndpointRecord := mkEndpointRecord {
  en_Candidates : slice EndpointMapping;
  en_Committed : slice EndpointMapping }.

#[export] Instance EndpointRecord_eq_dec : EqDecision EndpointRecord.
Proof. solve_decision. Defined.

Definition EndpointRecord_fields : fields _ :=
  FCons "candidates" true (_ : Codec (slice EndpointMapping)) (
  FCons "committed" true (_ : Codec (slice EndpointMapping)) ( FNil)).
#[export] Instance EndpointRecord_codec : Codec EndpointRecord := codec_struct EndpointRecord_fields
  (fun r => (en_Candidates r, (en_Committed r, tt)))
  (fun t => let '(x0, (x1, _)) := t in mkEndpointRecord x0 x1).
#[export] Instance EndpointRecord_laws : CodecLaws EndpointRecord _.
Proof. solve_struct_laws. Qed.

(** [SupervisorRecord] (session.go) *)
Record SupervisorRecord := mkSupervisorRecord {
  sv_Identity : ProcessIdentity;
  sv_Desired : string;
  sv_Observed : string }.

#[export] Instance SupervisorRecord_eq_dec : EqDecision SupervisorRecord.
Proof. solve_decision. Defined.

Definition SupervisorRecord_fields : fields _ :=
  FCons "identity" false (_ : Codec (ProcessIdentity)) (
  FCons "desiredState" false codec_string (
  FCons "observedState" false codec_string ( FNil))).
#[export] Instance SupervisorRecord_codec : Codec SupervisorRecord := codec_struct SupervisorRecord_fields
  (fun r => (sv_Identity r, (sv_Desired r, (sv_Observed r, tt))))
  (fun t => let '(x0, (x1, (x2, _))) := t in mkSupervisorRecord x0 x1 x2).
#[export] Instance SupervisorRecord_laws : CodecLaws SupervisorRecord _.
Proof. solve_struct_laws. Qed.

(** The open string types of the package. *)
Definition RuntimeDesiredRunning : string := "running".
Definition RuntimeDesiredStopped : string := "stopped".
Definition RuntimeObservedReady : string := "ready".
Definition RuntimeObservedAbsent : string := "absent".
Definition SessionReadWrite : string := "readWrite".
Definition SessionReadOnly : string := "readOnly".
Definition SessionOpening : string := "opening".
Definition SessionOpen : string := "open".
Definition SessionRecovering : string := "recovering".
Definition SessionClosed : string := "closed".
Definition CheckpointNone : string := "none".
Definition CheckpointPublished : string := "published".
Definition CleanupPending : string := "pending".
Definition CleanupRunning : string := "running".
Definition CleanupSucceeded : string := "succeeded".
Definition CleanupFailed : string := "failed".

(** * Images, materialization and checkpoint *)
(** [Platform] (image.go) *)
Record Platform := mkPlatform {
  pf_OS : string;
  pf_Architecture : string;
  pf_Variant : string }.

#[export] Instance Platform_eq_dec : EqDecision Platform.
Proof. solve_decision. Defined.

Definition Platform_fields : fields _ :=
  FCons "os" false codec_string (
  FCons "architecture" false codec_string (
  FCons "variant" true codec_string ( FNil))).
#[export] Instance Platform_codec : Codec Platform := codec_struct Platform_fields
  (fun r => (pf_OS r, (pf_Architecture r, (pf_Variant r, tt))))
  (fun t => let '(x0, (x1, (x2, _))) := t in mkPlatform x0 x1 x2).
#[export] Instance Platform_laws : CodecLaws Platform _.
Proof. solve_struct_laws. Qed.

(** [Image] (image.go) *)
Record Image := mkImage {
  im_EngineImageID : string;
  im_OriginalTags : slice string;
  im_OriginalRepoDigests : slice string;
  im_CapturedReference : string;
  im_CapturedManifestDigest : string;
  im_Platform : Platform;
  im_Source : string;
  im_CreatedAt : Time }.

#[export] Instance Image_eq_dec : EqDecision Image.
Proof. solve_decision. Defined.

Definition Image_fields : fields _ :=
  FCons "engineImageId" true codec_string (
  FCons "originalTags" false (_ : Codec (slice string)) (
  FCons "originalRepoDigests" true (_ : Codec (slice string)) (
  FCons "capturedReference" false codec_string (
  FCons "capturedManifestDigest" false codec_string (
  FCons "platform" false (_ : Codec (Platform)) (
  FCons "source" false codec_string (
  FCons "createdAt" false codec_time ( FNil)))))))).
#[export] Instance Image_codec : Codec Image := codec_struct Image_fields
  (fun r => (im_EngineImageID r, (im_OriginalTags r, (im_OriginalRepoDigests r, (im_CapturedReference r,
  (im_CapturedManifestDigest r, (im_Platform r, (im_Source r, (im_CreatedAt r, tt)))))))))
  (fun t => let '(x0, (x1, (x2, (x3, (x4, (x5, (x6, (x7, _)))))))) := t in mkImage x0 x1 x2 x3 x4 x5 x6 x7).
#[export] Instance Image_laws : CodecLaws Image _.
Proof. solve_struct_laws. Qed.

(** [ImageInventory] (image.go) *)
Record ImageInventory := mkImageInventory {
  ii_SchemaVersion : Z;
  ii_GeneratedAt : Time;
  ii_Images : slice Image }.

#[export] Instance ImageInventory_eq_dec : EqDecision ImageInventory.
Proof. solve_decision. Defined.

Definition ImageInventory_fields : fields _ :=
  FCons "schemaVersion" false int_codec (
  FCons "generatedAt" false codec_time (
  FCons "images" false (_ : Codec (slice Image)) ( FNil))).
#[export] Instance ImageInventory_codec : Codec ImageInventory := codec_struct ImageInventory_fields
  (fun r => (ii_SchemaVersion r, (ii_GeneratedAt r, (ii_Images r, tt))))
  (fun t => let '(x0, (x1, (x2, _))) := t in mkImageInventory x0 x1 x2).
#[export] Instance ImageInventory_laws : CodecLaws ImageInventory _.
Proof. solve_struct_laws. Qed.

(** [Materialization] (materialization.go) *)
Record Materialization := mkMaterialization {
  mt_SchemaVersion : Z;
  mt_CanonicalPath : string;
  mt_OriginalPath : string;
  mt_OwnershipMarker : string;
  mt_Mode : string;
  mt_Device : Z;
  mt_Inode : Z;
  mt_BirthTimeNS : Z;
  mt_CleanupPermitted : bool }.

#[export] Instance Materialization_eq_dec : EqDecision Materialization.
Proof. solve_decision. Defined.

Definition Materialization_fields : fields _ :=
  FCons "schemaVersion" false int_codec (
  FCons "canonicalPath" false codec_string (
  FCons "originalPath" false codec_string (
  FCons "ownershipMarker" false codec_string (
  FCons "mode" false codec_string (
  FCons "device" true uint64_codec (
  FCons "inode" true uint64_codec (
  FCons "birthTimeNs" true int64_codec (
  FCons "cleanupPermitted" false codec_bool ( FNil))))))))).
#[export] Instance Materialization_codec : Codec Materialization := codec_struct Materialization_fields
  (fun r => (mt_SchemaVersion r, (mt_CanonicalPath r, (mt_OriginalPath r, (mt_OwnershipMarker r,
  (mt_Mode r, (mt_Device r, (mt_Inode r, (mt_BirthTimeNS r, (mt_CleanupPermitted r, tt))))))))))
  (fun t => let '(x0, (x1, (x2, (x3, (x4, (x5, (x6, (x7, (x8, _))))))))) := t in mkMaterialization x0 x1 x2
  x3 x4 x5 x6 x7 x8).
#[export] Instance Materialization_laws : CodecLaws Materialization _.
Proof. solve_struct_laws. Qed.

(** [Checkpoint] (checkpoint.go) *)
Record Checkpoint := mkCheckpoint {
  cp_State : string;
  cp_Generation : option GenerationRef;
  cp_LocalHaulPath : string;
  cp_ObjectKey : string;
  cp_PublicationSucceeded : bool }.

#[export] Instance Checkpoint_eq_dec : EqDecision Checkpoint.
Proof. solve_decision. Defined.

Definition Checkpoint_fields : fields _ :=
  FCons "state" false codec_string (
  FCons "generation" true (_ : Codec (option GenerationRef)) (
  FCons "localHaulPath" true codec_string (
  FCons "objectKey" true codec_string (
  FCons "publicationSucceeded" false codec_bool ( FNil))))).
#[export] Instance Checkpoint_codec : Codec Checkpoint := codec_struct Checkpoint_fields
  (fun r => (cp_State r, (cp_Generation r, (cp_LocalHaulPath r, (cp_ObjectKey r,
  (cp_PublicationSucceeded r, tt))))))
  (fun t => let '(x0, (x1, (x2, (x3, (x4, _))))) := t in mkCheckpoint x0 x1 x2 x3 x4).
#[export] Instance Checkpoint_laws : CodecLaws Checkpoint _.
Proof. solve_struct_laws. Qed.

(** [Cleanup] (checkpoint.go) *)
Record Cleanup := mkCleanup {
  cu_State : string;
  cu_LastErr : string }.

#[export] Instance Cleanup_eq_dec : EqDecision Cleanup.
Proof. solve_decision. Defined.

Definition Cleanup_fields : fields _ :=
  FCons "state" false codec_string (
  FCons "lastError" true codec_string ( FNil)).
#[export] Instance Cleanup_codec : Codec Cleanup := codec_struct Cleanup_fields
  (fun r => (cu_State r, (cu_LastErr r, tt)))
  (fun t => let '(x0, (x1, _)) := t in mkCleanup x0 x1).
#[export] Instance Cleanup_laws : CodecLaws Cleanup _.
Proof. solve_struct_laws. Qed.

(** * Recovery (recovery.go, remote_data_plane.go) *)
(** [SessionPaths] (recovery.go) *)
Record SessionPaths := mkSessionPaths {
  sp_DataRoot : string;
  sp_WorkRoot : string;
  sp_StoreRoot : string;
  sp_SessionRoot : string;
  sp_CacheRoot : string }.

#[export] Instance SessionPaths_eq_dec : EqDecision SessionPaths.
Proof. solve_decision. Defined.

Definition SessionPaths_fields : fields _ :=
  FCons "dataRoot" false codec_string (
  FCons "workRoot" false codec_string (
  FCons "storeRoot" false codec_string (
  FCons "sessionRoot" false codec_string (
  FCons "cacheRoot" false codec_string ( FNil))))).
#[export] Instance SessionPaths_codec : Codec SessionPaths := codec_struct SessionPaths_fields
  (fun r => (sp_DataRoot r, (sp_WorkRoot r, (sp_StoreRoot r, (sp_SessionRoot r, (sp_CacheRoot r, tt))))))
  (fun t => let '(x0, (x1, (x2, (x3, (x4, _))))) := t in mkSessionPaths x0 x1 x2 x3 x4).
#[export] Instance SessionPaths_laws : CodecLaws SessionPaths _.
Proof. solve_struct_laws. Qed.

(** [ConfigurationRecord] (recovery.go) *)
Record ConfigurationRecord := mkConfigurationRecord {
  cr_Capsule : string;
  cr_BackendKind : string;
  cr_BackendURL : string;
  cr_BackendFingerprint : string;
  cr_Source : string;
  cr_RegistryPort : Z;
  cr_FileserverPort : Z;
  cr_DevcontainerPath : string;
  cr_Paths : SessionPaths }.

#[export] Instance ConfigurationRecord_eq_dec : EqDecision ConfigurationRecord.
Proof. solve_decision. Defined.

Definition ConfigurationRecord_fields : fields _ :=
  FCons "capsule" false codec_string (
  FCons "backendKind" false codec_string (
  FCons "backendUrl" false codec_string (
  FCons "backendFingerprint" false codec_string (
  FCons "source" true codec_string (
  FCons "registryPort" false int_codec (
  FCons "fileserverPort" false int_codec (
  FCons "devcontainerPath" true codec_string (
  FCons "paths" false (_ : Codec (SessionPaths)) ( FNil))))))))).
#[export] Instance ConfigurationRecord_codec : Codec ConfigurationRecord := codec_struct ConfigurationRecord_fields
  (fun r => (cr_Capsule r, (cr_BackendKind r, (cr_BackendURL r, (cr_BackendFingerprint r, (cr_Source r,
  (cr_RegistryPort r, (cr_FileserverPort r, (cr_DevcontainerPath r, (cr_Paths r, tt))))))))))
  (fun t => let '(x0, (x1, (x2, (x3, (x4, (x5, (x6, (x7, (x8, _))))))))) := t in mkConfigurationRecord x0
  x1 x2 x3 x4 x5 x6 x7 x8).
#[export] Instance ConfigurationRecord_laws : CodecLaws ConfigurationRecord _.
Proof. solve_struct_laws. Qed.

(** [SessionArtifactPaths] (recovery.go) *)
Record SessionArtifactPaths := mkSessionArtifactPaths {
  sa_Root : string;
  sa_RuntimeRoot : string;
  sa_HaulPath : string;
  sa_RegistryOverlay : string }.

#[export] Instance SessionArtifactPaths_eq_dec : EqDecision SessionArtifactPaths.
Proof. solve_decision. Defined.

Definition SessionArtifactPaths_fields : fields _ :=
  FCons "root" false codec_string (
  FCons "runtimeRoot" false codec_string (
  FCons "haulPath" false codec_string (
  FCons "registryOverlay" false codec_string ( FNil)))).
#[export] Instance SessionArtifactPaths_codec : Codec SessionArtifactPaths := codec_struct SessionArtifactPaths_fields
  (fun r => (sa_Root r, (sa_RuntimeRoot r, (sa_HaulPath r, (sa_RegistryOverlay r, tt)))))
  (fun t => let '(x0, (x1, (x2, (x3, _)))) := t in mkSessionArtifactPaths x0 x1 x2 x3).
#[export] Instance SessionArtifactPaths_laws : CodecLaws SessionArtifactPaths _.
Proof. solve_struct_laws. Qed.

(** [SourceDecision] (recovery.go) *)
Record SourceDecision := mkSourceDecision {
  sd_Kind : string;
  sd_Root : string;
  sd_Initialized : bool;
  sd_Lineage : option Lineage;
  sd_Generation : option GenerationRef }.

#[export] Instance SourceDecision_eq_dec : EqDecision SourceDecision.
Proof. solve_decision. Defined.

Definition SourceDecision_fields : fields _ :=
  FCons "kind" false codec_string (
  FCons "root" true codec_string (
  FCons "initialized" false codec_bool (
  FCons "lineage" true (_ : Codec (option Lineage)) (
  FCons "generation" true (_ : Codec (option GenerationRef)) ( FNil))))).
#[export] Instance SourceDecision_codec : Codec SourceDecision := codec_struct SourceDecision_fields
  (fun r => (sd_Kind r, (sd_Root r, (sd_Initialized r, (sd_Lineage r, (sd_Generation r, tt))))))
  (fun t => let '(x0, (x1, (x2, (x3, (x4, _))))) := t in mkSourceDecision x0 x1 x2 x3 x4).
#[export] Instance SourceDecision_laws : CodecLaws SourceDecision _.
Proof. solve_struct_laws. Qed.

(** [CommandRecord] (recovery.go) *)
Record CommandRecord := mkCommandRecord {
  cmd_Executable : string;
  cmd_Argv : slice string;
  cmd_Directory : string }.

#[export] Instance CommandRecord_eq_dec : EqDecision CommandRecord.
Proof. solve_decision. Defined.

Definition CommandRecord_fields : fields _ :=
  FCons "executable" false codec_string (
  FCons "argv" false (_ : Codec (slice string)) (
  FCons "directory" true codec_string ( FNil))).
#[export] Instance CommandRecord_codec : Codec CommandRecord := codec_struct CommandRecord_fields
  (fun r => (cmd_Executable r, (cmd_Argv r, (cmd_Directory r, tt))))
  (fun t => let '(x0, (x1, (x2, _))) := t in mkCommandRecord x0 x1 x2).
#[export] Instance CommandRecord_laws : CodecLaws CommandRecord _.
Proof. solve_struct_laws. Qed.

(** [DesiredServiceRecord] (recovery.go) *)
Record DesiredServiceRecord := mkDesiredServiceRecord {
  ds_Name : string;
  ds_LaunchToken : string;
  ds_Mapping : EndpointMapping;
  ds_PIDPath : string;
  ds_LogPath : string;
  ds_Child : CommandRecord }.

#[export] Instance DesiredServiceRecord_eq_dec : EqDecision DesiredServiceRecord.
Proof. solve_decision. Defined.

Definition DesiredServiceRecord_fields : fields _ :=
  FCons "name" false codec_string (
  FCons "launchToken" false codec_string (
  FCons "mapping" false (_ : Codec (EndpointMapping)) (
  FCons "pidPath" false codec_string (
  FCons "logPath" false codec_string (
  FCons "child" false (_ : Codec (CommandRecord)) ( FNil)))))).
#[export] Instance DesiredServiceRecord_codec : Codec DesiredServiceRecord := codec_struct DesiredServiceRecord_fields
  (fun r => (ds_Name r, (ds_LaunchToken r, (ds_Mapping r, (ds_PIDPath r, (ds_LogPath r, (ds_Child r,
  tt)))))))
  (fun t => let '(x0, (x1, (x2, (x3, (x4, (x5, _)))))) := t in mkDesiredServiceRecord x0 x1 x2 x3 x4 x5).
#[export] Instance DesiredServiceRecord_laws : CodecLaws DesiredServiceRecord _.
Proof. solve_struct_laws. Qed.

(** [EntryRequestRecord] (recovery.go) *)
Record EntryRequestRecord := mkEntryRequestRecord {
  er_Mode : string;
  er_Target : string;
  er_IDE : string }.

#[export] Instance EntryRequestRecord_eq_dec : EqDecision EntryRequestRecord.
Proof. solve_decision. Defined.

Definition EntryRequestRecord_fields : fields _ :=
  FCons "mode" false codec_string (
  FCons "target" true codec_string (
  FCons "ide" true codec_string ( FNil))).
#[export] Instance EntryRequestRecord_codec : Codec EntryRequestRecord := codec_struct EntryRequestRecord_fields
  (fun r => (er_Mode r, (er_Target r, (er_IDE r, tt))))
  (fun t => let '(x0, (x1, (x2, _))) := t in mkEntryRequestRecord x0 x1 x2).
#[export] Instance EntryRequestRecord_laws : CodecLaws EntryRequestRecord _.
Proof. solve_struct_laws. Qed.

(** [ForwardingRecord] (recovery.go) *)
Record ForwardingRecord := mkForwardingRecord {
  fr_Name : string;
  fr_LocalEndpoint : string;
  fr_WorkspaceEndpoint : string;
  fr_EvidencePath : string;
  fr_EvidenceDevice : Z;
  fr_EvidenceInode : Z;
  fr_Process : ProcessRecord;
  fr_DesiredState : string;
  fr_ObservedState : string }.

#[export] Instance ForwardingRecord_eq_dec : EqDecision ForwardingRecord.
Proof. solve_decision. Defined.

Definition ForwardingRecord_fields : fields _ :=
  FCons "name" false codec_string (
  FCons "localEndpoint" false codec_string (
  FCons "workspaceEndpoint" false codec_string (
  FCons "evidencePath" false codec_string (
  FCons "evidenceDevice" true uint64_codec (
  FCons "evidenceInode" true uint64_codec (
  FCons "process" false (_ : Codec (ProcessRecord)) (
  FCons "desiredState" false codec_string (
  FCons "observedState" false codec_string ( FNil))))))))).
#[export] Instance ForwardingRecord_codec : Codec ForwardingRecord := codec_struct ForwardingRecord_fields
  (fun r => (fr_Name r, (fr_LocalEndpoint r, (fr_WorkspaceEndpoint r, (fr_EvidencePath r,
  (fr_EvidenceDevice r, (fr_EvidenceInode r, (fr_Process r, (fr_DesiredState r, (fr_ObservedState r,
  tt))))))))))
  (fun t => let '(x0, (x1, (x2, (x3, (x4, (x5, (x6, (x7, (x8, _))))))))) := t in mkForwardingRecord x0 x1
  x2 x3 x4 x5 x6 x7 x8).
#[export] Instance ForwardingRecord_laws : CodecLaws ForwardingRecord _.
Proof. solve_struct_laws. Qed.

(** [CleanupPolicy] (recovery.go) *)
Record CleanupPolicy := mkCleanupPolicy {
  cy_WorkspaceAction : string;
  cy_RemoveOwnedMaterialization : bool;
  cy_RemoveSessionArtifacts : bool }.

#[export] Instance CleanupPolicy_eq_dec : EqDecision CleanupPolicy.
Proof. solve_decision. Defined.

Definition CleanupPolicy_fields : fields _ :=
  FCons "workspaceAction" false codec_string (
  FCons "removeOwnedMaterialization" false codec_bool (
  FCons "removeSessionArtifacts" false codec_bool ( FNil))).
#[export] Instance CleanupPolicy_codec : Codec CleanupPolicy := codec_struct CleanupPolicy_fields
  (fun r => (cy_WorkspaceAction r, (cy_RemoveOwnedMaterialization r, (cy_RemoveSessionArtifacts r, tt))))
  (fun t => let '(x0, (x1, (x2, _))) := t in mkCleanupPolicy x0 x1 x2).
#[export] Instance CleanupPolicy_laws : CodecLaws CleanupPolicy _.
Proof. solve_struct_laws. Qed.

(** [HydrationPlan] (recovery.go) *)
Record HydrationPlan := mkHydrationPlan {
  hp_Token : string;
  hp_StageRoot : string;
  hp_FinalRoot : string }.

#[export] Instance HydrationPlan_eq_dec : EqDecision HydrationPlan.
Proof. solve_decision. Defined.

Definition HydrationPlan_fields : fields _ :=
  FCons "token" false codec_string (
  FCons "stageRoot" false codec_string (
  FCons "finalRoot" false codec_string ( FNil))).
#[export] Instance HydrationPlan_codec : Codec HydrationPlan := codec_struct HydrationPlan_fields
  (fun r => (hp_Token r, (hp_StageRoot r, (hp_FinalRoot r, tt))))
  (fun t => let '(x0, (x1, (x2, _))) := t in mkHydrationPlan x0 x1 x2).
#[export] Instance HydrationPlan_laws : CodecLaws HydrationPlan _.
Proof. solve_struct_laws. Qed.

(** [RemoteDataPlaneRecord] (remote_data_plane.go) *)
Record RemoteDataPlaneRecord := mkRemoteDataPlaneRecord {
  rd_Mode : string;
  rd_AttemptID : string;
  rd_BootstrapRoot : string;
  rd_KitSHA256 : string;
  rd_KitSize : Z;
  rd_HelperSHA256 : string;
  rd_HelperSize : Z;
  rd_ManifestSHA256 : string;
  rd_ManifestSize : Z;
  rd_SourceImage : string;
  rd_OuterImage : string;
  rd_LifecycleUser : string;
  rd_RequestSchema : Z;
  rd_RequestSession : string;
  rd_WorkspaceRoot : string;
  rd_RuntimeRoot : string;
  rd_ManifestPath : string;
  rd_Architecture : string;
  rd_ConfigSHA256 : string;
  rd_ConfigSize : Z }.

#[export] Instance RemoteDataPlaneRecord_eq_dec : EqDecision RemoteDataPlaneRecord.
Proof. solve_decision. Defined.

Definition RemoteDataPlaneRecord_fields : fields _ :=
  FCons "mode" false codec_string (
  FCons "attemptId" false codec_string (
  FCons "bootstrapRoot" true codec_string (
  FCons "kitSHA256" true codec_string (
  FCons "kitSize" true int64_codec (
  FCons "helperSHA256" true codec_string (
  FCons "helperSize" true int64_codec (
  FCons "manifestSHA256" true codec_string (
  FCons "manifestSize" true int64_codec (
  FCons "sourceImage" true codec_string (
  FCons "outerImage" true codec_string (
  FCons "lifecycleUser" true codec_string (
  FCons "requestSchema" true uint32_codec (
  FCons "requestSession" true codec_string (
  FCons "workspaceRoot" true codec_string (
  FCons "runtimeRoot" true codec_string (
  FCons "manifestPath" true codec_string (
  FCons "architecture" true codec_string (
  FCons "configSHA256" true codec_string (
  FCons "configSize" true int64_codec ( FNil)))))))))))))))))))).
#[export] Instance RemoteDataPlaneRecord_codec : Codec RemoteDataPlaneRecord := codec_struct RemoteDataPlaneRecord_fields
  (fun r => (rd_Mode r, (rd_AttemptID r, (rd_BootstrapRoot r, (rd_KitSHA256 r, (rd_KitSize r,
  (rd_HelperSHA256 r, (rd_HelperSize r, (rd_ManifestSHA256 r, (rd_ManifestSize r, (rd_SourceImage r,
  (rd_OuterImage r, (rd_LifecycleUser r, (rd_RequestSchema r, (rd_RequestSession r, (rd_WorkspaceRoot r,
  (rd_RuntimeRoot r, (rd_ManifestPath r, (rd_Architecture r, (rd_ConfigSHA256 r, (rd_ConfigSize r,
  tt)))))))))))))))))))))
  (fun t => let '(x0, (x1, (x2, (x3, (x4, (x5, (x6, (x7, (x8, (x9, (x10, (x11, (x12, (x13, (x14, (x15,
  (x16, (x17, (x18, (x19, _)))))))))))))))))))) := t in mkRemoteDataPlaneRecord x0 x1 x2 x3 x4 x5 x6 x7 x8
  x9 x10 x11 x12 x13 x14 x15 x16 x17 x18 x19).
#[export] Instance RemoteDataPlaneRecord_laws : CodecLaws RemoteDataPlaneRecord _.
Proof. solve_struct_laws. Qed.

(** [RecoveryRecord] (recovery.go) *)
Record RecoveryRecord := mkRecoveryRecord {
  rr_Objective : string;
  rr_Configuration : ConfigurationRecord;
  rr_Session : SessionArtifactPaths;
  rr_Source : SourceDecision;
  rr_Hydration : option HydrationPlan;
  rr_RemoteDataPlane : option RemoteDataPlaneRecord;
  rr_DesiredServices : slice DesiredServiceRecord;
  rr_Entry : EntryRequestRecord;
  rr_Forwarding : slice ForwardingRecord;
  rr_Cleanup : CleanupPolicy }.

#[export] Instance RecoveryRecord_eq_dec : EqDecision RecoveryRecord.
Proof. solve_decision. Defined.

Definition RecoveryRecord_fields : fields _ :=
  FCons "objective" false codec_string (
  FCons "configuration" false (_ : Codec (ConfigurationRecord)) (
  FCons "session" false (_ : Codec (SessionArtifactPaths)) (
  FCons "source" false (_ : Codec (SourceDecision)) (
  FCons "hydration" true (_ : Codec (option HydrationPlan)) (
  FCons "remoteDataPlane" true (_ : Codec (option RemoteDataPlaneRecord)) (
  FCons "desiredServices" true (_ : Codec (slice DesiredServiceRecord)) (
  FCons "entry" false (_ : Codec (EntryRequestRecord)) (
  FCons "forwarding" true (_ : Codec (slice ForwardingRecord)) (
  FCons "cleanup" false (_ : Codec (CleanupPolicy)) ( FNil)))))))))).
#[export] Instance RecoveryRecord_codec : Codec RecoveryRecord := codec_struct RecoveryRecord_fields
  (fun r => (rr_Objective r, (rr_Configuration r, (rr_Session r, (rr_Source r, (rr_Hydration r,
  (rr_RemoteDataPlane r, (rr_DesiredServices r, (rr_Entry r, (rr_Forwarding r, (rr_Cleanup r, tt)))))))))))
  (fun t => let '(x0, (x1, (x2, (x3, (x4, (x5, (x6, (x7, (x8, (x9, _)))))))))) := t in mkRecoveryRecord x0
  x1 x2 x3 x4 x5 x6 x7 x8 x9).
#[export] Instance RecoveryRecord_laws : CodecLaws RecoveryRecord _.
Proof. solve_struct_laws. Qed.

(** * The snapshot (session.go) *)
(** [JournalSnapshot] (session.go) *)
Record JournalSnapshot := mkJournalSnapshot {
  js_SchemaVersion : Z;
  js_SessionID : string;
  js_Capsule : string;
  js_Lineage : Lineage;
  js_Mode : string;
  js_Tools : ToolVersions;
  js_ExecutionBinding : option ExecutionBinding;
  js_OpenedGeneration : option GenerationRef;
  js_CurrentBase : option GenerationRef;
  js_CurrentPointer : option LatestPointer;
  js_ExpectedPointerRevision : string;
  js_Confinement : ConfinementRecord;
  js_Lease : LeaseRecord;
  js_Workspace : WorkspaceRecord;
  js_Endpoints : EndpointRecord;
  js_Supervisor : SupervisorRecord;
  js_Services : slice ServiceUnitRecord;
  js_Images : ImageInventory;
  js_RegistryCutRoot : string;
  js_Recovery : RecoveryRecord;
  js_State : string;
  js_Materialization : Materialization;
  js_Checkpoint : Checkpoint;
  js_Cleanup : Cleanup;
  js_CreatedAt : Time;
  js_UpdatedAt : Time }.

#[export] Instance JournalSnapshot_eq_dec : EqDecision JournalSnapshot.
Proof. solve_decision. Defined.

Definition JournalSnapshot_fields : fields _ :=
  FCons "schemaVersion" false int_codec (
  FCons "sessionId" false codec_string (
  FCons "capsule" false codec_string (
  FCons "lineage" false (_ : Codec (Lineage)) (
  FCons "mode" false codec_string (
  FCons "tools" false (_ : Codec (ToolVersions)) (
  FCons "executionBinding" true (_ : Codec (option ExecutionBinding)) (
  FCons "openedGeneration" true (_ : Codec (option GenerationRef)) (
  FCons "currentBase" true (_ : Codec (option GenerationRef)) (
  FCons "currentPointer" true (_ : Codec (option LatestPointer)) (
  FCons "expectedPointerRevision" true codec_string (
  FCons "confinement" false (_ : Codec (ConfinementRecord)) (
  FCons "lease" false (_ : Codec (LeaseRecord)) (
  FCons "workspace" false (_ : Codec (WorkspaceRecord)) (
  FCons "endpoints" false (_ : Codec (EndpointRecord)) (
  FCons "supervisor" false (_ : Codec (SupervisorRecord)) (
  FCons "services" true (_ : Codec (slice ServiceUnitRecord)) (
  FCons "images" true (_ : Codec (ImageInventory)) (
  FCons "registryCutRoot" true codec_string (
  FCons "recovery" false (_ : Codec (RecoveryRecord)) (
  FCons "state" false codec_string (
  FCons "materialization" false (_ : Codec (Materialization)) (
  FCons "checkpoint" false (_ : Codec (Checkpoint)) (
  FCons "cleanup" false (_ : Codec (Cleanup)) (
  FCons "createdAt" false codec_time (
  FCons "updatedAt" false codec_time ( FNil)))))))))))))))))))))))))).
#[export] Instance JournalSnapshot_codec : Codec JournalSnapshot := codec_struct JournalSnapshot_fields
  (fun r => (js_SchemaVersion r, (js_SessionID r, (js_Capsule r, (js_Lineage r, (js_Mode r, (js_Tools r,
  (js_ExecutionBinding r, (js_OpenedGeneration r, (js_CurrentBase r, (js_CurrentPointer r,
  (js_ExpectedPointerRevision r, (js_Confinement r, (js_Lease r, (js_Workspace r, (js_Endpoints r,
  (js_Supervisor r, (js_Services r, (js_Images r, (js_RegistryCutRoot r, (js_Recovery r, (js_State r,
  (js_Materialization r, (js_Checkpoint r, (js_Cleanup r, (js_CreatedAt r, (js_UpdatedAt r,
  tt)))))))))))))))))))))))))))
  (fun t => let '(x0, (x1, (x2, (x3, (x4, (x5, (x6, (x7, (x8, (x9, (x10, (x11, (x12, (x13, (x14, (x15,
  (x16, (x17, (x18, (x19, (x20, (x21, (x22, (x23, (x24, (x25, _)))))))))))))))))))))))))) := t in
  mkJournalSnapshot x0 x1 x2 x3 x4 x5 x6 x7 x8 x9 x10 x11 x12 x13 x14 x15 x16 x17 x18 x19 x20 x21 x22 x23
  x24 x25).
#[export] Instance JournalSnapshot_laws : CodecLaws JournalSnapshot _.
Proof. solve_struct_laws. Qed.

(** Assignments to the fields of a [JournalSnapshot]. *)
Definition set_js_SchemaVersion (v : Z) (r : JournalSnapshot) : JournalSnapshot :=
  mkJournalSnapshot v (js_SessionID r) (js_Capsule r) (js_Lineage r) (js_Mode r) (js_Tools r)
  (js_ExecutionBinding r) (js_OpenedGeneration r) (js_CurrentBase r) (js_CurrentPointer r)
  (js_ExpectedPointerRevision r) (js_Confinement r) (js_Lease r) (js_Workspace r) (js_Endpoints r)
  (js_Supervisor r) (js_Services r) (js_Images r) (js_RegistryCutRoot r) (js_Recovery r) (js_State r)
  (js_Materialization r) (js_Checkpoint r) (js_Cleanup r) (js_CreatedAt r) (js_UpdatedAt r).
Definition set_js_SessionID (v : string) (r : JournalSnapshot) : JournalSnapshot :=
  mkJournalSnapshot (js_SchemaVersion r) v (js_Capsule r) (js_Lineage r) (js_Mode r) (js_Tools r)
  (js_ExecutionBinding r) (js_OpenedGeneration r) (js_CurrentBase r) (js_CurrentPointer r)
  (js_ExpectedPointerRevision r) (js_Confinement r) (js_Lease r) (js_Workspace r) (js_Endpoints r)
  (js_Supervisor r) (js_Services r) (js_Images r) (js_RegistryCutRoot r) (js_Recovery r) (js_State r)
  (js_Materialization r) (js_Checkpoint r) (js_Cleanup r) (js_CreatedAt r) (js_UpdatedAt r).
Definition set_js_Capsule (v : string) (r : JournalSnapshot) : JournalSnapshot :=
  mkJournalSnapshot (js_SchemaVersion r) (js_SessionID r) v (js_Lineage r) (js_Mode r) (js_Tools r)
  (js_ExecutionBinding r) (js_OpenedGeneration r) (js_CurrentBase r) (js_CurrentPointer r)
  (js_ExpectedPointerRevision r) (js_Confinement r) (js_Lease r) (js_Workspace r) (js_Endpoints r)
  (js_Supervisor r) (js_Services r) (js_Images r) (js_RegistryCutRoot r) (js_Recovery r) (js_State r)
  (js_Materialization r) (js_Checkpoint r) (js_Cleanup r) (js_CreatedAt r) (js_UpdatedAt r).
Definition set_js_Lineage (v : Lineage) (r : JournalSnapshot) : JournalSnapshot :=
  mkJournalSnapshot (js_SchemaVersion r) (js_SessionID r) (js_Capsule r) v (js_Mode r) (js_Tools r)
  (js_ExecutionBinding r) (js_OpenedGeneration r) (js_CurrentBase r) (js_CurrentPointer r)
  (js_ExpectedPointerRevision r) (js_Confinement r) (js_Lease r) (js_Workspace r) (js_Endpoints r)
  (js_Supervisor r) (js_Services r) (js_Images r) (js_RegistryCutRoot r) (js_Recovery r) (js_State r)
  (js_Materialization r) (js_Checkpoint r) (js_Cleanup r) (js_CreatedAt r) (js_UpdatedAt r).
Definition set_js_Mode (v : string) (r : JournalSnapshot) : JournalSnapshot :=
  mkJournalSnapshot (js_SchemaVersion r) (js_SessionID r) (js_Capsule r) (js_Lineage r) v (js_Tools r)
  (js_ExecutionBinding r) (js_OpenedGeneration r) (js_CurrentBase r) (js_CurrentPointer r)
  (js_ExpectedPointerRevision r) (js_Confinement r) (js_Lease r) (js_Workspace r) (js_Endpoints r)
  (js_Supervisor r) (js_Services r) (js_Images r) (js_RegistryCutRoot r) (js_Recovery r) (js_State r)
  (js_Materialization r) (js_Checkpoint r) (js_Cleanup r) (js_CreatedAt r) (js_UpdatedAt r).
Definition set_js_Tools (v : ToolVersions) (r : JournalSnapshot) : JournalSnapshot :=
  mkJournalSnapshot (js_SchemaVersion r) (js_SessionID r) (js_Capsule r) (js_Lineage r) (js_Mode r) v
  (js_ExecutionBinding r) (js_OpenedGeneration r) (js_CurrentBase r) (js_CurrentPointer r)
  (js_ExpectedPointerRevision r) (js_Confinement r) (js_Lease r) (js_Workspace r) (js_Endpoints r)
  (js_Supervisor r) (js_Services r) (js_Images r) (js_RegistryCutRoot r) (js_Recovery r) (js_State r)
  (js_Materialization r) (js_Checkpoint r) (js_Cleanup r) (js_CreatedAt r) (js_UpdatedAt r).
Definition set_js_ExecutionBinding (v : option ExecutionBinding) (r : JournalSnapshot) : JournalSnapshot :=
  mkJournalSnapshot (js_SchemaVersion r) (js_SessionID r) (js_Capsule r) (js_Lineage r) (js_Mode r)
  (js_Tools r) v (js_OpenedGeneration r) (js_CurrentBase r) (js_CurrentPointer r)
  (js_ExpectedPointerRevision r) (js_Confinement r) (js_Lease r) (js_Workspace r) (js_Endpoints r)
  (js_Supervisor r) (js_Services r) (js_Images r) (js_RegistryCutRoot r) (js_Recovery r) (js_State r)
  (js_Materialization r) (js_Checkpoint r) (js_Cleanup r) (js_CreatedAt r) (js_UpdatedAt r).
Definition set_js_OpenedGeneration (v : option GenerationRef) (r : JournalSnapshot) : JournalSnapshot :=
  mkJournalSnapshot (js_SchemaVersion r) (js_SessionID r) (js_Capsule r) (js_Lineage r) (js_Mode r)
  (js_Tools r) (js_ExecutionBinding r) v (js_CurrentBase r) (js_CurrentPointer r)
  (js_ExpectedPointerRevision r) (js_Confinement r) (js_Lease r) (js_Workspace r) (js_Endpoints r)
  (js_Supervisor r) (js_Services r) (js_Images r) (js_RegistryCutRoot r) (js_Recovery r) (js_State r)
  (js_Materialization r) (js_Checkpoint r) (js_Cleanup r) (js_CreatedAt r) (js_UpdatedAt r).
Definition set_js_CurrentBase (v : option GenerationRef) (r : JournalSnapshot) : JournalSnapshot :=
  mkJournalSnapshot (js_SchemaVersion r) (js_SessionID r) (js_Capsule r) (js_Lineage r) (js_Mode r)
  (js_Tools r) (js_ExecutionBinding r) (js_OpenedGeneration r) v (js_CurrentPointer r)
  (js_ExpectedPointerRevision r) (js_Confinement r) (js_Lease r) (js_Workspace r) (js_Endpoints r)
  (js_Supervisor r) (js_Services r) (js_Images r) (js_RegistryCutRoot r) (js_Recovery r) (js_State r)
  (js_Materialization r) (js_Checkpoint r) (js_Cleanup r) (js_CreatedAt r) (js_UpdatedAt r).
Definition set_js_CurrentPointer (v : option LatestPointer) (r : JournalSnapshot) : JournalSnapshot :=
  mkJournalSnapshot (js_SchemaVersion r) (js_SessionID r) (js_Capsule r) (js_Lineage r) (js_Mode r)
  (js_Tools r) (js_ExecutionBinding r) (js_OpenedGeneration r) (js_CurrentBase r) v
  (js_ExpectedPointerRevision r) (js_Confinement r) (js_Lease r) (js_Workspace r) (js_Endpoints r)
  (js_Supervisor r) (js_Services r) (js_Images r) (js_RegistryCutRoot r) (js_Recovery r) (js_State r)
  (js_Materialization r) (js_Checkpoint r) (js_Cleanup r) (js_CreatedAt r) (js_UpdatedAt r).
Definition set_js_ExpectedPointerRevision (v : string) (r : JournalSnapshot) : JournalSnapshot :=
  mkJournalSnapshot (js_SchemaVersion r) (js_SessionID r) (js_Capsule r) (js_Lineage r) (js_Mode r)
  (js_Tools r) (js_ExecutionBinding r) (js_OpenedGeneration r) (js_CurrentBase r) (js_CurrentPointer r) v
  (js_Confinement r) (js_Lease r) (js_Workspace r) (js_Endpoints r) (js_Supervisor r) (js_Services r)
  (js_Images r) (js_RegistryCutRoot r) (js_Recovery r) (js_State r) (js_Materialization r)
  (js_Checkpoint r) (js_Cleanup r) (js_CreatedAt r) (js_UpdatedAt r).
Definition set_js_Confinement (v : ConfinementRecord) (r : JournalSnapshot) : JournalSnapshot :=
  mkJournalSnapshot (js_SchemaVersion r) (js_SessionID r) (js_Capsule r) (js_Lineage r) (js_Mode r)
  (js_Tools r) (js_ExecutionBinding r) (js_OpenedGeneration r) (js_CurrentBase r) (js_CurrentPointer r)
  (js_ExpectedPointerRevision r) v (js_Lease r) (js_Workspace r) (js_Endpoints r) (js_Supervisor r)
  (js_Services r) (js_Images r) (js_RegistryCutRoot r) (js_Recovery r) (js_State r) (js_Materialization r)
  (js_Checkpoint r) (js_Cleanup r) (js_CreatedAt r) (js_UpdatedAt r).
Definition set_js_Lease (v : LeaseRecord) (r : JournalSnapshot) : JournalSnapshot :=
  mkJournalSnapshot (js_SchemaVersion r) (js_SessionID r) (js_Capsule r) (js_Lineage r) (js_Mode r)
  (js_Tools r) (js_ExecutionBinding r) (js_OpenedGeneration r) (js_CurrentBase r) (js_CurrentPointer r)
  (js_ExpectedPointerRevision r) (js_Confinement r) v (js_Workspace r) (js_Endpoints r) (js_Supervisor r)
  (js_Services r) (js_Images r) (js_RegistryCutRoot r) (js_Recovery r) (js_State r) (js_Materialization r)
  (js_Checkpoint r) (js_Cleanup r) (js_CreatedAt r) (js_UpdatedAt r).
Definition set_js_Workspace (v : WorkspaceRecord) (r : JournalSnapshot) : JournalSnapshot :=
  mkJournalSnapshot (js_SchemaVersion r) (js_SessionID r) (js_Capsule r) (js_Lineage r) (js_Mode r)
  (js_Tools r) (js_ExecutionBinding r) (js_OpenedGeneration r) (js_CurrentBase r) (js_CurrentPointer r)
  (js_ExpectedPointerRevision r) (js_Confinement r) (js_Lease r) v (js_Endpoints r) (js_Supervisor r)
  (js_Services r) (js_Images r) (js_RegistryCutRoot r) (js_Recovery r) (js_State r) (js_Materialization r)
  (js_Checkpoint r) (js_Cleanup r) (js_CreatedAt r) (js_UpdatedAt r).
Definition set_js_Endpoints (v : EndpointRecord) (r : JournalSnapshot) : JournalSnapshot :=
  mkJournalSnapshot (js_SchemaVersion r) (js_SessionID r) (js_Capsule r) (js_Lineage r) (js_Mode r)
  (js_Tools r) (js_ExecutionBinding r) (js_OpenedGeneration r) (js_CurrentBase r) (js_CurrentPointer r)
  (js_ExpectedPointerRevision r) (js_Confinement r) (js_Lease r) (js_Workspace r) v (js_Supervisor r)
  (js_Services r) (js_Images r) (js_RegistryCutRoot r) (js_Recovery r) (js_State r) (js_Materialization r)
  (js_Checkpoint r) (js_Cleanup r) (js_CreatedAt r) (js_UpdatedAt r).
Definition set_js_Supervisor (v : SupervisorRecord) (r : JournalSnapshot) : JournalSnapshot :=
  mkJournalSnapshot (js_SchemaVersion r) (js_SessionID r) (js_Capsule r) (js_Lineage r) (js_Mode r)
  (js_Tools r) (js_ExecutionBinding r) (js_OpenedGeneration r) (js_CurrentBase r) (js_CurrentPointer r)
  (js_ExpectedPointerRevision r) (js_Confinement r) (js_Lease r) (js_Workspace r) (js_Endpoints r) v
  (js_Services r) (js_Images r) (js_RegistryCutRoot r) (js_Recovery r) (js_State r) (js_Materialization r)
  (js_Checkpoint r) (js_Cleanup r) (js_CreatedAt r) (js_UpdatedAt r).
Definition set_js_Services (v : slice ServiceUnitRecord) (r : JournalSnapshot) : JournalSnapshot :=
  mkJournalSnapshot (js_SchemaVersion r) (js_SessionID r) (js_Capsule r) (js_Lineage r) (js_Mode r)
  (js_Tools r) (js_ExecutionBinding r) (js_OpenedGeneration r) (js_CurrentBase r) (js_CurrentPointer r)
  (js_ExpectedPointerRevision r) (js_Confinement r) (js_Lease r) (js_Workspace r) (js_Endpoints r)
  (js_Supervisor r) v (js_Images r) (js_RegistryCutRoot r) (js_Recovery r) (js_State r)
  (js_Materialization r) (js_Checkpoint r) (js_Cleanup r) (js_CreatedAt r) (js_UpdatedAt r).
Definition set_js_Images (v : ImageInventory) (r : JournalSnapshot) : JournalSnapshot :=
  mkJournalSnapshot (js_SchemaVersion r) (js_SessionID r) (js_Capsule r) (js_Lineage r) (js_Mode r)
  (js_Tools r) (js_ExecutionBinding r) (js_OpenedGeneration r) (js_CurrentBase r) (js_CurrentPointer r)
  (js_ExpectedPointerRevision r) (js_Confinement r) (js_Lease r) (js_Workspace r) (js_Endpoints r)
  (js_Supervisor r) (js_Services r) v (js_RegistryCutRoot r) (js_Recovery r) (js_State r)
  (js_Materialization r) (js_Checkpoint r) (js_Cleanup r) (js_CreatedAt r) (js_UpdatedAt r).
Definition set_js_RegistryCutRoot (v : string) (r : JournalSnapshot) : JournalSnapshot :=
  mkJournalSnapshot (js_SchemaVersion r) (js_SessionID r) (js_Capsule r) (js_Lineage r) (js_Mode r)
  (js_Tools r) (js_ExecutionBinding r) (js_OpenedGeneration r) (js_CurrentBase r) (js_CurrentPointer r)
  (js_ExpectedPointerRevision r) (js_Confinement r) (js_Lease r) (js_Workspace r) (js_Endpoints r)
  (js_Supervisor r) (js_Services r) (js_Images r) v (js_Recovery r) (js_State r) (js_Materialization r)
  (js_Checkpoint r) (js_Cleanup r) (js_CreatedAt r) (js_UpdatedAt r).
Definition set_js_Recovery (v : RecoveryRecord) (r : JournalSnapshot) : JournalSnapshot :=
  mkJournalSnapshot (js_SchemaVersion r) (js_SessionID r) (js_Capsule r) (js_Lineage r) (js_Mode r)
  (js_Tools r) (js_ExecutionBinding r) (js_OpenedGeneration r) (js_CurrentBase r) (js_CurrentPointer r)
  (js_ExpectedPointerRevision r) (js_Confinement r) (js_Lease r) (js_Workspace r) (js_Endpoints r)
  (js_Supervisor r) (js_Services r) (js_Images r) (js_RegistryCutRoot r) v (js_State r)
  (js_Materialization r) (js_Checkpoint r) (js_Cleanup r) (js_CreatedAt r) (js_UpdatedAt r).
Definition set_js_State (v : string) (r : JournalSnapshot) : JournalSnapshot :=
  mkJournalSnapshot (js_SchemaVersion r) (js_SessionID r) (js_Capsule r) (js_Lineage r) (js_Mode r)
  (js_Tools r) (js_ExecutionBinding r) (js_OpenedGeneration r) (js_CurrentBase r) (js_CurrentPointer r)
  (js_ExpectedPointerRevision r) (js_Confinement r) (js_Lease r) (js_Workspace r) (js_Endpoints r)
  (js_Supervisor r) (js_Services r) (js_Images r) (js_RegistryCutRoot r) (js_Recovery r) v
  (js_Materialization r) (js_Checkpoint r) (js_Cleanup r) (js_CreatedAt r) (js_UpdatedAt r).
Definition set_js_Materialization (v : Materialization) (r : JournalSnapshot) : JournalSnapshot :=
  mkJournalSnapshot (js_SchemaVersion r) (js_SessionID r) (js_Capsule r) (js_Lineage r) (js_Mode r)
  (js_Tools r) (js_ExecutionBinding r) (js_OpenedGeneration r) (js_CurrentBase r) (js_CurrentPointer r)
  (js_ExpectedPointerRevision r) (js_Confinement r) (js_Lease r) (js_Workspace r) (js_Endpoints r)
  (js_Supervisor r) (js_Services r) (js_Images r) (js_RegistryCutRoot r) (js_Recovery r) (js_State r) v
  (js_Checkpoint r) (js_Cleanup r) (js_CreatedAt r) (js_UpdatedAt r).
Definition set_js_Checkpoint (v : Checkpoint) (r : JournalSnapshot) : JournalSnapshot :=
  mkJournalSnapshot (js_SchemaVersion r) (js_SessionID r) (js_Capsule r) (js_Lineage r) (js_Mode r)
  (js_Tools r) (js_ExecutionBinding r) (js_OpenedGeneration r) (js_CurrentBase r) (js_CurrentPointer r)
  (js_ExpectedPointerRevision r) (js_Confinement r) (js_Lease r) (js_Workspace r) (js_Endpoints r)
  (js_Supervisor r) (js_Services r) (js_Images r) (js_RegistryCutRoot r) (js_Recovery r) (js_State r)
  (js_Materialization r) v (js_Cleanup r) (js_CreatedAt r) (js_UpdatedAt r).
Definition set_js_Cleanup (v : Cleanup) (r : JournalSnapshot) : JournalSnapshot :=
  mkJournalSnapshot (js_SchemaVersion r) (js_SessionID r) (js_Capsule r) (js_Lineage r) (js_Mode r)
  (js_Tools r) (js_ExecutionBinding r) (js_OpenedGeneration r) (js_CurrentBase r) (js_CurrentPointer r)
  (js_ExpectedPointerRevision r) (js_Confinement r) (js_Lease r) (js_Workspace r) (js_Endpoints r)
  (js_Supervisor r) (js_Services r) (js_Images r) (js_RegistryCutRoot r) (js_Recovery r) (js_State r)
  (js_Materialization r) (js_Checkpoint r) v (js_CreatedAt r) (js_UpdatedAt r).
Definition set_js_CreatedAt (v : Time) (r : JournalSnapshot) : JournalSnapshot :=
  mkJournalSnapshot (js_SchemaVersion r) (js_SessionID r) (js_Capsule r) (js_Lineage r) (js_Mode r)
  (js_Tools r) (js_ExecutionBinding r) (js_OpenedGeneration r) (js_CurrentBase r) (js_CurrentPointer r)
  (js_ExpectedPointerRevision r) (js_Confinement r) (js_Lease r) (js_Workspace r) (js_Endpoints r)
  (js_Supervisor r) (js_Services r) (js_Images r) (js_RegistryCutRoot r) (js_Recovery r) (js_State r)
  (js_Materialization r) (js_Checkpoint r) (js_Cleanup r) v (js_UpdatedAt r).
Definition set_js_UpdatedAt (v : Time) (r : JournalSnapshot) : JournalSnapshot :=
  mkJournalSnapshot (js_SchemaVersion r) (js_SessionID r) (js_Capsule r) (js_Lineage r) (js_Mode r)
  (js_Tools r) (js_ExecutionBinding r) (js_OpenedGeneration r) (js_CurrentBase r) (js_CurrentPointer r)
  (js_ExpectedPointerRevision r) (js_Confinement r) (js_Lease r) (js_Workspace r) (js_Endpoints r)
  (js_Supervisor r) (js_Services r) (js_Images r) (js_RegistryCutRoot r) (js_Recovery r) (js_State r)
  (js_Materialization r) (js_Checkpoint r) (js_Cleanup r) (js_CreatedAt r) v.

(** * Intents, facts and the log's envelope (ports/journal.go, journal/store.go) *)
(** [IntentRecord] (journal.go) *)
Record IntentRecord := mkIntentRecord {
  ir_ID : string;
  ir_SessionID : string;
  ir_Transition : string;
  ir_Attempt : Z;
  ir_Timestamp : Time;
  ir_Input : bytes }.

#[export] Instance IntentRecord_eq_dec : EqDecision IntentRecord.
Proof. solve_decision. Defined.

Definition IntentRecord_fields : fields _ :=
  FCons "id" false codec_string (
  FCons "sessionId" false codec_string (
  FCons "transition" false codec_string (
  FCons "attempt" false int_codec (
  FCons "timestamp" false codec_time (
  FCons "input" true raw_codec ( FNil)))))).
#[export] Instance IntentRecord_codec : Codec IntentRecord := codec_struct IntentRecord_fields
  (fun r => (ir_ID r, (ir_SessionID r, (ir_Transition r, (ir_Attempt r, (ir_Timestamp r, (ir_Input r,
  tt)))))))
  (fun t => let '(x0, (x1, (x2, (x3, (x4, (x5, _)))))) := t in mkIntentRecord x0 x1 x2 x3 x4 x5).
#[export] Instance IntentRecord_laws : CodecLaws IntentRecord _.
Proof. solve_struct_laws. Qed.

(** [PointerCommit] (journal.go) *)
Record PointerCommit := mkPointerCommit {
  pc_Pointer : LatestPointer;
  pc_Revision : string }.

#[export] Instance PointerCommit_eq_dec : EqDecision PointerCommit.
Proof. solve_decision. Defined.

Definition PointerCommit_fields : fields _ :=
  FCons "pointer" false (_ : Codec (LatestPointer)) (
  FCons "revision" false codec_string ( FNil)).
#[export] Instance PointerCommit_codec : Codec PointerCommit := codec_struct PointerCommit_fields
  (fun r => (pc_Pointer r, (pc_Revision r, tt)))
  (fun t => let '(x0, (x1, _)) := t in mkPointerCommit x0 x1).
#[export] Instance PointerCommit_laws : CodecLaws PointerCommit _.
Proof. solve_struct_laws. Qed.

(** [FactRecord] (journal.go) *)
Record FactRecord := mkFactRecord {
  fa_IntentID : string;
  fa_SessionID : string;
  fa_Transition : string;
  fa_Timestamp : Time;
  fa_Output : bytes;
  fa_Pointer : option PointerCommit }.

#[export] Instance FactRecord_eq_dec : EqDecision FactRecord.
Proof. solve_decision. Defined.

Definition FactRecord_fields : fields _ :=
  FCons "intentId" false codec_string (
  FCons "sessionId" false codec_string (
  FCons "transition" false codec_string (
  FCons "timestamp" false codec_time (
  FCons "output" true raw_codec (
  FCons "pointer" true (_ : Codec (option PointerCommit)) ( FNil)))))).
#[export] Instance FactRecord_codec : Codec FactRecord := codec_struct FactRecord_fields
  (fun r => (fa_IntentID r, (fa_SessionID r, (fa_Transition r, (fa_Timestamp r, (fa_Output r,
  (fa_Pointer r, tt)))))))
  (fun t => let '(x0, (x1, (x2, (x3, (x4, (x5, _)))))) := t in mkFactRecord x0 x1 x2 x3 x4 x5).
#[export] Instance FactRecord_laws : CodecLaws FactRecord _.
Proof. solve_struct_laws. Qed.

(** [envelope] (store.go) *)
Record envelope := mkenvelope {
  ev_Kind : string;
  ev_Intent : option IntentRecord;
  ev_Fact : option FactRecord;
  ev_Snapshot : option JournalSnapshot }.

#[export] Instance envelope_eq_dec : EqDecision envelope.
Proof. solve_decision. Defined.

Definition envelope_fields : fields _ :=
  FCons "kind" false codec_string (
  FCons "intent" true (_ : Codec (option IntentRecord)) (
  FCons "fact" true (_ : Codec (option FactRecord)) (
  FCons "snapshot" true (_ : Codec (option JournalSnapshot)) ( FNil)))).
#[export] Instance envelope_codec : Codec envelope := codec_struct envelope_fields
  (fun r => (ev_Kind r, (ev_Intent r, (ev_Fact r, (ev_Snapshot r, tt)))))
  (fun t => let '(x0, (x1, (x2, (x3, _)))) := t in mkenvelope x0 x1 x2 x3).
#[export] Instance envelope_laws : CodecLaws envelope _.
Proof. solve_struct_laws. Qed.

(** [OperationOwner] (operation_lock.go) *)
Record OperationOwner := mkOperationOwner {
  oo_SessionID : string;
  oo_Operation : string }.

#[export] Instance OperationOwner_eq_dec : EqDecision OperationOwner.
Proof. solve_decision. Defined.

Definition OperationOwner_fields : fields _ :=
  FCons "sessionId" false codec_string (
  FCons "operation" false codec_string ( FNil)).
#[export] Instance OperationOwner_codec : Codec OperationOwner := codec_struct OperationOwner_fields
  (fun r => (oo_SessionID r, (oo_Operation r, tt)))
  (fun t => let '(x0, (x1, _)) := t in mkOperationOwner x0 x1).
#[export] Instance OperationOwner_laws : CodecLaws OperationOwner _.
Proof. solve_struct_laws. Qed.

(** [OperationToken] (operation_lock.go) *)
Record OperationToken := mkOperationToken {
  ot_ID : string;
  ot_Owner : OperationOwner;
  ot_Identity : ProcessIdentity }.

#[export] Instance OperationToken_eq_dec : EqDecision OperationToken.
Proof. solve_decision. Defined.

Definition OperationToken_fields : fields _ :=
  FCons "id" false codec_string (
  FCons "owner" false (_ : Codec (OperationOwner)) (
  FCons "identity" false (_ : Codec (ProcessIdentity)) ( FNil))).
#[export] Instance OperationToken_codec : Codec OperationToken := codec_struct OperationToken_fields
  (fun r => (ot_ID r, (ot_Owner r, (ot_Identity r, tt))))
  (fun t => let '(x0, (x1, (x2, _))) := t in mkOperationToken x0 x1 x2).
#[export] Instance OperationToken_laws : CodecLaws OperationToken _.
Proof. solve_struct_laws. Qed.

