(* ===== verification/Journal.v ===== *)
(** journal.Store (journal/store.go): the write-ahead journal of a session.

    The state is the part of the file system the store owns: the session directories
    under sessions/, and the staging directories under sessions/.creating/, each a map
    from file names to contents.  A session has a log (journal.jsonl, one envelope per
    line) and a snapshot (snapshot.json); loading replays the log over the snapshot.
    The two test hooks of the store are parameters.  Operations on one session hold
    its exclusive file lock, so they run one after the other. *)
From S2P Require Import Prelude Sha256 GoTime Json Codec JsonLines Regexp Domain Snapshot Effects.

Abbreviation dir := (gmap string bytes) (only parsing).

Record jfs := mkJfs { j_sessions : gmap string dir; j_creating : gmap string dir }.

Definition creationDirectory : string := ".creating".
Definition journalFilename : string := "journal.jsonl".
Definition snapshotFilename : string := "snapshot.json".
Definition snapshotPartial : string := ".snapshot.partial".

Inductive CreateStep := CreateAfterJournalSync | CreateAfterSnapshotSync | CreateAfterCommitSync.

(** A directory the store works in. *)
Inductive place := Session (id : string) | Staging (name : string).

Definition get_dir (p : place) (f : jfs) : option dir :=
  match p with Session id => j_sessions f !! id | Staging n => j_creating f !! n end.
Definition set_dir (p : place) (d : dir) (f : jfs) : jfs :=
  match p with
  | Session id => mkJfs (<[id := d]> (j_sessions f)) (j_creating f)
  | Staging n => mkJfs (j_sessions f) (<[n := d]> (j_creating f))
  end.

(** * System calls *)
Definition read_file (p : place) (name : string) (f : jfs) : result bytes :=
  match get_dir p f with
  | Some d => match d !! name with Some b => Ok b | None => Err ErrNotExist end
  | None => Err ErrNotExist
  end.

Definition ReadFile (p : place) (name : string) : io jfs (result bytes) := inspect (read_file p name).

(** [os.OpenFile] without O_CREATE, and [os.Stat]. *)
Definition open_existing (p : place) (name : string) : io jfs (result unit) :=
  inspect (fun f => let! _ := read_file p name f in Ok tt).

Definition create_exclusive (p : place) (name : string) : io jfs (result unit) :=
  atomic (fun f =>
    match get_dir p f with
    | None => (Err ErrNotExist, f)
    | Some d =>
        match d !! name with
        | Some _ => (Err ErrExist, f)
        | None => (Ok tt, set_dir p (<[name := ""]> d) f)
        end
    end).

(** [file.Write] at the end of a file: a failed or interrupted write may leave a
    prefix. *)
Definition append_bytes (p : place) (name : string) (b : bytes) (f : jfs) : jfs :=
  match get_dir p f with
  | None => f
  | Some d => match d !! name with Some old => set_dir p (<[name := old +:+ b]> d) f | None => f end
  end.

Definition write_end (p : place) (name : string) (b : bytes) : io jfs (result unit) :=
  syscall (fun n => append_bytes p name (str_take n b)) (fun f => (Ok tt, append_bytes p name b f)).

Definition remove_file (p : place) (name : string) : io jfs (result unit) :=
  atomic (fun f =>
    match get_dir p f with
    | None => (Err ErrNotExist, f)
    | Some d => match d !! name with Some _ => (Ok tt, set_dir p (delete name d) f) | None => (Err ErrNotExist, f) end
    end).

(** [os.Rename] of a file within its directory. *)
Definition rename_file (p : place) (from to : string) : io jfs (result unit) :=
  atomic (fun f =>
    match get_dir p f with
    | None => (Err ErrNotExist, f)
    | Some d =>
        match d !! from with
        | Some b => (Ok tt, set_dir p (<[to := b]> (delete from d)) f)
        | None => (Err ErrNotExist, f)
        end
    end).

(** Open and sync of a directory. *)
Definition syncDirectory : io jfs (result unit) :=
  do! _ := may_fail in may_fail.

(** [os.MkdirTemp]: random digits in place of the last star of the pattern, or at its
    end, for a bounded number of attempts. *)
Fixpoint split_last (c : ascii) (s : string) : option (string * string) :=
  match s with
  | EmptyString => None
  | String d s' =>
      match split_last c s' with
      | Some (a, b) => Some (String d a, b)
      | None => if bool_decide (d = c) then Some ("", s') else None
      end
  end.

Definition temp_name (pattern random : string) : string :=
  match split_last "*" pattern with
  | Some (prefix, suffix) => prefix +:+ random +:+ suffix
  | None => pattern +:+ random
  end.

Fixpoint mkdir_temp (attempts : nat) (pattern : string) : io jfs (result string) :=
  match attempts with
  | O => io_ret (Err ErrExist)
  | S attempts' =>
      do! random := rand_read in
      let name := temp_name pattern random in
      made <~ atomic (fun f =>
        match j_creating f !! name with
        | Some _ => (Err ErrExist, f)
        | None => (Ok tt, mkJfs (j_sessions f) (<[name := ∅]> (j_creating f)))
        end);
      match made with
      | Ok _ => io_ret (Ok name)
      | Err e => if errors_Is e ErrExist then mkdir_temp attempts' pattern else io_ret (Err e)
      end
  end.

(** [os.RemoveAll] of a staging directory. *)
Definition remove_staging (name : string) : io jfs (result unit) :=
  atomic (fun f => (Ok tt, mkJfs (j_sessions f) (delete name (j_creating f)))).

(** [os.Rename] of a staging directory to a session: refused when the session is
    there. *)
Definition commit_staging (name id : string) : io jfs (result unit) :=
  atomic (fun f =>
    match j_sessions f !! id with
    | Some _ => (Err ErrExist, f)
    | None =>
        match j_creating f !! name with
        | Some d => (Ok tt, mkJfs (<[id := d]> (j_sessions f)) (delete name (j_creating f)))
        | None => (Err ErrNotExist, f)
        end
    end).

(** [os.Lstat] of a session's directory; the directory of the stages is a name
    validateSessionID accepts. *)
Definition lstat_session (id : string) : io jfs (result unit) :=
  inspect (fun f =>
    if str_eqb id creationDirectory then Ok tt
    else match j_sessions f !! id with Some _ => Ok tt | None => Err ErrNotExist end).

(** * Validation and pure parts *)
Definition validateSessionID (sessionID : string) : result unit :=
  if str_eqb sessionID "" || str_eqb sessionID "." || str_eqb sessionID ".." || ContainsAny sessionID key_separators
  then Err (ErrText "invalid journal session id") else Ok tt.

Definition validateIntent (intent : IntentRecord) : result unit :=
  let! _ := validateSessionID (ir_SessionID intent) in
  if str_eqb (ir_ID intent) "" || ContainsAny (ir_ID intent) key_separators || str_eqb (ir_Transition intent) "" ||
     (ir_Attempt intent <? 1) || IsZero (ir_Timestamp intent)
  then Err (ErrText "invalid journal intent")
  else if (0 <? str_len (ir_Input intent)) && negb (Valid (ir_Input intent))
  then Err (ErrText "invalid journal intent input") else Ok tt.

Definition validateFact (fact : FactRecord) (snapshotID : string) : result unit :=
  let! _ := validateSessionID (fa_SessionID fact) in
  if negb (str_eqb (fa_SessionID fact) snapshotID) || str_eqb (fa_IntentID fact) "" ||
     str_eqb (fa_Transition fact) "" || IsZero (fa_Timestamp fact)
  then Err (ErrText "invalid journal fact")
  else if (0 <? str_len (fa_Output fact)) && negb (Valid (fa_Output fact))
  then Err (ErrText "invalid journal fact output") else Ok tt.

Definition completePointerCommit (snapshot : JournalSnapshot) (commit : option PointerCommit) : bool :=
  match commit with
  | None => false
  | Some c =>
      if str_eqb (pc_Revision c) "" then false
      else
      let pointer := pc_Pointer c in
      (lp_SchemaVersion pointer =? SchemaVersion) &&
      negb (str_eqb (lp_Capsule pointer) "") && str_eqb (lp_Capsule pointer) (js_Capsule snapshot) &&
      bool_decide (lp_Lineage pointer = js_Lineage snapshot) && negb (str_eqb (ln_Branch (lp_Lineage pointer)) "") &&
      negb (gr_Generation (lp_Generation pointer) =? 0) && (str_len (gr_ArchiveSHA256 (lp_Generation pointer)) =? 64) &&
      negb (str_eqb (lp_ObjectKey pointer) "") && (0 <=? lp_Size pointer) && negb (IsZero (lp_CreatedAt pointer)) &&
      negb (str_eqb (lp_SessionID pointer) "")
  end.

Definition reduceFact (snapshot : JournalSnapshot) (fact : FactRecord) : result JournalSnapshot :=
  if str_eqb (fa_Transition fact) "PointerCommitted" then
    match fa_Pointer fact with
    | Some c =>
        if completePointerCommit snapshot (Some c) then
          let snapshot := set_js_CurrentBase (Some (lp_Generation (pc_Pointer c))) snapshot in
          let snapshot := set_js_CurrentPointer (Some (pc_Pointer c)) snapshot in
          let snapshot := set_js_ExpectedPointerRevision (pc_Revision c) snapshot in
          Ok (set_js_UpdatedAt (fa_Timestamp fact) snapshot)
        else Err (ErrText "PointerCommitted fact lacks complete pointer")
    | None => Err (ErrText "PointerCommitted fact lacks complete pointer")
    end
  else Ok (set_js_UpdatedAt (fa_Timestamp fact) snapshot).

Definition leaseKeepingTransitions : list string :=
  ["WorkspaceMirrored"; "WorkspaceImagesInventoried"; "RootSnapshotStable"; "GenerationUploaded"; "PointerCommitted"].

Definition composeFactSnapshot (current candidate : JournalSnapshot) (transition : string) : JournalSnapshot :=
  let candidate := set_js_ExecutionBinding (js_ExecutionBinding current) candidate in
  if str_eqb transition "LeaseRenewed" then set_js_Lease (js_Lease candidate) current
  else if str_eqb transition "ServingContentRefreshed" then set_js_Services (js_Services candidate) current
  else if str_eqb transition "ServiceStart" || str_eqb transition "ServiceRestart" then
    if negb (bool_decide (js_Services current = js_Services candidate))
    then set_js_Services (js_Services candidate) current
    else set_js_Lease (js_Lease current) candidate
  else if str_eqb transition "RegistrySnapshotSealed" then
    set_js_Services (js_Services current) (set_js_Lease (js_Lease current) candidate)
  else if bool_decide (transition ∈ leaseKeepingTransitions) then set_js_Lease (js_Lease current) candidate
  else candidate.

(** * Loading *)
Definition newline : ascii := byte_of 10.

(** The chunks [ReadBytes('\n')] delivers: the lines with their newline, and what
    follows the last one. *)
Fixpoint read_lines (s : string) (cur : string) : list string :=
  match s with
  | EmptyString => if str_eqb cur "" then [] else [cur]
  | String c s' =>
      if bool_decide (c = newline) then (cur +:+ String c "") :: read_lines s' ""
      else read_lines s' (cur +:+ String c "")
  end.

Abbreviation pending_map := (gmap string IntentRecord) (only parsing).

(** One entry of the log. *)
Definition apply_entry (sessionID : string) (entry : envelope) (st : JournalSnapshot * pending_map)
    : result (JournalSnapshot * pending_map) :=
  let '(snapshot, pending) := st in
  if str_eqb (ev_Kind entry) "intent" then
    match ev_Intent entry with
    | Some intent =>
        if negb (str_eqb (ir_SessionID intent) sessionID) then Err (ErrText "invalid intent journal entry")
        else Ok (snapshot, <[ir_ID intent := intent]> pending)
    | None => Err (ErrText "invalid intent journal entry")
    end
  else if str_eqb (ev_Kind entry) "fact" then
    match ev_Fact entry, ev_Snapshot entry with
    | Some fact, Some snap =>
        if negb (str_eqb (fa_SessionID fact) sessionID) then Err (ErrText "invalid fact journal entry")
        else match pending !! fa_IntentID fact with
        | None => Err (ErrText "fact references unknown intent")
        | Some _ => Ok (snap, delete (fa_IntentID fact) pending)
        end
    | _, _ => Err (ErrText "invalid fact journal entry")
    end
  else Err (ErrText "unknown journal entry kind").

Fixpoint replay_lines (sessionID : string) (lines : list string) (st : JournalSnapshot * pending_map)
    : result (JournalSnapshot * pending_map) :=
  match lines with
  | [] => Ok st
  | line :: rest =>
      match Unmarshal line with
      | None => Err (ErrText "decode journal entry")
      | Some entry => let! st' := apply_entry sessionID entry st in replay_lines sessionID rest st'
      end
  end.

(** The pending intents in the order of their ids. *)
Definition sort_pending (pending : pending_map) : list IntentRecord :=
  map snd (sort_slice (fun a b => str_ltb a.1 b.1) (map_to_list pending)).

Definition readSnapshot (p : place) : io jfs (result JournalSnapshot) :=
  do! body := ReadFile p snapshotFilename in
  match Unmarshal body with
  | None => io_ret (Err (ErrText "decode journal snapshot"))
  | Some snapshot => io_ret (Ok snapshot)
  end.

Definition Load (sessionID : string) : io jfs (result (JournalSnapshot * list IntentRecord)) :=
  do! _ := ctx_err in
  expr! _ := validateSessionID sessionID in
  do! snapshot := readSnapshot (Session sessionID) in
  do! _ := open_existing (Session sessionID) journalFilename in
  do! text := ReadFile (Session sessionID) journalFilename in
  match replay_lines sessionID (read_lines text "") (snapshot, ∅) with
  | Ok (snapshot, pending) => io_ret (Ok (snapshot, sort_pending pending))
  | Err e => io_ret (Err e)
  end.

(** * Writing *)
Definition marshal_io {A} `{Codec A} (a : A) : result bytes :=
  match Marshal a with Some text => Ok text | None => Err (ErrText "json: unsupported value") end.

Definition append (sessionID : string) (entry : envelope) : io jfs (result unit) :=
  do! _ := open_existing (Session sessionID) journalFilename in
  written <~ match marshal_io entry with
             | Ok body =>
                 do! _ := write_end (Session sessionID) journalFilename (body +:+ String newline "") in may_fail
             | Err e => io_ret (Err e)
             end;
  closed <~ may_fail;
  match written, closed with
  | Err e, _ => io_ret (Err e)
  | Ok _, Err e => io_ret (Err e)
  | Ok _, Ok _ => io_ret (Ok tt)
  end.

(** The cleanup closure of writeSnapshot, before an error is returned. *)
Definition drop_partial (p : place) (e : error) : io jfs (result unit) :=
  _ <~ remove_file p snapshotPartial; io_ret (Err e).

Section store.
  (** The hooks the store was built with. *)
  Context (beforeSnapshotRename : result unit) (createStepHook : CreateStep -> result unit).

Definition writeSnapshot (p : place) (snapshot : JournalSnapshot) (replace : bool) : io jfs (result unit) :=
  expr! body := marshal_io snapshot in
  do! _ := create_exclusive p snapshotPartial in
  written <~ write_end p snapshotPartial body;
  match written with
  | Err e => _ <~ may_fail; drop_partial p e
  | Ok _ =>
  synced <~ may_fail;
  match synced with
  | Err e => _ <~ may_fail; drop_partial p e
  | Ok _ =>
  closed <~ may_fail;
  match closed with
  | Err e => drop_partial p e
  | Ok _ =>
  match beforeSnapshotRename with
  | Err e => drop_partial p e
  | Ok _ =>
  exists_ <~ (if replace then io_ret (Err ErrNotExist) else open_existing p snapshotFilename);
  match exists_ with
  | Ok _ => drop_partial p ErrExist
  | Err _ =>
  renamed <~ rename_file p snapshotPartial snapshotFilename;
  match renamed with
  | Err e => drop_partial p e
  | Ok _ =>
  do! _ := may_fail in
  syncDirectory
  end end end end end end.

Definition acceptExistingInitialSession (expected : JournalSnapshot) : io jfs (result unit) :=
  let id := js_SessionID expected in
  info <~ ReadFile (Session id) journalFilename;
  match info with
  | Ok "" =>
      loaded <~ Load id;
      match loaded with
      | Ok (actual, []) =>
          match Marshal expected, Marshal actual with
          | Some wantBody, Some actualBody =>
              if str_eqb wantBody actualBody then io_ret (Ok tt)
              else io_ret (Err (ErrText "journal session already exists with different initial state"))
          | _, _ => io_ret (Err (ErrText "journal session already exists with different initial state"))
          end
      | _ => io_ret (Err (ErrText "journal session already exists"))
      end
  | _ => io_ret (Err (ErrText "journal session already exists"))
  end.

(** The body of Create after the staging directory was made, with whether the
    deferred clean-up is to remove it. *)
Definition create_staged (staging : string) (snapshot : JournalSnapshot) : io jfs (result unit * bool) :=
  let p := Staging staging in
  let stop (r : result unit) (cleanup : bool) : io jfs (result unit * bool) := io_ret (r, cleanup) in
  let step (q : io jfs (result unit)) (k : io jfs (result unit * bool)) : io jfs (result unit * bool) :=
    r <~ q; match r with Ok _ => k | Err e => stop (Err e) true end in
  step may_fail (
  step syncDirectory (
  step (create_exclusive p journalFilename) (
  synced <~ may_fail;
  match synced with
  | Err e => _ <~ may_fail; stop (Err e) true
  | Ok _ =>
  step may_fail (
  step syncDirectory (
  match createStepHook CreateAfterJournalSync with
  | Err e => stop (Err e) false
  | Ok _ =>
  step (writeSnapshot p snapshot false) (
  match createStepHook CreateAfterSnapshotSync with
  | Err e => stop (Err e) false
  | Ok _ =>
  renamed <~ commit_staging staging (js_SessionID snapshot);
  match renamed with
  | Err e =>
      stat <~ lstat_session (js_SessionID snapshot);
      match stat with
      | Ok _ => r <~ acceptExistingInitialSession snapshot; stop r true
      | Err _ => stop (Err e) true
      end
  | Ok _ =>
      synced1 <~ syncDirectory;
      match synced1 with
      | Err e => stop (Err e) false
      | Ok _ =>
          synced2 <~ syncDirectory;
          match synced2 with
          | Err e => stop (Err e) false
          | Ok _ => stop (createStepHook CreateAfterCommitSync) false
          end
      end
  end end) end)) end))).

Definition Create (snapshot : JournalSnapshot) : io jfs (result unit) :=
  do! _ := ctx_err in
  expr! _ := validateSessionID (js_SessionID snapshot) in
  stat <~ lstat_session (js_SessionID snapshot);
  match stat with
  | Ok _ => acceptExistingInitialSession snapshot
  | Err e =>
      if negb (errors_Is e ErrNotExist) then io_ret (Err e)
      else
      do! staging := mkdir_temp 10000 (js_SessionID snapshot +:+ "-") in
      staged <~ create_staged staging snapshot;
      _ <~ (if staged.2 then remove_staging staging else io_ret (Ok tt));
      io_ret staged.1
  end.

Definition RecordIntent (intent : IntentRecord) : io jfs (result unit) :=
  do! _ := ctx_err in
  expr! _ := validateIntent intent in
  do! _ := open_existing (Session (ir_SessionID intent)) journalFilename in
  do! _ := may_fail in
  append (ir_SessionID intent) (mkenvelope "intent" (Some intent) None None).

Definition BindExecution (sessionID : string) (binding : ExecutionBinding) : io jfs (result unit) :=
  do! _ := ctx_err in
  expr! _ := validateSessionID sessionID in
  expr! _ := ExecutionBinding_Validate binding in
  do! _ := open_existing (Session sessionID) journalFilename in
  do! _ := may_fail in
  do! (snapshot, _) := Load sessionID in
  match js_ExecutionBinding snapshot with
  | Some bound => if negb (bool_decide (bound = binding)) then io_ret (Err ErrExecutionRetarget) else io_ret (Ok tt)
  | None =>
      do! text := ReadFile (Session sessionID) journalFilename in
      if negb (str_len text =? 0) then io_ret (Err ErrExecutionAlreadyStarted)
      else writeSnapshot (Session sessionID) (set_js_ExecutionBinding (Some binding) snapshot) true
  end.

Definition Binding (sessionID : string) : io jfs (result (option ExecutionBinding)) :=
  do! (snapshot, _) := Load sessionID in
  io_ret (Ok (js_ExecutionBinding snapshot)).

Definition RecordFact (fact : FactRecord) (snapshot : JournalSnapshot) : io jfs (result unit) :=
  do! _ := ctx_err in
  expr! _ := validateFact fact (js_SessionID snapshot) in
  do! _ := open_existing (Session (fa_SessionID fact)) journalFilename in
  do! _ := may_fail in
  do! (current, _) := Load (fa_SessionID fact) in
  if (match js_ExecutionBinding snapshot with
      | Some b => negb (bool_decide (js_ExecutionBinding current = Some b))
      | None => false
      end)
  then io_ret (Err ErrExecutionRetarget)
  else
  let composed := composeFactSnapshot current snapshot (fa_Transition fact) in
  expr! reduced := reduceFact composed fact in
  do! _ := append (fa_SessionID fact) (mkenvelope "fact" None (Some fact) (Some reduced)) in
  writeSnapshot (Session (fa_SessionID fact)) reduced true.
End store.

(** The sessions in the order of their directory names, each loaded and checked. *)
Fixpoint load_all (names : list string) (acc : list JournalSnapshot) : io jfs (result (list JournalSnapshot)) :=
  match names with
  | [] => io_ret (Ok acc)
  | name :: rest =>
      if str_eqb name creationDirectory then load_all rest acc
      else
      do! (snapshot, _) := Load name in
      if negb (str_eqb (js_SessionID snapshot) name)
      then io_ret (Err (ErrText "journal snapshot identity does not match session directory"))
      else load_all rest (acc ++ [snapshot])
  end.

Definition SessionList : io jfs (result (list JournalSnapshot)) :=
  do! _ := ctx_err in
  do! names := inspect (fun f => Ok (sort_slice str_ltb (elements (dom (j_sessions f))))) in
  do! snapshots := load_all names [] in
  io_ret (Ok (sort_slice (fun a b => str_ltb (js_SessionID a) (js_SessionID b)) snapshots)).

(** * Lemmas *)

(** ** The log as text *)
Definition clean_log (text : bytes) : Prop := text = "" \/ last_byte text = Some newline.

Lemma newline_line s : one_line s = true -> str_all (fun c => negb (bool_decide (c = newline))) s = true.
Proof.
  apply str_all_impl. intros c Hc. apply negb_true_iff, bool_decide_eq_false. intros ->. done.
Qed.

Lemma read_lines_app text cur line :
  one_line line = true -> clean_log text -> (text = "" -> cur = "") ->
  read_lines (text +:+ line +:+ String newline "") cur = read_lines text cur ++ [line +:+ String newline ""].
Proof.
  intros Hl. assert (forall l cur, one_line l = true ->
    read_lines (l +:+ String newline "") cur = [cur +:+ l +:+ String newline ""]) as Hline.
  { intros l. induction l as [|c l IH]; intros cu Hc; [by rewrite !(eq_refl : "" +:+ String newline "" = String newline "")|].
    pose proof (newline_line _ Hc) as Hn. unfold one_line in *. simpl in Hc, Hn. bool_norm. rewrite str_app_cons.
    cbn [read_lines]. rewrite bool_decide_false by done. rewrite IH by done. f_equal.
    by rewrite (str_app_assoc cu). }
  revert cur. induction text as [|c text IH]; intros cur Hc Hcur.
  - rewrite (Hcur eq_refl). change ("" +:+ ?x) with x. by rewrite Hline.
  - rewrite str_app_cons. cbn [read_lines]. destruct text as [|d text].
    + destruct Hc as [?|Hc]; [done|]. injection Hc as ->. rewrite bool_decide_true by done. cbn [app]. f_equal.
      change ("" +:+ ?x) with x. by rewrite Hline.
    + assert (clean_log (String d text)) as Hc' by (right; by destruct Hc).
      destruct (bool_decide (c = newline)); [cbn [app]; f_equal|]; by rewrite IH.
Qed.

Lemma clean_log_app text line : clean_log (text +:+ line +:+ String newline "").
Proof. right. by rewrite <-str_app_assoc, last_byte_app. Qed.

Lemma replay_app id a b st :
  replay_lines id (a ++ b) st = (let! st' := replay_lines id a st in replay_lines id b st').
Proof.
  revert st. induction a as [|l a IH]; intros st; [done|]. simpl. destruct (Unmarshal l) as [e|]; [|done].
  destruct (apply_entry id e st) as [st'|]; [apply IH|done].
Qed.

(** The pending intents a log leaves do not depend on the snapshot it starts from. *)
Lemma replay_pending id lines s0 p s p' :
  replay_lines id lines (s0, p) = Ok (s, p') -> forall s0', exists s', replay_lines id lines (s0', p) = Ok (s', p').
Proof.
  revert s0 p. induction lines as [|l lines IH]; intros s0 p H s0'; simpl in *.
  { injection H as <- <-. by eexists. }
  destruct (Unmarshal l) as [e|]; [|done]. unfold apply_entry in *.
  destruct (str_eqb (ev_Kind e) "intent").
  { destruct (ev_Intent e) as [i|]; [|done]. destruct (negb _); [done|]. simpl in *. by eapply IH. }
  destruct (str_eqb (ev_Kind e) "fact"); [|done]. destruct (ev_Fact e) as [fa|]; [|done].
  destruct (ev_Snapshot e) as [sn|]; [|done]. destruct (negb _); [done|].
  destruct (p !! fa_IntentID fa); [|done]. simpl in *. by eexists.
Qed.

(** ** Sessions on disk *)

(** The session's directory loads to a snapshot and pending intents, and its log ends
    with a complete line. *)
Definition loads (f : jfs) (id : string) (st : JournalSnapshot * pending_map) : Prop :=
  exists d stext s0 text,
    j_sessions f !! id = Some d /\ d !! snapshotFilename = Some stext /\ Unmarshal stext = Some s0 /\
    d !! journalFilename = Some text /\ clean_log text /\
    replay_lines id (read_lines text "") (s0, ∅) = Ok st.

Definition session_dir (f : jfs) (id : string) : option dir := j_sessions f !! id.

(** The log with one more entry. *)
Lemma loads_append f id st entry text st' :
  loads f id st -> Marshal entry = Some text -> one_line text = true ->
  Unmarshal (text +:+ String newline "") = Some entry -> apply_entry id entry st = Ok st' ->
  loads (append_bytes (Session id) journalFilename (text +:+ String newline "") f) id st'.
Proof.
  intros (d & stext & s0 & log & Hd & Hs & Hu & Hl & Hc & Hr) Hm Hone Hun Ha.
  unfold append_bytes, get_dir. rewrite Hd, Hl. exists (<[journalFilename := log +:+ text +:+ String newline ""]> d), stext, s0.
  exists (log +:+ text +:+ String newline ""). cbn [set_dir j_sessions].
  split; [apply lookup_insert_eq|]. split; [by rewrite (lookup_insert_ne d journalFilename snapshotFilename)|]. split; [done|]. split; [apply lookup_insert_eq|].
  split; [apply clean_log_app|]. rewrite read_lines_app by done. rewrite replay_app, Hr. simpl.
  rewrite Hun, Ha. done.
Qed.

(** ** Directories *)
Lemma get_set_dir p d f : get_dir p (set_dir p d f) = Some d.
Proof. destruct p; cbn; apply lookup_insert_eq. Qed.

Lemma set_set_dir p d d' f : set_dir p d (set_dir p d' f) = set_dir p d f.
Proof. destruct p; cbn; by rewrite insert_insert_eq. Qed.

Lemma set_dir_id p d f : get_dir p f = Some d -> set_dir p d f = f.
Proof. destruct f. destruct p; cbn; intros; by rewrite insert_id. Qed.

(** Only the partial snapshot of a directory may differ. *)
Definition partial_only (p : place) (d : dir) (f g : jfs) : Prop :=
  exists d', g = set_dir p d' f /\ forall n, n <> snapshotPartial -> d' !! n = d !! n.

Lemma partial_only_refl p d f : get_dir p f = Some d -> partial_only p d f f.
Proof. intros H. exists d. by rewrite set_dir_id. Qed.

Lemma partial_only_set p d f g d' :
  partial_only p d f g -> (forall n, n <> snapshotPartial -> d' !! n = d !! n) -> partial_only p d f (set_dir p d' g).
Proof. intros (d1 & -> & _) H. exists d'. by rewrite set_set_dir. Qed.

Lemma partial_only_append p d f g b :
  partial_only p d f g -> partial_only p d f (append_bytes p snapshotPartial b g).
Proof.
  intros (d1 & -> & H). unfold append_bytes. rewrite get_set_dir.
  destruct (d1 !! snapshotPartial) as [old|]; [|by exists d1].
  rewrite set_set_dir. exists (<[snapshotPartial := old +:+ b]> d1). split; [done|]. intros n Hn.
  rewrite lookup_insert_ne by done. by apply H.
Qed.

Lemma partial_only_remove p d f g o g' :
  partial_only p d f g -> runs (remove_file p snapshotPartial) g o g' -> partial_only p d f g'.
Proof.
  intros (d1 & -> & H) [[_ ->]|[-> _]]%runs_atomic; [|by exists d1].
  rewrite get_set_dir. destruct (d1 !! snapshotPartial); cbn [snd]; [|by exists d1].
  rewrite set_set_dir. exists (delete snapshotPartial d1). split; [done|]. intros n Hn.
  rewrite lookup_delete_ne by done. by apply H.
Qed.

(** ** writeSnapshot *)

(** What a snapshot write leaves: the partial file may be there, the snapshot is the
    old or the new one. *)
Definition snapshot_write (p : place) (d : dir) (f g : jfs) (body : option bytes) : Prop :=
  exists d', g = set_dir p d' f /\
    (forall n, n <> snapshotPartial -> n <> snapshotFilename -> d' !! n = d !! n) /\
    (d' !! snapshotFilename = d !! snapshotFilename \/
     (is_Some body /\ d' !! snapshotFilename = body /\ d' !! snapshotPartial = None)).

Lemma partial_only_write p d f g body : partial_only p d f g -> snapshot_write p d f g body.
Proof.
  intros (d' & -> & H). exists d'. split; [done|]. split; [by intros n Hn _; apply H|]. left. by apply H.
Qed.

Lemma drop_partial_spec p d f e g o g' body :
  partial_only p d f g -> runs (drop_partial p e) g o g' ->
  snapshot_write p d f g' body /\ o <> Done (Ok tt).
Proof.
  intros Hp [[-> H]|(a & g1 & H1 & H2)]%runs_bind.
  - split; [|done]. by eapply partial_only_write, partial_only_remove.
  - apply runs_ret in H2 as [-> ->]. split; [|done]. by eapply partial_only_write, partial_only_remove.
Qed.

(** The outcome of a snapshot write: success means the new snapshot is in place. *)
Definition snapshot_written (p : place) (d : dir) (f : jfs) (body : bytes) (o : outcome (result unit)) (g : jfs) : Prop :=
  snapshot_write p d f g (Some body) /\ (o = Done (Ok tt) -> g = set_dir p (<[snapshotFilename := body]> d) f).

Lemma written_failed p d f body o g : partial_only p d f g -> o <> Done (Ok tt) -> snapshot_written p d f body o g.
Proof. intros H Ho. split; [by apply partial_only_write|done]. Qed.

Lemma written_dropped p d f body e g o g' :
  partial_only p d f g -> runs (drop_partial p e) g o g' -> snapshot_written p d f body o g'.
Proof. intros Hp H. apply (drop_partial_spec _ _ _ _ _ _ _ (Some body) Hp) in H as [??]. by split. Qed.

Lemma rename_partial_spec p f d d1 body o g :
  d1 !! snapshotPartial = Some body -> (forall n, n <> snapshotPartial -> d1 !! n = d !! n) ->
  d !! snapshotPartial = None ->
  runs (rename_file p snapshotPartial snapshotFilename) (set_dir p d1 f) o g ->
  (o = Done (Ok tt) /\ g = set_dir p (<[snapshotFilename := body]> d) f) \/
  (g = set_dir p d1 f /\ (o = Done (Err ErrIO) \/ o = Crashed)).
Proof.
  intros Hb Ho Hd [[-> ->]|[-> H]]%runs_atomic; [left|by right]. rewrite get_set_dir, Hb. cbn. split; [done|].
  rewrite set_set_dir. f_equal. apply map_eq. intros n. destruct (decide (n = snapshotFilename)) as [->|Hn].
  { by rewrite !lookup_insert_eq. }
  rewrite !lookup_insert_ne by done. destruct (decide (n = snapshotPartial)) as [->|Hn'].
  - by rewrite lookup_delete_eq.
  - rewrite lookup_delete_ne by done. by apply Ho.
Qed.

Lemma reads_syncDirectory : reads syncDirectory.
Proof. unfold syncDirectory. solve_reads. Qed.

Lemma reads_open_existing p n : reads (open_existing p n).
Proof. apply reads_inspect. Qed.
#[export] Hint Resolve reads_syncDirectory reads_open_existing : camp.

Lemma writeSnapshot_spec hook p snapshot replace f d body o f' :
  get_dir p f = Some d -> Marshal snapshot = Some body ->
  runs (writeSnapshot hook p snapshot replace) f o f' -> snapshot_written p d f body o f'.
Proof.
  intros Hd Hm. unfold writeSnapshot, marshal_io. rewrite Hm. pose proof (partial_only_refl p d f Hd) as Hp0.
  intros [[-> H]|[(e & -> & H)|([] & f1 & H1 & H)]]%runs_do.
  1,2: apply written_failed; [|done]; apply runs_atomic in H as [[Hx ->]|[-> _]]; [|done];
    rewrite Hd in *; by destruct (d !! snapshotPartial).
  apply runs_atomic in H1 as [[Hx ->]|[-> [|]]]; [|done..]. rewrite Hd in *.
  destruct (d !! snapshotPartial) as [|] eqn:Hdp; [done|]. cbn [snd] in *. clear Hx.
  assert (partial_only p d f (set_dir p (<[snapshotPartial := ""]> d) f)) as Hp1.
  { apply partial_only_set; [done|]. intros n Hn. by rewrite lookup_insert_ne. }
  apply runs_bind in H as [[-> H]|(r & g & H1 & H)].
  { apply written_failed; [|done]. apply runs_syscall in H as [[? ->]|(n & -> & _)]; by apply partial_only_append. }
  destruct r as [[]|e].
  2: { assert (partial_only p d f g) as Hp2.
       { apply runs_syscall in H1 as [[? ->]|(n & -> & _)]; by apply partial_only_append. }
       eapply runs_skip in H; [done|auto with camp|by apply written_failed|]. intros. by eapply written_dropped. }
  apply runs_syscall in H1 as [[_ ->]|(n & -> & [|])]; [|done..].
  unfold append_bytes in H. rewrite get_set_dir, lookup_insert_eq, set_set_dir, insert_insert_eq in H.
  change ("" +:+ body) with body in H. cbn [snd] in H.
  set (d1 := <[snapshotPartial:=body]> d) in *.
  assert (forall n, n <> snapshotPartial -> d1 !! n = d !! n) as Ho by (intros; by apply lookup_insert_ne).
  assert (partial_only p d f (set_dir p d1 f)) as Hp by by exists d1.
  clear Hp1. revert H. apply runs_guard; [auto with camp|by apply written_failed| |].
  { intros e o1 g H. eapply runs_skip in H; [done|auto with camp|by apply written_failed|]. intros. by eapply written_dropped. }
  intros [] o1 g1 _. apply runs_guard; [auto with camp|by apply written_failed|intros; by eapply written_dropped|].
  intros [] o2 g2 _ H. destruct hook as [[]|e]; [|by eapply written_dropped].
  apply runs_bind in H as [[-> H]|(x & g & H1 & H)].
  { apply written_failed; [|done]. destruct replace; [by apply runs_ret in H as [? _]|]. by apply reads_open_existing in H as ->. }
  assert (g = set_dir p d1 f) as -> by (destruct replace; [by apply runs_ret in H1 as [_ ->]|by apply reads_open_existing in H1]).
  destruct x as [[]|e]; [by eapply written_dropped|].
  apply runs_bind in H as [[-> H]|(x & g & H2 & H)].
  { apply written_failed; [|done]. apply (rename_partial_spec _ _ d _ body) in H as [[? _]|[-> _]]; [done|done|apply lookup_insert_eq|done..]. }
  apply (rename_partial_spec _ _ d _ body) in H2 as [[[= ->] ->]|[-> [[= ->]|]]]; [|by eapply written_dropped|done|apply lookup_insert_eq|done..].
  assert (g2 = set_dir p (<[snapshotFilename:=body]> d) f) as ->.
  { assert (reads (do! _ := may_fail in syncDirectory)) as Hr by solve_reads. by apply Hr in H. }
  split; [|done]. eexists. split; [done|]. split; [intros; by apply lookup_insert_ne|]. right. split; [done|].
  split; [apply lookup_insert_eq|]. by rewrite lookup_insert_ne.
Qed.
