(* ===== verification/JournalSafety.v ===== *)
(** What journal.Store guarantees (JournalSafety): every operation of Journal.v under
    every schedule of failures and crashes, the sessions that stop accepting work, the
    execution binding, and the interplay of lease renewals with other facts. *)
From S2P Require Import Prelude Sha256 GoTime Json Codec JsonLines Regexp Domain Snapshot Effects Journal.

(** ** Values that survive the text *)

(** The test of one field of a struct. *)
Definition field_ok {A} (omitempty : bool) (c : Codec A) (a : A) : bool :=
  if omitempty && c_empty a then c_blank a else c_ok a.

Definition snapshot_ok (s : JournalSnapshot) : Prop := c_ok s = true.

Lemma snapshot_ok_unfold s :
  snapshot_ok s <-> fields_ok JournalSnapshot_fields
    (js_SchemaVersion s, (js_SessionID s, (js_Capsule s, (js_Lineage s, (js_Mode s, (js_Tools s,
    (js_ExecutionBinding s, (js_OpenedGeneration s, (js_CurrentBase s, (js_CurrentPointer s,
    (js_ExpectedPointerRevision s, (js_Confinement s, (js_Lease s, (js_Workspace s, (js_Endpoints s,
    (js_Supervisor s, (js_Services s, (js_Images s, (js_RegistryCutRoot s, (js_Recovery s, (js_State s,
    (js_Materialization s, (js_Checkpoint s, (js_Cleanup s, (js_CreatedAt s, (js_UpdatedAt s, tt)))))))))))))))))))))))))) = true.
Proof. done. Qed.

Ltac open_fields H :=
  rewrite snapshot_ok_unfold in H; unfold JournalSnapshot_fields in H; cbn [fields_ok fst snd] in H.
Ltac snapshot_setter :=
  intros Hs Hv; open_fields Hs; rewrite snapshot_ok_unfold; unfold JournalSnapshot_fields;
  unfold field_ok in Hv; unfold set_js_ExecutionBinding, set_js_Lease, set_js_Services, set_js_CurrentBase,
    set_js_CurrentPointer, set_js_ExpectedPointerRevision, set_js_UpdatedAt;
  cbn [fields_ok fst snd js_SchemaVersion js_SessionID js_Capsule js_Lineage js_Mode js_Tools js_ExecutionBinding
    js_OpenedGeneration js_CurrentBase js_CurrentPointer js_ExpectedPointerRevision js_Confinement
    js_Lease js_Workspace js_Endpoints js_Supervisor js_Services js_Images js_RegistryCutRoot
    js_Recovery js_State js_Materialization js_Checkpoint js_Cleanup js_CreatedAt js_UpdatedAt];
  bool_norm;
  repeat match goal with |- _ && _ = true => apply andb_true_intro; split end; first [assumption|done].

Lemma snapshot_ok_fields s : snapshot_ok s ->
  field_ok true _ (js_ExecutionBinding s) = true /\ field_ok false _ (js_Lease s) = true /\
  field_ok true _ (js_Services s) = true.
Proof. intros H. open_fields H. unfold field_ok. bool_norm. done. Qed.

Lemma ok_set_ExecutionBinding v s :
  snapshot_ok s -> field_ok true _ v = true -> snapshot_ok (set_js_ExecutionBinding v s).
Proof. snapshot_setter. Qed.

Lemma ok_set_Lease v s : snapshot_ok s -> field_ok false _ v = true -> snapshot_ok (set_js_Lease v s).
Proof. snapshot_setter. Qed.

Lemma ok_set_Services v s : snapshot_ok s -> field_ok true _ v = true -> snapshot_ok (set_js_Services v s).
Proof. snapshot_setter. Qed.

Lemma ok_set_CurrentBase v s : snapshot_ok s -> field_ok true _ v = true -> snapshot_ok (set_js_CurrentBase v s).
Proof. snapshot_setter. Qed.

Lemma ok_set_CurrentPointer v s : snapshot_ok s -> field_ok true _ v = true -> snapshot_ok (set_js_CurrentPointer v s).
Proof. snapshot_setter. Qed.

Lemma ok_set_ExpectedPointerRevision v s :
  snapshot_ok s -> field_ok true _ v = true -> snapshot_ok (set_js_ExpectedPointerRevision v s).
Proof. snapshot_setter. Qed.

Lemma ok_set_UpdatedAt v s : snapshot_ok s -> field_ok false _ v = true -> snapshot_ok (set_js_UpdatedAt v s).
Proof. snapshot_setter. Qed.

#[local] Hint Resolve ok_set_ExecutionBinding ok_set_Lease ok_set_Services ok_set_CurrentBase ok_set_CurrentPointer
  ok_set_ExpectedPointerRevision ok_set_UpdatedAt : camp.

Lemma composeFactSnapshot_ok current candidate transition :
  snapshot_ok current -> snapshot_ok candidate -> snapshot_ok (composeFactSnapshot current candidate transition).
Proof.
  intros Hc Hd. destruct (snapshot_ok_fields _ Hc) as (Hb & Hl & Hs), (snapshot_ok_fields _ Hd) as (_ & Hl' & Hs').
  unfold composeFactSnapshot. cbn zeta. repeat case_match; auto with camp.
Qed.

Lemma field_ok_some {R T} (fs : fields T) (to : R -> T) (from : T -> R) (r : R) (om : bool) :
  @c_ok R (codec_struct fs to from) r = true ->
  field_ok om (@codec_pointer R (codec_struct fs to from)) (Some r) = true.
Proof. intros H. unfold field_ok. rewrite andb_false_r. cbn -[enc_fields fields_ok] in *. rewrite H. by destruct (enc_fields _ _). Qed.

(** A fact's pointer and time, read from the fact's own text. *)
Lemma fact_ok_parts (fact : FactRecord) : c_ok fact = true ->
  field_ok false _ (fa_Timestamp fact) = true /\
  (forall c, fa_Pointer fact = Some c -> field_ok true _ (pc_Revision c) = true /\
    field_ok true _ (Some (pc_Pointer c)) = true /\ field_ok true _ (Some (lp_Generation (pc_Pointer c))) = true).
Proof.
  change (c_ok fact) with (fields_ok FactRecord_fields (fa_IntentID fact, (fa_SessionID fact, (fa_Transition fact,
    (fa_Timestamp fact, (fa_Output fact, (fa_Pointer fact, tt))))))).
  unfold FactRecord_fields. cbn [fields_ok fst snd]. intros H. bool_norm. split; [done|]. intros c Hc.
  match goal with H : _ = true |- _ => rewrite Hc in H; rename H into Hp end.
  change (c_ok c && match c_enc c with Some JNull => false | _ => true end = true) in Hp.
  apply andb_true_iff in Hp as [Hp _]. change (c_ok c) with (fields_ok PointerCommit_fields (pc_Pointer c, (pc_Revision c, tt))) in Hp.
  unfold PointerCommit_fields in Hp. cbn [fields_ok fst snd] in Hp. bool_norm.
  match goal with H : context [pc_Pointer c] |- _ => rename H into Hpc end.
  match goal with H : context [pc_Revision c] |- _ => rename H into Hr end.
  change (c_ok (pc_Pointer c) = true) in Hpc. change (c_ok (pc_Revision c) = true) in Hr.
  split; [unfold field_ok; by destruct (pc_Revision c)|]. split; [by apply field_ok_some|].
  apply field_ok_some. destruct (pc_Pointer c) as [? ? ? g]. unfold c_ok, LatestPointer_codec, codec_struct, LatestPointer_fields in Hpc.
  cbn [fields_ok fst snd lp_Generation] in Hpc. bool_norm. done.
Qed.

(** The snapshot a fact records survives the text when the snapshots it is made from
    do. *)
Lemma reduceFact_ok composed fact reduced :
  snapshot_ok composed -> c_ok fact = true -> reduceFact composed fact = Ok reduced -> snapshot_ok reduced.
Proof.
  intros Hs Hf H. destruct (fact_ok_parts _ Hf) as [Ht Hp]. unfold reduceFact in H. break_result H;
    injection H as <-; [edestruct Hp as (? & ? & ?); [done|]|]; auto 10 with camp.
Qed.

(** ** Load *)
Lemma reads_Load id : reads (Load id).
Proof. unfold Load, readSnapshot, ReadFile. solve_reads. Qed.
#[local] Hint Resolve reads_Load : camp.

(** What Load has read when it succeeds. *)
Lemma Load_inv f id answer f' :
  runs (Load id) f (Done (Ok answer)) f' ->
  validateSessionID id = Ok tt /\
  exists d stext s0 text st, j_sessions f !! id = Some d /\ d !! snapshotFilename = Some stext /\
    Unmarshal stext = Some s0 /\ d !! journalFilename = Some text /\
    replay_lines id (read_lines text "") (s0, ∅) = Ok st /\ answer = (st.1, sort_pending st.2).
Proof.
  assert (forall n b, read_file (Session id) n f = Ok b -> exists d, j_sessions f !! id = Some d /\ d !! n = Some b) as Hread.
  { intros n b. unfold read_file, get_dir. destruct (j_sessions f !! id) as [d|]; [|done].
    destruct (d !! n) eqn:E; [|done]. intros [= <-]. by exists d. }
  intros H. unfold Load in H. apply runs_do_reads in H as [[_ H]|(_ & _ & H)]; [by edestruct H| |auto with camp].
  destruct (validateSessionID id) as [[]|]; [|by apply runs_ret in H as [? _]]. split; [done|].
  apply runs_do in H as [[? _]|[(e & ? & _)|(s0 & g & Hs0 & H)]]; [done..|].
  unfold readSnapshot in Hs0. apply runs_do in Hs0 as [[? _]|[(e & ? & _)|(stext & g1 & Hb & Hs0)]]; [done..|].
  apply runs_inspect in Hb as [Hb ->]. destruct (Hread _ _ Hb) as (d & Hd & Hs).
  destruct (Unmarshal stext) as [s0'|] eqn:Hu; apply runs_ret in Hs0 as [[=] ->]; subst s0'.
  apply runs_do_reads in H as [[_ H]|(_ & _ & H)]; [by edestruct H| |auto with camp].
  apply runs_do in H as [[? _]|[(e & ? & _)|(text & g & Hb' & H)]]; [done..|].
  apply runs_inspect in Hb' as [Hb' ->]. destruct (Hread _ _ Hb') as (d' & Hd' & Hl). rewrite Hd in Hd'. injection Hd' as <-.
  exists d, stext, s0, text. destruct (replay_lines id (read_lines text "") (s0, ∅)) as [st|] eqn:Hr.
  - exists st. destruct st. by apply runs_ret in H as [[= ->] _].
  - by apply runs_ret in H as [? _].
Qed.

(** What Load answers on a session that loads, whichever failures it meets. *)
Lemma Load_spec f id st s pending f' :
  loads f id st -> runs (Load id) f (Done (Ok (s, pending))) f' -> s = st.1 /\ pending = sort_pending st.2.
Proof.
  intros (d & stext & s0 & text & Hd & Hs & Hu & Hl & _ & Hr).
  intros (_ & d' & stext' & s0' & text' & st' & Hd' & Hs' & Hu' & Hl' & Hr' & [= -> ->])%Load_inv.
  rewrite Hd in Hd'. injection Hd' as <-. rewrite Hs in Hs'. injection Hs' as <-. rewrite Hl in Hl'. injection Hl' as <-.
  rewrite Hu in Hu'. injection Hu' as <-. rewrite Hr in Hr'. by injection Hr' as <-.
Qed.

(** ** Appending to the log *)
Lemma append_bytes_nil p n f : append_bytes p n "" f = f.
Proof.
  unfold append_bytes. destruct (get_dir p f) as [d|] eqn:Hd; [|done]. destruct (d !! n) as [old|] eqn:Hn; [|done].
  by rewrite str_app_nil_r, insert_id, set_dir_id.
Qed.

Lemma append_spec f id entry text o f' :
  Marshal entry = Some text -> runs (append id entry) f o f' ->
  exists n, f' = append_bytes (Session id) journalFilename (str_take n (text +:+ String newline "")) f /\
    (o = Done (Ok tt) -> f' = append_bytes (Session id) journalFilename (text +:+ String newline "") f).
Proof.
  intros Hm H. unfold append, marshal_io in H. rewrite Hm in H.
  assert (forall o', o' <> Done (Ok tt) -> exists n, f = append_bytes (Session id) journalFilename (str_take n (text +:+ String newline "")) f /\
    (o' = Done (Ok tt) -> f = append_bytes (Session id) journalFilename (text +:+ String newline "") f)) as Hnone.
  { intros o' Ho. exists 0%nat. simpl. by rewrite append_bytes_nil. }
  apply runs_do_reads in H as [[-> H]|(_ & _ & H)]; [by apply Hnone| |auto with camp].
  apply runs_bind in H as [[-> H]|(w & g & Hw & H)].
  - apply runs_do in H as [[_ H]|[(e & ? & _)|([] & g & H1 & H)]]; [|done|].
    + apply runs_syscall in H as [[? _]|(n & -> & _)]; [done|]. by exists n.
    + apply reads_may_fail in H as ->. apply runs_syscall in H1 as [[_ ->]|(n & -> & [|])]; [|done..].
      exists (String.length (text +:+ String newline "")). by rewrite str_take_all.
  - assert (f' = g /\ (o = Done (Ok tt) -> w = Ok tt)) as [-> Ho].
    { apply runs_bind in H as [[-> H]|(c & g1 & Hc & H)]; [by apply reads_may_fail in H as ->|].
      apply reads_may_fail in Hc as ->. destruct w as [[]|e], c as [[]|e']; by apply runs_ret in H as [-> ->]. }
    apply runs_do in Hw as [[? _]|[(e & [= ->] & H1)|([] & g1 & H1 & Hw)]]; [done| |].
    + apply runs_syscall in H1 as [[? ->]|(n & -> & _)]; [done|]. exists n. split; [done|]. by intros [=]%Ho.
    + apply reads_may_fail in Hw as ->. apply runs_syscall in H1 as [[_ ->]|(n & -> & [|])]; [|done..].
      exists (String.length (text +:+ String newline "")). by rewrite str_take_all.
Qed.

(** The log got part of a line: it no longer ends with a complete entry. *)
Definition torn (f f' : jfs) (id : string) : Prop :=
  exists fragment, fragment <> "" /\ one_line fragment = true /\
    f' = append_bytes (Session id) journalFilename fragment f.

Lemma str_take_line n text :
  str_take n (text +:+ String newline "") = text +:+ String newline "" \/
  str_take n (text +:+ String newline "") = str_take n text.
Proof.
  revert n. induction text as [|c text IH]; intros [|n]; [by right|left; by destruct n|by right|].
  rewrite str_app_cons. simpl. destruct (IH n) as [->| ->]; [by left|by right].
Qed.

Lemma one_line_take n s : one_line s = true -> one_line (str_take n s) = true.
Proof.
  unfold one_line. revert n. induction s as [|c s IH]; intros [|n]; simpl; try done. intros H. bool_norm.
  by rewrite IH, andb_true_r; [apply negb_true_iff, Z.eqb_neq|].
Qed.

Lemma envelope_depth : @c_depth envelope _ <= max_depth.
Proof. vm_compute. discriminate. Qed.

Lemma snapshot_depth : @c_depth JournalSnapshot _ <= max_depth.
Proof. vm_compute. discriminate. Qed.

(** Appending one entry: the log is as before, torn, or has the entry. *)
Lemma append_cases f id st entry st' o f' :
  loads f id st -> c_ok entry = true -> apply_entry id entry st = Ok st' -> runs (append id entry) f o f' ->
  ((f' = f \/ torn f f' id) /\ o <> Done (Ok tt)) \/
  (exists text, Marshal entry = Some text /\ loads f' id st' /\
     f' = append_bytes (Session id) journalFilename (text +:+ String newline "") f).
Proof.
  intros Hl Hok Ha H. destruct (Marshal_line entry Hok envelope_depth) as (text & Hm & Hone & Hu).
  destruct (append_spec _ _ _ _ _ _ Hm H) as (n & Hf & Ho).
  assert (forall g, g = append_bytes (Session id) journalFilename (text +:+ String newline "") f -> loads g id st') as Hg.
  { intros g ->. by eapply loads_append. }
  destruct (str_take_line n text) as [Ht|Ht]; rewrite Ht in Hf.
  { right. exists text. split; [done|]. split; [by apply Hg|done]. }
  destruct o as [[[]|e]|].
  { specialize (Ho eq_refl). right. exists text. split; [done|]. split; [by apply Hg|done]. }
  1,2: left; split; [|done]; pose proof (one_line_take n _ Hone) as Hn;
    destruct (str_take n text) as [|c t]; [left; by rewrite Hf, append_bytes_nil|right]; by exists (String c t).
Qed.

(** ** The two writing operations *)
Definition frame (id : string) (f f' : jfs) : Prop :=
  j_creating f' = j_creating f /\ forall id', id' <> id -> j_sessions f' !! id' = j_sessions f !! id'.

Lemma frame_refl id f : frame id f f.
Proof. done. Qed.

Lemma frame_trans id f g h : frame id f g -> frame id g h -> frame id f h.
Proof. intros [H1 H2] [H3 H4]. split; [congruence|]. intros. by rewrite H4, H2. Qed.

Lemma frame_set_dir id d f : frame id f (set_dir (Session id) d f).
Proof. split; [done|]. intros id' Hn. cbn. by rewrite lookup_insert_ne. Qed.

Lemma frame_append id n b f : frame id f (append_bytes (Session id) n b f).
Proof.
  unfold append_bytes. destruct (get_dir (Session id) f) as [d|]; [|done].
  destruct (d !! n); [apply frame_set_dir|done].
Qed.

(** A snapshot written over a log whose last entry is a fact that records it. *)
Lemma loads_written f id cur pend entry text f1 body o f' reduced pend' :
  loads f id (cur, pend) -> Marshal entry = Some text -> one_line text = true ->
  Unmarshal (text +:+ String newline "") = Some entry ->
  (forall s, apply_entry id entry (s, pend) = Ok (reduced, pend')) ->
  f1 = append_bytes (Session id) journalFilename (text +:+ String newline "") f ->
  Unmarshal body = Some reduced ->
  (forall d, j_sessions f1 !! id = Some d -> snapshot_written (Session id) d f1 body o f') ->
  loads f' id (reduced, pend') /\ frame id f f'.
Proof.
  intros (d & stext & s0 & log & Hd & Hs & Hu & Hl & Hc & Hr) Hm Hone Hun Ha Hf1 Hb Hw.
  assert (f1 = set_dir (Session id) (<[journalFilename := log +:+ text +:+ String newline ""]> d) f) as Hf1'.
  { rewrite Hf1. unfold append_bytes, get_dir. by rewrite Hd, Hl. }
  destruct (Hw (<[journalFilename := log +:+ text +:+ String newline ""]> d)) as [(d' & -> & Ho & Hsn) _].
  { rewrite Hf1'. cbn. apply lookup_insert_eq. }
  split.
  2: { eapply frame_trans; [|apply frame_set_dir]. rewrite Hf1. apply frame_append. }
  assert (exists stext' (s0' : JournalSnapshot), d' !! snapshotFilename = Some stext' /\ Unmarshal stext' = Some s0') as (stext' & s0' & Hs' & Hu').
  { destruct Hsn as [Hsn|(_ & Hsn & _)]; [|by exists body, reduced].
    exists stext, s0. by rewrite Hsn, lookup_insert_ne. }
  exists d', stext', s0', (log +:+ text +:+ String newline ""). split; [cbn; apply lookup_insert_eq|].
  split; [done|]. split; [done|]. split; [rewrite Ho by done; apply lookup_insert_eq|]. split; [apply clean_log_app|].
  rewrite read_lines_app by done. rewrite replay_app.
  destruct (replay_pending _ _ _ _ _ _ Hr s0') as [s' ->]. cbn [result_bind replay_lines]. by rewrite Hun, Ha.
Qed.

Lemma intent_envelope_ok intent : c_ok intent = true -> c_ok (mkenvelope "intent" (Some intent) None None) = true.
Proof.
  intros H. pose proof (field_ok_some _ _ _ intent true H) as Hp. unfold c_ok, envelope_codec, codec_struct, envelope_fields.
  cbn [fields_ok fst snd ev_Kind ev_Intent ev_Fact ev_Snapshot]. unfold field_ok in Hp.
  apply andb_true_intro; split; [done|]. apply andb_true_intro; split; [done|]. done.
Qed.

Lemma fact_envelope_ok fact snapshot :
  c_ok fact = true -> snapshot_ok snapshot -> c_ok (mkenvelope "fact" None (Some fact) (Some snapshot)) = true.
Proof.
  intros Hf Hs. pose proof (field_ok_some _ _ _ fact true Hf) as Hp. pose proof (field_ok_some _ _ _ snapshot true Hs) as Hq.
  unfold c_ok, envelope_codec, codec_struct, envelope_fields.
  cbn [fields_ok fst snd ev_Kind ev_Intent ev_Fact ev_Snapshot]. unfold field_ok in Hp, Hq.
  apply andb_true_intro; split; [done|]. apply andb_true_intro; split; [done|]. apply andb_true_intro; split; [done|].
  apply andb_true_intro; split; [done|]. done.
Qed.

(** C16: recording an intent is safe at every failure and every crash point.  From a
    session that loads, whatever the schedule of failures, afterwards the session
    loads to what it was, or to the same snapshot with the intent pending, or its log
    ends in part of a line; success means the intent is pending; nothing else on the
    disk changes. *)
Theorem RecordIntent_crash_safe intent f snapshot pending o f' :
  let id := ir_SessionID intent in
  loads f id (snapshot, pending) -> c_ok intent = true ->
  runs (RecordIntent intent) f o f' ->
  (f' = f \/ loads f' id (snapshot, <[ir_ID intent := intent]> pending) \/ torn f f' id) /\
  (o = Done (Ok tt) -> loads f' id (snapshot, <[ir_ID intent := intent]> pending)) /\
  frame id f f'.
Proof.
  intros id Hl Hok H. unfold RecordIntent in H.
  assert (forall o', (forall b, o' <> Done (Ok b)) -> (f = f \/ loads f id (snapshot, <[ir_ID intent := intent]> pending) \/ torn f f id) /\
    (o' = Done (Ok tt) -> loads f id (snapshot, <[ir_ID intent := intent]> pending)) /\ frame id f f) as Hnone.
  { intros o' Ho. split; [by left|]. split; [by intros ->; destruct (Ho tt)|done]. }
  apply runs_do_reads in H as [[-> Ho]|(_ & _ & H)]; [by apply Hnone| |auto with camp].
  destruct (validateIntent intent); [|apply runs_ret in H as [-> ->]; by apply Hnone].
  apply runs_do_reads in H as [[-> Ho]|(_ & _ & H)]; [by apply Hnone| |auto with camp].
  apply runs_do_reads in H as [[-> Ho]|(_ & _ & H)]; [by apply Hnone| |auto with camp].
  eapply append_cases in H; [|done|by apply intent_envelope_ok|].
  2: { unfold apply_entry. cbn [ev_Kind ev_Intent]. rewrite (eq_refl : str_eqb "intent" "intent" = true). by rewrite str_eqb_refl. }
  destruct H as [[[->|Ht] Ho]|(text & Hm & Hl' & ->)].
  - apply Hnone. by intros [].
  - split; [by right; right|]. split; [done|]. destruct Ht as (fr & _ & _ & ->). apply frame_append.
  - split; [by right; left|]. split; [done|apply frame_append].
Qed.

(** The snapshot a fact makes current. *)
Definition fact_result (current candidate : JournalSnapshot) (fact : FactRecord) : result JournalSnapshot :=
  reduceFact (composeFactSnapshot current candidate (fa_Transition fact)) fact.

Lemma fact_entry_applies fact reduced pending s :
  is_Some (pending !! fa_IntentID fact) ->
  apply_entry (fa_SessionID fact) (mkenvelope "fact" None (Some fact) (Some reduced)) (s, pending) =
    Ok (reduced, delete (fa_IntentID fact) pending).
Proof.
  intros [i Hi]. unfold apply_entry. cbn [ev_Kind ev_Fact ev_Snapshot].
  rewrite (eq_refl : str_eqb "fact" "intent" = false), (eq_refl : str_eqb "fact" "fact" = true).
  by rewrite str_eqb_refl, Hi.
Qed.

(** The steps of RecordFact after its checks. *)
Definition record_reduced (hook : result unit) (fact : FactRecord) (reduced : JournalSnapshot) : io jfs (result unit) :=
  do! _ := append (fa_SessionID fact) (mkenvelope "fact" None (Some fact) (Some reduced)) in
  writeSnapshot hook (Session (fa_SessionID fact)) reduced true.

(** RecordFact fails without touching a file, or goes on to record the snapshot it
    reduced from what it loaded. *)
Lemma RecordFact_cases hook fact candidate f o f' :
  runs (RecordFact hook fact candidate) f o f' ->
  (f' = f /\ forall b, o <> Done (Ok b)) \/
  exists current ps reduced, runs (Load (fa_SessionID fact)) f (Done (Ok (current, ps))) f /\
    (forall b, js_ExecutionBinding candidate = Some b -> js_ExecutionBinding current = Some b) /\
    fact_result current candidate fact = Ok reduced /\ runs (record_reduced hook fact reduced) f o f'.
Proof.
  intros H. unfold RecordFact in H.
  apply runs_do_reads in H as [?|(_ & _ & H)]; [by left| |auto with camp].
  destruct (validateFact _ _); [|apply runs_ret in H as [-> ->]; by left].
  do 2 (apply runs_do_reads in H as [?|(_ & _ & H)]; [by left| |auto with camp]).
  apply runs_do_reads in H as [?|([cur ps] & Hload & H)]; [by left| |apply reads_Load].
  destruct (match js_ExecutionBinding candidate with Some _ => _ | None => _ end) eqn:Hb; [apply runs_ret in H as [-> ->]; by left|].
  fold (fact_result cur candidate fact) in H.
  destruct (fact_result cur candidate fact) as [reduced|e] eqn:Er; [|apply runs_ret in H as [-> ->]; by left].
  right. exists cur, ps, reduced. split; [done|]. split; [|done].
  intros b Hcand. rewrite Hcand in Hb. by bool_norm.
Qed.

(** The part of RecordFact after its checks. *)
Lemma record_reduced_spec hook fact reduced f current pending o f' :
  let id := fa_SessionID fact in
  loads f id (current, pending) -> is_Some (pending !! fa_IntentID fact) ->
  c_ok fact = true -> snapshot_ok reduced ->
  runs (record_reduced hook fact reduced) f o f' ->
  (f' = f \/ loads f' id (reduced, delete (fa_IntentID fact) pending) \/ torn f f' id) /\
  (o = Done (Ok tt) -> loads f' id (reduced, delete (fa_IntentID fact) pending)) /\ frame id f f'.
Proof.
  intros id Hl Hi Hf Hr H. pose proof (fact_envelope_ok _ _ Hf Hr) as Hok.
  destruct (Marshal_line _ Hok envelope_depth) as (text & Hm & Hone & Hu).
  assert (forall o1 g, runs (append id (mkenvelope "fact" None (Some fact) (Some reduced))) f o1 g ->
    (f = g \/ torn f g id) /\ o1 <> Done (Ok tt) \/
    loads g id (reduced, delete (fa_IntentID fact) pending) /\
      g = append_bytes (Session id) journalFilename (text +:+ String newline "") f) as Hcases.
  { intros o1 g Ha. eapply append_cases in Ha; [|done|done|by apply fact_entry_applies].
    destruct Ha as [[[->|Ht] Ho]|(text' & Hm' & Hg & Hg')]; [by left; split; [left|]|by left; split; [right|]|].
    rewrite Hm in Hm'. injection Hm' as <-. by right. }
  assert (forall g, torn f g id -> frame id f g) as Htf by (intros g (fr & _ & _ & ->); apply frame_append).
  apply runs_do in H as [[-> H]|[(e & -> & H)|([] & g & Ha & H)]].
  1,2: apply Hcases in H as [[[->|Ht] _]|[Hg ->]];
    [by split; [left|]|split; [by right; right|]; split; [done|by apply Htf]|split; [by right; left|]; split; [done|apply frame_append]].
  apply Hcases in Ha as [[_ ?]|[Hg Hg']]; [done|].
  destruct (Marshal_line reduced Hr snapshot_depth) as (body & Hb & _ & _).
  pose proof (Unmarshal_Marshal reduced Hr snapshot_depth) as Hub.
  assert (loads f' id (reduced, delete (fa_IntentID fact) pending) /\ frame id f f') as [??].
  { eapply loads_written; [done..|intros s; by apply fact_entry_applies|done| |].
    2: intros d Hd; by eapply writeSnapshot_spec.
    destruct Hub as (b & Hb' & Hub & _). rewrite Hb in Hb'. by injection Hb' as <-. }
  split; [by right; left|done].
Qed.

(** C8: recording a fact is atomic at every failure and every crash point.  From a
    session that loads and has the fact's intent pending, whatever the schedule of
    failures, afterwards the session loads to what it was, or to the reduced snapshot
    with the intent no longer pending, or its log ends in part of a line; success
    means the second; nothing else on the disk changes. *)
Theorem RecordFact_crash_safe hook fact candidate f current pending o f' :
  let id := fa_SessionID fact in
  loads f id (current, pending) -> is_Some (pending !! fa_IntentID fact) ->
  c_ok fact = true -> snapshot_ok current -> snapshot_ok candidate ->
  runs (RecordFact hook fact candidate) f o f' ->
  (f' = f \/
   (exists reduced, fact_result current candidate fact = Ok reduced /\
      loads f' id (reduced, delete (fa_IntentID fact) pending)) \/
   torn f f' id) /\
  (o = Done (Ok tt) -> exists reduced, fact_result current candidate fact = Ok reduced /\
      loads f' id (reduced, delete (fa_IntentID fact) pending)) /\
  frame id f f'.
Proof.
  intros id Hl Hi Hf Hc Hd. set (new g := exists reduced, fact_result current candidate fact = Ok reduced /\
    loads g id (reduced, delete (fa_IntentID fact) pending)).
  intros H. change ((f' = f \/ new f' \/ torn f f' id) /\ (o = Done (Ok tt) -> new f') /\ frame id f f').
  apply RecordFact_cases in H as [[-> Ho]|(cur & ps & reduced & Hload & _ & Er & H)].
  { split; [by left|]. split; [by intros ->; destruct (Ho tt)|done]. }
  eapply Load_spec in Hload as [Hcur _]; [|done]. cbn in Hcur. subst cur.
  pose proof (reduceFact_ok _ _ _ (composeFactSnapshot_ok _ _ _ Hc Hd) Hf Er) as Hr.
  destruct (record_reduced_spec _ _ _ _ _ _ _ _ Hl Hi Hf Hr H) as (H1 & H2 & H3).
  split; [destruct H1 as [?|[?|?]]; [by left|right; left; by exists reduced|by right; right]|].
  split; [|done]. intros Ho. exists reduced. split; [done|by apply H2].
Qed.

(** ** Runs without failures *)
Lemma calm_Load f r id st :
  validateSessionID id = Ok tt -> loads f id st -> Load id (calm f r) = (Done (Ok (st.1, sort_pending st.2)), calm f r).
Proof.
  intros Hv (d & stext & s0 & text & Hd & Hs & Hu & Hl & _ & Hr). unfold Load, readSnapshot, ReadFile, open_existing, read_file.
  erewrite calm_bind by apply calm_ctx_err. rewrite Hv. rewrite (calm_bind _ _ f r (Ok s0) f r).
  2: { erewrite calm_bind by apply calm_inspect. cbn [get_dir]. by rewrite Hd, Hs, Hu. }
  erewrite calm_bind by apply calm_inspect. cbn [get_dir]. rewrite Hd, Hl. cbn [result_bind].
  erewrite calm_bind by apply calm_inspect. cbn [get_dir]. rewrite Hd, Hl, Hr. by destruct st.
Qed.

Lemma calm_writeSnapshot p snapshot replace f r d body :
  get_dir p f = Some d -> d !! snapshotPartial = None -> Marshal snapshot = Some body ->
  (replace = false -> d !! snapshotFilename = None) ->
  writeSnapshot (Ok tt) p snapshot replace (calm f r) =
    (Done (Ok tt), calm (set_dir p (<[snapshotFilename := body]> d) f) r).
Proof.
  intros Hd Hp Hm Hr. unfold writeSnapshot, marshal_io. rewrite Hm. unfold create_exclusive, atomic.
  erewrite calm_bind by apply calm_syscall. cbn beta. rewrite Hd, Hp. cbn [fst snd].
  unfold write_end. erewrite calm_bind by apply calm_syscall. cbn [fst snd].
  unfold append_bytes. rewrite get_set_dir, lookup_insert_eq, set_set_dir, insert_insert_eq. change ("" +:+ body) with body.
  unfold may_fail. do 2 (erewrite calm_bind by apply calm_inspect; cbn iota).

  rewrite (calm_bind _ _ (set_dir p (<[snapshotPartial:=body]> d) f) r (Err ErrNotExist)
    (set_dir p (<[snapshotPartial:=body]> d) f) r).
  2: { destruct replace; [done|]. unfold open_existing. rewrite calm_inspect. unfold read_file. cbn beta. rewrite get_set_dir.
       rewrite lookup_insert_ne by done. by rewrite Hr. }
  unfold rename_file, atomic. erewrite calm_bind by apply calm_syscall. cbn beta. rewrite get_set_dir, lookup_insert_eq. cbn [fst snd].
  rewrite set_set_dir, delete_insert_id by done. done.
Qed.

Lemma calm_append f r id entry text d log :
  j_sessions f !! id = Some d -> d !! journalFilename = Some log -> Marshal entry = Some text ->
  append id entry (calm f r) =
    (Done (Ok tt), calm (append_bytes (Session id) journalFilename (text +:+ String newline "") f) r).
Proof.
  intros Hd Hl Hm. unfold append, open_existing, marshal_io, read_file. rewrite Hm.
  erewrite calm_bind by apply calm_inspect. cbn [get_dir]. rewrite Hd, Hl. cbn [result_bind].
  set (f1 := append_bytes _ _ _ f). rewrite (calm_bind _ _ f r (Ok tt) f1 r); [done|].
  unfold write_end. by erewrite calm_bind by apply calm_syscall.
Qed.

(** RecordFact when nothing fails, whatever the pending intents. *)
Lemma RecordFact_calm fact candidate f r current pending reduced d :
  let id := fa_SessionID fact in
  j_sessions f !! id = Some d -> d !! snapshotPartial = None ->
  loads f id (current, pending) -> c_ok fact = true -> snapshot_ok reduced ->
  validateFact fact (js_SessionID candidate) = Ok tt ->
  (forall b, js_ExecutionBinding candidate = Some b -> js_ExecutionBinding current = Some b) ->
  fact_result current candidate fact = Ok reduced ->
  exists f' d', RecordFact (Ok tt) fact candidate (calm f r) = (Done (Ok tt), calm f' r) /\
    record_reduced (Ok tt) fact reduced (calm f r) = (Done (Ok tt), calm f' r) /\
    j_sessions f' !! id = Some d' /\ d' !! snapshotPartial = None.
Proof.
  intros id Hd Hpart Hl Hf Hok Hv Hb Hr.
  destruct (Marshal_line _ (fact_envelope_ok _ _ Hf Hok) envelope_depth) as (text & Hm & _ & _).
  destruct (Marshal_line reduced Hok snapshot_depth) as (body & Hbody & _ & _).
  assert (validateSessionID id = Ok tt) as Hid.
  { unfold validateFact in Hv. subst id. by destruct (validateSessionID (fa_SessionID fact)) as [[]|]. }
  pose proof Hl as (d0 & stext & s0 & log & Hd0 & _ & _ & Hlog & _). rewrite Hd in Hd0. injection Hd0 as <-.
  set (f1 := append_bytes (Session id) journalFilename (text +:+ String newline "") f).
  set (d1 := <[journalFilename := log +:+ text +:+ String newline ""]> d).
  assert (f1 = set_dir (Session id) d1 f) as Hf1 by (subst f1; unfold append_bytes, get_dir; by rewrite Hd, Hlog).
  set (f' := set_dir (Session id) (<[snapshotFilename := body]> d1) f1).
  assert (record_reduced (Ok tt) fact reduced (calm f r) = (Done (Ok tt), calm f' r)) as Hrec.
  { unfold record_reduced. erewrite calm_bind by (by eapply calm_append).
    apply calm_writeSnapshot; [rewrite Hf1; apply get_set_dir| |done|done]. unfold d1. by rewrite lookup_insert_ne. }
  exists f', (<[snapshotFilename := body]> d1). split; [|split; [done|]].
  - unfold RecordFact. erewrite calm_bind by apply calm_ctx_err. rewrite Hv. erewrite calm_bind by apply calm_inspect.
    unfold read_file at 1. cbn [get_dir]. fold id. rewrite Hd, Hlog. cbn [result_bind]. erewrite calm_bind by apply calm_inspect.
    cbn beta iota. erewrite calm_bind by (by apply calm_Load). cbn [fst snd].
    replace (match js_ExecutionBinding candidate with Some b => negb (bool_decide (js_ExecutionBinding current = Some b)) | None => false end) with false.
    2: { destruct (js_ExecutionBinding candidate) as [b|]; [|done]. by rewrite bool_decide_true by by apply Hb. }
    fold (fact_result current candidate fact). rewrite Hr. exact Hrec.
  - split; [apply lookup_insert_eq|unfold d1; by rewrite !lookup_insert_ne].
Qed.

(** C26: a fact whose intent is pending is recorded when nothing fails: on a session
    without a leftover partial snapshot, RecordFact succeeds, the session then loads
    to the reduced snapshot without the intent, and there is again no partial. *)
Theorem RecordFact_succeeds fact candidate f r current pending reduced d :
  let id := fa_SessionID fact in
  j_sessions f !! id = Some d -> d !! snapshotPartial = None ->
  loads f id (current, pending) -> is_Some (pending !! fa_IntentID fact) ->
  c_ok fact = true -> snapshot_ok current -> snapshot_ok candidate ->
  validateFact fact (js_SessionID candidate) = Ok tt ->
  (forall b, js_ExecutionBinding candidate = Some b -> js_ExecutionBinding current = Some b) ->
  fact_result current candidate fact = Ok reduced ->
  exists f' d', RecordFact (Ok tt) fact candidate (calm f r) = (Done (Ok tt), calm f' r) /\
    loads f' id (reduced, delete (fa_IntentID fact) pending) /\
    j_sessions f' !! id = Some d' /\ d' !! snapshotPartial = None.
Proof.
  intros id Hd Hpart Hl Hi Hf Hc Hcand Hv Hb Hr.
  pose proof (reduceFact_ok _ _ _ (composeFactSnapshot_ok _ _ _ Hc Hcand) Hf Hr) as Hok.
  destruct (RecordFact_calm fact candidate f r current pending reduced d Hd Hpart Hl Hf Hok Hv Hb Hr) as (f' & d' & Hrun & Hrec & Hd' & Hp').
  exists f', d'. split; [done|]. split; [|done].
  apply (record_reduced_spec (Ok tt) fact reduced f current pending (Done (Ok tt)) f' Hl Hi Hf Hok); [|done].
  exact (runs_at _ (calm f r) (Done (Ok tt)) (calm f' r) Hrec).
Qed.

(** ** Sessions that stop accepting work *)

(** The process may die while the partial snapshot is there. *)
Lemma writeSnapshot_crash hook p snapshot replace f d :
  get_dir p f = Some d -> d !! snapshotPartial = None -> snapshot_ok snapshot ->
  runs (writeSnapshot hook p snapshot replace) f Crashed (set_dir p (<[snapshotPartial := ""]> d) f).
Proof.
  intros Hd Hp Hok. destruct (Unmarshal_Marshal snapshot Hok snapshot_depth) as (body & Hm & _).
  exists (mkSys f [Proceed; Crash 0] []), (mkSys (set_dir p (<[snapshotPartial := ""]> d) f) [] []). split; [|done].
  unfold writeSnapshot, marshal_io. rewrite Hm. unfold create_exclusive, atomic, syscall, io_bind. cbn [next_fault s_faults s_fs s_random].
  rewrite Hd, Hp. unfold write_end, syscall. cbn -[append_bytes set_dir str_take]. unfold append_bytes.
  rewrite get_set_dir, lookup_insert_eq, set_set_dir, insert_insert_eq. done.
Qed.

(** A leftover partial snapshot stops every snapshot write, and stays. *)
Lemma writeSnapshot_stale hook p snapshot replace f d b o f' :
  get_dir p f = Some d -> d !! snapshotPartial = Some b ->
  runs (writeSnapshot hook p snapshot replace) f o f' -> f' = f /\ forall x, o <> Done (Ok x).
Proof.
  intros Hd Hb. unfold writeSnapshot. destruct (marshal_io snapshot) as [body|]; intros H; [|by apply runs_ret in H as [-> ->]].
  assert (forall o1 g, runs (create_exclusive p snapshotPartial) f o1 g -> g = f /\ forall x, o1 <> Done (Ok x)) as Hc.
  { intros o1 g [[-> ->]|[-> [->| ->]]]%runs_atomic; [|done..]. by rewrite Hd, Hb. }
  apply runs_do in H as [[-> H]|[(e & -> & H)|(x & g & H & _)]]; [by apply Hc in H as [-> _]..|].
  apply Hc in H as [_ H]. by destruct (H x).
Qed.

Lemma append_keeps id entry n b f d o f' :
  n <> journalFilename -> j_sessions f !! id = Some d -> d !! n = Some b -> runs (append id entry) f o f' ->
  exists d', j_sessions f' !! id = Some d' /\ d' !! n = Some b.
Proof.
  intros Hn Hd Hb H. destruct (Marshal entry) as [text|] eqn:Hm.
  - destruct (append_spec _ _ _ _ _ _ Hm H) as (k & -> & _). unfold append_bytes, get_dir. rewrite Hd.
    destruct (d !! journalFilename) as [log|]; [|by exists d]. eexists. split; [apply lookup_insert_eq|]. by rewrite lookup_insert_ne.
  - assert (reads (append id entry)) as Hr by (unfold append, marshal_io; rewrite Hm; solve_reads).
    apply Hr in H as ->. by exists d.
Qed.

(** C32: a crash between the creation of .snapshot.partial and its rename stops the
    session for good: as long as the file is there no RecordFact succeeds, whatever the
    fact and the schedule, and no RecordFact removes it (the fact may still reach the
    log). *)
Theorem stale_partial_blocks_facts hook fact candidate f d b o f' :
  let id := fa_SessionID fact in
  j_sessions f !! id = Some d -> d !! snapshotPartial = Some b ->
  runs (RecordFact hook fact candidate) f o f' ->
  o <> Done (Ok tt) /\ exists d', j_sessions f' !! id = Some d' /\ d' !! snapshotPartial = Some b.
Proof.
  intros id Hd Hb H.
  apply RecordFact_cases in H as [[-> Ho]|(cur & ps & reduced & _ & _ & _ & H)]; [split; [apply Ho|by exists d]|].
  apply runs_do in H as [[-> H]|[(e & -> & H)|([] & g & Ha & H)]].
  1,2: split; [done|by eapply append_keeps].
  destruct (append_keeps _ _ snapshotPartial _ _ _ _ _ ltac:(done) Hd Hb Ha) as (d' & Hd' & Hb').
  eapply writeSnapshot_stale in H as [-> Ho]; [|done..]. split; [apply Ho|by exists d'].
Qed.

(** C33: RecordFact does not look the fact's intent up.  A fact for an intent that is
    not pending (a repeated one, an unknown one) can be recorded with success, and
    after that the session never loads again. *)
Theorem RecordFact_unknown_intent_breaks_session hook fact candidate f current pending f' :
  let id := fa_SessionID fact in
  loads f id (current, pending) -> pending !! fa_IntentID fact = None ->
  c_ok fact = true -> snapshot_ok current -> snapshot_ok candidate ->
  runs (RecordFact hook fact candidate) f (Done (Ok tt)) f' ->
  forall answer f'', ~ runs (Load id) f' (Done (Ok answer)) f''.
Proof.
  intros id Hl Hi Hf Hc Hd H answer f'' Hload'.
  apply RecordFact_cases in H as [[-> Ho]|(cur & ps & reduced & Hload & _ & Er & H)]; [by destruct (Ho tt)|].
  eapply Load_spec in Hload as [Hcur _]; [|done]. cbn in Hcur. subst cur.
  pose proof (reduceFact_ok _ _ _ (composeFactSnapshot_ok _ _ _ Hc Hd) Hf Er) as Hr.
  destruct (Marshal_line _ (fact_envelope_ok _ _ Hf Hr) envelope_depth) as (text & Hm & Hone & Hu).
  destruct (Marshal_line reduced Hr snapshot_depth) as (body & Hb & _ & _).
  apply runs_do in H as [[? _]|[(e & ? & _)|([] & g & Ha & H)]]; [done..|].
  apply (append_spec _ _ _ _ _ _ Hm) in Ha as (_ & _ & Hg). specialize (Hg eq_refl).
  destruct Hl as (d & stext & s0 & log & Hdir & _ & _ & Hlog & Hclean & Hreplay).
  assert (g = set_dir (Session id) (<[journalFilename := log +:+ text +:+ String newline ""]> d) f) as ->.
  { rewrite Hg. unfold append_bytes, get_dir. fold id. by rewrite Hdir, Hlog. }
  eapply writeSnapshot_spec in H as [_ Hf']; [|apply get_set_dir|done]. specialize (Hf' eq_refl). rewrite set_set_dir in Hf'. subst f'.
  apply Load_inv in Hload' as (_ & d' & stext' & s0' & text' & st' & Hd' & _ & _ & Hl' & Hr' & _).
  cbn in Hd'. rewrite lookup_insert_eq in Hd'. injection Hd' as <-. rewrite lookup_insert_ne, lookup_insert_eq in Hl' by done. injection Hl' as <-.
  rewrite read_lines_app, replay_app in Hr' by done.
  destruct (replay_pending _ _ _ _ _ _ Hreplay s0') as [s' Hs']. rewrite Hs' in Hr'. cbn [result_bind replay_lines] in Hr'.
  change (byte_of 10) with newline in Hu. rewrite Hu in Hr'. unfold apply_entry in Hr'. cbn [ev_Kind ev_Fact ev_Snapshot] in Hr'.
  rewrite (eq_refl : str_eqb "fact" "intent" = false), (eq_refl : str_eqb "fact" "fact" = true) in Hr'.
  by rewrite str_eqb_refl, Hi in Hr'.
Qed.

(** ** Create *)
Lemma mkdir_temp_spec attempts pattern f o f' :
  runs (mkdir_temp attempts pattern) f o f' ->
  j_sessions f' = j_sessions f /\ (forall name, o = Done (Ok name) -> get_dir (Staging name) f' = Some ∅).
Proof.
  revert f. induction attempts as [|n IH]; intros f H; cbn [mkdir_temp] in H; [by apply runs_ret in H as [-> ->]|].
  apply runs_do_reads in H as [[-> Ho]|(random & _ & H)]; [split; [done|]; intros name ->; by destruct (Ho name)| |auto with camp].
  set (name := temp_name pattern random) in *.
  assert (forall o1 g, runs (atomic (fun f0 : jfs => match j_creating f0 !! name with
      | Some _ => (Err ErrExist, f0) | None => (Ok tt, mkJfs (j_sessions f0) (<[name:=∅]> (j_creating f0))) end)) f o1 g ->
      j_sessions g = j_sessions f /\ (o1 = Done (Ok tt) -> get_dir (Staging name) g = Some ∅)) as Hmk.
  { intros o1 g [[-> ->]|[-> [->| ->]]]%runs_atomic; [|done..]. destruct (j_creating f !! name); [done|].
    cbn. split; [done|]. intros _. apply lookup_insert_eq. }
  apply runs_bind in H as [[-> H]|(made & g & Hm & H)]; [apply Hmk in H as [-> _]; done|].
  apply Hmk in Hm as [Hs Hd]. destruct made as [[]|e].
  - apply runs_ret in H as [-> ->]. split; [done|]. intros ? [= <-]. by apply Hd.
  - destruct (errors_Is e ErrExist); [|by apply runs_ret in H as [-> ->]]. apply IH in H as [-> H]. done.
Qed.

(** The directory a new session starts with. *)
Definition initial_dir (body : bytes) : dir := <[snapshotFilename := body]> (<[journalFilename := ""]> ∅).

(** How Create may leave the sessions: as they were, or with the new one. *)
Definition staged_outcome (f : jfs) (id : string) (body : bytes) (o : outcome (result unit * bool)) (g : jfs) : Prop :=
  (j_sessions g = j_sessions f /\ forall c, o <> Done (Ok tt, c)) \/
  j_sessions g = <[id := initial_dir body]> (j_sessions f).

Lemma staging_sessions n d f : j_sessions (set_dir (Staging n) d f) = j_sessions f.
Proof. done. Qed.

Lemma commit_staged hooks snapshot body staging f g o g' :
  let id := js_SessionID snapshot in
  j_sessions f !! id = None -> id <> creationDirectory ->
  j_sessions g = j_sessions f -> get_dir (Staging staging) g = Some (initial_dir body) ->
  runs (renamed <~ commit_staging staging id;
    match renamed with
    | Err e =>
        stat <~ lstat_session id;
        match stat with
        | Ok _ => r <~ acceptExistingInitialSession snapshot; io_ret (r, true)
        | Err _ => io_ret (Err e, true)
        end
    | Ok _ =>
        synced1 <~ syncDirectory;
        match synced1 with
        | Err e => io_ret (Err e, false)
        | Ok _ => synced2 <~ syncDirectory;
            match synced2 with Err e => io_ret (Err e, false) | Ok _ => io_ret (hooks CreateAfterCommitSync, false) end
        end
    end) g o g' ->
  staged_outcome f id body o g'.
Proof.
  intros id Hf Hid Hg Hd H. apply runs_bind in H as [[-> H]|(renamed & g1 & H1 & H)].
  { left. split; [|done]. apply runs_atomic in H as [[? ->]|[-> _]]; [|done]. by destruct (j_sessions g !! id), (j_creating g !! staging). }
  apply runs_atomic in H1 as [[Hr ->]|[-> [[= ->]|]]]; [| |done].
  - rewrite Hg, Hf in *. cbn [get_dir] in Hd. rewrite Hd in *. injection Hr as ->. cbn [fst snd] in *. right.
    match goal with H : runs ?p _ _ _ |- _ => assert (reads p) as Hreads by (unfold syncDirectory; solve_reads) end.
    by apply Hreads in H as ->.
  - left. apply runs_bind in H as [[-> H]|(stat & g1 & H1 & H)]; [by apply (reads_inspect _) in H as ->|].
    pose proof H1 as H2. apply (reads_inspect _) in H2 as ->. destruct stat as [[]|].
    + apply runs_inspect in H1 as [H1 _]. rewrite Hg, Hf in H1. unfold str_eqb in H1. by rewrite bool_decide_false in H1.
    + by apply runs_ret in H as [-> ->].
Qed.

Lemma create_staged_spec hook hooks staging snapshot body f g o g' :
  let id := js_SessionID snapshot in
  j_sessions f !! id = None -> id <> creationDirectory -> Marshal snapshot = Some body ->
  j_sessions g = j_sessions f -> get_dir (Staging staging) g = Some ∅ ->
  runs (create_staged hook hooks staging snapshot) g o g' -> staged_outcome f id body o g'.
Proof.
  intros id Hf Hid Hb Hg Hd. set (Q := staged_outcome f id body).
  assert (forall o1 g1, j_sessions g1 = j_sessions f -> (forall c, o1 <> Done (Ok tt, c)) -> Q o1 g1) as Hnone by by left.
  assert (forall g1 e c, j_sessions g1 = j_sessions f -> forall o1 g2, runs (io_ret (Err e, c)) g1 o1 g2 -> Q o1 g2) as Hstop.
  { intros g1 e c Hg1 o1 g2 [-> ->]%runs_ret. by apply Hnone. }
  unfold create_staged.
  apply runs_guard; [auto with camp|by apply Hnone|by intros; eapply Hstop|]. intros [] o1 g1 _.
  apply runs_guard; [auto with camp|by apply Hnone|by intros; eapply Hstop|]. intros [] o2 g2 _.
  intros [[-> H]|(made & g3 & Hm & H)]%runs_bind.
  { apply Hnone; [|done]. apply runs_atomic in H as [[? ->]|[-> _]]; [|done]. by rewrite Hd. }
  set (d1 := <[journalFilename := ""]> (∅ : dir)).
  assert (j_sessions g3 = j_sessions f /\ (made = Ok tt -> g3 = set_dir (Staging staging) d1 g)) as [Hg3 Hmade].
  { apply runs_atomic in Hm as [[[= ->] ->]|[-> [[= ->]|]]]; [by rewrite Hd|done..]. }
  destruct made as [[]|e]; [|by eapply Hstop]. rewrite (Hmade eq_refl) in *. clear Hmade g3. revert H.
  set (g3 := set_dir (Staging staging) d1 g) in *.
  apply runs_guard; [auto with camp|by apply Hnone| |].
  { intros e o3 g4. apply runs_skip; [auto with camp|by apply Hnone|by intros; eapply Hstop]. }
  intros [] o4 g4 _. apply runs_guard; [auto with camp|by apply Hnone|by intros; eapply Hstop|]. intros [] o5 g5 _.
  apply runs_guard; [auto with camp|by apply Hnone|by intros; eapply Hstop|]. intros [] o6 g6 _.
  destruct (hooks CreateAfterJournalSync); [|by eapply Hstop].
  assert (get_dir (Staging staging) g3 = Some d1) as Hd1 by apply get_set_dir.
  intros [[-> H]|([[]|e] & g7 & Hw & H)]%runs_bind; (eapply writeSnapshot_spec in H || eapply writeSnapshot_spec in Hw); try done.
  - destruct H as [(d' & -> & _) _]. by apply Hnone.
  - destruct Hw as [_ Hw]. specialize (Hw eq_refl). subst g7. destruct (hooks CreateAfterSnapshotSync); [|by eapply Hstop; [|exact H]].
    eapply commit_staged in H; [done|done|done|done|]. apply get_set_dir.
  - destruct Hw as [(d' & -> & _) _]. by eapply Hstop; [|exact H].
Qed.

Lemma loads_initial f id snapshot body :
  snapshot_ok snapshot -> Marshal snapshot = Some body -> j_sessions f !! id = Some (initial_dir body) ->
  loads f id (snapshot, ∅).
Proof.
  intros Hok Hm Hd. destruct (Unmarshal_Marshal snapshot Hok snapshot_depth) as (b & Hm' & Hu & _).
  rewrite Hm in Hm'. injection Hm' as <-. exists (initial_dir body), body, snapshot, "". unfold initial_dir.
  rewrite lookup_insert_eq, lookup_insert_ne, lookup_insert_eq by done. split; [done|]. split; [done|]. split; [done|].
  split; [done|]. split; [by left|done].
Qed.

(** C14: creating a session is atomic at every failure and every crash point.  When
    there is no such session, whatever the schedule, the random names and the hooks,
    afterwards the sessions are as they were, or have the new one and it loads to the
    given snapshot with nothing pending; success means the second. *)
Theorem Create_atomic hook hooks snapshot f o f' :
  let id := js_SessionID snapshot in
  j_sessions f !! id = None -> id <> creationDirectory -> snapshot_ok snapshot ->
  runs (Create hook hooks snapshot) f o f' ->
  (j_sessions f' = j_sessions f /\ o <> Done (Ok tt) \/
   loads f' id (snapshot, ∅) /\ forall id', id' <> id -> j_sessions f' !! id' = j_sessions f !! id').
Proof.
  intros id Hf Hid Hok H. destruct (Unmarshal_Marshal snapshot Hok snapshot_depth) as (body & Hm & _ & _).
  unfold Create in H.
  apply runs_do_reads in H as [[-> Ho]|(_ & _ & H)]; [by left| |auto with camp].
  destruct (validateSessionID _); [|apply runs_ret in H as [-> ->]; by left].
  apply runs_bind in H as [[-> H]|(stat & g & Hs & H)]; [apply (reads_inspect _) in H as ->; by left|].
  pose proof (reads_inspect _ _ _ _ Hs) as ->. destruct stat as [[]|e].
  { apply runs_inspect in Hs as [Hs _]. fold id in Hs. rewrite Hf in Hs. unfold str_eqb in Hs. by rewrite bool_decide_false in Hs. }
  destruct (negb _); [apply runs_ret in H as [-> ->]; by left|].
  apply runs_do in H as [[-> H]|[(e1 & -> & H)|(staging & g & H1 & H)]].
  1,2: apply mkdir_temp_spec in H as [? _]; by left.
  apply mkdir_temp_spec in H1 as [Hg Hd]. specialize (Hd _ eq_refl).
  assert (forall o1 g1, staged_outcome f id body o1 g1 -> (exists r, o1 = Done r /\ r.1 = Ok tt) \/ o <> Done (Ok tt) -> forall g2, j_sessions g2 = j_sessions g1 -> 
    (j_sessions g2 = j_sessions f /\ o <> Done (Ok tt) \/
     loads g2 id (snapshot, ∅) /\ forall id', id' <> id -> j_sessions g2 !! id' = j_sessions f !! id')) as Hfin.
  { intros o1 g1 [[Hs1 Hn]|Hs1] Hor g2 Hg2; rewrite Hs1 in Hg2.
    - left. split; [done|]. destruct Hor as [([r c] & -> & Hr)|?]; [|done]. cbn in Hr. subst r. by destruct (Hn c).
    - right. split; [eapply loads_initial; [done..|]; rewrite Hg2; apply lookup_insert_eq|].
      intros id' Hn'. by rewrite Hg2, lookup_insert_ne. }
  apply runs_bind in H as [[-> H]|([r c] & g1 & H1 & H)].
  { eapply create_staged_spec in H; [|done..]. eapply Hfin; [done|by right|done]. }
  eapply create_staged_spec in H1; [|done..]. cbn [fst snd] in H.
  assert (j_sessions f' = j_sessions g1 /\ (o = Done r \/ o = Crashed)) as [Hs' Ho].
  { apply runs_bind in H as [[-> H]|(x & g2 & H2 & H)].
    - destruct c; [|by apply runs_ret in H as [? _]]. by apply runs_atomic in H as [[? _]|[-> _]]; [|split; [|right]].
    - apply runs_ret in H as [-> ->]. destruct c; [apply runs_atomic in H2 as [[_ ->]|[-> _]]|apply runs_ret in H2 as [_ ->]]; (split; [done|by left]). }
  eapply Hfin; [done| |done]. destruct Ho as [->| ->]; [|by right].
  destruct r as [[]|]; [left; by eexists|by right].
Qed.

(** ** The execution binding *)
Lemma fact_result_binding current candidate fact reduced :
  fact_result current candidate fact = Ok reduced -> js_ExecutionBinding reduced = js_ExecutionBinding current.
Proof.
  unfold fact_result, reduceFact. set (c := composeFactSnapshot _ _ _).
  assert (js_ExecutionBinding c = js_ExecutionBinding current) as <-.
  { subst c. unfold composeFactSnapshot. cbn zeta. repeat case_match; done. }
  intros H. break_result H; by injection H as <-.
Qed.

Lemma loads_inj f id st st' : loads f id st -> loads f id st' -> st = st'.
Proof.
  intros (d & stext & s0 & text & Hd & Hs & Hu & Hl & _ & Hr) (d' & stext' & s0' & text' & Hd' & Hs' & Hu' & Hl' & _ & Hr').
  rewrite Hd in Hd'. injection Hd' as <-. rewrite Hs in Hs'. injection Hs' as <-. rewrite Hl in Hl'. injection Hl' as <-.
  rewrite Hu in Hu'. injection Hu' as <-. rewrite Hr in Hr'. by injection Hr' as <-.
Qed.

(** A torn log does not count as loading. *)
Lemma torn_not_loads f f' id st st' : loads f id st -> torn f f' id -> ~ loads f' id st'.
Proof.
  intros (d & _ & _ & text & Hd & _ & _ & Hl & _) (fragment & Hne & Hone & ->) (d' & _ & _ & text' & Hd' & _ & _ & Hl' & Hc & _).
  unfold append_bytes, get_dir in Hd'. rewrite Hd, Hl in Hd'. cbn in Hd'. rewrite lookup_insert_eq in Hd'.
  injection Hd' as <-. rewrite lookup_insert_eq in Hl'. injection Hl' as <-.
  destruct fragment as [|c frag]; [done|]. destruct Hc as [Hc|Hc]; [by destruct text|].
  rewrite last_byte_app in Hc. clear -Hone Hc. unfold one_line in Hone. revert c Hone Hc.
  induction frag as [|d frag IH]; intros c Hone Hc; simpl in Hone; bool_norm.
  - injection Hc as ->. done.
  - apply (IH d); [simpl; by apply andb_true_intro; split; [apply negb_true_iff, Z.eqb_neq|]|done].
Qed.

(** BindExecution's two ways. *)
Lemma BindExecution_cases hook id binding f current pending o f' :
  loads f id (current, pending) -> runs (BindExecution hook id binding) f o f' ->
  (f' = f /\ forall b, o <> Done (Ok b)) \/
  (f' = f /\ js_ExecutionBinding current = Some binding) \/
  (js_ExecutionBinding current = None /\ ExecutionBinding_Validate binding = Ok tt /\
   (exists d, j_sessions f !! id = Some d /\ d !! journalFilename = Some "") /\
   runs (writeSnapshot hook (Session id) (set_js_ExecutionBinding (Some binding) current) true) f o f').
Proof.
  intros Hl H. unfold BindExecution in H.
  apply runs_do_reads in H as [?|(_ & _ & H)]; [by left| |auto with camp].
  destruct (validateSessionID id); [|apply runs_ret in H as [-> ->]; by left].
  destruct (ExecutionBinding_Validate binding) as [[]|] eqn:Hv; [|apply runs_ret in H as [-> ->]; by left].
  do 2 (apply runs_do_reads in H as [?|(_ & _ & H)]; [by left| |auto with camp]).
  apply runs_do_reads in H as [?|([cur ps] & Hload & H)]; [by left| |apply reads_Load].
  eapply Load_spec in Hload as [Hcur _]; [|done]. cbn in Hcur. subst cur.
  destruct (js_ExecutionBinding current) as [bound|] eqn:Eb.
  { destruct (negb (bool_decide (bound = binding))) eqn:E; apply runs_ret in H as [-> ->]; [by left|].
    bool_norm. subst. right. by left. }
  apply runs_do in H as [[-> H]|[(e & -> & H)|(text & g & Ht & H)]]; [apply (reads_inspect _) in H as ->; by left..|].
  apply runs_inspect in Ht as [Ht ->]. destruct (negb (str_len text =? 0)) eqn:E; [apply runs_ret in H as [-> ->]; by left|].
  right. right. split; [done|]. split; [done|]. split; [|done]. unfold read_file, get_dir in Ht.
  destruct (j_sessions f !! id) as [d|]; [|done]. exists d. split; [done|]. destruct (d !! journalFilename) as [t|]; [|done].
  injection Ht as ->. bool_norm. unfold str_len in E. by destruct text.
Qed.

(** C21: an execution binding is chosen once.  BindExecution on a session without a
    binding leaves it as it was or bound, and success means bound (only a session whose
    log is still empty); on a bound session it changes nothing and succeeds only for
    the same binding; whatever fails on the way. *)
Theorem BindExecution_once hook id binding f current pending o f' :
  loads f id (current, pending) -> snapshot_ok current ->
  runs (BindExecution hook id binding) f o f' ->
  let bound := set_js_ExecutionBinding (Some binding) current in
  match js_ExecutionBinding current with
  | Some b => f' = f /\ (o = Done (Ok tt) -> b = binding)
  | None =>
      (loads f' id (current, pending) /\ o <> Done (Ok tt)) \/
      (loads f' id (bound, pending) /\ pending = ∅ /\ ExecutionBinding_Validate binding = Ok tt)
  end.
Proof.
  intros Hl Hok H bound.
  apply (BindExecution_cases _ _ _ _ _ _ _ _ Hl) in H as [[-> Ho]|[[-> Hb]|(Hn & Hv & (d & Hd & Hlog) & H)]].
  - destruct (js_ExecutionBinding current); [|left]; (split; [done|]); [intros ->; by destruct (Ho tt)|apply Ho].
  - by rewrite Hb.
  - rewrite Hn. assert (snapshot_ok bound) as Hbok.
    { apply ok_set_ExecutionBinding; [done|]. apply field_ok_some. by apply ExecutionBinding_valid_ok. }
    destruct (Unmarshal_Marshal bound Hbok snapshot_depth) as (body & Hm & Hu & _).
    eapply writeSnapshot_spec in H as [(d' & -> & Hother & Hs) Ho]; [|done|done].
    destruct Hl as (d0 & stext & s0 & text & Hd0 & Hst & Hus & Hlog' & _ & Hr). rewrite Hd in Hd0. injection Hd0 as <-.
    rewrite Hlog in Hlog'. injection Hlog' as <-. cbn in Hr. injection Hr as -> <-.
    assert (forall s t, d' !! snapshotFilename = Some t -> Unmarshal t = Some s -> loads (set_dir (Session id) d' f) id (s, ∅)) as Hload.
    { intros s t Ht Hsu. exists d', t, s, "". cbn. rewrite lookup_insert_eq, (Hother journalFilename) by done.
      split; [done|]. split; [done|]. split; [done|]. split; [done|]. split; [by left|done]. }
    destruct Hs as [Hs|(_ & Hs & _)].
    + assert (o = Done (Ok tt) \/ o <> Done (Ok tt)) as [->|] by (destruct o as [[[]|]|]; [by left|by right..]); [|left; split; [eapply Hload; [by rewrite Hs|done]|done]].
      right. split; [|done]. eapply Hload; [|exact Hu]. specialize (Ho eq_refl). apply (f_equal (get_dir (Session id))) in Ho.
      rewrite !get_set_dir in Ho. injection Ho as ->. apply lookup_insert_eq.
    + right. split; [|done]. by eapply Hload.
Qed.

(** C22: once a session is bound, no fact changes its binding, and no fact that claims
    another binding is recorded: whatever the operation leaves, if the session still
    loads it is bound as before. *)
Theorem execution_binding_frozen hook fact candidate f current pending b o f' st' :
  let id := fa_SessionID fact in
  loads f id (current, pending) -> js_ExecutionBinding current = Some b ->
  is_Some (pending !! fa_IntentID fact) -> c_ok fact = true -> snapshot_ok current -> snapshot_ok candidate ->
  runs (RecordFact hook fact candidate) f o f' ->
  (loads f' id st' -> js_ExecutionBinding st'.1 = Some b) /\
  (o = Done (Ok tt) -> forall b', js_ExecutionBinding candidate = Some b' -> b' = b).
Proof.
  intros id Hl Hb Hi Hf Hc Hd H. apply RecordFact_cases in H as [[-> Ho]|(cur & ps & reduced & Hload & Hcand & Er & H)].
  { split; [|by intros ->; destruct (Ho tt)]. intros Hl'. by rewrite <-(loads_inj _ _ _ _ Hl Hl'). }
  eapply Load_spec in Hload as [Hcur _]; [|done]. cbn in Hcur. subst cur.
  pose proof (reduceFact_ok _ _ _ (composeFactSnapshot_ok _ _ _ Hc Hd) Hf Er) as Hr.
  destruct (record_reduced_spec _ _ _ _ _ _ _ _ Hl Hi Hf Hr H) as (H1 & H2 & H3).
  split; [|intros _ b' Hb'; specialize (Hcand _ Hb'); congruence].
  intros Hl'. destruct H1 as [->|[H1|H1]].
  - by rewrite <-(loads_inj _ _ _ _ Hl Hl').
  - rewrite <-(loads_inj _ _ _ _ H1 Hl'). cbn. by rewrite (fact_result_binding _ _ _ _ Er).
  - by destruct (torn_not_loads _ _ _ _ _ Hl H1 Hl').
Qed.

(** ** Facts *)
Lemma compose_lease_keeping current candidate transition :
  transition ∈ leaseKeepingTransitions ->
  composeFactSnapshot current candidate transition =
    set_js_Lease (js_Lease current) (set_js_ExecutionBinding (js_ExecutionBinding current) candidate).
Proof.
  intros H. unfold leaseKeepingTransitions in H.
  repeat (apply elem_of_cons in H as [->|H]; [reflexivity|]). by apply elem_of_nil in H.
Qed.

(** A lease renewal and a publication fact that were computed from the same, by then
    stale, snapshot commute: in either order the session ends with the renewed lease and
    the publication's fields (only the time stamp tells the orders apart). *)
Theorem lease_renewal_commutes current renewal fact candL candB r1 r2 q1 q2 t :
  fa_Transition renewal = "LeaseRenewed" -> fa_Transition fact ∈ leaseKeepingTransitions ->
  fact_result current candL renewal = Ok r1 -> fact_result r1 candB fact = Ok r2 ->
  fact_result current candB fact = Ok q1 -> fact_result q1 candL renewal = Ok q2 ->
  set_js_UpdatedAt t r2 = set_js_UpdatedAt t q2 /\ js_Lease r2 = js_Lease candL /\
  js_Workspace r2 = js_Workspace candB /\ js_State r2 = js_State candB.
Proof.
  intros Hl Hf. unfold fact_result. rewrite !(compose_lease_keeping _ candB) by done. rewrite Hl.
  unfold reduceFact. rewrite Hl. cbn [composeFactSnapshot].
  rewrite (eq_refl : str_eqb "LeaseRenewed" "PointerCommitted" = false).
  change (composeFactSnapshot ?c candL "LeaseRenewed") with (set_js_Lease (js_Lease candL) c).
  intros [= <-] H2 H3. set (b1 := set_js_Lease _ _) in H2. set (b2 := set_js_Lease _ _) in H3.
  assert (forall c, completePointerCommit b1 (Some c) = completePointerCommit b2 (Some c)) as Hc by done.
  destruct (str_eqb (fa_Transition fact) "PointerCommitted").
  - destruct (fa_Pointer fact) as [c|]; [|done]. rewrite <-Hc in H3. destruct (completePointerCommit b1 (Some c)); [|done].
    injection H2 as <-. injection H3 as <-. by intros [= <-].
  - injection H2 as <-. injection H3 as <-. by intros [= <-].
Qed.

(** Recording PointerCommitted makes the committed pointer the session's base: the
    fact is refused unless it carries a complete pointer of the session's capsule and
    lineage, and then the snapshot's base, pointer and expected revision are the
    commit's, with the lease it had. *)
Theorem pointer_committed_effect current candidate fact reduced :
  fa_Transition fact = "PointerCommitted" ->
  fact_result current candidate fact = Ok reduced ->
  exists commit, fa_Pointer fact = Some commit /\ pc_Revision commit <> "" /\
    lp_Capsule (pc_Pointer commit) = js_Capsule candidate /\ lp_Lineage (pc_Pointer commit) = js_Lineage candidate /\
    gr_Generation (lp_Generation (pc_Pointer commit)) <> 0 /\
    js_CurrentBase reduced = Some (lp_Generation (pc_Pointer commit)) /\
    js_CurrentPointer reduced = Some (pc_Pointer commit) /\
    js_ExpectedPointerRevision reduced = pc_Revision commit /\
    js_Lease reduced = js_Lease current /\ js_UpdatedAt reduced = fa_Timestamp fact.
Proof.
  intros Ht. unfold fact_result. rewrite Ht. rewrite compose_lease_keeping by (unfold leaseKeepingTransitions; set_solver).
  unfold reduceFact. rewrite Ht. rewrite (eq_refl : str_eqb "PointerCommitted" "PointerCommitted" = true).
  destruct (fa_Pointer fact) as [c|]; [|done].
  destruct (completePointerCommit _ (Some c)) eqn:Hc; [|done]. intros [= <-]. exists c.
  unfold completePointerCommit in Hc. destruct (str_eqb (pc_Revision c) "") eqn:Hr; [done|]. cbn zeta in Hc.
  cbn in *. bool_norm. done.
Qed.

(** ** For the users of the store *)
Lemma RecordFact_outcome hook fact candidate f current pending o f' :
  let id := fa_SessionID fact in
  loads f id (current, pending) -> is_Some (pending !! fa_IntentID fact) ->
  c_ok fact = true -> snapshot_ok current -> snapshot_ok candidate ->
  runs (RecordFact hook fact candidate) f o f' ->
  (f' = f /\ o <> Done (Ok tt)) \/
  (exists reduced, snapshot_ok reduced /\ loads f' id (reduced, delete (fa_IntentID fact) pending)) \/
  (torn f f' id /\ o <> Done (Ok tt)).
Proof.
  intros id Hl Hi Hf Hc Hd H. apply RecordFact_cases in H as [[-> Ho]|(cur & ps & reduced & Hload & _ & Er & H)].
  { left. split; [done|apply Ho]. }
  eapply Load_spec in Hload as [Hcur _]; [|done]. cbn in Hcur. subst cur.
  pose proof (reduceFact_ok _ _ _ (composeFactSnapshot_ok _ _ _ Hc Hd) Hf Er) as Hr.
  destruct (record_reduced_spec _ _ _ _ _ _ _ _ Hl Hi Hf Hr H) as (H1 & H2 & H3).
  assert (o = Done (Ok tt) \/ o <> Done (Ok tt)) as [->|Ho] by (destruct o as [[[]|]|]; [by left|by right..]).
  - right. left. exists reduced. split; [done|by apply H2].
  - destruct H1 as [->|[?|?]]; [by left|right; left; by exists reduced|by right; right].
Qed.

(** The pending intents are kept under their ids. *)
Definition keyed (pending : pending_map) : Prop := forall k i, pending !! k = Some i -> ir_ID i = k.

Lemma replay_keyed id lines s p st : keyed p -> replay_lines id lines (s, p) = Ok st -> keyed st.2.
Proof.
  revert s p. induction lines as [|l lines IH]; intros s p Hp H; cbn [replay_lines] in H; [by injection H as <-|].
  destruct (Unmarshal l) as [e|]; [|done]. unfold apply_entry in H.
  destruct (str_eqb (ev_Kind e) "intent").
  { destruct (ev_Intent e) as [i|]; [|done]. destruct (negb _); [done|]. cbn [result_bind] in H. eapply IH; [|done].
    intros k i' [[<- <-]|[? ?]]%lookup_insert_Some; [done|by apply Hp]. }
  destruct (str_eqb (ev_Kind e) "fact"); [|done]. destruct (ev_Fact e) as [fa|]; [|done].
  destruct (ev_Snapshot e) as [sn|]; [|done]. destruct (negb _); [done|].
  destruct (p !! fa_IntentID fa); [|done]. cbn [result_bind] in H. eapply IH; [|done].
  intros k i' [? ?]%lookup_delete_Some. by apply Hp.
Qed.

Lemma loads_keyed f id st : loads f id st -> keyed st.2.
Proof. intros (d & _ & s0 & text & _ & _ & _ & _ & _ & Hr). by eapply replay_keyed in Hr. Qed.

(** * A session to try the theorems on *)
Definition sample_snapshot : JournalSnapshot :=
  set_js_Lineage (mkLineage "main") (set_js_Capsule "camp" (set_js_SessionID "s1" (set_js_SchemaVersion 1 c_zero))).
Definition sample_time : Time := utc (63850118400 * second_ns).
Definition sample_intent : IntentRecord := mkIntentRecord "i1" "s1" "LeaseRenewed" 1 sample_time "".
Definition sample_fact : FactRecord := mkFactRecord "i1" "s1" "LeaseRenewed" sample_time "" None.
Definition sample_binding : ExecutionBinding :=
  mkExecutionBinding 1 (mkBlueprintRef 1 (String.concat "" (repeat "0a" 32))) "".
Definition bound_snapshot : JournalSnapshot := set_js_ExecutionBinding (Some sample_binding) sample_snapshot.

(** The files of a new session, and after an intent was recorded too. *)
Definition files_of (s : JournalSnapshot) : jfs := mkJfs {["s1" := initial_dir (default "" (Marshal s))]} ∅.
Definition files_created : jfs := files_of sample_snapshot.
Definition files_intent : jfs := s_fs (RecordIntent sample_intent (calm files_created [])).2.
Definition sample_pending : pending_map := <["i1" := sample_intent]> ∅.

Lemma sample_snapshot_ok : snapshot_ok sample_snapshot.
Proof. vm_compute. reflexivity. Qed.

Lemma sample_records_ok : c_ok sample_intent = true /\ c_ok sample_fact = true /\ ExecutionBinding_Validate sample_binding = Ok tt.
Proof. vm_compute. done. Qed.

Lemma loads_files_of s : snapshot_ok s -> loads (files_of s) "s1" (s, ∅).
Proof.
  intros Hok. destruct (Unmarshal_Marshal s Hok snapshot_depth) as (body & Hm & _).
  apply (loads_initial _ _ _ body); [done|done|]. unfold files_of. rewrite Hm. cbn [j_sessions default from_option id]. apply lookup_singleton_eq.
Qed.

Lemma loads_created : loads files_created "s1" (sample_snapshot, ∅).
Proof. exact (loads_files_of _ sample_snapshot_ok). Qed.

(** One intent after the creation: the log has grown, the rest of the directory is the same. *)
Lemma loads_sample_intent s : snapshot_ok s ->
  exists f' d', loads f' "s1" (s, sample_pending) /\ RecordIntent sample_intent (calm (files_of s) []) = (Done (Ok tt), calm f' []) /\
    j_sessions f' !! "s1" = Some d' /\ d' !! snapshotPartial = None.
Proof.
  intros Hok. pose proof (loads_files_of s Hok) as Hl.
  destruct (Marshal_line _ (intent_envelope_ok _ (proj1 sample_records_ok)) envelope_depth) as (text & Hm & Hone & Hu).
  set (d := initial_dir (default "" (Marshal s))).
  assert (j_sessions (files_of s) !! "s1" = Some d) as Hd by apply lookup_singleton_eq.
  assert (d !! journalFilename = Some "") as Hlog.
  { unfold d, initial_dir. rewrite lookup_insert_ne by discriminate. apply lookup_insert_eq. }
  exists (append_bytes (Session "s1") journalFilename (text +:+ String newline "") (files_of s)),
    (<[journalFilename := "" +:+ text +:+ String newline ""]> d).
  split; [by eapply loads_append|]. split; [|split].
  - unfold RecordIntent. erewrite calm_bind by apply calm_ctx_err. rewrite (eq_refl : validateIntent sample_intent = Ok tt).
    erewrite calm_bind by apply calm_inspect. unfold read_file. cbn [get_dir ir_SessionID sample_intent]. rewrite Hd, Hlog.
    cbn [result_bind]. erewrite calm_bind by apply calm_inspect. by eapply calm_append.
  - unfold append_bytes, get_dir. rewrite Hd, Hlog. apply lookup_insert_eq.
  - rewrite lookup_insert_ne by discriminate. unfold d, initial_dir. rewrite !lookup_insert_ne by discriminate. apply lookup_empty.
Qed.

Lemma loads_intent : loads files_intent "s1" (sample_snapshot, sample_pending) /\
  exists d, j_sessions files_intent !! "s1" = Some d /\ d !! snapshotPartial = None.
Proof.
  destruct (loads_sample_intent _ sample_snapshot_ok) as (f' & d' & Hl & Hr & Hd). unfold files_intent, files_created. rewrite Hr.
  split; [done|]. by exists d'.
Qed.

Lemma RecordIntent_crash_safe_witness :
  loads files_created "s1" (sample_snapshot, ∅) /\ loads files_intent "s1" (sample_snapshot, <["i1" := sample_intent]> ∅).
Proof.
  split; [exact loads_created|].
  apply (RecordIntent_crash_safe sample_intent files_created sample_snapshot ∅
    (RecordIntent sample_intent (calm files_created [])).1 files_intent loads_created (proj1 sample_records_ok)
    (runs_calm _ _ _)).
  destruct (loads_sample_intent _ sample_snapshot_ok) as (f' & d' & _ & Hr & _). unfold files_created. rewrite Hr. reflexivity.
Defined.

(** Any fact of the session is recorded there. *)
Lemma sample_fact_runs intentID :
  let fact := mkFactRecord intentID "s1" "LeaseRenewed" sample_time "" None in
  valid_utf8 intentID = true -> str_eqb intentID "" = false ->
  exists f' d', RecordFact (Ok tt) fact sample_snapshot (calm files_intent []) = (Done (Ok tt), calm f' []) /\
    j_sessions f' !! "s1" = Some d' /\ d' !! snapshotPartial = None.
Proof.
  intros fact Hu Hne. destruct loads_intent as [Hl (d & Hd & Hp)].
  destruct (RecordFact_calm fact sample_snapshot files_intent [] sample_snapshot sample_pending (set_js_UpdatedAt sample_time sample_snapshot) d)
    as (f' & d' & Hr & _ & Hd' & Hp'); [exact Hd|exact Hp|exact Hl|..].
  - cbn -[valid_utf8]. rewrite Hu. reflexivity.
  - vm_compute. reflexivity.
  - unfold validateFact. cbn -[str_eqb]. rewrite Hne. reflexivity.
  - intros b H. discriminate H.
  - reflexivity.
  - exists f', d'. split; [exact Hr|]. split; [exact Hd'|exact Hp'].
Qed.

(** The files after the fact was recorded. *)
Definition files_fact : jfs := s_fs (RecordFact (Ok tt) sample_fact sample_snapshot (calm files_intent [])).2.

Lemma files_fact_ok : (RecordFact (Ok tt) sample_fact sample_snapshot (calm files_intent [])).1 = Done (Ok tt).
Proof. destruct (sample_fact_runs "i1" eq_refl eq_refl) as (f' & d' & H & _). unfold sample_fact. by rewrite H. Qed.

Lemma RecordFact_crash_safe_witness :
  exists reduced, fact_result sample_snapshot sample_snapshot sample_fact = Ok reduced /\
    loads files_fact "s1" (reduced, delete "i1" sample_pending).
Proof.
  apply (RecordFact_crash_safe (Ok tt) sample_fact sample_snapshot files_intent sample_snapshot sample_pending
    (RecordFact (Ok tt) sample_fact sample_snapshot (calm files_intent [])).1 files_fact).
  - exact (proj1 loads_intent).
  - exists sample_intent. reflexivity.
  - apply sample_records_ok.
  - exact sample_snapshot_ok.
  - exact sample_snapshot_ok.
  - exact (runs_calm (RecordFact (Ok tt) sample_fact sample_snapshot) files_intent []).
  - exact files_fact_ok.
Defined.

Lemma RecordFact_succeeds_witness :
  exists f' d', RecordFact (Ok tt) sample_fact sample_snapshot (calm files_intent []) = (Done (Ok tt), calm f' []) /\
    loads f' "s1" (set_js_UpdatedAt sample_time sample_snapshot, delete "i1" sample_pending) /\
    j_sessions f' !! "s1" = Some d' /\ d' !! snapshotPartial = None.
Proof.
  destruct loads_intent as [Hl (d & Hd & Hp)].
  apply (RecordFact_succeeds sample_fact sample_snapshot files_intent [] sample_snapshot sample_pending
    (set_js_UpdatedAt sample_time sample_snapshot) d).
  - exact Hd.
  - exact Hp.
  - exact Hl.
  - exists sample_intent. reflexivity.
  - apply sample_records_ok.
  - exact sample_snapshot_ok.
  - exact sample_snapshot_ok.
  - reflexivity.
  - intros b H. discriminate H.
  - reflexivity.
Defined.

(** A crash can leave a partial snapshot, and then no fact is recorded. *)
Lemma stale_partial_blocks_facts_witness :
  exists files_crashed, runs (writeSnapshot (Ok tt) (Session "s1") sample_snapshot true) files_intent Crashed files_crashed /\
    (RecordFact (Ok tt) sample_fact sample_snapshot (calm files_crashed [])).1 <> Done (Ok tt).
Proof.
  destruct loads_intent as [_ (d & Hd & Hp)].
  exists (set_dir (Session "s1") (<[snapshotPartial := ""]> d) files_intent).
  split; [exact (writeSnapshot_crash (Ok tt) (Session "s1") sample_snapshot true files_intent d Hd Hp sample_snapshot_ok)|].
  exact (proj1 (stale_partial_blocks_facts (Ok tt) sample_fact sample_snapshot _ _ "" _ _ (lookup_insert_eq _ _ _) (lookup_insert_eq _ _ _)
    (runs_calm (RecordFact (Ok tt) sample_fact sample_snapshot) (set_dir (Session "s1") (<[snapshotPartial := ""]> d) files_intent) []))).
Defined.

(** The fact of an intent nobody recorded. *)
Definition stray_fact : FactRecord := mkFactRecord "i9" "s1" "LeaseRenewed" sample_time "" None.
Definition files_stray : jfs := s_fs (RecordFact (Ok tt) stray_fact sample_snapshot (calm files_intent [])).2.

Lemma runs_stray : runs (RecordFact (Ok tt) stray_fact sample_snapshot) files_intent (Done (Ok tt)) files_stray.
Proof.
  destruct (sample_fact_runs "i9" eq_refl eq_refl) as (f' & d' & H & _). unfold files_stray, stray_fact. rewrite H.
  exists (calm files_intent []), (calm f' []). split; [exact H|]. split; reflexivity.
Qed.

Lemma RecordFact_unknown_intent_breaks_session_witness :
  runs (RecordFact (Ok tt) stray_fact sample_snapshot) files_intent (Done (Ok tt)) files_stray /\
  ~ runs (Load "s1") files_stray (Done (Ok (sample_snapshot, []))) files_stray.
Proof.
  split; [exact runs_stray|].
  apply (RecordFact_unknown_intent_breaks_session (Ok tt) stray_fact sample_snapshot files_intent sample_snapshot sample_pending files_stray).
  - exact (proj1 loads_intent).
  - reflexivity.
  - reflexivity.
  - exact sample_snapshot_ok.
  - exact sample_snapshot_ok.
  - exact runs_stray.
Defined.

(** A first run of Create, on a disk without sessions. *)
Definition create_run : outcome (result unit) * sys jfs :=
  Create (Ok tt) (fun _ => Ok tt) sample_snapshot (calm (mkJfs ∅ ∅) ["42"]).

Lemma Create_atomic_witness :
  (j_sessions (s_fs create_run.2) = ∅ /\ create_run.1 <> Done (Ok tt)) \/ loads (s_fs create_run.2) "s1" (sample_snapshot, ∅).
Proof.
  destruct (Create_atomic (Ok tt) (fun _ => Ok tt) sample_snapshot (mkJfs ∅ ∅) create_run.1 (s_fs create_run.2)
    (lookup_empty _) ltac:(discriminate) sample_snapshot_ok
    (runs_calm (Create (Ok tt) (fun _ => Ok tt) sample_snapshot) (mkJfs ∅ ∅) ["42"])) as [H|[H _]].
  - left. exact H.
  - right. exact H.
Defined.

(** The files after the session was bound. *)
Definition files_bound : jfs := s_fs (BindExecution (Ok tt) "s1" sample_binding (calm files_created [])).2.

Lemma BindExecution_once_witness :
  (BindExecution (Ok tt) "s1" sample_binding (calm files_created [])).1 <> Done (Ok tt) \/ loads files_bound "s1" (bound_snapshot, ∅).
Proof.
  destruct (BindExecution_once (Ok tt) "s1" sample_binding files_created sample_snapshot ∅ _ files_bound
    loads_created sample_snapshot_ok (runs_calm (BindExecution (Ok tt) "s1" sample_binding) files_created [])) as [[_ H]|[H _]].
  - left. exact H.
  - right. exact H.
Defined.

Definition bound_intent : jfs := s_fs (RecordIntent sample_intent (calm (files_of bound_snapshot) [])).2.

Lemma bound_snapshot_ok : snapshot_ok bound_snapshot.
Proof. vm_compute. reflexivity. Qed.

Lemma loads_bound_intent : loads bound_intent "s1" (bound_snapshot, sample_pending).
Proof.
  destruct (loads_sample_intent _ bound_snapshot_ok) as (f' & d' & Hl & Hr & _). unfold bound_intent. by rewrite Hr.
Qed.

Lemma execution_binding_frozen_witness :
  loads bound_intent "s1" (bound_snapshot, sample_pending) /\
  forall st', loads (s_fs (RecordFact (Ok tt) sample_fact sample_snapshot (calm bound_intent [])).2) "s1" st' ->
    js_ExecutionBinding st'.1 = Some sample_binding.
Proof.
  split; [exact loads_bound_intent|]. intros st'.
  refine (proj1 (execution_binding_frozen (Ok tt) sample_fact sample_snapshot bound_intent bound_snapshot sample_pending
    sample_binding _ _ st' loads_bound_intent ltac:(reflexivity) _ (proj1 (proj2 sample_records_ok)) bound_snapshot_ok
    sample_snapshot_ok (runs_calm (RecordFact (Ok tt) sample_fact sample_snapshot) bound_intent []))).
  exists sample_intent. reflexivity.
Defined.

(** A renewal and a publication computed from one snapshot. *)
Definition renewed_lease : LeaseRecord := @c_zero LeaseRecord _.
Definition renewed_snapshot : JournalSnapshot := set_js_Lease renewed_lease sample_snapshot.
Definition mirrored_snapshot : JournalSnapshot := set_js_State "publishing" sample_snapshot.
Definition mirrored_fact : FactRecord := mkFactRecord "i2" "s1" "WorkspaceMirrored" sample_time "" None.

Lemma lease_renewal_commutes_witness :
  exists r2 q2, set_js_UpdatedAt zero_time r2 = set_js_UpdatedAt zero_time q2 /\
    js_Lease r2 = renewed_lease /\ js_State r2 = "publishing".
Proof.
  eexists _, _.
  destruct (lease_renewal_commutes sample_snapshot sample_fact mirrored_fact renewed_snapshot mirrored_snapshot
    _ _ _ _ zero_time ltac:(reflexivity) ltac:(vm_compute; repeat constructor) ltac:(reflexivity) ltac:(reflexivity)
    ltac:(reflexivity) ltac:(reflexivity)) as (H1 & H2 & _ & H4).
  split; [exact H1|]. split; [exact H2|exact H4].
Defined.

(** The commit of a pointer. *)
Definition sample_pointer : LatestPointer :=
  mkLatestPointer 1 "camp" (mkLineage "main") (mkGenerationRef 7 (String.concat "" (repeat "0a" 32))) None "camp/g" 3
    sample_time (mkToolVersions "v1.0.0" "v1.0.0") "s1".
Definition commit_fact : FactRecord :=
  mkFactRecord "i3" "s1" "PointerCommitted" sample_time "" (Some (mkPointerCommit sample_pointer "r1")).

Lemma pointer_committed_effect_witness :
  exists reduced commit, fact_result sample_snapshot sample_snapshot commit_fact = Ok reduced /\
    js_CurrentPointer reduced = Some (pc_Pointer commit) /\ js_ExpectedPointerRevision reduced = pc_Revision commit.
Proof.
  eexists _. edestruct (pointer_committed_effect sample_snapshot sample_snapshot commit_fact)
    as (commit & _ & _ & _ & _ & _ & _ & Hp & Hr & _); [reflexivity|reflexivity|].
  exists commit. split; [reflexivity|]. split; [exact Hp|exact Hr].
Defined.
