(* ===== verification/Reconcile.v ===== *)
(** journal.Reconcile (journal/reconcile.go): settling the intents a crash left pending.

    Reconcile is a client of the ports.Journal interface.  The interface is the class
    [JournalPort] with what a client may rely on, [JournalPortLaws]; the theorems are
    proved against it, and journal.Store discharges it.  The observers are the caller's
    code: a table of functions from the snapshot and the intent to a fact. *)
From S2P Require Import Prelude Sha256 GoTime Json Codec JsonLines Regexp Domain Snapshot Effects Journal JournalSafety.

(** The operations of ports.Journal that Reconcile calls. *)
Class JournalPort (F : Type) := {
  jp_Load : string -> io F (result (JournalSnapshot * list IntentRecord));
  jp_RecordFact : FactRecord -> JournalSnapshot -> io F (result unit) }.

(** What the journal promises.  [jp_state f id st]: the session can be read and stands
    at [st]; [jp_broken f id]: its log ends in part of an entry. *)
Class JournalPortLaws (F : Type) (J : JournalPort F) := {
  jp_state : F -> string -> JournalSnapshot * gmap string IntentRecord -> Prop;
  jp_broken : F -> string -> Prop;
  jp_Load_reads : forall id, reads (jp_Load id);
  jp_Load_answer : forall f id st s pending f', jp_state f id st ->
    runs (jp_Load id) f (Done (Ok (s, pending))) f' -> s = st.1 /\ pending = sort_pending st.2;
  jp_state_keyed : forall f id st, jp_state f id st -> keyed st.2;
  jp_RecordFact_outcome : forall fact candidate f current pending o f',
    jp_state f (fa_SessionID fact) (current, pending) -> is_Some (pending !! fa_IntentID fact) ->
    c_ok fact = true -> snapshot_ok current -> snapshot_ok candidate ->
    runs (jp_RecordFact fact candidate) f o f' ->
    (f' = f /\ o <> Done (Ok tt)) \/
    (exists reduced, snapshot_ok reduced /\ jp_state f' (fa_SessionID fact) (reduced, delete (fa_IntentID fact) pending)) \/
    (jp_broken f' (fa_SessionID fact) /\ o <> Done (Ok tt)) }.

(** The store on disk, with its hook. *)
#[export] Instance store_port (hook : result unit) : JournalPort jfs := {
  jp_Load := Load;
  jp_RecordFact := RecordFact hook }.

#[export] Instance store_port_laws hook : JournalPortLaws jfs (store_port hook).
Proof.
  refine {| jp_state := loads; jp_broken := fun f' id => exists f, torn f f' id |}.
  - apply reads_Load.
  - apply Load_spec.
  - apply loads_keyed.
  - intros fact candidate f current pending o f' Hl Hi Hf Hc Hd H.
    destruct (RecordFact_outcome _ _ _ _ _ _ _ _ Hl Hi Hf Hc Hd H) as [?|[?|[??]]]; [by left|by right; left|].
    right. right. split; [by exists f|done].
Defined.

Section reconcile.
  Context {F : Type} `{J : JournalPort F}.

Definition Observer : Type := JournalSnapshot -> IntentRecord -> result (FactRecord * JournalSnapshot).

  Context (observers : string -> option Observer).

(** The loop over the pending intents; an error comes with the snapshot it returns. *)
Fixpoint reconcile_loop (sessionID : string) (snapshot : JournalSnapshot) (pending : list IntentRecord)
    : io F (JournalSnapshot * result unit) :=
  match pending with
  | [] => io_ret (snapshot, Ok tt)
  | item :: rest =>
      match observers (ir_Transition item) with
      | None => io_ret (snapshot, Err ErrUnknownTransition)
      | Some observer =>
          match observer snapshot item with
          | Err e => io_ret (snapshot, Err e)
          | Ok (fact, next) =>
              if negb (str_eqb (fa_IntentID fact) (ir_ID item)) || negb (str_eqb (fa_SessionID fact) sessionID) ||
                 negb (str_eqb (fa_Transition fact) (ir_Transition item))
              then io_ret (snapshot, Err (ErrText "reconciliation observer returned mismatched fact"))
              else
              recorded <~ jp_RecordFact fact next;
              match recorded with
              | Err e => io_ret (snapshot, Err e)
              | Ok _ =>
                  loaded <~ jp_Load sessionID;
                  match loaded with
                  | Err e => io_ret (snapshot, Err e)
                  | Ok (reduced, _) => reconcile_loop sessionID reduced rest
                  end
              end
          end
      end
  end.

Definition Reconcile (sessionID : string) : io F (JournalSnapshot * result unit) :=
  loaded <~ jp_Load sessionID;
  match loaded with
  | Err e => io_ret (c_zero, Err e)
  | Ok (snapshot, pending) => reconcile_loop sessionID snapshot pending
  end.
End reconcile.

(** * Lemmas *)

(** Sorting the pending intents neither loses nor repeats one. *)
Lemma sort_pending_perm p : sort_pending p ≡ₚ (map_to_list p).*2.
Proof. unfold sort_pending. by rewrite (sort_slice_perm (fun a b : string * IntentRecord => str_ltb a.1 b.1) (map_to_list p)). Qed.

Lemma keyed_ids p : keyed p -> map ir_ID (map_to_list p).*2 = (map_to_list p).*1.
Proof.
  intros Hk. unfold fmap. assert (Forall (fun ki => ir_ID ki.2 = ki.1) (map_to_list p)) as H.
  { apply Forall_forall. intros [k i] Hin%elem_of_map_to_list. by apply Hk. }
  induction H as [|[k i] l Hki Hl IH]; [done|]. cbn in *. by rewrite Hki, IH.
Qed.

(** The intents still to settle are the pending ones. *)
Definition covers (items : list IntentRecord) (p : gmap string IntentRecord) : Prop :=
  NoDup (map ir_ID items) /\ forall k, is_Some (p !! k) <-> k ∈ map ir_ID items.

Lemma sort_pending_covers p : keyed p -> covers (sort_pending p) p.
Proof.
  intros Hk. unfold covers. assert (map ir_ID (sort_pending p) ≡ₚ (map_to_list p).*1) as Hp.
  { rewrite <-keyed_ids by done. apply Permutation_map, sort_pending_perm. }
  split.
  - rewrite Hp. apply NoDup_fst_map_to_list.
  - intros k. rewrite Hp, list_elem_of_fmap. split.
    + intros [i Hi]. exists (k, i). split; [done|by apply elem_of_map_to_list].
    + intros ([k' i] & -> & Hin%elem_of_map_to_list). by exists i.
Qed.

Lemma covers_delete i items p : covers (i :: items) p -> covers items (delete (ir_ID i) p).
Proof.
  intros [Hn Hc]. cbn in Hn. apply NoDup_cons in Hn as [Hi Hn]. split; [done|]. intros k.
  destruct (decide (k = ir_ID i)) as [->|Hk].
  - rewrite lookup_delete_eq. split; [by intros []|by intros ?].
  - rewrite lookup_delete_ne by done. rewrite Hc. cbn. set_solver.
Qed.

Lemma covers_nil p : covers [] p -> p = ∅.
Proof.
  intros [_ Hc]. apply map_empty. intros k. apply eq_None_not_Some. intros H%Hc. cbn in H. by apply elem_of_nil in H.
Qed.

Section reconcile_laws.
  Context {F : Type} `{J : JournalPort F} `{JL : !JournalPortLaws F J}.
  Context (observers : string -> option Observer).

(** The observers return documents that survive the text. *)
Definition observers_ok : Prop :=
  forall transition observer s i fact next,
    observers transition = Some observer -> observer s i = Ok (fact, next) -> c_ok fact = true /\ snapshot_ok next.

(** Where a reconciliation may leave the session. *)
Definition reconciled (f' : F) (id : string) (p : gmap string IntentRecord) (o : outcome (JournalSnapshot * result unit)) : Prop :=
  (exists s' p', jp_state f' id (s', p') /\ p' ⊆ p /\ forall s, o = Done (s, Ok tt) -> s = s' /\ p' = ∅) \/
  (jp_broken f' id /\ forall s, o <> Done (s, Ok tt)).

Lemma reconciled_stop f id s p p0 o :
  jp_state f id (s, p) -> p ⊆ p0 -> (forall s, o <> Done (s, Ok tt)) -> reconciled f id p0 o.
Proof. intros Hs Hp Ho. left. exists s, p. split; [done|]. split; [done|]. intros s' ->. by destruct (Ho s'). Qed.

Lemma reconcile_loop_spec id items f s p p0 o f' :
  observers_ok -> jp_state f id (s, p) -> snapshot_ok s -> covers items p -> p ⊆ p0 ->
  runs (reconcile_loop observers id s items) f o f' -> reconciled f' id p0 o.
Proof.
  intros Hobs. revert f s p. induction items as [|item rest IH]; intros f s p Hst Hok Hc Hsub H; cbn [reconcile_loop] in H.
  { apply runs_ret in H as [-> ->]. left. exists s, p. split; [done|]. split; [done|]. intros s' [= <-].
    split; [done|by apply covers_nil]. }
  destruct (observers (ir_Transition item)) as [observer|] eqn:Eo; [|apply runs_ret in H as [-> ->]; by eapply reconciled_stop].
  destruct (observer s item) as [[fact next]|e] eqn:Ef; [|apply runs_ret in H as [-> ->]; by eapply reconciled_stop].
  destruct (_ || _) eqn:Em in H; [apply runs_ret in H as [-> ->]; by eapply reconciled_stop|].
  assert (fa_IntentID fact = ir_ID item /\ fa_SessionID fact = id) as [Hid <-] by (bool_norm; done). clear Em.
  destruct (Hobs _ _ _ _ _ _ Eo Ef) as [Hf Hn].
  assert (is_Some (p !! fa_IntentID fact)) as Hi by (apply Hc; rewrite Hid; apply elem_of_cons; by left).
  assert (forall o1 g, runs (jp_RecordFact fact next) f o1 g ->
    (reconciled g (fa_SessionID fact) p0 (@Crashed (JournalSnapshot * result unit)) /\ o1 <> Done (Ok tt)) \/
    exists reduced, snapshot_ok reduced /\ jp_state g (fa_SessionID fact) (reduced, delete (fa_IntentID fact) p)) as Hrec.
  { intros o1 g [[-> ?]|[?|[??]]]%(jp_RecordFact_outcome _ _ _ _ _ _ _ Hst Hi Hf Hok Hn).
    - left. split; [by eapply reconciled_stop|done].
    - by right.
    - left. split; [right; by split|done]. }
  assert (forall g e, reconciled g (fa_SessionID fact) p0 Crashed -> reconciled g (fa_SessionID fact) p0 (Done (s, Err e))) as Herr.
  { intros g e [(s' & p' & ? & ? & _)|[? _]]; [left; by exists s', p'|by right]. }
  assert (delete (fa_IntentID fact) p ⊆ p0) as Hsub' by (etrans; [apply delete_subseteq|done]).
  apply runs_bind in H as [[-> H]|(r & g & Hr1 & H)].
  { apply Hrec in H as [[? _]|(reduced & ? & ?)]; [done|by eapply reconciled_stop]. }
  apply Hrec in Hr1 as [[Hr Ho]|(reduced & Hrok & Hg)].
  { destruct r as [[]|e]; [done|]. apply runs_ret in H as [-> ->]. by apply Herr. }
  destruct r as [[]|e]; [|apply runs_ret in H as [-> ->]; by eapply reconciled_stop].
  apply runs_bind in H as [[-> H]|(loaded & g1 & H1 & H)]; [apply jp_Load_reads in H as ->; by eapply reconciled_stop|].
  pose proof (jp_Load_reads _ _ _ _ H1) as ->. destruct loaded as [[reduced' ps]|e].
  - apply (jp_Load_answer _ _ _ _ _ _ Hg) in H1 as [-> _]. eapply IH; [exact Hg|done| |done|exact H].
    rewrite Hid. by apply covers_delete.
  - apply runs_ret in H as [-> ->]. by eapply reconciled_stop.
Qed.
End reconcile_laws.

(** C9: reconciliation settles every pending intent.  For every journal that keeps its
    promises, from a session that can be read, whatever fails and whatever the observers
    answer: when Reconcile succeeds nothing is pending any more and the snapshot it
    returns is the session's; otherwise the session can be read with a part of the
    intents still pending and no other, or its log ends in part of an entry. *)
Theorem Reconcile_settles {F} (J : JournalPort F) (JL : JournalPortLaws F J) observers f id s p o f' :
  observers_ok observers -> jp_state f id (s, p) -> snapshot_ok s ->
  runs (Reconcile observers id) f o f' ->
  (exists s' p', jp_state f' id (s', p') /\ p' ⊆ p /\ forall r, o = Done (r, Ok tt) -> r = s' /\ p' = ∅) \/
  (jp_broken f' id /\ forall r, o <> Done (r, Ok tt)).
Proof.
  intros Hobs Hst Hok H. unfold Reconcile in H.
  apply runs_bind in H as [[-> H]|(loaded & g & H1 & H)]; [apply jp_Load_reads in H as ->; left; by exists s, p|].
  pose proof (jp_Load_reads _ _ _ _ H1) as ->. destruct loaded as [[s1 ps]|e].
  - apply (jp_Load_answer _ _ _ _ _ _ Hst) in H1 as [-> ->]. cbn in *.
    eapply reconcile_loop_spec; [done|done|done| |done|done]. by apply sort_pending_covers, (jp_state_keyed _ _ _ Hst).
  - apply runs_ret in H as [-> ->]. left. by exists s, p.
Qed.

(** An observer that answers the sample intent, and one that answers everything. *)
Definition sample_observers (transition : string) : option Observer :=
  if str_eqb transition "LeaseRenewed" then Some (fun _ _ => Ok (sample_fact, sample_snapshot)) else None.

Lemma sample_observers_ok : observers_ok sample_observers.
Proof.
  intros transition observer s i fact next. unfold sample_observers. destruct (str_eqb _ _); [|done].
  intros [= <-] [= <- <-]. split; [apply sample_records_ok|apply sample_snapshot_ok].
Qed.

Definition reconcile_run : outcome (JournalSnapshot * result unit) * sys jfs :=
  Reconcile (J := store_port (Ok tt)) sample_observers "s1" (calm files_intent []).

Lemma reconcile_run_ok : exists r, reconcile_run.1 = Done (r, Ok tt).
Proof.
  exists (set_js_UpdatedAt sample_time sample_snapshot).
  vm_cast_no_check (eq_refl (Done (set_js_UpdatedAt sample_time sample_snapshot, Ok tt) : outcome (JournalSnapshot * result unit))).
Qed.

Lemma Reconcile_settles_witness : exists s', loads (s_fs reconcile_run.2) "s1" (s', ∅).
Proof.
  destruct reconcile_run_ok as [r Hr].
  destruct (Reconcile_settles (store_port (Ok tt)) (store_port_laws (Ok tt)) sample_observers files_intent "s1" sample_snapshot
    sample_pending reconcile_run.1 (s_fs reconcile_run.2) sample_observers_ok (proj1 loads_intent) sample_snapshot_ok
    (runs_calm (Reconcile (J := store_port (Ok tt)) sample_observers "s1") files_intent [])) as [(s' & p' & Hl & _ & Hd)|[_ Hd]].
  - exists s'. destruct (Hd r Hr) as [_ Hp]. rewrite Hp in Hl. exact Hl.
  - destruct (Hd r Hr).
Defined.
