(* ===== verification/OperationLock.v ===== *)
(** journal.OperationLocker (journal/operation_lock.go): one operation at a time on a
    session, by a lock file that names its owner's process.

    The state is the contents of the lock files by session; the guard file of a session
    is held with an exclusive flock during every call, so calls on one session run one
    after the other.  The verifier of process identities is a parameter. *)
From S2P Require Import Prelude Sha256 GoTime Json Codec JsonLines Regexp Domain Snapshot Effects.

Abbreviation lockfs := (gmap string bytes) (only parsing).

(** * System calls *)
Definition read_lock (session : string) : io lockfs (result bytes) :=
  inspect (fun f => match f !! session with Some b => Ok b | None => Err ErrNotExist end).

Definition create_lock (session : string) : io lockfs (result unit) :=
  atomic (fun f => match f !! session with
                   | Some _ => (Err ErrExist, f)
                   | None => (Ok tt, <[session := ""]> f) end).

Definition append_lock (session : string) (b : bytes) (f : lockfs) : lockfs :=
  match f !! session with Some old => <[session := old +:+ b]> f | None => f end.

Definition write_lock (session : string) (b : bytes) : io lockfs (result unit) :=
  syscall (fun n => append_lock session (str_take n b)) (fun f => (Ok tt, append_lock session b f)).

Definition remove_lock (session : string) : io lockfs (result unit) :=
  atomic (fun f => match f !! session with
                   | Some _ => (Ok tt, delete session f)
                   | None => (Err ErrNotExist, f) end).

Definition sync_locks : io lockfs (result unit) := do! _ := may_fail in may_fail.

(** Opening the guard file and taking its flock. *)
Definition lockGuard : io lockfs (result unit) := do! _ := may_fail in may_fail.

(** * The locker *)
Definition validateOperationOwner (owner : OperationOwner) : result unit :=
  if str_eqb (oo_SessionID owner) "" || str_eqb (oo_Operation owner) "" || ContainsAny (oo_SessionID owner) key_separators
  then Err (ErrText "invalid operation owner") else Ok tt.

Definition readOperationToken (session : string) : io lockfs (result OperationToken) :=
  do! body := read_lock session in
  match Unmarshal body with
  | None => io_ret (Err (ErrText "decode operation lock"))
  | Some token => io_ret (Ok token)
  end.

Definition randomToken : io lockfs (result string) :=
  do! value := rand_read in io_ret (Ok (hex_encode value)).

Section locker.
  Context (CurrentProcess : result ProcessIdentity) (IsCurrent : ProcessIdentity -> result bool).

(** The outcome of the look at the lock that is there: an error to return, or nothing. *)
Definition clear_stale (session : string) : io lockfs (result unit) :=
  current <~ readOperationToken session;
  match current with
  | Ok token =>
      match IsCurrent (ot_Identity token) with
      | Err e => io_ret (Err e)
      | Ok true => io_ret (Err ErrOperationLocked)
      | Ok false => remove_lock session
      end
  | Err e => if negb (errors_Is e ErrNotExist) then io_ret (Err e) else io_ret (Ok tt)
  end.

(** Writing the lock.  The error of Write and Sync is the inner variable of an if: the
    one tested afterwards is still nil. *)
Definition write_token (session : string) (token : OperationToken) (body : bytes) : io lockfs (result OperationToken) :=
  created <~ create_lock session;
  match created with
  | Err e => if errors_Is e ErrExist then io_ret (Err ErrOperationLocked) else io_ret (Err e)
  | Ok _ =>
      written <~ write_lock session body;
      _ <~ match written with Ok _ => may_fail | Err e => io_ret (Err e) end;
      do! _ := may_fail in
      do! _ := sync_locks in
      io_ret (Ok token)
  end.

Definition Acquire (owner : OperationOwner) : io lockfs (result OperationToken) :=
  expr! _ := validateOperationOwner owner in
  do! _ := lockGuard in
  do! _ := clear_stale (oo_SessionID owner) in
  expr! identity := CurrentProcess in
  do! tokenID := randomToken in
  let token := mkOperationToken tokenID owner identity in
  match Marshal token with
  | None => io_ret (Err (ErrText "json: unsupported value"))
  | Some body => write_token (oo_SessionID owner) token body
  end.

(** The check Release and Validate share. *)
Definition check_owner (token : OperationToken) (k : io lockfs (result unit)) : io lockfs (result unit) :=
  do! _ := ctx_err in
  if negb (is_ok (validateOperationOwner (ot_Owner token))) || str_eqb (ot_ID token) "" then io_ret (Err ErrOperationOwnership)
  else
  do! _ := lockGuard in
  current <~ readOperationToken (oo_SessionID (ot_Owner token));
  match current with
  | Err e => if errors_Is e ErrNotExist then io_ret (Err ErrOperationOwnership) else io_ret (Err e)
  | Ok current => if negb (bool_decide (current = token)) then io_ret (Err ErrOperationOwnership) else k
  end.

Definition Release (token : OperationToken) : io lockfs (result unit) :=
  check_owner token (
    do! _ := remove_lock (oo_SessionID (ot_Owner token)) in
    sync_locks).

Definition Validate (token : OperationToken) : io lockfs (result unit) :=
  check_owner token (io_ret (Ok tt)).
End locker.

(** * Lemmas *)
Lemma reads_lockGuard : reads lockGuard.
Proof. unfold lockGuard. solve_reads. Qed.

Lemma reads_readOperationToken s : reads (readOperationToken s).
Proof. unfold readOperationToken, read_lock. solve_reads. Qed.

Lemma reads_randomToken : reads randomToken.
Proof. unfold randomToken. solve_reads. Qed.

#[local] Hint Resolve reads_lockGuard reads_readOperationToken reads_randomToken : camp.

(** The token a lock file names. *)
Definition lock_token (f : lockfs) (session : string) : option OperationToken :=
  body ← f !! session; Unmarshal body.

Lemma readOperationToken_ok f session token f' :
  runs (readOperationToken session) f (Done (Ok token)) f' -> lock_token f session = Some token.
Proof.
  intros [[? _]|[(e & ? & _)|(body & g & Hb & H)]]%runs_do; [done..|]. apply runs_inspect in Hb as [Hb ->].
  unfold lock_token. destruct (f !! session) as [b|]; [|done]. injection Hb as <-. change (Unmarshal b = Some token).
  destruct (Unmarshal b); [by apply runs_ret in H as [[= ->] _]|by apply runs_ret in H as [? _]].
Qed.

(** A failed reading of a lock that is there never says it is not. *)
Lemma readOperationToken_err f session b e f' :
  f !! session = Some b -> runs (readOperationToken session) f (Done (Err e)) f' -> errors_Is e ErrNotExist = false.
Proof.
  intros Hb [[? _]|[(e' & [= <-] & H)|(body & g & _ & H)]]%runs_do; [done| |].
  - apply runs_atomic in H as [[He _]|[_ [[= ->]|]]]; [|done..]. cbn in He. by rewrite Hb in He.
  - destruct (Unmarshal body); [by apply runs_ret in H as [? _]|by apply runs_ret in H as [[= ->] _]].
Qed.

Lemma clear_stale_spec (IsCurrent : ProcessIdentity -> result bool) f session o f' :
  runs (clear_stale IsCurrent session) f o f' ->
  (f' = f /\ (o = Done (Ok tt) -> f !! session = None)) \/
  (f' = delete session f /\ exists token, lock_token f session = Some token /\ IsCurrent (ot_Identity token) = Ok false).
Proof.
  intros [[-> H]|(cur & g & H1 & H)]%runs_bind; [apply reads_readOperationToken in H as ->; by left|].
  pose proof (reads_readOperationToken _ _ _ _ H1) as ->. destruct cur as [token|e].
  - pose proof (readOperationToken_ok _ _ _ _ H1) as Ht. destruct (IsCurrent (ot_Identity token)) as [[|]|e] eqn:Hc.
    1,3: apply runs_ret in H as [-> ->]; by left.
    apply runs_atomic in H as [[-> ->]|[-> [->| ->]]]; [|by left..]. destruct (f !! session) as [b|] eqn:Hb; [|by left].
    right. split; [done|by exists token].
  - left. destruct (f !! session) as [b|] eqn:Hb.
    + rewrite (readOperationToken_err _ _ _ _ _ Hb H1) in H. apply runs_ret in H as [-> ->]. by split.
    + split; [|done]. destruct (negb _); by apply runs_ret in H as [_ ->].
Qed.

Lemma append_lock_other session b f s : s <> session -> append_lock session b f !! s = f !! s.
Proof. intros Hs. unfold append_lock. destruct (f !! session); [by rewrite lookup_insert_ne|done]. Qed.

Lemma write_token_other session token body f o f' s :
  s <> session -> runs (write_token session token body) f o f' -> f' !! s = f !! s.
Proof.
  intros Hs [[-> H]|(c & g & H1 & H)]%runs_bind.
  { apply runs_atomic in H as [[? ->]|[-> _]]; [|done]. by destruct (f !! session). }
  assert (g !! s = f !! s) as <-.
  { apply runs_atomic in H1 as [[_ ->]|[-> _]]; [|done]. destruct (f !! session); cbn; [done|by rewrite lookup_insert_ne]. }
  destruct c as [[]|e]; [|by destruct (errors_Is e ErrExist); apply runs_ret in H as [_ ->]].
  assert (forall w h, runs (write_lock session body) g w h -> h !! s = g !! s) as Hw.
  { intros w h [[_ ->]|(n & -> & _)]%runs_syscall; by apply append_lock_other. }
  apply runs_bind in H as [[-> H]|(w & h & H2 & H)]; [by eapply Hw|]. rewrite <-(Hw _ _ H2).
  match type of H with runs ?p _ _ _ => assert (reads p) as Hr by (unfold sync_locks; solve_reads) end.
  by apply Hr in H as ->.
Qed.

Lemma Acquire_other CurrentProcess IsCurrent owner f o f' :
  runs (Acquire CurrentProcess IsCurrent owner) f o f' -> forall s, s <> oo_SessionID owner -> f' !! s = f !! s.
Proof.
  intros H s Hs. unfold Acquire in H. destruct (validateOperationOwner owner); [|by apply runs_ret in H as [_ ->]].
  apply runs_do_reads in H as [[-> _]|(_ & _ & H)]; [done| |auto with camp].
  assert (forall o1 g, runs (clear_stale IsCurrent (oo_SessionID owner)) f o1 g -> g !! s = f !! s) as Hc.
  { intros o1 g [[-> _]|[-> _]]%clear_stale_spec; [done|by rewrite lookup_delete_ne]. }
  apply runs_do in H as [[-> H]|[(e & -> & H)|([] & g & H1 & H)]]; [by eapply Hc..|]. rewrite <-(Hc _ _ H1).
  destruct CurrentProcess as [identity|]; [|by apply runs_ret in H as [_ ->]].
  apply runs_do_reads in H as [[-> _]|(id & _ & H)]; [done| |auto with camp].
  destruct (Marshal _); [by eapply write_token_other|by apply runs_ret in H as [_ ->]].
Qed.

Lemma check_owner_spec token k f o f' :
  runs (check_owner token k) f o f' ->
  (f' = f /\ forall u, o <> Done (Ok u)) \/
  (lock_token f (oo_SessionID (ot_Owner token)) = Some token /\ runs k f o f').
Proof.
  intros H. unfold check_owner in H. apply runs_do_reads in H as [?|(_ & _ & H)]; [by left| |auto with camp].
  destruct (_ || _); [apply runs_ret in H as [-> ->]; by left|].
  apply runs_do_reads in H as [?|(_ & _ & H)]; [by left| |auto with camp].
  apply runs_bind in H as [[-> H]|(cur & g & H1 & H)]; [apply reads_readOperationToken in H as ->; by left|].
  pose proof (reads_readOperationToken _ _ _ _ H1) as ->. destruct cur as [cur|e].
  - destruct (negb (bool_decide (cur = token))) eqn:E; [apply runs_ret in H as [-> ->]; by left|]. bool_norm. subst.
    right. by apply readOperationToken_ok in H1.
  - left. destruct (errors_Is e ErrNotExist); by apply runs_ret in H as [-> ->].
Qed.

Lemma lock_Release_spec token f o f' :
  runs (Release token) f o f' ->
  (lock_token f (oo_SessionID (ot_Owner token)) <> Some token -> f' = f /\ o <> Done (Ok tt)) /\
  forall s, s <> oo_SessionID (ot_Owner token) -> f' !! s = f !! s.
Proof.
  intros [[-> Ho]|[Hl H]]%check_owner_spec; [by split; [intros _; split|]|]. split; [done|]. intros s Hs.
  assert (forall o1 g, runs (remove_lock (oo_SessionID (ot_Owner token))) f o1 g -> g !! s = f !! s) as Hr.
  { intros o1 g [[_ ->]|[-> _]]%runs_atomic; [|done]. destruct (f !! _); cbn; [by rewrite lookup_delete_ne|done]. }
  apply runs_do in H as [[_ H]|[(e & _ & H)|(x & g & H1 & H)]]; [by eapply Hr..|].
  assert (reads sync_locks) as Hsy by (unfold sync_locks; solve_reads). apply Hsy in H as ->. by eapply Hr.
Qed.

(** The lock file names an owner, and that owner's process was found to be gone. *)
Definition gone (IsCurrent : ProcessIdentity -> result bool) (f : lockfs) (session : string) : Prop :=
  exists token, lock_token f session = Some token /\ IsCurrent (ot_Identity token) = Ok false.

(** A lock file that is there and is not a dead process's stops an acquisition. *)
Lemma clear_stale_stops IsCurrent f session b o f' :
  f !! session = Some b -> ~ gone IsCurrent f session ->
  runs (clear_stale IsCurrent session) f o f' -> f' = f /\ o <> Done (Ok tt).
Proof.
  intros Hb Hg [[-> Ho]|[_ Ht]]%clear_stale_spec; [|by destruct Hg]. split; [done|]. intros E. by rewrite (Ho E) in Hb.
Qed.

Lemma Acquire_stops CurrentProcess IsCurrent owner b f o f' :
  runs (Acquire CurrentProcess IsCurrent owner) f o f' ->
  f !! oo_SessionID owner = Some b -> ~ gone IsCurrent f (oo_SessionID owner) -> f' = f /\ forall t, o <> Done (Ok t).
Proof.
  intros H Hb Hg. unfold Acquire in H. destruct (validateOperationOwner owner); [|by apply runs_ret in H as [-> ->]].
  apply runs_do_reads in H as [?|(_ & _ & H)]; [done| |auto with camp].
  pose proof (fun o1 g => clear_stale_stops _ _ _ _ o1 g Hb Hg) as Hs.
  apply runs_do in H as [[-> H]|[(e & -> & H)|([] & g & H1 & _)]]; [apply Hs in H as [-> _]; done..|]. by apply Hs in H1 as [_ ?].
Qed.

(** C11: the operation lock is exclusive.  While a session has a lock file, Acquire leaves
    it as it is and does not succeed, whatever fails, unless the file decodes to a token
    whose process the identity verifier answered to be gone: neither a live owner, nor an
    owner the verifier cannot tell of, nor a file that does not decode loses its lock.
    Release removes a lock file only when it names the very token.  No call on a session
    touches the lock of another. *)
Theorem operation_lock_exclusive CurrentProcess IsCurrent owner f o f' :
  runs (Acquire CurrentProcess IsCurrent owner) f o f' ->
  (f !! oo_SessionID owner <> None -> ~ gone IsCurrent f (oo_SessionID owner) -> f' = f /\ forall t, o <> Done (Ok t)) /\
  (forall s, s <> oo_SessionID owner -> f' !! s = f !! s) /\
  (forall released r g, runs (Release released) f r g ->
     (lock_token f (oo_SessionID (ot_Owner released)) <> Some released -> g = f /\ r <> Done (Ok tt)) /\
     forall s, s <> oo_SessionID (ot_Owner released) -> g !! s = f !! s).
Proof.
  intros H. split; [|split].
  - intros Hb Hg. destruct (f !! oo_SessionID owner) as [b|] eqn:Eb; [|done]. by eapply Acquire_stops.
  - by eapply Acquire_other.
  - intros released r g Hr. by apply lock_Release_spec.
Qed.

(** ** Runs without failures *)
Lemma token_depth : @c_depth OperationToken _ <= max_depth.
Proof. vm_compute. discriminate. Qed.

Lemma calm_readOperationToken f r session :
  readOperationToken session (calm f r) =
    (Done match f !! session with
          | Some b => match Unmarshal b with Some t => Ok t | None => Err (ErrText "decode operation lock") end
          | None => Err ErrNotExist end, calm f r).
Proof.
  unfold readOperationToken, read_lock. erewrite calm_bind by apply calm_inspect. cbn beta.
  destruct (f !! session) as [b|]; [|done]. by destruct (Unmarshal b).
Qed.

Lemma calm_lockGuard f r : lockGuard (calm f r) = (Done (Ok tt), calm f r).
Proof. done. Qed.

Lemma calm_clear_stale IsCurrent f r session :
  f !! session = None \/ (exists t, lock_token f session = Some t /\ IsCurrent (ot_Identity t) = Ok false) ->
  clear_stale IsCurrent session (calm f r) = (Done (Ok tt), calm (delete session f) r).
Proof.
  intros H. unfold clear_stale. erewrite calm_bind by apply calm_readOperationToken.
  destruct H as [Hn|(t & Ht & Hc)].
  - rewrite Hn. cbn. by rewrite delete_id.
  - unfold lock_token in Ht. destruct (f !! session) as [b|] eqn:Hb; [|done]. change (Unmarshal b = Some t) in Ht.
    rewrite Ht, Hc. unfold remove_lock, atomic. rewrite calm_syscall. cbn beta. by rewrite Hb.
Qed.

Lemma calm_write_token f r session token body :
  f !! session = None ->
  write_token session token body (calm f r) = (Done (Ok token), calm (<[session := body]> f) r).
Proof.
  intros Hn. unfold write_token, create_lock, atomic. erewrite calm_bind by apply calm_syscall. cbn beta. rewrite Hn. cbn [fst snd].
  unfold write_lock. erewrite calm_bind by apply calm_syscall. cbn [fst snd].
  unfold append_lock. rewrite lookup_insert_eq, insert_insert_eq. done.
Qed.

Lemma calm_check_owner token k f r :
  validateOperationOwner (ot_Owner token) = Ok tt -> ot_ID token <> "" ->
  check_owner token k (calm f r) =
    match f !! oo_SessionID (ot_Owner token) with
    | Some b =>
        match Unmarshal b with
        | Some t => if bool_decide (t = token) then k (calm f r) else (Done (Err ErrOperationOwnership), calm f r)
        | None => (Done (Err (ErrText "decode operation lock")), calm f r)
        end
    | None => (Done (Err ErrOperationOwnership), calm f r)
    end.
Proof.
  intros Hv Hid. unfold check_owner. erewrite calm_bind by apply calm_ctx_err. rewrite Hv. cbn [is_ok negb orb].
  rewrite (proj2 (str_eqb_neq _ _) Hid). erewrite calm_bind by apply calm_lockGuard. cbn beta iota.
  erewrite calm_bind by apply calm_readOperationToken. destruct (f !! _) as [b|]; [|done].
  destruct (Unmarshal b) as [t|]; [|done]. by destruct (bool_decide (t = token)).
Qed.

Lemma hex_encode_nonempty b : b <> "" -> hex_encode b <> "".
Proof. by destruct b. Qed.

(** The token an owner gets from the random bytes [b]. *)
Definition new_token (b : bytes) (owner : OperationOwner) (identity : ProcessIdentity) : OperationToken :=
  mkOperationToken (hex_encode b) owner identity.

(** The life of a lock when nothing fails.  On a session without a lock, or with the
    lock of a dead process, Acquire gives a token; the lock then names it, Validate and
    Release accept it, any other token is refused, and Release leaves the session
    unlocked. *)
Theorem operation_lock_cycle identity IsCurrent owner f b r other :
  let session := oo_SessionID owner in
  let token := new_token b owner identity in
  validateOperationOwner owner = Ok tt -> b <> "" -> c_ok token = true ->
  f !! session = None \/ (exists t, lock_token f session = Some t /\ IsCurrent (ot_Identity t) = Ok false) ->
  exists f', Acquire (Ok identity) IsCurrent owner (calm f (b :: r)) = (Done (Ok token), calm f' r) /\
    lock_token f' session = Some token /\
    Validate token (calm f' r) = (Done (Ok tt), calm f' r) /\
    Release token (calm f' r) = (Done (Ok tt), calm (delete session f) r) /\
    (other <> token -> oo_SessionID (ot_Owner other) = session -> exists e, Release other (calm f' r) = (Done (Err e), calm f' r)).
Proof.
  intros session token Hv Hb Hok Hfree. destruct (Unmarshal_Marshal token Hok token_depth) as (body & Hm & Hu & _).
  exists (<[session := body]> (delete session f)).
  assert (hex_encode b <> "") as Hid by by apply hex_encode_nonempty.
  split; [|split; [|split; [|split]]].
  - unfold Acquire. rewrite Hv. erewrite calm_bind by apply calm_lockGuard. cbn beta iota.
    erewrite calm_bind by by apply calm_clear_stale. cbn beta iota.
    rewrite (calm_bind _ _ (delete (oo_SessionID owner) f) (b :: r) (Ok (hex_encode b)) (delete (oo_SessionID owner) f) r) by done.
    fold (new_token b owner identity) token. rewrite Hm. apply calm_write_token. apply lookup_delete_eq.
  - unfold lock_token. rewrite lookup_insert_eq. exact Hu.
  - unfold Validate. rewrite calm_check_owner by done. cbn [ot_Owner new_token token]. fold session.
    rewrite lookup_insert_eq, Hu. by rewrite bool_decide_true.
  - unfold Release. rewrite calm_check_owner by done. cbn [ot_Owner new_token token]. fold session.
    rewrite lookup_insert_eq, Hu, bool_decide_true by done. unfold remove_lock, atomic.
    erewrite calm_bind by apply calm_syscall. cbn beta. fold session. rewrite lookup_insert_eq. cbn [fst snd].
    rewrite delete_insert_eq, delete_delete_eq. done.
  - intros Hne Hs. unfold Release.
    destruct (validateOperationOwner (ot_Owner other)) as [[]|e] eqn:Hvo.
    2: { exists ErrOperationOwnership. unfold check_owner. erewrite calm_bind by apply calm_ctx_err. by rewrite Hvo. }
    destruct (decide (ot_ID other = "")) as [Hz|Hz].
    { exists ErrOperationOwnership. unfold check_owner. erewrite calm_bind by apply calm_ctx_err. by rewrite Hvo, Hz. }
    exists ErrOperationOwnership. rewrite calm_check_owner by done. rewrite Hs, lookup_insert_eq, Hu. by rewrite bool_decide_false by congruence.
Qed.

(** ** A failed write of the lock *)
Lemma bind_step {F A B} (p : io F A) (k : A -> io F B) s a s' : p s = (Done a, s') -> io_bind p k s = k a s'.
Proof. intros H. unfold io_bind. by rewrite H. Qed.

(** The write of the lock file fails, and nothing else. *)
Definition write_fails (f : lockfs) (random : list bytes) : sys lockfs :=
  mkSys f [Proceed; Proceed; Proceed; Proceed; Fail 0] random.

Lemma Acquire_write_fails identity IsCurrent owner f b r body :
  let session := oo_SessionID owner in
  let token := new_token b owner identity in
  validateOperationOwner owner = Ok tt -> f !! session = None -> Marshal token = Some body ->
  Acquire (Ok identity) IsCurrent owner (write_fails f (b :: r)) = (Done (Ok token), calm (<[session := ""]> f) r).
Proof.
  intros session token Hv Hn Hm. unfold Acquire. rewrite Hv.
  erewrite bind_step by reflexivity. cbn beta iota.
  rewrite (bind_step _ _ _ (Ok tt) (mkSys f [Proceed; Fail 0] (b :: r))).
  2: { unfold clear_stale. erewrite bind_step; [|unfold readOperationToken; erewrite bind_step by reflexivity; cbn; fold session; rewrite Hn; reflexivity]. done. }
  erewrite bind_step by reflexivity. cbn beta iota. fold (new_token b owner identity) token. rewrite Hm.
  unfold write_token, create_lock, atomic. erewrite bind_step; [|cbn; fold session; rewrite Hn; reflexivity].
  cbn beta iota. unfold write_lock. erewrite bind_step by reflexivity. cbn [with_fs s_fs].
  unfold append_lock. fold session. rewrite lookup_insert_eq, insert_insert_eq. done.
Qed.

Lemma empty_lock_undecodable : (Unmarshal "" : option OperationToken) = None.
Proof. reflexivity. Qed.

(** C35: Acquire loses the error of writing the lock file.  On any unlocked session, when
    the write fails and nothing else does, Acquire still returns the token; the lock
    file is empty, so the token's own Validate and Release fail, and no later Acquire on
    the session succeeds or repairs it, whoever calls and whatever the schedule. *)
Theorem Acquire_ignores_write_failure identity IsCurrent owner f b r :
  let session := oo_SessionID owner in
  let token := new_token b owner identity in
  validateOperationOwner owner = Ok tt -> b <> "" -> c_ok token = true -> f !! session = None ->
  exists f', Acquire (Ok identity) IsCurrent owner (write_fails f (b :: r)) = (Done (Ok token), calm f' r) /\
    (exists e, Validate token (calm f' r) = (Done (Err e), calm f' r)) /\
    (exists e, Release token (calm f' r) = (Done (Err e), calm f' r)) /\
    (forall process current owner' o g, oo_SessionID owner' = session ->
       runs (Acquire process current owner') f' o g -> g = f' /\ forall t, o <> Done (Ok t)).
Proof.
  intros session token Hv Hb Hok Hn. destruct (Unmarshal_Marshal token Hok token_depth) as (body & Hm & _ & _).
  exists (<[session := ""]> f). split; [by eapply Acquire_write_fails|].
  assert (hex_encode b <> "") as Hid by by apply hex_encode_nonempty.
  split; [|split].
  - eexists. unfold Validate. rewrite calm_check_owner by done. cbn [ot_Owner new_token token]. fold session.
    rewrite lookup_insert_eq, empty_lock_undecodable. done.
  - eexists. unfold Release. rewrite calm_check_owner by done. cbn [ot_Owner new_token token]. fold session.
    rewrite lookup_insert_eq, empty_lock_undecodable. done.
  - intros process current owner' o g Hs H.
    eapply (Acquire_stops _ _ _ "" _ _ _ H); rewrite Hs; [apply lookup_insert_eq|].
    intros (t & Ht & _). unfold lock_token in Ht. by rewrite lookup_insert_eq in Ht.
Qed.

(** * Witnesses *)
Definition sample_identity : ProcessIdentity := mkProcessIdentity 100 "boot" 5.
Definition sample_owner : OperationOwner := mkOperationOwner "s1" "close".
Definition all_dead (_ : ProcessIdentity) : result bool := Ok false.
Definition all_alive (_ : ProcessIdentity) : result bool := Ok true.
Definition sample_token : OperationToken := new_token "ab" sample_owner sample_identity.
Definition locked : lockfs := {["s1" := default "" (Marshal sample_token)]}.

(** A verifier that cannot tell. *)
Definition none_known (_ : ProcessIdentity) : result bool := Err (ErrText "inspect").

Lemma operation_lock_exclusive_witness :
  ~ gone all_alive locked "s1" /\ ~ gone none_known locked "s1" /\
  s_fs (Acquire (Ok sample_identity) all_alive sample_owner (calm locked ["x"])).2 = locked /\
  s_fs (Acquire (Ok sample_identity) none_known sample_owner (calm locked ["x"])).2 = locked.
Proof.
  assert (~ gone all_alive locked "s1" /\ ~ gone none_known locked "s1") as [H1 H2] by (split; by intros (t & _ & ?)).
  split; [exact H1|]. split; [exact H2|].
  assert (locked !! oo_SessionID sample_owner <> None) as Hl by (vm_compute; discriminate). split.
  - exact (proj1 (proj1 (operation_lock_exclusive (Ok sample_identity) all_alive sample_owner locked _ _
      (runs_calm (Acquire (Ok sample_identity) all_alive sample_owner) locked ["x"])) Hl H1)).
  - exact (proj1 (proj1 (operation_lock_exclusive (Ok sample_identity) none_known sample_owner locked _ _
      (runs_calm (Acquire (Ok sample_identity) none_known sample_owner) locked ["x"])) Hl H2)).
Defined.

Lemma operation_lock_cycle_witness :
  exists f', Acquire (Ok sample_identity) all_dead sample_owner (calm locked ["ab"]) = (Done (Ok sample_token), calm f' []) /\
    Validate sample_token (calm f' []) = (Done (Ok tt), calm f' []).
Proof.
  destruct (operation_lock_cycle sample_identity all_dead sample_owner locked "ab" [] sample_token) as (f' & H1 & _ & H3 & _).
  - reflexivity.
  - discriminate.
  - vm_compute. reflexivity.
  - right. exists sample_token. split; vm_compute; reflexivity.
  - exists f'. split; [exact H1|exact H3].
Defined.

Lemma Acquire_ignores_write_failure_witness :
  exists f', Acquire (Ok sample_identity) all_dead sample_owner (write_fails ∅ ["ab"]) = (Done (Ok sample_token), calm f' []) /\
    exists e, Validate sample_token (calm f' []) = (Done (Err e), calm f' []).
Proof.
  destruct (Acquire_ignores_write_failure sample_identity all_dead sample_owner ∅ "ab" []) as (f' & H1 & H2 & _).
  - reflexivity.
  - discriminate.
  - vm_compute. reflexivity.
  - apply lookup_empty.
  - exists f'. split; [exact H1|exact H2].
Defined.
