(* ===== verification/Base64.v ===== *)
(** Go's [base64.RawURLEncoding]: the alphabet of RFC 4648 section 5 without padding. *)
From S2P Require Import Prelude Sha256 GoTime Json.

Definition url_alphabet : string := "ABCDEFGHIJKLMNOPQRSTUVWXYZabcdefghijklmnopqrstuvwxyz0123456789-_".

Definition sextet_char (v : Z) : ascii := default "A"%char (String.get (Z.to_nat v) url_alphabet).

(** The position of a character in the alphabet. *)
Fixpoint index_of (c : ascii) (s : string) (i : Z) : option Z :=
  match s with
  | EmptyString => None
  | String d s' => if bool_decide (c = d) then Some i else index_of c s' (i + 1)
  end.
Definition char_sextet (c : ascii) : option Z := index_of c url_alphabet 0.

(** [EncodeToString]: three bytes at a time. *)
Fixpoint b64_encode (l : list Z) : string :=
  match l with
  | a :: b :: c :: rest =>
      String (sextet_char (a / 4)) (String (sextet_char (a mod 4 * 16 + b / 16))
        (String (sextet_char (b mod 16 * 4 + c / 64)) (String (sextet_char (c mod 64)) (b64_encode rest))))
  | [a; b] => String (sextet_char (a / 4)) (String (sextet_char (a mod 4 * 16 + b / 16)) (String (sextet_char (b mod 16 * 4)) ""))
  | [a] => String (sextet_char (a / 4)) (String (sextet_char (a mod 4 * 16)) "")
  | [] => ""
  end.
Definition EncodeToString (s : bytes) : string := b64_encode (string_bytes s).

(** The sextets of a text, without the newlines the decoder skips. *)
Fixpoint sextets (s : string) : option (list Z) :=
  match s with
  | EmptyString => Some []
  | String c s' =>
      if (byte_val c =? 10) || (byte_val c =? 13) then sextets s'
      else v ← char_sextet c; vs ← sextets s'; Some (v :: vs)
  end.

(** The bytes of a sequence of sextets; the bits left over are not looked at, and a
    single sextet is an error. *)
Fixpoint b64_decode (l : list Z) : option (list Z) :=
  match l with
  | v :: w :: x :: y :: rest =>
      bs ← b64_decode rest; Some (v * 4 + w / 16 :: w mod 16 * 16 + x / 4 :: x mod 4 * 64 + y :: bs)
  | [v; w; x] => Some [v * 4 + w / 16; w mod 16 * 16 + x / 4]
  | [v; w] => Some [v * 4 + w / 16]
  | [_] => None
  | [] => Some []
  end.
Definition DecodeString (s : string) : option bytes :=
  vs ← sextets s; bs ← b64_decode vs; Some (byte_str bs).

(** * Round trip *)
Lemma sextet_char_back v : 0 <= v < 64 ->
  char_sextet (sextet_char v) = Some v /\ byte_val (sextet_char v) <> 10 /\ byte_val (sextet_char v) <> 13.
Proof.
  intros Hv. assert (forallb (fun n => bool_decide (char_sextet (sextet_char (Z.of_nat n)) = Some (Z.of_nat n)) &&
    negb (byte_val (sextet_char (Z.of_nat n)) =? 10) && negb (byte_val (sextet_char (Z.of_nat n)) =? 13)) (seq 0 64) = true) as H
    by (vm_compute; reflexivity).
  rewrite forallb_forall in H. specialize (H (Z.to_nat v)). rewrite Z2Nat.id in H by lia.
  assert (In (Z.to_nat v) (seq 0 64)) as Hin by (apply in_seq; lia). apply H in Hin. by bool_norm.
Qed.

Lemma sextets_cons v s : 0 <= v < 64 -> sextets (String (sextet_char v) s) = (vs ← sextets s; Some (v :: vs)).
Proof.
  intros Hv. destruct (sextet_char_back v Hv) as (Hb & H1 & H2). cbn [sextets].
  apply Z.eqb_neq in H1, H2. rewrite H1, H2. cbn [orb]. by rewrite Hb.
Qed.

Definition octets (l : list Z) : Prop := Forall (fun b => 0 <= b < 256) l.

Lemma sextets_b64_encode n l : (length l <= n)%nat -> octets l ->
  exists vs, sextets (b64_encode l) = Some vs /\ b64_decode vs = Some l.
Proof.
  revert l. induction n as [|n IH]; intros l Hn Hl.
  { destruct l; [|simpl in Hn; lia]. by exists []. }
  destruct l as [|a [|b [|c rest]]]; [by exists []|..]; unfold octets in Hl; rewrite ?Forall_cons in Hl; cbn [b64_encode].
  - rewrite !sextets_cons by (Z.div_mod_to_equations; lia). cbn. eexists. split; [done|]. cbn. f_equal. f_equal. Z.div_mod_to_equations; lia.
  - rewrite !sextets_cons by (Z.div_mod_to_equations; lia). cbn. eexists. split; [done|]. cbn. f_equal. f_equal; [Z.div_mod_to_equations; lia|f_equal; Z.div_mod_to_equations; lia].
  - destruct Hl as (Ha & Hb & Hc & Hr). rewrite !sextets_cons by (Z.div_mod_to_equations; lia).
    destruct (IH rest) as (vs & Hs & Hd); [simpl in Hn; lia|done|]. rewrite Hs. cbn. eexists. split; [done|].
    cbn [b64_decode]. rewrite Hd. cbn. f_equal. f_equal; [Z.div_mod_to_equations; lia|f_equal; [Z.div_mod_to_equations; lia|f_equal; Z.div_mod_to_equations; lia]].
Qed.

Lemma string_bytes_octets s : octets (string_bytes s).
Proof.
  induction s as [|c s IH]; [constructor|]. simpl. constructor; [|done]. unfold byte_val.
  pose proof (N_ascii_bounded c). lia.
Qed.

Lemma byte_str_string_bytes s : byte_str (string_bytes s) = s.
Proof.
  induction s as [|c s IH]; [done|]. simpl. unfold byte_str in *. simpl. rewrite IH. f_equal.
  unfold byte_of, byte_val. by rewrite N2Z.id, ascii_N_embedding.
Qed.

Lemma DecodeString_EncodeToString s : DecodeString (EncodeToString s) = Some s.
Proof.
  unfold DecodeString, EncodeToString.
  destruct (sextets_b64_encode _ (string_bytes s) (le_n _) (string_bytes_octets s)) as (vs & Hs & Hd).
  rewrite Hs. cbn. rewrite Hd. cbn. by rewrite byte_str_string_bytes.
Qed.
