(* ===== verification/FileBackend.v ===== *)
(** filebackend.Store (adapters/filebackend/store.go): the object store on a directory.

    The disk is a map from paths (lists of names below the root) to nodes: directories,
    regular files with their revision attribute, symbolic links and other things.  A
    directory's descriptor is its path.  The calls that the descriptors make consult the
    schedule of Effects one by one, so the theorems cover every error and crash point.
    The disk also holds the bytes its random source will deliver.

    Writers of one key hold its lock file with an exclusive flock and publish by a
    rename, readers work on the file they opened, so a call sees one state of its key:
    calls run one after the other in the model.  The wait for the flock is one step that
    can fail (a cancelled context). *)
From S2P Require Import Prelude Sha256 GoTime Json Codec Regexp Domain Paths ObjectStore Effects Base64.

(** * The disk *)
Record file := mkFile { f_data : bytes; f_xattr : option bytes; f_mtime : Time; f_ino : Z }.

#[export] Instance file_eq_dec : EqDecision file.
Proof. solve_decision. Defined.

Inductive node := NDir | NFile (f : file) | NSymlink | NOther.

#[export] Instance node_eq_dec : EqDecision node.
Proof. solve_decision. Defined.

Abbreviation path := (list string) (only parsing).

(** [d_root]: device and inode of the directory at the root path, [None] when there is
    none or a symbolic link.  [d_clock]: the time a change is stamped with. *)
Record disk := mkDisk {
  d_root : option (Z * Z);
  d_nodes : gmap (list string) node;
  d_clock : Time;
  d_next : Z;
  d_random : list bytes }.

Definition set_nodes (n : gmap (list string) node) (f : disk) : disk :=
  mkDisk (d_root f) n (d_clock f) (d_next f) (d_random f).
Definition put_node (p : path) (n : node) (f : disk) : disk := set_nodes (<[p := n]> (d_nodes f)) f.
Definition drop_node (p : path) (f : disk) : disk := set_nodes (delete p (d_nodes f)) f.

(** The error numbers the sources tell apart; ENOENT and EEXIST are [ErrNotExist] and
    [ErrExist]. *)
Definition ENOTDIR : error := ErrText "not a directory".
Definition ELOOP : error := ErrText "too many levels of symbolic links".
Definition EISDIR : error := ErrText "is a directory".
Definition ENODATA : error := ErrText "no data available".

(** * Keys *)
Definition lockDirectory : string := ".camp-locks".
Definition tempPrefix : string := ".camp-tmp-".
Definition revisionSize : nat := 32.
Definition listPageSize : nat := 100.
Definition pageTokenVersion : Z := 1.

Definition bad_part (part : string) : bool :=
  str_eqb part "" || str_eqb part "." || str_eqb part ".." || str_eqb part lockDirectory || HasPrefix part tempPrefix.

Definition splitKey (key : string) : result (list string) :=
  if str_eqb key "" || HasPrefix key "/" || str_exists (fun c => byte_val c =? 0) key ||
     str_exists (fun c => byte_val c =? 92) key
  then Err ErrInvalidKey
  else
  let parts := Split key "/" in
  if existsb bad_part parts then Err ErrInvalidKey else Ok parts.

Definition validatePrefix (prefix : string) : result unit :=
  if str_eqb prefix "" then Ok tt
  else
  let trimmed := TrimSuffix prefix "/" in
  if str_eqb trimmed "" then Err ErrInvalidKey
  else let! _ := splitKey trimmed in Ok tt.

Definition tempNamePrefix (key : string) : string := tempPrefix +:+ sha256Hex key +:+ "-".

Definition validSHA256 (value : string) : bool := sha256_text value.

Definition classifyPathError (e : error) : error :=
  if errors_Is e ErrNotExist then ErrNotFound
  else if errors_Is e ELOOP || errors_Is e ENOTDIR then ErrUnsafePath
  else e.

(** ** Page tokens *)
Record pageToken := mkpageToken { pt_Version : Z; pt_Prefix : string; pt_Cursor : string }.

#[export] Instance pageToken_eq_dec : EqDecision pageToken.
Proof. solve_decision. Defined.

Definition pageToken_fields : fields _ :=
  FCons "version" false int_codec (FCons "prefix" false codec_string (FCons "cursor" false codec_string FNil)).
#[export] Instance pageToken_codec : Codec pageToken := codec_struct pageToken_fields
  (fun r => (pt_Version r, (pt_Prefix r, (pt_Cursor r, tt))))
  (fun t => let '(x0, (x1, (x2, _))) := t in mkpageToken x0 x1 x2).
#[export] Instance pageToken_laws : CodecLaws pageToken _.
Proof. solve_struct_laws. Qed.

Definition decodePageToken (token prefix : string) : result string :=
  if str_eqb token "" then Ok ""
  else
  match DecodeString token with
  | None => Err ErrInvalidPageToken
  | Some decoded =>
      match Unmarshal decoded with
      | None => Err ErrInvalidPageToken
      | Some payload =>
          if negb (pt_Version payload =? pageTokenVersion) || negb (str_eqb (pt_Prefix payload) prefix) ||
             str_eqb (pt_Cursor payload) "" then Err ErrInvalidPageToken
          else if negb (is_ok (splitKey (pt_Cursor payload))) || negb (HasPrefix (pt_Cursor payload) prefix)
          then Err ErrInvalidPageToken
          else Ok (pt_Cursor payload)
      end
  end.

Definition encodePageToken (prefix cursor : string) : result string :=
  let! encoded := marshal (mkpageToken pageTokenVersion prefix cursor) in
  Ok (EncodeToString encoded).

(** * Descriptors *)
Definition openDirectoryAt (parent : path) (name : string) : io disk (result path) :=
  inspect (fun f =>
    match d_nodes f !! (parent ++ [name]) with
    | Some NDir => Ok (parent ++ [name])
    | Some NSymlink => Err ELOOP
    | Some _ => Err ENOTDIR
    | None => Err ErrNotExist
    end).

Definition mkdirat (parent : path) (name : string) : io disk (result unit) :=
  atomic (fun f =>
    match d_nodes f !! (parent ++ [name]) with
    | Some _ => (Err ErrExist, f)
    | None => (Ok tt, put_node (parent ++ [name]) NDir f)
    end).

(** [unlinkat] without AT_REMOVEDIR. *)
Definition unlinkat (parent : path) (name : string) : io disk (result unit) :=
  atomic (fun f =>
    match d_nodes f !! (parent ++ [name]) with
    | None => (Err ErrNotExist, f)
    | Some NDir => (Err EISDIR, f)
    | Some _ => (Ok tt, drop_node (parent ++ [name]) f)
    end).

(** [renameat] of a file within a directory. *)
Definition renameat (parent : path) (from to : string) : io disk (result unit) :=
  atomic (fun f =>
    match d_nodes f !! (parent ++ [from]), d_nodes f !! (parent ++ [to]) with
    | None, _ => (Err ErrNotExist, f)
    | Some _, Some NDir => (Err EISDIR, f)
    | Some n, _ => (Ok tt, put_node (parent ++ [to]) n (drop_node (parent ++ [from]) f))
    end).

Definition fsync : io disk (result unit) := may_fail.

Definition ensureDirectoryAt (parent : path) (name : string) : io disk (result path) :=
  opened <~ openDirectoryAt parent name;
  match opened with
  | Ok fd => io_ret (Ok fd)
  | Err e =>
      if negb (errors_Is e ErrNotExist) then io_ret (Err e)
      else
      made <~ mkdirat parent name;
      match made with
      | Err e' => if negb (errors_Is e' ErrExist) then io_ret (Err e')
                  else do! _ := fsync in openDirectoryAt parent name
      | Ok _ => do! _ := fsync in openDirectoryAt parent name
      end
  end.

(** The bytes [rand.Read] fills a buffer of [n] bytes with. *)
Fixpoint zeros (n : nat) : string := match n with O => "" | S n' => String "000" (zeros n') end.
Definition fill (n : nat) (b : bytes) : bytes := str_take n (b +:+ zeros n).

Definition draw (n : nat) : io disk (result bytes) :=
  atomic (fun f =>
    match d_random f with
    | [] => (Err ErrIO, f)
    | b :: rest => (Ok (fill n b), mkDisk (d_root f) (d_nodes f) (d_clock f) (d_next f) rest)
    end).

(** A new empty file. *)
Definition create_file (p : path) (f : disk) : disk :=
  mkDisk (d_root f) (<[p := NFile (mkFile "" None (d_clock f) (d_next f))]> (d_nodes f)) (d_clock f) (d_next f + 1) (d_random f).

(** [openat] with O_CREAT|O_EXCL. *)
Definition create_exclusive_at (parent : path) (name : string) : io disk (result unit) :=
  atomic (fun f =>
    match d_nodes f !! (parent ++ [name]) with
    | Some _ => (Err ErrExist, f)
    | None => (Ok tt, create_file (parent ++ [name]) f)
    end).

(** [openat] of a lock file: created when it is not there, never through a link. *)
Definition open_lock_at (parent : path) (name : string) : io disk (result unit) :=
  atomic (fun f =>
    match d_nodes f !! (parent ++ [name]) with
    | Some NSymlink => (Err ELOOP, f)
    | Some NDir => (Err EISDIR, f)
    | Some _ => (Ok tt, f)
    | None => (Ok tt, create_file (parent ++ [name]) f)
    end).

(** A change to the open file at a path. *)
Definition update_file (p : path) (g : file -> file) (f : disk) : disk :=
  match d_nodes f !! p with Some (NFile x) => put_node p (NFile (g x)) f | _ => f end.

Definition set_xattr (v : bytes) (x : file) : file := mkFile (f_data x) (Some v) (f_mtime x) (f_ino x).
Definition add_data (b : bytes) (x : file) : file := mkFile (f_data x +:+ b) (f_xattr x) (f_mtime x) (f_ino x).

(** The names in a directory, in the order of the names. *)
Definition child_name (dir p : path) : option string :=
  match last p with
  | Some name => if bool_decide (p = dir ++ [name]) then Some name else None
  | None => None
  end.
Definition entries (dir : path) (f : disk) : list string :=
  sort_slice str_ltb (omap (fun pn => child_name dir pn.1) (map_to_list (d_nodes f))).

Definition ReadDir (dir : path) : io disk (result (list string)) :=
  do! _ := may_fail in
  do! names := inspect (fun f => Ok (entries dir f)) in
  do! _ := may_fail in
  io_ret (Ok names).

Section store.
  (** The identity of the root the store was opened on, and its path. *)
  Context (root : string) (dev ino : Z).

Definition openRoot : io disk (result path) :=
  opened <~ inspect (fun f => match d_root f with Some id => Ok id | None => Err ErrUnsafePath end);
  match opened with
  | Err _ => io_ret (Err ErrUnsafePath)
  | Ok id =>
      do! _ := may_fail in
      if bool_decide (id = (dev, ino)) then io_ret (Ok []) else io_ret (Err ErrUnsafePath)
  end.

(** The loop of openParent over the directories of a key. *)
Fixpoint open_parents (create : bool) (fd : path) (parts : list string) : io disk (result path) :=
  match parts with
  | [] => io_ret (Ok fd)
  | part :: rest =>
      opened <~ openDirectoryAt fd part;
      next <~ match opened with
              | Err e => if create && errors_Is e ErrNotExist then ensureDirectoryAt fd part else io_ret (Err e)
              | Ok next => io_ret (Ok next)
              end;
      match next with
      | Err e => if errors_Is e ErrNotExist then io_ret (Err ErrNotFound) else io_ret (Err (classifyPathError e))
      | Ok next => open_parents create next rest
      end
  end.

Definition openParent (key : string) (create : bool) : io disk (result (path * string)) :=
  expr! parts := splitKey key in
  do! fd := openRoot in
  do! parent := open_parents create fd (removelast parts) in
  io_ret (Ok (parent, List.last parts "")).

Definition openRegularAt (parent : path) (name key : string) : io disk (result file) :=
  opened <~ inspect (fun f =>
    match d_nodes f !! (parent ++ [name]) with
    | None => Err ErrNotExist
    | Some NSymlink => Err ELOOP
    | Some n => Ok n
    end);
  match opened with
  | Err e => io_ret (Err (classifyPathError e))
  | Ok n =>
      do! _ := may_fail in
      match n with NFile x => io_ret (Ok x) | _ => io_ret (Err ErrUnsafePath) end
  end.

(** [fgetxattr] into a buffer of the size of a revision. *)
Definition persistedRevision (x : file) : io disk (result string) :=
  do! value := inspect (fun _ => match f_xattr x with Some v => Ok v | None => Err ENODATA end) in
  if negb (Nat.eqb (String.length value) revisionSize) then io_ret (Err (ErrText "revision attribute size"))
  else io_ret (Ok (hex_encode value)).

Definition metadataFromFile (x : file) (key : string) : io disk (result ObjectMeta) :=
  do! _ := may_fail in
  do! _ := may_fail in
  do! _ := may_fail in
  do! _ := may_fail in
  revision <~ persistedRevision x;
  match revision with
  | Err _ => io_ret (Err ErrIntegrity)
  | Ok revision => io_ret (Ok (mkObjectMeta key (str_len (f_data x)) revision (sha256Hex (f_data x)) (f_mtime x)))
  end.

Definition metadataAt (parent : path) (name key : string) : io disk (result ObjectMeta) :=
  do! x := openRegularAt parent name key in
  metadataFromFile x key.

(** ** Temporary files *)
Definition assignRevision (p : path) : io disk (result unit) :=
  do! revision := draw revisionSize in
  atomic (fun f => (Ok tt, update_file p (set_xattr revision) f)).

Fixpoint create_temporary (attempts : nat) (parent : path) (prefix : string) : io disk (result string) :=
  match attempts with
  | O => io_ret (Err (ErrText "could not allocate a unique temporary file"))
  | S attempts' =>
      do! random := draw 12 in
      let name := prefix +:+ hex_encode random in
      created <~ create_exclusive_at parent name;
      match created with
      | Ok _ =>
          assigned <~ assignRevision (parent ++ [name]);
          match assigned with
          | Err e => _ <~ unlinkat parent name; io_ret (Err e)
          | Ok _ => io_ret (Ok name)
          end
      | Err e => if negb (errors_Is e ErrExist) then io_ret (Err e) else create_temporary attempts' parent prefix
      end
  end.

Definition createTemporaryFile (parent : path) (key : string) : io disk (result string) :=
  create_temporary 100 parent (tempNamePrefix key).

Fixpoint unlink_all (parent : path) (names : list string) : io disk (result unit) :=
  match names with
  | [] => io_ret (Ok tt)
  | name :: rest =>
      removed <~ unlinkat parent name;
      match removed with
      | Err e => if negb (errors_Is e ErrNotExist) then io_ret (Err e) else unlink_all parent rest
      | Ok _ => unlink_all parent rest
      end
  end.

Definition cleanupTemporaryFiles (parent : path) (key : string) : io disk (result unit) :=
  do! _ := may_fail in
  do! names := ReadDir parent in
  let stale := filter (fun name => HasPrefix name (tempNamePrefix key) = true) names in
  do! _ := unlink_all parent stale in
  match stale with [] => io_ret (Ok tt) | _ => fsync end.

(** [io.Copy] into the temporary file: a failed or cancelled copy leaves a prefix. *)
Definition copyAndSync (p : path) (reader : Reader) : io disk (result (Z * string)) :=
  do! _ := syscall (fun n => update_file p (add_data (str_take n (rd_body reader))))
                   (fun f => (Ok tt, update_file p (add_data (rd_body reader)) f)) in
  match rd_err reader with
  | Some e => io_ret (Err e)
  | None =>
      do! _ := ctx_err in
      do! _ := may_fail in
      io_ret (Ok (str_len (rd_body reader), sha256Hex (rd_body reader)))
  end.

(** ** Locks *)
Definition lockKey (key : string) : io disk (result unit) :=
  do! _ := ctx_err in
  do! fd := openRoot in
  do! lockDir := ensureDirectoryAt fd lockDirectory in
  opened <~ open_lock_at lockDir (sha256Hex key +:+ ".lock");
  match opened with
  | Err e => io_ret (Err (classifyPathError e))
  | Ok _ => may_fail
  end.
End store.

(** * Listing *)
Section walk.
  (** The walk below a directory that was opened. *)
  Context (walk : path -> string -> list ObjectMeta -> io disk (result (list ObjectMeta))).

Definition child_key (prefix name : string) : string :=
  if str_eqb prefix "" then name else prefix +:+ "/" +:+ name.

Fixpoint walk_entries (dir : path) (prefix : string) (root : bool) (names : list string) (out : list ObjectMeta)
    : io disk (result (list ObjectMeta)) :=
  match names with
  | [] => io_ret (Ok out)
  | name :: rest =>
      do! _ := ctx_err in
      if root && str_eqb name lockDirectory then walk_entries dir prefix root rest out
      else if HasPrefix name tempPrefix then walk_entries dir prefix root rest out
      else
      let key := child_key prefix name in
      if negb (is_ok (splitKey key)) then io_ret (Err ErrUnsafePath)
      else
      opened <~ inspect (fun f =>
        match d_nodes f !! (dir ++ [name]) with
        | None => Err ErrNotExist
        | Some NSymlink => Err ELOOP
        | Some n => Ok n
        end);
      match opened with
      | Err e => io_ret (Err (classifyPathError e))
      | Ok n =>
          do! _ := may_fail in
          match n with
          | NDir => do! out' := walk (dir ++ [name]) key out in walk_entries dir prefix root rest out'
          | NFile x =>
              meta <~ metadataFromFile x key;
              closed <~ may_fail;
              match meta, closed with
              | Err e, _ => io_ret (Err e)
              | Ok _, Err e => io_ret (Err e)
              | Ok meta, Ok _ => walk_entries dir prefix root rest (out ++ [meta])
              end
          | _ => io_ret (Err ErrUnsafePath)
          end
      end
  end.
End walk.

(** The recursion follows the directory tree: [depth] bounds it. *)
Fixpoint walkDirectory (depth : nat) (dir : path) (prefix : string) (root : bool) (out : list ObjectMeta)
    : io disk (result (list ObjectMeta)) :=
  match depth with
  | O => io_ret (Err ErrNoProgress)
  | S depth' =>
      do! _ := ctx_err in
      do! _ := may_fail in
      do! names := ReadDir dir in
      walk_entries (fun d key => walkDirectory depth' d key false) dir prefix root names out
  end.

(** One more than the length of the longest path. *)
Definition tree_depth (f : disk) : nat :=
  S (foldr (fun pn m => Nat.max (length pn.1) m) 0%nat (map_to_list (d_nodes f))).

(** [sort.Search] on a sorted list: what follows the first element that satisfies the
    test, with it. *)
Fixpoint search {A} (p : A -> bool) (l : list A) : list A :=
  match l with
  | [] => []
  | x :: rest => if p x then l else search p rest
  end.

Definition after (cursor : string) (all : list ObjectMeta) : list ObjectMeta :=
  search (fun m => str_ltb cursor (om_Key m)) all.
Definition with_prefix (prefix : string) (l : list ObjectMeta) : list ObjectMeta :=
  filter (fun m => HasPrefix (om_Key m) prefix = true) l.

(** One page of the sorted objects, and the cursor of the next. *)
Definition page (prefix cursor : string) (all : list ObjectMeta) : list ObjectMeta * option string :=
  let filtered := take listPageSize (with_prefix prefix (after cursor all)) in
  match List.last (map Some filtered) None with
  | None => ([], None)
  | Some m =>
      match with_prefix prefix (after (om_Key m) all) with
      | [] => (filtered, None)
      | _ => (filtered, Some (om_Key m))
      end
  end.

(** * The store *)
Module Store.
Section store.
  Context (root : string) (dev ino : Z).

Definition failure {A} (r : result A) : option error := match r with Ok _ => None | Err e => Some e end.

(** The reads and the Close the caller makes on the open file are decided here. *)
Definition Get (key : string) : io disk (result (Reader * ObjectMeta)) :=
  do! _ := ctx_err in
  expr! _ := splitKey key in
  do! (parent, name) := openParent dev ino key false in
  do! x := openRegularAt parent name key in
  do! meta := metadataFromFile x key in
  read <~ may_fail;
  closed <~ may_fail;
  io_ret (Ok (mkReader (f_data x) (failure read) (failure closed), meta)).

Definition SourceIdentity (key : string) : io disk (result ObjectSourceFingerprint) :=
  do! (parent, name) := openParent dev ino key false in
  do! x := openRegularAt parent name key in
  do! meta := metadataFromFile x key in
  do! _ := may_fail in
  io_ret (Ok (mkObjectSourceFingerprint "file" key (om_Revision meta) (om_Size meta) (om_SHA256 meta)
    (path_Join [root; key]) dev (f_ino x))).

Definition Head (key : string) : io disk (result ObjectMeta) :=
  do! (reader, meta) := Get key in
  match rd_close reader with Some e => io_ret (Err e) | None => io_ret (Ok meta) end.

(** The steps from the rename on; the temporary file is gone. *)
Definition published (parent : path) (name key : string) : io disk (result ObjectMeta) :=
  synced <~ fsync;
  match synced with
  | Err _ => io_ret (Err ErrAmbiguous)
  | Ok _ =>
      meta <~ metadataAt parent name key;
      match meta with
      | Err _ => io_ret (Err ErrAmbiguous)
      | Ok meta => io_ret (Ok meta)
      end
  end.

(** The publication of a finished temporary file, with whether it is still there. *)
Definition publish (parent : path) (tempName name key : string) : io disk (result ObjectMeta * bool) :=
  cancelled <~ ctx_err;
  match cancelled with
  | Err e => io_ret (Err e, true)
  | Ok _ =>
      renamed <~ renameat parent tempName name;
      match renamed with
      | Err e => io_ret (Err e, true)
      | Ok _ => r <~ published parent name key; io_ret (r, false)
      end
  end.

(** The deferred clean-up of a temporary file. *)
Definition with_cleanup {A} (parent : path) (tempName : string) (body : io disk (A * bool)) : io disk A :=
  out <~ body;
  _ <~ may_fail;
  _ <~ (if out.2 then unlinkat parent tempName else io_ret (Ok tt));
  io_ret out.1.

(** The body of PutImmutable once the temporary file exists. *)
Definition immutable_body (parent : path) (tempName name key : string) (source : RestartableSource)
    (expectedSHA256 : string) (expectedSize : Z) : io disk (result ObjectMeta * bool) :=
  match source with
  | Err e => io_ret (Err e, true)
  | Ok reader =>
      copied <~ copyAndSync (parent ++ [tempName]) reader;
      match copied, rd_close reader with
      | Err e, _ => io_ret (Err e, true)
      | Ok _, Some e => io_ret (Err e, true)
      | Ok (size, sum), None =>
          closed <~ may_fail;
          match closed with
          | Err e => io_ret (Err e, true)
          | Ok _ =>
              if negb (size =? expectedSize) || negb (str_eqb sum expectedSHA256) then io_ret (Err ErrIntegrity, true)
              else
              current <~ metadataAt parent name key;
              match current with
              | Ok current =>
                  if (om_Size current =? expectedSize) && str_eqb (om_SHA256 current) expectedSHA256 then
                    removed <~ unlinkat parent tempName;
                    match removed with
                    | Err e => io_ret (Err e, true)
                    | Ok _ => io_ret (Ok current, false)
                    end
                  else io_ret (Err ErrConflict, true)
              | Err e => if negb (errors_Is e ErrNotFound) then io_ret (Err e, true) else publish parent tempName name key
              end
          end
      end
  end.

Definition PutImmutable (key : string) (source : RestartableSource) (expectedSHA256 : string) (expectedSize : Z)
    : io disk (result ObjectMeta) :=
  expr! _ := splitKey key in
  if (expectedSize <? 0) || negb (validSHA256 expectedSHA256) then io_ret (Err ErrIntegrity)
  else
  do! _ := lockKey dev ino key in
  do! (parent, name) := openParent dev ino key true in
  do! _ := cleanupTemporaryFiles parent key in
  do! tempName := createTemporaryFile parent key in
  with_cleanup parent tempName (immutable_body parent tempName name key source expectedSHA256 expectedSize).

(** The body of PutConditional once the temporary file exists. *)
Definition conditional_body (parent : path) (tempName name key : string) (body : bytes) : io disk (result ObjectMeta * bool) :=
  copied <~ copyAndSync (parent ++ [tempName]) (mkReader body None None);
  match copied with
  | Err e => io_ret (Err e, true)
  | Ok _ =>
      closed <~ may_fail;
      match closed with
      | Err e => io_ret (Err e, true)
      | Ok _ => publish parent tempName name key
      end
  end.

Definition PutConditional (key : string) (body : bytes) (condition : WriteCondition) : io disk (result ObjectMeta) :=
  expr! _ := splitKey key in
  if Bool.eqb (wc_MustBeAbsent condition) (negb (str_eqb (wc_MatchRevision condition) "")) then io_ret (Err ErrInvalidCondition)
  else
  do! _ := lockKey dev ino key in
  do! (parent, name) := openParent dev ino key true in
  do! _ := cleanupTemporaryFiles parent key in
  current <~ metadataAt parent name key;
  let go :=
    do! tempName := createTemporaryFile parent key in
    with_cleanup parent tempName (conditional_body parent tempName name key body) in
  match current with
  | Err e =>
      if negb (errors_Is e ErrNotFound) then io_ret (Err e)
      else if negb (str_eqb (wc_MatchRevision condition) "") then io_ret (Err ErrConflict)
      else go
  | Ok current =>
      if wc_MustBeAbsent condition then io_ret (Err ErrConflict)
      else if negb (str_eqb (wc_MatchRevision condition) "") && negb (str_eqb (om_Revision current) (wc_MatchRevision condition))
      then io_ret (Err ErrConflict)
      else go
  end.

Definition DeleteConditional (key : string) (expected : string) : io disk (result unit) :=
  expr! _ := splitKey key in
  if str_eqb expected "" then io_ret (Err ErrInvalidCondition)
  else
  do! _ := lockKey dev ino key in
  do! (parent, name) := openParent dev ino key false in
  do! current := metadataAt parent name key in
  if negb (str_eqb (om_Revision current) expected) then io_ret (Err ErrConflict)
  else
  do! _ := ctx_err in
  removed <~ unlinkat parent name;
  match removed with
  | Err e => io_ret (Err (classifyPathError e))
  | Ok _ =>
      synced <~ fsync;
      match synced with Err _ => io_ret (Err ErrAmbiguous) | Ok _ => io_ret (Ok tt) end
  end.

Definition List (prefix pageToken : string) : io disk (result (list ObjectMeta * string)) :=
  expr! _ := validatePrefix prefix in
  expr! cursor := decodePageToken pageToken prefix in
  do! fd := openRoot dev ino in
  depth <~ (fun s => (Done (tree_depth (s_fs s)), s));
  do! all := walkDirectory depth fd "" true [] in
  let sorted := sort_slice (fun a b => str_ltb (om_Key a) (om_Key b)) all in
  match page prefix cursor sorted with
  | (filtered, None) => io_ret (Ok (filtered, ""))
  | (filtered, Some last) =>
      expr! next := encodePageToken prefix last in
      io_ret (Ok (filtered, next))
  end.

(** The store as a handler of the port's calls. *)
Definition perform {X} (e : storeE X) : io disk X :=
  match e with
  | ObjectStore.Get key => Get key
  | ObjectStore.Head key => Head key
  | ObjectStore.PutImmutable key source sha size => PutImmutable key source sha size
  | ObjectStore.PutConditional key body c => PutConditional key body c
  | ObjectStore.DeleteConditional key rev => DeleteConditional key rev
  | ObjectStore.List prefix token => List prefix token
  | ObjectStore.SourceIdentity key => r <~ SourceIdentity key; io_ret (Some r)
  | CtxErr => r <~ ctx_err; io_ret (failure r)
  end.
End store.
End Store.
