(* ===== verification/FileBackendRefinement.v ===== *)
(** filebackend.Store keeps the contract of ports.ObjectStore (ObjectStore.v), for every
    schedule of failures and crashes of FileBackend.v. *)
From S2P Require Import Prelude Sha256 GoTime Json Codec Regexp Domain Paths ObjectStore Effects Base64 FileBackend.

(** * Keys and paths *)
Lemma splitKey_inv key parts : splitKey key = Ok parts -> parts = Split key "/" /\ existsb bad_part parts = false.
Proof.
  unfold splitKey. destruct (_ || _ || _ || _); [done|]. destruct (existsb bad_part (Split key "/")) eqn:E; [done|].
  by intros [= <-].
Qed.

Lemma splitKey_inj k1 k2 parts : splitKey k1 = Ok parts -> splitKey k2 = Ok parts -> k1 = k2.
Proof.
  intros [-> _]%splitKey_inv [H _]%splitKey_inv. by rewrite <-(Join_Split "/" k1), <-(Join_Split "/" k2), H.
Qed.

Lemma splitKey_nonempty key parts : splitKey key = Ok parts -> parts <> [].
Proof. intros [-> _]%splitKey_inv. apply Split_nonempty. Qed.

(** The path of a key: its directories and its name. *)
Lemma splitKey_app key parts : splitKey key = Ok parts -> removelast parts ++ [List.last parts ""] = parts.
Proof. intros H%splitKey_nonempty. symmetry. by apply app_removelast_last. Qed.

(** Paths no key has. *)
Definition hidden (p : list string) : bool := existsb bad_part p.

Lemma hidden_snoc p name : bad_part name = true -> hidden (p ++ [name]) = true.
Proof. intros H. unfold hidden. rewrite existsb_app. cbn. rewrite H. by destruct (existsb bad_part p). Qed.

Lemma splitKey_visible key parts : splitKey key = Ok parts -> hidden parts = false.
Proof. by intros [_ H]%splitKey_inv. Qed.

Lemma no_slash_app a b : no_slash (a +:+ b) = no_slash a && no_slash b.
Proof. apply str_all_app. Qed.

Lemma lower_hex_no_slash s : str_all is_lower_hex s = true -> no_slash s = true.
Proof.
  apply str_all_impl. intros c Hc. apply negb_true_iff, bool_decide_eq_false. intros ->. done.
Qed.

Lemma sha256Hex_no_slash s : no_slash (sha256Hex s) = true.
Proof. apply lower_hex_no_slash. by destruct (sha256Hex_digits s). Qed.

Lemma hex_encode_no_slash s : no_slash (hex_encode s) = true.
Proof.
  apply lower_hex_no_slash. unfold hex_encode.
  destruct (hex_of_bytes_lower (string_bytes s)) as [H _]; [|done].
  apply string_bytes_octets.
Qed.

Lemma tempNamePrefix_no_slash key : no_slash (tempNamePrefix key) = true.
Proof. unfold tempNamePrefix. by rewrite !no_slash_app, sha256Hex_no_slash. Qed.

Lemma temp_name_bad key s : bad_part (tempNamePrefix key +:+ s) = true.
Proof.
  unfold bad_part, tempNamePrefix. rewrite str_app_assoc, HasPrefix_app. by rewrite orb_true_r.
Qed.

Lemma Split_no_slash s sep : Forall (fun p => str_all (fun c => negb (bool_decide (c = sep))) p = true) (Split s sep).
Proof.
  unfold Split. induction s as [|c s IH]; simpl; [by repeat constructor|].
  destruct (split_on sep s) as [h t]. inversion IH; subst. case_bool_decide as E.
  - by repeat constructor.
  - constructor; [|done]. simpl. rewrite bool_decide_false by done. done.
Qed.

Lemma splitKey_no_slash key parts : splitKey key = Ok parts -> Forall (fun p => no_slash p = true) parts.
Proof. intros [-> _]%splitKey_inv. apply Split_no_slash. Qed.

Lemma Split_snoc a b : no_slash b = true -> Split (a +:+ "/" +:+ b) "/" = Split a "/" ++ [b].
Proof.
  intros Hb. unfold Split. induction a as [|c a IH].
  - change ("" +:+ "/" +:+ b) with (String "/" b). simpl. rewrite split_on_no_sep by done. done.
  - rewrite str_app_cons. simpl. destruct (split_on "/" (a +:+ "/" +:+ b)) as [h t], (split_on "/" a) as [h' t'].
    case_bool_decide as E; simpl; [by rewrite IH|]. simpl in IH. injection IH as -> ->. done.
Qed.

(** The key of an entry below a key. *)
Lemma splitKey_child prefix dir name key :
  (prefix = "" /\ dir = []) \/ splitKey prefix = Ok dir -> no_slash name = true ->
  is_ok (splitKey (child_key prefix name)) = true -> key = child_key prefix name -> splitKey key = Ok (dir ++ [name]).
Proof.
  intros Hd Hn Hok ->. destruct (splitKey (child_key prefix name)) as [parts|] eqn:E; [|done].
  apply splitKey_inv in E as [-> _]. unfold child_key in *. destruct Hd as [[-> ->]|Hd].
  - cbn. f_equal. unfold Split. by rewrite split_on_no_sep.
  - destruct (str_eqb prefix "") eqn:Ep.
    { apply str_eqb_eq in Ep as ->. done. }
    rewrite Split_snoc by done. by apply splitKey_inv in Hd as [-> _].
Qed.

(** * The disk *)

(** A tree: the root and the parent of every node are directories, and no name has a
    slash. *)
Definition nodes_ok (ns : gmap (list string) node) : Prop :=
  ns !! [] = Some NDir /\
  (forall p name n, ns !! (p ++ [name]) = Some n -> ns !! p = Some NDir) /\
  (forall p n, ns !! p = Some n -> Forall (fun s => no_slash s = true) p).

Lemma nodes_ok_ancestor ns p q n : nodes_ok ns -> ns !! (p ++ q) = Some n -> q <> [] -> ns !! p = Some NDir.
Proof.
  intros (_ & Hp & _). revert n. induction q as [|name q IH] using rev_ind; intros n Hn Hq; [done|].
  rewrite app_assoc in Hn. apply Hp in Hn. destruct q as [|x q]; [by rewrite app_nil_r in Hn|]. by eapply IH.
Qed.

Lemma nodes_ok_put ns parent name n :
  nodes_ok ns -> ns !! parent = Some NDir -> no_slash name = true ->
  (n = NDir \/ ns !! (parent ++ [name]) <> Some NDir) -> nodes_ok (<[parent ++ [name] := n]> ns).
Proof.
  intros (Hr & Hp & Hs) Hd Hn Hor. split; [|split].
  - rewrite lookup_insert_ne; [done|]. by destruct parent.
  - intros p x m. destruct (decide (parent ++ [name] = p ++ [x])) as [Heq|Hne].
    + intros _. apply app_inj_tail in Heq as [-> ->]. rewrite lookup_insert_ne; [done|].
      intros Heq%(f_equal length). rewrite length_app in Heq. simpl in Heq. lia.
    + rewrite lookup_insert_ne by done. intros Hm. pose proof (Hp _ _ _ Hm) as Hpd.
      destruct (decide (parent ++ [name] = p)) as [<-|Hne']; [|by rewrite lookup_insert_ne].
      rewrite lookup_insert_eq. destruct Hor as [->|Hor]; [done|]. by rewrite Hpd in Hor.
  - intros p m. destruct (decide (parent ++ [name] = p)) as [<-|Hne].
    + intros _. apply Forall_app. split; [by eapply Hs|]. by repeat constructor.
    + rewrite lookup_insert_ne by done. apply Hs.
Qed.

Lemma nodes_ok_drop ns parent name :
  nodes_ok ns -> ns !! (parent ++ [name]) <> Some NDir -> nodes_ok (delete (parent ++ [name]) ns).
Proof.
  intros (Hr & Hp & Hs) Hn. split; [|split].
  - rewrite lookup_delete_ne; [done|]. by destruct parent.
  - intros p x m [Hne Hm]%lookup_delete_Some. pose proof (Hp _ _ _ Hm) as Hpd.
    rewrite lookup_delete_ne; [done|]. by intros <-.
  - intros p m [_ Hm]%lookup_delete_Some. by eapply Hs.
Qed.

(** The object a file is. *)
Definition file_object (x : file) : option object :=
  match f_xattr x with
  | Some v => if Nat.eqb (String.length v) revisionSize then Some (mkObject (f_data x) (hex_encode v)) else None
  | None => None
  end.
Definition node_object (n : option node) : option object :=
  match n with Some (NFile x) => file_object x | _ => None end.
Definition object_at (f : disk) (key : string) : option object :=
  match splitKey key with Ok parts => node_object (d_nodes f !! parts) | Err _ => None end.

Definition rev_of (b : bytes) : string := hex_encode (fill revisionSize b).

(** A change no client of the store can see. *)
Record neutral (f f' : disk) : Prop := mkNeutral {
  ne_objects key : object_at f' key = object_at f key;
  ne_ok : nodes_ok (d_nodes f) -> nodes_ok (d_nodes f');
  ne_random : exists k, d_random f' = drop k (d_random f);
  ne_dirs p : d_nodes f !! p = Some NDir -> d_nodes f' !! p = Some NDir }.

Lemma neutral_refl f : neutral f f.
Proof. split; [done|done|by exists 0%nat|done]. Qed.

Lemma neutral_trans f g h : neutral f g -> neutral g h -> neutral f h.
Proof.
  intros [H1 H2 [k H3] H4] [K1 K2 [j K3] K4]. split; [intros; by rewrite K1, H1|by auto| |by auto].
  exists (k + j)%nat. by rewrite K3, H3, drop_drop.
Qed.

#[export] Instance neutral_preorder : PreOrder neutral.
Proof. split; [intros ?; apply neutral_refl|intros ? ? ?; apply neutral_trans]. Qed.

(** Changes at a path only show through that path. *)
Lemma object_at_put f p n key : splitKey key <> Ok p -> object_at (put_node p n f) key = object_at f key.
Proof.
  intros Hk. unfold object_at. destruct (splitKey key) as [parts|]; [|done]. cbn.
  rewrite lookup_insert_ne; [done|]. congruence.
Qed.

Lemma object_at_drop f p key : splitKey key <> Ok p -> object_at (drop_node p f) key = object_at f key.
Proof.
  intros Hk. unfold object_at. destruct (splitKey key) as [parts|]; [|done]. cbn.
  rewrite lookup_delete_ne; [done|]. congruence.
Qed.

Lemma hidden_no_key p key : hidden p = true -> splitKey key <> Ok p.
Proof. intros Hh H%splitKey_visible. congruence. Qed.

Lemma neutral_put_hidden f parent name n :
  d_nodes f !! parent = Some NDir -> no_slash name = true -> hidden (parent ++ [name]) = true ->
  d_nodes f !! (parent ++ [name]) <> Some NDir -> neutral f (put_node (parent ++ [name]) n f).
Proof.
  intros Hd Hs Hh Hn. split.
  - intros key. apply object_at_put. by apply hidden_no_key.
  - intros Hok. apply nodes_ok_put; [done..|by right].
  - by exists 0%nat.
  - intros p Hp. cbn. rewrite lookup_insert_ne; [done|]. by intros <-.
Qed.

Lemma neutral_drop_hidden f parent name :
  hidden (parent ++ [name]) = true -> d_nodes f !! (parent ++ [name]) <> Some NDir ->
  neutral f (drop_node (parent ++ [name]) f).
Proof.
  intros Hh Hn. split.
  - intros key. apply object_at_drop. by apply hidden_no_key.
  - intros Hok. by apply nodes_ok_drop.
  - by exists 0%nat.
  - intros p Hp. cbn. rewrite lookup_delete_ne; [done|]. by intros <-.
Qed.

Lemma neutral_mkdir f parent name :
  d_nodes f !! parent = Some NDir -> no_slash name = true -> d_nodes f !! (parent ++ [name]) = None ->
  neutral f (put_node (parent ++ [name]) NDir f).
Proof.
  intros Hd Hs Hn. split.
  - intros key. destruct (decide (splitKey key = Ok (parent ++ [name]))) as [Hk|Hk]; [|by apply object_at_put].
    unfold object_at. rewrite Hk. cbn. by rewrite lookup_insert_eq, Hn.
  - intros Hok. apply nodes_ok_put; [done..|by left].
  - by exists 0%nat.
  - intros p Hp. cbn. destruct (decide (parent ++ [name] = p)) as [<-|Hne]; [by rewrite lookup_insert_eq|].
    by rewrite lookup_insert_ne.
Qed.

(** The fields the store does not read may change. *)
Lemma neutral_nodes f f' k : d_nodes f' = d_nodes f -> d_random f' = drop k (d_random f) -> neutral f f'.
Proof. intros Hn Hr. split; [intros; unfold object_at; by rewrite Hn|by rewrite Hn|by exists k|by rewrite Hn]. Qed.

(** * Steps no client sees *)

(** From [f], every way out of [p] leaves a neutral change, and an answer with it
    satisfies [Q]. *)
Definition leaves {A} (f : disk) (p : io disk A) (Q : A -> disk -> Prop) : Prop :=
  forall o f', runs p f o f' -> neutral f f' /\ forall a, o = Done a -> Q a f'.

Lemma leaves_ret {A} f (a : A) (Q : A -> disk -> Prop) : Q a f -> leaves f (io_ret a) Q.
Proof. intros HQ o f' [-> ->]%runs_ret. split; [done|]. by intros ? [= <-]. Qed.

Lemma leaves_bind {A B} f (p : io disk A) (k : A -> io disk B) Q1 (Q : B -> disk -> Prop) :
  leaves f p Q1 -> (forall a g, neutral f g -> Q1 a g -> leaves g (k a) Q) -> leaves f (io_bind p k) Q.
Proof.
  intros Hp Hk o f' [[-> H]|(a & g & H1 & H2)]%runs_bind.
  - apply Hp in H as [Hn _]. by split.
  - apply Hp in H1 as [Hn Ha]. destruct (Hk a g Hn (Ha a eq_refl) _ _ H2) as [Hn' Hq].
    split; [by etrans|done].
Qed.

Lemma leaves_conseq {A} f (p : io disk A) (Q1 Q : A -> disk -> Prop) :
  leaves f p Q1 -> (forall a g, neutral f g -> Q1 a g -> Q a g) -> leaves f p Q.
Proof. intros Hp HQ o f' H. destruct (Hp _ _ H) as [Hn Ha]. split; [done|]. intros a ->. apply HQ; [done|by apply Ha]. Qed.

Lemma leaves_reads {A} f (p : io disk A) (Q : A -> disk -> Prop) :
  reads p -> (forall a, runs p f (Done a) f -> Q a f) -> leaves f p Q.
Proof.
  intros Hr HQ o f' H. pose proof (Hr _ _ _ H) as ->. split; [done|]. intros a ->. by apply HQ.
Qed.

Lemma leaves_inspect {A} f (act : disk -> result A) (Q : result A -> disk -> Prop) :
  Q (act f) f -> Q (Err ErrIO) f -> leaves f (inspect act) Q.
Proof.
  intros H1 H2. apply leaves_reads; [apply reads_inspect|]. intros a [[[= ->] _]|[_ [[= ->]|]]]%runs_atomic; done.
Qed.

Lemma leaves_may_fail f (Q : result unit -> disk -> Prop) : (forall r, Q r f) -> leaves f may_fail Q.
Proof. intros H. by apply leaves_inspect. Qed.

Lemma leaves_ctx_err f (Q : result unit -> disk -> Prop) : (forall r, Q r f) -> leaves f ctx_err Q.
Proof. intros H. apply leaves_reads; [auto with camp|]. intros; apply H. Qed.

Lemma leaves_atomic {A} f (act : disk -> result A * disk) (Q : result A -> disk -> Prop) :
  neutral f (act f).2 -> Q (act f).1 (act f).2 -> Q (Err ErrIO) f -> leaves f (atomic act) Q.
Proof.
  intros Hn H1 H2 o f' [[-> ->]|[-> [->| ->]]]%runs_atomic; (split; [done|]); try done; by intros a [= <-].
Qed.

(** [do!]: an error is returned as it is. *)
Lemma leaves_do {A B} f (p : io disk (result A)) (k : A -> io disk (result B)) Q1 (Q : result B -> disk -> Prop) :
  leaves f p Q1 ->
  (forall a g, neutral f g -> Q1 (Ok a) g -> leaves g (k a) Q) ->
  (forall e g, neutral f g -> Q1 (Err e) g -> Q (Err e) g) ->
  leaves f (io_bind p (fun r => match r with Ok x => k x | Err e => io_ret (Err e) end)) Q.
Proof.
  intros Hp Hk He. eapply leaves_bind; [exact Hp|]. intros [a|e] g Hn Hq; [by apply Hk|]. apply leaves_ret. by apply He.
Qed.

(** An answer that satisfies [P] when it is a success. *)
Definition when_ok {A} (P : A -> disk -> Prop) (r : result A) (g : disk) : Prop :=
  match r with Ok a => P a g | Err _ => True end.

(** ** Directories *)
Definition is_dir (f : disk) (p : list string) : Prop := d_nodes f !! p = Some NDir.

Lemma leaves_openDirectoryAt f parent name :
  leaves f (openDirectoryAt parent name) (fun r g => g = f /\
    match r with
    | Ok fd => fd = parent ++ [name] /\ is_dir f fd
    | Err e => errors_Is e ErrNotFound = false /\
        (errors_Is e ErrNotExist = true -> d_nodes f !! (parent ++ [name]) = None)
    end).
Proof.
  apply leaves_inspect; [|done]. split; [done|]. by destruct (d_nodes f !! (parent ++ [name])) as [[]|] eqn:E.
Qed.

Lemma leaves_ensureDirectoryAt f parent name :
  is_dir f parent -> no_slash name = true ->
  leaves f (ensureDirectoryAt parent name) (when_ok (fun fd g => fd = parent ++ [name] /\ is_dir g fd)).
Proof.
  intros Hd Hs. assert (forall g, leaves g (do! _ := fsync in openDirectoryAt parent name)
    (when_ok (fun fd g => fd = parent ++ [name] /\ is_dir g fd))) as Hopen.
  { intros g. eapply leaves_do; [by apply leaves_may_fail with (Q := fun _ _ => True)| |done]. intros _ g1 _ _.
    eapply leaves_conseq; [apply leaves_openDirectoryAt|]. intros [fd|e] g2 _ [-> H]; [|done]. exact H. }
  unfold ensureDirectoryAt. eapply leaves_bind; [apply leaves_openDirectoryAt|].
  intros [fd|e] g _ [-> H]; [by apply leaves_ret|].
  destruct (negb (errors_Is e ErrNotExist)) eqn:E; [by apply leaves_ret|]. bool_norm. destruct H as [_ H]. specialize (H E).
  eapply leaves_bind with (Q1 := fun _ _ => True).
  - unfold mkdirat. apply leaves_atomic; [|done|done]. rewrite H. by apply neutral_mkdir.
  - intros [[]|e'] g _ _; [apply Hopen|]. destruct (negb (errors_Is e' ErrExist)); [by apply leaves_ret|apply Hopen].
Qed.

Lemma leaves_openRoot dev ino f :
  nodes_ok (d_nodes f) ->
  leaves f (openRoot dev ino) (fun r g => g = f /\ match r with Ok fd => fd = [] /\ is_dir f fd | Err e => errors_Is e ErrNotFound = false end).
Proof.
  intros (Hr & _). unfold openRoot. eapply leaves_bind with (Q1 := fun _ g => g = f); [by apply leaves_inspect|].
  intros [id|e] g _ ->; [|by apply leaves_ret].
  eapply leaves_do with (Q1 := fun r g => g = f /\ match r with Err e => e = ErrIO | Ok _ => True end); [by apply leaves_inspect| |].
  - intros _ g _ [-> _]. by destruct (bool_decide (id = (dev, ino))); apply leaves_ret.
  - by intros e g _ [-> ->].
Qed.

(** The directories of a key, opened or made: with [create] off nothing changes, and a
    missing one means nothing is below it. *)
Lemma leaves_open_parents create parts : forall f fd,
  nodes_ok (d_nodes f) -> is_dir f fd -> Forall (fun p => no_slash p = true) parts ->
  leaves f (open_parents create fd parts) (fun r g =>
    (create = false -> g = f) /\
    match r with
    | Ok parent => parent = fd ++ parts /\ is_dir g parent
    | Err e => create = false -> errors_Is e ErrNotFound = true -> d_nodes f !! (fd ++ parts) = None
    end).
Proof.
  induction parts as [|part rest IH]; intros f fd Hok Hd Hs; cbn [open_parents].
  { apply leaves_ret. by rewrite app_nil_r. }
  apply Forall_cons in Hs as [Hp Hs]. eapply leaves_bind; [apply leaves_openDirectoryAt|]. intros opened g _ [-> Ho].
  eapply leaves_bind with (Q1 := fun r g => neutral f g /\ (create = false -> g = f) /\
    match r with
    | Ok next => next = fd ++ [part] /\ is_dir g next
    | Err e => create = false -> errors_Is e ErrNotFound = false /\ (errors_Is e ErrNotExist = true -> d_nodes f !! (fd ++ [part]) = None)
    end).
  - destruct opened as [next|e]; [by apply leaves_ret|].
    destruct create; cbn [andb]; [|by apply leaves_ret].
    destruct (errors_Is e ErrNotExist); [|by apply leaves_ret].
    eapply leaves_conseq; [by apply leaves_ensureDirectoryAt|]. by intros [next|e'] g Hn ?.
  - intros [next|e] g Hn (_ & Hsame & Hnext).
    + destruct Hnext as [-> Hnd]. eapply leaves_conseq; [apply IH; [by apply Hn|done|done]|].
      cbn beta. rewrite <-app_assoc. cbn [app]. intros r g' _ [Hg' Hq]. split; [intros Hc; by rewrite Hg', Hsame|].
      destruct r as [parent|e]; [done|]. intros Hc He. rewrite <-(Hsame Hc). by apply Hq.
    + assert (forall e', (create = false -> errors_Is e' ErrNotFound = true -> errors_Is e ErrNotExist = true) ->
        (create = false -> g = f) /\ (create = false -> errors_Is e' ErrNotFound = true -> d_nodes f !! (fd ++ part :: rest) = None)) as Hstop.
      { intros e' He'. split; [done|]. intros Hc Hnf. destruct (Hnext Hc) as [_ Hnone]. specialize (Hnone (He' Hc Hnf)).
        destruct (d_nodes f !! (fd ++ part :: rest)) as [n|] eqn:E; [|done].
        change (part :: rest) with ([part] ++ rest) in E. rewrite app_assoc in E.
        destruct rest as [|y rest]; [by rewrite app_nil_r, Hnone in E|].
        apply nodes_ok_ancestor in E; [by rewrite Hnone in E|done|done]. }
      destruct (errors_Is e ErrNotExist) eqn:Ee; apply leaves_ret; apply Hstop; [done|].
      intros Hc Hnf. destruct (Hnext Hc) as [Hnf' _]. unfold classifyPathError in Hnf. rewrite Ee in Hnf.
      destruct (errors_Is e ELOOP || errors_Is e ENOTDIR); [done|congruence].
Qed.

Lemma leaves_openParent dev ino f key create :
  nodes_ok (d_nodes f) ->
  leaves f (openParent dev ino key create) (fun r g =>
    (create = false -> g = f) /\
    match r with
    | Ok (parent, name) => splitKey key = Ok (parent ++ [name]) /\ is_dir g parent
    | Err e => create = false -> errors_Is e ErrNotFound = true -> object_at f key = None
    end).
Proof.
  intros Hok. unfold openParent. destruct (splitKey key) as [parts|e] eqn:Hk.
  2: { apply leaves_ret. split; [done|]. intros _ _. unfold object_at. by rewrite Hk. }
  pose proof (splitKey_app _ _ Hk) as Happ. pose proof (splitKey_no_slash _ _ Hk) as Hs.
  eapply leaves_do; [by apply leaves_openRoot| |].
  2: { intros e g _ [-> He]. split; [done|]. congruence. }
  intros fd g _ (-> & -> & Hd). eapply leaves_do; [apply leaves_open_parents; [done|done|]| |].
  - rewrite <-Happ in Hs. by apply Forall_app in Hs as [? _].
  - intros parent g Hn (Hc & -> & Hpd). apply leaves_ret. split; [done|]. cbn [app] in *. by rewrite Happ.
  - intros e g Hn [Hc He]. split; [done|]. intros Hcr Hnf. specialize (He Hcr Hnf). cbn [app] in He.
    unfold object_at. rewrite Hk. destruct (d_nodes f !! parts) as [n|] eqn:E; [|done].
    rewrite <-Happ in E. apply nodes_ok_ancestor in E; [congruence|done|done].
Qed.

(** ** Objects *)
Lemma leaves_do_may_fail {B} f (k : io disk (result B)) (Q : result B -> disk -> Prop) :
  leaves f k Q -> Q (Err ErrIO) f -> leaves f (do! _ := may_fail in k) Q.
Proof.
  intros Hk He. eapply leaves_do with (Q1 := fun r g => g = f /\ match r with Err e => e = ErrIO | Ok _ => True end).
  - by apply leaves_inspect.
  - by intros _ g _ [-> _].
  - by intros e g _ [-> ->].
Qed.

Lemma leaves_openRegularAt f parent name key :
  leaves f (openRegularAt parent name key) (fun r g => g = f /\
    match r with
    | Ok x => d_nodes f !! (parent ++ [name]) = Some (NFile x)
    | Err e => errors_Is e ErrNotFound = true -> d_nodes f !! (parent ++ [name]) = None
    end).
Proof.
  unfold openRegularAt. eapply leaves_bind with (Q1 := fun r g => g = f /\
    match r with
    | Ok n => d_nodes f !! (parent ++ [name]) = Some n
    | Err e => errors_Is (classifyPathError e) ErrNotFound = true -> d_nodes f !! (parent ++ [name]) = None
    end).
  - apply leaves_inspect; [|done]. split; [done|]. by destruct (d_nodes f !! (parent ++ [name])) as [[]|].
  - intros [n|e] g _ [-> Hn]; [|by apply leaves_ret]. apply leaves_do_may_fail; [|done].
    destruct n; by apply leaves_ret.
Qed.

Lemma leaves_metadataFromFile f x key :
  leaves f (metadataFromFile x key) (fun r g => g = f /\
    match r with
    | Ok m => exists o, file_object x = Some o /\ meta_of key o m
    | Err e => errors_Is e ErrNotFound = false
    end).
Proof.
  unfold metadataFromFile. do 4 (apply leaves_do_may_fail; [|done]).
  eapply leaves_bind with (Q1 := fun r g => g = f /\
    forall rev, r = Ok rev -> file_object x = Some (mkObject (f_data x) rev)).
  - unfold persistedRevision. eapply leaves_do with (Q1 := fun r g => g = f /\ forall v, r = Ok v -> f_xattr x = Some v).
    + apply leaves_inspect; [|done]. split; [done|]. destruct (f_xattr x); [by intros ? [= <-]|done].
    + intros v g _ [-> Hv]. destruct (negb _) eqn:E; [by apply leaves_ret|]. apply leaves_ret. split; [done|].
      intros rev [= <-]. unfold file_object. rewrite (Hv v eq_refl). apply negb_false_iff in E. by rewrite E.
    + by intros e g _ [-> _].
  - intros [rev|e] g _ [-> Hr]; [|by apply leaves_ret]. apply leaves_ret. split; [done|].
    exists (mkObject (f_data x) rev). split; [by apply Hr|]. repeat split. by right.
Qed.

(** The metadata of the object at a path, and what its absence means. *)
Lemma leaves_metadataAt f parent name key :
  leaves f (metadataAt parent name key) (fun r g => g = f /\
    match r with
    | Ok m => exists o, node_object (d_nodes f !! (parent ++ [name])) = Some o /\ meta_of key o m
    | Err e => errors_Is e ErrNotFound = true -> d_nodes f !! (parent ++ [name]) = None
    end).
Proof.
  unfold metadataAt. eapply leaves_do; [apply leaves_openRegularAt| |].
  - intros x g _ [-> Hx]. eapply leaves_conseq; [apply leaves_metadataFromFile|]. intros [m|e] g _ [-> H].
    + split; [done|]. destruct H as (o & Ho & Hm). exists o. by rewrite Hx.
    + split; [done|congruence].
  - by intros e g _ [-> H].
Qed.

(** ** Locks and temporary files *)
Lemma neutral_create f parent name :
  is_dir f parent -> no_slash name = true -> hidden (parent ++ [name]) = true -> d_nodes f !! (parent ++ [name]) = None ->
  neutral f (create_file (parent ++ [name]) f).
Proof.
  intros Hd Hs Hh Hn. set (f1 := put_node (parent ++ [name]) (NFile (mkFile "" None (d_clock f) (d_next f))) f).
  assert (neutral f f1) as H1 by (apply neutral_put_hidden; [done..|congruence]).
  assert (neutral f1 (create_file (parent ++ [name]) f)) as H2 by by apply (neutral_nodes _ _ 0).
  by etrans.
Qed.

Lemma leaves_lockKey dev ino f key : nodes_ok (d_nodes f) -> leaves f (lockKey dev ino key) (fun _ _ => True).
Proof.
  intros Hok. unfold lockKey. eapply leaves_do with (Q1 := fun _ g => g = f); [by apply leaves_ctx_err| |done].
  intros _ g _ ->. eapply leaves_do; [by apply leaves_openRoot| |done]. intros fd g _ (-> & -> & Hd).
  eapply leaves_do; [by apply leaves_ensureDirectoryAt| |done]. intros dir g Hn [-> Hdir]. cbn [app] in Hdir |- *.
  eapply leaves_bind with (Q1 := fun _ _ => True).
  - unfold open_lock_at. apply leaves_atomic; [|done|done].
    destruct (d_nodes g !! ([lockDirectory] ++ [sha256Hex key +:+ ".lock"])) as [[]|] eqn:E; try done.
    apply neutral_create; [done| |done|done]. by rewrite no_slash_app, sha256Hex_no_slash.
  - intros [[]|e] g' _ _; [by apply leaves_may_fail|by apply leaves_ret].
Qed.

Lemma leaves_unlinkat_hidden f parent name :
  hidden (parent ++ [name]) = true -> leaves f (unlinkat parent name) (fun _ _ => True).
Proof.
  intros Hh. unfold unlinkat. apply leaves_atomic; [|done|done].
  destruct (d_nodes f !! (parent ++ [name])) as [[]|] eqn:E; try done; apply neutral_drop_hidden; done || congruence.
Qed.

Lemma leaves_unlink_all f parent names :
  Forall (fun name => bad_part name = true) names -> leaves f (unlink_all parent names) (fun _ _ => True).
Proof.
  intros Hb. revert f. induction Hb as [|name names Hn Hb IH]; intros f; cbn [unlink_all]; [by apply leaves_ret|].
  eapply leaves_bind; [by apply leaves_unlinkat_hidden, hidden_snoc|]. intros [[]|e] g _ _; [apply IH|].
  destruct (negb _); [by apply leaves_ret|apply IH].
Qed.

Lemma leaves_ReadDir f dir : leaves f (ReadDir dir) (fun r g => g = f /\ forall names, r = Ok names -> names = entries dir f).
Proof.
  unfold ReadDir. apply leaves_do_may_fail; [|done].
  eapply leaves_do with (Q1 := fun r g => g = f /\ forall names, r = Ok names -> names = entries dir f).
  - apply leaves_inspect; [|done]. split; [done|]. by intros ? [= <-].
  - intros names g _ [-> Hn]. apply leaves_do_may_fail; [|done]. apply leaves_ret. split; [done|].
    intros ? [= <-]. by apply Hn.
  - by intros e g _ [-> _].
Qed.

Lemma leaves_cleanupTemporaryFiles f parent key : leaves f (cleanupTemporaryFiles parent key) (fun _ _ => True).
Proof.
  unfold cleanupTemporaryFiles. apply leaves_do_may_fail; [|done].
  eapply leaves_do; [apply leaves_ReadDir| |done]. intros names g _ _.
  eapply leaves_do; [apply leaves_unlink_all| |done].
  - apply Forall_forall. intros name [Hp _]%list_elem_of_filter. apply HasPrefix_inv in Hp as [s ->]. apply temp_name_bad.
  - intros _ g' _ _. destruct (filter _ _); [by apply leaves_ret|by apply leaves_may_fail].
Qed.

Lemma neutral_update_hidden f parent name h :
  hidden (parent ++ [name]) = true -> neutral f (update_file (parent ++ [name]) h f).
Proof.
  intros Hh. unfold update_file. destruct (d_nodes f !! (parent ++ [name])) as [[|x| |]|] eqn:E; try done. split.
  - intros key. apply object_at_put. by apply hidden_no_key.
  - intros Hok. apply nodes_ok_put; [done|by eapply Hok| |right; congruence].
    destruct Hok as (_ & _ & Hs). apply Hs in E. apply Forall_app in E as [_ E]. by inversion E.
  - by exists 0%nat.
  - intros p Hp. cbn. rewrite lookup_insert_ne; [done|]. intros <-. congruence.
Qed.

Lemma leaves_draw f n :
  leaves f (draw n) (fun r g => d_nodes g = d_nodes f /\ forall v, r = Ok v -> exists b, d_random f = b :: d_random g /\ v = fill n b).
Proof.
  unfold draw. apply leaves_atomic; [|..|done]; destruct (d_random f) as [|b rest] eqn:E; try done.
  - apply (neutral_nodes _ _ 1); [done|]. by rewrite E.
  - cbn. split; [done|]. intros v [= <-]. by exists b.
Qed.

(** A finished temporary file: hidden, with a revision nobody has. *)
Definition is_temp (f : disk) (parent : list string) (name : string) (data : bytes) (b : bytes) : Prop :=
  bad_part name = true /\ no_slash name = true /\ rev_of b ∉ map rev_of (d_random f) /\
  exists x, d_nodes f !! (parent ++ [name]) = Some (NFile x) /\ f_data x = data /\ f_xattr x = Some (fill revisionSize b).

Lemma leaves_assignRevision f parent name x :
  hidden (parent ++ [name]) = true -> NoDup (map rev_of (d_random f)) ->
  d_nodes f !! (parent ++ [name]) = Some (NFile x) ->
  leaves f (assignRevision (parent ++ [name])) (fun r g => r = Ok tt -> exists b, b ∈ d_random f /\
    rev_of b ∉ map rev_of (d_random g) /\ d_nodes g !! (parent ++ [name]) = Some (NFile (set_xattr (fill revisionSize b) x))).
Proof.
  intros Hh Hnd Hx. unfold assignRevision. eapply leaves_do; [apply leaves_draw| |done].
  intros v g _ [Hn Hv]. destruct (Hv v eq_refl) as (b & Hb & ->). apply leaves_atomic; [by apply neutral_update_hidden| |done].
  intros _. exists b. rewrite Hb in Hnd |- *. cbn in Hnd. apply NoDup_cons in Hnd as [Hnd _].
  unfold update_file. rewrite Hn, Hx. cbn. rewrite lookup_insert_eq. split; [by left|done].
Qed.

Lemma leaves_create_temporary attempts : forall f parent key,
  is_dir f parent -> NoDup (map rev_of (d_random f)) ->
  leaves f (create_temporary attempts parent (tempNamePrefix key))
    (when_ok (fun name g => exists b, b ∈ d_random f /\ is_temp g parent name "" b)).
Proof.
  induction attempts as [|n IH]; intros f parent key Hd Hnd; cbn [create_temporary]; [by apply leaves_ret|].
  eapply leaves_do; [apply leaves_draw| |done]. intros v g Hn [Hns Hv]. destruct (Hv v eq_refl) as (b0 & Hb0 & ->).
  set (name := tempNamePrefix key +:+ hex_encode (fill 12 b0)).
  assert (bad_part name = true) as Hbad by apply temp_name_bad.
  assert (no_slash name = true) as Hsl by (unfold name; by rewrite no_slash_app, tempNamePrefix_no_slash, hex_encode_no_slash).
  assert (hidden (parent ++ [name]) = true) as Hh by by apply hidden_snoc.
  assert (NoDup (map rev_of (d_random g))) as Hnd' by (rewrite Hb0 in Hnd; cbn in Hnd; by apply NoDup_cons in Hnd as [_ ?]).
  assert (is_dir g parent) as Hd' by by apply Hn.
  eapply leaves_bind with (Q1 := fun r g' => d_random g' = d_random g /\ is_dir g' parent /\
    (r = Ok tt -> exists x, d_nodes g' !! (parent ++ [name]) = Some (NFile x) /\ f_data x = "")).
  - unfold create_exclusive_at. apply leaves_atomic; destruct (d_nodes g !! (parent ++ [name])) eqn:E; try done.
    + by apply neutral_create.
    + cbn. split; [done|]. split.
      { unfold is_dir in *. cbn. rewrite lookup_insert_ne; [exact Hd'|]. intros Heq. rewrite Heq in E. congruence. }
      intros _. eexists. rewrite lookup_insert_eq. by split.
  - intros [[]|e] g1 Hn1 (Hr1 & Hd1 & Hx1).
    + destruct (Hx1 eq_refl) as (x & Hx & Hdata).
      eapply leaves_bind; [apply leaves_assignRevision; [done|by rewrite Hr1|done]|].
      intros [[]|e] g2 _ Hq.
      * destruct (Hq eq_refl) as (b & Hb & Hfresh & Hnode). apply leaves_ret. exists b.
        split; [rewrite Hr1 in Hb; rewrite Hb0; by right|]. split; [done|]. split; [done|]. split; [done|]. by eexists.
      * eapply leaves_bind; [by apply leaves_unlinkat_hidden|]. intros. by apply leaves_ret.
    + destruct (negb _); [by apply leaves_ret|]. eapply leaves_conseq; [apply IH; [done|by rewrite Hr1]|].
      intros [name'|e'] g2 _ Hq; [|done]. destruct Hq as (b & Hb & Ht). exists b. split; [|done].
      rewrite Hr1 in Hb. rewrite Hb0. by right.
Qed.

Lemma leaves_createTemporaryFile f parent key :
  is_dir f parent -> NoDup (map rev_of (d_random f)) ->
  leaves f (createTemporaryFile parent key) (when_ok (fun name g => exists b, b ∈ d_random f /\ is_temp g parent name "" b)).
Proof. apply leaves_create_temporary. Qed.

Lemma leaves_copyAndSync f parent name b reader :
  is_temp f parent name "" b ->
  leaves f (copyAndSync (parent ++ [name]) reader) (when_ok (fun r g =>
    r = (str_len (rd_body reader), sha256Hex (rd_body reader)) /\ is_temp g parent name (rd_body reader) b)).
Proof.
  intros (Hbad & Hsl & Hfresh & x & Hx & Hdata & Hxa).
  assert (hidden (parent ++ [name]) = true) as Hh by by apply hidden_snoc.
  unfold copyAndSync. eapply leaves_do with (Q1 := fun r g => r = Ok tt -> is_temp g parent name (rd_body reader) b).
  - intros o f' [[-> ->]|(n & -> & [->| ->])]%runs_syscall; (split; [by apply neutral_update_hidden|]); [|by intros a [= <-]|done].
    intros a [= <-] _. unfold is_temp. split; [done|]. split; [done|]. unfold update_file. rewrite Hx.
    split; [done|]. exists (add_data (rd_body reader) x). cbn. rewrite lookup_insert_eq, Hdata. done.
  - intros [] g _ Ht. specialize (Ht eq_refl). destruct (rd_err reader); [by apply leaves_ret|].
    eapply leaves_do with (Q1 := fun _ g' => g' = g); [by apply leaves_ctx_err| |done]. intros _ g1 _ ->.
    apply leaves_do_may_fail; [|done]. by apply leaves_ret.
  - done.
Qed.

(** * The store and its abstraction *)

(** The objects of a disk are those of a world, and the revisions still to be drawn are
    new. *)
Record sim (f : disk) (w : world) : Prop := mkSim {
  sm_ok : nodes_ok (d_nodes f);
  sm_wf : wf w;
  sm_objects key : objs w !! key = object_at f key;
  sm_nodup : NoDup (map rev_of (d_random f));
  sm_fresh b : b ∈ d_random f -> hist w !! rev_of b = None }.

Lemma drop_elem_of {A} k (l : list A) x : x ∈ drop k l -> x ∈ l.
Proof. intros H. rewrite <-(take_drop k l). apply elem_of_app. by right. Qed.

Lemma sim_neutral f f' w : sim f w -> neutral f f' -> sim f' w.
Proof.
  intros [Hok Hw Ho Hnd Hf] [Ne1 Ne2 [k Hr] _]. split; [by apply Ne2|done|intros; by rewrite Ne1| |].
  - rewrite Hr. rewrite <-(take_drop k (d_random f)), map_app in Hnd. by apply NoDup_app in Hnd as (_ & _ & ?).
  - intros b Hb. apply Hf. rewrite Hr in Hb. by eapply drop_elem_of.
Qed.

Lemma rev_of_nonempty b : rev_of b <> "".
Proof.
  unfold rev_of, fill. change (zeros revisionSize) with (String "000" (zeros 31)). change revisionSize with (S 31).
  destruct b as [|c b]; [done|]. rewrite str_app_cons. done.
Qed.

Lemma fill_length n b : String.length (fill n b) = n.
Proof.
  unfold fill. assert (forall m s, (m <= String.length s)%nat -> String.length (str_take m s) = m) as Ht.
  { induction m as [|m IH]; intros s Hm; [done|]. destruct s; simpl in *; [lia|]. rewrite IH; lia. }
  apply Ht. rewrite str_length_app. assert (String.length (zeros n) = n) as -> by (induction n; simpl; lia). lia.
Qed.

Lemma temp_object f parent name data b :
  is_temp f parent name data b -> node_object (d_nodes f !! (parent ++ [name])) = Some (mkObject data (rev_of b)).
Proof.
  intros (_ & _ & _ & x & Hx & Hd & Hxa). rewrite Hx. cbn. unfold file_object. rewrite Hxa.
  rewrite fill_length, Nat.eqb_refl. unfold rev_of. by rewrite Hd.
Qed.

(** The rename of a temporary file over a key's path is the store's mutation. *)
Lemma sim_rename f w parent temp name key data b n :
  sim f w -> splitKey key = Ok (parent ++ [name]) -> is_temp f parent temp data b -> hist w !! rev_of b = None ->
  d_nodes f !! (parent ++ [temp]) = Some n -> d_nodes f !! (parent ++ [name]) <> Some NDir -> is_dir f parent ->
  sim (put_node (parent ++ [name]) n (drop_node (parent ++ [temp]) f)) (put_object key data (rev_of b) w).
Proof.
  intros [Hok Hw Ho Hnd Hf] Hk Ht Hfr Hn Hnd' Hdir. pose proof (temp_object _ _ _ _ _ Ht) as Hobj.
  destruct Ht as (Hbad & Hsl & Hnew & x & Hx & _). rewrite Hx in Hn. injection Hn as <-. rewrite Hx in Hobj.
  assert (hidden (parent ++ [temp]) = true) as Hh by by apply hidden_snoc.
  assert (parent ++ [temp] <> parent ++ [name]) as Hne by (intros Heq; apply splitKey_visible in Hk; congruence).
  split.
  - cbn. apply nodes_ok_put.
    + apply nodes_ok_drop; [done|congruence].
    + rewrite lookup_delete_ne; [done|]. intros Heq. rewrite Heq in Hx. unfold is_dir in Hdir. congruence.
    + apply splitKey_no_slash in Hk. apply Forall_app in Hk as [_ Hk]. by inversion Hk.
    + right. by rewrite lookup_delete_ne.
  - apply put_object_wf; [done|]. split; [apply rev_of_nonempty|done].
  - intros k. cbn. destruct (decide (key = k)) as [<-|Hkne].
    + rewrite lookup_insert_eq. unfold object_at. rewrite Hk. cbn. rewrite lookup_insert_eq. by symmetry.
    + rewrite lookup_insert_ne by done. rewrite object_at_put by (intros Hk'; by rewrite (splitKey_inj _ _ _ Hk Hk') in Hkne).
      rewrite object_at_drop by by apply hidden_no_key. apply Ho.
  - done.
  - intros b' Hb'. cbn in *. rewrite lookup_insert_ne; [by apply Hf|]. intros Heq. apply Hnew. rewrite Heq.
    apply list_elem_of_fmap. by exists b'.
Qed.

(** The unlink of a key's file. *)
Lemma sim_unlink f w parent name key :
  sim f w -> splitKey key = Ok (parent ++ [name]) -> d_nodes f !! (parent ++ [name]) <> Some NDir ->
  sim (drop_node (parent ++ [name]) f) (delete_object key w).
Proof.
  intros [Hok Hw Ho Hnd Hf] Hk Hn. split; [by apply nodes_ok_drop|by apply delete_object_wf| |done|done].
  intros k. cbn. destruct (decide (key = k)) as [<-|Hkne].
  - rewrite lookup_delete_eq. unfold object_at. rewrite Hk. cbn. by rewrite lookup_delete_eq.
  - rewrite lookup_delete_ne by done. rewrite object_at_drop by (intros Hk'; by rewrite (splitKey_inj _ _ _ Hk Hk') in Hkne).
    apply Ho.
Qed.

(** * The operations *)
Lemma leaves_run {A B} f (p : io disk A) (k : A -> io disk B) Q1 o f' :
  leaves f p Q1 -> runs (io_bind p k) f o f' ->
  (o = Crashed /\ neutral f f') \/ (exists a g, neutral f g /\ Q1 a g /\ runs (k a) g o f').
Proof.
  intros Hp [[-> H]|(a & g & H1 & H2)]%runs_bind.
  - apply Hp in H as [Hn _]. by left.
  - apply Hp in H1 as [Hn Ha]. right. exists a, g. split; [done|]. split; [by apply Ha|done].
Qed.

Lemma leaves_run_do {A B} f (p : io disk (result A)) (k : A -> io disk (result B)) Q1 o f' :
  leaves f p Q1 ->
  runs (io_bind p (fun r => match r with Ok x => k x | Err e => io_ret (Err e) end)) f o f' ->
  (neutral f f' /\ (o = Crashed \/ exists e, o = Done (Err e) /\ Q1 (Err e) f')) \/
  (exists a g, neutral f g /\ Q1 (Ok a) g /\ runs (k a) g o f').
Proof.
  intros Hp [[-> Hn]|([a|e] & g & Hn & Hq & H)]%(leaves_run _ _ _ _ _ _ Hp).
  - left. split; [done|by left].
  - right. by exists a, g.
  - apply runs_ret in H as [-> ->]. left. split; [done|]. right. by exists e.
Qed.

(** The outcome of a mutation that a crash may cut short: an answer the contract
    allows, whether the caller lives to see it or not. *)
Definition refined {A} (ans : A -> world -> list commit -> Prop) (o : outcome A) (f' : disk) : Prop :=
  exists x w' cs, ans x w' cs /\ sim f' w' /\ (o = Done x \/ o = Crashed).

Lemma refined_same {A} (ans : result A -> world -> list commit -> Prop) f w o f' :
  (forall e, ans (Err e) w []) -> sim f w -> neutral f f' -> (o = Crashed \/ exists e, o = Done (Err e)) -> refined ans o f'.
Proof.
  intros Hans Hs Hn Ho. destruct Ho as [->|[e ->]].
  - exists (Err ErrIO), w, []. split; [apply Hans|]. split; [by eapply sim_neutral|by right].
  - exists (Err e), w, []. split; [apply Hans|]. split; [by eapply sim_neutral|by left].
Qed.

(** Publishing a temporary file: the old state with the file still there, or the new
    object. *)
Definition published_outcome (f : disk) (w : world) (key : string) (obj : object) (o : outcome (result ObjectMeta * bool)) (f' : disk) : Prop :=
  (neutral f f' /\ forall r t, o = Done (r, t) -> t = true /\ exists e, r = Err e) \/
  (sim f' (put_object key (o_body obj) (o_rev obj) w) /\ forall r t, o = Done (r, t) ->
     t = false /\ (r = Err ErrAmbiguous \/ exists m, r = Ok m /\ meta_of key obj m)).

Lemma leaves_published f parent name key o :
  node_object (d_nodes f !! (parent ++ [name])) = Some o ->
  leaves f (Store.published parent name key) (fun r _ => r = Err ErrAmbiguous \/ exists m, r = Ok m /\ meta_of key o m).
Proof.
  intros Ho. unfold Store.published. eapply leaves_bind with (Q1 := fun _ g => g = f); [by apply leaves_may_fail|].
  intros [[]|e] g _ ->; [|apply leaves_ret; by left].
  eapply leaves_bind; [apply leaves_metadataAt|]. intros [m|e] g _ [-> Hm]; apply leaves_ret; [right|by left].
  destruct Hm as (o' & Ho' & Hm). rewrite Ho in Ho'. injection Ho' as <-. by exists m.
Qed.

Lemma publish_spec f w parent temp name key data b o f' :
  sim f w -> splitKey key = Ok (parent ++ [name]) -> is_temp f parent temp data b -> hist w !! rev_of b = None ->
  runs (Store.publish parent temp name key) f o f' -> published_outcome f w key (mkObject data (rev_of b)) o f'.
Proof.
  intros Hs Hk Ht Hfr H. unfold Store.publish in H.
  apply (leaves_run _ _ _ (fun _ g => g = f)) in H as [[-> Hn]|(c & g & _ & -> & H)]; [by left| |by apply leaves_ctx_err].
  assert (forall e, runs (io_ret (Err e, true)) f o f' -> published_outcome f w key (mkObject data (rev_of b)) o f') as Hstop.
  { intros e [-> ->]%runs_ret. left. split; [done|]. intros r t [= <- <-]. split; [done|by eexists]. }
  destruct c as [[]|e]; [|by eapply Hstop].
  pose proof Ht as (Hbad & _ & _ & x & Hx & _).
  assert (is_dir f parent) as Hdir by (destruct Hs as [Hok _ _ _ _]; by eapply Hok).
  set (f1 := put_node (parent ++ [name]) (NFile x) (drop_node (parent ++ [temp]) f)).
  assert (forall o1 g, runs (renameat parent temp name) f o1 g ->
    (o1 = Done (Ok tt) /\ g = f1 /\ sim f1 (put_object key data (rev_of b) w)) \/ (g = f /\ o1 <> Done (Ok tt))) as Hren.
  { intros o1 g [[-> ->]|[-> [->| ->]]]%runs_atomic; [|by right..]. rewrite Hx.
    destruct (decide (d_nodes f !! (parent ++ [name]) = Some NDir)) as [Hd|Hd]; [rewrite Hd; by right|]. left.
    assert (sim f1 (put_object key data (rev_of b) w)) as Hs1 by by eapply sim_rename.
    by destruct (d_nodes f !! (parent ++ [name])) as [[]|]. }
  apply runs_bind in H as [[-> H]|(r & g & H1 & H)].
  { apply Hren in H as [[? _]|[-> _]]; [done|]. by left. }
  destruct (Hren _ _ H1) as [([= ->] & -> & Hs1)|[-> Hr]].
  - right. assert (node_object (d_nodes f1 !! (parent ++ [name])) = Some (mkObject data (rev_of b))) as Hobj.
    { cbn. rewrite lookup_insert_eq. rewrite <-Hx. by apply temp_object. }
    apply (leaves_run _ _ _ _ _ _ (leaves_published _ _ _ key _ Hobj)) in H as [[-> Hn]|(a & g & Hn & Ha & H)].
    + split; [by eapply sim_neutral|done].
    + apply runs_ret in H as [-> ->]. split; [by eapply sim_neutral|]. by intros r t [= <- <-].
  - destruct r as [[]|e]; [done|]. by eapply Hstop.
Qed.

(** The deferred removal of the temporary file. *)
Lemma with_cleanup_spec {A} parent temp (body : io disk (A * bool)) f o f' :
  bad_part temp = true -> runs (Store.with_cleanup parent temp body) f o f' ->
  exists o1 g, runs body f o1 g /\ neutral g f' /\
    (o = Crashed \/ exists r t, o1 = Done (r, t) /\ o = Done r).
Proof.
  intros Hb H. unfold Store.with_cleanup in H. apply runs_bind in H as [[-> H]|([r t] & g & H1 & H)].
  { exists Crashed, f'. split; [done|]. split; [done|by left]. }
  exists (Done (r, t)), g. split; [done|].
  assert (leaves g (_ <~ may_fail; _ <~ (if t then unlinkat parent temp else io_ret (Ok tt)); io_ret r) (fun a _ => a = r)) as Hl.
  { eapply leaves_bind; [by apply leaves_may_fail with (Q := fun _ _ => True)|]. intros _ g1 _ _.
    eapply leaves_bind with (Q1 := fun _ _ => True).
    - destruct t; [by apply leaves_unlinkat_hidden, hidden_snoc|by apply leaves_ret].
    - intros. by apply leaves_ret. }
  apply Hl in H as [Hn Ha]. split; [done|]. destruct o as [a|]; [|by left]. right. exists r, t. split; [done|]. by rewrite (Ha a eq_refl).
Qed.

Lemma condition_of_absent c : Bool.eqb (wc_MustBeAbsent c) (negb (str_eqb (wc_MatchRevision c) "")) = false ->
  str_eqb (wc_MatchRevision c) "" = true -> wc_MustBeAbsent c = true.
Proof. intros H E. rewrite E in H. by destruct (wc_MustBeAbsent c). Qed.

Lemma conditional_body_spec f w parent temp name key body b o f' :
  sim f w -> splitKey key = Ok (parent ++ [name]) -> is_temp f parent temp "" b -> hist w !! rev_of b = None ->
  runs (Store.conditional_body parent temp name key body) f o f' ->
  exists g, neutral f g /\ published_outcome g w key (mkObject body (rev_of b)) o f'.
Proof.
  intros Hs Hk Ht Hfr H. unfold Store.conditional_body in H.
  apply (leaves_run _ _ _ _ _ _ (leaves_copyAndSync _ _ _ _ (mkReader body None None) Ht)) in H as [[-> Hn]|(r & g & Hn & Hq & H)].
  { exists f. split; [done|]. by left. }
  assert (forall h e, neutral f h -> runs (io_ret (Err e, true)) h o f' -> exists g, neutral f g /\ published_outcome g w key (mkObject body (rev_of b)) o f') as Hstop.
  { intros h e Hh [-> ->]%runs_ret. exists h. split; [done|]. left. split; [done|]. intros r' t [= <- <-]. split; [done|by eexists]. }
  destruct r as [[size sum]|e]; [|by eapply Hstop]. destruct Hq as [_ Ht'].
  apply (leaves_run _ _ _ (fun _ h => h = g)) in H as [[-> Hn']|(c & h & _ & -> & H)]; [exists g; split; [done|by left]| |by apply leaves_may_fail].
  destruct c as [[]|e]; [|by eapply Hstop].
  exists g. split; [done|]. eapply publish_spec; [by eapply sim_neutral|done|exact Ht'|done|done].
Qed.

(** From a published temporary file to the answers of a put. *)
Lemma published_refined (ans : result ObjectMeta -> world -> list commit -> Prop) f w key obj parent temp body o f' :
  bad_part temp = true -> sim f w -> (forall e, ans (Err e) w []) ->
  (forall r, (r = Err ErrAmbiguous \/ exists m, r = Ok m /\ meta_of key obj m) -> exists cs, ans r (put_object key (o_body obj) (o_rev obj) w) cs) ->
  (forall o1 g, runs body f o1 g -> exists h, neutral f h /\ published_outcome h w key obj o1 g) ->
  runs (Store.with_cleanup parent temp body) f o f' -> refined ans o f'.
Proof.
  intros Hbad Hs Herr Hput Hbody H. apply with_cleanup_spec in H as (o1 & g & H1 & Hn & Ho); [|done].
  destruct (Hbody _ _ H1) as (h & Hh & [[Hn1 Hr]|[Hs1 Hr]]).
  - eapply refined_same; [done|exact Hs|by etrans; [|etrans]|]. destruct Ho as [->|(r & t & -> & ->)]; [by left|].
    destruct (Hr r t eq_refl) as [_ [e ->]]. right. by exists e.
  - destruct Ho as [->|(r & t & -> & ->)].
    + destruct (Hput (Err ErrAmbiguous) ltac:(by left)) as [cs Hcs]. exists (Err ErrAmbiguous), (put_object key (o_body obj) (o_rev obj) w), cs.
      split; [done|]. split; [by eapply sim_neutral|by right].
    + destruct (Hr r t eq_refl) as [_ Hr']. destruct (Hput r Hr') as [cs Hcs]. exists r, (put_object key (o_body obj) (o_rev obj) w), cs.
      split; [done|]. split; [by eapply sim_neutral|by left].
Qed.

Lemma PutConditional_refines dev ino f w key body c o f' :
  sim f w -> runs (Store.PutConditional dev ino key body c) f o f' -> refined (put_answers key body c w) o f'.
Proof.
  intros Hs H. assert (forall e, put_answers key body c w (Err e) w []) as Herr by constructor.
  assert (forall g o1, sim g w -> (o1 = Crashed \/ exists e, o1 = Done (Err e)) -> refined (put_answers key body c w) o1 g) as Hstop.
  { intros g o1 Hg Ho. by eapply refined_same. }
  unfold Store.PutConditional in H.
  destruct (splitKey key) as [parts|e] eqn:Hk; [|apply runs_ret in H as [-> ->]; apply Hstop; [done|right; by eexists]].
  destruct (Bool.eqb _ _) eqn:Hc; [apply runs_ret in H as [-> ->]; apply Hstop; [done|right; by eexists]|].
  apply (leaves_run_do _ _ _ _ _ _ (leaves_lockKey _ _ _ _ (sm_ok _ _ Hs))) in H as [[Hn Ho]|(_ & g & Hn & _ & H)].
  { apply Hstop; [by eapply sim_neutral|naive_solver]. }
  apply (sim_neutral _ _ _ Hs) in Hn as Hg. clear Hn.
  apply (leaves_run_do _ _ _ _ _ _ (leaves_openParent dev ino _ key true (sm_ok _ _ Hg))) in H as [[Hn Ho]|([parent name] & g1 & Hn & (_ & Hk' & Hdir) & H)].
  { apply Hstop; [by eapply sim_neutral|naive_solver]. }
  apply (sim_neutral _ _ _ Hg) in Hn as Hg1. clear Hn.
  apply (leaves_run_do _ _ _ _ _ _ (leaves_cleanupTemporaryFiles _ parent key)) in H as [[Hn Ho]|(_ & g2 & Hn & _ & H)].
  { apply Hstop; [by eapply sim_neutral|naive_solver]. }
  apply (sim_neutral _ _ _ Hg1) in Hn as Hg2. apply Hn in Hdir. clear Hn.
  apply (leaves_run _ _ _ _ _ _ (leaves_metadataAt _ parent name key)) in H as [[-> Hn]|(current & g3 & _ & [-> Hcur] & H)].
  { apply Hstop; [by eapply sim_neutral|by left]. }
  set (go := do! tempName := createTemporaryFile parent key in _) in H.
  assert (condition_holds c (objs w !! key) -> runs go g2 o f' -> refined (put_answers key body c w) o f') as Hgo.
  { intros Hcond Hrun. unfold go in Hrun.
    apply (leaves_run_do _ _ _ _ _ _ (leaves_createTemporaryFile _ parent key Hdir (sm_nodup _ _ Hg2))) in Hrun as [[Hn Ho]|(temp & g4 & Hn & (b & Hb & Ht) & Hrun)].
    { apply Hstop; [by eapply sim_neutral|naive_solver]. }
    pose proof (sm_fresh _ _ Hg2 b Hb) as Hfr. apply (sim_neutral _ _ _ Hg2) in Hn as Hg4.
    eapply (published_refined _ _ _ key (mkObject body (rev_of b))); [|exact Hg4|done| | |exact Hrun]; [by destruct Ht| |].
    - intros r [->|(m & -> & Hm)]; eexists; [apply put_ambiguous|apply put_ok]; done || by split; [apply rev_of_nonempty|].
    - intros o1 h Hh. by eapply conditional_body_spec. }
  assert (objs w !! key = node_object (d_nodes g2 !! (parent ++ [name]))) as Hobj.
  { rewrite (sm_objects _ _ Hg2). unfold object_at. by rewrite Hk'. }
  unfold condition_holds in Hgo. destruct current as [m|e].
  - destruct Hcur as (obj & Hob & _ & _ & Hrev & _). rewrite Hob in Hobj.
    destruct (wc_MustBeAbsent c); [apply runs_ret in H as [-> ->]; apply Hstop; [done|right; by eexists]|].
    destruct (_ && _) eqn:E in H; [apply runs_ret in H as [-> ->]; apply Hstop; [done|right; by eexists]|].
    apply Hgo; [|done]. exists obj. split; [done|]. rewrite <-Hrev.
    destruct (str_eqb (wc_MatchRevision c) ""); [done|]. cbn in E. by bool_norm.
  - destruct (negb (errors_Is e ErrNotFound)) eqn:E; [apply runs_ret in H as [-> ->]; apply Hstop; [done|right; by eexists]|].
    destruct (negb (str_eqb (wc_MatchRevision c) "")) eqn:E'; [apply runs_ret in H as [-> ->]; apply Hstop; [done|right; by eexists]|].
    bool_norm. apply Hgo; [|done]. rewrite Hobj, (Hcur E). by destruct (wc_MustBeAbsent c).
Qed.

Lemma immutable_body_spec f w parent temp name key source sha size b o f' :
  sim f w -> splitKey key = Ok (parent ++ [name]) -> is_temp f parent temp "" b -> hist w !! rev_of b = None ->
  runs (Store.immutable_body parent temp name key source sha size) f o f' ->
  (neutral f f' /\ forall r t, o = Done (r, t) ->
     (exists e, r = Err e) \/ exists m obj, r = Ok m /\ objs w !! key = Some obj /\ announced sha size (o_body obj) /\ meta_of key obj m) \/
  (exists g body, neutral f g /\ objs w !! key = None /\ announced sha size body /\
     published_outcome g w key (mkObject body (rev_of b)) o f').
Proof.
  intros Hs Hk Ht Hfr H. unfold Store.immutable_body in H.
  assert (forall h e t, neutral f h -> runs (io_ret (Err e, t)) h o f' -> neutral f f' /\ forall r t, o = Done (r, t) ->
     (exists e, r = Err e) \/ exists m obj, r = Ok m /\ objs w !! key = Some obj /\ announced sha size (o_body obj) /\ meta_of key obj m) as Hstop.
  { intros h e t Hh [-> ->]%runs_ret. split; [done|]. intros r' t' [= <- <-]. left. by eexists. }
  destruct source as [reader|e]; [|left; by eapply Hstop].
  apply (leaves_run _ _ _ _ _ _ (leaves_copyAndSync _ _ _ _ reader Ht)) in H as [[-> Hn]|(r & g & Hn & Hq & H)]; [by left|].
  destruct r as [[n sum]|e]; [|left; by eapply Hstop]. destruct Hq as [[= -> ->] Ht'].
  destruct (rd_close reader) as [e|]; [left; by eapply Hstop|].
  apply (leaves_run _ _ _ (fun _ h => h = g)) in H as [[-> Hn']|(c & h & _ & -> & H)]; [left; split; [by etrans|done]| |by apply leaves_may_fail].
  destruct c as [[]|e]; [|left; by eapply Hstop].
  destruct (negb (str_len (rd_body reader) =? size) || _) eqn:Ei; [left; by eapply Hstop|].
  assert (announced sha size (rd_body reader)) as Hann by (bool_norm; done).
  apply (leaves_run _ _ _ _ _ _ (leaves_metadataAt _ parent name key)) in H as [[-> Hn']|(cur & h & _ & [-> Hcur] & H)]; [left; split; [by etrans|done]|].
  assert (sim g w) as Hg by by eapply sim_neutral.
  assert (objs w !! key = node_object (d_nodes g !! (parent ++ [name]))) as Hobj by (rewrite (sm_objects _ _ Hg); unfold object_at; by rewrite Hk).
  destruct cur as [m|e].
  - left. destruct Hcur as (obj & Hob & Hm). rewrite Hob in Hobj. destruct (_ && _) eqn:Es in H; [|by eapply Hstop].
    assert (bad_part temp = true) as Hbad by by destruct Ht.
    apply (leaves_run _ _ _ _ _ _ (leaves_unlinkat_hidden _ parent temp (hidden_snoc _ _ Hbad))) in H as [[-> Hn']|(r & h & Hn' & _ & H)].
    { split; [by etrans|done]. }
    destruct r as [[]|e]; [|eapply Hstop; [by etrans|done]]. apply runs_ret in H as [-> ->]. split; [by etrans|].
    intros r t [= <- <-]. right. exists m, obj. split; [done|]. split; [done|]. split; [|done].
    bool_norm. destruct Hm as (_ & Hsz & _ & [Hsha|Hsha]).
    + exfalso. rewrite Hsha in *. destruct Hann as [Hann _]. pose proof (sha256Hex_digits (rd_body reader)) as [_ Hlen]. subst sha.
      match goal with Hx : "" = _ |- _ => rewrite <-Hx in Hlen end. done.
    + split; congruence.
  - destruct (negb (errors_Is e ErrNotFound)) eqn:E; [left; by eapply Hstop|]. bool_norm. right.
    exists g, (rd_body reader). split; [done|]. split; [by rewrite Hobj, (Hcur E)|]. split; [done|]. by eapply publish_spec.
Qed.

Lemma PutImmutable_refines dev ino f w key source sha size o f' :
  sim f w -> runs (Store.PutImmutable dev ino key source sha size) f o f' -> refined (immutable_answers key sha size w) o f'.
Proof.
  intros Hs H. assert (forall e, immutable_answers key sha size w (Err e) w []) as Herr by constructor.
  assert (forall g o1, sim g w -> (o1 = Crashed \/ exists e, o1 = Done (Err e)) -> refined (immutable_answers key sha size w) o1 g) as Hstop.
  { intros g o1 Hg Ho. by eapply refined_same. }
  unfold Store.PutImmutable in H.
  destruct (splitKey key) as [parts|e] eqn:Hk; [|apply runs_ret in H as [-> ->]; apply Hstop; [done|right; by eexists]].
  destruct (_ || _); [apply runs_ret in H as [-> ->]; apply Hstop; [done|right; by eexists]|].
  apply (leaves_run_do _ _ _ _ _ _ (leaves_lockKey _ _ _ _ (sm_ok _ _ Hs))) in H as [[Hn Ho]|(_ & g & Hn & _ & H)].
  { apply Hstop; [by eapply sim_neutral|naive_solver]. }
  apply (sim_neutral _ _ _ Hs) in Hn as Hg. clear Hn.
  apply (leaves_run_do _ _ _ _ _ _ (leaves_openParent dev ino _ key true (sm_ok _ _ Hg))) in H as [[Hn Ho]|([parent name] & g1 & Hn & (_ & Hk' & Hdir) & H)].
  { apply Hstop; [by eapply sim_neutral|naive_solver]. }
  apply (sim_neutral _ _ _ Hg) in Hn as Hg1. clear Hn.
  apply (leaves_run_do _ _ _ _ _ _ (leaves_cleanupTemporaryFiles _ parent key)) in H as [[Hn Ho]|(_ & g2 & Hn & _ & H)].
  { apply Hstop; [by eapply sim_neutral|naive_solver]. }
  apply (sim_neutral _ _ _ Hg1) in Hn as Hg2. apply Hn in Hdir. clear Hn.
  apply (leaves_run_do _ _ _ _ _ _ (leaves_createTemporaryFile _ parent key Hdir (sm_nodup _ _ Hg2))) in H as [[Hn Ho]|(temp & g4 & Hn & (b & Hb & Ht) & H)].
  { apply Hstop; [by eapply sim_neutral|naive_solver]. }
  pose proof (sm_fresh _ _ Hg2 b Hb) as Hfr. apply (sim_neutral _ _ _ Hg2) in Hn as Hg4.
  apply with_cleanup_spec in H as (o1 & g5 & H1 & Hn5 & Ho); [|by destruct Ht].
  destruct (immutable_body_spec _ _ _ _ _ _ _ _ _ _ _ _ Hg4 Hk' Ht Hfr H1) as [[Hn1 Hr]|(h & body & Hh & Habs & Hann & Hpub)].
  - destruct Ho as [->|(r & t & -> & ->)]; [eapply refined_same; [done|exact Hg4|by etrans|by left]|].
    destruct (Hr r t eq_refl) as [[e ->]|(m & obj & -> & Hob & Hann & Hm)].
    + eapply refined_same; [done|exact Hg4|by etrans|right; by exists e].
    + exists (Ok m), w, []. split; [by eapply immutable_same|]. split; [|by left]. eapply sim_neutral; [exact Hg4|by etrans].
  - assert (forall r, (r = Err ErrAmbiguous \/ exists m, r = Ok m /\ meta_of key (mkObject body (rev_of b)) m) ->
      immutable_answers key sha size w r (put_object key body (rev_of b) w) [mkCommit key None (Some (mkObject body (rev_of b)))]) as Hans.
    { intros r [->|(m & -> & Hm)]; [apply immutable_ambiguous|apply immutable_new]; done || by split; [apply rev_of_nonempty|]. }
    destruct Hpub as [[Hn1 Hr]|[Hs1 Hr]].
    + eapply refined_same; [done|exact Hg4|by etrans; [|etrans]|]. destruct Ho as [->|(r & t & -> & ->)]; [by left|].
      destruct (Hr r t eq_refl) as [_ [e ->]]. right. by exists e.
    + destruct Ho as [->|(r & t & -> & ->)].
      * eexists _, _, _. split; [apply (Hans (Err ErrAmbiguous)); by left|]. split; [by eapply sim_neutral|by right].
      * destruct (Hr r t eq_refl) as [_ Hr']. eexists _, _, _. split; [by apply Hans|]. split; [by eapply sim_neutral|by left].
Qed.

Lemma DeleteConditional_refines dev ino f w key rev o f' :
  sim f w -> runs (Store.DeleteConditional dev ino key rev) f o f' -> refined (delete_answers key rev w) o f'.
Proof.
  intros Hs H. assert (forall e, delete_answers key rev w (Err e) w []) as Herr by constructor.
  assert (forall g o1, sim g w -> (o1 = Crashed \/ exists e, o1 = Done (Err e)) -> refined (delete_answers key rev w) o1 g) as Hstop.
  { intros g o1 Hg Ho. by eapply refined_same. }
  unfold Store.DeleteConditional in H.
  destruct (splitKey key) as [parts|e] eqn:Hk; [|apply runs_ret in H as [-> ->]; apply Hstop; [done|right; by eexists]].
  destruct (str_eqb rev "") eqn:Hc; [apply runs_ret in H as [-> ->]; apply Hstop; [done|right; by eexists]|].
  apply (leaves_run_do _ _ _ _ _ _ (leaves_lockKey _ _ _ _ (sm_ok _ _ Hs))) in H as [[Hn Ho]|(_ & g & Hn & _ & H)].
  { apply Hstop; [by eapply sim_neutral|naive_solver]. }
  apply (sim_neutral _ _ _ Hs) in Hn as Hg. clear Hn.
  apply (leaves_run_do _ _ _ _ _ _ (leaves_openParent dev ino _ key false (sm_ok _ _ Hg))) in H as [[Hn Ho]|([parent name] & g1 & _ & (Hsame & Hk' & Hdir) & H)].
  { apply Hstop; [by eapply sim_neutral|naive_solver]. }
  rewrite (Hsame eq_refl) in *. clear Hsame g1.
  apply (leaves_run_do _ _ _ _ _ _ (leaves_metadataAt _ parent name key)) in H as [[Hn Ho]|(m & g1 & _ & (-> & obj & Hob & _ & _ & Hrev & _) & H)].
  { apply Hstop; [by eapply sim_neutral|naive_solver]. }
  destruct (negb (str_eqb (om_Revision m) rev)) eqn:E; [apply runs_ret in H as [-> ->]; apply Hstop; [done|right; by eexists]|]. bool_norm.
  apply (leaves_run_do _ _ _ (fun _ h => h = g)) in H as [[Hn Ho]|(_ & g1 & _ & -> & H)]; [apply Hstop; [by eapply sim_neutral|naive_solver]| |by apply leaves_ctx_err].
  assert (objs w !! key = Some obj) as Hobj by (rewrite (sm_objects _ _ Hg); unfold object_at; by rewrite Hk').
  destruct (d_nodes g !! (parent ++ [name])) as [[|x| |]|] eqn:Hx; try done.
  assert (sim (drop_node (parent ++ [name]) g) (delete_object key w)) as Hs' by (apply sim_unlink; [done|done|congruence]).
  assert (forall o1 h, runs (unlinkat parent name) g o1 h ->
    (o1 = Done (Ok tt) /\ h = drop_node (parent ++ [name]) g) \/ (h = g /\ o1 <> Done (Ok tt))) as Hun.
  { intros o1 h [[-> ->]|[-> [->| ->]]]%runs_atomic; [|by right..]. rewrite Hx. by left. }
  apply runs_bind in H as [[-> H]|(r & h & H1 & H)].
  { apply Hun in H as [[? _]|[-> _]]; [done|]. apply Hstop; [done|by left]. }
  destruct (Hun _ _ H1) as [[[= ->] ->]|[-> Hr]].
  - apply (leaves_run _ _ _ (fun _ _ => True)) in H as [[-> Hn]|(s & h & Hn & _ & H)]; [| |by apply leaves_may_fail].
    + exists (Ok tt), (delete_object key w), [mkCommit key (Some obj) None]. split; [by apply delete_ok; [|congruence]|].
      split; [by eapply sim_neutral|by right].
    + destruct s as [[]|e]; apply runs_ret in H as [-> ->].
      * exists (Ok tt), (delete_object key w), [mkCommit key (Some obj) None]. split; [by apply delete_ok; [|congruence]|].
        split; [by eapply sim_neutral|by left].
      * exists (Err ErrAmbiguous), (delete_object key w), [mkCommit key (Some obj) None].
        split; [by apply delete_ambiguous; [done|done|congruence]|]. split; [by eapply sim_neutral|by left].
  - destruct r as [[]|e]; [done|]. apply runs_ret in H as [-> ->]. apply Hstop; [done|right; by eexists].
Qed.

(** Reading never changes the disk, and an error that says an object is missing is true. *)
Lemma leaves_Get dev ino f key :
  nodes_ok (d_nodes f) ->
  leaves f (Store.Get dev ino key) (fun r g => g = f /\
    match r with
    | Ok (rd, m) => exists o, object_at f key = Some o /\ ObjectStore.reads o rd /\ meta_of key o m
    | Err e => errors_Is e ErrNotFound = true -> object_at f key = None
    end).
Proof.
  intros Hok. unfold Store.Get.
  eapply leaves_do with (Q1 := fun r g => g = f /\ match r with Err e => errors_Is e ErrNotFound = false | Ok _ => True end).
  { apply leaves_reads; [auto with camp|]. intros [[]|e] Hr; [done|]. split; [done|].
    destruct Hr as (s & s' & Hr & _). unfold ctx_err in Hr. destruct (may_fail s) as [[[[]|e']|] s1]; [done| |done].
    by injection Hr as <- _. }
  2: { intros e g _ [-> He]. split; [done|congruence]. }
  intros [] g _ [-> _]. destruct (splitKey key) as [parts|e] eqn:Hk.
  2: { apply leaves_ret. split; [done|]. intros _. unfold object_at. by rewrite Hk. }
  eapply leaves_do; [by apply leaves_openParent| |].
  2: { intros e g _ [Hg He]. split; [by apply Hg|by apply He]. }
  intros [parent name] g _ (Hg & Hk' & _). rewrite (Hg eq_refl). clear g Hg.
  assert (object_at f key = node_object (d_nodes f !! (parent ++ [name]))) as Hobj by (unfold object_at; by rewrite Hk').
  eapply leaves_do; [apply leaves_openRegularAt| |].
  2: { intros e g _ [-> He]. split; [done|]. intros Hnf. by rewrite Hobj, (He Hnf). }
  intros x g _ [-> Hx]. eapply leaves_do; [apply leaves_metadataFromFile| |].
  2: { intros e g _ [-> He]. split; [done|congruence]. }
  intros m g _ (-> & o & Ho & Hm).
  assert (forall (r : result unit), not_missing (Store.failure r) <-> match r with Err e => errors_Is e ErrNotFound = false | Ok _ => True end) as Hfail by (by intros [[]|e]).
  do 2 (eapply leaves_bind with (Q1 := fun r g => g = f /\ not_missing (Store.failure r)); [by apply leaves_inspect|]; intros ? ? _ [-> ?]).
  apply leaves_ret. split; [done|]. exists o. rewrite Hobj, Hx. split; [done|]. split; [|done].
  split; [|done]. cbn. intros _. unfold file_object in Ho. destruct (f_xattr x); [|done].
  destruct (Nat.eqb _ _); [|done]. by injection Ho as <-.
Qed.

Lemma Get_refines dev ino f w key o f' :
  sim f w -> runs (Store.Get dev ino key) f o f' -> refined (get_answers key w) o f'.
Proof.
  intros Hs H. destruct (leaves_Get dev ino f key (sm_ok _ _ Hs) _ _ H) as [Hn Hq]. destruct o as [r|].
  - destruct (Hq r eq_refl) as [-> Hr]. exists r, w, []. split; [|split; [done|by left]].
    destruct r as [[rd m]|e]; [destruct Hr as (ob & Hob & Hrd & Hm)|]; econstructor; rewrite ?(sm_objects _ _ Hs); done.
  - exists (Err ErrIO), w, []. split; [by constructor|]. split; [by eapply sim_neutral|by right].
Qed.

Lemma Head_refines dev ino f w key o f' :
  sim f w -> runs (Store.Head dev ino key) f o f' -> refined (head_answers key w) o f'.
Proof.
  intros Hs H. unfold Store.Head in H.
  apply (leaves_run_do _ _ _ _ _ _ (leaves_Get dev ino f key (sm_ok _ _ Hs))) in H as [[Hn [->|(e & -> & -> & He)]]|([rd m] & g & _ & (-> & ob & Hob & Hrd & Hm) & H)].
  - exists (Err ErrIO), w, []. split; [by constructor|]. split; [by eapply sim_neutral|by right].
  - exists (Err e), w, []. split; [constructor; by rewrite (sm_objects _ _ Hs)|]. split; [done|by left].
  - destruct (rd_close rd) as [e|] eqn:Ec; apply runs_ret in H as [-> ->].
    + exists (Err e), w, []. split; [|split; [done|by left]]. constructor. intros Hnf.
      destruct Hrd as (_ & _ & Hc). rewrite Ec in Hc. cbn in Hc. congruence.
    + exists (Ok m), w, []. split; [|split; [done|by left]]. econstructor; [by rewrite (sm_objects _ _ Hs)|done].
Qed.

(** ** Listing *)

(** An entry of a listing: the metadata of an object that is there. *)
Definition listed (f : disk) (m : ObjectMeta) : Prop :=
  exists o, object_at f (om_Key m) = Some o /\ meta_of (om_Key m) o m.

Lemma entries_no_slash f dir name : nodes_ok (d_nodes f) -> name ∈ entries dir f -> no_slash name = true.
Proof.
  intros (_ & _ & Hs) Hin. unfold entries in Hin. rewrite sort_slice_perm in Hin.
  apply list_elem_of_omap in Hin as ([p n] & Hin%elem_of_map_to_list & Hc). unfold child_name in Hc. cbn in Hc.
  destruct (last p) as [x|] eqn:El; [|done]. destruct (bool_decide (p = dir ++ [x])) eqn:E; [|done]. injection Hc as <-.
  bool_norm. subst p. apply Hs in Hin. apply Forall_app in Hin as [_ Hin]. by inversion Hin.
Qed.

Lemma leaves_walk_entries walk f dir prefix root names : forall out,
  (prefix = "" /\ dir = []) \/ splitKey prefix = Ok dir ->
  Forall (fun name => no_slash name = true) names -> Forall (listed f) out ->
  (forall d key out, splitKey key = Ok d -> Forall (listed f) out ->
     leaves f (walk d key out) (fun r g => g = f /\ forall l, r = Ok l -> Forall (listed f) l)) ->
  leaves f (walk_entries walk dir prefix root names out) (fun r g => g = f /\ forall l, r = Ok l -> Forall (listed f) l).
Proof.
  induction names as [|name names IH]; intros out Hdir Hs Hout Hwalk; cbn [walk_entries].
  { apply leaves_ret. split; [done|]. by intros ? [= <-]. }
  apply Forall_cons in Hs as [Hn Hs].
  eapply leaves_do with (Q1 := fun _ g => g = f); [by apply leaves_ctx_err| |by intros; subst].
  intros _ g _ ->. destruct (_ && _); [by apply IH|]. destruct (HasPrefix name tempPrefix); [by apply IH|].
  destruct (negb (is_ok (splitKey (child_key prefix name)))) eqn:Ek; [by apply leaves_ret|]. apply negb_false_iff in Ek.
  pose proof (splitKey_child _ _ _ _ Hdir Hn Ek eq_refl) as Hk.
  eapply leaves_bind with (Q1 := fun r g => g = f /\ forall n, r = Ok n -> d_nodes f !! (dir ++ [name]) = Some n).
  { apply leaves_inspect; [|done]. split; [done|]. destruct (d_nodes f !! (dir ++ [name])) as [[]|] eqn:E; intros n [= <-]; done. }
  intros [n|e] g _ [-> Hnode]; [|by apply leaves_ret]. specialize (Hnode n eq_refl).
  apply leaves_do_may_fail; [|done]. destruct n as [|x| |]; [| |by apply leaves_ret..].
  - eapply leaves_do; [by apply Hwalk| |].
    + intros out' g _ [-> Ho]. apply IH; [done|done|by apply Ho|done].
    + by intros e g _ [-> _].
  - eapply leaves_bind; [apply leaves_metadataFromFile|]. intros meta g _ [-> Hm].
    eapply leaves_bind with (Q1 := fun _ g => g = f); [by apply leaves_may_fail|]. intros closed g _ ->.
    destruct meta as [m|e]; [|by apply leaves_ret]. destruct closed as [[]|e]; [|by apply leaves_ret].
    apply IH; [done|done| |done]. apply Forall_app. split; [done|]. constructor; [|done].
    destruct Hm as (o & Ho & Hm). exists o. pose proof Hm as (Hkey & _). rewrite Hkey. split; [|by rewrite <-Hkey in Hm |- *].
    unfold object_at. by rewrite Hk, Hnode.
Qed.

Lemma leaves_walkDirectory f depth : forall dir prefix root out,
  nodes_ok (d_nodes f) -> (prefix = "" /\ dir = []) \/ splitKey prefix = Ok dir -> Forall (listed f) out ->
  leaves f (walkDirectory depth dir prefix root out) (fun r g => g = f /\ forall l, r = Ok l -> Forall (listed f) l).
Proof.
  induction depth as [|depth IH]; intros dir prefix root out Hok Hdir Hout; cbn [walkDirectory]; [by apply leaves_ret|].
  eapply leaves_do with (Q1 := fun _ g => g = f); [by apply leaves_ctx_err| |by intros; subst]. intros _ g _ ->.
  apply leaves_do_may_fail; [|done]. eapply leaves_do; [apply leaves_ReadDir| |by intros e g _ [-> _]].
  intros names g _ [-> Hn]. rewrite (Hn names eq_refl). apply leaves_walk_entries; [done| |done|].
  - apply Forall_forall. intros name. by apply entries_no_slash.
  - intros d key out' Hd Hout'. apply IH; [done|by right|done].
Qed.

Lemma search_subset {A} (p : A -> bool) l x : x ∈ search p l -> x ∈ l.
Proof. induction l as [|y l IH]; cbn [search]; [done|]. destruct (p y); [done|]. intros H. right. by apply IH. Qed.

Lemma page_items prefix cursor all m :
  m ∈ (page prefix cursor all).1 -> m ∈ all /\ HasPrefix (om_Key m) prefix = true.
Proof.
  assert (m ∈ take listPageSize (with_prefix prefix (after cursor all)) -> m ∈ all /\ HasPrefix (om_Key m) prefix = true) as H.
  { intros Hin. assert (m ∈ with_prefix prefix (after cursor all)) as Hin' by (rewrite <-(take_drop listPageSize (with_prefix _ _)); apply elem_of_app; by left).
    apply list_elem_of_filter in Hin' as [Hp Ha]. split; [by eapply search_subset|done]. }
  unfold page. destruct (List.last _ _) as [l|]; [|by intros ?%elem_of_nil].
  by destruct (with_prefix prefix (after (om_Key l) all)).
Qed.

Lemma List_refines dev ino f w prefix token o f' :
  sim f w -> runs (Store.List dev ino prefix token) f o f' -> refined (list_answers prefix w) o f'.
Proof.
  intros Hs H. assert (forall e, list_answers prefix w (Err e) w []) as Herr by constructor.
  unfold Store.List in H.
  destruct (validatePrefix prefix); [|apply runs_ret in H as [-> ->]; eapply refined_same; [done|done|done|right; by eexists]].
  destruct (decodePageToken token prefix) as [cursor|]; [|apply runs_ret in H as [-> ->]; eapply refined_same; [done|done|done|right; by eexists]].
  apply (leaves_run_do _ _ _ _ _ _ (leaves_openRoot dev ino _ (sm_ok _ _ Hs))) in H as [[Hn Ho]|(fd & g & _ & (-> & -> & _) & H)].
  { eapply refined_same; [done|done|done|naive_solver]. }
  apply runs_bind in H as [[_ (s & s' & H' & _)]|(depth & g & Hd & H)]; [done|].
  destruct Hd as (s & s' & [= <- <-] & Hg & Hg').
  assert (g = f) as -> by congruence. rewrite Hg in H. clear Hg Hg' s.
  apply (leaves_run_do _ _ _ _ _ _ (leaves_walkDirectory f _ [] "" true [] (sm_ok _ _ Hs) ltac:(by left) ltac:(constructor))) in H
    as [[Hn Ho]|(all & g & _ & [-> Hall] & H)].
  { eapply refined_same; [done|done|done|naive_solver]. }
  specialize (Hall all eq_refl). set (sorted := sort_slice _ _) in H.
  assert (forall items next, (forall m, m ∈ items -> m ∈ (page prefix cursor sorted).1) -> list_answers prefix w (Ok (items, next)) w []) as Hans.
  { intros items next Hin. constructor. apply Forall_forall. intros m Hm. apply Hin, page_items in Hm as [Hm Hp].
    split; [done|]. unfold sorted in Hm. rewrite sort_slice_perm in Hm. rewrite Forall_forall in Hall. apply Hall in Hm as (ob & Hob & Hmeta).
    exists ob. by rewrite (sm_objects _ _ Hs). }
  destruct (page prefix cursor sorted) as [items [last|]] eqn:Ep.
  - destruct (encodePageToken prefix last) as [next|e]; apply runs_ret in H as [-> ->].
    + exists (Ok (items, next)), w, []. split; [by apply Hans|]. split; [done|by left].
    + eapply refined_same; [done|done|done|right; by eexists].
  - apply runs_ret in H as [-> ->]. exists (Ok (items, "")), w, []. split; [by apply Hans|]. split; [done|by left].
Qed.

(** C2: the file backend implements the object store port, whatever fails.  From a disk
    that stands for a world, every call the port has, under every schedule of failing
    system calls and every crash point, ends in a disk that stands for a world the
    port's contract allows, with an answer the contract allows in it; a crash is one of
    these answers that the caller does not see.  So every write, delete and listing is
    atomic, revisions are never reused, and no temporary or lock file is ever an
    object. *)
Theorem filebackend_refines {X} (e : storeE X) root dev ino f w o f' :
  sim f w -> runs (Store.perform root dev ino e) f o f' ->
  exists x w' cs, answers e w x w' cs /\ sim f' w' /\ (o = Done x \/ o = Crashed).
Proof.
  intros Hs H. destruct e; cbn [Store.perform answers] in *.
  - by eapply Get_refines.
  - by eapply Head_refines.
  - by eapply PutImmutable_refines.
  - by eapply PutConditional_refines.
  - by eapply DeleteConditional_refines.
  - by eapply List_refines.
  - assert (leaves f (r <~ Store.SourceIdentity root dev ino key; io_ret (Some r)) (fun _ _ => True)) as Hl.
    { eapply leaves_bind with (Q1 := fun _ _ => True); [|by intros; apply leaves_ret]. unfold Store.SourceIdentity.
      eapply leaves_do; [by apply leaves_openParent, Hs| |done]. intros [parent name] g Hn _.
      eapply leaves_do; [apply leaves_openRegularAt| |done]. intros x g1 _ _.
      eapply leaves_do; [apply leaves_metadataFromFile| |done]. intros m g2 _ _.
      apply leaves_do_may_fail; [|done]. by apply leaves_ret. }
    apply Hl in H as [Hn _]. destruct o as [x|]; [exists x|exists None]; exists w, []; (split; [done|]); (split; [by eapply sim_neutral|]); [by left|by right].
  - assert (leaves f (r <~ ctx_err; io_ret (Store.failure r)) (fun _ _ => True)) as Hl.
    { eapply leaves_bind with (Q1 := fun _ _ => True); [by apply leaves_ctx_err|by intros; apply leaves_ret]. }
    apply Hl in H as [Hn _]. destruct o as [x|]; [exists x|exists None]; exists w, []; (split; [done|]); (split; [by eapply sim_neutral|]); [by left|by right].
Qed.

(** * A disk the theorems apply to *)
Definition sample_disk : disk := mkDisk (Some (1, 2)) {[ [] := NDir ]} (utc 1000) 7 ["a"; "b"; "c"; "d"].
Definition sample_world : world := mkWorld ∅ ∅.

Lemma sample_nodes_ok : nodes_ok (d_nodes sample_disk).
Proof.
  unfold sample_disk, nodes_ok. cbn [d_nodes]. split; [done|]. split.
  - intros p name n [H _]%lookup_singleton_Some. by destruct p.
  - intros p n [<- _]%lookup_singleton_Some. constructor.
Qed.

Lemma sample_sim : sim sample_disk sample_world.
Proof.
  split; [exact sample_nodes_ok|done| |..].
  - intros key. unfold object_at. destruct (splitKey key) as [parts|] eqn:E; [|done].
    cbn [d_nodes sample_disk]. rewrite lookup_singleton_ne; [done|]. intros <-. by apply splitKey_nonempty in E.
  - apply (bool_decide_unpack _). by vm_compute.
  - done.
Qed.

Definition sample_put : storeE (result ObjectMeta) :=
  PutConditional "camp/main/latest.json" "body" (mkWriteCondition true "").

Lemma filebackend_refines_witness :
  exists m w' cs, answers sample_put sample_world m w' cs /\
    sim (s_fs (Store.perform "/store" 1 2 sample_put (calm sample_disk [])).2) w' /\
    ((Store.perform "/store" 1 2 sample_put (calm sample_disk [])).1 = Done m \/
     (Store.perform "/store" 1 2 sample_put (calm sample_disk [])).1 = Crashed).
Proof.
  apply (filebackend_refines sample_put "/store" 1 2 sample_disk sample_world); [exact sample_sim|].
  exact (runs_calm (Store.perform "/store" 1 2 sample_put) sample_disk []).
Defined.
