(* ===== verification/FileBackendListing.v ===== *)
(** What filebackend.Store.List finds (adapters/filebackend/store.go): every object, in
    the order of the keys, a page at a time without gaps; and its page tokens. *)
From S2P Require Import Prelude Sha256 GoTime Json Codec JsonLines Regexp Domain Paths ObjectStore Effects Base64 FileBackend FileBackendRefinement.

(** * The walk *)

(** The keys of the objects below a directory. *)
Definition below (f : disk) (dir : list string) (key : string) (rest : list string) : Prop :=
  rest <> [] /\ splitKey key = Ok (dir ++ rest) /\ is_Some (node_object (d_nodes f !! (dir ++ rest))).

Lemma entries_complete f dir name n : d_nodes f !! (dir ++ [name]) = Some n -> name ∈ entries dir f.
Proof.
  intros H. unfold entries. rewrite sort_slice_perm. apply list_elem_of_omap. exists (dir ++ [name], n).
  split; [by apply elem_of_map_to_list|]. unfold child_name. cbn. rewrite last_snoc. by rewrite bool_decide_true.
Qed.

Lemma bad_part_lock : bad_part lockDirectory = true.
Proof. done. Qed.

Lemma hidden_mid dir name rest : bad_part name = true -> hidden (dir ++ name :: rest) = true.
Proof. intros H. unfold hidden. rewrite existsb_app. cbn. rewrite H. by rewrite orb_true_r. Qed.

(** What a walk has to find: [out] is kept and every key of [found] is there. *)
Definition walked (f : disk) (out : list ObjectMeta) (found : string -> Prop) (r : result (list ObjectMeta)) (g : disk) : Prop :=
  g = f /\ forall l, r = Ok l -> (forall m, m ∈ out -> m ∈ l) /\ forall key, found key -> key ∈ map om_Key l.

Lemma walk_entries_complete walk f dir prefix root names : forall out,
  nodes_ok (d_nodes f) ->
  (prefix = "" /\ dir = []) \/ splitKey prefix = Ok dir -> Forall (fun name => no_slash name = true) names ->
  (forall d key out, splitKey key = Ok d ->
     leaves f (walk d key out) (walked f out (fun k => exists rest, below f d k rest))) ->
  leaves f (walk_entries walk dir prefix root names out)
    (walked f out (fun k => exists name rest, name ∈ names /\ below f dir k (name :: rest))).
Proof.
  induction names as [|name names IH]; intros out Hok Hdir Hs Hwalk; cbn [walk_entries].
  { apply leaves_ret. split; [done|]. intros ? [= <-]. split; [done|]. by intros key (name & rest & ?%elem_of_nil & _). }
  apply Forall_cons in Hs as [Hn Hs].
  assert (forall out', leaves f (walk_entries walk dir prefix root names out')
    (walked f out' (fun k => exists name rest, name ∈ names /\ below f dir k (name :: rest)))) as Hrest by (intros; by apply IH).
  (* an entry no key goes through *)
  assert (forall out', bad_part name = true -> leaves f (walk_entries walk dir prefix root names out')
    (walked f out' (fun k => exists name' rest, name' ∈ name :: names /\ below f dir k (name' :: rest)))) as Hskip.
  { intros out' Hbad. eapply leaves_conseq; [apply Hrest|]. intros r g _ [-> Hr]. split; [done|]. intros l Hl.
    destruct (Hr l Hl) as [Ho Hk]. split; [done|]. intros key (name' & rest & [->|Hin]%elem_of_cons & Hb); [|by apply Hk; exists name', rest].
    destruct Hb as (_ & Hkey%splitKey_visible & _). by rewrite hidden_mid in Hkey. }
  eapply leaves_do with (Q1 := fun _ g => g = f); [by apply leaves_ctx_err| |by intros; subst; split].
  intros _ g _ ->. destruct (root && str_eqb name lockDirectory) eqn:El.
  { apply Hskip. apply andb_true_iff in El as [_ El]. apply str_eqb_eq in El as ->. apply bad_part_lock. }
  destruct (HasPrefix name tempPrefix) eqn:Et; [apply Hskip; unfold bad_part; by rewrite Et, orb_true_r|].
  destruct (negb (is_ok (splitKey (child_key prefix name)))) eqn:Ek; [by apply leaves_ret|]. apply negb_false_iff in Ek.
  pose proof (splitKey_child _ _ _ _ Hdir Hn Ek eq_refl) as Hk.
  eapply leaves_bind with (Q1 := fun r g => g = f /\ forall n, r = Ok n -> d_nodes f !! (dir ++ [name]) = Some n).
  { apply leaves_inspect; [|done]. split; [done|]. destruct (d_nodes f !! (dir ++ [name])) as [[]|] eqn:E; intros n [= <-]; done. }
  intros [n|e] g _ [-> Hnode]; [|by apply leaves_ret]. specialize (Hnode n eq_refl).
  apply leaves_do_may_fail; [|done].
  (* what is found below this entry, then the rest *)
  assert (forall out', (forall m, m ∈ out -> m ∈ out') ->
    (forall key rest, below f dir key (name :: rest) -> key ∈ map om_Key out') ->
    leaves f (walk_entries walk dir prefix root names out')
      (walked f out (fun k => exists name' rest, name' ∈ name :: names /\ below f dir k (name' :: rest)))) as Hgo.
  { intros out' Hout' Hfound. eapply leaves_conseq; [apply Hrest|]. intros r g _ [-> Hr]. split; [done|]. intros l Hl.
    destruct (Hr l Hl) as [Ho Hkeys]. split; [intros m Hm; by apply Ho, Hout'|].
    intros key (name' & rest & [->|Hin]%elem_of_cons & Hb); [|by apply Hkeys; exists name', rest].
    apply Hfound in Hb. apply list_elem_of_fmap in Hb as (m & -> & Hm). apply list_elem_of_fmap. exists m. split; [done|by apply Ho]. }
  destruct n as [|x| |]; [| |by apply leaves_ret..].
  - eapply leaves_do; [by apply Hwalk| |by intros e g _ [-> _]]. intros out' g _ [-> Ho]. destruct (Ho out' eq_refl) as [Hout' Hfound].
    apply Hgo; [done|]. intros key rest (_ & Hkey & Hobj). apply Hfound. exists rest.
    change (name :: rest) with ([name] ++ rest) in *. rewrite app_assoc in *. split; [|done].
    intros ->. rewrite app_nil_r, Hnode in Hobj. by destruct Hobj.
  - eapply leaves_bind; [apply leaves_metadataFromFile|]. intros meta g _ [-> Hm].
    eapply leaves_bind with (Q1 := fun _ g => g = f); [by apply leaves_may_fail|]. intros closed g _ ->.
    destruct meta as [m|e]; [|by apply leaves_ret]. destruct closed as [[]|e]; [|by apply leaves_ret].
    destruct Hm as (o & Ho & Hmk & _). apply Hgo; [intros; apply elem_of_app; by left|].
    intros key rest (_ & Hkey & Hobj). rewrite map_app. apply elem_of_app. right. cbn. rewrite Hmk.
    assert (rest = []) as ->.
    { destruct rest as [|y rest]; [done|]. destruct Hobj as [ob Hob].
      change (name :: y :: rest) with ([name] ++ y :: rest) in Hob. rewrite app_assoc in Hob.
      destruct (d_nodes f !! ((dir ++ [name]) ++ y :: rest)) as [nn|] eqn:E; [|done].
      apply nodes_ok_ancestor in E; [congruence|done|done]. }
    rewrite (splitKey_inj _ _ _ Hkey Hk). by apply list_elem_of_singleton.
Qed.

Lemma walkDirectory_complete f depth : forall dir prefix root out,
  nodes_ok (d_nodes f) -> (prefix = "" /\ dir = []) \/ splitKey prefix = Ok dir ->
  leaves f (walkDirectory depth dir prefix root out) (walked f out (fun k => exists rest, below f dir k rest)).
Proof.
  induction depth as [|depth IH]; intros dir prefix root out Hok Hdir; cbn [walkDirectory]; [by apply leaves_ret|].
  eapply leaves_do with (Q1 := fun _ g => g = f); [by apply leaves_ctx_err| |by intros; subst; split]. intros _ g _ ->.
  apply leaves_do_may_fail; [|done]. eapply leaves_do; [apply leaves_ReadDir| |by intros e g _ [-> _]].
  intros names g _ [-> Hn]. rewrite (Hn names eq_refl). eapply leaves_conseq.
  - apply walk_entries_complete; [done|done| |].
    + apply Forall_forall. intros name. by apply entries_no_slash.
    + intros d key out' Hd. apply IH; [done|by right].
  - intros r g _ [-> Hr]. split; [done|]. intros l Hl. destruct (Hr l Hl) as [Ho Hk]. split; [done|].
    intros key (rest & Hb). apply Hk. destruct rest as [|name rest]; [by destruct Hb|]. exists name, rest. split; [|done].
    destruct Hb as (_ & _ & ob & Hob). destruct rest as [|y rest].
    + destruct (d_nodes f !! (dir ++ [name])) as [n|] eqn:E; [|done]. by eapply entries_complete.
    + change (name :: y :: rest) with ([name] ++ y :: rest) in Hob. rewrite app_assoc in Hob.
      destruct (d_nodes f !! ((dir ++ [name]) ++ y :: rest)) as [n|] eqn:E; [|done].
      eapply entries_complete. by apply nodes_ok_ancestor in E.
Qed.

(** ** The depth is enough *)

(** The walk does not run out of depth: its errors are those of its calls. *)
Definition progresses {A} (f : disk) (r : result A) (g : disk) : Prop :=
  g = f /\ match r with Err e => e <> ErrNoProgress | Ok _ => True end.

Lemma progress_ctx_err f : leaves f ctx_err (progresses f).
Proof.
  apply leaves_reads; [auto with camp|]. intros r (s & s' & Hr & _ & _). split; [done|]. unfold ctx_err in Hr.
  destruct (may_fail s) as [[[[]|e']|] s1]; [| |done]; [by injection Hr as <- _|by injection Hr as <- _].
Qed.

Lemma progress_ReadDir f dir : leaves f (ReadDir dir) (fun r g => progresses f r g /\ forall names, r = Ok names -> names = entries dir f).
Proof.
  unfold ReadDir. apply leaves_do_may_fail; [|done].
  eapply leaves_do with (Q1 := fun r g => progresses f r g /\ forall names, r = Ok names -> names = entries dir f).
  - apply leaves_inspect; [|done]. split; [done|]. by intros ? [= <-].
  - intros names g _ [[-> _] Hn]. apply leaves_do_may_fail; [|done]. apply leaves_ret. split; [done|].
    intros ? [= <-]. by apply Hn.
  - by intros e g _ [[-> ?] _].
Qed.

Lemma progress_metadataFromFile f x key : leaves f (metadataFromFile x key) (progresses f).
Proof.
  unfold metadataFromFile. do 4 (apply leaves_do_may_fail; [|done]).
  eapply leaves_bind with (Q1 := fun _ g => g = f).
  - unfold persistedRevision. eapply leaves_do with (Q1 := fun _ g => g = f); [by apply leaves_inspect| |done].
    intros v g _ ->. by destruct (negb _); apply leaves_ret.
  - intros [rev|e] g _ ->; by apply leaves_ret.
Qed.

Lemma walk_entries_progress walk f dir prefix root names : forall out,
  (forall d key out, d_nodes f !! d = Some NDir -> length d = S (length dir) -> leaves f (walk d key out) (progresses f)) ->
  leaves f (walk_entries walk dir prefix root names out) (progresses f).
Proof.
  induction names as [|name names IH]; intros out Hwalk; cbn [walk_entries]; [by apply leaves_ret|].
  eapply leaves_do; [apply progress_ctx_err| |done].
  intros _ g _ [-> _]. destruct (_ && _); [by apply IH|]. destruct (HasPrefix name tempPrefix); [by apply IH|].
  destruct (negb (is_ok (splitKey (child_key prefix name)))); [by apply leaves_ret|].
  eapply leaves_bind with (Q1 := fun r g => progresses f r g /\ (forall e, r = Err e -> classifyPathError e <> ErrNoProgress) /\
    forall n, r = Ok n -> d_nodes f !! (dir ++ [name]) = Some n).
  { apply leaves_inspect; [|split; [done|split; [by intros ? [= <-]|done]]].
    destruct (d_nodes f !! (dir ++ [name])) as [[]|] eqn:E; (split; [done|]); (split; [by intros ? [= <-]|]); by intros ? [= <-]. }
  intros [n|e] g _ [[-> _] [He Hnode]]; [|apply leaves_ret; split; [done|by apply He]]. specialize (Hnode n eq_refl).
  apply leaves_do_may_fail; [|done]. destruct n as [|x| |]; [| |by apply leaves_ret..].
  - eapply leaves_do; [apply Hwalk; [done|]|..].
    + rewrite length_app. cbn. lia.
    + intros out' g _ [-> _]. by apply IH.
    + done.
  - eapply leaves_bind; [apply progress_metadataFromFile|]. intros meta g _ [-> Hm].
    eapply leaves_bind with (Q1 := progresses f); [by apply leaves_inspect|]. intros closed g _ [-> Hc].
    destruct meta as [m|e]; [|by apply leaves_ret]. destruct closed as [[]|e]; [|by apply leaves_ret]. by apply IH.
Qed.

Lemma walkDirectory_progress f depth : forall dir prefix root out,
  is_dir f dir -> (forall p n, d_nodes f !! p = Some n -> (length p < length dir + depth)%nat) ->
  leaves f (walkDirectory depth dir prefix root out) (progresses f).
Proof.
  induction depth as [|depth IH]; intros dir prefix root out Hd Hlen.
  { specialize (Hlen _ _ Hd). lia. }
  cbn [walkDirectory]. eapply leaves_do; [apply progress_ctx_err| |done]. intros _ g _ [-> _].
  apply leaves_do_may_fail; [|done]. eapply leaves_do; [apply progress_ReadDir| |by intros e g _ [[-> ?] _]].
  intros names g _ [[-> _] _]. apply walk_entries_progress. intros d key out' Hdd Hl. apply IH; [done|].
  intros p n Hp. specialize (Hlen p n Hp). lia.
Qed.

Lemma tree_depth_enough f p n : d_nodes f !! p = Some n -> (length p < tree_depth f)%nat.
Proof.
  intros H. unfold tree_depth. apply elem_of_map_to_list in H.
  induction (map_to_list (d_nodes f)) as [|[q m] l IH]; [by apply elem_of_nil in H|]. cbn.
  apply elem_of_cons in H as [[= -> ->]|H]; [lia|]. specialize (IH H). lia.
Qed.

(** * Order and pages *)
Definition key_less (a b : ObjectMeta) : bool := str_ltb (om_Key a) (om_Key b).

Lemma sort_keys_sorted l : StronglySorted (fun a b => key_less b a = false) (sort_slice key_less l).
Proof.
  apply Sorted_StronglySorted.
  - intros a b c Hab Hbc. unfold key_less in *. destruct (str_ltb (om_Key c) (om_Key a)) eqn:E; [|done].
    destruct (str_ltb (om_Key b) (om_Key c)) eqn:E1.
    + rewrite (str_ltb_trans _ _ _ E1 E) in Hab. done.
    + rewrite (str_ltb_total _ _ E1 Hbc) in Hab. congruence.
  - apply sort_slice_sorted. intros a b. apply str_ltb_asym.
Qed.

Lemma search_complete {A} (p : A -> bool) l x : x ∈ l -> p x = true -> x ∈ search p l.
Proof.
  induction l as [|y l IH]; [done|]. cbn [search]. intros [->|H]%elem_of_cons Hp; [rewrite Hp; by left|].
  destruct (p y); [by right|by apply IH].
Qed.

Lemma search_sorted {A} (R : A -> A -> Prop) (p : A -> bool) l : StronglySorted R l -> StronglySorted R (search p l).
Proof. induction 1 as [|x l Hl IH Hf]; cbn [search]; [constructor|]. destruct (p x); [by constructor|done]. Qed.

Lemma filter_sorted {A} (R : A -> A -> Prop) (P : A -> Prop) `{!forall x, Decision (P x)} l :
  StronglySorted R l -> StronglySorted R (filter P l).
Proof.
  induction 1 as [|x l Hl IH Hf]; [constructor|]. rewrite filter_cons. destruct (decide (P x)); [|done].
  constructor; [done|]. rewrite Forall_forall in Hf |- *. intros y [_ Hy]%list_elem_of_filter. by apply Hf.
Qed.

Lemma take_sorted {A} (R : A -> A -> Prop) n l : StronglySorted R l -> StronglySorted R (take n l).
Proof.
  intros H. revert n. induction H as [|x l Hl IH Hf]; intros [|n]; try constructor; [done|].
  rewrite Forall_forall in Hf |- *. intros y Hy. apply Hf. rewrite <-(take_drop n l). apply elem_of_app. by left.
Qed.

Lemma sorted_app_le {A} (R : A -> A -> Prop) l1 l2 x y : StronglySorted R (l1 ++ l2) -> x ∈ l1 -> y ∈ l2 -> R x y.
Proof.
  induction l1 as [|z l1 IH]; [by intros _ ?%elem_of_nil|]. cbn. inversion 1 as [|? ? Hs Hf]; subst.
  intros [->|Hx]%elem_of_cons Hy; [|by apply IH]. rewrite Forall_forall in Hf. apply Hf. apply elem_of_app. by right.
Qed.

Lemma last_map_some {A} (l : list A) : List.last (map Some l) None = last l.
Proof. induction l as [|x [|y l] IH]; [done|done|]. exact IH. Qed.

(** One page of a sorted listing: in order, beyond the cursor, and every key that is
    beyond the cursor is on it or after its last key, with the cursor of the next page
    there. *)
Lemma page_no_gaps prefix cursor l items next m :
  let all := sort_slice key_less l in
  page prefix cursor all = (items, next) -> m ∈ l -> HasPrefix (om_Key m) prefix = true -> str_ltb cursor (om_Key m) = true ->
  om_Key m ∈ map om_Key items \/
  exists last, next = Some last /\ last ∈ map om_Key items /\ str_ltb last (om_Key m) = true.
Proof.
  intros all Hp Hm Hpre Hcur. unfold page in Hp. rewrite last_map_some in Hp.
  assert (StronglySorted (fun a b => key_less b a = false) all) as Hsorted by apply sort_keys_sorted.
  assert (m ∈ all) as Hall by (unfold all; by rewrite sort_slice_perm).
  set (beyond := with_prefix prefix (after cursor all)) in Hp.
  assert (m ∈ beyond) as Hb by (apply list_elem_of_filter; split; [done|by apply search_complete]).
  assert (StronglySorted (fun a b => key_less b a = false) beyond) as Hbs by (by apply filter_sorted, search_sorted).
  destruct (last (take listPageSize beyond)) as [z|] eqn:Hlast.
  2: { apply last_None in Hlast. destruct beyond; [by apply elem_of_nil in Hb|done]. }
  assert (items = take listPageSize beyond) as Hitems by (destruct (with_prefix prefix (after (om_Key z) all)); by injection Hp as <- _).
  assert (z ∈ take listPageSize beyond) as Hz by by apply last_Some_elem_of.
  destruct (decide (om_Key m = om_Key z)) as [->|Hne]; [left; rewrite Hitems; apply list_elem_of_fmap; by exists z|].
  pose proof Hb as Hb'. rewrite <-(take_drop listPageSize beyond) in Hb'. apply elem_of_app in Hb' as [Ht|Hd].
  { left. rewrite Hitems. apply list_elem_of_fmap. by exists m. }
  right. exists (om_Key z). rewrite <-(take_drop listPageSize beyond) in Hbs.
  pose proof (sorted_app_le _ _ _ _ _ Hbs Hz Hd) as Hle. unfold key_less in Hle.
  assert (str_ltb (om_Key z) (om_Key m) = true) as Hlt.
  { destruct (str_ltb (om_Key z) (om_Key m)) eqn:E; [done|]. exfalso. apply Hne. symmetry. by apply str_ltb_total. }
  assert (m ∈ with_prefix prefix (after (om_Key z) all)) as Hnext by (apply list_elem_of_filter; split; [done|by apply search_complete]).
  destruct (with_prefix prefix (after (om_Key z) all)); [by apply elem_of_nil in Hnext|].
  injection Hp as <- <-. split; [done|]. split; [|done]. apply list_elem_of_fmap. by exists z.
Qed.

Lemma search_beyond cursor l m :
  StronglySorted (fun a b => key_less b a = false) l -> m ∈ after cursor l -> str_ltb cursor (om_Key m) = true.
Proof.
  induction 1 as [|x l Hl IH Hf]; [by intros ?%elem_of_nil|]. unfold after in *. cbn [search].
  destruct (str_ltb cursor (om_Key x)) eqn:E; [|done]. intros [->|Hm]%elem_of_cons; [done|].
  rewrite Forall_forall in Hf. specialize (Hf m Hm). unfold key_less in Hf.
  destruct (str_ltb (om_Key x) (om_Key m)) eqn:E1; [by eapply str_ltb_trans|].
  by rewrite (str_ltb_total _ _ Hf E1).
Qed.

(** A page is a sorted list of objects beyond the cursor. *)
Lemma page_shape prefix cursor l items next :
  page prefix cursor (sort_slice key_less l) = (items, next) ->
  StronglySorted (fun a b => key_less b a = false) items /\ (length items <= listPageSize)%nat /\
  forall m, m ∈ items -> m ∈ l /\ HasPrefix (om_Key m) prefix = true /\ str_ltb cursor (om_Key m) = true.
Proof.
  set (all := sort_slice key_less l). intros Hp.
  assert (StronglySorted (fun a b => key_less b a = false) all) as Hsorted by apply sort_keys_sorted.
  assert (items = take listPageSize (with_prefix prefix (after cursor all)) \/ items = []) as [-> | ->].
  { unfold page in Hp. destruct (List.last _ _) as [z|]; [|injection Hp as <- _; by right].
    left. by destruct (with_prefix prefix (after (om_Key z) all)); injection Hp as <- _. }
  2: { split; [constructor|]. split; [cbn; lia|]. by intros m ?%elem_of_nil. }
  split; [by apply take_sorted, filter_sorted, search_sorted|]. split; [rewrite length_take; lia|].
  intros m Hm. assert (m ∈ with_prefix prefix (after cursor all)) as Hm' by
    (rewrite <-(take_drop listPageSize (with_prefix _ _)); apply elem_of_app; by left).
  apply list_elem_of_filter in Hm' as [Hpre Ha]. split; [|split; [done|by eapply search_beyond]].
  apply search_subset in Ha. unfold all in Ha. by rewrite sort_slice_perm in Ha.
Qed.

(** ** Page tokens *)
Lemma pageToken_depth : @c_depth _ pageToken_codec <= max_depth.
Proof. vm_compute. discriminate. Qed.

Lemma b64_nonempty s : s <> "" -> EncodeToString s <> "".
Proof.
  intros Hs He. apply Hs. pose proof (DecodeString_EncodeToString s) as H. rewrite He in H.
  by injection H as <-.
Qed.

Lemma page_token_round_trip prefix cursor :
  valid_utf8 prefix = true -> valid_utf8 cursor = true -> HasPrefix cursor prefix = true -> is_ok (splitKey cursor) = true ->
  exists token, encodePageToken prefix cursor = Ok token /\ decodePageToken token prefix = Ok cursor.
Proof.
  intros Hp Hc Hpre Hk. pose (t := mkpageToken pageTokenVersion prefix cursor).
  assert (c_ok t = true) as Hok by (unfold t; cbn -[valid_utf8]; by rewrite Hp, Hc).
  destruct (Unmarshal_Marshal t Hok pageToken_depth) as (text & Hm & Hu & _).
  unfold encodePageToken, marshal. fold t. rewrite Hm. cbn. exists (EncodeToString text). split; [done|].
  assert (str_eqb (EncodeToString text) "" = false) as He.
  { apply str_eqb_neq, b64_nonempty. intros ->. by vm_compute in Hu. }
  assert (str_eqb cursor "" = false) as Hne by (apply str_eqb_neq; intros ->; by vm_compute in Hk).
  unfold decodePageToken. rewrite He, DecodeString_EncodeToString, Hu. cbn -[splitKey HasPrefix str_eqb].
  by rewrite str_eqb_refl, Hne, Hk, Hpre.
Qed.

Lemma validatePrefix_error prefix e : validatePrefix prefix = Err e -> e <> ErrNoProgress.
Proof.
  unfold validatePrefix, splitKey. intros H. repeat (case_match; simplify_eq/=; try done).
Qed.

Lemma encode_error prefix cursor e : encodePageToken prefix cursor = Err e -> e <> ErrNoProgress.
Proof. unfold encodePageToken, marshal. destruct (Marshal _); cbn; by intros [= <-]. Qed.

Lemma progress_openRoot dev ino f :
  nodes_ok (d_nodes f) -> leaves f (openRoot dev ino) (fun r g => progresses f r g /\ forall fd, r = Ok fd -> fd = []).
Proof.
  intros (Hr & _). unfold openRoot. eapply leaves_bind with (Q1 := fun _ g => g = f); [by apply leaves_inspect|].
  intros [id|e] g _ ->; [|by apply leaves_ret]. apply leaves_do_may_fail; [|done].
  destruct (bool_decide (id = (dev, ino))); apply leaves_ret; [|done]. split; [done|]. by intros ? [= <-].
Qed.

Lemma object_at_below f key : is_Some (object_at f key) -> nodes_ok (d_nodes f) -> exists rest, below f [] key rest.
Proof.
  intros [ob Hob] _. unfold object_at in Hob. destruct (splitKey key) as [parts|] eqn:E; [|done].
  exists parts. split; [by eapply splitKey_nonempty|]. split; [done|]. cbn. by rewrite Hob.
Qed.

(** Everything the walk of the whole store finds. *)
Definition whole (f : disk) (r : result (list ObjectMeta)) (g : disk) : Prop :=
  progresses f r g /\ forall l, r = Ok l -> Forall (listed f) l /\ forall key, is_Some (object_at f key) -> key ∈ map om_Key l.

Lemma leaves_and {A} f (p : io disk A) Q1 Q2 : leaves f p Q1 -> leaves f p Q2 -> leaves f p (fun r g => Q1 r g /\ Q2 r g).
Proof.
  intros H1 H2 o g Hr. destruct (H1 o g Hr) as [Hn Hq1]. destruct (H2 o g Hr) as [_ Hq2]. split; [done|].
  intros a Ha. split; [by apply Hq1|by apply Hq2].
Qed.

Lemma leaves_whole f : nodes_ok (d_nodes f) -> leaves f (walkDirectory (tree_depth f) [] "" true []) (whole f).
Proof.
  intros Hok. eapply leaves_conseq.
  - apply leaves_and; [|apply leaves_and].
    + apply (leaves_walkDirectory f (tree_depth f) [] "" true []); [done|by left|constructor].
    + apply (walkDirectory_complete f (tree_depth f) [] "" true []); [done|by left].
    + apply walkDirectory_progress; [apply Hok|]. intros p n Hp. cbn. by eapply tree_depth_enough.
  - intros r g _ ([-> Hl] & [_ Hc] & Hp). split; [done|]. intros l ->. split; [by apply Hl|].
    intros key Hkey. apply (Hc l eq_refl). by apply object_at_below.
Qed.

(** C17: a listing has no gaps, whatever fails.  A page that List returns is sorted by key,
    holds at most a page of objects, each of them an object of the store with the prefix
    and beyond the token's cursor, with its metadata; and every such object is either on
    the page or beyond its last key, and then the page comes with a token that decodes to
    that last key (where the key and the prefix are valid UTF-8, as JSON keeps them), so
    that the next page goes on there.  The walk never runs out of depth. *)
Theorem List_no_gaps dev ino f prefix token cursor o f' :
  nodes_ok (d_nodes f) -> valid_utf8 prefix = true -> decodePageToken token prefix = Ok cursor ->
  runs (Store.List dev ino prefix token) f o f' ->
  match o with
  | Done (Ok (items, next)) =>
      f' = f /\ StronglySorted (fun a b => str_ltb (om_Key b) (om_Key a) = false) items /\ (length items <= listPageSize)%nat /\
      (forall m, m ∈ items -> listed f m /\ HasPrefix (om_Key m) prefix = true /\ str_ltb cursor (om_Key m) = true) /\
      (forall key, is_Some (object_at f key) -> HasPrefix key prefix = true -> str_ltb cursor key = true ->
         key ∈ map om_Key items \/
         exists last, last ∈ map om_Key items /\ str_ltb last key = true /\ encodePageToken prefix last = Ok next /\
           (valid_utf8 last = true -> decodePageToken next prefix = Ok last))
  | Done (Err e) => e <> ErrNoProgress
  | Crashed => True
  end.
Proof.
  intros Hok Hutf Htok H. destruct o as [r|]; [|done]. unfold Store.List in H.
  destruct (validatePrefix prefix) as [|e] eqn:Ev; [|apply runs_ret in H as [[= ->] ->]; by eapply validatePrefix_error].
  rewrite Htok in H.
  apply (leaves_run_do _ _ _ _ _ _ (progress_openRoot dev ino f Hok)) in H as [[_ [?|(e & [= ->] & [_ He] & _)]]|(fd & g & _ & ([-> _] & Hfd) & H)];
    [done|done|].
  rewrite (Hfd fd eq_refl) in H. clear fd Hfd.
  apply runs_bind in H as [[? _]|(depth & g & Hd & H)]; [done|].
  destruct Hd as (s & s' & [= <- <-] & Hg & Hg'). assert (g = f) as -> by congruence. rewrite Hg in H. clear Hg Hg' s.
  apply (leaves_run_do _ _ _ _ _ _ (leaves_whole f Hok)) in H as [[_ [?|(e & [= ->] & [_ He] & _)]]|(all & g & _ & ([-> _] & Hall) & H)];
    [done|done|].
  destruct (Hall all eq_refl) as [Hlist Hcomp]. rewrite Forall_forall in Hlist.
  change (fun a b => str_ltb (om_Key a) (om_Key b)) with key_less in H.
  destruct (page prefix cursor (sort_slice key_less all)) as [items next] eqn:Ep.
  destruct (page_shape _ _ _ _ _ Ep) as (Hs & Hlen & Hin).
  assert (forall key, is_Some (object_at f key) -> HasPrefix key prefix = true -> str_ltb cursor key = true ->
    key ∈ map om_Key items \/ exists last, next = Some last /\ last ∈ map om_Key items /\ str_ltb last key = true) as Hgap.
  { intros key Hkey Hp Hc. apply Hcomp, list_elem_of_fmap in Hkey as (m & -> & Hm). by eapply page_no_gaps. }
  assert (forall m, m ∈ items -> listed f m /\ HasPrefix (om_Key m) prefix = true /\ str_ltb cursor (om_Key m) = true) as Hitems.
  { intros m Hm. destruct (Hin m Hm) as (? & ? & ?). split; [by apply Hlist|done]. }
  destruct next as [last|].
  - destruct (encodePageToken prefix last) as [token'|e] eqn:Ee; apply runs_ret in H as [[= ->] ->]; [|by eapply encode_error].
    do 4 (split; [done|]). intros key Hkey Hp Hc. destruct (Hgap key Hkey Hp Hc) as [?|(? & [= <-] & Hl & Hlt)]; [by left|].
    right. exists last. do 3 (split; [done|]). intros Hu. apply list_elem_of_fmap in Hl as (m & -> & Hm).
    destruct (Hitems m Hm) as ((ob & Hob & _) & Hpm & _). unfold object_at in Hob.
    destruct (page_token_round_trip prefix (om_Key m)) as (t & Ht & Hd); [done|done|done|by destruct (splitKey (om_Key m))|congruence].
  - apply runs_ret in H as [[= ->] ->]. do 4 (split; [done|]). intros key Hkey Hp Hc.
    destruct (Hgap key Hkey Hp Hc) as [?|(? & ? & _)]; [by left|done].
Qed.

Definition sample_file (data rev : bytes) : node := NFile (mkFile data (Some (fill revisionSize rev)) (utc 5) 9).
Definition sample_tree : disk := mkDisk (Some (1, 2))
  (<[["b"] := sample_file "two" "y"]> (<[["a"; "x"] := sample_file "one" "x"]> (<[["a"] := NDir]> {[ [] := NDir ]})))
  (utc 1000) 7 [].

Lemma sample_tree_ok : nodes_ok (d_nodes sample_tree).
Proof.
  apply (nodes_ok_put _ [] "b"); [|done|done|by right]. apply (nodes_ok_put _ ["a"] "x"); [|done|done|by right].
  apply (nodes_ok_put _ [] "a"); [exact sample_nodes_ok|done|done|by left].
Qed.

(** The page of [sample_tree]: one object below "a", the other at the top. *)
Definition sample_keys (o : outcome (result (list ObjectMeta * string))) : list string :=
  match o with Done (Ok (items, _)) => map om_Key items | _ => [] end.

Lemma sample_listing : sample_keys (Store.List 1 2 "" "" (calm sample_tree [])).1 = ["a/x"; "b"].
Proof. vm_cast_no_check (@eq_refl (list string) ["a/x"; "b"]). Qed.

Lemma List_no_gaps_witness :
  match (Store.List 1 2 "" "" (calm sample_tree [])).1 with
  | Done (Ok (items, next)) => forall key, is_Some (object_at sample_tree key) -> str_ltb "" key = true ->
      key ∈ map om_Key items \/ exists last, last ∈ map om_Key items /\ str_ltb last key = true
  | Done (Err e) => e <> ErrNoProgress
  | Crashed => True
  end.
Proof.
  pose proof (List_no_gaps 1 2 sample_tree "" "" "" _ _ sample_tree_ok eq_refl eq_refl
    (runs_calm (Store.List 1 2 "" "") sample_tree [])) as H.
  destruct (Store.List 1 2 "" "" (calm sample_tree [])).1 as [[[items next]|e]|]; [|exact H|exact H].
  destruct H as (_ & _ & _ & _ & H). intros key Hk Hlt.
  destruct (H key Hk eq_refl Hlt) as [?|(last & ? & ? & _)]; [by left|right; by exists last].
Defined.
