(* ===== verification/FileBackendLive.v ===== *)
(** filebackend.Store (adapters/filebackend/store.go) when nothing fails: a conditional
    write whose condition holds goes through, and the object is there to be read.  This is
    the other half of FileBackendRefinement, which says what an answer means. *)
From S2P Require Import Prelude Sha256 GoTime Json Codec Regexp Domain Paths ObjectStore Effects Base64 FileBackend FileBackendRefinement FileBackendListing.

(** * Runs without failures *)
Definition calmly {A} (p : io disk A) (f : disk) (a : A) (g : disk) : Prop :=
  forall r, p (calm f r) = (Done a, calm g r).

Lemma calmly_ret {A} f (a : A) : calmly (io_ret a) f a f.
Proof. done. Qed.

Lemma calmly_bind {A B} (p : io disk A) (k : A -> io disk B) f a g b h :
  calmly p f a g -> calmly (k a) g b h -> calmly (io_bind p k) f b h.
Proof. intros Hp Hk r. unfold io_bind. rewrite Hp. apply Hk. Qed.

Lemma calmly_atomic {A} (act : disk -> result A * disk) f : calmly (atomic act) f (act f).1 (act f).2.
Proof. intros r. apply calm_syscall. Qed.

Lemma calmly_inspect {A} (act : disk -> result A) f : calmly (inspect act) f (act f) f.
Proof. done. Qed.

Lemma calmly_may_fail f : calmly may_fail f (Ok tt) f.
Proof. done. Qed.

Lemma calmly_ctx_err f : calmly ctx_err f (Ok tt) f.
Proof. done. Qed.

Create HintDb calm discriminated.
#[export] Hint Resolve calmly_ret calmly_atomic calmly_inspect calmly_may_fail calmly_ctx_err : calm.

(** Takes the next step of a program. *)
Ltac calm_step := eapply calmly_bind; [solve [unfold fsync; eauto with calm]|cbv beta iota].

Lemma calmly_openRoot dev ino f : d_root f = Some (dev, ino) -> calmly (openRoot dev ino) f (Ok []) f.
Proof. intros H. unfold openRoot. calm_step. rewrite H. calm_step. rewrite bool_decide_true by done. apply calmly_ret. Qed.

(** A name that is free or a directory. *)
Definition passable (n : option node) : Prop := n = None \/ n = Some NDir.

(** The disk with a directory at a path. *)
Definition with_dir (p : list string) (f : disk) : disk :=
  match d_nodes f !! p with Some _ => f | None => put_node p NDir f end.

Lemma with_dir_self p f : passable (d_nodes f !! p) -> d_nodes (with_dir p f) !! p = Some NDir.
Proof. unfold with_dir. intros [H|H]; rewrite H; [|done]. cbn. apply lookup_insert_eq. Qed.

Lemma with_dir_other p q f : p <> q -> d_nodes (with_dir p f) !! q = d_nodes f !! q.
Proof. intros Hne. unfold with_dir. destruct (d_nodes f !! p); [done|]. cbn. by apply lookup_insert_ne. Qed.

Lemma with_dir_rest p f : d_root (with_dir p f) = d_root f /\ d_random (with_dir p f) = d_random f.
Proof. unfold with_dir. by destruct (d_nodes f !! p). Qed.

Lemma calmly_openDirectoryAt f parent name :
  d_nodes f !! (parent ++ [name]) = Some NDir -> calmly (openDirectoryAt parent name) f (Ok (parent ++ [name])) f.
Proof. intros H r. unfold openDirectoryAt. rewrite calm_inspect, H. done. Qed.

Lemma calmly_ensureDirectoryAt f parent name :
  passable (d_nodes f !! (parent ++ [name])) ->
  calmly (ensureDirectoryAt parent name) f (Ok (parent ++ [name])) (with_dir (parent ++ [name]) f).
Proof.
  intros H. pose proof (with_dir_self _ _ H) as Hd. unfold ensureDirectoryAt, openDirectoryAt at 1. unfold with_dir in *. calm_step.
  destruct H as [H|H]; rewrite H in *; [|apply calmly_ret]. cbn -[calmly]. unfold mkdirat. calm_step. rewrite H.
  cbn -[calmly]. calm_step. by apply calmly_openDirectoryAt.
Qed.

(** What the code creates on the way to a key's directory. *)
Fixpoint with_dirs (fd : list string) (parts : list string) (f : disk) : disk :=
  match parts with
  | [] => f
  | part :: rest => with_dirs (fd ++ [part]) rest (with_dir (fd ++ [part]) f)
  end.

Lemma with_dirs_rest fd parts f : d_root (with_dirs fd parts f) = d_root f /\ d_random (with_dirs fd parts f) = d_random f.
Proof.
  revert fd f. induction parts as [|part parts IH]; intros fd f; [done|]. cbn.
  destruct (IH (fd ++ [part]) (with_dir (fd ++ [part]) f)) as [-> ->]. apply with_dir_rest.
Qed.

Lemma with_dirs_long fd parts f p :
  (length fd + length parts < length p)%nat -> d_nodes (with_dirs fd parts f) !! p = d_nodes f !! p.
Proof.
  revert fd f. induction parts as [|part parts IH]; intros fd f Hl; [done|]. cbn in *.
  rewrite IH by (rewrite length_app; cbn; lia). apply with_dir_other. intros <-. rewrite length_app in Hl. cbn in Hl. lia.
Qed.

Lemma calmly_open_parents parts : forall fd f,
  is_dir f fd -> (forall q rest, parts = q ++ rest -> q <> [] -> passable (d_nodes f !! (fd ++ q))) ->
  calmly (open_parents true fd parts) f (Ok (fd ++ parts)) (with_dirs fd parts f) /\
  is_dir (with_dirs fd parts f) (fd ++ parts).
Proof.
  induction parts as [|part parts IH]; intros fd f Hfd Hp; [rewrite app_nil_r; split; [apply calmly_ret|done]|].
  assert (passable (d_nodes f !! (fd ++ [part]))) as Hp1 by (by apply (Hp [part] parts)).
  destruct (IH (fd ++ [part]) (with_dir (fd ++ [part]) f)) as [Hc Hdir]; [by apply with_dir_self| |].
  { intros q rest -> Hq. rewrite with_dir_other.
    - rewrite <-app_assoc. by apply (Hp (part :: q) rest).
    - intros Heq%(f_equal length). rewrite !length_app in Heq. destruct q; [done|cbn in Heq; lia]. }
  rewrite <-app_assoc in Hc, Hdir. cbn [app] in Hc, Hdir. split; [|done]. cbn [open_parents with_dirs].
  unfold openDirectoryAt. calm_step. apply (calmly_bind _ _ _ (Ok (fd ++ [part])) (with_dir (fd ++ [part]) f)); [|exact Hc].
  destruct Hp1 as [H|H]; rewrite H; cbn -[calmly ensureDirectoryAt].
  - apply calmly_ensureDirectoryAt. by left.
  - unfold with_dir. rewrite H. apply calmly_ret.
Qed.

(** The names in a directory that are not directories can all be removed. *)
Definition without (parent : list string) (names : list string) (f : disk) : disk :=
  foldl (fun g name => drop_node (parent ++ [name]) g) f names.

Lemma calmly_unlink_all parent names : forall f,
  NoDup names -> (forall name, name ∈ names -> exists n, d_nodes f !! (parent ++ [name]) = Some n /\ n <> NDir) ->
  calmly (unlink_all parent names) f (Ok tt) (without parent names f).
Proof.
  induction names as [|name names IH]; intros f Hnd Hn; [apply calmly_ret|]. apply NoDup_cons in Hnd as [Hin Hnd].
  destruct (Hn name) as (n & Hnode & Hdir); [by left|]. cbn [unlink_all]. unfold unlinkat. calm_step. rewrite Hnode.
  destruct n; try done; cbn -[calmly unlink_all]; (apply IH; [done|]); intros name' Hin'; cbn;
    (rewrite lookup_delete_ne; [apply Hn; by right|]); intros [_ ->]%app_inj_tail; naive_solver.
Qed.

Lemma without_rest parent names f : d_root (without parent names f) = d_root f /\ d_random (without parent names f) = d_random f.
Proof. revert f. induction names as [|name names IH]; intros f; [done|]. exact (IH (drop_node (parent ++ [name]) f)). Qed.

Lemma without_other parent names p : forall f,
  (forall name, name ∈ names -> p <> parent ++ [name]) -> d_nodes (without parent names f) !! p = d_nodes f !! p.
Proof.
  induction names as [|name names IH]; intros f Hp; [done|].
  transitivity (d_nodes (drop_node (parent ++ [name]) f) !! p); [apply IH; intros name' H; apply Hp; by right|].
  cbn. apply lookup_delete_ne.
  intros Heq. apply (Hp name); [by left|done].
Qed.

Lemma without_gone parent names name : forall f,
  name ∈ names -> d_nodes (without parent names f) !! (parent ++ [name]) = None.
Proof.
  induction names as [|x names IH]; intros f; [by intros ?%elem_of_nil|]. intros Hin.
  change (d_nodes (without parent names (drop_node (parent ++ [x]) f)) !! (parent ++ [name]) = None).
  destruct (decide (name ∈ names)) as [|Hni]; [by apply IH|]. apply elem_of_cons in Hin as [->|]; [|done].
  rewrite without_other.
  - cbn. apply lookup_delete_eq.
  - intros name Hn [_ ->]%app_inj_tail. naive_solver.
Qed.

Lemma entries_sound f dir name : name ∈ entries dir f -> exists n, d_nodes f !! (dir ++ [name]) = Some n.
Proof.
  unfold entries. rewrite sort_slice_perm. intros ([p n] & Hin%elem_of_map_to_list & Hc)%list_elem_of_omap.
  unfold child_name in Hc. cbn in Hc. destruct (last p) as [x|]; [|done].
  destruct (bool_decide (p = dir ++ [x])) eqn:E; [|done]. injection Hc as <-. bool_norm. subst p. by exists n.
Qed.

Lemma entries_nodup f dir : NoDup (entries dir f).
Proof.
  unfold entries. rewrite sort_slice_perm. pose proof (NoDup_fst_map_to_list (d_nodes f)) as Hnd.
  induction (map_to_list (d_nodes f)) as [|[p n] l IH]; [constructor|]. cbn in Hnd |- *. apply NoDup_cons in Hnd as [Hp Hnd].
  destruct (child_name dir p) as [name|] eqn:Hc; [|by apply IH]. constructor; [|by apply IH].
  assert (forall q name, child_name dir q = Some name -> q = dir ++ [name]) as Hname.
  { intros q y Hq. unfold child_name in Hq. destruct (last q) as [x|]; [|done].
    destruct (bool_decide (q = dir ++ [x])) eqn:E; [|done]. injection Hq as <-. by bool_norm. }
  intros ([q m] & Hin & Hq)%list_elem_of_omap. apply Hname in Hc as ->. apply Hname in Hq. cbn in Hq. subst q.
  apply Hp, list_elem_of_fmap. by exists (dir ++ [name], m).
Qed.

(** The temporary files of a key in its directory. *)
Definition temporary (key name : string) : Prop := HasPrefix name (tempNamePrefix key) = true.

Lemma temporary_hidden key name : temporary key name -> HasPrefix name tempPrefix = true.
Proof. unfold temporary, tempNamePrefix. intros [s ->]%HasPrefix_inv. rewrite !str_app_assoc. apply HasPrefix_app. Qed.

Lemma calmly_cleanup f parent key :
  (forall name, temporary key name -> d_nodes f !! (parent ++ [name]) <> Some NDir) ->
  exists g, calmly (cleanupTemporaryFiles parent key) f (Ok tt) g /\ d_root g = d_root f /\ d_random g = d_random f /\
    (forall p, (forall name, temporary key name -> p <> parent ++ [name]) -> d_nodes g !! p = d_nodes f !! p) /\
    (forall name, temporary key name -> d_nodes g !! (parent ++ [name]) = None).
Proof.
  intros Ht. set (stale := filter (fun name => HasPrefix name (tempNamePrefix key) = true) (entries parent f)).
  exists (without parent stale f). split; [|split; [apply without_rest|split; [apply without_rest|split]]].
  - unfold cleanupTemporaryFiles. calm_step. eapply calmly_bind with (a := Ok (entries parent f)) (g := f).
    { unfold ReadDir. calm_step. calm_step. calm_step. apply calmly_ret. }
    fold stale. eapply calmly_bind with (a := Ok tt); [apply calmly_unlink_all|].
    + apply NoDup_filter, entries_nodup.
    + intros name [Htemp Hin]%list_elem_of_filter. destruct (entries_sound _ _ _ Hin) as [n Hn]. exists n.
      split; [done|]. intros ->. by apply (Ht name).
    + destruct stale; [apply calmly_ret|apply calmly_may_fail].
  - intros p Hp. apply without_other. intros name [Htemp _]%list_elem_of_filter. by apply Hp.
  - intros name Htemp. destruct (d_nodes f !! (parent ++ [name])) as [n|] eqn:E.
    + apply without_gone, list_elem_of_filter. split; [done|]. by eapply entries_complete.
    + destruct (decide (name ∈ stale)) as [Hin|Hni]; [by apply without_gone|]. rewrite without_other; [done|].
      by intros name' Hin' [_ ->]%app_inj_tail.
Qed.

(** ** The steps of a write *)
Lemma calmly_metadataAt_none f parent name key :
  d_nodes f !! (parent ++ [name]) = None -> calmly (metadataAt parent name key) f (Err ErrNotFound) f.
Proof. intros H. unfold metadataAt, openRegularAt. eapply calmly_bind; [calm_step; rewrite H; apply calmly_ret|apply calmly_ret]. Qed.

(** The metadata of an object's file. *)
Definition file_meta (key : string) (x : file) (o : object) : ObjectMeta :=
  mkObjectMeta key (str_len (f_data x)) (o_rev o) (sha256Hex (f_data x)) (f_mtime x).

Lemma calmly_metadataFromFile f key x o :
  file_object x = Some o -> calmly (metadataFromFile x key) f (Ok (file_meta key x o)) f.
Proof.
  unfold file_object. intros Ho. destruct (f_xattr x) as [v|] eqn:Ex; [|done]. destruct (Nat.eqb _ _) eqn:El; [|done].
  injection Ho as <-. unfold metadataFromFile. do 4 calm_step.
  apply (calmly_bind _ _ _ (Ok (hex_encode v)) f); [|apply calmly_ret].
  unfold persistedRevision. calm_step. rewrite Ex, El. apply calmly_ret.
Qed.

Lemma calmly_openRegularAt f parent name key x :
  d_nodes f !! (parent ++ [name]) = Some (NFile x) -> calmly (openRegularAt parent name key) f (Ok x) f.
Proof. intros Hx. unfold openRegularAt. calm_step. rewrite Hx. calm_step. apply calmly_ret. Qed.

Lemma calmly_metadataAt f parent name key x o :
  d_nodes f !! (parent ++ [name]) = Some (NFile x) -> file_object x = Some o ->
  calmly (metadataAt parent name key) f (Ok (file_meta key x o)) f.
Proof.
  intros Hx Ho. unfold metadataAt. eapply calmly_bind; [by apply calmly_openRegularAt|]. by apply calmly_metadataFromFile.
Qed.

(** A new temporary file, its directory free of others. *)
Lemma calmly_createTemporaryFile f parent key b1 b2 rest :
  d_random f = b1 :: b2 :: rest -> (forall name, temporary key name -> d_nodes f !! (parent ++ [name]) = None) ->
  exists name g x, calmly (createTemporaryFile parent key) f (Ok name) g /\ temporary key name /\
    d_nodes g = <[parent ++ [name] := NFile x]> (d_nodes f) /\ f_data x = "" /\ f_xattr x = Some (fill revisionSize b2) /\
    d_root g = d_root f.
Proof.
  intros Hr Hnone. set (name := tempNamePrefix key +:+ hex_encode (fill 12 b1)).
  assert (temporary key name) as Ht by (apply HasPrefix_app). pose proof (Hnone name Ht) as Hn.
  do 3 eexists. split; [|split; [exact Ht|]].
  - unfold createTemporaryFile. change 100%nat with (S 99). cbn [create_temporary].
    eapply calmly_bind; [unfold draw; apply calmly_atomic|]. cbv beta. rewrite Hr. cbn -[calmly fill createTemporaryFile create_temporary]. fold name.
    eapply calmly_bind; [unfold create_exclusive_at; apply calmly_atomic|]. cbn -[calmly fill create_temporary]. rewrite Hn. cbn -[calmly fill create_temporary].
    eapply calmly_bind.
    { unfold assignRevision. eapply calmly_bind; [unfold draw; apply calmly_atomic|]. cbn -[calmly fill]. apply calmly_atomic. }
    cbv beta iota. apply calmly_ret.
  - cbn -[fill revisionSize]. unfold update_file. cbn -[fill revisionSize]. rewrite lookup_insert_eq. cbn -[fill revisionSize].
    split; [apply insert_insert_eq|]. done.
Qed.

Lemma file_object_temp x body b :
  f_data x = "" -> f_xattr x = Some (fill revisionSize b) -> file_object (add_data body x) = Some (mkObject body (rev_of b)).
Proof. intros Hd Hx. unfold file_object, add_data. cbn [f_xattr f_data]. rewrite Hx, fill_length, Hd. cbn [Nat.eqb]. done. Qed.

Lemma calmly_conditional_body f parent temp name key body x b :
  d_nodes f !! (parent ++ [temp]) = Some (NFile x) -> f_data x = "" -> f_xattr x = Some (fill revisionSize b) ->
  temp <> name -> d_nodes f !! (parent ++ [name]) <> Some NDir ->
  let x' := add_data body x in
  let o := mkObject body (rev_of b) in
  exists g, calmly (Store.conditional_body parent temp name key body) f (Ok (file_meta key x' o), false) g /\
    d_nodes g = <[parent ++ [name] := NFile x']> (delete (parent ++ [temp]) (d_nodes f)) /\ d_root g = d_root f.
Proof.
  intros Hx Hd Hxa Hne Hn x' o. assert (file_object x' = Some o) as Ho by by apply file_object_temp.
  assert (parent ++ [temp] <> parent ++ [name]) as Hne' by by intros [_ ?]%app_inj_tail.
  set (f1 := put_node (parent ++ [temp]) (NFile x') f).
  assert (d_nodes f1 !! (parent ++ [temp]) = Some (NFile x')) as Ht1 by apply lookup_insert_eq.
  assert (d_nodes f1 !! (parent ++ [name]) = d_nodes f !! (parent ++ [name])) as Hn1 by by apply lookup_insert_ne.
  set (g := put_node (parent ++ [name]) (NFile x') (drop_node (parent ++ [temp]) f1)). exists g. split; [|split; [|done]].
  - unfold Store.conditional_body.
    eapply calmly_bind with (a := Ok (str_len body, sha256Hex body)) (g := f1).
    { unfold copyAndSync. eapply calmly_bind with (a := Ok tt) (g := f1); [|cbn [rd_err rd_body]; calm_step; calm_step; apply calmly_ret].
      intros r. rewrite calm_syscall. unfold update_file. rewrite Hx. done. }
    cbv beta iota. calm_step. unfold Store.publish. calm_step.
    eapply calmly_bind with (a := Ok tt) (g := g).
    { intros r. unfold renameat, atomic. rewrite calm_syscall, Ht1, Hn1. by destruct (d_nodes f !! (parent ++ [name])) as [[]|]. }
    eapply calmly_bind with (a := Ok (file_meta key x' o)) (g := g); [|apply calmly_ret].
    unfold Store.published. calm_step. eapply calmly_bind; [eapply calmly_metadataAt; [|exact Ho]|apply calmly_ret].
    cbn. apply lookup_insert_eq.
  - cbn. by rewrite delete_insert_eq.
Qed.

(** * Writes that go through *)

(** The disk has what a write of [key] needs: the directory the store was opened on,
    random bytes, and nothing in the way of the directories, the lock and the temporary
    files of the key. *)
Record ready (dev ino : Z) (key : string) (parts : list string) (f : disk) : Prop := mkReady {
  rd_key : splitKey key = Ok parts;
  rd_root : d_root f = Some (dev, ino);
  rd_top : is_dir f [];
  rd_dirs q rest : parts = q ++ rest -> rest <> [] -> passable (d_nodes f !! q);
  rd_target : d_nodes f !! parts = None \/ is_Some (object_at f key);
  rd_lockdir : passable (d_nodes f !! [lockDirectory]);
  rd_lock n : d_nodes f !! [lockDirectory; sha256Hex key +:+ ".lock"] = Some n -> exists x, n = NFile x;
  rd_temps name : temporary key name -> d_nodes f !! (removelast parts ++ [name]) <> Some NDir;
  rd_random : (2 <= length (d_random f))%nat }.

Lemma calmly_lockKey dev ino key parts f :
  ready dev ino key parts f -> exists g, calmly (lockKey dev ino key) f (Ok tt) g /\ d_root g = d_root f /\
    d_random g = d_random f /\ (forall p, head p <> Some lockDirectory -> d_nodes g !! p = d_nodes f !! p).
Proof.
  intros R. set (f1 := with_dir [lockDirectory] f).
  pose proof (with_dir_rest [lockDirectory] f) as [Hroot Hrand]. fold f1 in Hroot, Hrand.
  assert (forall p, [lockDirectory] <> p -> d_nodes f1 !! p = d_nodes f !! p) as Hother by (intros; by apply with_dir_other).
  set (lock := sha256Hex key +:+ ".lock"). set (p := [lockDirectory; lock]).
  set (g := match d_nodes f1 !! p with Some _ => f1 | None => create_file p f1 end). exists g.
  split; [|unfold g; destruct (d_nodes f1 !! p); (split; [done|]); (split; [done|]); intros q Hq].
  - unfold lockKey. calm_step. eapply calmly_bind; [by apply calmly_openRoot, R|].
    eapply calmly_bind; [apply (calmly_ensureDirectoryAt f [] lockDirectory), R|].
    eapply calmly_bind with (a := Ok tt) (g := g); [|apply calmly_may_fail].
    intros r. unfold open_lock_at, atomic. rewrite calm_syscall. cbn [app]. fold f1. fold lock. change [lockDirectory; lock] with p. unfold g.
    destruct (d_nodes f1 !! p) as [n|] eqn:E; [|done]. rewrite Hother in E by done.
    destruct (rd_lock _ _ _ _ _ R n E) as [x ->]. done.
  - apply Hother. by intros <-.
  - cbn. rewrite lookup_insert_ne by (by intros <-). apply Hother. by intros <-.
Qed.

Lemma open_existing b parts : forall fd f,
  (forall q rest, parts = q ++ rest -> q <> [] -> is_dir f (fd ++ q)) -> calmly (open_parents b fd parts) f (Ok (fd ++ parts)) f.
Proof.
  induction parts as [|part parts IH]; intros fd f Hd; [rewrite app_nil_r; apply calmly_ret|]. cbn [open_parents].
  eapply calmly_bind; [apply calmly_openDirectoryAt; by apply (Hd [part] parts)|]. calm_step.
  replace (fd ++ part :: parts) with ((fd ++ [part]) ++ parts) by by rewrite <-app_assoc. apply IH.
  intros q rest -> Hq. unfold is_dir. rewrite <-app_assoc. by apply (Hd (part :: q) rest).
Qed.

Lemma calmly_Get dev ino f key parts x o :
  nodes_ok (d_nodes f) -> d_root f = Some (dev, ino) -> splitKey key = Ok parts ->
  d_nodes f !! parts = Some (NFile x) -> file_object x = Some o ->
  calmly (Store.Get dev ino key) f (Ok (mkReader (f_data x) None None, file_meta key x o)) f.
Proof.
  intros Hok Hroot Hk Hx Ho. pose proof (splitKey_app _ _ Hk) as Happ. unfold Store.Get, openParent. calm_step. rewrite Hk.
  eapply calmly_bind.
  { eapply calmly_bind; [by apply calmly_openRoot|]. eapply calmly_bind; [apply open_existing|apply calmly_ret].
    intros q rest Hq _. cbn. apply (nodes_ok_ancestor _ _ (rest ++ [List.last parts ""]) (NFile x)); [done| |by destruct rest].
    by rewrite app_assoc, <-Hq, Happ. }
  cbv beta iota. cbn [app]. eapply calmly_bind; [apply calmly_openRegularAt; by rewrite Happ|].
  eapply calmly_bind; [by apply calmly_metadataFromFile|]. calm_step. calm_step. apply calmly_ret.
Qed.

Lemma name_not_temporary key parts : splitKey key = Ok parts -> ~ temporary key (List.last parts "").
Proof.
  intros Hk Ht%temporary_hidden. pose proof (splitKey_visible _ _ Hk) as Hvis. rewrite <-(splitKey_app _ _ Hk) in Hvis.
  rewrite hidden_snoc in Hvis; [done|]. unfold bad_part. by rewrite Ht, !orb_true_r.
Qed.

(** The directory of a key is there, its old temporary files are gone and the rest is as it was. *)
Lemma calmly_prepare dev ino key parts f :
  ready dev ino key parts f ->
  let parent := removelast parts in
  exists g1 g2 g, calmly (lockKey dev ino key) f (Ok tt) g1 /\
    calmly (openParent dev ino key true) g1 (Ok (parent, List.last parts "")) g2 /\
    calmly (cleanupTemporaryFiles parent key) g2 (Ok tt) g /\
    d_root g = d_root f /\ d_random g = d_random f /\ d_nodes g !! parts = d_nodes f !! parts /\
    (forall name, temporary key name -> d_nodes g !! (parent ++ [name]) = None).
Proof.
  intros R parent. pose proof (splitKey_app _ _ (rd_key _ _ _ _ _ R)) as Happ. fold parent in Happ.
  destruct (calmly_lockKey _ _ _ _ _ R) as (g1 & Hl & Hr1 & Hn1 & Hsame1).
  pose proof (splitKey_visible _ _ (rd_key _ _ _ _ _ R)) as Hvis.
  assert (forall q rest, parts = q ++ rest -> q <> [] -> head q <> Some lockDirectory) as Hhead.
  { intros q rest -> Hq Hh. destruct q as [|x q]; [done|]. injection Hh as ->. cbn in Hvis. by rewrite bad_part_lock in Hvis. }
  assert (forall q rest, parent = q ++ rest -> q <> [] -> passable (d_nodes g1 !! ([] ++ q))) as Hpass.
  { intros q rest Hq Hne. assert (parts = q ++ (rest ++ [List.last parts ""])) as Hp by by rewrite <-Happ at 1; rewrite Hq, app_assoc.
    cbn [app]. rewrite Hsame1 by by eapply Hhead. by eapply R; [exact Hp|destruct rest]. }
  assert (forall name, temporary key name -> head (parent ++ [name]) <> Some lockDirectory) as Htemp.
  { intros name Ht. destruct parent as [|x parent'].
    - cbn. intros [= ->]. by apply temporary_hidden in Ht.
    - cbn. by apply (Hhead (x :: parent') [List.last parts ""]). }
  destruct (calmly_open_parents parent [] g1) as [Hop Hdir]; [unfold is_dir; rewrite Hsame1 by done; apply R|done|].
  set (g2 := with_dirs [] parent g1) in *. cbn [app] in *.
  assert (forall p, (length parent < length p)%nat -> d_nodes g2 !! p = d_nodes g1 !! p) as Hlong by (intros; by apply with_dirs_long).
  assert (forall name, (length parent < length (parent ++ [name]))%nat) as Hlen by (intros; rewrite length_app; cbn; lia).
  destruct (with_dirs_rest [] parent g1) as [Hr2 Hn2]. fold g2 in Hr2, Hn2.
  destruct (calmly_cleanup g2 parent key) as (g & Hc & Hr & Hrand & Hsame & Hgone).
  { intros name Ht. rewrite Hlong, Hsame1 by (done || by eapply Htemp). by apply R. }
  exists g1, g2, g. split; [done|]. split; [|split; [done|]].
  - unfold openParent. rewrite (rd_key _ _ _ _ _ R). eapply calmly_bind; [apply calmly_openRoot; rewrite Hr1; apply R|].
    eapply calmly_bind; [exact Hop|apply calmly_ret].
  - split; [congruence|]. split; [congruence|]. split; [|done].
    rewrite Hsame, <-Happ, Hlong, Hsame1; [done| |done|].
    + rewrite Happ. apply (Hhead parts []); [by rewrite app_nil_r|]. by eapply splitKey_nonempty, R.
    + intros name Ht Heq. rewrite <-Happ in Heq. apply app_inj_tail in Heq as [_ <-]. by eapply name_not_temporary; [apply R|].
Qed.

(** From the temporary file on. *)
Definition write_file (parent : list string) (name key : string) (body : bytes) : io disk (result ObjectMeta) :=
  do! tempName := createTemporaryFile parent key in
  Store.with_cleanup parent tempName (Store.conditional_body parent tempName name key body).

Lemma calmly_write_file f parent name key body :
  (2 <= length (d_random f))%nat -> (forall name, temporary key name -> d_nodes f !! (parent ++ [name]) = None) ->
  ~ temporary key name -> d_nodes f !! (parent ++ [name]) <> Some NDir ->
  exists g x o, calmly (write_file parent name key body) f (Ok (file_meta key x o)) g /\
    d_nodes g !! (parent ++ [name]) = Some (NFile x) /\ file_object x = Some o /\ o_body o = body /\ d_root g = d_root f.
Proof.
  intros Hr Hgone Hname Hdir. destruct (d_random f) as [|b1 [|b2 rest]] eqn:Er; [cbn in Hr; lia..|].
  destruct (calmly_createTemporaryFile f parent key b1 b2 rest Er Hgone) as (temp & g1 & x & Hc & Ht & Hnodes & Hd & Hxa & Hr1).
  assert (temp <> name) as Hne by by intros ->. assert (parent ++ [temp] <> parent ++ [name]) as Hne' by by intros [_ ?]%app_inj_tail.
  destruct (calmly_conditional_body g1 parent temp name key body x b2) as (g & Hb & Hg & Hroot);
    [by rewrite Hnodes, lookup_insert_eq|done|done|done|by rewrite Hnodes, lookup_insert_ne|].
  exists g, (add_data body x), (mkObject body (rev_of b2)). split; [|split; [by rewrite Hg, lookup_insert_eq|split; [by apply file_object_temp|split; [done|]]]].
  - unfold write_file. eapply calmly_bind; [exact Hc|]. unfold Store.with_cleanup. eapply calmly_bind; [exact Hb|].
    calm_step. cbn [snd fst]. calm_step. apply calmly_ret.
  - congruence.
Qed.

(** C12: a write whose condition holds goes through, and is read back.  On a disk that
    stands for a world and has nothing in the way of the key, PutConditional runs to its
    end without an error when the condition is well-formed and holds, also when the key's
    directories, the lock directory or temporary files of a crashed writer are yet to be
    made or removed; and Get then returns the bytes, with the metadata the write gave. *)
Theorem put_then_get dev ino key parts body c f w r :
  sim f w -> ready dev ino key parts f ->
  wc_MustBeAbsent c <> negb (str_eqb (wc_MatchRevision c) "") -> condition_holds c (object_at f key) ->
  exists m g, Store.PutConditional dev ino key body c (calm f r) = (Done (Ok m), calm g r) /\
    object_at g key = Some (mkObject body (om_Revision m)) /\
    Store.Get dev ino key (calm g r) = (Done (Ok (mkReader body None None, m)), calm g r).
Proof.
  intros Hs R Hvalid Hcond. pose proof (rd_key _ _ _ _ _ R) as Hk. pose proof (splitKey_app _ _ Hk) as Happ.
  destruct (calmly_prepare _ _ _ _ _ R) as (g1 & g2 & g & Hl & Ho & Hc & Hroot & Hrand & Htarget & Hgone).
  set (parent := removelast parts) in *. set (name := List.last parts "") in *.
  assert (d_nodes f !! parts <> Some NDir) as Hdir.
  { intros Hd. destruct (rd_target _ _ _ _ _ R) as [Hn|[o Hn]]; [congruence|]. unfold object_at in Hn. by rewrite Hk, Hd in Hn. }
  destruct (calmly_write_file g parent name key body) as (h & x & o & Hw & Hx & Hobj & Hbody & Hroot');
    [rewrite Hrand; apply R|done|by eapply name_not_temporary|by rewrite Happ, Htarget|].
  exists (file_meta key x o), h. rewrite Happ in Hx.
  assert (calmly (Store.PutConditional dev ino key body c) f (Ok (file_meta key x o)) h) as Hput.
  { unfold Store.PutConditional. rewrite Hk. replace (Bool.eqb _ _) with false by by symmetry; apply eqb_false_iff.
    eapply calmly_bind; [exact Hl|]. eapply calmly_bind; [exact Ho|]. cbv beta iota. eapply calmly_bind; [exact Hc|].
    fold (write_file parent name key body). unfold condition_holds in Hcond. unfold object_at in Hcond. rewrite Hk in Hcond.
    destruct (wc_MustBeAbsent c) eqn:Em.
    - assert (d_nodes f !! parts = None) as Hn.
      { destruct (rd_target _ _ _ _ _ R) as [Hn|[o' Hn]]; [done|]. unfold object_at in Hn. rewrite Hk in Hn. congruence. }
      eapply calmly_bind; [apply calmly_metadataAt_none; by rewrite Happ, Htarget|]. cbn -[calmly write_file].
      destruct (str_eqb (wc_MatchRevision c) ""); [exact Hw|done].
    - destruct Hcond as (o' & Ho' & Hrev). destruct (d_nodes f !! parts) as [[|y| |]|] eqn:Ey; try done.
      eapply calmly_bind; [eapply calmly_metadataAt; [by rewrite Happ, Htarget|exact Ho']|]. cbn -[calmly write_file str_eqb].
      rewrite Hrev, str_eqb_refl, andb_false_r. exact Hw. }
  assert (nodes_ok (d_nodes h)) as Hok.
  { destruct (PutConditional_refines dev ino f w key body c (Done (Ok (file_meta key x o))) h Hs) as (? & w' & ? & _ & Hs' & _); [|apply Hs'].
    exists (calm f r), (calm h r). by split; [apply Hput|]. }
  split; [apply Hput|]. split; [unfold object_at; rewrite Hk, Hx; cbn; rewrite Hobj; subst body; by destruct o|].
  assert (f_data x = body) as <-.
  { unfold file_object in Hobj. destruct (f_xattr x); [|done]. destruct (Nat.eqb _ _); [|done]. injection Hobj as <-. exact Hbody. }
  apply calmly_Get with parts; [done| |done|done|done]. rewrite Hroot', Hroot. apply R.
Qed.

Definition sample_key : string := "camp/main/latest.json".

Lemma sample_ready : ready 1 2 sample_key ["camp"; "main"; "latest.json"] sample_disk.
Proof.
  split.
  - reflexivity.
  - reflexivity.
  - reflexivity.
  - intros q rest Hp Hr. cbn [d_nodes sample_disk]. destruct q as [|x q]; [by right|]. left. by rewrite lookup_singleton_ne.
  - by left.
  - by left.
  - intros n. generalize (sha256Hex sample_key +:+ ".lock"). intros s. cbn [d_nodes sample_disk].
    rewrite lookup_singleton_ne by discriminate. discriminate.
  - intros name _. cbn [d_nodes sample_disk removelast app]. rewrite lookup_singleton_ne by discriminate. discriminate.
  - cbn. lia.
Qed.

Lemma put_then_get_witness :
  exists m g, Store.PutConditional 1 2 sample_key "body" (mkWriteCondition true "") (calm sample_disk []) = (Done (Ok m), calm g []) /\
    object_at g sample_key = Some (mkObject "body" (om_Revision m)) /\
    Store.Get 1 2 sample_key (calm g []) = (Done (Ok (mkReader "body" None None, m)), calm g []).
Proof.
  apply (put_then_get 1 2 sample_key ["camp"; "main"; "latest.json"] "body" (mkWriteCondition true "") sample_disk sample_world []).
  - exact sample_sim.
  - exact sample_ready.
  - done.
  - done.
Defined.
