(* ===== verification/HaulManifest.v ===== *)
(** haulkit's manifest (haulkit/manifest.go): the canonical description of a Camp
    Hauler kit, its validation and its one text. *)
From S2P Require Import Prelude Sha256 GoTime Json Codec Regexp Domain Paths.

(** * Data *)
(** [StoreEntry] (manifest.go) *)
Record StoreEntry := mkStoreEntry {
  se_Reference : string;
  se_Type : string;
  se_Platform : string;
  se_Digest : string;
  se_Size : Z }.

#[export] Instance StoreEntry_eq_dec : EqDecision StoreEntry.
Proof. solve_decision. Defined.

Definition StoreEntry_fields : fields _ :=
  FCons "reference" false codec_string (
  FCons "type" false codec_string (
  FCons "platform" true codec_string (
  FCons "digest" false codec_string (
  FCons "size" true int64_codec ( FNil))))).
#[export] Instance StoreEntry_codec : Codec StoreEntry := codec_struct StoreEntry_fields
  (fun r => (se_Reference r, (se_Type r, (se_Platform r, (se_Digest r, (se_Size r, tt))))))
  (fun t => let '(x0, (x1, (x2, (x3, (x4, _))))) := t in mkStoreEntry x0 x1 x2 x3 x4).
#[export] Instance StoreEntry_laws : CodecLaws StoreEntry _.
Proof. solve_struct_laws. Qed.

(** [StoreIdentity] (manifest.go) *)
Record StoreIdentity := mkStoreIdentity {
  si_HaulerVersion : string;
  si_IndexSHA256 : string;
  si_Entries : slice StoreEntry }.

#[export] Instance StoreIdentity_eq_dec : EqDecision StoreIdentity.
Proof. solve_decision. Defined.

Definition StoreIdentity_fields : fields _ :=
  FCons "haulerVersion" false codec_string (
  FCons "indexSHA256" false codec_string (
  FCons "entries" false (_ : Codec (slice StoreEntry)) ( FNil))).
#[export] Instance StoreIdentity_codec : Codec StoreIdentity := codec_struct StoreIdentity_fields
  (fun r => (si_HaulerVersion r, (si_IndexSHA256 r, (si_Entries r, tt))))
  (fun t => let '(x0, (x1, (x2, _))) := t in mkStoreIdentity x0 x1 x2).
#[export] Instance StoreIdentity_laws : CodecLaws StoreIdentity _.
Proof. solve_struct_laws. Qed.

(** [RootIdentity] (manifest.go) *)
Record RootIdentity := mkRootIdentity {
  ri_Reference : string;
  ri_SHA256 : string;
  ri_Size : Z }.

#[export] Instance RootIdentity_eq_dec : EqDecision RootIdentity.
Proof. solve_decision. Defined.

Definition RootIdentity_fields : fields _ :=
  FCons "reference" false codec_string (
  FCons "sha256" false codec_string (
  FCons "size" false int64_codec ( FNil))).
#[export] Instance RootIdentity_codec : Codec RootIdentity := codec_struct RootIdentity_fields
  (fun r => (ri_Reference r, (ri_SHA256 r, (ri_Size r, tt))))
  (fun t => let '(x0, (x1, (x2, _))) := t in mkRootIdentity x0 x1 x2).
#[export] Instance RootIdentity_laws : CodecLaws RootIdentity _.
Proof. solve_struct_laws. Qed.

(** [FileIdentity] (manifest.go) *)
Record FileIdentity := mkFileIdentity {
  fi_Name : string;
  fi_Version : string;
  fi_SHA256 : string;
  fi_Size : Z }.

#[export] Instance FileIdentity_eq_dec : EqDecision FileIdentity.
Proof. solve_decision. Defined.

Definition FileIdentity_fields : fields _ :=
  FCons "name" false codec_string (
  FCons "version" false codec_string (
  FCons "sha256" false codec_string (
  FCons "size" false int64_codec ( FNil)))).
#[export] Instance FileIdentity_codec : Codec FileIdentity := codec_struct FileIdentity_fields
  (fun r => (fi_Name r, (fi_Version r, (fi_SHA256 r, (fi_Size r, tt)))))
  (fun t => let '(x0, (x1, (x2, (x3, _)))) := t in mkFileIdentity x0 x1 x2 x3).
#[export] Instance FileIdentity_laws : CodecLaws FileIdentity _.
Proof. solve_struct_laws. Qed.

(** [ToolIdentities] (manifest.go) *)
Record ToolIdentities := mkToolIdentities {
  ti_Camp : FileIdentity;
  ti_Hauler : FileIdentity;
  ti_Pasta : FileIdentity }.

#[export] Instance ToolIdentities_eq_dec : EqDecision ToolIdentities.
Proof. solve_decision. Defined.

Definition ToolIdentities_fields : fields _ :=
  FCons "camp" false (_ : Codec (FileIdentity)) (
  FCons "hauler" false (_ : Codec (FileIdentity)) (
  FCons "pasta" false (_ : Codec (FileIdentity)) ( FNil))).
#[export] Instance ToolIdentities_codec : Codec ToolIdentities := codec_struct ToolIdentities_fields
  (fun r => (ti_Camp r, (ti_Hauler r, (ti_Pasta r, tt))))
  (fun t => let '(x0, (x1, (x2, _))) := t in mkToolIdentities x0 x1 x2).
#[export] Instance ToolIdentities_laws : CodecLaws ToolIdentities _.
Proof. solve_struct_laws. Qed.

(** [ArchiveIdentity] (manifest.go) *)
Record ArchiveIdentity := mkArchiveIdentity {
  ai_SHA256 : string;
  ai_Size : Z }.

#[export] Instance ArchiveIdentity_eq_dec : EqDecision ArchiveIdentity.
Proof. solve_decision. Defined.

Definition ArchiveIdentity_fields : fields _ :=
  FCons "sha256" false codec_string (
  FCons "size" false int64_codec ( FNil)).
#[export] Instance ArchiveIdentity_codec : Codec ArchiveIdentity := codec_struct ArchiveIdentity_fields
  (fun r => (ai_SHA256 r, (ai_Size r, tt)))
  (fun t => let '(x0, (x1, _)) := t in mkArchiveIdentity x0 x1).
#[export] Instance ArchiveIdentity_laws : CodecLaws ArchiveIdentity _.
Proof. solve_struct_laws. Qed.

(** [ChunkIdentity] (manifest.go) *)
Record ChunkIdentity := mkChunkIdentity {
  ck_Index : Z;
  ck_Name : string;
  ck_SHA256 : string;
  ck_Size : Z }.

#[export] Instance ChunkIdentity_eq_dec : EqDecision ChunkIdentity.
Proof. solve_decision. Defined.

Definition ChunkIdentity_fields : fields _ :=
  FCons "index" false uint32_codec (
  FCons "name" false codec_string (
  FCons "sha256" false codec_string (
  FCons "size" false int64_codec ( FNil)))).
#[export] Instance ChunkIdentity_codec : Codec ChunkIdentity := codec_struct ChunkIdentity_fields
  (fun r => (ck_Index r, (ck_Name r, (ck_SHA256 r, (ck_Size r, tt)))))
  (fun t => let '(x0, (x1, (x2, (x3, _)))) := t in mkChunkIdentity x0 x1 x2 x3).
#[export] Instance ChunkIdentity_laws : CodecLaws ChunkIdentity _.
Proof. solve_struct_laws. Qed.

(** [Manifest] (manifest.go) *)
Record Manifest := mkManifest {
  mf_SchemaVersion : Z;
  mf_Kind : string;
  mf_SessionID : string;
  mf_Capsule : string;
  mf_Lineage : Lineage;
  mf_Generation : option GenerationRef;
  mf_Architecture : string;
  mf_Store : StoreIdentity;
  mf_Root : RootIdentity;
  mf_Tools : ToolIdentities;
  mf_Archive : ArchiveIdentity;
  mf_Chunks : slice ChunkIdentity }.

#[export] Instance Manifest_eq_dec : EqDecision Manifest.
Proof. solve_decision. Defined.

Definition Manifest_fields : fields _ :=
  FCons "schemaVersion" false uint32_codec (
  FCons "kind" false codec_string (
  FCons "sessionId" false codec_string (
  FCons "capsule" false codec_string (
  FCons "lineage" false (_ : Codec (Lineage)) (
  FCons "generation" true (_ : Codec (option GenerationRef)) (
  FCons "architecture" false codec_string (
  FCons "store" false (_ : Codec (StoreIdentity)) (
  FCons "root" false (_ : Codec (RootIdentity)) (
  FCons "tools" false (_ : Codec (ToolIdentities)) (
  FCons "archive" false (_ : Codec (ArchiveIdentity)) (
  FCons "chunks" false (_ : Codec (slice ChunkIdentity)) ( FNil)))))))))))).
#[export] Instance Manifest_codec : Codec Manifest := codec_struct Manifest_fields
  (fun r => (mf_SchemaVersion r, (mf_Kind r, (mf_SessionID r, (mf_Capsule r, (mf_Lineage r,
  (mf_Generation r, (mf_Architecture r, (mf_Store r, (mf_Root r, (mf_Tools r, (mf_Archive r, (mf_Chunks r,
  tt)))))))))))))
  (fun t => let '(x0, (x1, (x2, (x3, (x4, (x5, (x6, (x7, (x8, (x9, (x10, (x11, _)))))))))))) := t in
  mkManifest x0 x1 x2 x3 x4 x5 x6 x7 x8 x9 x10 x11).
#[export] Instance Manifest_laws : CodecLaws Manifest _.
Proof. solve_struct_laws. Qed.

Definition ManifestSchemaVersion : Z := 1.
Definition DefaultChunkSize : Z := 256 * 2 ^ 20.
Definition manifestKind : string := "camp-hauler-kit".
Definition maxManifestBytes : Z := 4 * 2 ^ 20.
Definition maxArchiveBytes : Z := 64 * 2 ^ 30.
Definition maxChunkBytes : Z := DefaultChunkSize.
Definition maxChunkCount : Z := 256.

(** * Names *)

(** [strings.IndexFunc(value, unicode.IsControl) >= 0]: the runes below U+0020 and from
    U+007F to U+009F; a byte that starts no rune is U+FFFD, which is no control. *)
Definition control_rune (r : string) : bool :=
  match string_bytes r with
  | [b] => (b <? 32) || (b =? 127)
  | [a; b] => (a =? 194) && (128 <=? b) && (b <=? 159)
  | _ => false
  end.
Fixpoint has_control (fuel : nat) (s : string) : bool :=
  match fuel, s with
  | S fuel', String c s' =>
      match rune_size s with
      | O => has_control fuel' s'
      | n => control_rune (str_take n s) || has_control fuel' (str_drop n s)
      end
  | _, _ => false
  end.
Definition hasControl (value : string) : bool := has_control (String.length value) value.

Definition haul_validSHA256 (value : string) : bool :=
  (str_len value =? 64) && (hex_decodable value && str_eqb value (ToLower value)).

Definition safeSegment (value : string) : bool :=
  negb (str_eqb value "") && negb (str_eqb value ".") && negb (str_eqb value "..") &&
  negb (ContainsAny value key_separators) && negb (hasControl value).

Definition safeRelativeName (value : string) : bool :=
  negb (str_eqb value "") && str_eqb (Base value) value && negb (str_eqb value ".") && negb (str_eqb value "..") &&
  negb (hasControl value).

Definition unsafePath (value : string) : bool :=
  if IsAbs value || str_exists (fun c => byte_val c =? 92) value || hasControl value then true
  else existsb (fun segment => str_eqb segment "" || str_eqb segment "." || str_eqb segment "..") (Split value "/").

(** * Validation *)
Definition NormalizeRootReference (reference : string) : result string :=
  let! name :=
    (if HasPrefix reference "hauler/" then
       if negb (HasSuffix reference ":latest") then Err ErrInvalidManifest
       else Ok (TrimSuffix (TrimPrefix reference "hauler/") ":latest")
     else Ok reference) in
  if negb (safeRelativeName name) || negb (HasSuffix name ".tar.zst") then Err ErrInvalidManifest
  else Ok ("hauler/" +:+ name +:+ ":latest").

Definition entry_key (e : StoreEntry) : string :=
  se_Type e +:+ String "000" (se_Reference e +:+ String "000" (se_Platform e)).

Definition bad_entry (e : StoreEntry) : bool :=
  str_eqb (se_Reference e) "" || unsafePath (se_Reference e) ||
  (negb (str_eqb (se_Type e) "file") && negb (str_eqb (se_Type e) "image")) ||
  negb (haul_validSHA256 (se_Digest e)) || (se_Size e <? 0) ||
  (negb (str_eqb (se_Platform e) "") && negb (str_eqb (se_Platform e) "linux/amd64") &&
   negb (str_eqb (se_Platform e) "linux/arm64")).

Fixpoint validate_entries (entries : list StoreEntry) (seen : list string) : result unit :=
  match entries with
  | [] => Ok tt
  | e :: rest =>
      if bad_entry e then Err ErrInvalidManifest
      else if existsb (str_eqb (entry_key e)) seen then Err ErrInvalidManifest
      else validate_entries rest (entry_key e :: seen)
  end.

Definition bad_tool (tool : FileIdentity) : bool :=
  negb (safeRelativeName (fi_Name tool)) || str_eqb (fi_Version tool) "" || negb (haul_validSHA256 (fi_SHA256 tool)) ||
  (fi_Size tool <=? 0).

(** The wrap-around of int64 arithmetic. *)
Definition wrap64 (z : Z) : Z := (z + 2 ^ 63) mod 2 ^ 64 - 2 ^ 63.

Fixpoint validate_chunks (archiveSize : Z) (index : Z) (chunks : list ChunkIdentity) (chunkBytes : Z) : result Z :=
  match chunks with
  | [] => Ok chunkBytes
  | chunk :: rest =>
      if negb (ck_Index chunk =? index mod 2 ^ 32) || negb (safeRelativeName (ck_Name chunk)) ||
         negb (haul_validSHA256 (ck_SHA256 chunk)) || (ck_Size chunk <=? 0)
      then Err ErrInvalidManifest
      else if maxChunkBytes <? ck_Size chunk then Err ErrArchiveLimit
      else if wrap64 (archiveSize - ck_Size chunk) <? chunkBytes then Err ErrInvalidManifest
      else validate_chunks archiveSize (index + 1) rest (wrap64 (chunkBytes + ck_Size chunk))
  end.

Definition Manifest_Validate (m : Manifest) : result unit :=
  check (mf_SchemaVersion m =? ManifestSchemaVersion) && str_eqb (mf_Kind m) manifestKind else ErrInvalidManifest;
  check safeSegment (mf_SessionID m) && safeSegment (mf_Capsule m) && safeSegment (ln_Branch (mf_Lineage m)) else ErrInvalidManifest;
  check (match mf_Generation m with
         | Some g => negb (gr_Generation g =? 0) && haul_validSHA256 (gr_ArchiveSHA256 g)
         | None => true
         end) else ErrInvalidManifest;
  check str_eqb (mf_Architecture m) "linux/amd64" || str_eqb (mf_Architecture m) "linux/arm64" else ErrInvalidManifest;
  check negb (str_eqb (si_HaulerVersion (mf_Store m)) "") && haul_validSHA256 (si_IndexSHA256 (mf_Store m)) &&
        negb (Nat.eqb (length (elems (si_Entries (mf_Store m)))) 0) else ErrInvalidManifest;
  let! _ := validate_entries (elems (si_Entries (mf_Store m))) [] in
  check (match NormalizeRootReference (ri_Reference (mf_Root m)) with
         | Ok normalized => str_eqb normalized (ri_Reference (mf_Root m))
         | Err _ => false
         end) && haul_validSHA256 (ri_SHA256 (mf_Root m)) && (0 <? ri_Size (mf_Root m)) else ErrInvalidManifest;
  check negb (existsb bad_tool [ti_Camp (mf_Tools m); ti_Hauler (mf_Tools m); ti_Pasta (mf_Tools m)]) else ErrInvalidManifest;
  check haul_validSHA256 (ai_SHA256 (mf_Archive m)) && (0 <? ai_Size (mf_Archive m)) &&
        negb (Nat.eqb (length (elems (mf_Chunks m))) 0) else ErrInvalidManifest;
  check negb ((maxArchiveBytes <? ai_Size (mf_Archive m)) || (maxChunkCount <? Z.of_nat (length (elems (mf_Chunks m))))) else ErrArchiveLimit;
  let! chunkBytes := validate_chunks (ai_Size (mf_Archive m)) 0 (elems (mf_Chunks m)) 0 in
  check chunkBytes =? ai_Size (mf_Archive m) else ErrInvalidManifest;
  Ok tt.

(** * The canonical text *)
Definition entry_less (a b : StoreEntry) : bool :=
  if negb (str_eqb (se_Reference a) (se_Reference b)) then str_ltb (se_Reference a) (se_Reference b)
  else if negb (str_eqb (se_Type a) (se_Type b)) then str_ltb (se_Type a) (se_Type b)
  else str_ltb (se_Platform a) (se_Platform b).
Definition chunk_less (a b : ChunkIdentity) : bool := ck_Index a <? ck_Index b.

(** [append([]T(nil), s...)]: appending nothing to nil gives nil. *)
Definition copied {A} (l : list A) : slice A := match l with [] => SNil | _ => SList l end.

Definition canonical (m : Manifest) : Manifest :=
  mkManifest (mf_SchemaVersion m) (mf_Kind m) (mf_SessionID m) (mf_Capsule m) (mf_Lineage m) (mf_Generation m) (mf_Architecture m)
    (mkStoreIdentity (si_HaulerVersion (mf_Store m)) (si_IndexSHA256 (mf_Store m))
       (copied (sort_slice entry_less (elems (si_Entries (mf_Store m))))))
    (mf_Root m) (mf_Tools m) (mf_Archive m) (copied (sort_slice chunk_less (elems (mf_Chunks m)))).

Definition MarshalCanonical (m : Manifest) : result bytes :=
  let copyManifest := canonical m in
  let! _ := Manifest_Validate copyManifest in
  marshal copyManifest.

(** [decoder.More()] after the value: something other than a closing bracket follows. *)
Definition More (rest : string) : bool :=
  match skip_ws rest with
  | EmptyString => false
  | String c _ => negb (byte_val c =? 93) && negb (byte_val c =? 125)
  end.

Definition DecodeCanonical (body : bytes) : result Manifest :=
  if (str_len body =? 0) || (maxManifestBytes <? str_len body) then Err ErrInvalidManifest
  else
  match parse_value (2 * String.length body + 2) 0 body with
  | None => Err ErrInvalidManifest
  | Some (j, rest) =>
      match c_dec true j c_zero with
      | None => Err ErrInvalidManifest
      | Some manifest =>
          if More rest then Err ErrInvalidManifest
          else
          let! canonical := MarshalCanonical manifest in
          if str_eqb body canonical then Ok manifest else Err ErrInvalidManifest
      end
  end.

(** * What a valid manifest says *)
Definition chunk_sum (chunks : list ChunkIdentity) : Z := foldr (fun c n => ck_Size c + n) 0 chunks.

Lemma chunk_sum_nonneg chunks : Forall (fun c => 0 < ck_Size c <= maxChunkBytes) chunks -> 0 <= chunk_sum chunks.
Proof. induction 1 as [|c l Hc Hl IH]; [done|]. change (chunk_sum (c :: l)) with (ck_Size c + chunk_sum l). lia. Qed.

Lemma wrap64_id z : - 2 ^ 63 <= z < 2 ^ 63 -> wrap64 z = z.
Proof. intros H. unfold wrap64. rewrite Z.mod_small; lia. Qed.

Lemma validate_chunks_spec size chunks : forall index acc total,
  0 <= size <= maxArchiveBytes -> 0 <= acc <= size -> 0 <= index -> validate_chunks size index chunks acc = Ok total ->
  total = acc + chunk_sum chunks /\ total <= size /\ Forall (fun c => 0 < ck_Size c <= maxChunkBytes) chunks /\
  forall i c, chunks !! i = Some c -> ck_Index c = (index + Z.of_nat i) mod 2 ^ 32.
Proof.
  assert (maxChunkBytes = 268435456 /\ maxArchiveBytes = 68719476736) as [Hmc Hma] by done.
  induction chunks as [|c chunks IH]; intros index acc total Hs Ha Hi H; cbn [validate_chunks] in H.
  { injection H as <-. cbn. split; [lia|]. split; [lia|]. split; [constructor|done]. }
  destruct (_ || (ck_Size c <=? 0)) eqn:E1; [done|]. destruct (maxChunkBytes <? ck_Size c) eqn:E2; [done|].
  destruct (wrap64 (size - ck_Size c) <? acc) eqn:E3; [done|].
  apply orb_false_iff in E1 as [E1 E4]. apply orb_false_iff in E1 as [E1 _]. apply orb_false_iff in E1 as [E1 _].
  apply negb_false_iff, Z.eqb_eq in E1. apply Z.leb_gt in E4. apply Z.ltb_ge in E2, E3.
  change (2 ^ 32) with 4294967296 in *. assert (- 2 ^ 63 = -9223372036854775808 /\ 2 ^ 63 = 9223372036854775808) as [H1 H2] by done.
  rewrite wrap64_id in E3 by lia. rewrite wrap64_id in H by lia. clear H1 H2.
  apply IH in H as (Ht & Hle & Hf & Hidx); [|lia..]. cbn [chunk_sum foldr]. fold (chunk_sum chunks).
  split; [lia|]. split; [done|]. split; [constructor; [lia|done]|].
  intros [|i] c' Hc'; [injection Hc' as <-; by rewrite Z.add_0_r|]. apply Hidx in Hc'. rewrite Hc'. f_equal. lia.
Qed.

Lemma validate_entries_nodup entries : forall seen,
  validate_entries entries seen = Ok tt -> NoDup (map entry_key entries) /\ forall e, e ∈ entries -> entry_key e ∉ seen.
Proof.
  induction entries as [|e entries IH]; intros seen H; cbn [validate_entries] in H; [split; [constructor|by intros ? ?%elem_of_nil]|].
  destruct (bad_entry e); [done|]. destruct (existsb (str_eqb (entry_key e)) seen) eqn:Ex; [done|].
  destruct (IH _ H) as [Hnd Hs]. assert (entry_key e ∉ seen) as Hni.
  { intros Hin. rewrite <-not_true_iff_false in Ex. apply Ex, existsb_exists. exists (entry_key e).
    split; [by apply list_elem_of_In|apply str_eqb_refl]. }
  split.
  - cbn. constructor; [|done]. intros (e' & He' & Hin)%list_elem_of_fmap. apply Hs in Hin. apply Hin. rewrite <-He'. by left.
  - intros e' [->|Hin]%elem_of_cons; [done|]. intros Hs'. apply (Hs e' Hin). by right.
Qed.

Lemma Manifest_Validate_parts m : Manifest_Validate m = Ok tt ->
  validate_entries (elems (si_Entries (mf_Store m))) [] = Ok tt /\ 0 < ai_Size (mf_Archive m) <= maxArchiveBytes /\
  (0 < length (elems (mf_Chunks m)))%nat /\ Z.of_nat (length (elems (mf_Chunks m))) <= maxChunkCount /\
  validate_chunks (ai_Size (mf_Archive m)) 0 (elems (mf_Chunks m)) 0 = Ok (ai_Size (mf_Archive m)).
Proof.
  unfold Manifest_Validate. intros H. repeat (case_match; try discriminate H; []).
  destruct (validate_entries _ _) as [[]|] eqn:Ee; [|discriminate H]. cbn [result_bind] in H.
  repeat (case_match; try discriminate H; []).
  destruct (validate_chunks _ _ _ _) as [total|] eqn:Ec; [|discriminate H]. cbn [result_bind] in H.
  destruct (total =? _) eqn:Et; [|discriminate H]. apply Z.eqb_eq in Et. subst total.
  repeat match goal with
  | X : _ && _ = true |- _ => apply andb_true_iff in X as [? ?]
  | X : negb (_ || _) = true |- _ => apply negb_true_iff, orb_false_iff in X as [? ?]
  end. bool_norm.
  match goal with X : Nat.eqb (length (elems (mf_Chunks m))) 0 = false |- _ => apply Nat.eqb_neq in X end.
  split; [done|]. split; [lia|]. split; [lia|]. split; [lia|done].
Qed.

(** C39: the sizes of a valid manifest add up without overflow.  Its chunks are numbered
    from zero, each has between one byte and the largest chunk, there are at most
    [maxChunkCount], and the int64 sum that Validate computes is the sum of the sizes:
    it is the size of the archive, which is within its own limit.  No two entries of the
    store are the same. *)
Theorem manifest_bounds m :
  Manifest_Validate m = Ok tt ->
  let chunks := elems (mf_Chunks m) in
  chunk_sum chunks = ai_Size (mf_Archive m) /\ 0 < chunk_sum chunks <= maxArchiveBytes /\
  (0 < length chunks <= 256)%nat /\
  (forall i c, chunks !! i = Some c -> ck_Index c = Z.of_nat i /\ 0 < ck_Size c <= maxChunkBytes) /\
  NoDup (map entry_key (elems (si_Entries (mf_Store m)))).
Proof.
  intros H chunks. destruct (Manifest_Validate_parts m H) as (He & Ha & Hn & Hmax & Hc). fold chunks in Hn, Hmax, Hc.
  change maxChunkCount with 256 in Hmax.
  apply validate_chunks_spec in Hc as (Hsum & Hle & Hf & Hidx); [|lia..].
  split; [lia|]. split; [lia|]. split; [lia|]. split; [|by eapply validate_entries_nodup].
  intros i c Hi. split; [|rewrite Forall_lookup in Hf; by eapply Hf].
  rewrite (Hidx i c Hi), Z.mod_small; [lia|]. apply lookup_lt_Some in Hi. lia.
Qed.

(** * The canonical text *)
Lemma str_le_trans a b c : str_ltb b a = false -> str_ltb c b = false -> str_ltb c a = false.
Proof.
  intros Hab Hbc. destruct (str_ltb c a) eqn:E; [|done]. destruct (str_ltb b c) eqn:E1.
  - rewrite (str_ltb_trans _ _ _ E1 E) in Hab. done.
  - rewrite (str_ltb_total _ _ E1 Hbc) in Hab. congruence.
Qed.

(** The order of three texts, one after the other. *)
Lemma entry_less_asym a b : entry_less a b = true -> entry_less b a = false.
Proof.
  unfold entry_less. destruct (str_eqb (se_Reference a) (se_Reference b)) eqn:E1; bool_norm; cbn [negb].
  - rewrite E1, str_eqb_refl. cbn [negb]. destruct (str_eqb (se_Type a) (se_Type b)) eqn:E2; bool_norm; cbn [negb].
    + rewrite E2, str_eqb_refl. apply str_ltb_asym.
    + replace (str_eqb (se_Type b) (se_Type a)) with false by (symmetry; apply str_eqb_neq; congruence). apply str_ltb_asym.
  - replace (str_eqb (se_Reference b) (se_Reference a)) with false by (symmetry; apply str_eqb_neq; congruence). apply str_ltb_asym.
Qed.

Lemma lex_le_trans (x1 x2 x3 : string) (r12 r23 r13 : bool) :
  (x1 = x2 -> x2 = x3 -> r12 = false -> r23 = false -> r13 = false) ->
  (if negb (str_eqb x2 x1) then str_ltb x2 x1 else r12) = false ->
  (if negb (str_eqb x3 x2) then str_ltb x3 x2 else r23) = false ->
  (if negb (str_eqb x3 x1) then str_ltb x3 x1 else r13) = false.
Proof.
  intros Hr H12 H23. destruct (str_eqb x2 x1) eqn:E12, (str_eqb x3 x2) eqn:E23; bool_norm; subst; cbn [negb] in *.
  - rewrite str_eqb_refl. cbn. by apply Hr.
  - apply str_eqb_neq in E23. by rewrite E23.
  - apply str_eqb_neq in E12. by rewrite E12.
  - destruct (str_eqb x3 x1) eqn:E13; bool_norm; cbn [negb]; [|by eapply str_le_trans].
    subst. exfalso. apply E12. by apply str_ltb_total.
Qed.

Lemma entry_less_trans a b c : entry_less b a = false -> entry_less c b = false -> entry_less c a = false.
Proof.
  unfold entry_less. apply lex_le_trans. intros _ _. apply lex_le_trans. intros _ _. apply str_le_trans.
Qed.

Lemma entry_less_total a b : entry_less a b = false -> entry_less b a = false -> entry_key a = entry_key b.
Proof.
  unfold entry_less, entry_key. destruct (str_eqb (se_Reference a) (se_Reference b)) eqn:E1; bool_norm; cbn [negb].
  - rewrite E1, str_eqb_refl. cbn [negb]. destruct (str_eqb (se_Type a) (se_Type b)) eqn:E2; bool_norm; cbn [negb].
    + rewrite E2, str_eqb_refl. cbn [negb]. intros H1 H2. by rewrite (str_ltb_total _ _ H1 H2).
    + replace (str_eqb (se_Type b) (se_Type a)) with false by (symmetry; apply str_eqb_neq; congruence). cbn [negb].
      intros H1 H2. by rewrite (str_ltb_total _ _ H1 H2) in E2.
  - replace (str_eqb (se_Reference b) (se_Reference a)) with false by (symmetry; apply str_eqb_neq; congruence). cbn [negb].
    intros H1 H2. by rewrite (str_ltb_total _ _ H1 H2) in E1.
Qed.

Lemma nodup_key_inj {A B} (key : A -> B) l a b : NoDup (map key l) -> a ∈ l -> b ∈ l -> key a = key b -> a = b.
Proof.
  induction l as [|x l IH]; [by intros _ ?%elem_of_nil|]. cbn. intros [Hx Hnd]%NoDup_cons Ha Hb Heq.
  apply elem_of_cons in Ha as [->|Ha], Hb as [->|Hb]; [done| | |by apply IH].
  - exfalso. apply Hx, list_elem_of_fmap. by exists b.
  - exfalso. apply Hx, list_elem_of_fmap. by exists a.
Qed.

(** A manifest with its entries and chunks in another order. *)
Definition with_lists (m : Manifest) (entries : list StoreEntry) (chunks : list ChunkIdentity) : Manifest :=
  mkManifest (mf_SchemaVersion m) (mf_Kind m) (mf_SessionID m) (mf_Capsule m) (mf_Lineage m) (mf_Generation m) (mf_Architecture m)
    (mkStoreIdentity (si_HaulerVersion (mf_Store m)) (si_IndexSHA256 (mf_Store m)) (SList entries))
    (mf_Root m) (mf_Tools m) (mf_Archive m) (SList chunks).

Lemma elems_copied {A} (l : list A) : elems (copied l) = l.
Proof. by destruct l. Qed.

Lemma chunks_nodup m : Manifest_Validate m = Ok tt -> NoDup (map ck_Index (elems (mf_Chunks m))).
Proof.
  intros H. destruct (Manifest_Validate_parts m H) as (_ & Ha & _ & Hmax & Hc). change maxChunkCount with 256 in Hmax.
  apply validate_chunks_spec in Hc as (_ & _ & _ & Hidx); [|lia..].
  apply NoDup_alt. intros i j x Hi Hj. apply list_lookup_fmap_Some in Hi as (a & -> & Hi), Hj as (b & Heq & Hj).
  rewrite (Hidx _ _ Hi), (Hidx _ _ Hj) in Heq. apply lookup_lt_Some in Hi, Hj. rewrite !Z.mod_small in Heq by lia. lia.
Qed.

(** The canonical form of a valid kit does not depend on the order it came in. *)
Lemma canonical_reordered m entries chunks :
  Manifest_Validate (canonical m) = Ok tt ->
  elems (si_Entries (mf_Store m)) ≡ₚ entries -> elems (mf_Chunks m) ≡ₚ chunks ->
  canonical (with_lists m entries chunks) = canonical m.
Proof.
  intros Hv He Hc. unfold canonical, with_lists. cbn [mf_SchemaVersion mf_Kind mf_SessionID mf_Capsule mf_Lineage mf_Generation
    mf_Architecture mf_Store mf_Root mf_Tools mf_Archive mf_Chunks si_HaulerVersion si_IndexSHA256 si_Entries elems].
  pose proof (proj1 (Manifest_Validate_parts _ Hv)) as Hent. apply validate_entries_nodup in Hent as [Hent _].
  pose proof (chunks_nodup _ Hv) as Hch. cbn [canonical mf_Store si_Entries mf_Chunks] in Hent, Hch.
  rewrite elems_copied, sort_slice_perm in Hent. rewrite elems_copied, sort_slice_perm in Hch.
  rewrite <-(sort_slice_unique entry_less _ _ entry_less_asym entry_less_trans) with (2 := He).
  2: { intros a b Ha Hb H1 H2. eapply nodup_key_inj; [exact Hent|done|done|]. by apply entry_less_total. }
  rewrite <-(sort_slice_unique chunk_less (elems (mf_Chunks m)) chunks); [done|..|done].
  - unfold chunk_less. lia.
  - unfold chunk_less. lia.
  - intros a b Ha Hb H1 H2. eapply nodup_key_inj; [exact Hch|done|done|]. unfold chunk_less in *. lia.
Qed.

Lemma canonical_idem m : canonical (canonical m) = canonical m.
Proof.
  unfold canonical. cbn [mf_SchemaVersion mf_Kind mf_SessionID mf_Capsule mf_Lineage mf_Generation
    mf_Architecture mf_Store mf_Root mf_Tools mf_Archive mf_Chunks si_HaulerVersion si_IndexSHA256 si_Entries].
  rewrite !elems_copied, (sort_slice_id entry_less (sort_slice entry_less _)), (sort_slice_id chunk_less (sort_slice chunk_less _)).
  - done.
  - apply sort_slice_sorted. unfold chunk_less. lia.
  - apply sort_slice_sorted, entry_less_asym.
Qed.

Lemma copied_ok {A} `{Codec A} (l : list A) : c_ok (copied l) = forallb c_ok l.
Proof. by destruct l. Qed.

Lemma forallb_perm {A} (p : A -> bool) l1 l2 : l1 ≡ₚ l2 -> forallb p l1 = forallb p l2.
Proof. induction 1; cbn; [done|congruence| |congruence]. by destruct (p x), (p y). Qed.

Lemma canonical_ok m : c_ok m = true -> c_ok (canonical m) = true.
Proof.
  assert (forall (s : slice StoreEntry), c_ok (copied (sort_slice entry_less (elems s))) = c_ok s) as He.
  { intros s. rewrite copied_ok. apply forallb_perm, sort_slice_perm. }
  assert (forall (s : slice ChunkIdentity), c_ok (copied (sort_slice chunk_less (elems s))) = c_ok s) as Hc.
  { intros s. rewrite copied_ok. apply forallb_perm, sort_slice_perm. }
  destruct m as [sv kd sid cap lin gen arch [hv ix en] root tools arc ch]. specialize (He en). specialize (Hc ch). unfold canonical.
  cbn [mf_SchemaVersion mf_Kind mf_SessionID mf_Capsule mf_Lineage mf_Generation
    mf_Architecture mf_Store mf_Root mf_Tools mf_Archive mf_Chunks si_HaulerVersion si_IndexSHA256 si_Entries].
  set (en' := copied (sort_slice entry_less _)) in *. set (ch' := copied (sort_slice chunk_less _)) in *. clearbody en' ch'.
  assert (c_ok (mkStoreIdentity hv ix en') = c_ok (mkStoreIdentity hv ix en)) as Hs.
  { change (fields_ok StoreIdentity_fields (hv, (ix, (en', tt))) = fields_ok StoreIdentity_fields (hv, (ix, (en, tt)))).
    unfold StoreIdentity_fields. cbn [fields_ok fst snd andb]. by rewrite He. }
  set (st' := mkStoreIdentity hv ix en') in *. set (st := mkStoreIdentity hv ix en) in *.
  change (fields_ok Manifest_fields (sv, (kd, (sid, (cap, (lin, (gen, (arch, (st, (root, (tools, (arc, (ch, tt)))))))))))) = true ->
    fields_ok Manifest_fields (sv, (kd, (sid, (cap, (lin, (gen, (arch, (st', (root, (tools, (arc, (ch', tt)))))))))))) = true).
  unfold Manifest_fields. cbn [fields_ok fst snd andb]. by rewrite Hs, Hc.
Qed.

Lemma manifest_depth : @c_depth _ Manifest_codec <= max_depth.
Proof. vm_compute. discriminate. Qed.

(** C40: a kit has one text.  MarshalCanonical of a manifest whose canonical form is valid
    gives a text; the same manifest with its entries and chunks in any other order gives
    the same text; and DecodeCanonical accepts that text, within its size limit, as the
    canonical form. *)
Theorem manifest_canonical_text m :
  c_ok m = true -> Manifest_Validate (canonical m) = Ok tt ->
  exists body, MarshalCanonical m = Ok body /\
    (forall entries chunks, elems (si_Entries (mf_Store m)) ≡ₚ entries -> elems (mf_Chunks m) ≡ₚ chunks ->
       MarshalCanonical (with_lists m entries chunks) = Ok body) /\
    (str_len body <= maxManifestBytes -> DecodeCanonical body = Ok (canonical m)).
Proof.
  intros Hok Hv. pose proof (canonical_ok m Hok) as Hok'.
  destruct (Unmarshal_Marshal (canonical m) Hok' manifest_depth) as (body & Hm & _ & Hu).
  assert (forall m', canonical m' = canonical m -> MarshalCanonical m' = Ok body) as Hcan.
  { intros m' Heq. unfold MarshalCanonical. rewrite Heq, Hv. cbn [result_bind]. unfold marshal. by rewrite Hm. }
  exists body. split; [by apply Hcan|]. split; [intros entries chunks He Hc; by apply Hcan, canonical_reordered|].
  intros Hlen. unfold DecodeCanonical. unfold UnmarshalStrict, parse_json in Hu.
  assert (str_len body =? 0 = false) as ->.
  { apply Z.eqb_neq. intros H0. destruct body; [by vm_compute in Hu|]. unfold str_len in H0. cbn in H0. lia. }
  replace (maxManifestBytes <? str_len body) with false by (symmetry; apply Z.ltb_ge; lia). cbn [orb].
  destruct (parse_value _ 0 body) as [[j rest]|]; [|done]. cbn [mbind option_bind fst snd] in Hu.
  destruct (str_eqb (skip_ws rest) "") eqn:Er; [|done]. cbn [mbind option_bind] in Hu. rewrite Hu.
  unfold More. bool_norm. rewrite Er. rewrite (Hcan (canonical m) (canonical_idem m)). cbn [result_bind]. by rewrite str_eqb_refl.
Qed.

(** * A kit *)
Definition sample_digest : string := String.concat "" (repeat "0a" 32).
Definition sample_tool (name : string) : FileIdentity := mkFileIdentity name "v1.0.0" sample_digest 5.
Definition sample_entry (reference type : string) : StoreEntry := mkStoreEntry reference type "linux/amd64" sample_digest 7.
Definition sample_manifest : Manifest :=
  mkManifest 1 "camp-hauler-kit" "s1" "camp" (mkLineage "main") None "linux/amd64"
    (mkStoreIdentity "v1.4.0" sample_digest (SList [sample_entry "library/b" "image"; sample_entry "library/a" "file"]))
    (mkRootIdentity "hauler/root.tar.zst:latest" sample_digest 9)
    (mkToolIdentities (sample_tool "camp") (sample_tool "hauler") (sample_tool "pasta"))
    (mkArchiveIdentity sample_digest 12)
    (SList [mkChunkIdentity 1 "kit.part-000001" sample_digest 2; mkChunkIdentity 0 "kit.part-000000" sample_digest 10]).

Lemma sample_manifest_valid : c_ok sample_manifest = true /\ Manifest_Validate (canonical sample_manifest) = Ok tt.
Proof. split; vm_compute; reflexivity. Qed.

Lemma manifest_bounds_witness :
  chunk_sum (elems (mf_Chunks (canonical sample_manifest))) = 12 /\ (0 < length (elems (mf_Chunks (canonical sample_manifest))) <= 256)%nat.
Proof.
  destruct (manifest_bounds (canonical sample_manifest) (proj2 sample_manifest_valid)) as (H1 & _ & H2 & _).
  split; [exact H1|exact H2].
Defined.

Lemma manifest_canonical_text_witness :
  exists body, MarshalCanonical sample_manifest = Ok body /\ MarshalCanonical (canonical sample_manifest) = Ok body.
Proof.
  destruct (manifest_canonical_text sample_manifest (proj1 sample_manifest_valid) (proj2 sample_manifest_valid)) as (body & H1 & H2 & _).
  exists body. split; [exact H1|].
  exact (H2 [sample_entry "library/a" "file"; sample_entry "library/b" "image"]
    [mkChunkIdentity 0 "kit.part-000000" sample_digest 10; mkChunkIdentity 1 "kit.part-000001" sample_digest 2]
    (Permutation_swap _ _ _) (Permutation_swap _ _ _)).
Defined.
