(* ===== verification/HaulChunks.v ===== *)
(** haulkit's chunks (haulkit/chunks.go): an archive split into files of a bounded size,
    and put together again, on a file system where every call can fail and the process can
    die at every step.

    A file is where its directory's path and its name say: a path is the pair of its
    directory and its last element, after [Clean], so a trailing slash does not count.  The hooks of the tests are steps that can fail. *)
From S2P Require Import Prelude Sha256 GoTime Json Codec Regexp Domain Paths Effects HaulManifest.

(** * Files *)
Inductive knode := KFile (data : bytes) | KDir | KLink | KOther.

Abbreviation loc := (string * string)%type (only parsing).
Abbreviation kfs := (@gmap (string * string) (@prod_eq_dec string String.eq_dec string String.eq_dec)
  (@prod_countable string String.eq_dec String.countable string String.eq_dec String.countable) knode) (only parsing).

Definition loc_of (path : string) : loc := (Dir (Clean path), Base path).

Example loc_1 : map loc_of ["/a/b"; "/a/b/"; "/a"; "/"] = [("/a", "b"); ("/a", "b"); ("/", "a"); ("/", "/")].
Proof. vm_compute. reflexivity. Qed.

Definition has_dir (f : kfs) (directory : string) : bool :=
  match f !! loc_of directory with Some KDir => true | _ => false end.

(** A name joined to a directory; "/" is a safe name to the code and means the directory. *)
Definition child (directory name : string) : loc :=
  if str_eqb name "/" then loc_of directory else (Clean directory, name).

(** [os.CreateTemp]: random digits in place of the star, ten thousand attempts. *)
Fixpoint create_temp (attempts : nat) (dir prefix : string) : io kfs (result loc) :=
  match attempts with
  | O => io_ret (Err ErrExist)
  | S attempts' =>
      do! random := rand_read in
      let p := (Clean dir, prefix +:+ random) in
      made <~ atomic (fun f =>
        if has_dir f dir then
          match f !! p with
          | Some _ => (Err ErrExist, f)
          | None => (Ok tt, <[p := KFile ""]> f)
          end
        else (Err ErrNotExist, f));
      match made with
      | Ok _ => io_ret (Ok p)
      | Err e => if errors_Is e ErrExist then create_temp attempts' dir prefix else io_ret (Err e)
      end
  end.
Definition CreateTemp (dir prefix : string) : io kfs (result loc) := create_temp (100 * 100) dir prefix.

Definition append_data (p : loc) (b : bytes) (f : kfs) : kfs :=
  match f !! p with Some (KFile d) => <[p := KFile (d +:+ b)]> f | _ => f end.
(** A write may stop after some of its bytes. *)
Definition write_data (p : loc) (b : bytes) : io kfs (result unit) :=
  syscall (fun n => append_data p (str_take n b)) (fun f => (Ok tt, append_data p b f)).

Definition remove (p : loc) : io kfs (result unit) :=
  atomic (fun f => match f !! p with None => (Err ErrNotExist, f) | Some _ => (Ok tt, delete p f) end).

(** [os.Link]: the new name must be free; the sources link within one directory. *)
Definition link (from to : loc) : io kfs (result unit) :=
  atomic (fun f =>
    match f !! from, f !! to with
    | None, _ => (Err ErrNotExist, f)
    | Some _, Some _ => (Err ErrExist, f)
    | Some n, None => (Ok tt, <[to := n]> f)
    end).

Definition Mkdir (directory : string) : io kfs (result unit) :=
  atomic (fun f =>
    if has_dir f (Dir (Clean directory)) then
      match f !! loc_of directory with
      | Some _ => (Err ErrExist, f)
      | None => (Ok tt, <[loc_of directory := KDir]> f)
      end
    else (Err ErrNotExist, f)).

(** [os.RemoveAll] of a directory of files; it may stop on the way. *)
Definition inside (directory : string) (p : loc) : bool := str_eqb p.1 (Clean directory).
Definition drop_some (n : nat) (directory : string) (f : kfs) : kfs :=
  foldr delete f (take n (filter (fun p => inside directory p = true) (map fst (map_to_list f)))).
Definition drop_all (directory : string) (f : kfs) : kfs :=
  delete (loc_of directory) (filter (fun pn => inside directory pn.1 = false) f).
Definition RemoveAll (directory : string) : io kfs (result unit) :=
  syscall (fun n f => drop_some n directory f) (fun f => (Ok tt, drop_all directory f)).

Definition openRegular (p : loc) : io kfs (result bytes) :=
  do! _ := may_fail in
  do! n := inspect (fun f =>
    match f !! p with
    | None => Err ErrNotExist
    | Some KLink => Err (ErrText "too many levels of symbolic links")
    | Some n => Ok n
    end) in
  do! _ := may_fail in
  match n with KFile d => io_ret (Ok d) | _ => io_ret (Err ErrInvalidChunks) end.

Definition syncDirectory : io kfs (result unit) :=
  do! _ := may_fail in
  do! _ := may_fail in
  may_fail.

(** Close and remove, or only remove, a temporary file; the error is the caller's. *)
Definition discard {A} (temporary : loc) (e : error) : io kfs (result A) :=
  _ <~ remove temporary; io_ret (Err e).
Definition abandon {A} (temporary : loc) (e : error) : io kfs (result A) :=
  _ <~ may_fail; discard temporary e.

Definition syncPublish (temporary output : loc) : io kfs (result unit) :=
  hooked <~ may_fail;
  match hooked with
  | Err e => abandon temporary e
  | Ok _ =>
  synced <~ may_fail;
  match synced with
  | Err e => abandon temporary e
  | Ok _ =>
  chmod <~ may_fail;
  match chmod with
  | Err e => abandon temporary e
  | Ok _ =>
  closed <~ may_fail;
  match closed with
  | Err e => discard temporary e
  | Ok _ =>
  hooked' <~ may_fail;
  match hooked' with
  | Err e => discard temporary e
  | Ok _ =>
  linked <~ link temporary output;
  match linked with
  | Err e => discard temporary e
  | Ok _ =>
  removed <~ remove temporary;
  match removed with
  | Err e => discard output e
  | Ok _ => io_ret (Ok tt)
  end end end end end end end.

(** * Splitting *)

(** The %06d verb. *)
Fixpoint digit_zeros (n : nat) : string := match n with O => "" | S n' => String "0" (digit_zeros n') end.
Definition part_name (base : string) (index : Z) : string :=
  base +:+ ".part-" +:+ digit_zeros (6 - String.length (FormatInt index)) +:+ FormatInt index.

(** One turn reads at most [chunkSize] bytes of what is left of the archive. *)
Fixpoint split_loop (fuel : nat) (base dir : string) (chunkSize : Z) (index : Z) (rest : bytes) (chunks : list ChunkIdentity)
    : io kfs (result (list ChunkIdentity)) :=
  match fuel with
  | O => io_ret (Err ErrNoProgress)
  | S fuel' =>
      do! _ := ctx_err in
      let name := part_name base (index mod 2 ^ 32) in
      do! temporary := CreateTemp dir ".chunk-" in
      hooked <~ may_fail;
      match hooked with
      | Err e => abandon temporary e
      | Ok _ =>
          let chunk := str_take (Z.to_nat chunkSize) rest in
          copied <~ write_data temporary chunk;
          match copied with
          | Err e => abandon temporary e
          | Ok _ =>
              if str_len chunk =? 0 then _ <~ may_fail; _ <~ remove temporary; io_ret (Ok chunks)
              else
              do! _ := syncPublish temporary (Clean dir, name) in
              let chunks' := chunks ++ [mkChunkIdentity (index mod 2 ^ 32) name (sha256Hex chunk) (str_len chunk)] in
              if str_len chunk <? chunkSize then io_ret (Ok chunks')
              else split_loop fuel' base dir chunkSize (index + 1) (str_drop (Z.to_nat chunkSize) rest) chunks'
          end
      end
  end.

(** The turns the loop may take: one per chunk and one more. *)
Definition split_chunks (base dir : string) (chunkSize : Z) (data : bytes) : io kfs (result (list ChunkIdentity)) :=
  do! chunks := split_loop (S (S (String.length data))) base dir chunkSize 0 data [] in
  match chunks with
  | [] => io_ret (Err ErrInvalidChunks)
  | _ => do! _ := syncDirectory in io_ret (Ok chunks)
  end.

Definition Haul_Split (archive directory : string) (chunkSize : Z) : io kfs (result (list ChunkIdentity)) :=
  if (chunkSize <=? 0) || (DefaultChunkSize <? chunkSize) || negb (IsAbs archive) || negb (IsAbs directory)
  then io_ret (Err ErrInvalidChunks)
  else
  do! data := openRegular (loc_of archive) in
  do! _ := Mkdir directory in
  made <~ split_chunks (Base archive) directory chunkSize data;
  match made with
  | Ok chunks => io_ret (Ok chunks)
  | Err e => _ <~ RemoveAll directory; _ <~ syncDirectory; io_ret (Err e)
  end.

(** * Putting together *)
Fixpoint reassemble_loop (dir : string) (maxChunkSize : Z) (temporary : loc) (index : Z) (chunks : list ChunkIdentity)
    (seen : list string) : io kfs (result unit) :=
  match chunks with
  | [] => io_ret (Ok tt)
  | identity :: rest =>
      do! _ := ctx_err in
      if negb (ck_Index identity =? index mod 2 ^ 32) || negb (safeRelativeName (ck_Name identity)) ||
         negb (haul_validSHA256 (ck_SHA256 identity)) || (ck_Size identity <=? 0) || (maxChunkSize <? ck_Size identity)
      then io_ret (Err ErrInvalidChunks)
      else if existsb (str_eqb (ck_Name identity)) seen then io_ret (Err ErrInvalidChunks)
      else
      do! chunk := openRegular (child dir (ck_Name identity)) in
      do! _ := may_fail in
      let bytes := str_take (Z.to_nat (ck_Size identity + 1)) chunk in
      copied <~ write_data temporary bytes;
      closed <~ may_fail;
      match copied, closed with
      | Err e, _ => io_ret (Err e)
      | Ok _, Err e => io_ret (Err e)
      | Ok _, Ok _ =>
          if negb (str_len bytes =? ck_Size identity) || negb (str_eqb (sha256Hex bytes) (ck_SHA256 identity))
          then io_ret (Err ErrInvalidChunks)
          else reassemble_loop dir maxChunkSize temporary (index + 1) rest (ck_Name identity :: seen)
      end
  end.

Definition reassemble_body (dir : string) (chunks : list ChunkIdentity) (output temporary : loc) (maxChunkSize : Z) : io kfs (result unit) :=
  do! _ := reassemble_loop dir maxChunkSize temporary 0 chunks [] in
  do! _ := syncPublish temporary output in
  synced <~ syncDirectory;
  match synced with
  | Err e => _ <~ remove output; io_ret (Err e)
  | Ok _ => io_ret (Ok tt)
  end.

Definition Reassemble (directory : string) (chunks : list ChunkIdentity) (output : string) (maxChunkSize : Z) : io kfs (result unit) :=
  if negb (IsAbs directory) || negb (IsAbs output) || (maxChunkSize <=? 0) || (DefaultChunkSize <? maxChunkSize) ||
     Nat.eqb (length chunks) 0
  then io_ret (Err ErrInvalidChunks)
  else
  do! temporary := CreateTemp (Dir output) ".haulkit-reassemble-" in
  done_ <~ reassemble_body directory chunks (loc_of output) temporary maxChunkSize;
  match done_ with
  | Ok _ => io_ret (Ok tt)
  | Err e => _ <~ may_fail; _ <~ remove temporary; _ <~ syncDirectory; io_ret (Err e)
  end.

(** * At every failure and every crash point *)
Lemma create_temp_ends attempts : forall f dir prefix,
  ends f (create_temp attempts dir prefix) (fun g => g = f \/ exists t, f !! t = None /\ g = <[t := KFile ""]> f /\ t.1 = Clean dir /\ HasPrefix t.2 prefix = true)
    (fun r g => match r with
                | Ok t => f !! t = None /\ g = <[t := KFile ""]> f /\ t.1 = Clean dir /\ HasPrefix t.2 prefix = true
                | Err _ => g = f
                end).
Proof.
  induction attempts as [|n IH]; intros f dir prefix; cbn [create_temp]; [by apply ends_ret; [left|]|].
  eapply ends_do with (Q1 := fun _ g => g = f); [apply ends_reads; [auto with camp|by left|done]| |by intros; subst].
  intros random g _ ->. set (p := (Clean dir, prefix +:+ random)).
  eapply ends_bind with (Q1 := fun r g => match r with Ok _ => f !! p = None /\ g = <[p := KFile ""]> f | Err _ => g = f end).
  - apply ends_atomic; destruct (has_dir f dir); try done; try (by left); destruct (f !! p) eqn:E; try done; [by left|]. right. exists p. split; [done|]. split; [done|]. split; [done|apply HasPrefix_app].
  - intros [[]|e] g Hi Hq.
    + destruct Hq as [Hp ->]. apply ends_ret; [done|]. split; [done|]. split; [done|]. split; [done|]. apply HasPrefix_app.
    + subst g. destruct (errors_Is e ErrExist); [apply IH|by apply ends_ret].
Qed.

Lemma append_temp (f : kfs) (t : loc) b b' : append_data t b' (<[t := KFile b]> f) = <[t := KFile (b +:+ b')]> f.
Proof. unfold append_data. rewrite lookup_insert_eq. apply insert_insert_eq. Qed.

Lemma drop_temp (f : kfs) t n : f !! t = None -> delete t (<[t := n]> f) = f.
Proof. intros H. by rewrite delete_insert_id. Qed.

(** Giving a temporary file up: it may stay behind, nothing else changes. *)
Lemma discard_ends {A : Type} (f : kfs) (t : loc) (n : knode) (e : error) (I : kfs -> Prop) :
  f !! t = None -> I f -> I (<[t := n]> f) ->
  ends (<[t := n]> f) (discard t e : io kfs (result A)) I (fun r g => r = Err e).
Proof.
  intros Ht H1 H2. unfold discard. eapply ends_bind with (Q1 := fun _ _ => True); [|intros; by apply ends_ret].
  unfold remove. apply ends_atomic; [done| |done|done]. cbv beta. rewrite lookup_insert_eq. cbn. by rewrite drop_temp.
Qed.

Lemma abandon_ends {A : Type} (f : kfs) (t : loc) (n : knode) (e : error) (I : kfs -> Prop) :
  f !! t = None -> I f -> I (<[t := n]> f) ->
  ends (<[t := n]> f) (abandon t e : io kfs (result A)) I (fun r g => r = Err e).
Proof.
  intros Ht H1 H2. unfold abandon. eapply ends_bind with (Q1 := fun _ g => g = <[t := n]> f); [by apply ends_may_fail|].
  intros _ g _ ->. by apply discard_ends.
Qed.

(** How the publication of a temporary file may leave the files. *)
Definition publishing (f : kfs) (t out : loc) (b : bytes) (g : kfs) : Prop :=
  g = f \/ g = <[t := KFile b]> f \/
  (f !! out = None /\ (g = <[out := KFile b]> (<[t := KFile b]> f) \/ g = <[out := KFile b]> f)).

Lemma syncPublish_ends (f : kfs) (t out : loc) (b : bytes) :
  f !! t = None ->
  ends (<[t := KFile b]> f) (syncPublish t out) (publishing f t out b)
    (fun r g => r = Ok tt -> f !! out = None /\ g = <[out := KFile b]> f).
Proof.
  intros Ht. assert (publishing f t out b f) as H1 by by left.
  assert (publishing f t out b (<[t := KFile b]> f)) as H2 by (right; by left).
  assert (forall (p : io kfs (result unit)) (q : error -> io kfs (result unit)) Q,
    (forall e, ends (<[t := KFile b]> f) (q e) (publishing f t out b) Q) ->
    ends (<[t := KFile b]> f) p (publishing f t out b) Q ->
    ends (<[t := KFile b]> f) (r <~ may_fail; match r with Err e => q e | Ok _ => p end) (publishing f t out b) Q) as Hstep.
  { intros p q Q Hq Hp. eapply ends_bind with (Q1 := fun _ g => g = <[t := KFile b]> f); [by apply ends_may_fail|].
    intros [[]|e] g _ ->; [done|apply Hq]. }
  unfold syncPublish. do 5 (apply Hstep; [intros e; eapply ends_conseq; [first [by apply abandon_ends|by apply discard_ends]|done|by intros ? ? _ ->]|]).
  eapply ends_bind with (Q1 := fun r g => match r with
    | Ok _ => f !! out = None /\ out <> t /\ g = <[out := KFile b]> (<[t := KFile b]> f) | Err _ => g = <[t := KFile b]> f end).
  { unfold link. apply ends_atomic; [done|..|done]; cbv beta; rewrite lookup_insert_eq; destruct (decide (out = t)) as [->|Hne]; rewrite ?lookup_insert_eq; try done;
      rewrite lookup_insert_ne by done; destruct (f !! out) eqn:Eo; try done. right. right. split; [done|by left]. }
  intros [[]|e] g _ Hq; [|subst g; eapply ends_conseq; [by apply discard_ends|done|by intros ? ? _ ->]].
  destruct Hq as (Ho & Hne & ->).
  eapply ends_bind with (Q1 := fun r g => match r with Ok _ => g = <[out := KFile b]> f | Err _ => g = <[out := KFile b]> (<[t := KFile b]> f) end).
  { unfold remove. rewrite (insert_insert_ne f) by done. apply ends_atomic; cbv beta; rewrite ?lookup_insert_eq; cbn [fst snd]; try done.
    - right. right. split; [done|]. left. by rewrite insert_insert_ne.
    - rewrite drop_temp by by rewrite lookup_insert_ne. right. right. split; [done|by right].
    - by rewrite drop_temp by by rewrite lookup_insert_ne. }
  intros [[]|e] g _ ->; [apply ends_ret; [right; right; split; [done|by right]|done]|].
  eapply ends_conseq; [apply discard_ends with (I := publishing f t out b)|done|by intros ? ? _ ->].
  - by rewrite lookup_insert_ne.
  - done.
  - right. right. split; [done|by left].
Qed.

Lemma write_temp_ends (f : kfs) (t : loc) (b b' : bytes) (I : kfs -> Prop) :
  (forall c, I (<[t := KFile c]> f)) ->
  ends (<[t := KFile b]> f) (write_data t b') I
    (fun r g => (exists c, g = <[t := KFile c]> f) /\ (r = Ok tt -> g = <[t := KFile (b +:+ b')]> f)).
Proof.
  intros HI. unfold write_data. apply ends_syscall; cbn [fst snd]; [|..|intros n|intros n]; rewrite append_temp; [apply HI| |apply HI|].
  - split; [by eexists|done].
  - split; [by eexists|done].
Qed.

Lemma openRegular_ends (f : kfs) (p : loc) :
  ends f (openRegular p) (fun g => g = f) (fun r g => g = f /\ forall d, r = Ok d -> f !! p = Some (KFile d)).
Proof.
  unfold openRegular. apply ends_step; [done| |done].
  eapply ends_do with (Q1 := fun r g => forall n, r = Ok n -> f !! p = Some n); [| |by intros; subst].
  - apply ends_inspect; [done| |done]. destruct (f !! p) as [[]|]; intros n [= <-]; done.
  - intros n g -> Hn. apply ends_step; [done| |done]. specialize (Hn n eq_refl).
    destruct n; apply ends_ret; try done. split; [done|]. by intros ? [= <-].
Qed.

(** The file of a chunk, with the size and the digest its identity tells. *)
Definition verified (f : kfs) (dir : string) (c : ChunkIdentity) (d : bytes) : Prop :=
  f !! child dir (ck_Name c) = Some (KFile d) /\ str_len d = ck_Size c /\ sha256Hex d = ck_SHA256 c.

Fixpoint join_bytes (ds : list bytes) : bytes := match ds with [] => "" | d :: ds' => d +:+ join_bytes ds' end.

Lemma take_exact n d : str_len (str_take (Z.to_nat (n + 1)) d) = n -> 0 < n -> str_take (Z.to_nat (n + 1)) d = d.
Proof.
  intros Hl Hn. unfold str_len in Hl. destruct (decide (Z.to_nat (n + 1) <= String.length d)%nat) as [Hle|Hgt].
  - rewrite str_take_length in Hl by done. lia.
  - clear Hl. assert (String.length d <= Z.to_nat (n + 1))%nat as Hd by lia. revert Hd. generalize (Z.to_nat (n + 1)). clear.
    induction d as [|c d IH]; intros [|k] H; cbn in *; try done; [lia|]. f_equal. apply IH. lia.
Qed.

Lemma reassemble_loop_ends (f : kfs) (t : loc) (dir : string) (maxSize : Z) (chunks : list ChunkIdentity) : forall (index : Z) (seen : list string) (acc : bytes),
  f !! t = None -> (forall c, c ∈ chunks -> child dir (ck_Name c) <> t) ->
  ends (<[t := KFile acc]> f) (reassemble_loop dir maxSize t index chunks seen) (fun g => exists b, g = <[t := KFile b]> f)
    (fun r g => (exists b, g = <[t := KFile b]> f) /\
       (r = Ok tt -> exists ds, Forall2 (verified f dir) chunks ds /\ g = <[t := KFile (acc +:+ join_bytes ds)]> f)).
Proof.
  induction chunks as [|c chunks IH]; intros index seen acc Ht Hne; cbn [reassemble_loop].
  { apply ends_ret; [by eexists|]. split; [by eexists|]. intros _. exists []. cbn. by rewrite str_app_nil_r. }
  assert (forall e (g : kfs), (exists b, g = <[t := KFile b]> f) -> ends g (io_ret (Err e)) (fun g => exists b, g = <[t := KFile b]> f)
    (fun r g => (exists b, g = <[t := KFile b]> f) /\
       (r = Ok tt -> exists ds, Forall2 (verified f dir) (c :: chunks) ds /\ g = <[t := KFile (acc +:+ join_bytes ds)]> f))) as Herr
    by (intros; by apply ends_ret).
  eapply ends_do with (Q1 := fun _ g => g = <[t := KFile acc]> f); [by apply ends_ctx_err; [eexists|]| |intros; by split].
  intros _ g _ ->. destruct (_ || (maxSize <? ck_Size c)) eqn:Ec; [apply Herr; by eexists|].
  destruct (existsb _ seen); [apply Herr; by eexists|]. apply orb_false_iff in Ec as [Ec _]. apply orb_false_iff in Ec as [_ Ec].
  apply Z.leb_gt in Ec.
  eapply ends_do; [eapply ends_conseq; [apply openRegular_ends|intros g ->; by eexists|exact (fun _ _ _ H => H)]| |].
  2: { intros e g Hi _. by split. }
  intros d g _ [-> Hd]. specialize (Hd d eq_refl). rewrite lookup_insert_ne in Hd by (intros ?; by apply (Hne c (list_elem_of_here _ _))).
  apply ends_step; [by eexists| |intros e; split; [by eexists|done]].
  eapply ends_bind; [apply write_temp_ends; intros; by eexists|]. intros copied g Hg [Hg' Hw].
  eapply ends_bind with (Q1 := fun _ g' => g' = g); [by apply ends_may_fail|]. intros closed g' _ ->.
  destruct copied as [[]|e]; [|by apply Herr]. destruct closed as [[]|e]; [|by apply Herr].
  destruct (negb _ || negb _) eqn:Ev; [by apply Herr|]. apply orb_false_iff in Ev as [E1 E2]. apply negb_false_iff in E1, E2. bool_norm.
  assert (str_take (Z.to_nat (ck_Size c + 1)) d = d) as Htake by (by apply take_exact; [|lia]). rewrite Htake in *. rewrite (Hw eq_refl).
  eapply ends_conseq; [apply IH; [done|intros c' Hc'; apply Hne; by right]|done|].
  intros r g1 _ [Hb Hr]. split; [done|]. intros Hok. destruct (Hr Hok) as (ds & Hf & ->). exists (d :: ds).
  split; [by constructor|]. cbn [join_bytes]. by rewrite str_app_assoc.
Qed.

(** The output of a reassembly and the other files: as they were, or with the archive. *)
Section reassembly.
  Context (f : kfs) (directory : string) (chunks : list ChunkIdentity) (output : loc).

Definition assembled (g : kfs) : Prop :=
  (forall p, is_Some (f !! p) -> g !! p = f !! p) /\
  (f !! output = None -> g !! output = None \/
   exists ds, Forall2 (verified f directory) chunks ds /\ g !! output = Some (KFile (join_bytes ds))).

Definition reassembled (r : result unit) (g : kfs) : Prop :=
  r = Ok tt -> f !! output = None /\
    exists ds, Forall2 (verified f directory) chunks ds /\ g = <[output := KFile (join_bytes ds)]> f.

Lemma assembled_same : assembled f.
Proof. split; [done|by left]. Qed.

Lemma assembled_insert p n g : f !! p = None -> p <> output -> assembled g -> assembled (<[p := n]> g).
Proof.
  intros Hp Hne [Hk Ho]. split; [|by rewrite lookup_insert_ne].
  intros q [m Hq]. rewrite lookup_insert_ne; [by apply Hk|]. intros <-. congruence.
Qed.

Lemma assembled_delete p g : f !! p = None -> assembled g -> assembled (delete p g).
Proof.
  intros Hp [Hk Ho]. split.
  - intros q [m Hq]. rewrite lookup_delete_ne; [by apply Hk|]. intros <-. congruence.
  - intros Hf. destruct (decide (p = output)) as [->|Hne]; [left; apply lookup_delete_eq|rewrite lookup_delete_ne by done; by apply Ho].
Qed.

Lemma assembled_output ds g :
  f !! output = None -> Forall2 (verified f directory) chunks ds -> assembled g -> assembled (<[output := KFile (join_bytes ds)]> g).
Proof.
  intros Hfree Hds [Hk Ho]. split.
  - intros q [m Hq]. rewrite lookup_insert_ne; [by apply Hk|]. intros <-. congruence.
  - intros _. right. exists ds. by rewrite lookup_insert_eq.
Qed.

Lemma reassemble_body_ends (t : loc) maxSize :
  f !! t = None -> t <> output -> (forall c, c ∈ chunks -> child directory (ck_Name c) <> t) ->
  ends (<[t := KFile ""]> f) (reassemble_body directory chunks output t maxSize) assembled reassembled.
Proof.
  intros Ht Hto Hne. unfold reassemble_body.
  assert (forall b, assembled (<[t := KFile b]> f)) as Htemp by (intros; by apply assembled_insert, assembled_same).
  eapply ends_do; [eapply ends_conseq; [by apply reassemble_loop_ends|intros g [b ->]; apply Htemp|exact (fun _ _ _ H => H)]| |done].
  intros [] g _ [_ Hr]. destruct (Hr eq_refl) as (ds & Hds & ->). change ("" +:+ join_bytes ds) with (join_bytes ds).
  eapply ends_do with (Q1 := fun r g => r = Ok tt -> f !! output = None /\ g = <[output := KFile (join_bytes ds)]> f); [| |done].
  { eapply ends_conseq; [by apply syncPublish_ends| |by intros r g _ H ?; apply H].
    intros g [->|[->|[Hfree [->| ->]]]]; [apply assembled_same|apply Htemp|by apply assembled_output|by apply assembled_output, assembled_same]. }
  intros [] g _ Hg. destruct (Hg eq_refl) as [Hfree ->]. set (g' := <[output := KFile (join_bytes ds)]> f).
  assert (assembled g') as Hg' by by apply assembled_output, assembled_same.
  eapply ends_bind with (Q1 := fun _ h => h = g').
  { unfold syncDirectory. do 2 (apply ends_step; [done| |done]). by apply ends_may_fail. }
  intros [[]|e] h _ ->; [apply ends_ret; [done|]; intros _; split; [done|by exists ds]|].
  eapply ends_bind with (Q1 := fun _ h => True); [|intros h g1 Hi _; by apply ends_ret].
  unfold remove. apply ends_atomic; cbv beta; unfold g'; rewrite ?lookup_insert_eq; cbn [fst snd]; try done. by apply assembled_delete.
Qed.
End reassembly.

Lemma Reassemble_ends (f : kfs) (directory : string) (chunks : list ChunkIdentity) (output : string) (maxSize : Z) :
  (forall c, c ∈ chunks -> HasPrefix (child directory (ck_Name c)).2 ".haulkit-reassemble-" = false) ->
  HasPrefix (Base output) ".haulkit-reassemble-" = false ->
  ends f (Reassemble directory chunks output maxSize) (assembled f directory chunks (loc_of output))
    (reassembled f directory chunks (loc_of output)).
Proof.
  intros Hnames Hout. pose proof (assembled_same f directory chunks (loc_of output)) as HIf.
  unfold Reassemble. destruct (_ || Nat.eqb (length chunks) 0); [by apply ends_ret|].
  assert (forall t : loc, HasPrefix t.2 ".haulkit-reassemble-" = true -> t <> loc_of output) as Hnout.
  { intros t Hp ->. unfold loc_of in Hp. cbn [snd] in Hp. rewrite Hout in Hp. discriminate. }
  eapply ends_do with (Q1 := fun r g => forall t, r = Ok t -> f !! t = None /\ g = <[t := KFile ""]> f /\
    HasPrefix t.2 ".haulkit-reassemble-" = true); [| |done].
  { eapply ends_conseq; [apply create_temp_ends|..].
    - intros g [->|(t & Ht & -> & _ & Hp)]; [done|]. by apply assembled_insert; [|apply Hnout|].
    - intros [t|e] g _ Hq; [|done]. intros ? [= <-]. by destruct Hq as (? & ? & _ & ?). }
  intros t g _ Hq. destruct (Hq t eq_refl) as (Ht & -> & Hp). pose proof (Hnout t Hp) as Hto.
  eapply ends_bind; [apply reassemble_body_ends; [done|done|]|].
  { intros c Hc <-. apply Hnames in Hc. congruence. }
  intros [[]|e] g HIg HQg; [by apply ends_ret|].
  eapply ends_bind with (Q1 := fun _ _ => True); [by apply ends_may_fail|]. intros _ g1 HI1 _.
  eapply ends_bind with (Q1 := fun _ _ => True).
  { unfold remove. apply ends_atomic; cbv beta; destruct (g1 !! t); cbn [fst snd]; try done. by apply assembled_delete. }
  intros _ g2 HI2 _. eapply ends_bind with (Q1 := fun _ _ => True); [|intros; by apply ends_ret].
  unfold syncDirectory. do 2 (apply ends_step; [done| |done]). by apply ends_may_fail.
Qed.

(** C37: putting an archive together is atomic and verified, whatever fails.  At every
    failure and every crash point every file that was there is as it was, an output that
    was there included: it is never replaced, and the call does not succeed.  A new output
    is absent or is the whole archive: the bytes of the chunk files one after the other,
    each with the size and the SHA-256 its identity tells.  Success means the output was
    not there, is there now, and nothing else was left behind. *)
Theorem Reassemble_atomic (f : kfs) (directory : string) (chunks : list ChunkIdentity) (output : string) (maxSize : Z)
    (o : outcome (result unit)) (f' : kfs) :
  (forall c, c ∈ chunks -> HasPrefix (child directory (ck_Name c)).2 ".haulkit-reassemble-" = false) ->
  HasPrefix (Base output) ".haulkit-reassemble-" = false ->
  runs (Reassemble directory chunks output maxSize) f o f' ->
  (forall p, is_Some (f !! p) -> f' !! p = f !! p) /\
  (f !! loc_of output = None -> f' !! loc_of output = None \/
   exists ds, Forall2 (verified f directory) chunks ds /\ f' !! loc_of output = Some (KFile (join_bytes ds))) /\
  (o = Done (Ok tt) -> f !! loc_of output = None /\
   exists ds, Forall2 (verified f directory) chunks ds /\ f' = <[loc_of output := KFile (join_bytes ds)]> f).
Proof.
  intros Hnames Hout H. destruct (Reassemble_ends f directory chunks output maxSize Hnames Hout o f' H) as [[H1 H2] H3].
  split; [done|]. split; [done|]. intros ->. exact (H3 (Ok tt) eq_refl eq_refl).
Qed.

(** * Splitting, at every failure and every crash point *)
Definition identity_of (base : string) (index : nat) (d : bytes) : ChunkIdentity :=
  mkChunkIdentity (Z.of_nat index mod 2 ^ 32) (part_name base (Z.of_nat index mod 2 ^ 32)) (sha256Hex d) (str_len d).
Definition identities (base : string) (ds : list bytes) : list ChunkIdentity := imap (identity_of base) ds.

Section splitting.
  Context (f : kfs) (base directory : string) (chunkSize : Z) (Hsize : 0 < chunkSize).

(** Nothing but the new directory and the files in it changes. *)
Definition outside (g : kfs) : Prop :=
  forall p, p.1 <> Clean directory -> p <> loc_of directory -> g !! p = f !! p.

Definition stored (ds : list bytes) (g : kfs) : Prop :=
  forall (i : nat) (d : bytes), ds !! i = Some d -> g !! (Clean directory, part_name base (Z.of_nat i mod 2 ^ 32)) = Some (KFile d).

Lemma outside_insert (p : loc) (n : knode) (g : kfs) :
  p.1 = Clean directory \/ p = loc_of directory -> outside g -> outside (<[p := n]> g).
Proof.
  intros Hp Hg q H1 H2. rewrite lookup_insert_ne; [by apply Hg|]. intros <-. by destruct Hp.
Qed.

Lemma stored_snoc (ds : list bytes) (d : bytes) (g : kfs) :
  g !! (Clean directory, part_name base (Z.of_nat (length ds) mod 2 ^ 32)) = None -> stored ds g ->
  stored (ds ++ [d]) (<[(Clean directory, part_name base (Z.of_nat (length ds) mod 2 ^ 32)) := KFile d]> g).
Proof.
  intros Hnone Hs i x Hi. apply lookup_app_Some in Hi as [Hi|[Hle Hi]].
  - rewrite lookup_insert_ne; [by apply Hs|]. intros E. apply Hs in Hi. rewrite <-E in Hi. congruence.
  - apply list_lookup_singleton_Some in Hi as [Hi <-]. replace i with (length ds) by lia. apply lookup_insert_eq.
Qed.

(** What the loop has done when it stops on its own. *)
Definition split_up (ds : list bytes) (rest : bytes) (r : result (list ChunkIdentity)) (g : kfs) : Prop :=
  forall chunks, r = Ok chunks -> exists ds',
    chunks = identities base (ds ++ ds') /\ join_bytes ds' = rest /\
    Forall (fun d => 0 < str_len d <= chunkSize) ds' /\ stored (ds ++ ds') g.

Lemma split_up_err (ds : list bytes) (rest : bytes) (e : error) (g : kfs) : split_up ds rest (Err e) g.
Proof. by intros ? ?. Qed.

Lemma identities_snoc (ds : list bytes) (d : bytes) : identities base ds ++ [identity_of base (length ds) d] = identities base (ds ++ [d]).
Proof. unfold identities. rewrite imap_app. cbn. by rewrite Nat.add_0_r. Qed.

Lemma split_up_stop (ds : list bytes) (rest : bytes) (g : kfs) :
  str_len rest = 0 -> stored ds g -> split_up ds rest (Ok (identities base ds)) g.
Proof.
  intros Hr Hs chunks [= <-]. exists []. rewrite app_nil_r. split; [done|]. split; [by destruct rest|]. by split.
Qed.

Lemma split_up_more (ds : list bytes) (d rest : bytes) (r : result (list ChunkIdentity)) (g : kfs) :
  0 < str_len d <= chunkSize -> split_up (ds ++ [d]) rest r g -> split_up ds (d +:+ rest) r g.
Proof.
  intros Hd H chunks Hr. destruct (H chunks Hr) as (ds' & H1 & H2 & H3 & H4). exists (d :: ds').
  rewrite <-app_assoc in H1, H4. cbn [join_bytes]. rewrite H2. by repeat split; [..|constructor|].
Qed.

Lemma CreateTemp_outside (g : kfs) :
  outside g ->
  ends g (CreateTemp directory ".chunk-") outside
    (fun r h => forall t, r = Ok t -> g !! t = None /\ h = <[t := KFile ""]> g /\ t.1 = Clean directory).
Proof.
  intros Hg. eapply ends_conseq; [apply create_temp_ends|..].
  - intros h [->|(t & _ & -> & Hd & _)]; [done|]. apply outside_insert; [by left|done].
  - intros [t|e] h _ Hq; [|done]. intros ? [= <-]. by destruct Hq as (? & ? & ? & _).
Qed.

Lemma syncPublish_outside (g : kfs) (t : loc) (name : string) (b : bytes) :
  outside g -> g !! t = None -> t.1 = Clean directory ->
  ends (<[t := KFile b]> g) (syncPublish t (Clean directory, name)) outside
    (fun r h => r = Ok tt -> g !! (Clean directory, name) = None /\ h = <[(Clean directory, name) := KFile b]> g).
Proof.
  intros Hg Ht Hd. eapply ends_conseq; [by apply syncPublish_ends| |done].
  intros h [->|[->|[_ [->| ->]]]]; try done; repeat (apply outside_insert; [by left|]); done.
Qed.

Lemma take_len (rest : bytes) : str_len (str_take (Z.to_nat chunkSize) rest) = Z.min chunkSize (str_len rest).
Proof.
  unfold str_len. destruct (decide (Z.to_nat chunkSize <= String.length rest)%nat) as [H|H].
  - rewrite str_take_length by done. lia.
  - rewrite str_take_short by lia. lia.
Qed.

Lemma split_loop_ends fuel : forall (ds : list bytes) (rest : bytes) (g : kfs),
  outside g -> stored ds g ->
  ends g (split_loop fuel base directory chunkSize (Z.of_nat (length ds)) rest (identities base ds)) outside (split_up ds rest).
Proof.
  induction fuel as [|fuel IH]; intros ds rest g Hg Hs; cbn [split_loop]; [apply ends_ret; [done|apply split_up_err]|].
  eapply ends_do with (Q1 := fun _ h => h = g); [by apply ends_ctx_err| |intros; apply split_up_err]. intros _ h _ ->.
  eapply ends_do; [by apply CreateTemp_outside| |intros; apply split_up_err].
  intros t h _ Ht. destruct (Ht t eq_refl) as (Hfree & -> & Hd).
  assert (forall b, outside (<[t := KFile b]> g)) as Htemp by (intros; apply outside_insert; [by left|done]).
  assert (forall e b, ends (<[t := KFile b]> g) (abandon t e) outside (split_up ds rest)) as Hab.
  { intros e b. eapply ends_conseq; [apply abandon_ends; [done|exact Hg|apply Htemp]|done|]. intros r h _ ->. apply split_up_err. }
  eapply ends_bind with (Q1 := fun _ h => h = <[t := KFile ""]> g); [by apply ends_may_fail|].
  intros [[]|e] h _ ->; [|apply Hab].
  set (chunk := str_take (Z.to_nat chunkSize) rest).
  eapply ends_bind; [by apply write_temp_ends|]. intros [[]|e] h _ [[c ->] Hw]; [|apply Hab].
  specialize (Hw eq_refl). change ("" +:+ chunk) with chunk in Hw. rewrite Hw. pose proof (take_len rest) as Hlen. fold chunk in Hlen.
  pose proof (str_take_drop (Z.to_nat chunkSize) rest) as Hrest. fold chunk in Hrest.
  destruct (str_len chunk =? 0) eqn:E0; bool_norm.
  { eapply ends_bind with (Q1 := fun _ h => h = <[t := KFile chunk]> g); [by apply ends_may_fail|]. intros _ h _ ->.
    eapply ends_bind with (Q1 := fun _ h => h = g \/ h = <[t := KFile chunk]> g).
    { unfold remove. apply ends_atomic; cbv beta; rewrite ?lookup_insert_eq; cbn [fst snd]; rewrite ?drop_temp by done; auto. }
    intros _ h Hh Hor. apply ends_ret; [done|]. apply split_up_stop; [lia|].
    destruct Hor as [->| ->]; [done|]. intros i d Hi. rewrite lookup_insert_ne; [by apply Hs|].
    intros Et. apply Hs in Hi. rewrite <-Et in Hi. congruence. }
  eapply ends_do; [by apply syncPublish_outside| |intros; apply split_up_err].
  intros [] h Hh Hp. destruct (Hp eq_refl) as [Hnone ->].
  assert (0 < str_len chunk <= chunkSize) as Hb by (unfold str_len in *; lia).
  pose proof (stored_snoc ds chunk g Hnone Hs) as Hs'.
  assert (forall r h, split_up (ds ++ [chunk]) (str_drop (Z.to_nat chunkSize) rest) r h -> split_up ds rest r h) as Hmore
    by (intros; rewrite <-Hrest; by apply split_up_more).
  change [mkChunkIdentity _ _ _ _] with [identity_of base (length ds) chunk]. rewrite identities_snoc.
  destruct (str_len chunk <? chunkSize) eqn:Elt; bool_norm.
  - apply ends_ret; [done|]. apply Hmore, split_up_stop; [|done].
    apply (f_equal str_len) in Hrest. unfold str_len in *. rewrite str_length_app in Hrest. lia.
  - eapply ends_conseq; [|exact (fun _ H => H)|intros r h' _; apply Hmore].
    replace (Z.of_nat (length ds) + 1) with (Z.of_nat (length (ds ++ [chunk]))) by (rewrite length_app; cbn; lia).
    by apply IH.
Qed.
End splitting.

Lemma outside_delete (f : kfs) (directory : string) (p : loc) (g : kfs) :
  p.1 = Clean directory \/ p = loc_of directory -> outside f directory g -> outside f directory (delete p g).
Proof.
  intros Hp Hg q H1 H2. rewrite lookup_delete_ne; [by apply Hg|]. intros <-. by destruct Hp.
Qed.

Lemma outside_drop_some (f : kfs) (directory : string) (n : nat) (g : kfs) :
  outside f directory g -> outside f directory (drop_some n directory g).
Proof.
  intros Hg. unfold drop_some. generalize (map fst (map_to_list g)). intros ps.
  assert (Forall (fun p : loc => inside directory p = true) (take n (filter (fun p => inside directory p = true) ps))) as Hall.
  { apply Forall_take, Forall_forall. intros p Hp. by apply list_elem_of_filter in Hp as [? _]. }
  induction Hall as [|p ps' Hp _ IH]; [done|]. cbn [foldr]. apply outside_delete; [|done]. left. by apply str_eqb_eq in Hp.
Qed.

Lemma outside_drop_all (f : kfs) (directory : string) (g : kfs) :
  outside f directory g -> outside f directory (drop_all directory g).
Proof.
  intros Hg. apply outside_delete; [by right|]. intros p H1 H2. rewrite <-(Hg p H1 H2).
  destruct (g !! p) as [n|] eqn:E; [|by apply map_lookup_filter_None_2; left].
  apply map_lookup_filter_Some_2; [done|]. apply str_eqb_neq. done.
Qed.

(** The directory and the answer of a split. *)
Definition split_state (f : kfs) (directory : string) (g : kfs) : Prop :=
  outside f directory g /\ (is_Some (f !! loc_of directory) -> g = f).
Definition split_answer (f : kfs) (archive directory : string) (chunkSize : Z) (chunks : list ChunkIdentity) (g : kfs) : Prop :=
  exists ds,
    f !! loc_of archive = Some (KFile (join_bytes ds)) /\ chunks = identities (Base archive) ds /\
    Forall (fun d => 0 < str_len d <= chunkSize) ds /\ stored (Base archive) directory ds g.

Lemma split_chunks_ends (f : kfs) (base directory : string) (chunkSize : Z) (data : bytes) (g : kfs) :
  0 < chunkSize -> outside f directory g ->
  ends g (split_chunks base directory chunkSize data) (outside f directory) (split_up base directory chunkSize [] data).
Proof.
  intros Hsize Hg. unfold split_chunks.
  eapply ends_do; [by apply (split_loop_ends f base directory chunkSize Hsize _ [] data g Hg)|cbv beta|intros; apply split_up_err].
  intros chunks h Hh Hq. destruct chunks as [|c cs]; [apply ends_ret; [done|apply split_up_err]|].
  eapply ends_do with (Q1 := fun _ h' => h' = h).
  { unfold syncDirectory. do 2 (apply ends_step; [done| |done]). by apply ends_may_fail. }
  - intros _ h' _ ->. by apply ends_ret.
  - intros; apply split_up_err.
Qed.

Lemma Haul_Split_ends (f : kfs) (archive directory : string) (chunkSize : Z) :
  ends f (Haul_Split archive directory chunkSize) (split_state f directory)
    (fun r g => forall chunks, r = Ok chunks -> split_answer f archive directory chunkSize chunks g).
Proof.
  assert (split_state f directory f) as Hf by done. unfold Haul_Split.
  destruct (_ || negb (IsAbs directory)) eqn:Eargs; [by apply ends_ret|].
  assert (0 < chunkSize) as Hsize by (repeat (apply orb_false_iff in Eargs as [Eargs _]); bool_norm; lia).
  eapply ends_do; [eapply ends_conseq; [apply openRegular_ends|by intros g ->|exact (fun _ _ _ H => H)]| |done].
  intros data g _ [-> Hdata]. specialize (Hdata data eq_refl).
  eapply ends_do with (Q1 := fun r g => r = Ok tt -> f !! loc_of directory = None /\ g = <[loc_of directory := KDir]> f); [| |done].
  { unfold Mkdir. apply ends_atomic; [done|..|done]; destruct (has_dir f (Dir (Clean directory))); try done;
      destruct (f !! loc_of directory) eqn:E; try done. split; [apply outside_insert; [by right|done]|].
    rewrite E. by intros [? ?]. }
  intros [] g _ Hg. destruct (Hg eq_refl) as [Hnone ->].
  assert (forall g, outside f directory g -> split_state f directory g) as Hstate by (split; [done|rewrite Hnone; by intros [? ?]]).
  eapply ends_bind; [eapply ends_conseq; [apply (split_chunks_ends f (Base archive) directory chunkSize data)|exact Hstate|exact (fun _ _ _ H => H)]|].
  { done. } { apply outside_insert; [by right|done]. }
  intros [chunks|e] g [Hg' _] Hq.
  - apply ends_ret; [by apply Hstate|]. intros ? [= <-]. destruct (Hq chunks eq_refl) as (ds & H1 & <- & H3 & H4). by exists ds.
  - eapply ends_bind with (Q1 := fun _ _ => True).
    { unfold RemoveAll. apply ends_syscall; cbn [fst snd]; [apply Hstate; by apply outside_drop_all|done| |done].
      intros n. apply Hstate. by apply outside_drop_some. }
    intros _ h Hh _. eapply ends_bind with (Q1 := fun _ _ => True); [|intros; by apply ends_ret].
    unfold syncDirectory. do 2 (apply ends_step; [done| |done]). by apply ends_may_fail.
Qed.

(** C38: splitting an archive keeps to its directory, whatever fails.  At every failure and
    every crash point nothing outside the new directory has changed, and when the
    directory was there already nothing has changed at all.  Success means the chunks are
    the whole archive: their files are in the directory under the numbered names, each has
    between one byte and the chunk size, the identities tell their numbers, sizes and
    SHA-256, and one after the other they are the archive's bytes. *)
Theorem Split_contained (f : kfs) (archive directory : string) (chunkSize : Z) (o : outcome (result (list ChunkIdentity))) (f' : kfs) :
  runs (Haul_Split archive directory chunkSize) f o f' ->
  (forall p, p.1 <> Clean directory -> p <> loc_of directory -> f' !! p = f !! p) /\
  (is_Some (f !! loc_of directory) -> f' = f) /\
  (forall chunks, o = Done (Ok chunks) -> exists ds,
     f !! loc_of archive = Some (KFile (join_bytes ds)) /\ chunks = identities (Base archive) ds /\
     Forall (fun d => 0 < str_len d <= chunkSize) ds /\ stored (Base archive) directory ds f').
Proof.
  intros H. destruct (Haul_Split_ends f archive directory chunkSize o f' H) as [[H1 H2] H3].
  split; [done|]. split; [done|]. intros chunks ->. by apply (H3 (Ok chunks) eq_refl).
Qed.
