(* ===== verification/HaulLive.v ===== *)
(** haulkit/chunks.go when nothing fails: an archive is split, and put together again it
    is the same archive.  HaulChunks says what an answer means; here there is one. *)
From S2P Require Import Prelude Sha256 GoTime Json Codec Regexp Domain Paths Effects HaulManifest HaulChunks.

(** * The loop ends by itself *)
Lemma io_bind_ext {F A B : Type} (p : io F A) (k1 k2 : A -> io F B) (s : sys F) :
  (forall a s', k1 a s' = k2 a s') -> io_bind p k1 s = io_bind p k2 s.
Proof. intros H. unfold io_bind. destruct (p s) as [[a|] s']; [apply H|done]. Qed.

Lemma split_loop_fuel (base dir : string) (chunkSize : Z) (n : nat) :
  0 < chunkSize ->
  forall (m : nat) (index : Z) (rest : bytes) (chunks : list ChunkIdentity) (s : sys kfs),
  (String.length rest < n)%nat -> (n <= m)%nat ->
  split_loop n base dir chunkSize index rest chunks s = split_loop m base dir chunkSize index rest chunks s.
Proof.
  intros Hsize. induction n as [|n IH]; intros m index rest chunks s Hn Hm; [lia|]. destruct m as [|m]; [lia|].
  cbn [split_loop]. set (chunk := str_take (Z.to_nat chunkSize) rest).
  apply io_bind_ext. intros [[]|e] s1; [|done]. apply io_bind_ext. intros [t|e] s2; [|done].
  apply io_bind_ext. intros [[]|e] s3; [|done]. apply io_bind_ext. intros [[]|e] s4; [|done].
  destruct (str_len chunk =? 0) eqn:E0; [done|]. apply io_bind_ext. intros [[]|e] s5; [|done].
  destruct (str_len chunk <? chunkSize) eqn:Elt; [done|]. apply IH; [|lia]. bool_norm.
  pose proof (str_take_drop (Z.to_nat chunkSize) rest) as Hr. fold chunk in Hr. apply (f_equal String.length) in Hr.
  rewrite str_length_app in Hr. unfold str_len in *. lia.
Qed.

(** Splitting ends by itself.  However many turns the loop were given beyond one per
    byte of the archive, every run, with every failure, is the same: the loop never stops
    for lack of turns. *)
Theorem split_terminates (base dir : string) (chunkSize : Z) (data : bytes) (extra : nat) (s : sys kfs) :
  0 < chunkSize ->
  split_loop (S (S (String.length data)) + extra) base dir chunkSize 0 data [] s =
  split_loop (S (S (String.length data))) base dir chunkSize 0 data [] s.
Proof. intros H. symmetry. apply split_loop_fuel; [done|lia|lia]. Qed.

(** * Runs without failures, and the random names they use *)
Definition quiet {A : Type} (p : io kfs A) (f : kfs) (rs : list bytes) (a : A) (g : kfs) (rs' : list bytes) : Prop :=
  p (calm f rs) = (Done a, calm g rs').

Lemma quiet_ret {A : Type} (a : A) (f : kfs) (rs : list bytes) : quiet (io_ret a) f rs a f rs.
Proof. done. Qed.

Lemma quiet_bind {A B : Type} (p : io kfs A) (k : A -> io kfs B) (f : kfs) rs a (g : kfs) rs1 b (h : kfs) rs2 :
  quiet p f rs a g rs1 -> quiet (k a) g rs1 b h rs2 -> quiet (io_bind p k) f rs b h rs2.
Proof. intros Hp Hk. unfold quiet. by rewrite (calm_bind _ _ _ _ _ _ _ Hp). Qed.

Lemma quiet_syscall {A : Type} torn (act : kfs -> result A * kfs) (f : kfs) rs :
  quiet (syscall torn act) f rs (act f).1 (act f).2 rs.
Proof. apply calm_syscall. Qed.

Lemma quiet_atomic {A : Type} (act : kfs -> result A * kfs) (f : kfs) rs a g :
  act f = (a, g) -> quiet (atomic act) f rs a g rs.
Proof. intros H. pose proof (quiet_syscall (fun _ f => f) act f rs) as Hq. by rewrite H in Hq. Qed.

Lemma quiet_may_fail (f : kfs) rs : quiet may_fail f rs (Ok tt) f rs.
Proof. done. Qed.

Lemma quiet_ctx_err (f : kfs) rs : quiet ctx_err f rs (Ok tt) f rs.
Proof. done. Qed.

Lemma quiet_syncDirectory (f : kfs) rs : quiet syncDirectory f rs (Ok tt) f rs.
Proof. done. Qed.

Create HintDb quiet discriminated.
#[export] Hint Resolve quiet_ret quiet_may_fail quiet_ctx_err quiet_syncDirectory : quiet.

(** Takes the next step of a program. *)
Ltac quiet_step := eapply quiet_bind; [solve [eauto with quiet]|cbv beta iota].

Lemma quiet_write (f : kfs) (t : loc) (b b' : bytes) rs :
  quiet (write_data t b') (<[t := KFile b]> f) rs (Ok tt) (<[t := KFile (b +:+ b')]> f) rs.
Proof. unfold quiet. rewrite <-append_temp. apply quiet_syscall. Qed.

Lemma quiet_remove (f : kfs) (t : loc) (n : knode) rs :
  f !! t = None -> quiet (remove t) (<[t := n]> f) rs (Ok tt) f rs.
Proof. intros H. apply quiet_atomic. by rewrite lookup_insert_eq, drop_temp. Qed.

Lemma quiet_openRegular (f : kfs) (p : loc) (d : bytes) rs :
  f !! p = Some (KFile d) -> quiet (openRegular p) f rs (Ok d) f rs.
Proof. intros H. unfold openRegular. quiet_step. eapply quiet_bind; [apply quiet_atomic; by rewrite H|]. done. Qed.

Lemma quiet_CreateTemp (f : kfs) (dir prefix : string) (r : bytes) rs :
  has_dir f dir = true -> f !! (Clean dir, prefix +:+ r) = None ->
  quiet (CreateTemp dir prefix) f (r :: rs) (Ok (Clean dir, prefix +:+ r)) (<[(Clean dir, prefix +:+ r) := KFile ""]> f) rs.
Proof.
  intros Hd Hp. unfold CreateTemp. destruct (100 * 100)%nat as [|n] eqn:E; [lia|]. clear E. cbn [create_temp].
  eapply quiet_bind with (rs1 := rs) (g := f); [done|]. cbv beta iota zeta.
  eapply quiet_bind; [apply quiet_atomic; by rewrite Hd, Hp|]. apply quiet_ret.
Qed.

Lemma quiet_syncPublish (f : kfs) (t out : loc) (b : bytes) rs :
  f !! t = None -> f !! out = None -> t <> out ->
  quiet (syncPublish t out) (<[t := KFile b]> f) rs (Ok tt) (<[out := KFile b]> f) rs.
Proof.
  intros Ht Ho Hne. unfold syncPublish. do 5 quiet_step.
  eapply quiet_bind; [apply quiet_atomic; by rewrite lookup_insert_eq, lookup_insert_ne, Ho by done|]. cbv beta iota.
  rewrite insert_insert_ne by done.
  eapply quiet_bind; [apply quiet_remove; by rewrite lookup_insert_ne|]. apply quiet_ret.
Qed.
#[export] Hint Resolve quiet_write quiet_remove quiet_openRegular : quiet.

(** * The names of chunks *)
Definition padded (index : Z) : string := digit_zeros (6 - String.length (FormatInt index)) +:+ FormatInt index.

Lemma part_name_padded (base : string) (index : Z) : part_name base index = base +:+ ".part-" +:+ padded index.
Proof. done. Qed.

Lemma digit_zeros_spec (n : nat) : str_all is_digit (digit_zeros n) = true /\ digits_value 0 (digit_zeros n) = 0.
Proof. induction n as [|n [IH1 IH2]]; [done|]. cbn [digit_zeros str_all digits_value]. by rewrite IH1. Qed.

Lemma padded_spec (index : Z) : 0 <= index -> str_all is_digit (padded index) = true /\ digits_value 0 (padded index) = index.
Proof.
  intros H. unfold padded. destruct (digit_zeros_spec (6 - String.length (FormatInt index))) as [H1 H2].
  destruct (FormatInt_cases index) as [(_ & [Hd _] & Hv)|[? _]]; [|lia].
  rewrite str_all_app, digits_value_app, H1, H2, Hv. by rewrite Hd.
Qed.

Lemma str_app_inj (a b c : string) : a +:+ b = a +:+ c -> b = c.
Proof. induction a as [|x a IH]; [done|]. rewrite !str_app_cons. intros [= H]. by apply IH. Qed.

Lemma part_name_inj (base : string) (i j : Z) : 0 <= i -> 0 <= j -> part_name base i = part_name base j -> i = j.
Proof.
  intros Hi Hj H. rewrite !part_name_padded in H. apply str_app_inj, str_app_inj in H.
  rewrite <-(proj2 (padded_spec i Hi)), <-(proj2 (padded_spec j Hj)). by rewrite H.
Qed.

(** The name of a temporary file is a dot, a word, a dash and digits; a chunk's has a dot
    further on. *)
Definition no_dot (s : string) : bool := str_all (fun c => negb (byte_val c =? 46)) s.

Lemma digits_no_dot (s : string) : str_all is_digit s = true -> no_dot s = true.
Proof. apply str_all_impl. intros c H. unfold is_digit in H. lia. Qed.

Lemma temp_not_part (word : string) (r base : string) (i : Z) :
  no_dot word = true -> HasPrefix word "part-" = false -> (5 <= String.length word)%nat -> no_dot r = true ->
  String "." word +:+ r <> part_name base i.
Proof.
  intros Hw Hp Hl Hr E. rewrite part_name_padded in E. rewrite str_app_cons in E.
  assert (no_dot (word +:+ r) = true) as Hd by (unfold no_dot in *; by rewrite str_all_app, Hw).
  destruct base as [|c base].
  - change ("" +:+ ?x) with x in E. change (".part-" +:+ padded i) with (String "." ("part-" +:+ padded i)) in E. injection E as E.
    do 5 (destruct word as [|? word]; [cbn in Hl; lia|]). rewrite !str_app_cons in E.
    change ("part-" +:+ padded i) with (String "p" (String "a" (String "r" (String "t" (String "-" (padded i)))))) in E.
    injection E as -> -> -> -> -> _. cbn in Hp. discriminate Hp.
  - rewrite str_app_cons in E. injection E as _ E. rewrite E in Hd. unfold no_dot in Hd. rewrite str_all_app in Hd. bool_norm.
    cbn in *. done.
Qed.

(** Printable bytes, neither a space nor a slash. *)
Definition plain_byte (c : ascii) : bool := let v := byte_val c in (33 <=? v) && (v <=? 126) && negb (v =? 47).

Lemma plain_no_control (s : string) : str_all plain_byte s = true -> hasControl s = false.
Proof.
  unfold hasControl. induction s as [|c s IH]; [done|]. cbn [str_all]. intros [Hc Hs]%andb_true_iff.
  cbn [String.length has_control]. unfold plain_byte in Hc. bool_norm.
  assert (rune_size (String c s) = 1%nat) as ->.
  { unfold rune_size. assert (byte_val c <? 128 = true) as ->; [|done]. lia. }
  cbn [str_take str_drop]. rewrite (IH Hs), orb_false_r. unfold control_rune. cbn [string_bytes]. lia.
Qed.

Lemma plain_no_slash (s : string) : str_all plain_byte s = true -> str_all (fun c => negb (bool_decide (c = "/"%char))) s = true.
Proof.
  apply str_all_impl. intros c H. unfold plain_byte in H. apply negb_true_iff, bool_decide_eq_false. intros ->. done.
Qed.

Lemma Base_no_slash (s : string) :
  s <> "" -> str_all (fun c => negb (bool_decide (c = "/"%char))) s = true -> Base s = s.
Proof.
  intros Hne H. unfold Base. rewrite (proj2 (str_eqb_neq _ _)) by done. rewrite Split_no_sep by done. cbn [rev app drop_empty].
  by rewrite (proj2 (str_eqb_neq _ _)).
Qed.

Lemma part_name_plain (base : string) (i : Z) :
  0 <= i -> str_all plain_byte base = true -> str_all plain_byte (part_name base i) = true /\ (6 <= String.length (part_name base i))%nat.
Proof.
  intros Hi Hb. rewrite part_name_padded. split.
  - rewrite !str_all_app, Hb. destruct (padded_spec i Hi) as [Hd _].
    enough (str_all plain_byte (padded i) = true) as -> by done.
    apply (str_all_impl is_digit); [|done]. intros c Hc. unfold is_digit, plain_byte in *. lia.
  - rewrite !str_length_app. cbn. lia.
Qed.

Lemma part_name_safe (base : string) (i : Z) :
  0 <= i -> str_all plain_byte base = true -> safeRelativeName (part_name base i) = true /\ part_name base i <> "/".
Proof.
  intros Hi Hb. destruct (part_name_plain base i Hi Hb) as [Hp Hl]. set (n := part_name base i) in *. unfold safeRelativeName.
  assert (forall s, (String.length s < 6)%nat -> n <> s) as Hne by (intros s Hs ->; lia).
  rewrite (plain_no_control n Hp), (Base_no_slash n) by (first [apply Hne; cbn; lia|by apply plain_no_slash]).
  rewrite str_eqb_refl, !(proj2 (str_eqb_neq _ _)) by (apply Hne; cbn; lia). split; [done|]. apply Hne. cbn. lia.
Qed.

(** * Splitting *)
Section split_quiet.
  Context (base directory : string) (chunkSize : Z).
  Context (Hsize : 0 < chunkSize) (Hdir : Dir (Clean directory) <> Clean directory).

(** The names the directory holds after [index] chunks. *)
Definition only_parts (index : Z) (g : kfs) : Prop :=
  forall n x, g !! (Clean directory, n) = Some x -> exists j, 0 <= j < index /\ n = part_name base j.

Lemma has_dir_insert (g : kfs) (n : string) (x : knode) :
  has_dir g directory = true -> has_dir (<[(Clean directory, n) := x]> g) directory = true.
Proof.
  unfold has_dir, loc_of. intros H. rewrite lookup_insert_ne; [done|]. intros [= E _]. congruence.
Qed.

Lemma only_parts_insert (index : Z) (g : kfs) (x : knode) :
  0 <= index -> only_parts index g -> only_parts (index + 1) (<[(Clean directory, part_name base index) := x]> g).
Proof.
  intros Hi H n y Hn. destruct (decide (n = part_name base index)) as [->|Hne]; [exists index; split; [lia|done]|].
  rewrite lookup_insert_ne in Hn by congruence. destruct (H n y Hn) as (j & Hj & ->). exists j. split; [lia|done].
Qed.

Lemma only_parts_temp (index : Z) (g : kfs) (r : bytes) :
  str_all is_digit r = true -> only_parts index g -> g !! (Clean directory, ".chunk-" +:+ r) = None.
Proof.
  intros Hr H. destruct (g !! _) eqn:E; [|done]. apply H in E as (j & _ & E). exfalso. revert E.
  apply (temp_not_part "chunk-"); [done|done|cbn; lia|by apply digits_no_dot].
Qed.

Lemma only_parts_next (index : Z) (g : kfs) :
  0 <= index -> only_parts index g -> g !! (Clean directory, part_name base index) = None.
Proof.
  intros Hi H. destruct (g !! _) eqn:E; [|done]. apply H in E as (j & Hj & E). apply part_name_inj in E; lia.
Qed.

Lemma temp_not_next (index : Z) (r : bytes) :
  str_all is_digit r = true -> (Clean directory, ".chunk-" +:+ r) <> (Clean directory, part_name base index).
Proof. intros Hr [= E]. revert E. apply (temp_not_part "chunk-"); [done|done|cbn; lia|by apply digits_no_dot]. Qed.

(** The names one run of the loop draws: one per full chunk and one more. *)
Definition turns (rest : bytes) : Z := str_len rest / chunkSize + 1.

Lemma turns_more (rest : bytes) :
  chunkSize <= str_len rest -> turns (str_drop (Z.to_nat chunkSize) rest) = turns rest - 1 /\
  str_len (str_drop (Z.to_nat chunkSize) rest) = str_len rest - chunkSize.
Proof.
  intros H. assert (str_len (str_drop (Z.to_nat chunkSize) rest) = str_len rest - chunkSize) as Hl.
  { pose proof (str_take_drop (Z.to_nat chunkSize) rest) as Hr. apply (f_equal str_len) in Hr.
    pose proof (take_len chunkSize Hsize rest) as Ht. unfold str_len in *. rewrite str_length_app in Hr. lia. }
  split; [|done]. unfold turns. rewrite Hl. replace (str_len rest) with (str_len rest - chunkSize + 1 * chunkSize) at 2 by lia.
  rewrite Z.div_add by lia. lia.
Qed.

Lemma turns_pos (rest : bytes) : 1 <= turns rest.
Proof. unfold turns. pose proof (Z.div_pos (str_len rest) chunkSize ltac:(unfold str_len; lia) Hsize). lia. Qed.

(** The first steps of a turn. *)
Lemma quiet_turn (g : kfs) (r : bytes) (rs : list bytes) (chunk : bytes) (q : loc -> io kfs (result (list ChunkIdentity)))
    (a : result (list ChunkIdentity)) (h : kfs) (rs' : list bytes) :
  has_dir g directory = true -> g !! (Clean directory, ".chunk-" +:+ r) = None ->
  quiet (q (Clean directory, ".chunk-" +:+ r)) (<[(Clean directory, ".chunk-" +:+ r) := KFile chunk]> g) rs a h rs' ->
  quiet (do! _ := ctx_err in do! temporary := CreateTemp directory ".chunk-" in hooked <~ may_fail;
    match hooked with
    | Err e => abandon temporary e
    | Ok _ => copied <~ write_data temporary chunk;
        match copied with Err e => abandon temporary e | Ok _ => q temporary end
    end) g (r :: rs) a h rs'.
Proof.
  intros Hd Ht Hq. quiet_step. eapply quiet_bind; [by apply quiet_CreateTemp|]. cbv beta iota. quiet_step.
  eapply quiet_bind; [apply quiet_write|]. exact Hq.
Qed.

Lemma split_loop_quiet (fuel : nat) : forall (index : Z) (rest : bytes) (chunks : list ChunkIdentity) (g : kfs) (rs : list bytes),
  has_dir g directory = true -> only_parts index g -> 0 <= index -> index + turns rest <= 2 ^ 32 ->
  (String.length rest < fuel)%nat -> Forall (fun r => str_all is_digit r = true) rs -> turns rest <= Z.of_nat (length rs) ->
  exists chunks' g' used rs', rs = used ++ rs' /\ Z.of_nat (length used) <= turns rest /\
    quiet (split_loop fuel base directory chunkSize index rest chunks) g rs (Ok (chunks ++ chunks')) g' rs' /\ (rest <> "" -> chunks' <> []) /\
    Z.of_nat (length chunks') <= turns rest.
Proof.
  induction fuel as [|fuel IH]; intros index rest chunks g rs Hd Ho Hi Hmax Hfuel Hrs Hlen; [lia|].
  pose proof (turns_pos rest) as Hpos. destruct rs as [|r rs]; [cbn [length] in Hlen; lia|]. apply Forall_cons in Hrs as [Hr Hrs].
  cbn [split_loop]. replace (index mod 2 ^ 32) with index by (symmetry; apply Z.mod_small; lia).
  set (chunk := str_take (Z.to_nat chunkSize) rest).
  pose proof (only_parts_temp index g r Hr Ho) as Ht. pose proof (take_len chunkSize Hsize rest) as Hc. fold chunk in Hc.
  assert (rest <> "" -> 0 < str_len rest) as Hrest by (destruct rest; [done|intros _; unfold str_len; cbn; lia]).
  assert (0 <= str_len rest) as Hrest0 by (unfold str_len; lia).
  destruct (str_len chunk =? 0) eqn:E0; bool_norm.
  { exists [], g, [r], rs. split; [done|]. split; [cbn [length]; lia|]. split; [|split; [intros Hne; apply Hrest in Hne; lia|cbn [length]; lia]].
    rewrite app_nil_r. apply (quiet_turn g r rs chunk (fun t => _ <~ may_fail; _ <~ remove t; io_ret (Ok chunks))); [done|done|].
    quiet_step. eapply quiet_bind; [by apply quiet_remove|]. apply quiet_ret. }
  set (id := mkChunkIdentity index (part_name base index) (sha256Hex chunk) (str_len chunk)).
  set (g1 := <[(Clean directory, part_name base index) := KFile chunk]> g).
  assert (quiet (syncPublish (Clean directory, ".chunk-" +:+ r) (Clean directory, part_name base index))
    (<[(Clean directory, ".chunk-" +:+ r) := KFile chunk]> g) rs (Ok tt) g1 rs) as Hpub.
  { apply quiet_syncPublish; [done|by apply only_parts_next|by apply temp_not_next]. }
  destruct (str_len chunk <? chunkSize) eqn:Elt; bool_norm.
  - exists [id], g1, [r], rs. split; [done|]. split; [cbn [length]; lia|]. split; [|split; [done|cbn [length]; lia]].
    eapply (quiet_turn g r rs chunk (fun t => do! _ := syncPublish t (Clean directory, part_name base index) in io_ret (Ok (chunks ++ [id])))); [done|done|].
    eapply quiet_bind; [exact Hpub|]. apply quiet_ret.
  - destruct (turns_more rest) as [Htm Hlm]; [lia|].
    destruct (IH (index + 1) (str_drop (Z.to_nat chunkSize) rest) (chunks ++ [id]) g1 rs) as (chunks' & g' & used & rs' & -> & Hu & Hq & _ & Hcount).
    { by apply has_dir_insert. } { by apply only_parts_insert. } { lia. } { lia. } { unfold str_len in *; lia. } { done. } { cbn [length] in Hlen. lia. }
    exists (id :: chunks'), g', (r :: used), rs'. split; [done|]. split; [cbn [length]; lia|]. split; [|split; [done|cbn [length]; lia]].
    rewrite <-app_assoc in Hq.
    eapply (quiet_turn g r (used ++ rs') chunk (fun t => do! _ := syncPublish t (Clean directory, part_name base index) in
      split_loop fuel base directory chunkSize (index + 1) (str_drop (Z.to_nat chunkSize) rest) (chunks ++ [id]))); [done|done|].
    eapply quiet_bind; [exact Hpub|]. exact Hq.
Qed.
End split_quiet.

(** * Putting together *)
Lemma sha256Hex_haul (d : bytes) : haul_validSHA256 (sha256Hex d) = true.
Proof. pose proof (sha256Hex_text d) as H. unfold sha256_text, haul_validSHA256 in *. bool_norm. apply andb_true_iff. split; [lia|]. apply andb_true_iff. split; [done|]. by apply str_eqb_eq. Qed.

Lemma reassemble_loop_quiet (g : kfs) (base directory dir r : string) (maxSize : Z) (rs : list bytes) :
  str_all plain_byte base = true -> str_all is_digit r = true ->
  g !! (dir, ".haulkit-reassemble-" +:+ r) = None ->
  forall (ds pre : list bytes) (seen : list string) (acc : bytes),
  stored base directory (pre ++ ds) g -> Z.of_nat (length (pre ++ ds)) <= 2 ^ 32 ->
  Forall (fun d => 0 < str_len d <= maxSize) ds ->
  (forall n, n ∈ seen -> exists j, 0 <= j < Z.of_nat (length pre) /\ n = part_name base j) ->
  quiet (reassemble_loop directory maxSize (dir, ".haulkit-reassemble-" +:+ r) (Z.of_nat (length pre))
      (imap (fun i => identity_of base (length pre + i)) ds) seen)
    (<[(dir, ".haulkit-reassemble-" +:+ r) := KFile acc]> g) rs (Ok tt)
    (<[(dir, ".haulkit-reassemble-" +:+ r) := KFile (acc +:+ join_bytes ds)]> g) rs.
Proof.
  intros Hb Hr Ht. set (t := (dir, ".haulkit-reassemble-" +:+ r)) in *.
  induction ds as [|d ds IH]; intros pre seen acc Hs Hmax Hsz Hseen.
  { cbn [imap reassemble_loop join_bytes]. rewrite str_app_nil_r. apply quiet_ret. }
  apply Forall_cons in Hsz as [Hd Hsz]. rewrite length_app in Hmax. cbn [length] in Hmax.
  cbn [imap reassemble_loop]. rewrite Nat.add_0_r. set (k := length pre) in *.
  assert (Z.of_nat k mod 2 ^ 32 = Z.of_nat k) as Hk by (apply Z.mod_small; lia).
  assert (identity_of base k d = mkChunkIdentity (Z.of_nat k) (part_name base (Z.of_nat k)) (sha256Hex d) (str_len d)) as ->
    by (unfold identity_of; by rewrite Hk).
  cbn [ck_Index ck_Name ck_SHA256 ck_Size]. rewrite !Hk.
  destruct (part_name_safe base (Z.of_nat k) ltac:(lia) Hb) as [Hsafe Hslash].
  quiet_step. rewrite Z.eqb_refl, Hsafe, sha256Hex_haul. cbn [negb orb].
  replace (str_len d <=? 0) with false by lia. replace (maxSize <? str_len d) with false by lia. cbn [orb].
  assert (existsb (str_eqb (part_name base (Z.of_nat k))) seen = false) as ->.
  { apply not_true_is_false. intros (n & Hn & E)%existsb_exists. apply list_elem_of_In, Hseen in Hn as (j & Hj & ->).
    apply str_eqb_eq, part_name_inj in E; lia. }
  assert (child directory (part_name base (Z.of_nat k)) = (Clean directory, part_name base (Z.of_nat k))) as ->.
  { unfold child. by rewrite (proj2 (str_eqb_neq _ _)). }
  assert (t <> (Clean directory, part_name base (Z.of_nat k))) as Hne.
  { intros [= _ E]. revert E. apply (temp_not_part "haulkit-reassemble-"); [done|done|cbn; lia|by apply digits_no_dot]. }
  assert (g !! (Clean directory, part_name base (Z.of_nat k)) = Some (KFile d)) as Hfile.
  { rewrite <-Hk at 1. apply Hs. unfold k. by rewrite lookup_app_r, Nat.sub_diag. }
  eapply quiet_bind; [apply quiet_openRegular; by rewrite lookup_insert_ne|]. cbv beta iota. quiet_step.
  assert (str_take (Z.to_nat (str_len d + 1)) d = d) as -> by (apply str_take_short; unfold str_len; lia).
  eapply quiet_bind; [apply quiet_write|]. cbv beta iota. quiet_step. rewrite Z.eqb_refl, str_eqb_refl. cbn [negb orb join_bytes].
  rewrite <-str_app_assoc.
  specialize (IH (pre ++ [d]) (part_name base (Z.of_nat k) :: seen) (acc +:+ d)).
  rewrite <-app_assoc, !length_app in IH. cbn [app length] in IH. fold k in IH.
  replace (Z.of_nat (k + 1)) with (Z.of_nat k + 1) in IH by lia.
  erewrite imap_ext in IH; [apply IH; [done|lia|done|]|].
  - intros n [->|Hn]%elem_of_cons; [exists (Z.of_nat k); split; [lia|done]|].
    destruct (Hseen n Hn) as (j & Hj & ->). exists j. split; [lia|done].
  - intros i x _. cbn. f_equal. lia.
Qed.

(** * There and back *)

(** Where a kit is split and put together: an archive that is there and fits, a directory
    that is not there yet in one that is, an output that is free, elsewhere, and random
    names for the temporary files that are digits and not taken. *)
Record kit_setting (f : kfs) (archive directory output : string) (chunkSize : Z) (data : bytes) (rs : list bytes) : Prop := {
  ks_size : 0 < chunkSize <= DefaultChunkSize;
  ks_absolute : IsAbs archive = true /\ IsAbs directory = true /\ IsAbs output = true;
  ks_archive : f !! loc_of archive = Some (KFile data);
  ks_data : data <> "" /\ turns chunkSize data <= 2 ^ 32;
  ks_name : str_all plain_byte (Base archive) = true;
  ks_parents : has_dir f (Dir (Clean directory)) = true /\ has_dir f (Dir output) = true;
  ks_directory : f !! loc_of directory = None /\ Dir (Clean directory) <> Clean directory /\ forall n, f !! (Clean directory, n) = None;
  ks_output : f !! loc_of output = None /\ Dir (Clean output) <> Clean directory /\ loc_of output <> loc_of directory;
  ks_elsewhere : Dir (Clean (Dir output)) <> Clean directory /\ Clean (Dir output) <> Clean directory;
  ks_temporary : HasPrefix (Base output) ".haulkit-reassemble-" = false /\ HasPrefix (Base directory) ".haulkit-reassemble-" = false;
  ks_random : Forall (fun r => str_all is_digit r = true /\ f !! (Clean (Dir output), ".haulkit-reassemble-" +:+ r) = None) rs;
  ks_enough : turns chunkSize data < Z.of_nat (length rs)
}.

Lemma split_quiet (f : kfs) (archive directory output : string) (chunkSize : Z) (data : bytes) (rs : list bytes) :
  kit_setting f archive directory output chunkSize data rs ->
  exists chunks g used r rs', rs = used ++ r :: rs' /\ quiet (Haul_Split archive directory chunkSize) f rs (Ok chunks) g (r :: rs') /\
    Z.of_nat (length chunks) <= 2 ^ 32.
Proof.
  intros [[H1 H2] (A1 & A2 & _) Ha [Hne Hmax] Hname [Hp _] (Hd & Hdd & Hempty) _ _ _ Hr Hlen].
  unfold Haul_Split. replace (chunkSize <=? 0) with false by lia. replace (DefaultChunkSize <? chunkSize) with false by lia.
  rewrite A1, A2. cbn [negb orb]. set (f1 := <[loc_of directory := KDir]> f).
  assert (quiet (Mkdir directory) f rs (Ok tt) f1 rs) as Hmk by (apply quiet_atomic; by rewrite Hp, Hd).
  destruct (split_loop_quiet (Base archive) directory chunkSize H1 Hdd (S (S (String.length data))) 0 data [] f1 rs)
    as (chunks & g & used & rs' & -> & Hused & Hq & Hn & Hcount).
  { unfold has_dir, f1. by rewrite lookup_insert_eq. }
  { intros n x. unfold f1, loc_of. rewrite lookup_insert_ne by (intros [= E _]; congruence). by rewrite Hempty. }
  { lia. } { lia. } { lia. } { eapply Forall_impl; [exact Hr|]. by intros ? [? _]. } { lia. }
  destruct rs' as [|r rs']; [rewrite app_nil_r in Hlen; lia|]. exists chunks, g, used, r, rs'. split; [done|]. split; [|lia].
  eapply quiet_bind; [by apply quiet_openRegular|]. cbv beta iota. eapply quiet_bind; [exact Hmk|]. cbv beta iota.
  eapply quiet_bind with (a := Ok chunks) (g := g); [|apply quiet_ret].
  unfold split_chunks. eapply quiet_bind; [exact Hq|]. cbv beta iota. change ([] ++ chunks) with chunks. destruct chunks; [by destruct (Hn Hne)|].
  eapply quiet_bind; [apply quiet_syncDirectory|]. apply quiet_ret.
Qed.

Lemma reassemble_quiet (g : kfs) (base directory output : string) (chunkSize : Z) (ds : list bytes) (r : bytes) (rs : list bytes) :
  0 < chunkSize <= DefaultChunkSize -> IsAbs directory = true -> IsAbs output = true -> str_all plain_byte base = true ->
  ds <> [] -> Z.of_nat (length ds) <= 2 ^ 32 -> Forall (fun d => 0 < str_len d <= chunkSize) ds -> stored base directory ds g ->
  has_dir g (Dir output) = true -> g !! loc_of output = None -> HasPrefix (Base output) ".haulkit-reassemble-" = false ->
  str_all is_digit r = true -> g !! (Clean (Dir output), ".haulkit-reassemble-" +:+ r) = None ->
  quiet (Reassemble directory (identities base ds) output chunkSize) g (r :: rs) (Ok tt)
    (<[loc_of output := KFile (join_bytes ds)]> g) rs.
Proof.
  intros [H1 H2] A1 A2 Hb Hne Hmax Hds Hs Hd Ho Hpre Hr Ht. unfold Reassemble.
  rewrite A1, A2. replace (chunkSize <=? 0) with false by lia. replace (DefaultChunkSize <? chunkSize) with false by lia.
  unfold identities at 1. rewrite length_imap. destruct (Nat.eqb (length ds) 0) eqn:E; [by destruct ds|]. cbn [negb orb].
  eapply quiet_bind; [by apply quiet_CreateTemp|]. cbv beta iota.
  eapply quiet_bind with (a := Ok tt) (g := <[loc_of output := KFile (join_bytes ds)]> g); [|apply quiet_ret].
  unfold reassemble_body.
  eapply quiet_bind;
    [apply (reassemble_loop_quiet g base directory (Clean (Dir output)) r chunkSize rs Hb Hr Ht ds [] [] ""); [done|done|done|]|].
  { by intros n ?%not_elem_of_nil. }
  cbv beta iota. change ("" +:+ join_bytes ds) with (join_bytes ds).
  eapply quiet_bind; [apply quiet_syncPublish; [done|done|]|].
  { unfold loc_of. intros [= _ E']. rewrite <-E', HasPrefix_app in Hpre. discriminate. }
  cbv beta iota. quiet_step. apply quiet_ret.
Qed.

(** C36: an archive that is split and put together again is the archive it was.  With no
    failures, splitting a non-empty archive into a new directory returns the identities of
    the chunks, and putting those together returns too: the output holds the archive's
    bytes, and nothing else changes but the names of the directory and what is in it. *)
Theorem split_reassemble (f : kfs) (archive directory output : string) (chunkSize : Z) (data : bytes) (rs : list bytes) :
  kit_setting f archive directory output chunkSize data rs ->
  exists chunks g rs1 rs2,
    quiet (Haul_Split archive directory chunkSize) f rs (Ok chunks) g rs1 /\
    quiet (Reassemble directory chunks output chunkSize) g rs1 (Ok tt) (<[loc_of output := KFile data]> g) rs2 /\
    (forall p, p.1 <> Clean directory -> p <> loc_of directory -> g !! p = f !! p).
Proof.
  intros Hk. destruct (split_quiet _ _ _ _ _ _ _ Hk) as (chunks & g & used & r & rs' & -> & Hq & Hcount).
  destruct Hk as [Hsize (A1 & A2 & A3) Ha [Hne _] Hname [_ Hpo] (Hd & Hdd & Hempty) (Ho1 & Ho2 & Ho3) [He1 He2] [Ht1 Ht2] Hr _].
  destruct (Haul_Split_ends f archive directory chunkSize _ _ (runs_at _ _ _ _ Hq)) as [[Hout _] Hans].
  destruct (Hans (Ok chunks) eq_refl chunks eq_refl) as (ds & Hdata & -> & Hds & Hs). clear Hans.
  rewrite Ha in Hdata. injection Hdata as ->. cbn [calm s_fs] in *.
  exists (identities (Base archive) ds), g, (r :: rs'), rs'. split; [done|]. split; [|exact Hout].
  apply Forall_app in Hr as [_ Hr]. apply Forall_cons in Hr as [[Hr Hfree] _]. unfold identities in Hcount. rewrite length_imap in Hcount.
  eapply reassemble_quiet; try done.
  - by intros ->.
  - unfold has_dir. rewrite Hout; [done|exact He1|]. intros E. unfold has_dir in Hpo. by rewrite E, Hd in Hpo.
  - by rewrite Hout.
  - rewrite Hout; [done|done|]. unfold loc_of. intros [= _ E]. rewrite <-E, HasPrefix_app in Ht2. discriminate.
Qed.

(** * A small kit *)
Definition sample_files : kfs :=
  <[("/a", "kit.tar") := KFile "hello"]> (<[("/", "a") := KDir]> (<[("/", "b") := KDir]> {[("/", "/") := KDir]})).
Definition sample_random : list bytes := ["1"; "22"; "333"; "4444"; "5"].

Lemma sample_kit : kit_setting sample_files "/a/kit.tar" "/a/parts" "/b/out.tar" 2 "hello" sample_random.
Proof.
  assert (Clean "/a/parts" = "/a/parts") as Hc by (vm_compute; reflexivity).
  assert (Clean (Dir "/b/out.tar") = "/b") as Ho by (vm_compute; reflexivity).
  assert (Dir "/a/parts" = "/a" /\ Dir "/b/out.tar" = "/b" /\ Dir (Dir "/b/out.tar") = "/") as (Hd1 & Hd2 & Hd3)
    by (vm_compute; repeat split; reflexivity).
  assert (Clean "/b/out.tar" = "/b/out.tar") as Hco by (vm_compute; reflexivity).
  split.
  - unfold DefaultChunkSize. lia.
  - repeat split; reflexivity.
  - reflexivity.
  - split; [congruence|]. assert (turns 2 "hello" = 3) as -> by reflexivity. lia.
  - reflexivity.
  - split; reflexivity.
  - rewrite Hc, Hd1. split; [reflexivity|]. split; [congruence|]. intros n. unfold sample_files.
    rewrite !lookup_insert_ne by congruence. by rewrite lookup_singleton_ne by congruence.
  - rewrite Hc, Hco, Hd2. split; [reflexivity|]. split; [congruence|]. unfold loc_of. rewrite Hc, Hco, Hd1, Hd2. congruence.
  - rewrite Ho. assert (Dir "/b" = "/") as -> by (vm_compute; reflexivity). rewrite Hc. split; congruence.
  - split; reflexivity.
  - rewrite Ho. repeat constructor.
  - assert (turns 2 "hello" = 3) as -> by reflexivity. cbn. lia.
Qed.

Lemma sample_split :
  exists ds g r rs', runs (Haul_Split "/a/kit.tar" "/a/parts" 2) sample_files (Done (Ok (identities "kit.tar" ds))) g /\
    g !! loc_of "/b/out.tar" = None /\ quiet (Reassemble "/a/parts" (identities "kit.tar" ds) "/b/out.tar" 2) g (r :: rs') (Ok tt) (<[("/b", "out.tar") := KFile "hello"]> g) rs'.
Proof.
  destruct (split_quiet _ _ _ _ _ _ _ sample_kit) as (chunks & g & used & r & rs' & Hrs & Hq & Hcount).
  pose proof (runs_at _ _ _ _ Hq) as Hruns.
  destruct (Haul_Split_ends sample_files "/a/kit.tar" "/a/parts" 2 _ _ Hruns) as [[Hout _] Hans].
  destruct (Hans (Ok chunks) eq_refl chunks eq_refl) as (ds & Hdata & -> & Hds & Hs). clear Hans. cbn [calm s_fs] in *.
  assert (Base "/a/kit.tar" = "kit.tar") as Hb by (vm_compute; reflexivity). rewrite Hb in *.
  assert (sample_files !! loc_of "/a/kit.tar" = Some (KFile "hello")) as Hf by (vm_compute; reflexivity).
  rewrite Hf in Hdata. injection Hdata as Hdata. exists ds, g, r, rs'. split; [exact Hruns|]. rewrite Hdata.
  assert (Forall (fun r => str_all is_digit r = true) sample_random) as Hr by (repeat constructor).
  rewrite Hrs in Hr. apply Forall_app in Hr as [_ Hr]. apply Forall_cons in Hr as [Hr _].
  unfold identities in Hcount. rewrite length_imap in Hcount.
  assert (loc_of "/b/out.tar" = ("/b", "out.tar")) as Hl by (vm_compute; reflexivity). rewrite <-Hl.
  assert (Clean "/a/parts" = "/a/parts") as Hc by (vm_compute; reflexivity).
  assert (forall p : loc, p.1 <> "/a/parts" -> p <> ("/a", "parts") -> g !! p = sample_files !! p) as Hout'.
  { intros p H1 H2. apply Hout; [by rewrite Hc|].
    assert (loc_of "/a/parts" = ("/a", "parts")) as -> by (vm_compute; reflexivity). done. }
  assert (g !! loc_of "/b/out.tar" = None) as Hfree by (rewrite Hl, Hout' by (cbn [fst]; congruence); reflexivity).
  split; [done|].
  apply (reassemble_quiet g "kit.tar" "/a/parts" "/b/out.tar" 2 ds r rs').
  - unfold DefaultChunkSize. lia.
  - reflexivity.
  - reflexivity.
  - reflexivity.
  - intros ->. discriminate Hdata.
  - exact Hcount.
  - exact Hds.
  - exact Hs.
  - unfold has_dir. assert (loc_of (Dir "/b/out.tar") = ("/", "b")) as -> by (vm_compute; reflexivity).
    rewrite Hout' by (cbn [fst]; congruence). reflexivity.
  - exact Hfree.
  - reflexivity.
  - exact Hr.
  - assert (Clean (Dir "/b/out.tar") = "/b") as -> by (vm_compute; reflexivity). rewrite Hout' by (cbn [fst]; congruence).
    unfold sample_files. rewrite !lookup_insert_ne by congruence. by rewrite lookup_singleton_ne by congruence.
Qed.

Lemma split_terminates_witness :
  split_loop (7 + 3) "kit.tar" "/a/parts" 2 0 "hello" [] (calm sample_files []) =
  split_loop 7 "kit.tar" "/a/parts" 2 0 "hello" [] (calm sample_files []).
Proof. exact (split_terminates "kit.tar" "/a/parts" 2 "hello" 3 (calm sample_files []) eq_refl). Defined.

Lemma split_reassemble_witness :
  exists chunks g rs1 rs2,
    quiet (Haul_Split "/a/kit.tar" "/a/parts" 2) sample_files sample_random (Ok chunks) g rs1 /\
    quiet (Reassemble "/a/parts" chunks "/b/out.tar" 2) g rs1 (Ok tt) (<[loc_of "/b/out.tar" := KFile "hello"]> g) rs2 /\
    (forall p, p.1 <> Clean "/a/parts" -> p <> loc_of "/a/parts" -> g !! p = sample_files !! p).
Proof. exact (split_reassemble _ _ _ _ _ _ _ sample_kit). Defined.

Lemma Split_contained_witness :
  exists chunks g, runs (Haul_Split "/a/kit.tar" "/a/parts" 2) sample_files (Done (Ok chunks)) g /\
    g !! ("/a", "kit.tar") = Some (KFile "hello") /\
    exists ds, sample_files !! loc_of "/a/kit.tar" = Some (KFile (join_bytes ds)) /\ stored "kit.tar" "/a/parts" ds g.
Proof.
  destruct sample_split as (ds & g & r & rs' & Hruns & _). exists (identities "kit.tar" ds), g. split; [exact Hruns|].
  destruct (Split_contained sample_files "/a/kit.tar" "/a/parts" 2 _ g Hruns) as (H1 & _ & H3). split.
  - rewrite H1; [reflexivity|vm_compute; congruence|vm_compute; congruence].
  - destruct (H3 _ eq_refl) as (ds' & Hd & _ & _ & Hs). exists ds'. split; [exact Hd|exact Hs].
Defined.

Lemma kit_tar_names (ds : list bytes) (c : ChunkIdentity) :
  c ∈ identities "kit.tar" ds -> HasPrefix (child "/a/parts" (ck_Name c)).2 ".haulkit-reassemble-" = false.
Proof.
  intros (i & Hi)%list_elem_of_lookup. unfold identities in Hi. rewrite list_lookup_imap in Hi.
  destruct (ds !! i) as [d|]; [|done]. injection Hi as <-. cbn [identity_of ck_Name].
  destruct (part_name_safe "kit.tar" (Z.of_nat i mod 2 ^ 32)) as [_ Hslash]; [by apply Z.mod_pos_bound|done|].
  unfold child. rewrite (proj2 (str_eqb_neq _ _)) by done. reflexivity.
Qed.

Lemma Reassemble_atomic_witness :
  exists chunks f f', runs (Reassemble "/a/parts" chunks "/b/out.tar" 2) f (Done (Ok tt)) f' /\
    exists ds, Forall2 (verified f "/a/parts") chunks ds /\ f' = <[loc_of "/b/out.tar" := KFile (join_bytes ds)]> f.
Proof.
  destruct sample_split as (ds & g & r & rs' & Hruns & Hfree & Hq). exists (identities "kit.tar" ds), g, (<[("/b", "out.tar") := KFile "hello"]> g).
  pose proof (runs_at _ _ _ _ Hq) as Hr. split; [exact Hr|].
  destruct (Reassemble_atomic g "/a/parts" (identities "kit.tar" ds) "/b/out.tar" 2 _ _ (kit_tar_names ds) eq_refl Hr) as (_ & _ & H).
  exact (proj2 (H eq_refl)).
Defined.
