(* ===== verification/Acts.v ===== *)
(** Use cases as trees of calls.

    A use case of package app calls the parts it was built with; a call is an event, the use
    case an [act], a tree of events that branches on the answers.  [play] runs a tree against
    an environment, for as many events as wanted; [wp] is what holds of every run, watched by
    a monitor that learns from the answers and says which event may come next. *)
From S2P Require Import Prelude.

Inductive act (E : Type -> Type) (A : Type) :=
| Return (a : A)
| Do {X : Type} (e : E X) (k : X -> act E A).
Arguments Return {E A} a.
Arguments Do {E A X} e k.

Fixpoint act_bind {E A B} (p : act E A) (k : A -> act E B) : act E B :=
  match p with
  | Return a => k a
  | Do e c => Do e (fun x => act_bind (c x) k)
  end.
Definition event {E X} (e : E X) : act E X := Do e Return.

(** [x <+ p; k] keeps the answer; [need! x := e in k] returns the error of an event, alone;
    [need! x := e for r in k] returns it with the result [r]. *)
Notation "x <+ p ; k" := (act_bind p (fun x => k)) (at level 100, p at next level, right associativity) : go_scope.
Notation "'need!' x ':=' p 'in' k" :=
  (act_bind p (fun a => match a with Ok x => k | Err e => Return (Err e) end))
  (at level 10, x pattern, p at level 100, k at level 200) : go_scope.
Notation "'need!' x ':=' p 'for' r 'in' k" :=
  (act_bind p (fun a => match a with Ok x => k | Err e => Return (r, Some e) end))
  (at level 10, x pattern, p at level 100, r at level 100, k at level 200) : go_scope.

(** * Runs *)
Section runs.
  Context {E : Type -> Type} {S : Type} (h : forall X, E X -> S -> X * S).

(** A tree is finite: every run of it ends. *)
Fixpoint conduct {A} (p : act E A) (s : S) : A * S :=
  match p with
  | Return a => (a, s)
  | Do e k => let '(x, s') := h _ e s in conduct (k x) s'
  end.

Lemma conduct_bind {A B} (p : act E A) (k : A -> act E B) s :
  conduct (act_bind p k) s = let '(a, s') := conduct p s in conduct (k a) s'.
Proof. revert s. induction p as [a|X e c IH]; intros s; [done|]. cbn [act_bind conduct]. destruct (h X e s) as [x s']. apply IH. Qed.

Lemma conduct_event {X B} (e : E X) (k : X -> act E B) s x s' :
  h X e s = (x, s') -> conduct (act_bind (event e) k) s = conduct (k x) s'.
Proof. intros H. cbn [act_bind event conduct]. by rewrite H. Qed.

(** The events of a run, stopped after [n] of them. *)
Inductive happened :=
| Event {X : Type} (e : E X) (x : X).
Fixpoint play {A} (n : nat) (p : act E A) (s : S) : list happened * option A :=
  match p, n with
  | Return a, _ => ([], Some a)
  | Do e k, O => ([], None)
  | Do e k, Datatypes.S n' =>
      let '(x, s') := h _ e s in
      let '(tr, o) := play n' (k x) s' in
      (Event e x :: tr, o)
  end.

(** With enough events a run is the whole one. *)
Lemma play_conduct {A} (p : act E A) : forall s, exists n, (play n p s).2 = Some (conduct p s).1.
Proof.
  induction p as [a|X e k IH]; intros s; [by exists O|]. cbn [conduct]. destruct (h X e s) as [x s'] eqn:Eh.
  destruct (IH x s') as [n Hn]. exists (Datatypes.S n). cbn [play]. rewrite Eh. by destruct (play n (k x) s').
Qed.
End runs.
Arguments happened : clear implicits.
Arguments Event {E X} e x.

(** * Every run *)
Section monitor.
  Context {E : Type -> Type} {V : Type}.
  Context (observe : V -> forall X, E X -> X -> V) (allowed : V -> forall X, E X -> Prop) (possible : forall X, E X -> X -> Prop).

Fixpoint wp {A} (v : V) (p : act E A) (Q : V -> A -> Prop) : Prop :=
  match p with
  | Return a => Q v a
  | Do e k => allowed v _ e /\ forall x, possible _ e x -> wp (observe v _ e x) (k x) Q
  end.
Fixpoint accepts (v : V) (tr : list (happened E)) : Prop :=
  match tr with
  | [] => True
  | Event e x :: rest => allowed v _ e /\ accepts (observe v _ e x) rest
  end.
Fixpoint learnt (v : V) (tr : list (happened E)) : V :=
  match tr with [] => v | Event e x :: rest => learnt (observe v _ e x) rest end.

Lemma wp_play {S A} (h : forall X, E X -> S -> X * S) (p : act E A) Q :
  (forall X (e : E X) s x s', h X e s = (x, s') -> possible _ e x) ->
  forall n v s, wp v p Q ->
  accepts v (play h n p s).1 /\ forall a, (play h n p s).2 = Some a -> Q (learnt v (play h n p s).1) a.
Proof.
  intros Hh. induction p as [a|X e k IH]; intros n v s H; [destruct n; (split; [done|]); by intros ? [= <-]|].
  destruct H as [Ha Hk]. destruct n as [|n]; [by split|]. cbn [play]. destruct (h X e s) as [x s'] eqn:Eh.
  specialize (IH x n (observe v _ e x) s' (Hk x (Hh _ _ _ _ _ Eh))). destruct (play h n (k x) s') as [tr o]. cbn in *. destruct IH as [H1 H2]. by split.
Qed.

Lemma wp_bind {A B} (p : act E A) (k : A -> act E B) Q : forall v,
  wp v p (fun v' a => wp v' (k a) Q) -> wp v (act_bind p k) Q.
Proof. induction p as [a|X e c IH]; intros v H; [exact H|]. destruct H as [Ha Hk]. split; [done|]. intros x Hx. apply IH; auto. Qed.

Lemma wp_conseq {A} (p : act E A) (Q Q' : V -> A -> Prop) : forall v,
  wp v p Q -> (forall v' a, Q v' a -> Q' v' a) -> wp v p Q'.
Proof. induction p as [a|X e c IH]; intros v H HQ; [by apply HQ|]. destruct H as [Ha Hk]. split; [done|]. intros x Hx. apply IH; auto. Qed.

Lemma wp_event {X B} (e : E X) (k : X -> act E B) v Q :
  allowed v _ e -> (forall x, wp (observe v _ e x) (k x) Q) -> wp v (act_bind (event e) k) Q.
Proof. intros Ha Hk. split; [done|]. intros x _. apply Hk. Qed.

Lemma wp_need {X B} (e : E (result X)) (k : X -> act E (result B)) v Q :
  allowed v _ e -> (forall x, wp (observe v _ e (Ok x)) (k x) Q) -> (forall err, Q (observe v _ e (Err err)) (Err err)) ->
  wp v (act_bind (event e) (fun a => match a with Ok x => k x | Err err => Return (Err err) end)) Q.
Proof. intros Ha Hk He. apply wp_event; [done|]. intros [x|err]; [apply Hk|apply He]. Qed.

Lemma wp_need_for {X B} (e : E (result X)) (k : X -> act E (B * option error)) r v Q :
  allowed v _ e -> (forall x, wp (observe v _ e (Ok x)) (k x) Q) -> (forall err, Q (observe v _ e (Err err)) (r, Some err)) ->
  wp v (act_bind (event e) (fun a => match a with Ok x => k x | Err err => Return (r, Some err) end)) Q.
Proof. intros Ha Hk He. apply wp_event; [done|]. intros [x|err]; [apply Hk|apply He]. Qed.
End monitor.
