(* ===== verification/RegistryInventory.v ===== *)
(** Package registry (registry/snapshot.go, registry/catalog.go): from the tags of a sealed
    registry to the inventory of images a generation records, and the artifacts of the
    tools themselves that the inventory leaves out.  The copying of the registry's files is
    not modelled. *)
From S2P Require Import Prelude Sha256 GoTime Json Codec Regexp Domain Snapshot.

(** [RegistryReference] (ports/registry.go) *)
Record RegistryReference := mkRegistryReference {
  rf_Repository : string;
  rf_Tag : string;
  rf_ManifestDigest : string }.

#[export] Instance RegistryReference_eq_dec : EqDecision RegistryReference.
Proof. solve_decision. Defined.

(** * Strings *)

(** The parts before and after the first, or the last, occurrence of a byte. *)
Fixpoint cut_first (sep : ascii) (s : string) : option (string * string) :=
  match s with
  | EmptyString => None
  | String c s' =>
      if bool_decide (c = sep) then Some ("", s')
      else match cut_first sep s' with Some (a, b) => Some (String c a, b) | None => None end
  end.
Fixpoint cut_last (sep : ascii) (s : string) : option (string * string) :=
  match s with
  | EmptyString => None
  | String c s' =>
      match cut_last sep s' with
      | Some (a, b) => Some (String c a, b)
      | None => if bool_decide (c = sep) then Some ("", s') else None
      end
  end.
Definition has_byte (sep : ascii) (s : string) : bool := str_exists (fun c => bool_decide (c = sep)) s.

(** [strings.Contains]. *)
Fixpoint Contains (s sub : string) : bool :=
  HasPrefix s sub || match s with String _ s' => Contains s' sub | EmptyString => false end.

(** [net.SplitHostPort]. *)
Definition SplitHostPort (hostport : string) : result (string * string) :=
  let bad := Err (ErrText "address") in
  match cut_last ":" hostport with
  | None => bad
  | Some (before, port) =>
      match hostport with
      | String "[" rest =>
          match cut_first "]" rest with
          | None => bad
          | Some (host, after) =>
              if str_eqb after (String ":" port) && negb (has_byte "[" rest) && negb (has_byte "]" after)
              then Ok (host, port) else bad
          end
      | _ =>
          if has_byte ":" before || has_byte "[" hostport || has_byte "]" hostport then bad else Ok (before, port)
      end
  end.

(** [net.JoinHostPort]. *)
Definition JoinHostPort (host port : string) : string :=
  if has_byte ":" host then "[" +:+ host +:+ "]:" +:+ port else host +:+ ":" +:+ port.

(** * Patterns (catalog.go) *)
Definition is_alnum_lower (c : ascii) : bool := let v := byte_val c in is_digit c || ((97 <=? v) && (v <=? 122)).
Definition is_word (c : ascii) : bool :=
  let v := byte_val c in is_alnum_lower c || ((65 <=? v) && (v <=? 90)) || (v =? 95).
Definition name_part : re :=
  RSeq (RPlus (RClass is_alnum_lower)) (RStar (RSeq (RClass (byte_in "._-")) (RPlus (RClass is_alnum_lower)))).
Definition repositoryPattern : re := RSeq name_part (RStar (RSeq (RChar "/") name_part)).
Definition tagPattern : re := RSeq (RClass is_word) (RUpTo 127 (RClass (fun c => is_word c || byte_in ".-" c))).
Fixpoint RLiteral (s : string) : re := match s with EmptyString => REps | String c s' => RSeq (RChar c) (RLiteral s') end.
Definition digestPattern : re := RSeq (RLiteral "sha256:") (RTimes 64 (RClass is_lower_hex)).

(** * Inventories (snapshot.go) *)
Definition ImageSourceRegistry : string := "registry".
Definition sessionSeedReferenceSuffix : string := "/hauler/camp-session-seed:latest".

Definition authority_bytes : string :=
  "/@?#%\ " +:+ String (byte_of 9) (String (byte_of 13) (String (byte_of 10) (String (byte_of 0) ""))).
Definition validateAuthority (authority : string) : result unit :=
  if Contains authority "://" || ContainsAny authority authority_bytes then Err (ErrText "invalid registry authority")
  else match SplitHostPort authority with
       | Ok (host, port) => if str_eqb host "" || str_eqb port "" then Err (ErrText "invalid registry authority") else Ok tt
       | Err _ => Err (ErrText "invalid registry authority")
       end.

Fixpoint unique_strings (seen : gset string) (values : list string) : list string :=
  match values with
  | [] => []
  | value :: rest =>
      if bool_decide (value ∈ seen) then unique_strings seen rest
      else value :: unique_strings ({[value]} ∪ seen) rest
  end.
Definition sortedUniqueStrings (values : list string) : list string := sort_slice str_ltb (unique_strings ∅ values).

Definition captured_reference (authority : string) (reference : RegistryReference) : string :=
  authority +:+ "/" +:+ rf_Repository reference +:+ ":" +:+ rf_Tag reference.

Definition with_tag (captured : string) (image : Image) : Image :=
  mkImage (im_EngineImageID image) (SList (sortedUniqueStrings (elems (im_OriginalTags image) ++ [captured])))
    (im_OriginalRepoDigests image) (im_CapturedReference image) (im_CapturedManifestDigest image) (im_Platform image)
    (im_Source image) (im_CreatedAt image).
Definition registry_image (captured digest : string) (at_ : Time) : Image :=
  mkImage "" (SList [captured]) SNil captured digest (mkPlatform "" "" "") ImageSourceRegistry (mkTime (t_ns at_) 0).

(** The loop over the references: the images so far, the digest of each tag and the
    index of the image of each digest. *)
Fixpoint catalog_loop (authority : string) (at_ : Time) (references : list RegistryReference)
    (images : list Image) (seen : gmap string string) (byDigest : gmap string nat) : result (list Image) :=
  match references with
  | [] => Ok images
  | reference :: rest =>
      if negb (MatchString repositoryPattern (rf_Repository reference)) || negb (MatchString tagPattern (rf_Tag reference)) ||
         negb (MatchString digestPattern (rf_ManifestDigest reference))
      then Err (ErrText "registry catalog contains an invalid reference")
      else
      let captured := captured_reference authority reference in
      let digest := rf_ManifestDigest reference in
      match seen !! captured with
      | Some prior =>
          if str_eqb prior digest then catalog_loop authority at_ rest images seen byDigest
          else Err ErrRegistryDigestMismatch
      | None =>
          match byDigest !! digest with
          | Some index =>
              catalog_loop authority at_ rest (alter (with_tag captured) index images) (<[captured := digest]> seen) byDigest
          | None =>
              catalog_loop authority at_ rest (images ++ [registry_image captured digest at_]) (<[captured := digest]> seen)
                (<[digest := length images]> byDigest)
          end
      end
  end.

Definition image_less (a b : Image) : bool :=
  if str_eqb (im_CapturedReference a) (im_CapturedReference b)
  then str_ltb (im_CapturedManifestDigest a) (im_CapturedManifestDigest b)
  else str_ltb (im_CapturedReference a) (im_CapturedReference b).

(** Appending nothing to a nil slice leaves it nil. *)
Definition appended {A} (l : list A) : slice A := match l with [] => SNil | _ => SList l end.

Definition InventoryFromCatalog (authority : string) (references : list RegistryReference) (generatedAt : Time) : result ImageInventory :=
  if IsZero generatedAt then Err (ErrText "catalog merge timestamp is empty")
  else
  let! _ := validateAuthority authority in
  let! images := catalog_loop authority generatedAt references [] ∅ ∅ in
  Ok (mkImageInventory SchemaVersion (mkTime (t_ns generatedAt) 0) (appended (sort_slice image_less images))).

Definition isHaulerFileProjection (reference : string) : bool :=
  match cut_first "/" reference with
  | None => false
  | Some (before, path) =>
      if str_eqb before "" || str_eqb path "" then false
      else match cut_last ":" path with
           | None => false
           | Some (repository, _) =>
               if str_eqb repository "" then false
               else HasPrefix repository "hauler/" && HasSuffix repository ".tar.zst"
           end
  end.

Definition internal_artifact (image : Image) : bool :=
  str_eqb (im_Source image) ImageSourceRegistry &&
  (HasSuffix (im_CapturedReference image) sessionSeedReferenceSuffix || isHaulerFileProjection (im_CapturedReference image)).
Definition ExcludeInternalArtifacts (inventory : ImageInventory) : ImageInventory :=
  mkImageInventory (ii_SchemaVersion inventory) (ii_GeneratedAt inventory)
    (SList (filter (fun image => internal_artifact image = false) (elems (ii_Images inventory)))).

Example authorities : map (fun a => is_ok (validateAuthority a)) ["127.0.0.1:5000"; "[::1]:5000"; "a:b:c"; "host"; "x/y:1"] = [true; true; false; false; false].
Proof. vm_compute. reflexivity. Qed.
Example projections : map isHaulerFileProjection ["127.0.0.1:5000/hauler/kit.tar.zst:latest"; "127.0.0.1:5000/hauler/kit:latest"] = [true; false].
Proof. vm_compute. reflexivity. Qed.

(** * What an inventory records *)
Lemma unique_strings_spec (values : list string) : forall (seen : gset string),
  NoDup (unique_strings seen values) /\ forall c, c ∈ unique_strings seen values <-> c ∈ values /\ c ∉ seen.
Proof.
  induction values as [|v values IH]; intros seen; cbn [unique_strings]; [split; [constructor|set_solver]|].
  case_bool_decide as Hv.
  - destruct (IH seen) as [H1 H2]. split; [done|]. intros c. rewrite H2, elem_of_cons. naive_solver.
  - destruct (IH ({[v]} ∪ seen)) as [H1 H2]. split.
    + constructor; [|done]. rewrite H2. set_solver.
    + intros c. rewrite !elem_of_cons, H2. destruct (decide (c = v)); set_solver.
Qed.

Lemma sortedUniqueStrings_spec (values : list string) :
  NoDup (sortedUniqueStrings values) /\ forall c, c ∈ sortedUniqueStrings values <-> c ∈ values.
Proof.
  unfold sortedUniqueStrings. destruct (unique_strings_spec values ∅) as [H1 H2].
  pose proof (sort_slice_perm str_ltb (unique_strings ∅ values)) as Hp. split; [by rewrite Hp|].
  intros c. rewrite Hp, H2. set_solver.
Qed.

Definition tags (image : Image) : list string := elems (im_OriginalTags image).
Definition digest_of (image : Image) : string := im_CapturedManifestDigest image.

(** The loop's three stores agree on the references read so far. *)
Record catalog_ok (authority : string) (done : list RegistryReference) (images : list Image)
    (seen : gmap string string) (byDigest : gmap string nat) : Prop := {
  co_seen : forall c d, seen !! c = Some d <->
    exists r, r ∈ done /\ captured_reference authority r = c /\ rf_ManifestDigest r = d;
  co_index : forall d i, byDigest !! d = Some i <-> digest_of <$> images !! i = Some d;
  co_tags : forall i image c, images !! i = Some image -> c ∈ tags image <-> seen !! c = Some (digest_of image);
  co_covered : forall c d, seen !! c = Some d -> is_Some (byDigest !! d);
  co_shape : forall i image, images !! i = Some image -> im_CapturedReference image ∈ tags image /\ NoDup (tags image) }.

Section catalog.
  Context (authority : string) (at_ : Time).

Lemma catalog_ok_skip done images seen byDigest r :
  catalog_ok authority done images seen byDigest -> seen !! captured_reference authority r = Some (rf_ManifestDigest r) ->
  catalog_ok authority (done ++ [r]) images seen byDigest.
Proof.
  intros [H1 H2 H3 H4 H5] Hr. split; try done. intros c d. rewrite H1. split.
  - intros (r' & Hin & He). exists r'. split; [set_solver|done].
  - intros (r' & [Hin|Hin]%elem_of_app & Hc & Hd); [by exists r'|]. apply list_elem_of_singleton in Hin as ->. apply H1. congruence.
Qed.

(** A tag that was not seen is added to the image of its digest, old or new. *)
Lemma co_seen_add done (seen : gmap string string) r :
  (forall c d, seen !! c = Some d <-> exists r, r ∈ done /\ captured_reference authority r = c /\ rf_ManifestDigest r = d) ->
  seen !! captured_reference authority r = None ->
  forall c d, <[captured_reference authority r := rf_ManifestDigest r]> seen !! c = Some d <->
    exists r', r' ∈ done ++ [r] /\ captured_reference authority r' = c /\ rf_ManifestDigest r' = d.
Proof.
  intros H Hnone c d. rewrite lookup_insert_Some, H. split.
  - intros [[<- <-]|[Hne (r' & Hin & He)]]; [exists r; set_solver|exists r'; set_solver].
  - intros (r' & [Hin|Hin]%elem_of_app & Hc & Hd).
    + right. split; [|by exists r']. intros E. assert (seen !! c = Some d) as Hs by (apply H; by exists r'). congruence.
    + apply list_elem_of_singleton in Hin as ->. left. by split.
Qed.

Lemma catalog_ok_join done images seen byDigest r index :
  catalog_ok authority done images seen byDigest -> seen !! captured_reference authority r = None ->
  byDigest !! rf_ManifestDigest r = Some index ->
  catalog_ok authority (done ++ [r]) (alter (with_tag (captured_reference authority r)) index images)
    (<[captured_reference authority r := rf_ManifestDigest r]> seen) byDigest.
Proof.
  intros [H1 H2 H3 H4 H5] Hnone Hidx. set (captured := captured_reference authority r) in *.
  pose proof (proj1 (H2 _ _) Hidx) as Hd. destruct (images !! index) as [image0|] eqn:E0; [|done]. cbn in Hd. injection Hd as Hd.
  assert (forall i, alter (with_tag captured) index images !! i = (if decide (i = index) then Some (with_tag captured image0) else images !! i)) as Hl.
  { intros i. destruct (decide (i = index)) as [->|Hne]; [by rewrite list_lookup_alter_eq, E0|by rewrite list_lookup_alter_ne]. }
  assert (forall c, c ∈ tags (with_tag captured image0) <-> c ∈ tags image0 \/ c = captured) as Htags.
  { intros c. unfold tags at 1. cbn [with_tag im_OriginalTags elems]. rewrite (proj2 (sortedUniqueStrings_spec _)). set_solver. }
  split.
  - by apply co_seen_add.
  - intros d i. rewrite H2, Hl. destruct (decide (i = index)) as [->|]; [by rewrite E0|done].
  - intros i image c. rewrite Hl. destruct (decide (i = index)) as [->|Hne].
    + intros [= <-]. rewrite Htags, (H3 _ _ _ E0), lookup_insert_Some. change (digest_of (with_tag captured image0)) with (digest_of image0).
      destruct (decide (captured = c)) as [<-|Hc]; naive_solver.
    + intros Hi. rewrite (H3 _ _ _ Hi), lookup_insert_Some. split; [naive_solver|]. intros [[-> Hdi]|[_ ?]]; [|done].
      exfalso. apply Hne. apply (inj Some). rewrite <-Hidx. symmetry. apply H2. by rewrite Hi, Hdi.
  - intros c d [[_ <-]|[_ Hs]]%lookup_insert_Some; [by eexists|by eapply H4].
  - intros i image. rewrite Hl. destruct (decide (i = index)) as [->|Hne]; [|apply H5].
    intros [= <-]. split; [|apply sortedUniqueStrings_spec]. apply Htags. left. exact (proj1 (H5 index image0 E0)).
Qed.

Lemma catalog_ok_new done images seen byDigest r :
  catalog_ok authority done images seen byDigest -> seen !! captured_reference authority r = None ->
  byDigest !! rf_ManifestDigest r = None ->
  catalog_ok authority (done ++ [r]) (images ++ [registry_image (captured_reference authority r) (rf_ManifestDigest r) at_])
    (<[captured_reference authority r := rf_ManifestDigest r]> seen) (<[rf_ManifestDigest r := length images]> byDigest).
Proof.
  intros [H1 H2 H3 H4 H5] Hnone Hidx. set (captured := captured_reference authority r) in *.
  assert (forall d, seen !! d <> Some (rf_ManifestDigest r)) as Hnew.
  { intros c Hc. apply H4 in Hc. rewrite Hidx in Hc. by destruct Hc. }
  split.
  - by apply co_seen_add.
  - intros d i. rewrite lookup_insert_Some. destruct (decide (i < length images)%nat) as [Hi|Hi].
    + rewrite lookup_app_l by done. rewrite H2. split; [intros [[_ ?]|[_ ?]]; [lia|done]|]. intros Hd. right. split; [|done].
      intros <-. apply H2 in Hd. congruence.
    + destruct (decide (i = length images)) as [->|Hne].
      * rewrite list_lookup_middle by done. cbn. split; [intros [[<- _]|[_ Hd]]; [done|]|intros [= <-]; by left].
        apply H2 in Hd. by rewrite lookup_ge_None_2 in Hd by lia.
      * rewrite (lookup_ge_None_2 (_ ++ _)) by (rewrite length_app; cbn; lia). split; [|done].
        intros [[_ ?]|[_ Hd]]; [lia|]. apply H2 in Hd. by rewrite lookup_ge_None_2 in Hd by lia.
  - intros i image c [Hi|[Hi ->%list_elem_of_lookup_2%list_elem_of_singleton]]%lookup_app_Some.
    + rewrite (H3 _ _ _ Hi), lookup_insert_Some. split.
      * intros Hs. right. split; [|done]. intros <-. congruence.
      * intros [[_ E]|[_ ?]]; [|done]. exfalso. assert (byDigest !! rf_ManifestDigest r = Some i); [|congruence].
        apply H2. rewrite Hi. cbn. by rewrite E.
    + cbn [tags registry_image im_OriginalTags elems digest_of im_CapturedManifestDigest]. unfold digest_of. cbn [registry_image im_CapturedManifestDigest].
      rewrite lookup_insert_Some. unfold tags. cbn [registry_image im_OriginalTags elems]. rewrite list_elem_of_singleton. split; [intros ->; by left|].
      intros [[-> _]|[_ Hs]]; [done|]. by destruct (Hnew c).
  - intros c d [[_ <-]|[_ Hs]]%lookup_insert_Some; [rewrite lookup_insert_eq; by eexists|].
    destruct (decide (rf_ManifestDigest r = d)) as [<-|Hne]; [by destruct (Hnew c)|]. rewrite lookup_insert_ne by done. by eapply H4.
  - intros i image [Hi|[Hi ->%list_elem_of_lookup_2%list_elem_of_singleton]]%lookup_app_Some; [by apply (H5 i image)|].
    unfold tags. cbn [registry_image im_OriginalTags elems im_CapturedReference]. split; [by apply list_elem_of_singleton|apply NoDup_singleton].
Qed.
End catalog.

Lemma catalog_loop_spec (authority : string) (at_ : Time) (references : list RegistryReference) :
  forall done images seen byDigest, catalog_ok authority done images seen byDigest ->
  match catalog_loop authority at_ references images seen byDigest with
  | Ok images' => exists seen' byDigest', catalog_ok authority (done ++ references) images' seen' byDigest'
  | Err e => e = ErrRegistryDigestMismatch ->
      exists r1 r2, r1 ∈ done ++ references /\ r2 ∈ done ++ references /\
        captured_reference authority r1 = captured_reference authority r2 /\ rf_ManifestDigest r1 <> rf_ManifestDigest r2
  end.
Proof.
  induction references as [|r references IH]; intros done images seen byDigest Hok; cbn [catalog_loop].
  { rewrite app_nil_r. by exists seen, byDigest. }
  destruct (_ || _); [done|]. rewrite (cons_middle r done references), app_assoc.
  destruct (seen !! captured_reference authority r) as [prior|] eqn:Es.
  - destruct (str_eqb prior _) eqn:Ep.
    + apply str_eqb_eq in Ep as ->. apply IH. by apply catalog_ok_skip.
    + intros _. apply str_eqb_neq in Ep. apply (co_seen _ _ _ _ _ Hok) in Es as (r' & Hin & Hc & Hd).
      exists r', r. split; [set_solver|]. split; [set_solver|]. split; [done|congruence].
  - destruct (byDigest !! rf_ManifestDigest r) as [index|] eqn:Ed; apply IH.
    + by apply catalog_ok_join.
    + by apply catalog_ok_new.
Qed.

Lemma image_less_asym (a b : Image) : image_less a b = true -> image_less b a = false.
Proof.
  unfold image_less. assert (str_eqb (im_CapturedReference b) (im_CapturedReference a) = str_eqb (im_CapturedReference a) (im_CapturedReference b)) as ->.
  { unfold str_eqb. by apply bool_decide_ext. }
  destruct (str_eqb _ _); apply str_ltb_asym.
Qed.

Lemma elems_appended {A} (l : list A) : elems (appended l) = l.
Proof. by destruct l. Qed.

(** C29: the inventory of a sealed registry is its tags, grouped by digest.  Every image has
    a digest of its own; an image lists a tag exactly when the registry has that tag at the
    image's digest, each tag once, the captured reference among them; the images are in
    order, and no tag of the registry has two digests.  When the tags conflict the error
    says so and two references prove it. *)
Theorem catalog_inventory (authority : string) (references : list RegistryReference) (generatedAt : Time) :
  match InventoryFromCatalog authority references generatedAt with
  | Ok inventory =>
      let images := elems (ii_Images inventory) in
      NoDup (map digest_of images) /\ sorted_slice image_less images /\
      (forall c d, (exists image, image ∈ images /\ digest_of image = d /\ c ∈ tags image) <->
         (exists r, r ∈ references /\ captured_reference authority r = c /\ rf_ManifestDigest r = d)) /\
      (forall image, image ∈ images -> im_CapturedReference image ∈ tags image /\ NoDup (tags image)) /\
      (forall r1 r2, r1 ∈ references -> r2 ∈ references ->
         captured_reference authority r1 = captured_reference authority r2 -> rf_ManifestDigest r1 = rf_ManifestDigest r2)
  | Err e => e = ErrRegistryDigestMismatch ->
      exists r1 r2, r1 ∈ references /\ r2 ∈ references /\
        captured_reference authority r1 = captured_reference authority r2 /\ rf_ManifestDigest r1 <> rf_ManifestDigest r2
  end.
Proof.
  unfold InventoryFromCatalog. destruct (IsZero generatedAt); [done|].
  unfold validateAuthority. destruct (_ || _); [done|]. destruct (SplitHostPort authority) as [[host port]|e]; [|done].
  destruct (str_eqb host "" || str_eqb port ""); [done|]. cbn [result_bind].
  assert (catalog_ok authority [] [] ∅ ∅) as H0.
  { split; try done.
    intros c d. rewrite lookup_empty. split; [done|]. by intros (r & ?%not_elem_of_nil & _). }
  pose proof (catalog_loop_spec authority generatedAt references [] [] ∅ ∅ H0) as H.
  destruct (catalog_loop _ _ _ _ _ _) as [images|e]; [|exact H]. destruct H as (seen & byDigest & [H1 H2 H3 H4 H5]).
  cbn [result_bind ii_Images app] in *. rewrite elems_appended. cbv zeta.
  pose proof (sort_slice_perm image_less images) as Hp. split; [|split; [|split; [|split]]].
  - rewrite Hp. apply NoDup_alt. intros i j d Hi Hj. rewrite list_lookup_fmap in Hi, Hj. apply H2 in Hi, Hj. congruence.
  - apply sort_slice_sorted. exact image_less_asym.
  - intros c d. rewrite <-H1. split.
    + intros (image & Hin & <- & Ht). rewrite Hp in Hin. apply list_elem_of_lookup in Hin as [i Hi]. by apply (H3 i image c Hi).
    + intros Hs. destruct (H4 c d Hs) as [i Hi]. apply H2 in Hi. destruct (images !! i) as [image|] eqn:Ei; [|done].
      injection Hi as Hd. exists image. rewrite Hp. split; [by apply list_elem_of_lookup_2 in Ei|]. split; [done|].
      apply (H3 i image c Ei). by rewrite Hd.
  - intros image Hin. rewrite Hp in Hin. apply list_elem_of_lookup in Hin as [i Hi]. by apply (H5 i image).
  - intros r1 r2 Hr1 Hr2 E. assert (seen !! captured_reference authority r1 = Some (rf_ManifestDigest r1)) as E1 by (apply H1; by exists r1).
    assert (seen !! captured_reference authority r1 = Some (rf_ManifestDigest r2)) as E2 by (apply H1; by exists r2). congruence.
Qed.
