(* ===== verification/Checkpoint.v ===== *)
(** app.CheckpointPublisher (app/checkpoint.go): the publication of a generation.

    Publish is a client of many parts: the journal, the operation lock, the lease
    repository, the workspace mirror, the image capturer, the registry sealer, the
    generation builder, the generation and pointer repositories, the serving refresher
    and the progress reporter.  A call of any of them is an event [ckE]; Publish is an
    [act], a tree of events.  What the parts answer is left open, so a theorem about every
    behaviour of the tree holds whatever they do; for the repositories [store_calls] names
    the program each event stands for.

    The texts of errors are left out, and with them changedJournalSnapshotFields, which only
    finds names for one; the receipt of a remote preparation is passed through. *)
From S2P Require Import Prelude Acts Sha256 GoTime Json Codec Regexp Domain Snapshot Paths ObjectStore Documents Pointers Leases Generations RegistryInventory.

(** * Requests that intents record *)
(** [MirrorRequest] (ports/workspace.go) *)
Record MirrorRequest := mkMirrorRequest {
  mq_Provider : string;
  mq_LocalProvider : bool;
  mq_StagingRoot : string;
  mq_WorkspaceLocalFolder : string;
  mq_WorkspaceID : string;
  mq_Context : string;
  mq_AttemptID : string }.

#[export] Instance MirrorRequest_eq_dec : EqDecision MirrorRequest.
Proof. solve_decision. Defined.

Definition MirrorRequest_fields : fields _ :=
  FCons "Provider" false codec_string (
  FCons "LocalProvider" false codec_bool (
  FCons "StagingRoot" false codec_string (
  FCons "WorkspaceLocalFolder" false codec_string (
  FCons "WorkspaceID" false codec_string (
  FCons "Context" false codec_string (
  FCons "AttemptID" false codec_string ( FNil))))))).
#[export] Instance MirrorRequest_codec : Codec MirrorRequest := codec_struct MirrorRequest_fields
  (fun r => (mq_Provider r, (mq_LocalProvider r, (mq_StagingRoot r, (mq_WorkspaceLocalFolder r,
  (mq_WorkspaceID r, (mq_Context r, (mq_AttemptID r, tt))))))))
  (fun t => let '(x0, (x1, (x2, (x3, (x4, (x5, (x6, _))))))) := t in mkMirrorRequest x0 x1 x2 x3 x4 x5 x6).
#[export] Instance MirrorRequest_laws : CodecLaws MirrorRequest _.
Proof. solve_struct_laws. Qed.

(** [EngineScope] (images/engine.go) *)
Record EngineScope := mkEngineScope {
  es_Context : string;
  es_WorkspaceID : string }.

#[export] Instance EngineScope_eq_dec : EqDecision EngineScope.
Proof. solve_decision. Defined.

Definition EngineScope_fields : fields _ :=
  FCons "Context" false codec_string (
  FCons "WorkspaceID" false codec_string ( FNil)).
#[export] Instance EngineScope_codec : Codec EngineScope := codec_struct EngineScope_fields
  (fun r => (es_Context r, (es_WorkspaceID r, tt)))
  (fun t => let '(x0, (x1, _)) := t in mkEngineScope x0 x1).
#[export] Instance EngineScope_laws : CodecLaws EngineScope _.
Proof. solve_struct_laws. Qed.

(** [CaptureRequest] (images/capture.go) *)
Record CaptureRequest := mkCaptureRequest {
  cq_Scope : EngineScope;
  cq_Capsule : string;
  cq_RegistryAuthority : string;
  cq_RegistryEndpoint : string;
  cq_ExcludeTags : slice string;
  cq_Previous : ImageInventory }.

#[export] Instance CaptureRequest_eq_dec : EqDecision CaptureRequest.
Proof. solve_decision. Defined.

Definition CaptureRequest_fields : fields _ :=
  FCons "Scope" false (_ : Codec (EngineScope)) (
  FCons "Capsule" false codec_string (
  FCons "RegistryAuthority" false codec_string (
  FCons "RegistryEndpoint" false codec_string (
  FCons "ExcludeTags" false (_ : Codec (slice string)) (
  FCons "Previous" false (_ : Codec (ImageInventory)) ( FNil)))))).
#[export] Instance CaptureRequest_codec : Codec CaptureRequest := codec_struct CaptureRequest_fields
  (fun r => (cq_Scope r, (cq_Capsule r, (cq_RegistryAuthority r, (cq_RegistryEndpoint r, (cq_ExcludeTags r,
  (cq_Previous r, tt)))))))
  (fun t => let '(x0, (x1, (x2, (x3, (x4, (x5, _)))))) := t in mkCaptureRequest x0 x1 x2 x3 x4 x5).
#[export] Instance CaptureRequest_laws : CodecLaws CaptureRequest _.
Proof. solve_struct_laws. Qed.

(** [SnapshotRequest] (registry/snapshot.go) *)
Record SnapshotRequest := mkSnapshotRequest {
  sq_OverlayRoot : string;
  sq_SnapshotRoot : string;
  sq_CatalogEndpoint : string;
  sq_SessionID : string;
  sq_RegistryLaunchToken : string }.

#[export] Instance SnapshotRequest_eq_dec : EqDecision SnapshotRequest.
Proof. solve_decision. Defined.

Definition SnapshotRequest_fields : fields _ :=
  FCons "OverlayRoot" false codec_string (
  FCons "SnapshotRoot" false codec_string (
  FCons "CatalogEndpoint" false codec_string (
  FCons "SessionID" false codec_string (
  FCons "RegistryLaunchToken" false codec_string ( FNil))))).
#[export] Instance SnapshotRequest_codec : Codec SnapshotRequest := codec_struct SnapshotRequest_fields
  (fun r => (sq_OverlayRoot r, (sq_SnapshotRoot r, (sq_CatalogEndpoint r, (sq_SessionID r,
  (sq_RegistryLaunchToken r, tt))))))
  (fun t => let '(x0, (x1, (x2, (x3, (x4, _))))) := t in mkSnapshotRequest x0 x1 x2 x3 x4).
#[export] Instance SnapshotRequest_laws : CodecLaws SnapshotRequest _.
Proof. solve_struct_laws. Qed.

(** [ServingRefreshRequest] (app/checkpoint.go) *)
Record ServingRefreshRequest := mkServingRefreshRequest {
  sr_SessionID : string;
  sr_Generation : GenerationRef;
  sr_HaulPath : string;
  sr_RegistrySnapshotRoot : string }.

#[export] Instance ServingRefreshRequest_eq_dec : EqDecision ServingRefreshRequest.
Proof. solve_decision. Defined.

Definition ServingRefreshRequest_fields : fields _ :=
  FCons "sessionId" false codec_string (
  FCons "generation" false (_ : Codec (GenerationRef)) (
  FCons "haulPath" false codec_string (
  FCons "registrySnapshotRoot" false codec_string ( FNil)))).
#[export] Instance ServingRefreshRequest_codec : Codec ServingRefreshRequest := codec_struct ServingRefreshRequest_fields
  (fun r => (sr_SessionID r, (sr_Generation r, (sr_HaulPath r, (sr_RegistrySnapshotRoot r, tt)))))
  (fun t => let '(x0, (x1, (x2, (x3, _)))) := t in mkServingRefreshRequest x0 x1 x2 x3).
#[export] Instance ServingRefreshRequest_laws : CodecLaws ServingRefreshRequest _.
Proof. solve_struct_laws. Qed.

(** [RootRequest] (the input of RootSnapshotStable) *)
Record RootRequest := mkRootRequest {
  rq_Root : string;
  rq_Generation : Z }.

#[export] Instance RootRequest_eq_dec : EqDecision RootRequest.
Proof. solve_decision. Defined.

Definition RootRequest_fields : fields _ :=
  FCons "root" false codec_string (
  FCons "generation" false uint64_codec ( FNil)).
#[export] Instance RootRequest_codec : Codec RootRequest := codec_struct RootRequest_fields
  (fun r => (rq_Root r, (rq_Generation r, tt)))
  (fun t => let '(x0, (x1, _)) := t in mkRootRequest x0 x1).
#[export] Instance RootRequest_laws : CodecLaws RootRequest _.
Proof. solve_struct_laws. Qed.

(** [UploadRequest] (the input of GenerationUploaded) *)
Record UploadRequest := mkUploadRequest {
  uq_ObjectKey : string;
  uq_SHA256 : string;
  uq_Size : Z }.

#[export] Instance UploadRequest_eq_dec : EqDecision UploadRequest.
Proof. solve_decision. Defined.

Definition UploadRequest_fields : fields _ :=
  FCons "objectKey" false codec_string (
  FCons "sha256" false codec_string (
  FCons "size" false int64_codec ( FNil))).
#[export] Instance UploadRequest_codec : Codec UploadRequest := codec_struct UploadRequest_fields
  (fun r => (uq_ObjectKey r, (uq_SHA256 r, (uq_Size r, tt))))
  (fun t => let '(x0, (x1, (x2, _))) := t in mkUploadRequest x0 x1 x2).
#[export] Instance UploadRequest_laws : CodecLaws UploadRequest _.
Proof. solve_struct_laws. Qed.

(** * Data *)

(** [MirrorResult] (ports/workspace.go); what the selector answers, where an error may be a
    [workspace.MirrorOutcomeUnknown] with the result it has so far. *)
Record MirrorResult := mkMirrorResult {
  mr_Mode : string;
  mr_Root : string;
  mr_AttemptID : string;
  mr_Method : string;
  mr_RemoteRoot : string;
  mr_Exclusions : slice string }.
Inductive mirror_answer := Mirrored (r : MirrorResult) | MirrorUnknown (r : MirrorResult) (e : error) | MirrorFailed (e : error).
Definition MirrorLocalNoop : string := "localNoop".
Definition MirrorDevPodSSH : string := "devPodSSHMirror".

(** [Snapshot] (registry/snapshot.go). *)
Record RegistrySnapshot := mkRegistrySnapshot { rs_Root : string; rs_References : list RegistryReference }.

(** [BuildRequest]; [GenerationArtifact] (adapters/hauler/generation.go); and [BuildResult] without the
    description of the inner archive, which the publisher does not read (checkpoint/builder.go). *)
Record BuildRequest := mkBuildRequest {
  bq_Capsule : string;
  bq_Root : string;
  bq_Inventory : ImageInventory;
  bq_Lineage : Lineage;
  bq_Generation : Z;
  bq_Parent : option GenerationRef;
  bq_SessionID : string;
  bq_CreatedAt : Time;
  bq_Tools : ToolVersions }.
Record GenerationArtifact := mkGenerationArtifact { ga_Path : string; ga_SHA256 : string; ga_Size : Z; ga_Validated : bool }.
Record BuildResult := mkBuildResult { bu_Artifact : GenerationArtifact; bu_Metadata : GenerationMetadata }.

(** [ProgressEvent] (app/progress.go). *)
Record ProgressEvent := mkProgressEvent { pe_Stage : string; pe_Message : string; pe_Complete : bool; pe_Generation : Z; pe_ImageCount : Z; pe_Bytes : Z }.

(** What the publisher was built with: the core dependencies (journal, locks, leases, clock),
    the pointer repository, the rest of the pipeline and the remote preparer. *)
Record Publisher := mkPublisher { p_core : bool; p_pointers : bool; p_pipeline : bool; p_remoteKit : bool }.

Section checkpoint.
  Context {Receipt : Type}.

(** [CheckpointResult]; RefreshError is the error whose text it holds. *)
Record CheckpointResult := mkCheckpointResult {
  ct_Disposition : string;
  ct_Published : bool;
  ct_Generation : GenerationRef;
  ct_Pointer : PointerRecord;
  ct_RefreshError : option error;
  ct_RecoveryCommand : string;
  ct_Remote : option Receipt }.
Definition CheckpointDispositionPublished : string := "published".
Definition CheckpointDispositionRemotePrepared : string := "remotePrepared".

Definition zero_result : CheckpointResult :=
  mkCheckpointResult "" false c_zero (mkPointerRecord c_zero "") None "" None.
(** The result of an attempt that has a generation and no publication yet. *)
Definition attempt_result (generation : GenerationRef) (sessionID : string) : CheckpointResult :=
  mkCheckpointResult "" false generation (mkPointerRecord c_zero "") None ("camp recover " +:+ sessionID) None.
Definition with_refresh_error (e : error) (r : CheckpointResult) : CheckpointResult :=
  mkCheckpointResult (ct_Disposition r) (ct_Published r) (ct_Generation r) (ct_Pointer r) (Some e) (ct_RecoveryCommand r) (ct_Remote r).

(** * Events *)
Inductive ckE : Type -> Type :=
| LockValidate (token : OperationToken) : ckE (result unit)
| JLoad (sessionID : string) : ckE (result (JournalSnapshot * list IntentRecord))
| JRecordIntent (intent : IntentRecord) : ckE (result unit)
| JRecordFact (fact : FactRecord) (snapshot : JournalSnapshot) : ckE (result unit)
| Now : ckE Time
| LeaseRevalidate (token : LeaseToken) (now : Time) : ckE (result unit)
| RemotePrepare (snapshot : JournalSnapshot) (generation : Z) (closing : bool) : ckE (Receipt * option error)
| MirrorValidate (request : MirrorRequest) : ckE (result unit)
| ReturnToStaging (request : MirrorRequest) : ckE mirror_answer
| Capture (request : CaptureRequest) : ckE (result ImageInventory)
| Seal (request : SnapshotRequest) : ckE (result RegistrySnapshot)
| Build (request : BuildRequest) : ckE (result BuildResult)
(** [restartableFile(path)]: what opening the file gives. *)
| OpenFile (path : string) : ckE RestartableSource
| GenerationsPutAndVerify (metadata : GenerationMetadata) (source : RestartableSource) : ckE (result GenerationRecord)
| GenerationsReadMetadata (capsule : string) (lineage : Lineage) (generation : GenerationRef)
    : ckE (result (GenerationMetadata * ObjectMeta))
| PointersRead (capsule : string) (lineage : Lineage) : ckE (result PointerRecord)
| PointersCreate (next : LatestPointer) : ckE (result PointerRecord)
| PointersCompareAndSwap (expected : PointerRecord) (next : LatestPointer) : ckE (result PointerRecord)
| Refresh (request : ServingRefreshRequest) : ckE (result unit)
| ReportProgress (event : ProgressEvent) : ckE (result unit).

(** The store programs the events of the repositories are. *)
Definition store_calls {X} (e : ckE X) : option (prog X) :=
  match e with
  | LeaseRevalidate token now => Some (RevalidateLease token now)
  | GenerationsPutAndVerify metadata source => Some (PutAndVerify metadata (Some source))
  | GenerationsReadMetadata capsule lineage generation => Some (ReadMetadata capsule lineage generation)
  | PointersRead capsule lineage => Some (Pointers.Read capsule lineage)
  | PointersCreate next => Some (Pointers.Create next)
  | PointersCompareAndSwap expected next => Some (CompareAndSwap expected next)
  | _ => None
  end.

(** A handler's answer: the result and the error. *)
Abbreviation answer := (CheckpointResult * option error)%type.
End checkpoint.
Arguments CheckpointResult Receipt : clear implicits.
Arguments ckE Receipt _ : clear implicits.

(** * Checks and helpers *)
Definition bad (label : string) : error := ErrText label.

Definition checkpointAttemptIntent {A} `{Codec A} (sessionID attemptID transition : string) (sequence : Z) (timestamp : Time) (input : A) : IntentRecord :=
  mkIntentRecord (attemptID +:+ "-" +:+ FormatInt sequence) sessionID transition 1 timestamp (default "" (Marshal input)).
Definition checkpointFact (intent : IntentRecord) (timestamp : Time) : FactRecord :=
  mkFactRecord (ir_ID intent) (ir_SessionID intent) (ir_Transition intent) timestamp "" None.

(** [cloneGeneration] copies what a pointer points to. *)
Definition cloneGeneration (reference : option GenerationRef) : option GenerationRef := reference.
Definition sameGeneration (left right : option GenerationRef) : bool := bool_decide (left = right).

Definition MirrorCompleted : string := "completed".
Definition MirrorAmbiguous : string := "ambiguous".
Definition mirrorAttemptRecord (logicalAttempt : Z) (r : MirrorResult) (state : string) : MirrorAttemptRecord :=
  mkMirrorAttemptRecord logicalAttempt (mr_AttemptID r) state (mr_Root r) (mr_RemoteRoot r) (mr_Method r)
    (match elems (mr_Exclusions r) with [] => SNil | l => SList l end).
Definition with_mirror (m : MirrorAttemptRecord) (w : WorkspaceRecord) : WorkspaceRecord :=
  mkWorkspaceRecord (wr_ID w) (wr_Context w) (wr_Provider w) (wr_LocalProvider w) (wr_LocalFolder w) (wr_Target w)
    (wr_StagingRoot w) (wr_EffectiveRoot w) (wr_HardlinksRestored w) (wr_ImagesRestored w) m.
Definition set_mirror (m : MirrorAttemptRecord) (s : JournalSnapshot) : JournalSnapshot :=
  set_js_Workspace (with_mirror m (js_Workspace s)) s.

Definition attempt_id (sessionID : string) (logicalAttempt : Z) : string :=
  sessionID +:+ "-checkpoint-" +:+ FormatInt logicalAttempt.
Definition checkpointLogicalAttemptID (snapshot : JournalSnapshot) : result string :=
  let mirror := wr_Mirror (js_Workspace snapshot) in
  if str_eqb (js_SessionID snapshot) "" || (ma_LogicalAttempt mirror =? 0) || str_eqb (ma_AttemptID mirror) ""
  then Err (bad "checkpoint mirror attempt identity is incomplete")
  else
  let attemptID := attempt_id (js_SessionID snapshot) (ma_LogicalAttempt mirror) in
  if negb (str_eqb (ma_AttemptID mirror) attemptID) && negb (str_eqb (ma_AttemptID mirror) (attemptID +:+ "-rsync")) &&
     negb (str_eqb (ma_AttemptID mirror) (attemptID +:+ "-tar"))
  then Err (bad "checkpoint mirror transport attempt does not match its logical attempt")
  else Ok attemptID.

Definition validRemoteMirrorResult (r : MirrorResult) (attemptID : string) : bool :=
  str_eqb (mr_Mode r) MirrorDevPodSSH && negb (str_eqb (mr_Root r) "") &&
  (str_eqb (mr_AttemptID r) (attemptID +:+ "-rsync") || str_eqb (mr_AttemptID r) (attemptID +:+ "-tar")).

(** The baseline of the lineage's pointer in the session. *)
Definition validateCheckpointSnapshot (snapshot : JournalSnapshot) (lease : WriterLease) : result unit :=
  if negb (js_SchemaVersion snapshot =? SchemaVersion) || str_eqb (js_SessionID snapshot) "" || str_eqb (js_Capsule snapshot) "" ||
     str_eqb (ln_Branch (js_Lineage snapshot)) ""
  then Err (bad "checkpoint snapshot identity is incomplete")
  else if negb (wl_SchemaVersion lease =? SchemaVersion) || negb (str_eqb (wl_SessionID lease) (js_SessionID snapshot)) ||
     negb (str_eqb (wl_Capsule lease) (js_Capsule snapshot)) || negb (bool_decide (wl_Lineage lease = js_Lineage snapshot)) ||
     str_eqb (wl_Machine lease) "" || IsZero (wl_CreatedAt lease) || IsZero (wl_HeartbeatAt lease) || IsZero (wl_ExpiresAt lease) ||
     negb (sameGeneration (wl_OpenedGeneration lease) (js_OpenedGeneration snapshot))
  then Err (bad "checkpoint writer lease does not match the session")
  else
  match js_CurrentPointer snapshot with
  | None =>
      if negb (str_eqb (js_ExpectedPointerRevision snapshot) "") ||
         (Lineage_IsMain (js_Lineage snapshot) && negb (bool_decide (js_CurrentBase snapshot = None)))
      then Err (bad "checkpoint pointer baseline is inconsistent") else Ok tt
  | Some pointer =>
      if bool_decide (js_CurrentBase snapshot = None) || str_eqb (js_ExpectedPointerRevision snapshot) "" ||
         negb (str_eqb (lp_Capsule pointer) (js_Capsule snapshot)) || negb (bool_decide (lp_Lineage pointer = js_Lineage snapshot)) ||
         negb (bool_decide (Some (lp_Generation pointer) = js_CurrentBase snapshot))
      then Err (bad "checkpoint pointer baseline is inconsistent") else Ok tt
  end.

(** [checkpointRegistry]: where the session's registry is. *)
Record checkpointRegistry := mkcheckpointRegistry { cg_authority : string; cg_endpoint : string; cg_overlay : string; cg_launchToken : string }.

Fixpoint directory_argument (argv : list string) : string :=
  match argv with
  | argument :: (value :: _) as rest => if str_eqb argument "--directory" then value else directory_argument rest
  | _ => ""
  end.
Fixpoint registry_service (services : list ServiceUnitRecord) : result checkpointRegistry :=
  match services with
  | [] => Err (bad "checkpoint registry service is missing")
  | service :: rest =>
      if negb (str_eqb (su_Name service) "registry") then registry_service rest
      else if negb (str_eqb (su_ObservedState service) "ready") || negb (str_eqb (su_DesiredState service) "running") ||
        negb (str_eqb (em_HostAddress (su_Mapping service)) "127.0.0.1") || (em_HostPort (su_Mapping service) <? 1)
      then Err (bad "checkpoint registry is not a committed loopback service")
      else
      let overlay := directory_argument (elems (pr_Argv (su_Child service))) in
      if negb (IsAbs overlay) || has_byte (byte_of 0) overlay then Err (bad "checkpoint registry overlay is not durable")
      else
      let authority := JoinHostPort (em_HostAddress (su_Mapping service)) (FormatInt (em_HostPort (su_Mapping service))) in
      Ok (mkcheckpointRegistry authority ("http://" +:+ authority) overlay (su_LaunchToken service))
  end.
Definition checkpointRegistryRuntime (snapshot : JournalSnapshot) : result checkpointRegistry :=
  if str_eqb (wr_Context (js_Workspace snapshot)) "" || str_eqb (wr_ID (js_Workspace snapshot)) ""
  then Err (bad "checkpoint workspace execution scope is incomplete")
  else registry_service (elems (js_Services snapshot)).

Definition cut_root (root : string) (generation : Z) : string :=
  path_Join [root; ".camp"; "build"; "registry-cut-" +:+ FormatInt generation].
Definition seal_request (snapshot : JournalSnapshot) (runtime : checkpointRegistry) (root : string) (generation : Z) : SnapshotRequest :=
  mkSnapshotRequest (cg_overlay runtime) (cut_root root generation) (cg_endpoint runtime) (js_SessionID snapshot) (cg_launchToken runtime).
Definition capture_request (snapshot : JournalSnapshot) (runtime : checkpointRegistry) : CaptureRequest :=
  mkCaptureRequest (mkEngineScope (wr_Context (js_Workspace snapshot)) (wr_ID (js_Workspace snapshot))) (js_Capsule snapshot)
    (cg_authority runtime) (cg_endpoint runtime) SNil (js_Images snapshot).

Definition hasPendingTransition (pending : list IntentRecord) (transition : string) : bool :=
  existsb (fun item => str_eqb (ir_Transition item) transition) pending.
Definition containsPendingIntent (pending : list IntentRecord) (id : string) : bool :=
  existsb (fun item => str_eqb (ir_ID item) id) pending.

Definition imageInventorySummary (inventory : ImageInventory) : string := default "<unavailable>" (Marshal inventory).
Definition normalizeRegistrySealSnapshot (durable expected : JournalSnapshot) : JournalSnapshot :=
  let durable := set_js_Services (js_Services expected) durable in
  let durable := set_js_UpdatedAt (js_UpdatedAt expected) durable in
  if str_eqb (imageInventorySummary (js_Images durable)) (imageInventorySummary (js_Images expected))
  then set_js_Images (js_Images expected) durable else durable.

(** [preparedRegistrySeal]. *)
Record preparedRegistrySeal := mkpreparedRegistrySeal {
  ps_snapshot : JournalSnapshot;
  ps_attemptID : string;
  ps_root : string;
  ps_inventory : ImageInventory;
  ps_runtime : checkpointRegistry;
  ps_request : SnapshotRequest;
  ps_intent : IntentRecord }.

(** The mirror of the attempt has been completed; its logical identity and its root. *)
Definition completed_attempt (snapshot : JournalSnapshot) (intent : IntentRecord) (sequence : string) : option (string * string) :=
  match checkpointLogicalAttemptID snapshot with
  | Err _ => None
  | Ok attemptID =>
      let mirror := wr_Mirror (js_Workspace snapshot) in
      if negb (str_eqb (ma_State mirror) MirrorCompleted) || str_eqb (ma_Root mirror) "" ||
         negb (str_eqb (ir_ID intent) (attemptID +:+ sequence)) || negb (str_eqb (ir_SessionID intent) (js_SessionID snapshot))
      then None else Some (attemptID, ma_Root mirror)
  end.

Definition preparePendingRootSnapshot (snapshot : JournalSnapshot) (intent : IntentRecord) (generation : Z)
    : result (string * string * IntentRecord) :=
  match completed_attempt snapshot intent "-4" with
  | None => Err (bad "pending root snapshot does not match the durable checkpoint attempt")
  | Some (attemptID, root) =>
      match Unmarshal (A := RootRequest) (ir_Input intent) with
      | Some request =>
          if negb (str_eqb (rq_Root request) root) || negb (rq_Generation request =? generation)
          then Err (bad "pending root snapshot request drifted from durable session state")
          else if negb (str_eqb (js_RegistryCutRoot snapshot) (cut_root root generation))
          then Err (bad "pending root snapshot lacks its sealed registry cut")
          else Ok (attemptID, root, intent)
      | None => Err (bad "pending root snapshot request drifted from durable session state")
      end
  end.

(** * Publication *)
Section publish.
  Context {Receipt : Type}.
  Abbreviation act := (act (ckE Receipt)).
  Abbreviation answer := (CheckpointResult Receipt * option error)%type.

Definition progress (stage : string) (generation images bytes : Z) : act (result unit) :=
  event (ReportProgress (mkProgressEvent stage "" false generation images bytes)).

Definition revalidateRemotePointer (p : Publisher) (snapshot : JournalSnapshot) : act (result unit) :=
  if negb (p_pointers p) then Return (Err (bad "remote checkpoint pointer repository is unavailable"))
  else
  live <+ event (PointersRead (js_Capsule snapshot) (js_Lineage snapshot));
  match js_CurrentPointer snapshot with
  | None =>
      match live with
      | Err e =>
          if errors_Is e ErrNotExist || errors_Is e ErrNotFound then
            if negb (str_eqb (js_ExpectedPointerRevision snapshot) "") ||
               (Lineage_IsMain (js_Lineage snapshot) && negb (bool_decide (js_CurrentBase snapshot = None)))
            then Return (Err (bad "remote checkpoint recorded a partial missing pointer baseline"))
            else Return (Ok tt)
          else Return (Err e)
      | Ok _ => Return (Err ErrPointerChanged)
      end
  | Some pointer =>
      match live with
      | Err e => Return (Err e)
      | Ok live =>
          if str_eqb (js_ExpectedPointerRevision snapshot) "" || negb (str_eqb (pr_Revision live) (js_ExpectedPointerRevision snapshot)) ||
             negb (bool_decide (pr_Pointer live = pointer)) || bool_decide (js_CurrentBase snapshot = None) ||
             negb (bool_decide (Some (lp_Generation (pr_Pointer live)) = js_CurrentBase snapshot)) ||
             negb (str_eqb (lp_Capsule (pr_Pointer live)) (js_Capsule snapshot)) ||
             negb (bool_decide (lp_Lineage (pr_Pointer live) = js_Lineage snapshot))
          then Return (Err ErrPointerChanged) else Return (Ok tt)
      end
  end.

Definition publish_checkpoint (c : Checkpoint) : Checkpoint :=
  mkCheckpoint "published" (cp_Generation c) (cp_LocalHaulPath c) (cp_ObjectKey c) true.
Definition upload_checkpoint (c : Checkpoint) : Checkpoint :=
  mkCheckpoint "uploaded" (cp_Generation c) (cp_LocalHaulPath c) (cp_ObjectKey c) (cp_PublicationSucceeded c).

(** The serving content follows the pointer; a failure here does not undo the publication. *)
Definition refresh_serving (snapshot : JournalSnapshot) (result : CheckpointResult Receipt) (cutRoot haulPath : string) (now : Time) : act answer :=
  let request := mkServingRefreshRequest (js_SessionID snapshot) (ct_Generation result) haulPath cutRoot in
  let failed e := Return (with_refresh_error e result, None) in
  match checkpointLogicalAttemptID snapshot with
  | Err e => failed e
  | Ok attemptID =>
      let refreshIntent := checkpointAttemptIntent (js_SessionID snapshot) attemptID "ServingContentRefreshed" 7 now request in
      recorded <+ event (JRecordIntent refreshIntent);
      match recorded with
      | Err e => failed e
      | Ok _ =>
          refreshed <+ event (Refresh request);
          match refreshed with
          | Err e => failed e
          | Ok _ =>
              loaded <+ event (JLoad (js_SessionID snapshot));
              match loaded with
              | Err e => failed e
              | Ok (refreshed, pending) =>
                  if negb (containsPendingIntent pending (ir_ID refreshIntent))
                  then failed (bad "serving refresh left unexpected pending reconciliation work")
                  else
                  fact <+ event (JRecordFact (checkpointFact refreshIntent now) refreshed);
                  match fact with
                  | Err e => failed e
                  | Ok _ =>
                      reported <+ progress "serving-refreshed" (gr_Generation (ct_Generation result)) 0 0;
                      match reported with Err e => failed e | Ok _ => Return (result, None) end
                  end
              end
          end
      end
  end.

Definition commitPointerAndRefresh (snapshot : JournalSnapshot) (result : CheckpointResult Receipt) (next : LatestPointer)
    (pointerIntent : IntentRecord) (cutRoot haulPath : string) (now : Time) (adopted : option PointerRecord) : act answer :=
  published <+ match adopted with
               | Some record => Return (Ok record)
               | None =>
                   match js_CurrentPointer snapshot with
                   | None => event (PointersCreate next)
                   | Some pointer =>
                       event (PointersCompareAndSwap (mkPointerRecord pointer (js_ExpectedPointerRevision snapshot)) next)
                   end
               end;
  match published with
  | Err e => Return (result, Some e)
  | Ok published =>
      let pointer := pr_Pointer published in
      let result := mkCheckpointResult CheckpointDispositionPublished true (lp_Generation pointer) published
        (ct_RefreshError result) (ct_RecoveryCommand result) (ct_Remote result) in
      let snapshot := set_js_Checkpoint (publish_checkpoint (js_Checkpoint snapshot)) snapshot in
      let fact := checkpointFact pointerIntent now in
      let fact := mkFactRecord (fa_IntentID fact) (fa_SessionID fact) (fa_Transition fact) (fa_Timestamp fact) (fa_Output fact)
        (Some (mkPointerCommit pointer (pr_Revision published))) in
      need! _ := event (JRecordFact fact snapshot) for result in
      need! _ := progress "generation-published" (gr_Generation (lp_Generation pointer)) 0 (lp_Size pointer) for result in
      let snapshot := set_js_CurrentBase (Some (lp_Generation pointer)) snapshot in
      let snapshot := set_js_CurrentPointer (Some pointer) snapshot in
      let snapshot := set_js_ExpectedPointerRevision (pr_Revision published) snapshot in
      refresh_serving snapshot result cutRoot haulPath now
  end.

(** The pointer that names a stored generation. *)
Definition pointer_of (m : GenerationMetadata) : LatestPointer :=
  mkLatestPointer SchemaVersion (gm_Capsule m) (gm_Lineage m) (gm_Generation m) (cloneGeneration (gm_Parent m)) (gm_ObjectKey m)
    (gm_Size m) (gm_CreatedAt m) (gm_Tools m) (gm_SessionID m).
(** The same for the session that stores it. *)
Definition session_pointer (snapshot : JournalSnapshot) (parent : option GenerationRef) (m : GenerationMetadata) : LatestPointer :=
  mkLatestPointer SchemaVersion (js_Capsule snapshot) (js_Lineage snapshot) (gm_Generation m) parent (gm_ObjectKey m)
    (gm_Size m) (gm_CreatedAt m) (gm_Tools m) (js_SessionID snapshot).

(** The checkpoint a pending upload or pointer intent belongs to. *)
Definition checkpoint_attempt (snapshot : JournalSnapshot) (intent : IntentRecord) (generation : Z) (state sequence : string)
    : option (string * GenerationRef) :=
  match checkpointLogicalAttemptID snapshot, cp_Generation (js_Checkpoint snapshot) with
  | Ok attemptID, Some ref =>
      let c := js_Checkpoint snapshot in
      if negb (str_eqb (cp_State c) state) || negb (gr_Generation ref =? generation) || str_eqb (cp_LocalHaulPath c) "" ||
         str_eqb (cp_ObjectKey c) "" || negb (str_eqb (ir_ID intent) (attemptID +:+ sequence)) ||
         negb (str_eqb (ir_SessionID intent) (js_SessionID snapshot))
      then None else Some (attemptID, ref)
  | _, _ => None
  end.

Definition resumePendingUpload (snapshot : JournalSnapshot) (intent : IntentRecord) (generation : Z) (now : Time) : act answer :=
  match checkpoint_attempt snapshot intent generation "verified" "-5" with
  | None => Return (zero_result, Some (bad "pending generation upload does not match the durable checkpoint attempt"))
  | Some (attemptID, ref) =>
  let drifted := Return (zero_result, Some (bad "pending generation upload request drifted from durable checkpoint")) in
  match Unmarshal (A := UploadRequest) (ir_Input intent) with
  | None => drifted
  | Some request =>
  if negb (str_eqb (uq_ObjectKey request) (cp_ObjectKey (js_Checkpoint snapshot))) ||
     negb (str_eqb (uq_SHA256 request) (gr_ArchiveSHA256 ref)) || (uq_Size request <? 0)
  then drifted
  else
  match GenerationMetadataKey (js_Capsule snapshot) (js_Lineage snapshot) ref with
  | Err e => Return (zero_result, Some e)
  | Ok metadataKey =>
      let metadata := mkGenerationMetadata SchemaVersion (js_Capsule snapshot) (js_Lineage snapshot) ref
        (cloneGeneration (js_CurrentBase snapshot)) (uq_ObjectKey request) metadataKey (uq_Size request)
        (mkTime (t_ns (ir_Timestamp intent)) 0) (js_Tools snapshot) (js_SessionID snapshot) (mkVerification true false) in
      let result := attempt_result ref (js_SessionID snapshot) in
      source <+ event (OpenFile (cp_LocalHaulPath (js_Checkpoint snapshot)));
      need! _ := event (GenerationsPutAndVerify metadata source) for result in
      let snapshot := set_js_Checkpoint (upload_checkpoint (js_Checkpoint snapshot)) snapshot in
      need! _ := event (JRecordFact (checkpointFact intent now) snapshot) for result in
      let next := session_pointer snapshot (cloneGeneration (js_CurrentBase snapshot)) metadata in
      let pointerIntent := checkpointAttemptIntent (js_SessionID snapshot) attemptID "PointerCommitted" 6 now next in
      need! _ := event (JRecordIntent pointerIntent) for result in
      commitPointerAndRefresh snapshot result next pointerIntent (js_RegistryCutRoot snapshot)
        (cp_LocalHaulPath (js_Checkpoint snapshot)) now None
  end end end.

Definition resumePendingPointer (snapshot : JournalSnapshot) (intent : IntentRecord) (generation : Z) (now : Time) : act answer :=
  match checkpoint_attempt snapshot intent generation "uploaded" "-6" with
  | None => Return (zero_result, Some (bad "pending pointer commit does not match the durable checkpoint attempt"))
  | Some (_, ref) =>
  let drifted := Return (zero_result, Some (bad "pending pointer commit drifted from the uploaded checkpoint")) in
  match Unmarshal (A := LatestPointer) (ir_Input intent) with
  | None => drifted
  | Some next =>
  if negb (lp_SchemaVersion next =? SchemaVersion) || negb (str_eqb (lp_Capsule next) (js_Capsule snapshot)) ||
     negb (bool_decide (lp_Lineage next = js_Lineage snapshot)) || negb (bool_decide (lp_Generation next = ref)) ||
     negb (str_eqb (lp_ObjectKey next) (cp_ObjectKey (js_Checkpoint snapshot))) ||
     negb (str_eqb (lp_SessionID next) (js_SessionID snapshot)) || negb (sameGeneration (lp_Parent next) (js_CurrentBase snapshot))
  then drifted
  else
  need! (metadata, _) := event (GenerationsReadMetadata (js_Capsule snapshot) (js_Lineage snapshot) ref) for zero_result in
  if negb (bool_decide (next = pointer_of metadata))
  then Return (zero_result, Some (bad "pending pointer commit drifted from the verified generation"))
  else
  current <+ event (PointersRead (js_Capsule snapshot) (js_Lineage snapshot));
  let adopted := match current with
                 | Ok record => if bool_decide (pr_Pointer record = next) then Some record else None
                 | Err _ => None
                 end in
  commitPointerAndRefresh snapshot (attempt_result (lp_Generation next) (js_SessionID snapshot)) next intent
    (js_RegistryCutRoot snapshot) (cp_LocalHaulPath (js_Checkpoint snapshot)) now adopted
  end end.

(** The one pending refresh, and what may be pending beside it.  The source decodes each into
    one variable; a second one is decoded only after an intent without an ID, which no journal
    takes, so it is decoded afresh here. *)
Fixpoint pending_refresh (sessionID : string) (generation : Z) (pending : list IntentRecord)
    (found : option (IntentRecord * ServingRefreshRequest)) : result (option (IntentRecord * ServingRefreshRequest)) :=
  match pending with
  | [] => Ok found
  | intent :: rest =>
      if str_eqb (ir_Transition intent) "ServingContentRefreshed" then
        match found, Unmarshal (A := ServingRefreshRequest) (ir_Input intent) with
        | None, Some request => pending_refresh sessionID generation rest (Some (intent, request))
        | Some (earlier, _), Some request =>
            if str_eqb (ir_ID earlier) "" then pending_refresh sessionID generation rest (Some (intent, request))
            else Err (bad "pending serving refresh is ambiguous")
        | _, None => Err (bad "pending serving refresh is ambiguous")
        end
      else
      let name kind := kind +:+ "-" +:+ sessionID +:+ "-generation-" +:+ FormatInt generation +:+ "-" +:+ kind in
      if negb (str_eqb (ir_Transition intent) "ServiceStart") || negb (str_eqb (ir_SessionID intent) sessionID) ||
         (negb (str_eqb (ir_ID intent) (name "registry")) && negb (str_eqb (ir_ID intent) (name "fileserver")))
      then Err (bad "pending serving refresh has unrelated reconciliation work")
      else pending_refresh sessionID generation rest found
  end.

Definition resumeServingRefresh (snapshot : JournalSnapshot) (pending : list IntentRecord) (now : Time) : act answer :=
  let c := js_Checkpoint snapshot in
  match cp_Generation c, js_CurrentPointer snapshot with
  | Some ref, Some pointer =>
      if negb (str_eqb (cp_State c) "published") || negb (cp_PublicationSucceeded c) || str_eqb (js_ExpectedPointerRevision snapshot) ""
      then Return (zero_result, Some (bad "pending serving refresh lacks a published checkpoint"))
      else
      let result := mkCheckpointResult CheckpointDispositionPublished true ref
        (mkPointerRecord pointer (js_ExpectedPointerRevision snapshot)) None ("camp recover " +:+ js_SessionID snapshot) None in
      let drifted := Return (zero_result, Some (bad "pending serving refresh request drifted from published checkpoint")) in
      match pending_refresh (js_SessionID snapshot) (gr_Generation ref) pending None with
      | Err e => Return (zero_result, Some e)
      | Ok None => drifted
      | Ok (Some (refreshIntent, request)) =>
          if str_eqb (ir_ID refreshIntent) "" || negb (str_eqb (ir_SessionID refreshIntent) (js_SessionID snapshot)) ||
             negb (str_eqb (sr_SessionID request) (js_SessionID snapshot)) || negb (bool_decide (sr_Generation request = ref)) ||
             negb (str_eqb (sr_HaulPath request) (cp_LocalHaulPath c)) ||
             negb (str_eqb (sr_RegistrySnapshotRoot request) (js_RegistryCutRoot snapshot))
          then drifted
          else
          refreshed <+ event (Refresh request);
          match refreshed with
          | Err e => Return (with_refresh_error e result, None)
          | Ok _ =>
              loaded <+ event (JLoad (js_SessionID snapshot));
              match loaded with
              | Err e => Return (with_refresh_error e result, None)
              | Ok (refreshed, [only]) =>
                  if negb (str_eqb (ir_ID only) (ir_ID refreshIntent))
                  then Return (with_refresh_error (bad "serving refresh left unexpected pending reconciliation work") result, None)
                  else
                  fact <+ event (JRecordFact (checkpointFact refreshIntent now) refreshed);
                  match fact with
                  | Err e => Return (with_refresh_error e result, None)
                  | Ok _ => Return (result, None)
                  end
              | Ok _ => Return (with_refresh_error (bad "serving refresh left unexpected pending reconciliation work") result, None)
              end
          end
      end
  | _, _ => Return (zero_result, Some (bad "pending serving refresh lacks a published checkpoint"))
  end.

(** Capture the images under an intent that is pending, then record the intent to seal. *)
Definition capture_images (snapshot : JournalSnapshot) (runtime : checkpointRegistry) (attemptID root : string)
    (captureIntent : IntentRecord) (request : CaptureRequest) (generation : Z) (now : Time) : act (result preparedRegistrySeal) :=
  need! inventory := event (Capture request) in
  let snapshot := set_js_Images inventory snapshot in
  need! _ := event (JRecordFact (checkpointFact captureIntent now) snapshot) in
  need! _ := progress "images-captured" generation (Z.of_nat (length (elems (ii_Images inventory)))) 0 in
  let request := seal_request snapshot runtime root generation in
  let intent := checkpointAttemptIntent (js_SessionID snapshot) attemptID "RegistrySnapshotSealed" 3 now request in
  need! _ := event (JRecordIntent intent) in
  Return (Ok (mkpreparedRegistrySeal snapshot attemptID root inventory runtime request intent)).

Definition resumePendingImageCapture (snapshot : JournalSnapshot) (intent : IntentRecord) (generation : Z) (now : Time)
    : act (result preparedRegistrySeal) :=
  match completed_attempt snapshot intent "-2" with
  | None => Return (Err (bad "pending image capture does not match the durable checkpoint attempt"))
  | Some (attemptID, root) =>
      match checkpointRegistryRuntime snapshot with
      | Err e => Return (Err e)
      | Ok runtime =>
          match Unmarshal (A := CaptureRequest) (ir_Input intent) with
          | Some request =>
              if negb (bool_decide (request = capture_request snapshot runtime))
              then Return (Err (bad "pending image capture request drifted from durable session state"))
              else capture_images snapshot runtime attemptID root intent request generation now
          | None => Return (Err (bad "pending image capture request drifted from durable session state"))
          end
      end
  end.

(** The index of the one pending seal. *)
Fixpoint seal_index (pending : list IntentRecord) (index : nat) (found : option nat) : result (option nat) :=
  match pending with
  | [] => Ok found
  | intent :: rest =>
      if str_eqb (ir_Transition intent) "RegistrySnapshotSealed" then
        match found with
        | Some _ => Err (bad "checkpoint has multiple pending registry seals")
        | None => seal_index rest (S index) (Some index)
        end
      else seal_index rest (S index) found
  end.

(** The services the seal restarts may be pending beside it: whether a restart is. *)
Definition restart_id (request : SnapshotRequest) : string := "registry-" +:+ sq_RegistryLaunchToken request +:+ "-restart".
Definition start_id (request : SnapshotRequest) : string := "registry-" +:+ sq_RegistryLaunchToken request.
Fixpoint seal_children (sessionID : string) (request : SnapshotRequest) (sealIndex index : nat) (pending : list IntentRecord) (restartFound : bool)
    : result bool :=
  match pending with
  | [] => Ok restartFound
  | child :: rest =>
      if Nat.eqb index sealIndex then seal_children sessionID request sealIndex (S index) rest restartFound
      else if negb (str_eqb (ir_SessionID child) sessionID) ||
        negb ((str_eqb (ir_Transition child) "ServiceRestart" && str_eqb (ir_ID child) (restart_id request)) ||
              (str_eqb (ir_Transition child) "ServiceStart" && str_eqb (ir_ID child) (start_id request)))
      then Err (bad "checkpoint has unrelated pending reconciliation work")
      else seal_children sessionID request sealIndex (S index) rest (restartFound || str_eqb (ir_Transition child) "ServiceRestart")
  end.

Definition pending_seal (snapshot : JournalSnapshot) (pending : list IntentRecord) (runtime : checkpointRegistry) (generation : Z)
    : result preparedRegistrySeal :=
  let! found := seal_index pending 0 None in
  match found with
  | None => Err (bad "checkpoint has pending reconciliation work")
  | Some sealIndex =>
      if (3 <? Z.of_nat (length pending)) then Err (bad "checkpoint has pending reconciliation work")
      else
      match pending !! sealIndex with
      | None => Err (bad "index out of range")
      | Some intent =>
          match completed_attempt snapshot intent "-3" with
          | None => Err (bad "pending registry seal does not match the durable checkpoint attempt")
          | Some (attemptID, root) =>
              match Unmarshal (A := SnapshotRequest) (ir_Input intent) with
              | None => Err (bad "pending registry seal request is invalid")
              | Some request =>
                  check bool_decide (request = seal_request snapshot runtime root generation)
                    else bad "pending registry seal request drifted from durable session state";
                  let! restartFound := seal_children (js_SessionID snapshot) request sealIndex 0 pending false in
                  check negb ((1 <? Z.of_nat (length pending)) && negb restartFound)
                    else bad "checkpoint service start lacks its pending restart parent";
                  Ok (mkpreparedRegistrySeal snapshot attemptID root (js_Images snapshot) runtime request intent)
              end
          end
      end
  end.

Definition mirror_request (snapshot : JournalSnapshot) (attemptID : string) : MirrorRequest :=
  let w := js_Workspace snapshot in
  mkMirrorRequest (wr_Provider w) (wr_LocalProvider w) (wr_StagingRoot w) (wr_LocalFolder w) (wr_ID w) (wr_Context w) attemptID.

Definition bad_mirror (snapshot : JournalSnapshot) (request : MirrorRequest) (mirrored : MirrorResult) : bool :=
  if wr_LocalProvider (js_Workspace snapshot)
  then negb (str_eqb (mr_Mode mirrored) MirrorLocalNoop) || negb (str_eqb (mr_Root mirrored) (wr_StagingRoot (js_Workspace snapshot))) ||
       negb (str_eqb (mr_AttemptID mirrored) (mq_AttemptID request))
  else negb (validRemoteMirrorResult mirrored (mq_AttemptID request)).

(** A new attempt: mirror the workspace, check the lease again, capture the images. *)
Definition start_attempt (snapshot : JournalSnapshot) (runtime : checkpointRegistry) (lease : LeaseToken) (generation : Z) (now : Time)
    : act (result preparedRegistrySeal) :=
  if ma_LogicalAttempt (wr_Mirror (js_Workspace snapshot)) =? 2 ^ 64 - 1
  then Return (Err (bad "checkpoint mirror attempt overflow"))
  else
  let logicalAttempt := ma_LogicalAttempt (wr_Mirror (js_Workspace snapshot)) + 1 in
  let attemptID := attempt_id (js_SessionID snapshot) logicalAttempt in
  let mirrorRequest := mirror_request snapshot attemptID in
  need! _ := event (MirrorValidate mirrorRequest) in
  let mirrorIntent := checkpointAttemptIntent (js_SessionID snapshot) attemptID "WorkspaceMirrored" 1 now mirrorRequest in
  need! _ := event (JRecordIntent mirrorIntent) in
  mirrored <+ event (ReturnToStaging mirrorRequest);
  match mirrored with
  | MirrorFailed e => Return (Err e)
  | MirrorUnknown r e =>
      if negb (validRemoteMirrorResult r (mq_AttemptID mirrorRequest))
      then Return (Err (ErrJoin e (bad "ambiguous workspace mirror returned an invalid attempt identity")))
      else
      let snapshot := set_mirror (mirrorAttemptRecord logicalAttempt r MirrorAmbiguous) snapshot in
      fact <+ event (JRecordFact (checkpointFact mirrorIntent now) snapshot);
      match fact with
      | Err factErr => Return (Err (ErrJoin e factErr))
      | Ok _ => Return (Err e)
      end
  | Mirrored mirrored =>
      if str_eqb (mr_Root mirrored) "" then Return (Err (bad "workspace mirror returned an empty staging root"))
      else if bad_mirror snapshot mirrorRequest mirrored
      then Return (Err (bad "workspace mirror did not preserve or return its staging root"))
      else
      let snapshot := set_mirror (mirrorAttemptRecord logicalAttempt mirrored MirrorCompleted) snapshot in
      need! _ := event (LeaseRevalidate lease now) in
      need! _ := event (JRecordFact (checkpointFact mirrorIntent now) snapshot) in
      need! _ := progress "workspace-prepared" generation 0 0 in
      let captureRequest := capture_request snapshot runtime in
      let captureIntent := checkpointAttemptIntent (js_SessionID snapshot) attemptID "WorkspaceImagesInventoried" 2 now captureRequest in
      need! _ := event (JRecordIntent captureIntent) in
      capture_images snapshot runtime attemptID (mr_Root mirrored) captureIntent captureRequest generation now
  end.

Definition prepareRegistrySeal (snapshot : JournalSnapshot) (pending : list IntentRecord) (lease : LeaseToken) (generation : Z) (now : Time)
    : act (result preparedRegistrySeal) :=
  match checkpointRegistryRuntime snapshot with
  | Err e => Return (Err e)
  | Ok runtime =>
      match pending with
      | [] => start_attempt snapshot runtime lease generation now
      | _ => Return (pending_seal snapshot pending runtime generation)
      end
  end.

(** Seal the registry under the pending intent, and record the intent to build:
    the snapshot, the inventory, the cut root and the intent. *)
Definition seal_registry (prepared : preparedRegistrySeal) (sessionID : string) (generation : Z) (now : Time)
    : act (result (JournalSnapshot * ImageInventory * string * IntentRecord)) :=
  let snapshot := ps_snapshot prepared in
  let cutRoot := sq_SnapshotRoot (ps_request prepared) in
  need! sealed := event (Seal (ps_request prepared)) in
  if negb (str_eqb (rs_Root sealed) cutRoot) then Return (Err (bad "registry sealer returned an unexpected cut root"))
  else
  need! (current, remaining) := event (JLoad sessionID) in
  match remaining with
  | [only] =>
      if negb (str_eqb (ir_ID only) (ir_ID (ps_intent prepared))) || negb (str_eqb (ir_Transition only) (ir_Transition (ps_intent prepared)))
      then Return (Err (bad "registry seal left unexpected pending reconciliation work"))
      else if negb (bool_decide (normalizeRegistrySealSnapshot current snapshot = snapshot))
      then Return (Err (bad "registry seal changed unrelated durable session state"))
      else
      match InventoryFromCatalog (cg_authority (ps_runtime prepared)) (rs_References sealed) now with
      | Err e => Return (Err e)
      | Ok inventory =>
          let inventory := ExcludeInternalArtifacts inventory in
          let snapshot := set_js_RegistryCutRoot (rs_Root sealed) (set_js_Images inventory current) in
          need! _ := event (JRecordFact (checkpointFact (ps_intent prepared) now) snapshot) in
          need! _ := progress "registry-sealed" generation (Z.of_nat (length (elems (ii_Images inventory)))) 0 in
          let buildIntent := checkpointAttemptIntent sessionID (ps_attemptID prepared) "RootSnapshotStable" 4 now
            (mkRootRequest (ps_root prepared) generation) in
          need! _ := event (JRecordIntent buildIntent) in
          Return (Ok (snapshot, inventory, cutRoot, buildIntent))
      end
  | _ => Return (Err (bad "registry seal left unexpected pending reconciliation work"))
  end.

(** Build, upload, and move the pointer. *)
Definition build_and_commit (snapshot : JournalSnapshot) (inventory : ImageInventory) (cutRoot root attemptID sessionID : string)
    (buildIntent : IntentRecord) (parent : option GenerationRef) (generation : Z) (now : Time) : act answer :=
  let tools := match js_CurrentPointer snapshot with
               | Some pointer => if bool_decide (js_Tools snapshot = c_zero) then lp_Tools pointer else js_Tools snapshot
               | None => js_Tools snapshot
               end in
  need! built := event (Build (mkBuildRequest (js_Capsule snapshot) root inventory (js_Lineage snapshot) generation parent sessionID now tools)) for zero_result in
  let metadata := bu_Metadata built in
  let artifact := bu_Artifact built in
  let result := attempt_result (gm_Generation metadata) sessionID in
  let snapshot := set_js_Checkpoint
    (mkCheckpoint "verified" (cloneGeneration (Some (gm_Generation metadata))) (ga_Path artifact) (gm_ObjectKey metadata) false) snapshot in
  need! _ := event (JRecordFact (checkpointFact buildIntent now) snapshot) for result in
  need! _ := progress "generation-built" generation (Z.of_nat (length (elems (ii_Images inventory)))) (ga_Size artifact) for result in
  let uploadIntent := checkpointAttemptIntent sessionID attemptID "GenerationUploaded" 5 now
    (mkUploadRequest (gm_ObjectKey metadata) (ga_SHA256 artifact) (ga_Size artifact)) in
  need! _ := event (JRecordIntent uploadIntent) for result in
  source <+ event (OpenFile (ga_Path artifact));
  need! _ := event (GenerationsPutAndVerify metadata source) for result in
  let snapshot := set_js_Checkpoint (upload_checkpoint (js_Checkpoint snapshot)) snapshot in
  need! _ := event (JRecordFact (checkpointFact uploadIntent now) snapshot) for result in
  need! _ := progress "generation-uploaded" generation 0 (gm_Size metadata) for result in
  let next := mkLatestPointer SchemaVersion (js_Capsule snapshot) (js_Lineage snapshot) (gm_Generation metadata) parent
    (gm_ObjectKey metadata) (gm_Size metadata) (gm_CreatedAt metadata) (gm_Tools metadata) sessionID in
  let pointerIntent := checkpointAttemptIntent sessionID attemptID "PointerCommitted" 6 now next in
  need! _ := event (JRecordIntent pointerIntent) for result in
  commitPointerAndRefresh snapshot result next pointerIntent cutRoot (ga_Path artifact) now None.

(** A generation that is not built yet: from the pending intent, or from a new attempt. *)
Definition publish_generation (snapshot : JournalSnapshot) (pending : list IntentRecord) (lease : LeaseToken) (sessionID : string)
    (parent : option GenerationRef) (generation : Z) (now : Time) : act answer :=
  let inventory := ExcludeInternalArtifacts (js_Images snapshot) in
  let snapshot := set_js_Images inventory snapshot in
  let sealing prepare :=
    need! prepared := prepare for zero_result in
    need! (snapshot, inventory, cutRoot, buildIntent) := seal_registry prepared sessionID generation now for zero_result in
    build_and_commit snapshot inventory cutRoot (ps_root prepared) (ps_attemptID prepared) sessionID buildIntent parent generation now in
  match pending with
  | [intent] =>
      if str_eqb (ir_Transition intent) "RootSnapshotStable" then
        match preparePendingRootSnapshot snapshot intent generation with
        | Err e => Return (zero_result, Some e)
        | Ok (attemptID, root, buildIntent) =>
            build_and_commit snapshot inventory (js_RegistryCutRoot snapshot) root attemptID sessionID buildIntent parent generation now
        end
      else if str_eqb (ir_Transition intent) "WorkspaceImagesInventoried"
      then sealing (resumePendingImageCapture snapshot intent generation now)
      else sealing (prepareRegistrySeal snapshot pending lease generation now)
  | _ => sealing (prepareRegistrySeal snapshot pending lease generation now)
  end.

(** The work of a session whose lock and lease hold, on this machine. *)
Definition publish_local (p : Publisher) (sessionID : string) (snapshot : JournalSnapshot) (pending : list IntentRecord)
    (lease : LeaseToken) (generation : Z) (now : Time) : act answer :=
  if negb (p_pipeline p) || negb (p_pointers p) then Return (zero_result, Some (bad "checkpoint publisher dependencies are incomplete"))
  else if hasPendingTransition pending "ServingContentRefreshed" then resumeServingRefresh snapshot pending now
  else
  match pending with
  | [intent] =>
      if str_eqb (ir_Transition intent) "GenerationUploaded" then resumePendingUpload snapshot intent generation now
      else if str_eqb (ir_Transition intent) "PointerCommitted" then resumePendingPointer snapshot intent generation now
      else publish_generation snapshot pending lease sessionID (cloneGeneration (js_CurrentBase snapshot)) generation now
  | _ => publish_generation snapshot pending lease sessionID (cloneGeneration (js_CurrentBase snapshot)) generation now
  end.

(** The same, or the preparation on the remote machine. *)
Definition publish_session (p : Publisher) (operation : OperationToken) (sessionID : string) (snapshot : JournalSnapshot)
    (pending : list IntentRecord) (lease : LeaseToken) (generation : Z) (now : Time) : act answer :=
  match rr_RemoteDataPlane (js_Recovery snapshot) with
  | Some plane =>
      if str_eqb (rd_Mode plane) "haulerKitV1" then
        if negb (p_remoteKit p) then Return (zero_result, Some (bad "remote Hauler checkpoint preparer is unavailable"))
        else
        need! _ := revalidateRemotePointer p snapshot for zero_result in
        let op := oo_Operation (ot_Owner operation) in
        if negb (str_eqb op "sync") && negb (str_eqb op "close")
        then Return (zero_result, Some (bad "remote Hauler checkpoint requires sync or close ownership"))
        else
        prepared <+ event (RemotePrepare snapshot generation (str_eqb op "close"));
        let '(receipt, err) := prepared in
        Return (mkCheckpointResult CheckpointDispositionRemotePrepared false c_zero (mkPointerRecord c_zero "") None
          ("camp recover " +:+ sessionID) (Some receipt), err)
      else publish_local p sessionID snapshot pending lease generation now
  | None => publish_local p sessionID snapshot pending lease generation now
  end.

Definition Publish (p : Publisher) (operation : OperationToken) (sessionID : string) : act answer :=
  if negb (p_core p) then Return (zero_result, Some (bad "checkpoint publisher dependencies are incomplete"))
  else if negb (str_eqb (oo_SessionID (ot_Owner operation)) sessionID) || str_eqb sessionID ""
  then Return (zero_result, Some (bad "checkpoint operation does not own the session"))
  else
  need! _ := event (LockValidate operation) for zero_result in
  need! (snapshot, pending) := event (JLoad sessionID) for zero_result in
  match lr_Lease (js_Lease snapshot) with
  | Some lease =>
      if negb (str_eqb (js_Mode snapshot) "readWrite") || str_eqb (lr_Revision (js_Lease snapshot)) ""
      then Return (zero_result, Some (bad "checkpoint publication requires an active writer lease"))
      else
      match validateCheckpointSnapshot snapshot lease with
      | Err e => Return (zero_result, Some e)
      | Ok _ =>
          let parent := js_CurrentBase snapshot in
          if bool_decide (option_map gr_Generation parent = Some (2 ^ 64 - 1))
          then Return (zero_result, Some (bad "checkpoint generation overflow"))
          else
          let generation := match parent with Some ref => gr_Generation ref + 1 | None => 1 end in
          now <+ event Now;
          let now := mkTime (t_ns now) 0 in
          let lease := mkLeaseToken lease (lr_Revision (js_Lease snapshot)) in
          need! _ := event (LeaseRevalidate lease now) for zero_result in
          publish_session p operation sessionID snapshot pending lease generation now
      end
  | None => Return (zero_result, Some (bad "checkpoint publication requires an active writer lease"))
  end.
End publish.

Example directory_1 : map directory_argument [["a"; "--directory"; "/d"; "--directory"; "/e"]; ["--directory"]; []] = ["/d"; ""; ""].
Proof. reflexivity. Qed.
