(* ===== verification/CheckpointSafety.v ===== *)
(** What app.CheckpointPublisher does in every run, whatever the parts it calls answer and
    wherever it is stopped: a monitor watches the events of a run, and accepts all of them.

    The monitor knows what the run has learnt: whether the lock and the lease were found to
    hold, the session as it was loaded first, the intents that are open in the journal, the
    generations found verified in the store, and the pointers read and written. *)
From S2P Require Import Prelude Acts Sha256 GoTime Json Codec Regexp Domain Snapshot Paths ObjectStore Documents Pointers Leases Generations RegistryInventory Checkpoint.

Record view := mkView {
  v_locked : bool;
  v_leased : bool;
  v_start : option JournalSnapshot;
  v_open : list IntentRecord;
  v_stored : list GenerationMetadata;
  v_read : list PointerRecord;
  v_written : option PointerRecord;
  v_built : option BuildResult }.

Definition init : view := mkView false false None [] [] [] None None.

Section monitor.
  Context {Receipt : Type} (session : string).

(** What an answer teaches. *)
Definition observe (v : view) {X} (e : ckE Receipt X) : X -> view :=
  let '(mkView locked leased start open stored read written built) := v in
  match e with
  | LockValidate _ => fun x => mkView (is_ok x) leased start open stored read written built
  | LeaseRevalidate _ _ => fun x => mkView locked (is_ok x) start open stored read written built
  | JLoad _ => fun x =>
      match x with
      | Ok (s, pending) => mkView locked leased (Some (default s start)) pending stored read written built
      | Err _ => v
      end
  | JRecordIntent i => fun x => if is_ok x then mkView locked leased start (open ++ [i]) stored read written built else v
  | JRecordFact f _ => fun x =>
      if is_ok x then mkView locked leased start (filter (fun i => ir_ID i <> fa_IntentID f) open) stored read written built else v
  | Build _ => fun x =>
      match x with Ok b => mkView locked leased start open stored read written (Some b) | Err _ => v end
  | GenerationsPutAndVerify m _ => fun x => if is_ok x then mkView locked leased start open (m :: stored) read written built else v
  | GenerationsReadMetadata _ _ _ => fun x =>
      match x with Ok (m, _) => mkView locked leased start open (m :: stored) read written built | Err _ => v end
  | PointersRead _ _ => fun x =>
      match x with Ok r => mkView locked leased start open stored (r :: read) written built | Err _ => v end
  | PointersCreate _ => fun x =>
      match x with Ok r => mkView locked leased start open stored read (Some r) built | Err _ => v end
  | PointersCompareAndSwap _ _ => fun x =>
      match x with Ok r => mkView locked leased start open stored read (Some r) built | Err _ => v end
  | _ => fun _ => v
  end.

(** The operation lock and the writer lease were found to hold. *)
Definition guarded (v : view) : Prop := v_locked v = true /\ v_leased v = true.

(** The intent is open, of this session, and describes the request. *)
Definition describes {A} `{Codec A} (i : IntentRecord) (transition : string) (request : A) : Prop :=
  ir_Transition i = transition /\ ir_SessionID i = session /\
  (ir_Input i = default "" (Marshal request) \/ Unmarshal (ir_Input i) = Some request).
Definition under {A} `{Codec A} (v : view) (transition : string) (request : A) : Prop :=
  guarded v /\ exists i, i ∈ v_open v /\ describes i transition request.

(** The pointer names a generation that was found stored and verified. *)
Definition announces (m : GenerationMetadata) (next : LatestPointer) : Prop :=
  lp_Generation next = gm_Generation m /\ lp_ObjectKey next = gm_ObjectKey m /\ lp_Size next = gm_Size m /\
  lp_CreatedAt next = gm_CreatedAt m /\ lp_Tools next = gm_Tools m.

(** The pointer follows the base the session was loaded with. *)
Definition follows (s : JournalSnapshot) (next : LatestPointer) : Prop :=
  lp_SchemaVersion next = SchemaVersion /\ lp_Capsule next = js_Capsule s /\ lp_Lineage next = js_Lineage s /\
  lp_Parent next = js_CurrentBase s /\ lp_SessionID next = session.

Definition may_move (v : view) (next : LatestPointer) (expected : option PointerRecord) : Prop :=
  under v "PointerCommitted" next /\ v_written v = None /\ (exists m, m ∈ v_stored v /\ announces m next) /\
  exists s, v_start v = Some s /\ follows s next /\
    expected = option_map (fun p => mkPointerRecord p (js_ExpectedPointerRevision s)) (js_CurrentPointer s).

(** The upload that resumes the one the session was left with: the generation its checkpoint
    names, with the digest and the size of the request in the journal. *)
Definition resumes (s : JournalSnapshot) (u : UploadRequest) (m : GenerationMetadata) : Prop :=
  gm_Capsule m = js_Capsule s /\ gm_Lineage m = js_Lineage s /\ gm_Parent m = js_CurrentBase s /\
  gm_SessionID m = session /\ gm_Tools m = js_Tools s /\
  cp_Generation (js_Checkpoint s) = Some (gm_Generation m) /\ cp_ObjectKey (js_Checkpoint s) = gm_ObjectKey m /\
  u = mkUploadRequest (gm_ObjectKey m) (gr_ArchiveSHA256 (gm_Generation m)) (gm_Size m).

(** The generation a run is to upload under a request: what was built in this run, or what
    the session was left with. *)
Definition intends (v : view) (u : UploadRequest) (m : GenerationMetadata) : Prop :=
  (exists b, v_built v = Some b /\ m = bu_Metadata b /\
     u = mkUploadRequest (gm_ObjectKey m) (ga_SHA256 (bu_Artifact b)) (ga_Size (bu_Artifact b))) \/
  exists s, v_start v = Some s /\ resumes s u m.

(** What is built is the session's: its capsule and lineage, after its base. *)
Definition builds (s : JournalSnapshot) (b : BuildRequest) : Prop :=
  bq_Capsule b = js_Capsule s /\ bq_Lineage b = js_Lineage s /\ bq_Parent b = js_CurrentBase s /\ bq_SessionID b = session.

(** Which events a run may make next. *)
Definition allowed (v : view) {X} (e : ckE Receipt X) : Prop :=
  match e with
  | JLoad s => v_locked v = true /\ s = session
  | JRecordIntent i => guarded v /\ v_open v = [] /\ ir_SessionID i = session
  | JRecordFact f _ => guarded v /\ fa_SessionID f = session /\ exists i, i ∈ v_open v /\ ir_ID i = fa_IntentID f
  | RemotePrepare _ _ _ => guarded v
  | ReturnToStaging r => under v "WorkspaceMirrored" r
  | Capture r => under v "WorkspaceImagesInventoried" r
  | Seal r => under v "RegistrySnapshotSealed" r
  | Build b => under v "RootSnapshotStable" (mkRootRequest (bq_Root b) (bq_Generation b)) /\
      exists s, v_start v = Some s /\ builds s b
  | GenerationsPutAndVerify m _ => exists u : UploadRequest, under v "GenerationUploaded" u /\ intends v u m
  | PointersCreate next => may_move v next None
  | PointersCompareAndSwap expected next => may_move v next (Some expected)
  | Refresh r => under v "ServingContentRefreshed" r
  | _ => True
  end.

(** What an answer of Publish means: the record was written by this run; or it was read, and
    its pointer is the one this run was to write, which follows the session's base and names
    a generation found stored; or the session had published it already. *)
Definition published_by (v : view) (r : PointerRecord) : Prop :=
  v_written v = Some r \/
  (r ∈ v_read v /\ exists s m, v_start v = Some s /\ follows s (pr_Pointer r) /\ m ∈ v_stored v /\ announces m (pr_Pointer r)) \/
  exists s, v_start v = Some s /\ cp_PublicationSucceeded (js_Checkpoint s) = true /\
    js_CurrentPointer s = Some (pr_Pointer r) /\ js_ExpectedPointerRevision s = pr_Revision r.

Definition settled (v : view) (a : CheckpointResult Receipt * option error) : Prop :=
  (ct_Published a.1 = true -> published_by v (ct_Pointer a.1)) /\
  (ct_Published a.1 = false -> v_written v = None /\ (a.2 = None -> ct_Remote a.1 <> None)).

(** * Every run of a tree *)

(** The journal loads the session it is asked for; every other answer is open. *)
Definition possible {X} (e : ckE Receipt X) : X -> Prop :=
  match e with
  | JLoad id => fun x => match x with Ok (s, _) => js_SessionID s = id | Err _ => True end
  | _ => fun _ => True
  end.

Abbreviation wp := (wp (@observe) (@allowed) (@possible)).
(** The monitor accepts the events; what it knows after them. *)
Definition accepts (v : view) (tr : list (happened (ckE Receipt))) : Prop := Acts.accepts (@observe) (@allowed) v tr.
Definition learnt (v : view) (tr : list (happened (ckE Receipt))) : view := Acts.learnt (@observe) v tr.


Lemma wp_load {B} id (k : JournalSnapshot * list IntentRecord -> act (ckE Receipt) (B * option error)) r v Q :
  allowed v (JLoad id) ->
  (forall s pending, js_SessionID s = id -> wp (observe v (JLoad id) (Ok (s, pending))) (k (s, pending)) Q) ->
  (forall err, Q (observe v (JLoad id) (Err err)) (r, Some err)) ->
  wp v (act_bind (event (JLoad id)) (fun a => match a with Ok x => k x | Err err => Return (r, Some err) end)) Q.
Proof. intros Ha Hk He. split; [done|]. intros [[s pending]|err] Hx; [by apply Hk|apply He]. Qed.
End monitor.

(** * The parts of a publication *)
Section publication.
  Context {Receipt : Type} (session : string).
  Abbreviation answer := (CheckpointResult Receipt * option error)%type.
  Abbreviation wp := (Acts.wp (@observe Receipt) (@allowed Receipt session) (@possible Receipt)).
  Abbreviation published_by := (published_by session).
  Abbreviation settled := (settled session).

Lemma attempt_describes {A} `{Codec A} sessionID attemptID transition sequence now (request : A) :
  sessionID = session -> describes session (checkpointAttemptIntent sessionID attemptID transition sequence now request) transition request.
Proof. intros ->. split; [done|]. split; [done|]. by left. Qed.

(** A run that has not moved the pointer and stops with an error. *)
Lemma settled_error v (result : CheckpointResult Receipt) e : v_written v = None -> ct_Published result = false -> settled v (result, Some e).
Proof. intros Hv Hr. split; cbn [fst snd]; [congruence|]. intros _. by split. Qed.

(** A run whose publication stands. *)
Lemma settled_published v (result : CheckpointResult Receipt) e : ct_Published result = true -> published_by v (ct_Pointer result) -> settled v (result, e).
Proof. intros Hr Hp. split; cbn [fst snd]; [done|congruence]. Qed.

Lemma settled_refresh v (result : CheckpointResult Receipt) err e : ct_Published result = true -> published_by v (ct_Pointer result) -> settled v (with_refresh_error err result, e).
Proof. intros H1 H2. by apply settled_published; [exact H1|exact H2]. Qed.

#[local] Ltac stands := first [apply settled_refresh|apply settled_published];
  [first [assumption|reflexivity]|match goal with H : context [published_by] |- _ => apply H end].

(** Where a publication stands it stands until the end: the events that are left read and
    write nothing else. *)
Lemma refresh_serving_wp s stored read written built snapshot (result : CheckpointResult Receipt) cutRoot haulPath now :
  js_SessionID snapshot = session -> ct_Published result = true ->
  (forall open, published_by (mkView true true (Some s) open stored read written built) (ct_Pointer result)) ->
  wp (mkView true true (Some s) [] stored read written built) (refresh_serving snapshot result cutRoot haulPath now) settled.
Proof.
  intros Hs Hr Hp. unfold refresh_serving.
  destruct (checkpointLogicalAttemptID snapshot) as [attemptID|e]; [|stands].
  apply wp_event; [split; [done|]; by split|]. intros [[]|e]; [|stands]. cbn [observe is_ok app].
  apply wp_event.
  { split; [done|]. eexists. split; [by apply list_elem_of_singleton|]. by apply attempt_describes. }
  intros [[]|e]; [|stands]. cbn [observe].
  apply wp_event; [by split|]. intros [[refreshed pending]|e]; [|stands]. cbn [observe default].
  destruct (containsPendingIntent pending _) eqn:Ec; [|stands]. cbn [negb].
  apply wp_event.
  { split; [done|]. split; [done|]. unfold containsPendingIntent in Ec. apply existsb_exists in Ec as (i & Hi & E).
    exists i. split; [by apply list_elem_of_In|]. by apply str_eqb_eq in E. }
  intros [[]|e]; [|stands]. cbn [observe is_ok].
  apply wp_event; [done|]. intros [[]|e]; [stands|stands].
Qed.

(** The session a run works on is the one it loaded, but for the images, the mirror, the
    checkpoint, the services and the lease. *)
Record based (s snapshot : JournalSnapshot) : Prop := {
  b_session : js_SessionID snapshot = session;
  b_capsule : js_Capsule snapshot = js_Capsule s;
  b_lineage : js_Lineage snapshot = js_Lineage s;
  b_base : js_CurrentBase snapshot = js_CurrentBase s;
  b_pointer : js_CurrentPointer snapshot = js_CurrentPointer s;
  b_revision : js_ExpectedPointerRevision snapshot = js_ExpectedPointerRevision s }.

Lemma commit_wp s stored read built snapshot (result : CheckpointResult Receipt) next intent cutRoot haulPath now adopted :
  based s snapshot -> describes session intent "PointerCommitted" next -> follows session s next ->
  (exists m, m ∈ stored /\ announces m next) -> ct_Published result = false ->
  (forall r, adopted = Some r -> r ∈ read /\ pr_Pointer r = next) ->
  wp (mkView true true (Some s) [intent] stored read None built)
    (commitPointerAndRefresh snapshot result next intent cutRoot haulPath now adopted) settled.
Proof.
  intros Hb Hi Hf Hm Hr Ha. unfold commitPointerAndRefresh. apply wp_bind.
  apply wp_conseq with (Q := fun v a =>
    match a with
    | Ok r => (v = mkView true true (Some s) [intent] stored read None built /\ r ∈ read /\ pr_Pointer r = next) \/ v = mkView true true (Some s) [intent] stored read (Some r) built
    | Err _ => v = mkView true true (Some s) [intent] stored read None built
    end).
  - assert (under session (mkView true true (Some s) [intent] stored read None built) "PointerCommitted" next) as Hu.
    { split; [done|]. exists intent. split; [by apply list_elem_of_singleton|done]. }
    destruct adopted as [r|]; [left; split; [done|by apply Ha]|].
    destruct (js_CurrentPointer snapshot) as [p|] eqn:Ep.
    + split; [|intros [r|e] _; [by right|done]]. split; [done|]. split; [done|]. split; [done|].
      exists s. split; [done|]. split; [done|]. rewrite <-(b_pointer _ _ Hb), Ep, (b_revision _ _ Hb). done.
    + split; [|intros [r|e] _; [by right|done]]. split; [done|]. split; [done|]. split; [done|].
      exists s. split; [done|]. split; [done|]. by rewrite <-(b_pointer _ _ Hb), Ep.
  - intros v [r|e] Hv; [|subst v; by apply settled_error].
    assert (exists written, v = mkView true true (Some s) [intent] stored read written built /\
      forall open, published_by (mkView true true (Some s) open stored read written built) r) as (written & -> & Hp).
    { destruct Hv as [[-> [Hin Hn]]| ->]; eexists; (split; [done|]); intros open; [|by left].
      right. left. split; [done|]. destruct Hm as (m & Hm & Han). by exists s, m; rewrite Hn. }
    set (result' := mkCheckpointResult _ _ _ _ _ _ _).
    apply wp_need_for.
    { split; [done|]. split; [apply Hi|]. exists intent. split; [by apply list_elem_of_singleton|done]. }
    2: { intros err. stands. }
    intros []. cbn [observe is_ok checkpointFact fa_IntentID]. rewrite filter_cons_False by (intros E; by apply E). cbn [filter].
    apply wp_need_for; [done| |intros err; stands].
    intros []. cbn [observe]. apply refresh_serving_wp; [apply Hb|done|done].
Qed.

Lemma based_refl s : js_SessionID s = session -> based s s.
Proof. by split. Qed.
Lemma based_images s snapshot i : based s snapshot -> based s (set_js_Images i snapshot).
Proof. by intros []; split. Qed.
Lemma based_mirror s snapshot m : based s snapshot -> based s (set_mirror m snapshot).
Proof. by intros []; split. Qed.
Lemma based_cut s snapshot r : based s snapshot -> based s (set_js_RegistryCutRoot r snapshot).
Proof. by intros []; split. Qed.
Lemma based_checkpoint s snapshot c : based s snapshot -> based s (set_js_Checkpoint c snapshot).
Proof. by intros []; split. Qed.

(** What has not been written by the sealing of the registry is as it was. *)
Lemma based_normalized s snapshot current :
  normalizeRegistrySealSnapshot current snapshot = snapshot -> based s snapshot -> based s current.
Proof.
  intros E []. unfold normalizeRegistrySealSnapshot in E.
  destruct (str_eqb _ _); (split; [rewrite <-b_session0|rewrite <-b_capsule0|rewrite <-b_lineage0|rewrite <-b_base0|rewrite <-b_pointer0|rewrite <-b_revision0]);
    by rewrite <-E.
Qed.
#[local] Hint Resolve based_refl based_images based_mirror based_cut based_checkpoint : camp.

(** Recording the fact of the one open intent. *)
Lemma fact_allowed start intent now stored read written built snapshot : ir_SessionID intent = session ->
  allowed (Receipt := Receipt) session (mkView true true start [intent] stored read written built) (JRecordFact (checkpointFact intent now) snapshot).
Proof. intros H. split; [done|]. split; [done|]. exists intent. split; [by apply list_elem_of_singleton|done]. Qed.

Lemma fact_closes start intent now stored read written built snapshot :
  observe (Receipt := Receipt) (mkView true true start [intent] stored read written built) (JRecordFact (checkpointFact intent now) snapshot) (Ok tt) =
  mkView true true start [] stored read written built.
Proof. cbn [observe is_ok checkpointFact fa_IntentID]. by rewrite filter_cons_False by (intros E; by apply E). Qed.

Lemma under_open {A} `{Codec A} start intent stored read written built transition (request : A) :
  describes session intent transition request -> under session (mkView true true start [intent] stored read written built) transition request.
Proof. intros Hd. split; [done|]. exists intent. split; [by apply list_elem_of_singleton|done]. Qed.

Lemma checkpoint_attempt_session snapshot intent generation state sequence a :
  checkpoint_attempt snapshot intent generation state sequence = Some a -> ir_SessionID intent = js_SessionID snapshot.
Proof.
  unfold checkpoint_attempt. destruct (checkpointLogicalAttemptID snapshot); [|done]. destruct (cp_Generation _); [|done].
  destruct (_ || _) eqn:E; [done|]. intros _. by bool_norm.
Qed.

Lemma checkpoint_attempt_generation snapshot intent generation state sequence attemptID ref :
  checkpoint_attempt snapshot intent generation state sequence = Some (attemptID, ref) -> cp_Generation (js_Checkpoint snapshot) = Some ref.
Proof.
  unfold checkpoint_attempt. destruct (checkpointLogicalAttemptID snapshot); [|done]. destruct (cp_Generation _) as [g|]; [|done].
  destruct (_ || _); [done|]. by intros [= _ ->].
Qed.

Lemma completed_attempt_session snapshot intent sequence a :
  completed_attempt snapshot intent sequence = Some a -> ir_SessionID intent = js_SessionID snapshot.
Proof.
  unfold completed_attempt. destruct (checkpointLogicalAttemptID snapshot); [|done].
  destruct (_ || _) eqn:E; [done|]. intros _. by bool_norm.
Qed.

(** Recording the pointer's intent and moving it, once a generation is stored. *)
Lemma announce_wp s stored read built snapshot (result : CheckpointResult Receipt) next attemptID sequence cutRoot haulPath now :
  based s snapshot -> follows session s next -> (exists m, m ∈ stored /\ announces m next) -> ct_Published result = false ->
  let intent := checkpointAttemptIntent session attemptID "PointerCommitted" sequence now next in
  wp (mkView true true (Some s) [] stored read None built)
    (need! _ := event (JRecordIntent intent) for result in
     commitPointerAndRefresh snapshot result next intent cutRoot haulPath now None) settled.
Proof.
  intros Hb Hf Hm Hr intent. apply wp_need_for; [by repeat split| |intros err; by apply settled_error].
  intros []. cbn [observe is_ok app]. apply commit_wp; try done. by apply attempt_describes.
Qed.

Lemma resumePendingUpload_wp snapshot intent generation now :
  js_SessionID snapshot = session -> ir_Transition intent = "GenerationUploaded" ->
  wp (mkView true true (Some snapshot) [intent] [] [] None None) (resumePendingUpload snapshot intent generation now) settled.
Proof.
  intros Hs Ht. unfold resumePendingUpload.
  destruct (checkpoint_attempt _ _ _ _ _) as [[attemptID ref]|] eqn:Ea; [|by apply settled_error].
  pose proof (checkpoint_attempt_session _ _ _ _ _ _ Ea) as Hi. rewrite Hs in Hi.
  destruct (Unmarshal (ir_Input intent)) as [request|] eqn:Eu; [|by apply settled_error].
  destruct (_ || (uq_Size request <? 0)) eqn:Ed; [by apply settled_error|].
  destruct (GenerationMetadataKey _ _ _) as [key|e]; [|by apply settled_error].
  set (metadata := mkGenerationMetadata _ _ _ _ _ _ _ _ _ _ _ _). set (result := attempt_result _ _).
  apply wp_event; [done|]. intros source. cbn [observe].
  apply wp_need_for; [|intros record; cbn [observe is_ok]|intros err; by apply settled_error].
  { exists request. split; [apply under_open; split; [done|]; split; [done|]; by right|]. right. exists snapshot. split; [done|].
    pose proof (checkpoint_attempt_generation _ _ _ _ _ _ _ Ea). bool_norm. destruct request. cbn in *. subst. by repeat split. }
  apply wp_need_for; [by apply fact_allowed| |intros err; by apply settled_error].
  intros []. rewrite fact_closes. cbn [js_SessionID set_js_Checkpoint]. rewrite Hs. apply announce_wp; [by apply based_checkpoint, based_refl|by repeat split| |done].
  exists metadata. split; [by apply list_elem_of_singleton|]. by repeat split.
Qed.

Lemma resumePendingPointer_wp snapshot intent generation now :
  js_SessionID snapshot = session -> ir_Transition intent = "PointerCommitted" ->
  wp (mkView true true (Some snapshot) [intent] [] [] None None) (resumePendingPointer snapshot intent generation now) settled.
Proof.
  intros Hs Ht. unfold resumePendingPointer.
  destruct (checkpoint_attempt _ _ _ _ _) as [[attemptID ref]|] eqn:Ea; [|by apply settled_error].
  pose proof (checkpoint_attempt_session _ _ _ _ _ _ Ea) as Hi. rewrite Hs in Hi.
  destruct (Unmarshal (ir_Input intent)) as [next|] eqn:Eu; [|by apply settled_error].
  destruct (_ || negb (sameGeneration _ _)) eqn:Ed; [by apply settled_error|].
  apply wp_need_for; [done| |intros err; by apply settled_error]. intros [metadata meta]. cbn [observe].
  destruct (bool_decide (next = pointer_of metadata)) eqn:En; [|by apply settled_error]. cbn [negb]. apply bool_decide_eq_true in En.
  apply wp_event; [done|]. intros current.
  assert (exists read, observe (Receipt := Receipt) (mkView true true (Some snapshot) [intent] [metadata] [] None None)
    (PointersRead (js_Capsule snapshot) (js_Lineage snapshot)) current = mkView true true (Some snapshot) [intent] [metadata] read None None /\
    forall r, current = Ok r -> r ∈ read) as (read & -> & Hread).
  { destruct current as [r|e]; eexists; (split; [done|]); [|done]. intros ? [= <-]. apply list_elem_of_here. }
  apply commit_wp; [by apply based_refl| | | |done|].
  - split; [done|]. split; [done|]. by right.
  - unfold sameGeneration in Ed. bool_norm. by repeat split; [|..|congruence].
  - exists metadata. split; [apply list_elem_of_here|]. rewrite En. by repeat split.
  - intros r. destruct current as [r1|e]; [|discriminate]. intros Hr. destruct (bool_decide (pr_Pointer r1 = next)) eqn:Ec; [injection Hr as <-; split; [by apply Hread|by apply bool_decide_eq_true in Ec]|discriminate Hr].
Qed.

Lemma pending_refresh_spec sessionID generation pending : forall found r,
  pending_refresh sessionID generation pending found = Ok r ->
  forall i q, r = Some (i, q) -> found = Some (i, q) \/
    (i ∈ pending /\ ir_Transition i = "ServingContentRefreshed" /\ Unmarshal (ir_Input i) = Some q).
Proof.
  induction pending as [|intent pending IH]; intros found r H i q Hr; cbn [pending_refresh] in H; [left; congruence|].
  assert (forall found', pending_refresh sessionID generation pending found' = Ok r ->
    found' = Some (i, q) \/ (i ∈ intent :: pending /\ ir_Transition i = "ServingContentRefreshed" /\ Unmarshal (ir_Input i) = Some q)) as Hrec.
  { intros found' Hf. destruct (IH _ _ Hf i q Hr) as [?|(? & ?)]; [by left|]. right. split; [by apply list_elem_of_further|done]. }
  destruct (str_eqb _ _) eqn:Et.
  - apply str_eqb_eq in Et. destruct (Unmarshal (ir_Input intent)) as [request|] eqn:Eu; [|by destruct found as [[? ?]|]].
    assert (forall (Hf : pending_refresh sessionID generation pending (Some (intent, request)) = Ok r),
      found = Some (i, q) \/ (i ∈ intent :: pending /\ ir_Transition i = "ServingContentRefreshed" /\ Unmarshal (ir_Input i) = Some q)) as Hnew.
    { intros Hf. destruct (Hrec _ Hf) as [[= <- <-]|?]; [|by right]. right. split; [apply list_elem_of_here|done]. }
    destruct found as [[earlier qe]|]; [|by apply Hnew]. destruct (str_eqb (ir_ID earlier) ""); [by apply Hnew|done].
  - destruct (_ || _) in H; [done|]. by apply Hrec.
Qed.

Lemma resumeServingRefresh_wp snapshot pending now :
  js_SessionID snapshot = session ->
  wp (mkView true true (Some snapshot) pending [] [] None None) (resumeServingRefresh snapshot pending now) settled.
Proof.
  intros Hs. unfold resumeServingRefresh.
  destruct (cp_Generation (js_Checkpoint snapshot)) as [ref|]; [|by apply settled_error].
  destruct (js_CurrentPointer snapshot) as [pointer|] eqn:Ep; [|by apply settled_error].
  destruct (_ || str_eqb (js_ExpectedPointerRevision snapshot) "") eqn:Ec; [by apply settled_error|].
  set (result := mkCheckpointResult _ _ _ _ _ _ _).
  assert (forall open, published_by (mkView true true (Some snapshot) open [] [] None None) (ct_Pointer result)) as Hp.
  { intros open. right. right. exists snapshot. bool_norm. by repeat split. }
  destruct (pending_refresh _ _ _ _) as [[[intent request]|]|e] eqn:Er; [|by apply settled_error|by apply settled_error].
  destruct (pending_refresh_spec _ _ _ _ _ Er intent request eq_refl) as [|(Hin & Ht & Hu)]; [done|].
  destruct (str_eqb (ir_ID intent) "" || _ || _ || _ || _ || _) eqn:Ed; [by apply settled_error|].
  assert (ir_SessionID intent = session) as Hi by (bool_norm; congruence).
  apply wp_event.
  { split; [done|]. exists intent. split; [done|]. split; [done|]. split; [done|]. by right. }
  intros [[]|e]; [|stands]. cbn [observe].
  apply wp_event; [by split|]. intros [[refreshed remaining]|e]; [|stands]. cbn [observe default].
  destruct remaining as [|only [|? ?]]; [stands| |stands].
  destruct (str_eqb (ir_ID only) (ir_ID intent)) eqn:Eo; [|stands]. cbn [negb]. apply str_eqb_eq in Eo.
  apply wp_event.
  { split; [done|]. split; [done|]. exists only. split; [by apply list_elem_of_singleton|done]. }
  intros [[]|e]; stands.
Qed.

(** ** Sealing and building *)

(** The one intent that is open when the registry is about to be sealed, or among others
    when a seal is resumed. *)
Definition prepared_ok (s : JournalSnapshot) (v : view) (r : result preparedRegistrySeal) : Prop :=
  v_written v = None /\
  forall prepared, r = Ok prepared ->
    exists open, v = mkView true true (Some s) open [] [] None None /\ based s (ps_snapshot prepared) /\
      ps_intent prepared ∈ open /\ describes session (ps_intent prepared) "RegistrySnapshotSealed" (ps_request prepared).

Lemma prepared_error s v e : v_written v = None -> prepared_ok s v (Err e).
Proof. intros H. by split. Qed.

Lemma capture_images_wp s snapshot runtime attemptID root intent request generation now :
  based s snapshot -> describes session intent "WorkspaceImagesInventoried" request ->
  wp (mkView true true (Some s) [intent] [] [] None None)
    (capture_images snapshot runtime attemptID root intent request generation now) (prepared_ok s).
Proof.
  intros Hb Hd. unfold capture_images.
  apply wp_need; [by apply under_open| |intros; by apply prepared_error]. intros inventory. cbn [observe].
  apply wp_need; [apply fact_allowed; apply Hd| |intros; by apply prepared_error]. intros []. rewrite fact_closes.
  apply wp_need; [done| |intros; by apply prepared_error]. intros []. cbn [observe].
  set (seal := seal_request _ _ _ _). set (sealIntent := checkpointAttemptIntent _ _ _ _ _ seal).
  assert (ir_SessionID sealIntent = session) as Hi by apply Hb.
  apply wp_need; [by repeat split| |intros; by apply prepared_error]. intros []. cbn [observe is_ok app].
  split; [done|]. intros ? [= <-]. exists [sealIntent]. split; [done|]. split; [by apply based_images|].
  split; [by apply list_elem_of_singleton|]. apply attempt_describes. apply Hb.
Qed.

Lemma resumePendingImageCapture_wp s snapshot intent generation now :
  based s snapshot -> ir_Transition intent = "WorkspaceImagesInventoried" ->
  wp (mkView true true (Some s) [intent] [] [] None None) (resumePendingImageCapture snapshot intent generation now) (prepared_ok s).
Proof.
  intros Hb Ht. unfold resumePendingImageCapture.
  destruct (completed_attempt _ _ _) as [[attemptID root]|] eqn:Ea; [|by apply prepared_error].
  pose proof (completed_attempt_session _ _ _ _ Ea) as Hi. rewrite (b_session _ _ Hb) in Hi.
  destruct (checkpointRegistryRuntime snapshot) as [runtime|e]; [|by apply prepared_error].
  destruct (Unmarshal (ir_Input intent)) as [request|] eqn:Eu; [|by apply prepared_error].
  destruct (bool_decide _); [|by apply prepared_error]. cbn [negb]. apply capture_images_wp; [done|].
  split; [done|]. split; [done|]. by right.
Qed.

Lemma seal_index_spec pending : forall index found r,
  seal_index pending index found = Ok (Some r) ->
  found = Some r \/ exists i, pending !! (r - index)%nat = Some i /\ (index <= r)%nat /\ ir_Transition i = "RegistrySnapshotSealed".
Proof.
  induction pending as [|i pending IH]; intros index found r H; cbn [seal_index] in H; [left; congruence|].
  destruct (str_eqb (ir_Transition i) _) eqn:Et.
  - destruct found; [done|]. right. apply IH in H as [[= <-]|(i' & Hi & Hk & Ht)].
    + exists i. rewrite Nat.sub_diag. split; [done|]. split; [lia|]. by apply str_eqb_eq in Et.
    + exists i'. replace (r - index)%nat with (S (r - S index))%nat by lia. split; [done|]. split; [lia|done].
  - apply IH in H as [?|(i' & Hi & Hk & Ht)]; [by left|]. right. exists i'.
    replace (r - index)%nat with (S (r - S index))%nat by lia. split; [done|]. split; [lia|done].
Qed.

Lemma pending_seal_ok s snapshot pending runtime generation :
  based s snapshot -> prepared_ok s (mkView true true (Some s) pending [] [] None None) (pending_seal snapshot pending runtime generation).
Proof.
  intros Hb. split; [done|]. intros prepared H. exists pending. split; [done|]. unfold pending_seal in H.
  destruct (seal_index pending 0 None) as [[index|]|e] eqn:Ei; cbn [result_bind] in H; [|done|done].
  destruct (3 <? _) in H; [done|]. destruct (pending !! index) as [intent|] eqn:Ep; [|done].
  destruct (completed_attempt snapshot intent "-3") as [[attemptID root]|] eqn:Ea; [|done].
  destruct (Unmarshal (ir_Input intent)) as [request|] eqn:Eu; [|done]. destruct (bool_decide _) in H; [|done].
  destruct (seal_children _ _ _ _ _ _) as [restart|e]; cbn [result_bind] in H; [|done]. destruct (negb _) in H; [|done].
  injection H as <-. cbn [ps_snapshot ps_intent ps_request]. split; [done|]. split; [by apply list_elem_of_lookup_2 in Ep|].
  apply seal_index_spec in Ei as [|(i & Hi & _ & Ht)]; [done|]. rewrite Nat.sub_0_r, Ep in Hi. injection Hi as <-.
  split; [done|]. split; [|by right]. rewrite (completed_attempt_session _ _ _ _ Ea). apply Hb.
Qed.

Lemma start_attempt_wp s snapshot runtime lease generation now :
  based s snapshot ->
  wp (mkView true true (Some s) [] [] [] None None) (start_attempt snapshot runtime lease generation now) (prepared_ok s).
Proof.
  intros Hb. unfold start_attempt. destruct (_ =? _); [by apply prepared_error|].
  set (attemptID := attempt_id _ _). set (request := mirror_request _ _). set (intent := checkpointAttemptIntent _ _ "WorkspaceMirrored" _ _ _).
  pose proof (b_session _ _ Hb) as Hs.
  apply wp_need; [done| |intros; by apply prepared_error]. intros []. cbn [observe].
  apply wp_need; [by repeat split| |intros; by apply prepared_error]. intros []. cbn [observe is_ok app].
  apply wp_event; [by apply under_open, attempt_describes|]. intros [mirrored|r e|e]; cbn [observe]; [| |by apply prepared_error].
  - destruct (str_eqb _ _); [by apply prepared_error|]. destruct (bad_mirror _ _ _); [by apply prepared_error|].
    apply wp_need; [done| |intros; by apply prepared_error]. intros []. cbn [observe is_ok].
    apply wp_need; [by apply fact_allowed| |intros; by apply prepared_error]. intros []. rewrite fact_closes.
    apply wp_need; [done| |intros; by apply prepared_error]. intros []. cbn [observe].
    apply wp_need; [by repeat split| |intros; by apply prepared_error]. intros []. cbn [observe is_ok app].
    apply capture_images_wp; [by apply based_mirror|by apply attempt_describes].
  - destruct (negb _); [by apply prepared_error|].
    apply wp_event; [by apply fact_allowed|]. intros [[]|e']; by apply prepared_error.
Qed.

Lemma prepareRegistrySeal_wp s snapshot pending lease generation now :
  based s snapshot ->
  wp (mkView true true (Some s) pending [] [] None None) (prepareRegistrySeal snapshot pending lease generation now) (prepared_ok s).
Proof.
  intros Hb. unfold prepareRegistrySeal. destruct (checkpointRegistryRuntime snapshot) as [runtime|e]; [|by apply prepared_error].
  destruct pending as [|i pending]; [by apply start_attempt_wp|]. by apply (pending_seal_ok s snapshot (i :: pending)).
Qed.

(** After the seal one intent is open: to build. *)
Definition sealed_ok (s : JournalSnapshot) (root : string) (generation : Z) (v : view)
    (r : result (JournalSnapshot * ImageInventory * string * IntentRecord)) : Prop :=
  v_written v = None /\
  forall snapshot inventory cutRoot intent, r = Ok (snapshot, inventory, cutRoot, intent) ->
    v = mkView true true (Some s) [intent] [] [] None None /\ based s snapshot /\
    describes session intent "RootSnapshotStable" (mkRootRequest root generation).

Lemma sealed_error s root generation v e : v_written v = None -> sealed_ok s root generation v (Err e).
Proof. intros H. by split. Qed.

Lemma seal_registry_wp s open prepared generation now :
  based s (ps_snapshot prepared) -> ps_intent prepared ∈ open ->
  describes session (ps_intent prepared) "RegistrySnapshotSealed" (ps_request prepared) ->
  wp (mkView true true (Some s) open [] [] None None) (seal_registry prepared session generation now)
    (sealed_ok s (ps_root prepared) generation).
Proof.
  intros Hb Hin Hd. unfold seal_registry.
  apply wp_need; [split; [done|]; by exists (ps_intent prepared)| |intros; by apply sealed_error]. intros sealed. cbn [observe].
  destruct (negb _); [by apply sealed_error|].
  apply wp_need; [done| |intros; by apply sealed_error]. intros [current remaining]. cbn [observe default].
  destruct remaining as [|only [|? ?]]; [by apply sealed_error| |by apply sealed_error].
  destruct (_ || _) eqn:Eo; [by apply sealed_error|]. assert (ir_ID only = ir_ID (ps_intent prepared)) as Hid by by bool_norm.
  destruct (bool_decide _) eqn:En; [|by apply sealed_error]. cbn [negb]. apply bool_decide_eq_true in En.
  pose proof (based_normalized _ _ _ En Hb) as Hc.
  destruct (InventoryFromCatalog _ _ _) as [inventory|e]; [|by apply sealed_error].
  apply wp_need; [| |intros; by apply sealed_error].
  { split; [done|]. split; [apply Hd|]. exists only. split; [by apply list_elem_of_singleton|done]. }
  intros []. cbn [observe is_ok checkpointFact fa_IntentID]. rewrite filter_cons_False by (intros E; by apply E). cbn [filter].
  apply wp_need; [done| |intros; by apply sealed_error]. intros []. cbn [observe].
  apply wp_need; [by repeat split| |intros; by apply sealed_error]. intros []. cbn [observe is_ok app].
  split; [done|]. intros ? ? ? ? [= <- <- <- <-]. split; [done|]. split; [by apply based_cut, based_images|]. by apply attempt_describes.
Qed.

Lemma build_and_commit_wp s snapshot inventory cutRoot root attemptID intent generation now :
  based s snapshot -> describes session intent "RootSnapshotStable" (mkRootRequest root generation) ->
  wp (mkView true true (Some s) [intent] [] [] None None)
    (build_and_commit snapshot inventory cutRoot root attemptID session intent (js_CurrentBase s) generation now) settled.
Proof.
  intros Hb Hd. unfold build_and_commit.
  apply wp_need_for; [split; [by apply under_open|]; exists s; split; [done|]; by repeat split; apply Hb| |intros; by apply settled_error].
  intros built. cbn [observe].
  apply wp_need_for; [apply fact_allowed; apply Hd| |intros; by apply settled_error]. intros []. rewrite fact_closes.
  apply wp_need_for; [done| |intros; by apply settled_error]. intros []. cbn [observe].
  apply wp_need_for; [by repeat split| |intros; by apply settled_error]. intros []. cbn [observe is_ok app].
  apply wp_event; [done|]. intros source. cbn [observe].
  apply wp_need_for; [|intros record; cbn [observe is_ok]|intros; by apply settled_error].
  { eexists. split; [by apply under_open, attempt_describes|]. left. by exists built. }
  apply wp_need_for; [by apply fact_allowed| |intros; by apply settled_error]. intros []. rewrite fact_closes.
  apply wp_need_for; [done| |intros; by apply settled_error]. intros []. cbn [observe].
  apply announce_wp; [by apply based_checkpoint, based_checkpoint| | |done].
  - split; [done|]. split; [apply Hb|]. split; [apply Hb|]. by split.
  - exists (bu_Metadata built). split; [apply list_elem_of_here|]. by repeat split.
Qed.

Lemma publish_generation_wp s snapshot pending lease generation now :
  based s snapshot ->
  wp (mkView true true (Some s) pending [] [] None None)
    (publish_generation snapshot pending lease session (js_CurrentBase s) generation now) settled.
Proof.
  intros Hb. unfold publish_generation. apply (based_images _ _ (ExcludeInternalArtifacts (js_Images snapshot))) in Hb.
  set (snapshot' := set_js_Images _ _) in *.
  assert (forall prepare, wp (mkView true true (Some s) pending [] [] None None) prepare (prepared_ok s) ->
    wp (mkView true true (Some s) pending [] [] None None)
      (need! prepared := prepare for zero_result in
       need! (snapshot, inventory, cutRoot, buildIntent) := seal_registry prepared session generation now for zero_result in
       build_and_commit snapshot inventory cutRoot (ps_root prepared) (ps_attemptID prepared) session buildIntent
         (js_CurrentBase s) generation now) settled) as Hsealing.
  { intros prepare Hp. apply wp_bind. eapply wp_conseq; [exact Hp|]. intros v [prepared|e] [Hw Hok]; [|by apply settled_error].
    destruct (Hok prepared eq_refl) as (open & -> & Hb' & Hin & Hd). apply wp_bind.
    eapply wp_conseq; [by apply seal_registry_wp|]. intros v [[[[sn inventory] cutRoot] intent]|e] [Hw' Hok']; [|by apply settled_error].
    destruct (Hok' _ _ _ _ eq_refl) as (-> & Hb2 & Hd2). by apply build_and_commit_wp. }
  destruct pending as [|intent [|i2 pending]]; [apply Hsealing; by apply prepareRegistrySeal_wp| |apply Hsealing; by apply prepareRegistrySeal_wp].
  destruct (str_eqb (ir_Transition intent) "RootSnapshotStable") eqn:E1; [|destruct (str_eqb (ir_Transition intent) "WorkspaceImagesInventoried") eqn:E2; apply (Hsealing _)].
  - destruct (preparePendingRootSnapshot snapshot' intent generation) as [[[attemptID root] buildIntent]|e] eqn:Ep; [|by apply settled_error].
    unfold preparePendingRootSnapshot in Ep. destruct (completed_attempt _ _ _) as [[a r]|] eqn:Ea; [|done].
    destruct (Unmarshal (ir_Input intent)) as [request|] eqn:Eu; [|done]. destruct (_ || _) eqn:Ed in Ep; [done|].
    destruct (negb _) in Ep; [done|]. injection Ep as <- <- <-. apply build_and_commit_wp; [done|].
    split; [by apply str_eqb_eq in E1|]. split; [rewrite (completed_attempt_session _ _ _ _ Ea); apply Hb|]. right.
    rewrite Eu. f_equal. destruct request. cbn in *. bool_norm. by subst.
  - by apply resumePendingImageCapture_wp; [|apply str_eqb_eq].
  - by apply prepareRegistrySeal_wp.
Qed.

Lemma publish_local_wp p snapshot pending lease generation now :
  js_SessionID snapshot = session ->
  wp (mkView true true (Some snapshot) pending [] [] None None)
    (publish_local p session snapshot pending lease generation now) settled.
Proof.
  intros Hs. unfold publish_local. destruct (_ || _); [by apply settled_error|].
  destruct (hasPendingTransition _ _); [by apply resumeServingRefresh_wp|]. pose proof (based_refl _ Hs) as Hb.
  destruct pending as [|intent [|i2 pending]]; [by apply publish_generation_wp| |by apply publish_generation_wp].
  destruct (str_eqb (ir_Transition intent) "GenerationUploaded") eqn:E1; [by apply resumePendingUpload_wp; [|apply str_eqb_eq]|].
  destruct (str_eqb (ir_Transition intent) "PointerCommitted") eqn:E2; [by apply resumePendingPointer_wp; [|apply str_eqb_eq]|].
  by apply publish_generation_wp.
Qed.

Lemma revalidateRemotePointer_wp p snapshot v :
  wp v (revalidateRemotePointer p snapshot) (fun v' _ => guarded v -> guarded v' /\ v_written v' = v_written v).
Proof.
  unfold revalidateRemotePointer. destruct (negb _); [done|]. split; [done|]. intros live _.
  assert (guarded v -> guarded (observe (Receipt := Receipt) v (PointersRead (js_Capsule snapshot) (js_Lineage snapshot)) live) /\
    v_written (observe (Receipt := Receipt) v (PointersRead (js_Capsule snapshot) (js_Lineage snapshot)) live) = v_written v) as H.
  { destruct v, live; done. }
  cbn [event act_bind]. destruct (js_CurrentPointer snapshot); destruct live; try exact H; repeat (destruct (_ || _); try exact H).
Qed.

Lemma publish_session_wp p operation snapshot pending lease generation now :
  js_SessionID snapshot = session ->
  wp (mkView true true (Some snapshot) pending [] [] None None)
    (publish_session p operation session snapshot pending lease generation now) settled.
Proof.
  intros Hs. unfold publish_session. destruct (rr_RemoteDataPlane _) as [plane|]; [|by apply publish_local_wp].
  destruct (str_eqb _ _); [|by apply publish_local_wp]. destruct (negb _); [by apply settled_error|].
  apply wp_bind. eapply wp_conseq; [apply revalidateRemotePointer_wp|]. cbv beta. intros v r Hv.
  destruct Hv as [Hg Hw]; [done|]. cbn [v_written] in Hw. destruct r as [[]|e]; [|by apply settled_error].
  destruct (_ && _); [by apply settled_error|]. apply wp_event; [done|]. intros [receipt err].
  split; cbn [fst snd ct_Published ct_Remote]; [done|]. intros _. split; [by destruct v|done].
Qed.

Lemma Publish_wp p operation :
  wp init (Publish p operation session) settled.
Proof.
  unfold Publish. destruct (negb _); [by apply settled_error|]. destruct (_ || _) eqn:Eo; [by apply settled_error|].
  apply wp_need_for; [done| |intros; by apply settled_error]. intros []. cbn [init observe is_ok].
  apply wp_load; [done| |intros; by apply settled_error]. intros snapshot pending Hs. cbn [observe default].
  destruct (lr_Lease (js_Lease snapshot)) as [lease|]; [|by apply settled_error].
  destruct (negb (str_eqb (js_Mode snapshot) "readWrite") || _); [by apply settled_error|]. destruct (validateCheckpointSnapshot snapshot lease) as [[]|e]; [|by apply settled_error].
  destruct (bool_decide _); [by apply settled_error|]. apply wp_event; [done|]. intros now. cbn [observe].
  apply wp_need_for; [done| |intros; by apply settled_error]. intros []. cbn [observe is_ok]. by apply publish_session_wp.
Qed.
End publication.

(** C3: a publication writes ahead.  Whatever the parts it calls answer and wherever it is
    stopped, Publish touches the outside only under an intent that is open in the journal
    and describes the very request: mirroring, capturing, sealing, building, uploading,
    moving the pointer, refreshing.  One intent is recorded only when none is open, a fact
    only for an open one; all of it after the operation lock and the lease were found to
    hold.  The pointer is moved at most once, from the pointer and revision the session was
    loaded with, to one that follows its base and names a generation found stored. *)
Theorem Publish_writes_ahead {Receipt S : Type} (h : forall X, ckE Receipt X -> S -> X * S) p operation session n s :
  (forall X (e : ckE Receipt X) s x s', h X e s = (x, s') -> possible e x) ->
  accepts session init (play h n (Publish p operation session) s).1.
Proof. intros Hh. apply (wp_play _ _ _ h _ (settled session) Hh n init s). apply Publish_wp. Qed.

(** C15: the answer of a publication is honest.  Whatever the parts answer: when Publish
    reports a publication, the pointer it reports is the one it wrote, one it read that is
    in every field the pointer it was to write (it follows the session's base and names a
    generation this run found stored), or the one the session had already published; when it
    reports none, it wrote no pointer, and it says nothing of success unless a remote
    preparation was all there was to do. *)
Theorem Publish_answer_honest {Receipt S : Type} (h : forall X, ckE Receipt X -> S -> X * S) p operation session n s a :
  (forall X (e : ckE Receipt X) s x s', h X e s = (x, s') -> possible e x) ->
  (play h n (Publish p operation session) s).2 = Some a ->
  settled session (learnt init (play h n (Publish p operation session) s).1) a.
Proof. intros Hh Ha. by apply (wp_play _ _ _ h _ (settled session) Hh n init s (Publish_wp session p operation)). Qed.

(** * On a store

    The store's part of a run: the repositories' events are runs of their programs on a
    store that keeps its contract, with other clients in between.  What each event changed is
    logged with what the run knew when the event began and the states of the store before
    and after it. *)
Section on_store.
  Context {Receipt : Type} (session : string).

Inductive lives : view -> world -> list (happened (ckE Receipt)) -> world -> list (view * world * world * list commit) -> Prop :=
| lives_nil v w : lives v w [] w []
| lives_store v w X (e : ckE Receipt X) q x w1 cs tr w' log :
    store_calls e = Some q -> exec q w x w1 cs -> lives (observe v e x) w1 tr w' log ->
    lives v w (Event e x :: tr) w' ((v, w, w1, cs) :: log)
| lives_other v w X (e : ckE Receipt X) x tr w' log :
    store_calls e = None -> lives (observe v e x) w tr w' log -> lives v w (Event e x :: tr) w' log.

(** The archive of a generation is in the store with its digest and size; or the sidecar
    that a publication writes after it is. *)
Definition archived (w : world) (m : GenerationMetadata) : Prop :=
  exists rev, immutable_at w (gm_ObjectKey m) rev (gr_ArchiveSHA256 (gm_Generation m)) (gm_Size m).
Definition sidecar_stored (w : world) (m : GenerationMetadata) : Prop :=
  exists key rev body, GenerationMetadataKey (gm_Capsule m) (gm_Lineage m) (gm_Generation m) = Ok key /\
    hist w !! rev = Some (key, body) /\ Unmarshal body = Some m.

Definition stored_ok (v : view) (w : world) : Prop := forall m, m ∈ v_stored v -> archived w m \/ sidecar_stored w m.

(** The generation is to be uploaded by this run under an open intent, and has the keys of
    its capsule, lineage and reference. *)
Definition intended (v : view) (m : GenerationMetadata) : Prop :=
  (exists u : UploadRequest, under session v "GenerationUploaded" u /\ intends session v u m) /\
  GenerationObjectKey (gm_Capsule m) (gm_Lineage m) (gm_Generation m) = Ok (gm_ObjectKey m) /\
  GenerationMetadataKey (gm_Capsule m) (gm_Lineage m) (gm_Generation m) = Ok (gm_MetadataKey m).

(** The pointer is moved from the one the session was loaded with. *)
Definition moves (s : JournalSnapshot) (next : LatestPointer) (c : commit) : Prop :=
  match js_CurrentPointer s with
  | None => creates next c
  | Some p => let expected := mkPointerRecord p (js_ExpectedPointerRevision s) in replaces expected next c /\ advances expected next
  end.

(** What one event may change in the store, from [w] to [w1]: nothing; the intended
    generation's archive and then its sidecar, each where nothing was; or the pointer. *)
Definition lawful (v : view) (w w1 : world) (cs : list commit) : Prop :=
  cs = [] \/
  (exists m, intended v m /\ published_generation m w1 cs) \/
  exists c s next m, cs = [c] /\ v_start v = Some s /\ v_written v = None /\ follows session s next /\ moves s next c /\
    announces m next /\ (archived w m \/ sidecar_stored w m).

Lemma stored_ok_mono v w w' : hist w ⊆ hist w' -> stored_ok v w -> stored_ok v w'.
Proof.
  intros Hh H m Hm. destruct (H m Hm) as [[rev Ha]|(key & rev & body & Hk & Hb & Hu)].
  - left. exists rev. by eapply immutable_at_mono.
  - right. exists key, rev, body. split; [done|]. split; [by eapply lookup_weaken|done].
Qed.

Lemma RevalidateLease_reads token now w r w' cs : exec (RevalidateLease token now) w r w' cs -> wf w -> cs = [].
Proof.
  intros Hex Hw. unfold RevalidateLease in Hex. destruct (_ || _); [by destruct Hex as (_ & _ & ->)|].
  exec_sub Hex as x w1 cs1 cs2 Hsub. apply ReadLease_spec in Hsub as (-> & _ & _); [|done].
  destruct x as [t|e].
  - destruct (_ || _) in Hex; by destruct Hex as (_ & _ & ->).
  - destruct (errors_Is _ _) in Hex; by destruct Hex as (_ & _ & ->).
Qed.

Lemma ReadMetadata_sidecar capsule lineage generation w r w' cs :
  exec (ReadMetadata capsule lineage generation) w r w' cs -> wf w ->
  cs = [] /\ forall m meta, r = Ok (m, meta) -> sidecar_stored w' m.
Proof.
  intros Hex Hw. unfold ReadMetadata in Hex.
  destruct (GenerationMetadataKey capsule lineage generation) as [key|e] eqn:Ek; [|destruct Hex as (-> & _ & ->); by split].
  exec_sub Hex as x w1 cs1 cs2 Hsub. apply readJSON_spec in Hsub as (-> & [Hw1 _] & Hx). cbn [app].
  destruct x as [[m meta]|e]; [|destruct Hex as (-> & _ & ->); by split].
  destruct (validateStoredGenerationMetadata m capsule lineage generation) as [[]|e] eqn:Ev; [|destruct Hex as (-> & _ & ->); by split].
  destruct Hex as (-> & -> & ->). split; [done|]. intros m' meta' [= <- <-]. destruct Hx as (o & Ho & Hr & Hu).
  destruct (Hw1 key o Ho) as [_ Hh]. exists key, (o_rev o), (o_body o). split; [|done].
  unfold validateStoredGenerationMetadata in Ev. destruct (validateGenerationMetadata m capsule lineage generation) as [[]|] eqn:Ev'; [|done].
  destruct (validMetadata_ok _ _ _ _ Ev') as (-> & -> & -> & _). done.
Qed.

(** Only a generation with the keys of its reference is stored. *)
Lemma PutAndVerify_keys m source w r w' cs :
  exec (PutAndVerify m source) w r w' cs -> cs <> [] ->
  GenerationObjectKey (gm_Capsule m) (gm_Lineage m) (gm_Generation m) = Ok (gm_ObjectKey m) /\
  GenerationMetadataKey (gm_Capsule m) (gm_Lineage m) (gm_Generation m) = Ok (gm_MetadataKey m).
Proof.
  intros Hex Hcs. unfold PutAndVerify in Hex. destruct source as [source|]; [|by destruct Hex as (_ & _ & ->)].
  destruct (validateGenerationMetadata m _ _ _) as [[]|] eqn:Ev; [|by destruct Hex as (_ & _ & ->)].
  by destruct (validMetadata_ok _ _ _ _ Ev) as (_ & _ & _ & _ & ? & ?).
Qed.

Lemma lawful_move v w w1 cs s next m :
  v_start v = Some s -> v_written v = None -> follows session s next -> announces m next -> archived w m \/ sidecar_stored w m ->
  (cs = [] \/ exists c, cs = [c] /\ moves s next c) -> lawful v w w1 cs.
Proof. intros Hs Hw Hf Ha Hm [->|(c & -> & Hc)]; [by left|]. right. right. by exists c, s, next, m. Qed.

Lemma event_lawful v w {X} (e : ckE Receipt X) q x w1 cs :
  store_calls e = Some q -> exec q w x w1 cs -> wf w -> allowed session v e -> stored_ok v w ->
  lawful v w w1 cs /\ stored_ok (observe v e x) w1.
Proof.
  intros Hq Hex Hw Ha Hs. destruct (exec_grow _ _ _ _ _ Hex Hw) as [_ Hh]. pose proof (stored_ok_mono _ _ _ Hh Hs) as Hs1.
  destruct e; cbn [store_calls] in Hq; try discriminate Hq; apply (inj Some) in Hq; subst q.
  - apply RevalidateLease_reads in Hex as ->; [|done]. split; [by left|]. by destruct v.
  - pose proof (PutAndVerify_keys _ _ _ _ _ _ Hex) as Hk. apply PutAndVerify_spec in Hex as [Hp Hr]; [|done]. split.
    + destruct (decide (cs = [])) as [|Hne]; [by left|]. right. left. exists metadata. split; [|done]. by split; [|apply Hk].
    + destruct v, x as [rec|err]; [|done]. intros m [->|Hm]%elem_of_cons; [|by apply Hs1].
      left. destruct Hr as (_ & Hr & _). by eexists.
  - apply ReadMetadata_sidecar in Hex as [-> Hr]; [|done]. split; [by left|].
    destruct v, x as [[m meta]|err]; [|done]. intros m' [->|Hm]%elem_of_cons; [|by apply Hs1]. right. by eapply Hr.
  - apply Read_spec in Hex as (-> & _ & _); [|done]. split; [by left|]. by destruct v, x.
  - apply Create_spec in Hex as [Hc _]; [|done]. split; [|by destruct v, x].
    destruct Ha as (Hu & Hwr & (m & Hm & Hn) & s & Es & Hf & He). apply (lawful_move v w w1 cs s next m); try done; [by apply Hs|].
    unfold moves. by destruct (js_CurrentPointer s).
  - apply CompareAndSwap_spec in Hex as [Hc _]; [|done]. split; [|by destruct v, x].
    destruct Ha as (Hu & Hwr & (m & Hm & Hn) & s & Es & Hf & He). apply (lawful_move v w w1 cs s next m); try done; [by apply Hs|].
    unfold moves. destruct (js_CurrentPointer s) as [pt|]; [|done]. by injection He as ->.
Qed.

Lemma lives_lawful v w tr w' log :
  lives v w tr w' log -> accepts session v tr -> wf w -> stored_ok v w -> Forall (fun '(v1, w1, w2, cs) => lawful v1 w1 w2 cs) log.
Proof.
  intros Hl. induction Hl as [|v w X e q x w1 cs tr w' log Hq Hex _ IH|v w X e x tr w' log Hq _ IH]; intros Ha Hw Hs; [done| |].
  - destruct Ha as [Ha1 Ha2]. destruct (event_lawful _ _ _ _ _ _ _ Hq Hex Hw Ha1 Hs) as [Hc Hs1].
    destruct (exec_grow _ _ _ _ _ Hex Hw) as [Hw1 _]. apply Forall_cons. split; [done|by apply IH].
  - destruct Ha as [Ha1 Ha2]. apply IH; [done|done|]. destruct v, e; try done; cbn [store_calls] in Hq; try discriminate Hq.
    + by destruct x as [[? ?]|].
    + by destruct x.
    + by destruct x.
    + by destruct x.
Qed.
End on_store.

(** C4: what a publication writes to the store is what it may write.  On every store that
    keeps its contract, with other clients in between, whatever the other parts answer and
    wherever the run is stopped: an event of the run changes nothing, or it stores one
    generation, or it moves the lineage's pointer.  The generation stored is the one built in
    this run or the one the session was left with, under an upload intent that is open in the
    journal and names it, at the keys of its capsule, lineage and reference: the archive
    with its digest and size where nothing was, and the sidecar only with the archive in the
    store.  The pointer moves, if this run has not written it yet, from the one the session was
    loaded with, or from none, to one that follows the session's base, when the archive it names, or the sidecar
    written after the archive, was in the store before. *)
Theorem Publish_store_effects {Receipt S : Type} (h : forall X, ckE Receipt X -> S -> X * S) p operation session n s w w' log :
  (forall X (e : ckE Receipt X) s x s', h X e s = (x, s') -> possible e x) -> wf w ->
  lives init w (play h n (Publish p operation session) s).1 w' log ->
  Forall (fun '(v1, w1, w2, cs) => lawful session v1 w1 w2 cs) log.
Proof.
  intros Hh Hw Hl. eapply lives_lawful; [exact Hl| |done|by intros m ?%not_elem_of_nil].
  apply (wp_play _ _ _ h _ (settled session) Hh n init s). apply Publish_wp.
Qed.
