(* ===== verification/CheckpointLive.v ===== *)
(** app.CheckpointPublisher when its parts cooperate: a publication goes through.

    The environment keeps a journal and an object store.  The journal composes and reduces
    facts as journal.Store does (Journal.v), the store is the reference store; the mirror
    finds the workspace in its staging root, and the capturer, sealer, builder and refresher
    do what they are asked. *)
From S2P Require Import Prelude Acts Sha256 GoTime Json Codec JsonLines Regexp Domain Snapshot Paths ObjectStore RefStore Documents Pointers Leases Generations Effects Journal RegistryInventory Checkpoint CheckpointSafety.

Record env := mkEnv { e_snapshot : JournalSnapshot; e_pending : list IntentRecord; e_store : ref_store }.

Section live.
  Context {Receipt : Type} (receipt : Receipt).
  Context (now : Time) (inventory : ImageInventory) (references : list RegistryReference) (built : BuildResult) (archive : bytes).

Definition on_store {A} (p : prog (result A)) (s : env) : result A * env :=
  match run p (e_store s) with
  | Some (x, st) => (x, mkEnv (e_snapshot s) (e_pending s) st)
  | None => (Err ErrNoProgress, s)
  end.

Definition record_fact (f : FactRecord) (candidate : JournalSnapshot) (s : env) : result unit * env :=
  match reduceFact (composeFactSnapshot (e_snapshot s) candidate (fa_Transition f)) f with
  | Ok reduced => (Ok tt, mkEnv reduced (filter (fun i => ir_ID i <> fa_IntentID f) (e_pending s)) (e_store s))
  | Err e => (Err e, s)
  end.

Definition handle (X : Type) (e : ckE Receipt X) (s : env) : X * env :=
  match e in ckE _ Y return Y * env with
  | LockValidate _ => (Ok tt, s)
  | JLoad id => (if str_eqb id (js_SessionID (e_snapshot s)) then Ok (e_snapshot s, e_pending s) else Err ErrNotFound, s)
  | JRecordIntent i => (Ok tt, mkEnv (e_snapshot s) (e_pending s ++ [i]) (e_store s))
  | JRecordFact f candidate => record_fact f candidate s
  | Now => (now, s)
  | LeaseRevalidate token t => on_store (RevalidateLease token t) s
  | RemotePrepare _ _ _ => ((receipt, None), s)
  | MirrorValidate _ => (Ok tt, s)
  | ReturnToStaging r => (Mirrored (mkMirrorResult MirrorLocalNoop (mq_StagingRoot r) (mq_AttemptID r) "" "" SNil), s)
  | Capture _ => (Ok inventory, s)
  | Seal r => (Ok (mkRegistrySnapshot (sq_SnapshotRoot r) references), s)
  | Build _ => (Ok built, s)
  | OpenFile _ => (restartableBytes archive, s)
  | GenerationsPutAndVerify m source => on_store (PutAndVerify m (Some source)) s
  | GenerationsReadMetadata c l g => on_store (ReadMetadata c l g) s
  | PointersRead c l => on_store (Pointers.Read c l) s
  | PointersCreate next => on_store (Pointers.Create next) s
  | PointersCompareAndSwap expected next => on_store (CompareAndSwap expected next) s
  | Refresh _ => (Ok tt, s)
  | ReportProgress _ => (Ok tt, s)
  end.

Definition eval {A} (p : act (ckE Receipt) A) (s : env) : A * env := conduct handle p s.

Lemma eval_bind {A B} (p : act (ckE Receipt) A) (k : A -> act (ckE Receipt) B) s :
  eval (act_bind p k) s = let '(a, s') := eval p s in eval (k a) s'.
Proof. apply conduct_bind. Qed.

Lemma eval_event {X B} (e : ckE Receipt X) (k : X -> act (ckE Receipt) B) s x s' :
  handle X e s = (x, s') -> eval (act_bind (event e) k) s = eval (k x) s'.
Proof. apply conduct_event. Qed.

Lemma eval_load {B} id (k : _ -> act (ckE Receipt) B) s :
  id = js_SessionID (e_snapshot s) -> eval (act_bind (event (JLoad id)) k) s = eval (k (Ok (e_snapshot s, e_pending s))) s.
Proof. intros ->. apply eval_event. cbn [handle]. by rewrite str_eqb_refl. Qed.

Lemma handle_possible X (e : ckE Receipt X) s x s' : handle X e s = (x, s') -> possible e x.
Proof.
  destruct e; try done. cbn [handle possible]. intros [= <- <-].
  destruct (str_eqb _ _) eqn:E; [|done]. by apply str_eqb_eq in E.
Qed.

(** ** The journal *)

(** The transitions whose facts keep the current lease and are not about the pointer. *)
Definition keeping (transition : string) : Prop :=
  (forall current candidate, composeFactSnapshot current candidate transition =
     set_js_Lease (js_Lease current) (set_js_ExecutionBinding (js_ExecutionBinding current) candidate)) /\
  str_eqb transition "PointerCommitted" = false.

Lemma keeping_transitions :
  keeping "WorkspaceMirrored" /\ keeping "WorkspaceImagesInventoried" /\ keeping "RootSnapshotStable" /\ keeping "GenerationUploaded".
Proof. repeat split; reflexivity. Qed.

(** The state between two steps: the journal holds the snapshot, but for the time of its
    last change, and the open intents. *)
Definition standing (t : Time) (snapshot : JournalSnapshot) (pending : list IntentRecord) (st : ref_store) : env :=
  mkEnv (set_js_UpdatedAt t snapshot) pending st.

Definition same_owner (a b : JournalSnapshot) : Prop := js_Lease a = js_Lease b /\ js_ExecutionBinding a = js_ExecutionBinding b.

Lemma record_fact_keep t snapshot candidate i st t' :
  keeping (ir_Transition i) -> same_owner candidate snapshot ->
  record_fact (checkpointFact i t') candidate (standing t snapshot [i] st) = (Ok tt, standing t' candidate [] st).
Proof.
  intros [Hk Hne] [Hl Hb]. unfold record_fact. cbn [standing e_snapshot e_pending e_store checkpointFact fa_Transition fa_IntentID].
  rewrite Hk. cbn [set_js_UpdatedAt js_Lease js_ExecutionBinding]. rewrite <-Hl, <-Hb.
  assert (set_js_Lease (js_Lease candidate) (set_js_ExecutionBinding (js_ExecutionBinding candidate) candidate) = candidate) as ->
    by by destruct candidate.
  unfold reduceFact. cbn [checkpointFact fa_Transition fa_Timestamp]. rewrite Hne.
  by rewrite filter_cons_False by (intros E'; by apply E').
Qed.

Lemma normalize_standing t snapshot : normalizeRegistrySealSnapshot (set_js_UpdatedAt t snapshot) snapshot = snapshot.
Proof. unfold normalizeRegistrySealSnapshot. cbn [set_js_UpdatedAt set_js_Services js_Images]. rewrite str_eqb_refl. by destruct snapshot. Qed.

Lemma record_fact_seal t snapshot i st t' images cut :
  ir_Transition i = "RegistrySnapshotSealed" ->
  let candidate := set_js_RegistryCutRoot cut (set_js_Images images (set_js_UpdatedAt t snapshot)) in
  record_fact (checkpointFact i t') candidate (standing t snapshot [i] st) =
  (Ok tt, standing t' (set_js_RegistryCutRoot cut (set_js_Images images snapshot)) [] st).
Proof.
  intros Ht candidate. unfold record_fact. cbn [standing e_snapshot e_pending e_store checkpointFact fa_Transition fa_IntentID].
  rewrite Ht.
  assert (composeFactSnapshot (set_js_UpdatedAt t snapshot) candidate "RegistrySnapshotSealed" = candidate) as ->.
  { change (composeFactSnapshot _ _ _) with (set_js_Services (js_Services (set_js_UpdatedAt t snapshot))
      (set_js_Lease (js_Lease (set_js_UpdatedAt t snapshot)) (set_js_ExecutionBinding (js_ExecutionBinding (set_js_UpdatedAt t snapshot)) candidate))).
    by destruct snapshot. }
  unfold reduceFact. cbn [checkpointFact fa_Transition fa_Timestamp]. rewrite Ht.
  change (str_eqb "RegistrySnapshotSealed" "PointerCommitted") with false. cbv iota.
  rewrite filter_cons_False by (intros E'; by apply E'). by destruct snapshot.
Qed.

Lemma record_fact_refresh t snapshot i st t' :
  ir_Transition i = "ServingContentRefreshed" ->
  record_fact (checkpointFact i t') (set_js_UpdatedAt t snapshot) (standing t snapshot [i] st) = (Ok tt, standing t' snapshot [] st).
Proof.
  intros Ht. unfold record_fact. cbn [standing e_snapshot e_pending e_store checkpointFact fa_Transition fa_IntentID]. rewrite Ht.
  assert (composeFactSnapshot (set_js_UpdatedAt t snapshot) (set_js_UpdatedAt t snapshot) "ServingContentRefreshed" = set_js_UpdatedAt t snapshot) as ->.
  { change (composeFactSnapshot _ _ _) with (set_js_Services (js_Services (set_js_UpdatedAt t snapshot)) (set_js_UpdatedAt t snapshot)).
    by destruct snapshot. }
  unfold reduceFact. cbn [checkpointFact fa_Transition fa_Timestamp]. rewrite Ht.
  change (str_eqb "ServingContentRefreshed" "PointerCommitted") with false. cbv iota.
  rewrite filter_cons_False by (intros E'; by apply E'). by destruct snapshot.
Qed.

(** The session once its pointer is committed. *)
Definition committed (record : PointerRecord) (snapshot : JournalSnapshot) : JournalSnapshot :=
  set_js_ExpectedPointerRevision (pr_Revision record)
    (set_js_CurrentPointer (Some (pr_Pointer record)) (set_js_CurrentBase (Some (lp_Generation (pr_Pointer record))) snapshot)).

Lemma record_fact_pointer t snapshot candidate i st t' record :
  ir_Transition i = "PointerCommitted" -> same_owner candidate snapshot ->
  completePointerCommit candidate (Some (mkPointerCommit (pr_Pointer record) (pr_Revision record))) = true ->
  record_fact (mkFactRecord (ir_ID i) (ir_SessionID i) (ir_Transition i) t' "" (Some (mkPointerCommit (pr_Pointer record) (pr_Revision record))))
    candidate (standing t snapshot [i] st) = (Ok tt, standing t' (committed record candidate) [] st).
Proof.
  intros Ht [Hl Hb] Hc. unfold record_fact. cbn [standing e_snapshot e_pending e_store fa_Transition fa_IntentID]. rewrite Ht.
  assert (composeFactSnapshot (set_js_UpdatedAt t snapshot) candidate "PointerCommitted" = candidate) as ->.
  { change (composeFactSnapshot _ _ _) with (set_js_Lease (js_Lease (set_js_UpdatedAt t snapshot))
      (set_js_ExecutionBinding (js_ExecutionBinding (set_js_UpdatedAt t snapshot)) candidate)).
    cbn [set_js_UpdatedAt js_Lease js_ExecutionBinding]. rewrite <-Hl, <-Hb. by destruct candidate. }
  unfold reduceFact. cbn [fa_Transition fa_Timestamp fa_Pointer]. change (str_eqb "PointerCommitted" "PointerCommitted") with true. cbv iota.
  rewrite Hc. rewrite filter_cons_False by (intros E'; by apply E'). done.
Qed.

(** ** The steps of a publication *)
Ltac step := erewrite eval_event; [|reflexivity]; cbv beta iota.

Lemma capture_eval t snapshot0 snapshot runtime attemptID root intent request generation at_ st :
  keeping (ir_Transition intent) -> same_owner snapshot snapshot0 ->
  let snapshot1 := set_js_Images inventory snapshot in
  let seal := seal_request snapshot1 runtime root generation in
  let sealIntent := checkpointAttemptIntent (js_SessionID snapshot1) attemptID "RegistrySnapshotSealed" 3 at_ seal in
  eval (capture_images snapshot runtime attemptID root intent request generation at_) (standing t snapshot0 [intent] st) =
  (Ok (mkpreparedRegistrySeal snapshot1 attemptID root inventory runtime seal sealIntent), standing at_ snapshot1 [sealIntent] st).
Proof.
  intros Hk Ho snapshot1 seal sealIntent. unfold capture_images, progress. step.
  erewrite eval_event; [|cbn [handle]; by apply record_fact_keep]. cbv beta iota. step. step. done.
Qed.

Lemma start_attempt_eval t snapshot0 snapshot runtime lease generation at_ st :
  let w := js_Workspace snapshot in
  let logicalAttempt := ma_LogicalAttempt (wr_Mirror w) + 1 in
  let attemptID := attempt_id (js_SessionID snapshot) logicalAttempt in
  let snapshot1 := set_js_Images inventory
    (set_mirror (mkMirrorAttemptRecord logicalAttempt attemptID MirrorCompleted (wr_StagingRoot w) "" "" SNil) snapshot) in
  let seal := seal_request snapshot1 runtime (wr_StagingRoot w) generation in
  let sealIntent := checkpointAttemptIntent (js_SessionID snapshot) attemptID "RegistrySnapshotSealed" 3 at_ seal in
  same_owner snapshot snapshot0 -> ma_LogicalAttempt (wr_Mirror w) <> 2 ^ 64 - 1 ->
  wr_LocalProvider w = true -> wr_StagingRoot w <> "" ->
  run (RevalidateLease lease at_) st = Some (Ok tt, st) ->
  eval (start_attempt snapshot runtime lease generation at_) (standing t snapshot0 [] st) =
  (Ok (mkpreparedRegistrySeal snapshot1 attemptID (wr_StagingRoot w) inventory runtime seal sealIntent), standing at_ snapshot1 [sealIntent] st).
Proof.
  intros w logicalAttempt attemptID snapshot1 seal sealIntent Ho Ha Hlp Hroot Hlease. unfold start_attempt, progress. fold w.
  rewrite (proj2 (Z.eqb_neq _ _) Ha). fold logicalAttempt attemptID. step. step. cbn [standing e_snapshot e_pending e_store app]. step.
  cbn [mr_Root mirror_request mq_StagingRoot mq_AttemptID]. fold w. rewrite (proj2 (str_eqb_neq _ _) Hroot).
  assert (bad_mirror snapshot (mirror_request snapshot attemptID) (mkMirrorResult MirrorLocalNoop (wr_StagingRoot w) attemptID "" "" SNil) = false) as ->.
  { unfold bad_mirror. fold w. rewrite Hlp. cbn [mr_Mode mr_Root mr_AttemptID mirror_request mq_AttemptID]. by rewrite !str_eqb_refl. }
  erewrite eval_event with (x := Ok tt); [|cbn [handle]; unfold on_store; cbn [e_store e_snapshot e_pending]; by rewrite Hlease]. cbv beta iota.
  erewrite eval_event; [|cbn [handle]; apply (record_fact_keep t snapshot0); [apply keeping_transitions|destruct Ho; by split]]. cbv beta iota.
  step. step. cbn [standing e_snapshot e_pending e_store app].
  set (mirrored := set_mirror _ snapshot).
  etrans; [apply (capture_eval at_ mirrored mirrored runtime attemptID (wr_StagingRoot w)); [apply keeping_transitions|by split]|reflexivity].
Qed.

Lemma seal_eval t prepared sessionID generation at_ inv st :
  let snapshot := ps_snapshot prepared in
  let images := ExcludeInternalArtifacts inv in
  let cut := sq_SnapshotRoot (ps_request prepared) in
  let snapshot' := set_js_RegistryCutRoot cut (set_js_Images images (set_js_UpdatedAt t snapshot)) in
  let buildIntent := checkpointAttemptIntent sessionID (ps_attemptID prepared) "RootSnapshotStable" 4 at_ (mkRootRequest (ps_root prepared) generation) in
  ir_Transition (ps_intent prepared) = "RegistrySnapshotSealed" -> sessionID = js_SessionID snapshot ->
  InventoryFromCatalog (cg_authority (ps_runtime prepared)) references at_ = Ok inv ->
  eval (seal_registry prepared sessionID generation at_) (standing t snapshot [ps_intent prepared] st) =
  (Ok (snapshot', images, cut, buildIntent), standing at_ snapshot' [buildIntent] st).
Proof.
  intros snapshot images cut snapshot' buildIntent Ht Hid Hinv. unfold seal_registry, progress. fold snapshot cut. step.
  cbn [rs_Root rs_References]. fold cut. rewrite str_eqb_refl. cbn [negb].
  rewrite eval_load by done. cbn [standing e_snapshot e_pending]. cbv beta iota. rewrite !str_eqb_refl. cbn [negb orb].
  rewrite normalize_standing, bool_decide_true by done. cbn [negb]. rewrite Hinv. fold images snapshot'.
  erewrite eval_event; [|cbn [handle]; by apply (record_fact_seal t snapshot)]. cbv beta iota. step. step. done.
Qed.

Lemma logical_attempt_cong a b :
  js_SessionID a = js_SessionID b -> wr_Mirror (js_Workspace a) = wr_Mirror (js_Workspace b) ->
  checkpointLogicalAttemptID a = checkpointLogicalAttemptID b.
Proof. intros H1 H2. unfold checkpointLogicalAttemptID. by rewrite H1, H2. Qed.

(** The serving content follows. *)
Lemma refresh_eval t snapshot0 snapshot (result : CheckpointResult Receipt) cutRoot haulPath at_ attemptID st :
  checkpointLogicalAttemptID snapshot = Ok attemptID -> js_SessionID snapshot = js_SessionID snapshot0 ->
  eval (refresh_serving snapshot result cutRoot haulPath at_) (standing t snapshot0 [] st) = ((result, None), standing at_ snapshot0 [] st).
Proof.
  intros Ha Hid. unfold refresh_serving, progress. rewrite Ha. step. step. rewrite eval_load by done. cbn [standing e_snapshot e_pending app]. cbv beta iota.
  unfold containsPendingIntent. cbn [existsb]. rewrite str_eqb_refl. cbn [orb negb].
  erewrite eval_event; [|cbn [handle]; by apply (record_fact_refresh t snapshot0)]. cbv beta iota. step. done.
Qed.

(** The pointer is published, the journal records it. *)
Lemma adopt_eval t snapshot0 snapshot (result : CheckpointResult Receipt) next intent cutRoot haulPath at_ attemptID record st :
  let snapshot' := set_js_Checkpoint (publish_checkpoint (js_Checkpoint snapshot)) snapshot in
  ir_Transition intent = "PointerCommitted" -> same_owner snapshot snapshot0 ->
  completePointerCommit snapshot' (Some (mkPointerCommit (pr_Pointer record) (pr_Revision record))) = true ->
  checkpointLogicalAttemptID snapshot = Ok attemptID ->
  eval (commitPointerAndRefresh snapshot result next intent cutRoot haulPath at_ (Some record)) (standing t snapshot0 [intent] st) =
  ((mkCheckpointResult CheckpointDispositionPublished true (lp_Generation (pr_Pointer record)) record
      (ct_RefreshError result) (ct_RecoveryCommand result) (ct_Remote result), None), standing at_ (committed record snapshot') [] st).
Proof.
  intros snapshot' Ht Ho Hc Ha. unfold commitPointerAndRefresh, progress. cbn [act_bind].
  cbv beta iota zeta. fold snapshot'. cbn [checkpointFact fa_IntentID fa_SessionID fa_Transition fa_Timestamp fa_Output].
  erewrite eval_event; [|cbn [handle]; apply (record_fact_pointer t snapshot0); [done|destruct Ho; by split|done]]. cbv beta iota.
  step. apply (refresh_eval at_ (committed record snapshot') _ _ _ _ _ attemptID); [rewrite <-Ha; by apply logical_attempt_cong|done].
Qed.

(** The same, when the pointer has to be moved first. *)
Lemma commit_eval t snapshot0 snapshot (result : CheckpointResult Receipt) next intent cutRoot haulPath at_ attemptID pointer record st st' :
  let snapshot' := set_js_Checkpoint (publish_checkpoint (js_Checkpoint snapshot)) snapshot in
  ir_Transition intent = "PointerCommitted" -> same_owner snapshot snapshot0 -> js_CurrentPointer snapshot = Some pointer ->
  run (CompareAndSwap (mkPointerRecord pointer (js_ExpectedPointerRevision snapshot)) next) st = Some (Ok record, st') ->
  completePointerCommit snapshot' (Some (mkPointerCommit (pr_Pointer record) (pr_Revision record))) = true ->
  checkpointLogicalAttemptID snapshot = Ok attemptID ->
  eval (commitPointerAndRefresh snapshot result next intent cutRoot haulPath at_ None) (standing t snapshot0 [intent] st) =
  ((mkCheckpointResult CheckpointDispositionPublished true (lp_Generation (pr_Pointer record)) record
      (ct_RefreshError result) (ct_RecoveryCommand result) (ct_Remote result), None), standing at_ (committed record snapshot') [] st').
Proof.
  intros snapshot' Ht Ho Hp Hrun Hc Ha.
  etrans; [|apply (adopt_eval t snapshot0 snapshot result next intent cutRoot haulPath at_ attemptID record st'); done].
  unfold commitPointerAndRefresh. rewrite Hp.
  erewrite eval_event with (x := Ok record) (s' := standing t snapshot0 [intent] st'); [done|].
  cbn [handle]. unfold on_store. cbn [standing e_store e_snapshot e_pending]. by rewrite Hrun.
Qed.

(** The session after its generation was built, uploaded and published. *)
Definition checkpointed (snapshot : JournalSnapshot) : JournalSnapshot :=
  let m := bu_Metadata built in
  set_js_Checkpoint (mkCheckpoint "published" (Some (gm_Generation m)) (ga_Path (bu_Artifact built)) (gm_ObjectKey m) true) snapshot.

Definition next_pointer (snapshot : JournalSnapshot) (parent : option GenerationRef) (sessionID : string) : LatestPointer :=
  let m := bu_Metadata built in
  mkLatestPointer SchemaVersion (js_Capsule snapshot) (js_Lineage snapshot) (gm_Generation m) parent (gm_ObjectKey m) (gm_Size m)
    (gm_CreatedAt m) (gm_Tools m) sessionID.

Lemma build_eval t snapshot0 snapshot inv cutRoot root attemptID sessionID buildIntent parent generation at_ pointer genrec record st st1 st2 :
  let next := next_pointer snapshot parent sessionID in
  keeping (ir_Transition buildIntent) -> same_owner snapshot snapshot0 -> js_CurrentPointer snapshot = Some pointer ->
  run (PutAndVerify (bu_Metadata built) (Some (restartableBytes archive))) st = Some (Ok genrec, st1) ->
  run (CompareAndSwap (mkPointerRecord pointer (js_ExpectedPointerRevision snapshot)) next) st1 = Some (Ok record, st2) ->
  completePointerCommit snapshot (Some (mkPointerCommit (pr_Pointer record) (pr_Revision record))) = true ->
  checkpointLogicalAttemptID snapshot = Ok attemptID ->
  eval (build_and_commit snapshot inv cutRoot root attemptID sessionID buildIntent parent generation at_) (standing t snapshot0 [buildIntent] st) =
  ((mkCheckpointResult CheckpointDispositionPublished true (lp_Generation (pr_Pointer record)) record None
      ("camp recover " +:+ sessionID) None, None), standing at_ (committed record (checkpointed snapshot)) [] st2).
Proof.
  intros next Hk Ho Hp Hput Hcas Hc Ha. unfold build_and_commit, progress. step.
  erewrite eval_event; [|cbn [handle]; apply (record_fact_keep t snapshot0); [done|destruct Ho; by split]]. cbv beta iota.
  step. step. cbn [standing e_snapshot e_pending e_store app]. step. cbv zeta.
  erewrite eval_event with (x := Ok genrec).
  2: { cbn [handle]. unfold on_store. cbn [standing e_store e_snapshot e_pending]. by rewrite Hput. }
  cbv beta iota. set (verified := set_js_Checkpoint _ snapshot).
  erewrite eval_event; [|cbn [handle]; apply (record_fact_keep at_ verified); [apply keeping_transitions|by split]]. cbv beta iota.
  step. step. cbn [standing e_snapshot e_pending e_store app].
  set (uploaded := set_js_Checkpoint _ verified).
  etrans; [apply (commit_eval at_ uploaded uploaded _ _ _ _ _ at_ attemptID pointer record st1 st2); try done|reflexivity].
Qed.

(** * A session that is ready *)

(** A session whose lock and lease hold, with a pointer, on this machine. *)
Record entitled (session : string) (operation : OperationToken) (s : JournalSnapshot) (lease : WriterLease) (base : GenerationRef)
    (pointer : LatestPointer) (st : ref_store) : Prop := {
  n_owner : oo_SessionID (ot_Owner operation) = session /\ session <> "" /\ js_SessionID s = session;
  n_mode : js_Mode s = "readWrite" /\ lr_Lease (js_Lease s) = Some lease /\ lr_Revision (js_Lease s) <> "";
  n_valid : validateCheckpointSnapshot s lease = Ok tt;
  n_base : js_CurrentBase s = Some base /\ gr_Generation base <> 2 ^ 64 - 1 /\ js_CurrentPointer s = Some pointer;
  n_plane : rr_RemoteDataPlane (js_Recovery s) = None;
  n_lease : run (RevalidateLease (mkLeaseToken lease (lr_Revision (js_Lease s))) (mkTime (t_ns now) 0)) st = Some (Ok tt, st) }.

(** One that can start an attempt. *)
Record ready (session : string) (operation : OperationToken) (s : JournalSnapshot) (lease : WriterLease) (base : GenerationRef)
    (pointer : LatestPointer) (runtime : checkpointRegistry) (inv : ImageInventory) (st : ref_store) : Prop := {
  r_entitled : entitled session operation s lease base pointer st;
  r_local : wr_LocalProvider (js_Workspace s) = true /\ wr_StagingRoot (js_Workspace s) <> "";
  r_attempt : 0 <= ma_LogicalAttempt (wr_Mirror (js_Workspace s)) < 2 ^ 64 - 1;
  r_runtime : checkpointRegistryRuntime s = Ok runtime;
  r_catalog : InventoryFromCatalog (cg_authority runtime) references (mkTime (t_ns now) 0) = Ok inv }.

(** The builder made the next generation of the session's lineage, and the store can take
    it: it holds the pointer the session expects, and no object of the generation. *)
Record storable (session : string) (s : JournalSnapshot) (base : GenerationRef) (pointer : LatestPointer) (key text body : string) (o : object) (st : ref_store) : Prop := {
  t_metadata : let m := bu_Metadata built in validateGenerationMetadata m (gm_Capsule m) (gm_Lineage m) (gm_Generation m) = Ok tt /\
    vf_LocalHaulLoadable (gm_Verified m) = true /\ announced (gr_ArchiveSHA256 (gm_Generation m)) (gm_Size m) archive /\
    Marshal (set_remote_verified m) = Some text;
  t_absent : objs (rs_world st) !! gm_ObjectKey (bu_Metadata built) = None /\ objs (rs_world st) !! gm_MetadataKey (bu_Metadata built) = None;
  t_key : Lineage_PointerKey (js_Lineage s) (js_Capsule s) = Ok key /\ key <> gm_ObjectKey (bu_Metadata built) /\ key <> gm_MetadataKey (bu_Metadata built);
  t_pointer : objs (rs_world st) !! key = Some o /\ str_len (o_body o) <= maxCoordinationDocumentSize /\ Unmarshal (o_body o) = Some pointer /\
    o_rev o = js_ExpectedPointerRevision s /\ documentsEqual pointer pointer = true;
  t_next : advances (mkPointerRecord pointer (js_ExpectedPointerRevision s)) (next_pointer s (Some base) session) /\
    Marshal (next_pointer s (Some base) session) = Some body }.

(** A valid pointer is complete for the session whose lineage it is of. *)
Lemma valid_pointer_complete snapshot p rev :
  validatePointer p (js_Capsule snapshot) (js_Lineage snapshot) = Ok tt -> rev <> "" ->
  completePointerCommit snapshot (Some (mkPointerCommit p rev)) = true.
Proof.
  intros Hv Hrev. destruct (validatePointer_ok _ _ _ Hv) as (Hc & Hl & [key Hk] & Hg & Ho & Hs).
  unfold validatePointer, result_bind in Hv. destruct (_ || _) eqn:E0 in Hv; [done|]. bool_norm.
  rewrite Hk, Hg in Hv. destruct (validateGenerationParent _ _) in Hv; [|done]. rewrite Ho in Hv.
  destruct (_ || _) eqn:E5 in Hv; [done|]. bool_norm.
  unfold Lineage_PointerKey, result_bind in Hk.
  destruct (validateObjectKeySegment "capsule" _) as [[]|] eqn:Ec; [|done].
  destruct (validateObjectKeySegment "branch" _) as [[]|] eqn:Eb; [|done].
  apply validateGenerationRef_iff in Hg as [Hg0 [Hsha _]%sha256_text_facts].
  assert (lp_ObjectKey p <> "") as Hok.
  { intros E. apply ObjectKey_parts in Ho as [_ Ho]. by rewrite E in Ho. }
  unfold completePointerCommit. cbn [pc_Revision pc_Pointer]. rewrite (proj2 (str_eqb_neq _ _) Hrev).
  rewrite Hc, Hl, (segment_nonempty _ _ Ec), (segment_nonempty _ _ Eb), str_eqb_refl, bool_decide_true by done.
  rewrite (proj2 (Z.eqb_neq _ _) Hg0), (proj2 (str_eqb_neq _ _) Hok).
  repeat (apply andb_true_intro; split); try done; try (by apply Z.eqb_eq); try (by apply Z.leb_le); try (apply negb_true_iff; try done; by apply str_eqb_neq).
  unfold str_len. by rewrite Hsha.
Qed.

(** The store once the generation is stored: the pointer is where it was. *)
Definition with_generation (text : string) (st : ref_store) : ref_store :=
  ref_publish (gm_MetadataKey (bu_Metadata built)) text (ref_publish (gm_ObjectKey (bu_Metadata built)) archive st).

Lemma storable_put session s base pointer key text body o st :
  storable session s base pointer key text body o st ->
  (exists rec, run (PutAndVerify (bu_Metadata built) (Some (restartableBytes archive))) st = Some (Ok rec, with_generation text st)) /\
  objs (rs_world (with_generation text st)) !! key = Some o.
Proof.
  intros H. destruct (t_metadata _ _ _ _ _ _ _ _ _ H) as (Hv & Hl & Ha & Hm). destruct (t_absent _ _ _ _ _ _ _ _ _ H) as [H1 H2].
  destruct (t_key _ _ _ _ _ _ _ _ _ H) as (_ & Hk1 & Hk2). destruct (t_pointer _ _ _ _ _ _ _ _ _ H) as (Ho & _). split.
  - eexists. by apply ref_PutAndVerify.
  - unfold with_generation. cbn [ref_publish rs_world objs put_object]. by rewrite !lookup_insert_ne by congruence.
Qed.

Lemma storable_swap session s base pointer key text body o st :
  storable session s base pointer key text body o st ->
  let st1 := with_generation text st in
  run (CompareAndSwap (mkPointerRecord pointer (js_ExpectedPointerRevision s)) (next_pointer s (Some base) session)) st1 =
  Some (Ok (mkPointerRecord (next_pointer s (Some base) session) (ref_revision (rs_next st1))), ref_publish key body st1).
Proof.
  intros H st1. destruct (storable_put _ _ _ _ _ _ _ _ _ H) as [_ Ho]. destruct (t_key _ _ _ _ _ _ _ _ _ H) as (Hk & _).
  destruct (t_pointer _ _ _ _ _ _ _ _ _ H) as (_ & Hsz & Hu & Hrev & Heq). destruct (t_next _ _ _ _ _ _ _ _ _ H) as (Hadv & Hm).
  by apply (ref_CompareAndSwap_publishes _ _ key st1 o).
Qed.

(** The session a publication leaves. *)
Definition published_session (inv : ImageInventory) (runtime : checkpointRegistry) (record : PointerRecord) (at_ : Time) (s : JournalSnapshot) : JournalSnapshot :=
  let w := js_Workspace s in
  let logicalAttempt := ma_LogicalAttempt (wr_Mirror w) + 1 in
  let s1 := set_js_Images inventory (set_mirror (mkMirrorAttemptRecord logicalAttempt (attempt_id (js_SessionID s) logicalAttempt)
    MirrorCompleted (wr_StagingRoot w) "" "" SNil) (set_js_Images (ExcludeInternalArtifacts (js_Images s)) s)) in
  let generation := match js_CurrentBase s with Some base => gr_Generation base + 1 | None => 1 end in
  let cut := sq_SnapshotRoot (seal_request s1 runtime (wr_StagingRoot w) generation) in
  set_js_UpdatedAt at_ (committed record (checkpointed (set_js_RegistryCutRoot cut (set_js_Images (ExcludeInternalArtifacts inv) (set_js_UpdatedAt at_ s1))))).

(** The attempt a mirror record names, when the record was made for it. *)
Lemma logical_attempt_of snapshot :
  let m := wr_Mirror (js_Workspace snapshot) in
  js_SessionID snapshot <> "" -> ma_LogicalAttempt m <> 0 -> ma_AttemptID m = attempt_id (js_SessionID snapshot) (ma_LogicalAttempt m) ->
  checkpointLogicalAttemptID snapshot = Ok (attempt_id (js_SessionID snapshot) (ma_LogicalAttempt m)).
Proof.
  intros m Hid Ha Hm. unfold checkpointLogicalAttemptID. fold m. rewrite Hm, (proj2 (str_eqb_neq _ _) Hid), (proj2 (Z.eqb_neq _ _) Ha), str_eqb_refl.
  cbn [negb andb orb]. destruct (str_eqb (attempt_id _ _) "") eqn:E; [|done].
  apply str_eqb_eq in E. unfold attempt_id in E. by destruct (js_SessionID snapshot).
Qed.

(** A new attempt, from the loaded session to its answer. *)
Lemma generation_eval session operation s lease base pointer runtime inv key text body o st :
  ready session operation s lease base pointer runtime inv st -> storable session s base pointer key text body o st ->
  let at_ := mkTime (t_ns now) 0 in
  let record := mkPointerRecord (next_pointer s (Some base) session) (ref_revision (rs_next (with_generation text st))) in
  eval (publish_generation s [] (mkLeaseToken lease (lr_Revision (js_Lease s))) session (Some base) (gr_Generation base + 1) at_) (mkEnv s [] st) =
  ((mkCheckpointResult CheckpointDispositionPublished true (gm_Generation (bu_Metadata built)) record None ("camp recover " +:+ session) None, None),
   mkEnv (published_session inv runtime record at_ s) [] (ref_publish key body (with_generation text st))).
Proof.
  intros R T at_ record. destruct R as [N [Hlp Hroot] Hat Hrun Hcat]. destruct (n_owner _ _ _ _ _ _ _ N) as (_ & Hne & Hid).
  destruct (n_base _ _ _ _ _ _ _ N) as (Hb & _ & Hp).
  destruct (storable_put _ _ _ _ _ _ _ _ _ T) as [[rec Hput] _]. pose proof (storable_swap _ _ _ _ _ _ _ _ _ T) as Hswap. cbv zeta in Hswap.
  unfold publish_generation. set (s0 := set_js_Images _ s). rewrite eval_bind. unfold prepareRegistrySeal.
  replace (checkpointRegistryRuntime s0) with (Ok runtime) by (rewrite <-Hrun; reflexivity).
  replace (mkEnv s [] st) with (standing (js_UpdatedAt s) s [] st) by (unfold standing; by destruct s).
  rewrite (start_attempt_eval (js_UpdatedAt s) s s0); cycle 1; [by split|cbn; lia|done|done|by apply (n_lease _ _ _ _ _ _ _ N)|].
  cbv beta iota. rewrite eval_bind.
  erewrite seal_eval; [|reflexivity|by symmetry|exact Hcat]. cbv beta iota.
  etrans; [apply (build_eval at_ _ _ _ _ _ _ session _ (Some base) _ at_ pointer rec record st (with_generation text st)
    (ref_publish key body (with_generation text st))); [apply keeping_transitions|by split|exact Hp|exact Hput|exact Hswap| |]|].
  - apply valid_pointer_complete; [|done]. destruct (t_next _ _ _ _ _ _ _ _ _ T) as [(_ & Hv & _) _]. cbn [pr_Pointer] in Hv.
    destruct (validatePointer_ok _ _ _ Hv) as (Hc & Hl & _). by rewrite <-Hc, <-Hl in Hv.
  - etrans; [apply logical_attempt_of|reflexivity]; [cbn; congruence|cbn; lia|done].
  - unfold published_session. rewrite Hb. reflexivity.
Qed.

(** Publish passes its guards. *)
Lemma publish_enters remote operation session s lease base pointer pending st :
  entitled session operation s lease base pointer st ->
  eval (Publish (mkPublisher true true true remote) operation session) (mkEnv s pending st) =
  eval (publish_local (mkPublisher true true true remote) session s pending (mkLeaseToken lease (lr_Revision (js_Lease s)))
    (gr_Generation base + 1) (mkTime (t_ns now) 0)) (mkEnv s pending st).
Proof.
  intros [(Hop & Hne & Hid) (Hm & Hl & Hrev) Hv (Hb & Hg & _) Hrd Hlease].
  unfold Publish. cbn [p_core negb]. rewrite Hop, str_eqb_refl, (proj2 (str_eqb_neq _ _) Hne). cbn [negb orb]. step.
  rewrite eval_load by done. cbv beta iota. cbn [e_snapshot e_pending]. rewrite Hl, Hm, (proj2 (str_eqb_neq _ _) Hrev), str_eqb_refl. cbn [negb orb].
  rewrite Hv, Hb, bool_decide_false by (cbn; congruence). step.
  erewrite eval_event with (x := Ok tt); [|cbn [handle]; unfold on_store; cbn [e_store e_snapshot e_pending]; by rewrite Hlease].
  cbv beta iota. unfold publish_session. by rewrite Hrd.
Qed.

Lemma publish_eval remote operation session s lease base pointer runtime inv key text body o st :
  ready session operation s lease base pointer runtime inv st -> storable session s base pointer key text body o st ->
  let record := mkPointerRecord (next_pointer s (Some base) session) (ref_revision (rs_next (with_generation text st))) in
  eval (Publish (mkPublisher true true true remote) operation session) (mkEnv s [] st) =
  ((mkCheckpointResult CheckpointDispositionPublished true (gm_Generation (bu_Metadata built)) record None ("camp recover " +:+ session) None, None),
   mkEnv (published_session inv runtime record (mkTime (t_ns now) 0) s) [] (ref_publish key body (with_generation text st))).
Proof.
  intros R T record. pose proof (r_entitled _ _ _ _ _ _ _ _ _ R) as N. rewrite (publish_enters _ _ _ _ _ _ _ _ _ N).
  unfold publish_local. cbn [p_pipeline p_pointers negb orb hasPendingTransition existsb].
  destruct (n_base _ _ _ _ _ _ _ N) as (-> & _). by eapply generation_eval.
Qed.

(** C5: when the parts cooperate a publication goes through.  For a session that is ready
    and a generation the store can take, Publish returns without an error: it answers that
    the generation is published under a pointer that follows the session's base, the journal
    it leaves has nothing pending and has the new pointer, base and revision, and the store
    holds the archive, its sidecar and the pointer. *)
Theorem Publish_publishes remote operation session s lease base pointer runtime inv key text body o st :
  ready session operation s lease base pointer runtime inv st -> storable session s base pointer key text body o st ->
  let generation := gm_Generation (bu_Metadata built) in
  let next := next_pointer s (Some base) session in
  let revision := ref_revision (rs_next (with_generation text st)) in
  exists s' st',
    eval (Publish (mkPublisher true true true remote) operation session) (mkEnv s [] st) =
      ((mkCheckpointResult CheckpointDispositionPublished true generation (mkPointerRecord next revision) None
          ("camp recover " +:+ session) None, None), mkEnv s' [] st') /\
    js_CurrentPointer s' = Some next /\ js_CurrentBase s' = Some generation /\ js_ExpectedPointerRevision s' = revision /\
    cp_PublicationSucceeded (js_Checkpoint s') = true /\
    objs (rs_world st') !! key = Some (mkObject body revision) /\
    (exists r1, objs (rs_world st') !! gm_ObjectKey (bu_Metadata built) = Some (mkObject archive r1)) /\
    exists r2, objs (rs_world st') !! gm_MetadataKey (bu_Metadata built) = Some (mkObject text r2).
Proof.
  intros R T generation next revision.
  exists (published_session inv runtime (mkPointerRecord next revision) (mkTime (t_ns now) 0) s), (ref_publish key body (with_generation text st)).
  split; [by eapply publish_eval|]. split; [reflexivity|]. split; [reflexivity|]. split; [reflexivity|]. split; [reflexivity|].
  destruct (t_key _ _ _ _ _ _ _ _ _ T) as (_ & Hk1 & Hk2). destruct (t_metadata _ _ _ _ _ _ _ _ _ T) as (Hv & _).
  pose proof (archive_sidecar_distinct _ _ _ _ Hv) as Hd. unfold with_generation.
  cbn [ref_publish rs_world objs put_object]. split; [apply lookup_insert_eq|]. split.
  - eexists. rewrite !lookup_insert_ne by congruence. apply lookup_insert_eq.
  - eexists. rewrite lookup_insert_ne by congruence. apply lookup_insert_eq.
Qed.

(** * Any run against such an environment *)

(** The repositories' programs of a publication have no loop: they answer. *)
Fixpoint straight {A} (p : prog A) : Prop :=
  match p with Ret _ => True | Vis e k => forall x, straight (k x) | Spin => False end.

Lemma straight_bind {A B} (p : prog A) (k : A -> prog B) : straight p -> (forall a, straight (k a)) -> straight (prog_bind p k).
Proof. induction p as [a|X e c IH|]; cbn; auto. Qed.

Lemma straight_run {A} (p : prog A) (st : ref_store) : straight p -> exists a st', run p st = Some (a, st').
Proof.
  unfold run. revert st. induction p as [a|X e c IH|]; intros st H; [by eexists _, _| |done].
  cbn [run_with]. destruct (ObjectStore.handle X e st) as [x st1]. apply IH, H.
Qed.

Ltac straighten :=
  repeat first [ progress cbn beta iota zeta | apply straight_bind | intros ? | done
               | match goal with |- straight (match ?x with _ => _ end) => destruct x end ].

Lemma straight_readJSON T `{Codec T} key : straight (readJSON T key).
Proof. unfold readJSON. straighten. Qed.
Lemma straight_Read c l : straight (Pointers.Read c l).
Proof. unfold Pointers.Read. straighten; apply straight_readJSON. Qed.
Lemma straight_put_reconciled key source sha size : straight (put_reconciled key source sha size).
Proof. unfold put_reconciled. straighten. Qed.

Lemma store_calls_straight {X} (e : ckE Receipt X) q : store_calls e = Some q -> straight q.
Proof.
  destruct e; try done; cbn [store_calls]; intros [= <-].
  - unfold RevalidateLease, ReadLease. straighten; apply straight_readJSON.
  - unfold PutAndVerify, verifyArchive. straighten; apply straight_put_reconciled.
  - unfold ReadMetadata. straighten; apply straight_readJSON.
  - apply straight_Read.
  - unfold Pointers.Create. straighten; apply straight_Read.
  - unfold CompareAndSwap, swap_pointer, Revalidate. straighten; apply straight_Read.
Qed.

Lemma handle_lives {X} (e : ckE Receipt X) s x s' :
  ref_ok (e_store s) -> handle X e s = (x, s') ->
  match store_calls e with
  | Some q => exists cs, exec q (rs_world (e_store s)) x (rs_world (e_store s')) cs
  | None => e_store s' = e_store s
  end /\ ref_ok (e_store s').
Proof.
  intros Hok H. assert (forall A (q : prog (result A)) (y : result A) s1, straight q -> on_store q s = (y, s1) ->
    (exists cs, exec q (rs_world (e_store s)) y (rs_world (e_store s1)) cs) /\ ref_ok (e_store s1)) as Hq.
  { intros A q y s1 Hs E. destruct (straight_run q (e_store s) Hs) as (a & st' & Hr). unfold on_store in E. rewrite Hr in E. injection E as <- <-.
    destruct (ref_run_exec _ _ _ _ Hok Hr) as [Hex Hok']. split; [by eexists|done]. }
  pose proof (store_calls_straight e) as Hs.
  destruct e; cbn [handle] in H; try (apply Hq; [by apply Hs|exact H]);
    unfold record_fact in H; try case_match; injection H as <- <-; by split.
Qed.

(** The store's part of a run to its end is a run of the repositories' programs. *)
Lemma eval_lives {A} (p : act (ckE Receipt) A) : forall v s, ref_ok (e_store s) ->
  exists n log, lives v (rs_world (e_store s)) (play handle n p s).1 (rs_world (e_store (eval p s).2)) log /\
    (play handle n p s).2 = Some (eval p s).1.
Proof.
  induction p as [a|X e k IH]; intros v s Hok; [exists O, []; split; [constructor|done]|].
  unfold eval in *. cbn [conduct]. destruct (handle X e s) as [x s1] eqn:E. destruct (handle_lives e s x s1 Hok E) as [Hl Hok1].
  destruct (IH x (observe v e x) s1 Hok1) as (n & log & H1 & H2).
  destruct (store_calls e) as [q|] eqn:Eq.
  - destruct Hl as [cs Hex]. exists (S n), ((v, rs_world (e_store s), rs_world (e_store s1), cs) :: log). cbn [play]. rewrite E.
    destruct (play handle n (k x) s1) as [tr o]. split; [|done]. by eapply lives_store.
  - exists (S n), log. cbn [play]. rewrite E, <-Hl. destruct (play handle n (k x) s1) as [tr o]. split; [|done]. by apply lives_other.
Qed.
End live.

(** * A session to try the theorems on *)
Definition live_base : GenerationRef := sample_ref 1.
Definition live_lease : WriterLease :=
  new_lease "brain" (mkLineage "main") (sample_owner "session-a") (Some live_base) sample_now (AddTime sample_now (10 * minute)).
Definition live_registry : ServiceUnitRecord :=
  mkServiceUnitRecord "registry" "token-1" c_zero (mkEndpointMapping "127.0.0.1" 5000 5000) "" "" c_zero
    (mkProcessRecord c_zero "" "" (SList ["registry"; "--directory"; "/overlay"]) "" 0 0 0 "") "running" "ready".
Definition live_workspace : WorkspaceRecord :=
  mkWorkspaceRecord "w1" "default" "docker" true "/work" "" "/staging" "" false false c_zero.
Definition live_session : JournalSnapshot :=
  set_js_Services (SList [live_registry]) (set_js_Workspace live_workspace (set_js_Lease (mkLeaseRecord (Some live_lease) "r1")
  (set_js_ExpectedPointerRevision "r0" (set_js_CurrentPointer (Some (sample_pointer 1 None)) (set_js_CurrentBase (Some live_base)
  (set_js_OpenedGeneration (Some live_base) (set_js_Mode "readWrite" (set_js_Lineage (mkLineage "main") (set_js_Capsule "brain"
  (set_js_SessionID "session-a" (set_js_SchemaVersion 1 c_zero))))))))))).
Definition live_operation : OperationToken := mkOperationToken "op" (mkOperationOwner "session-a" "sync") c_zero.
Definition live_reference : RegistryReference := mkRegistryReference "apps/web" "v1" ("sha256:" +:+ sample_sha).
Definition live_built : BuildResult :=
  mkBuildResult (mkGenerationArtifact "/build/2.tar.zst" sample_sha 3 true) (sample_metadata 2 (Some live_base)).
Definition live_acquire : prog (result LeaseToken) :=
  Acquire 1 "brain" (mkLineage "main") (sample_owner "session-a") (Some (sample_record 1 None "r0")) sample_now (10 * minute).
Definition live_store : ref_store := state_after live_acquire sample_store.
Definition live_runtime : checkpointRegistry := mkcheckpointRegistry "127.0.0.1:5000" "http://127.0.0.1:5000" "/overlay" "token-1".

Lemma live_store_ok : ref_ok live_store.
Proof.
  assert (run live_acquire sample_store = Some (Ok (mkLeaseToken live_lease "r1"), live_store)) as H by (vm_compute; reflexivity).
  by destruct (ref_run_exec _ _ _ _ sample_store_ok H) as (_ & ?).
Qed.

Lemma live_catalog : exists inv, InventoryFromCatalog "127.0.0.1:5000" [live_reference] (mkTime (t_ns sample_now) 0) = Ok inv.
Proof. eexists. vm_compute. reflexivity. Qed.

Lemma live_lease_holds : run (RevalidateLease (mkLeaseToken live_lease "r1") (mkTime (t_ns sample_now) 0)) live_store = Some (Ok tt, live_store).
Proof. vm_compute. reflexivity. Qed.

Definition live_inventory : ImageInventory :=
  match InventoryFromCatalog "127.0.0.1:5000" [live_reference] (mkTime (t_ns sample_now) 0) with Ok inv => inv | Err _ => c_zero end.
Definition live_env : env := mkEnv live_session [] live_store.
Definition live_handle : forall X, ckE unit X -> env -> X * env := handle tt sample_now c_zero [live_reference] live_built sample_archive.
Definition live_body : string := default "" (Marshal (next_pointer live_built live_session (Some live_base) "session-a")).
Definition live_text : string := default "" (Marshal (set_remote_verified (sample_metadata 2 (Some live_base)))).

Lemma live_ready : ready sample_now [live_reference] "session-a" live_operation live_session live_lease live_base (sample_pointer 1 None)
  live_runtime live_inventory live_store.
Proof.
  split; [split|..]; vm_compute; (done || (repeat split; (reflexivity || discriminate))).
Qed.

Definition live_object : object := default (mkObject "" "") (objs (rs_world live_store) !! "brain/latest.json").
Lemma live_storable : storable live_built sample_archive "session-a" live_session live_base (sample_pointer 1 None) "brain/latest.json"
  live_text live_body live_object live_store.
Proof.
  split.
  - split; [vm_compute; reflexivity|]. split; [reflexivity|]. split; [exact sample_announced|vm_compute; reflexivity].
  - split; vm_compute; reflexivity.
  - split; [vm_compute; reflexivity|]. split; vm_compute; discriminate.
  - split; [vm_compute; reflexivity|]. split; [vm_compute; discriminate|]. split; [vm_compute; reflexivity|]. split; vm_compute; reflexivity.
  - split; [|vm_compute; reflexivity]. repeat split; vm_compute; (reflexivity || discriminate).
Qed.

Lemma Publish_publishes_witness :
  exists r s', eval tt sample_now c_zero [live_reference] live_built sample_archive
    (Publish (mkPublisher true true true false) live_operation "session-a") live_env = ((r, None), s') /\
  ct_Published r = true /\ e_pending s' = [] /\ js_CurrentBase (e_snapshot s') = Some (sample_ref 2).
Proof.
  destruct (Publish_publishes tt sample_now c_zero [live_reference] live_built sample_archive false live_operation "session-a" live_session
    live_lease live_base (sample_pointer 1 None) live_runtime live_inventory "brain/latest.json" live_text live_body live_object live_store
    live_ready live_storable) as (s' & st' & H & _ & Hb & _).
  eexists _, _. split; [exact H|]. split; [reflexivity|]. split; [reflexivity|exact Hb].
Defined.

Lemma Publish_writes_ahead_witness :
  accepts "session-a" init (play live_handle 40 (Publish (mkPublisher true true true false) live_operation "session-a") live_env).1.
Proof. apply (Publish_writes_ahead live_handle _ live_operation "session-a" 40 live_env). apply handle_possible. Defined.

Lemma Publish_answer_honest_witness : exists n a,
  (play live_handle n (Publish (mkPublisher true true true false) live_operation "session-a") live_env).2 = Some a /\
  settled "session-a" (learnt init (play live_handle n (Publish (mkPublisher true true true false) live_operation "session-a") live_env).1) a.
Proof.
  destruct (eval_lives tt sample_now c_zero [live_reference] live_built sample_archive
    (Publish (mkPublisher true true true false) live_operation "session-a") init live_env live_store_ok) as (n & log & _ & H).
  eexists n, _. split; [exact H|]. apply (Publish_answer_honest live_handle); [apply handle_possible|exact H].
Defined.

Lemma Publish_store_effects_witness : exists w' log,
  objs w' !! "brain/latest.json" = Some (mkObject live_body "r4") /\
  Forall (fun '(v1, w1, w2, cs) => lawful "session-a" v1 w1 w2 cs) log.
Proof.
  destruct (eval_lives tt sample_now c_zero [live_reference] live_built sample_archive
    (Publish (mkPublisher true true true false) live_operation "session-a") init live_env live_store_ok) as (n & log & H & _).
  assert (eval tt sample_now c_zero [live_reference] live_built sample_archive
    (Publish (mkPublisher true true true false) live_operation "session-a") live_env = _) as E
    by (eapply publish_eval; [exact live_ready|exact live_storable]).
  rewrite E in H. exists (rs_world (ref_publish "brain/latest.json" live_body (with_generation live_built sample_archive live_text live_store))), log.
  split; [etrans; [apply lookup_insert_eq|reflexivity]|by apply (Publish_store_effects live_handle _ _ _ _ _ _ _ _ (handle_possible _ _ _ _ _ _) (proj1 live_store_ok) H)].
Defined.
