(* ===== verification/CheckpointResume.v ===== *)
(** app.CheckpointPublisher after a crash: a publication that was interrupted while it
    uploaded its generation, or while it moved the pointer, goes through when it is run
    again, whatever of the interrupted step had reached the store. *)
From S2P Require Import Prelude Acts Sha256 GoTime Json Codec JsonLines Regexp Domain Snapshot Paths ObjectStore RefStore Documents Pointers Leases Generations Effects Journal RegistryInventory Checkpoint CheckpointSafety CheckpointLive.

(** * Storing again what may be stored already *)

(** Nothing under the key, or the bytes themselves. *)
Definition free_or (key : string) (body : bytes) (st : ref_store) : Prop :=
  objs (rs_world st) !! key = None \/ exists rev, objs (rs_world st) !! key = Some (mkObject body rev).
Definition stored (key : string) (body : bytes) (st : ref_store) : Prop :=
  exists rev, objs (rs_world st) !! key = Some (mkObject body rev).
Definition kept_but (keys : list string) (st st' : ref_store) : Prop :=
  forall k, k ∉ keys -> objs (rs_world st') !! k = objs (rs_world st) !! k.

Lemma ref_put_stored key body sha size (st : ref_store) :
  stored key body st -> announced sha size body ->
  exists rev, run (put_reconciled key (restartableBytes body) sha size) st = Some (Ok (ref_meta key (mkObject body rev)), st).
Proof.
  intros [rev Ho] [Hs Hl]. exists rev. unfold run, put_reconciled. rewrite run_with_bind. cbn [call run_with ObjectStore.handle RefStore ref_handle].
  unfold ref_put_immutable. cbn [restartableBytes result_bind ReadAll rd_err rd_body].
  rewrite (proj2 (str_eqb_eq _ _) Hs), (proj2 (Z.eqb_eq _ _) Hl). cbn [andb]. rewrite Ho. cbn [o_body].
  by rewrite (proj2 (str_eqb_eq _ _) Hs), (proj2 (Z.eqb_eq _ _) Hl).
Qed.

Lemma ref_put_again key body sha size (st : ref_store) :
  free_or key body st -> announced sha size body ->
  exists rev st', run (put_reconciled key (restartableBytes body) sha size) st = Some (Ok (ref_meta key (mkObject body rev)), st') /\
    stored key body st' /\ kept_but [key] st st'.
Proof.
  intros [Ho|Hst] Ha.
  - eexists _, _. split; [by apply ref_put_reconciled|]. split; [eexists; apply lookup_insert_eq|].
    intros k Hk. apply lookup_insert_ne. set_solver.
  - destruct (ref_put_stored _ _ _ _ st Hst Ha) as [rev Hp]. by exists rev, st.
Qed.

Lemma ref_PutAndVerify_again m body text (st : ref_store) :
  validateGenerationMetadata m (gm_Capsule m) (gm_Lineage m) (gm_Generation m) = Ok tt ->
  vf_LocalHaulLoadable (gm_Verified m) = true -> announced (gr_ArchiveSHA256 (gm_Generation m)) (gm_Size m) body ->
  Marshal (set_remote_verified m) = Some text ->
  free_or (gm_ObjectKey m) body st -> free_or (gm_MetadataKey m) text st ->
  exists rec st', run (PutAndVerify m (Some (restartableBytes body))) st = Some (Ok rec, st') /\
    stored (gm_ObjectKey m) body st' /\ stored (gm_MetadataKey m) text st' /\ kept_but [gm_ObjectKey m; gm_MetadataKey m] st st'.
Proof.
  intros Hv Hl Ha Hm Ho1 Ho2. pose proof (archive_sidecar_distinct _ _ _ _ Hv) as Hne.
  destruct (ref_put_again _ _ _ _ st Ho1 Ha) as (r1 & s1 & Hp1 & Hst1 & Hk1).
  assert (free_or (gm_MetadataKey m) text s1) as Ho3 by (unfold free_or; rewrite Hk1 by set_solver; done).
  destruct (ref_put_again _ _ _ _ s1 Ho3 (conj eq_refl eq_refl)) as (r2 & s2 & Hp2 & Hst2 & Hk2).
  unfold PutAndVerify. rewrite Hv, Hl. unfold run in *. rewrite run_with_bind, Hp1. cbn [mbind option_bind fst snd]. rewrite run_with_bind.
  pose proof (ref_verifyArchive m (mkObject body r1) (gm_ObjectKey m) s1 Ha) as Hva. unfold run in Hva. rewrite Hva.
  cbn [mbind option_bind fst snd]. unfold marshal. rewrite Hm. rewrite run_with_bind. change (gm_MetadataKey (set_remote_verified m)) with (gm_MetadataKey m).
  rewrite Hp2. cbn [mbind option_bind fst snd run_with]. eexists _, s2. split; [done|].
  split; [|split; [done|]].
  - destruct Hst1 as [r Hr]. exists r. by rewrite Hk2 by set_solver.
  - intros k Hk. rewrite Hk2, Hk1 by set_solver. done.
Qed.

(** Other bytes under a key are never replaced. *)
Lemma ref_put_refused key body sha size (st : ref_store) o :
  objs (rs_world st) !! key = Some o -> sha256Hex (o_body o) <> sha -> announced sha size body ->
  run (put_reconciled key (restartableBytes body) sha size) st = Some (Err ErrConflict, st).
Proof.
  intros Ho Hne [Hs Hl]. unfold run, put_reconciled. rewrite run_with_bind. cbn [call run_with ObjectStore.handle RefStore ref_handle].
  unfold ref_put_immutable. cbn [restartableBytes result_bind ReadAll rd_err rd_body].
  rewrite (proj2 (str_eqb_eq _ _) Hs), (proj2 (Z.eqb_eq _ _) Hl). cbn [andb]. rewrite Ho. by rewrite (proj2 (str_eqb_neq _ _) Hne).
Qed.

Lemma ref_PutAndVerify_refused m body text (st : ref_store) o :
  validateGenerationMetadata m (gm_Capsule m) (gm_Lineage m) (gm_Generation m) = Ok tt ->
  vf_LocalHaulLoadable (gm_Verified m) = true -> announced (gr_ArchiveSHA256 (gm_Generation m)) (gm_Size m) body ->
  Marshal (set_remote_verified m) = Some text -> stored (gm_ObjectKey m) body st ->
  objs (rs_world st) !! gm_MetadataKey m = Some o -> sha256Hex (o_body o) <> sha256Hex text ->
  run (PutAndVerify m (Some (restartableBytes body))) st = Some (Err ErrConflict, st).
Proof.
  intros Hv Hl Ha Hm Hst Ho Hne. destruct (ref_put_again (gm_ObjectKey m) body _ _ st (or_intror Hst) Ha) as (r1 & s1 & Hp1 & _).
  destruct (ref_put_stored _ _ _ _ st Hst Ha) as [r2 Hp2]. rewrite Hp2 in Hp1. injection Hp1 as -> ->.
  pose proof (ref_put_refused _ _ _ (str_len text) s1 o Ho Hne (conj eq_refl eq_refl)) as Hp3.
  pose proof (ref_verifyArchive m (mkObject body r1) (gm_ObjectKey m) s1 Ha) as Hva.
  unfold PutAndVerify. rewrite Hv, Hl. unfold run in *. rewrite run_with_bind, Hp2. cbn [mbind option_bind fst snd]. rewrite run_with_bind, Hva.
  cbn [mbind option_bind fst snd]. unfold marshal. rewrite Hm, run_with_bind. change (gm_MetadataKey (set_remote_verified m)) with (gm_MetadataKey m).
  by rewrite Hp3.
Qed.

Lemma ref_ReadMetadata m text (st : ref_store) :
  validateGenerationMetadata m (gm_Capsule m) (gm_Lineage m) (gm_Generation m) = Ok tt ->
  vf_LocalHaulLoadable (gm_Verified m) = true -> stored (gm_MetadataKey m) text st ->
  Unmarshal text = Some (set_remote_verified m) -> str_len text <= maxCoordinationDocumentSize ->
  exists meta, run (ReadMetadata (gm_Capsule m) (gm_Lineage m) (gm_Generation m)) st = Some (Ok (set_remote_verified m, meta), st).
Proof.
  intros Hv Hl [rev Ho] Hu Hsz. pose proof (validMetadata_ok _ _ _ _ Hv) as (_ & _ & _ & _ & _ & Hmk).
  unfold ReadMetadata. rewrite Hmk. unfold run. rewrite run_with_bind.
  pose proof (ref_readJSON (gm_MetadataKey m) st (mkObject text rev) (set_remote_verified m) Ho Hsz Hu) as Hr. unfold run in Hr. rewrite Hr.
  cbn [mbind option_bind fst snd]. rewrite (validMetadata_stored m Hv Hl). eexists. done.
Qed.

(** * The interrupted attempt *)
Section resume.
  Context {Receipt : Type} (receipt : Receipt).
  Context (now : Time) (inventory : ImageInventory) (references : list RegistryReference) (built : BuildResult) (archive : bytes).
  Context (session : string) (s : JournalSnapshot) (base : GenerationRef) (pointer : LatestPointer) (attemptID : string).
  Context (m : GenerationMetadata) (key text body : string).

Notation eval := (eval receipt now inventory references built archive).
Notation handle := (handle receipt now inventory references built archive).
Ltac step := erewrite eval_event; [|reflexivity]; cbv beta iota.

Definition resumed_pointer : LatestPointer := session_pointer s (Some base) m.

(** The attempt the session was at: its generation, of the session's lineage, follows the
    base, and the pointer to it can be published over the one the session expects. *)
Record attempted : Prop := {
  a_attempt : checkpointLogicalAttemptID s = Ok attemptID;
  a_checkpoint : cp_Generation (js_Checkpoint s) = Some (gm_Generation m) /\ cp_LocalHaulPath (js_Checkpoint s) <> "" /\
    cp_ObjectKey (js_Checkpoint s) = gm_ObjectKey m /\ gm_ObjectKey m <> "" /\ gr_Generation (gm_Generation m) = gr_Generation base + 1;
  a_of_session : gm_SchemaVersion m = SchemaVersion /\ gm_Capsule m = js_Capsule s /\ gm_Lineage m = js_Lineage s /\
    gm_Parent m = Some base /\ gm_SessionID m = session /\ gm_Verified m = mkVerification true false;
  a_metadata : validateGenerationMetadata m (gm_Capsule m) (gm_Lineage m) (gm_Generation m) = Ok tt /\
    announced (gr_ArchiveSHA256 (gm_Generation m)) (gm_Size m) archive /\ Marshal (set_remote_verified m) = Some text /\
    Unmarshal text = Some (set_remote_verified m) /\ str_len text <= maxCoordinationDocumentSize;
  a_key : Lineage_PointerKey (js_Lineage s) (js_Capsule s) = Ok key /\ key <> gm_ObjectKey m /\ key <> gm_MetadataKey m;
  a_next : advances (mkPointerRecord pointer (js_ExpectedPointerRevision s)) resumed_pointer /\
    Marshal resumed_pointer = Some body /\ Unmarshal body = Some resumed_pointer /\ str_len body <= maxCoordinationDocumentSize;
  a_current : documentsEqual pointer pointer = true }.

(** The lineage's pointer in the store: still the one the session expects, or the new one. *)
Definition not_moved (st : ref_store) : Prop := exists o, objs (rs_world st) !! key = Some o /\
  str_len (o_body o) <= maxCoordinationDocumentSize /\ Unmarshal (o_body o) = Some pointer /\ o_rev o = js_ExpectedPointerRevision s.
Definition moved (st : ref_store) : Prop := exists rev, rev <> "" /\ objs (rs_world st) !! key = Some (mkObject body rev).

(** The pending upload of the attempt. *)
Definition pending_upload (i : IntentRecord) : Prop :=
  ir_Transition i = "GenerationUploaded" /\ ir_ID i = attemptID +:+ "-5" /\ ir_SessionID i = session /\
  Unmarshal (ir_Input i) = Some (mkUploadRequest (gm_ObjectKey m) (gr_ArchiveSHA256 (gm_Generation m)) (gm_Size m)) /\
  cp_State (js_Checkpoint s) = "verified" /\ gm_CreatedAt m = mkTime (t_ns (ir_Timestamp i)) 0 /\ gm_Tools m = js_Tools s.

(** The two steps that change the store, and what they may have done before the crash. *)
Inductive interrupted : list IntentRecord -> ref_store -> Prop :=
| uploading i st :
    pending_upload i -> free_or (gm_ObjectKey m) archive st -> free_or (gm_MetadataKey m) text st -> not_moved st -> interrupted [i] st
| moving i st :
    ir_Transition i = "PointerCommitted" -> ir_ID i = attemptID +:+ "-6" -> ir_SessionID i = session ->
    Unmarshal (ir_Input i) = Some resumed_pointer -> cp_State (js_Checkpoint s) = "uploaded" ->
    stored (gm_ObjectKey m) archive st -> stored (gm_MetadataKey m) text st -> not_moved st \/ moved st -> interrupted [i] st.

(** What the second run leaves. *)
Definition done_with (r : CheckpointResult Receipt * option error * env) : Prop :=
  exists revision s' st', r =
    ((mkCheckpointResult CheckpointDispositionPublished true (gm_Generation m) (mkPointerRecord resumed_pointer revision) None
        ("camp recover " +:+ session) None, None), mkEnv s' [] st') /\
    js_CurrentPointer s' = Some resumed_pointer /\ js_CurrentBase s' = Some (gm_Generation m) /\
    js_ExpectedPointerRevision s' = revision /\ cp_PublicationSucceeded (js_Checkpoint s') = true /\
    objs (rs_world st') !! key = Some (mkObject body revision) /\ stored (gm_ObjectKey m) archive st' /\ stored (gm_MetadataKey m) text st'.

Context (A : attempted) (Hid : js_SessionID s = session) (Hp : js_CurrentPointer s = Some pointer) (Hb : js_CurrentBase s = Some base).

Lemma resumed_complete snapshot revision :
  js_Capsule snapshot = js_Capsule s -> js_Lineage snapshot = js_Lineage s -> revision <> "" ->
  completePointerCommit snapshot (Some (mkPointerCommit resumed_pointer revision)) = true.
Proof.
  intros Hc Hl Hr. apply valid_pointer_complete; [|done]. destruct (a_next A) as [(_ & Hv & _) _]. cbn [pr_Pointer] in Hv.
  destruct (validatePointer_ok _ _ _ Hv) as (Hc' & Hl' & _). cbn in Hc', Hl'. by rewrite Hc, Hl, Hc', Hl'.
Qed.

Lemma resumed_swap st : not_moved st ->
  run (CompareAndSwap (mkPointerRecord pointer (js_ExpectedPointerRevision s)) resumed_pointer) st =
  Some (Ok (mkPointerRecord resumed_pointer (ref_revision (rs_next st))), ref_publish key body st).
Proof.
  intros (o & Ho & Hsz & Hu & Hrev). destruct (a_next A) as (Hadv & Hm & _). destruct (a_key A) as (Hk & _).
  apply (ref_CompareAndSwap_publishes _ _ key st o); try done. exact (a_current A).
Qed.

(** The pointer is moved, or found moved: the publication ends. *)
Lemma finish_swap t snapshot intent st cutRoot haulPath at_ :
  js_SessionID snapshot = session -> js_Capsule snapshot = js_Capsule s -> js_Lineage snapshot = js_Lineage s ->
  js_CurrentPointer snapshot = Some pointer -> js_ExpectedPointerRevision snapshot = js_ExpectedPointerRevision s ->
  checkpointLogicalAttemptID snapshot = Ok attemptID -> ir_Transition intent = "PointerCommitted" ->
  not_moved st -> stored (gm_ObjectKey m) archive st -> stored (gm_MetadataKey m) text st ->
  done_with (eval (commitPointerAndRefresh snapshot (attempt_result (gm_Generation m) session) resumed_pointer intent cutRoot haulPath at_ None)
    (standing t snapshot [intent] st)).
Proof.
  intros H1 H2 H3 H4 H5 H6 H7 Hn Hs1 Hs2. pose proof (resumed_swap st Hn) as Hswap. rewrite <-H5 in Hswap.
  destruct (a_key A) as (_ & Hk1 & Hk2).
  eexists _, _, _. split; [etrans; [eapply (commit_eval receipt now inventory references built archive t snapshot snapshot _ _ intent cutRoot haulPath at_ attemptID pointer); try done|reflexivity]|].
  - by apply resumed_complete.
  - split; [reflexivity|]. split; [reflexivity|]. split; [reflexivity|]. split; [reflexivity|]. split; [apply lookup_insert_eq|].
    split; [destruct Hs1 as [r Hr]|destruct Hs2 as [r Hr]]; exists r; cbn [ref_publish rs_world objs put_object]; by rewrite lookup_insert_ne.
Qed.

Lemma finish_moved t intent st cutRoot haulPath at_ revision :
  ir_Transition intent = "PointerCommitted" -> revision <> "" -> objs (rs_world st) !! key = Some (mkObject body revision) ->
  stored (gm_ObjectKey m) archive st -> stored (gm_MetadataKey m) text st ->
  done_with (eval (commitPointerAndRefresh s (attempt_result (gm_Generation m) session) resumed_pointer intent cutRoot haulPath at_
    (Some (mkPointerRecord resumed_pointer revision))) (standing t s [intent] st)).
Proof.
  intros Ht Hr Ho Hs1 Hs2.
  eexists _, _, _. split; [etrans; [eapply (adopt_eval receipt now inventory references built archive t s s _ _ intent cutRoot haulPath at_ attemptID); try done|reflexivity]|].
  - by apply resumed_complete.
  - apply (a_attempt A).
  - by repeat (split; [done|]).
Qed.

(** The checkpoint is that of the pending intent. *)
Lemma resumed_attempt intent state sequence :
  cp_State (js_Checkpoint s) = state -> ir_ID intent = attemptID +:+ sequence -> ir_SessionID intent = session ->
  checkpoint_attempt s intent (gr_Generation base + 1) state sequence = Some (attemptID, gm_Generation m).
Proof.
  intros Hs Hi Hi'. destruct (a_checkpoint A) as (Hg & Hpath & Hk & Hk' & Hn). unfold checkpoint_attempt.
  rewrite (a_attempt A), Hg, Hs, Hi, Hi', Hid, Hk, Hn, !str_eqb_refl, Z.eqb_refl.
  by rewrite (proj2 (str_eqb_neq _ _) Hpath), (proj2 (str_eqb_neq _ _) Hk').
Qed.

Lemma resume_upload_stores i at_ e :
  pending_upload i ->
  eval (resumePendingUpload s i (gr_Generation base + 1) at_) e =
  let result := attempt_result (gm_Generation m) session in
  let snapshot := set_js_Checkpoint (upload_checkpoint (js_Checkpoint s)) s in
  let pointerIntent := checkpointAttemptIntent session attemptID "PointerCommitted" 6 at_ resumed_pointer in
  eval (need! _ := event (GenerationsPutAndVerify m (restartableBytes archive)) for result in
        need! _ := event (JRecordFact (checkpointFact i at_) snapshot) for result in
        need! _ := event (JRecordIntent pointerIntent) for result in
        commitPointerAndRefresh snapshot result resumed_pointer pointerIntent (js_RegistryCutRoot snapshot)
          (cp_LocalHaulPath (js_Checkpoint snapshot)) at_ None) e.
Proof.
  intros (Ht & Hi & Hi' & Hin & Hs & Hc & Htools). destruct (a_metadata A) as (Hv & Ha & _).
  destruct (a_of_session A) as (E1 & E2 & E3 & E4 & E5 & E6). destruct (a_checkpoint A) as (_ & _ & Hk & _).
  pose proof (validMetadata_ok _ _ _ _ Hv) as (_ & _ & _ & _ & _ & Hmk).
  unfold resumePendingUpload. rewrite (resumed_attempt i "verified" "-5") by done. rewrite Hin. cbn [uq_ObjectKey uq_SHA256 uq_Size].
  assert (0 <= gm_Size m) as Hsz by (destruct Ha as [_ <-]; unfold str_len; lia).
  rewrite Hk, !str_eqb_refl, (proj2 (Z.ltb_ge _ _) Hsz). cbn [negb orb]. rewrite <-E2, <-E3, Hmk.
  replace (mkGenerationMetadata _ _ _ _ _ _ _ _ _ _ _ _) with m
    by (rewrite Hb, Hid, <-Hc, <-Htools; cbn [cloneGeneration]; rewrite <-E1 at 1; rewrite <-E4, <-E5, <-E6; by destruct m).
  step. cbv zeta. set (s1 := set_js_Checkpoint _ s).
  change (session_pointer s1 (cloneGeneration (js_CurrentBase s1)) m) with (session_pointer s (cloneGeneration (js_CurrentBase s)) m).
  change (js_SessionID s1) with (js_SessionID s). by rewrite Hid, Hb.
Qed.

Lemma resume_upload_eval t i at_ st :
  pending_upload i -> free_or (gm_ObjectKey m) archive st -> free_or (gm_MetadataKey m) text st -> not_moved st ->
  done_with (eval (resumePendingUpload s i (gr_Generation base + 1) at_) (standing t s [i] st)).
Proof.
  intros Hi Hf1 Hf2 Hn. destruct (a_metadata A) as (Hv & Ha & Hm & _). destruct (a_of_session A) as (_ & _ & _ & _ & _ & E6).
  destruct (a_key A) as (_ & Hk1 & Hk2). assert (vf_LocalHaulLoadable (gm_Verified m) = true) as Hlv by by rewrite E6.
  destruct (ref_PutAndVerify_again m archive text st Hv Hlv Ha Hm Hf1 Hf2) as (rec & st1 & Hput & Hs1 & Hs2 & Hkept).
  rewrite (resume_upload_stores i at_ _ Hi). destruct Hi as (Ht & _). cbv zeta. set (s1 := set_js_Checkpoint _ s).
  erewrite eval_event with (x := Ok rec) (s' := standing t s [i] st1).
  2: { cbn [CheckpointLive.handle]. unfold on_store. cbn [standing e_store e_snapshot e_pending]. by rewrite Hput. }
  cbv beta iota.
  erewrite eval_event; [|cbn [CheckpointLive.handle]; apply (record_fact_keep t s s1); [rewrite Ht; apply keeping_transitions|by split]].
  cbv beta iota. step. cbn [standing e_snapshot e_pending e_store app].
  apply (finish_swap at_ s1); try done; [apply (a_attempt A)|].
  destruct Hn as (o & Ho & Hn). exists o. split; [|done]. rewrite Hkept; [done|set_solver].
Qed.

Lemma resume_upload_refused i at_ e o :
  pending_upload i -> stored (gm_ObjectKey m) archive (e_store e) ->
  objs (rs_world (e_store e)) !! gm_MetadataKey m = Some o -> sha256Hex (o_body o) <> sha256Hex text ->
  eval (resumePendingUpload s i (gr_Generation base + 1) at_) e = ((attempt_result (gm_Generation m) session, Some ErrConflict), e).
Proof.
  intros Hi Hst Ho Hne. destruct (a_metadata A) as (Hv & Ha & Hm & _). destruct (a_of_session A) as (_ & _ & _ & _ & _ & E6).
  assert (vf_LocalHaulLoadable (gm_Verified m) = true) as Hlv by by rewrite E6.
  rewrite (resume_upload_stores i at_ _ Hi). cbv zeta.
  erewrite eval_event with (x := Err ErrConflict) (s' := e); [done|].
  cbn [CheckpointLive.handle]. unfold on_store. rewrite (ref_PutAndVerify_refused m archive text _ o) by done. by destruct e.
Qed.

(** What the resumption finds under the pointer's key. *)
Lemma resumed_read st rev o p :
  objs (rs_world st) !! key = Some o -> str_len (o_body o) <= maxCoordinationDocumentSize -> Unmarshal (o_body o) = Some p ->
  validatePointer p (js_Capsule s) (js_Lineage s) = Ok tt -> o_rev o = rev ->
  run (Pointers.Read (js_Capsule s) (js_Lineage s)) st = Some (Ok (mkPointerRecord p rev), st).
Proof. intros Ho Hsz Hu Hv <-. destruct (a_key A) as (Hk & _). by eapply ref_Read. Qed.

Lemma resume_pointer_eval t i at_ st :
  ir_Transition i = "PointerCommitted" -> ir_ID i = attemptID +:+ "-6" -> ir_SessionID i = session ->
  Unmarshal (ir_Input i) = Some resumed_pointer -> cp_State (js_Checkpoint s) = "uploaded" ->
  stored (gm_ObjectKey m) archive st -> stored (gm_MetadataKey m) text st -> not_moved st \/ moved st ->
  done_with (eval (resumePendingPointer s i (gr_Generation base + 1) at_) (standing t s [i] st)).
Proof.
  intros Ht Hi Hi' Hin Hs Hs1 Hs2 Hmv. destruct (a_metadata A) as (Hv & Ha & Hm & Hu & Hsz).
  destruct (a_of_session A) as (E1 & E2 & E3 & E4 & E5 & E6). destruct (a_checkpoint A) as (_ & _ & Hk & _).
  assert (vf_LocalHaulLoadable (gm_Verified m) = true) as Hlv by by rewrite E6.
  destruct (ref_ReadMetadata m text st Hv Hlv Hs2 Hu Hsz) as [meta Hread].
  destruct (a_next A) as (Hadv & Hmb & Hub & Hszb). pose proof Hadv as (Hv1 & Hv2 & _ & _ & Hlt). cbn [pr_Pointer] in Hv1, Hv2, Hlt.
  destruct (validatePointer_ok _ _ _ Hv2) as (Hc & Hl & _).
  change (lp_Capsule resumed_pointer) with (js_Capsule s) in Hc. change (lp_Lineage resumed_pointer) with (js_Lineage s) in Hl.
  unfold resumePendingPointer. rewrite (resumed_attempt i "uploaded" "-6") by done. rewrite Hin.
  change (lp_SchemaVersion resumed_pointer) with SchemaVersion. change (lp_Capsule resumed_pointer) with (js_Capsule s).
  change (lp_Lineage resumed_pointer) with (js_Lineage s). change (lp_Generation resumed_pointer) with (gm_Generation m).
  change (lp_ObjectKey resumed_pointer) with (gm_ObjectKey m). change (lp_SessionID resumed_pointer) with (js_SessionID s).
  change (lp_Parent resumed_pointer) with (Some base).
  rewrite Hk, Hb, Hid, !str_eqb_refl, !bool_decide_true by done. unfold sameGeneration. rewrite bool_decide_true by done. cbn [negb orb Z.eqb].
  change (negb (SchemaVersion =? SchemaVersion)) with false. cbn [orb].
  erewrite eval_event with (x := Ok (set_remote_verified m, meta)) (s' := standing t s [i] st).
  2: { cbn [CheckpointLive.handle]. unfold on_store. cbn [standing e_store e_snapshot e_pending]. by rewrite <-E2, <-E3, Hread. }
  cbv beta iota. rewrite (bool_decide_true (resumed_pointer = _)); cycle 1.
  { unfold resumed_pointer, session_pointer, pointer_of. cbn. by rewrite E2, E3, E4, E5, Hid. }
  cbn [negb]. destruct Hmv as [Hn|(rev & Hr & Ho)].
  - pose proof Hn as (o & Ho & Hsz' & Hu' & Hrev).
    erewrite eval_event with (x := Ok (mkPointerRecord pointer (o_rev o))) (s' := standing t s [i] st).
    2: { cbn [CheckpointLive.handle]. unfold on_store. cbn [standing e_store e_snapshot e_pending].
         by rewrite (resumed_read st (o_rev o) o pointer Ho Hsz' Hu') by (try done; by rewrite Hc, Hl). }
    cbv beta iota. cbn [pr_Pointer]. rewrite (bool_decide_false (pointer = _)) by (intros E; rewrite E in Hlt; lia).
    apply (finish_swap t s); try done; apply (a_attempt A).
  - erewrite eval_event with (x := Ok (mkPointerRecord resumed_pointer rev)) (s' := standing t s [i] st).
    2: { cbn [CheckpointLive.handle]. unfold on_store. cbn [standing e_store e_snapshot e_pending].
         by rewrite (resumed_read st rev (mkObject body rev) resumed_pointer Ho Hszb Hub) by (try done; by rewrite Hc, Hl). }
    cbv beta iota. cbn [pr_Pointer]. rewrite (bool_decide_true (resumed_pointer = _)) by done. by apply finish_moved.
Qed.
End resume.

(** C6: an interrupted publication is finished by the next one.  When a run was stopped
    while it uploaded its generation, with the archive, the sidecar, both or neither in the
    store, or while it moved the pointer, moved already or not, and the session still holds
    its lock and its lease: Publish returns without an error, the pointer names the
    generation of the interrupted attempt, the journal has nothing pending and the new
    pointer, base and revision, and the store has the archive, the sidecar and the
    pointer. *)
Theorem Publish_resumes {Receipt : Type} (receipt : Receipt) now inventory references built archive remote operation session s lease
    base pointer attemptID m key text body pending st :
  entitled now session operation s lease base pointer st ->
  attempted archive session s base pointer attemptID m key text body ->
  interrupted archive session s base pointer attemptID m key text body pending st ->
  done_with archive session s base m key text body
    (eval receipt now inventory references built archive (Publish (mkPublisher true true true remote) operation session) (mkEnv s pending st)).
Proof.
  intros N A I. destruct (n_owner _ _ _ _ _ _ _ _ N) as (_ & _ & Hid). destruct (n_base _ _ _ _ _ _ _ _ N) as (Hb & _ & Hp).
  rewrite (publish_enters receipt now inventory references built archive remote operation session s lease base pointer pending st N).
  replace (mkEnv s pending st) with (standing (js_UpdatedAt s) s pending st) by (unfold standing; by destruct s).
  unfold publish_local. cbn [p_pipeline p_pointers negb orb].
  destruct I as [i st Hi ???|i st Ht ???????]; unfold hasPendingTransition; cbn [existsb orb]; [rewrite (proj1 Hi)|rewrite Ht].
  - by eapply (resume_upload_eval receipt now inventory references built archive session s base pointer attemptID m key text body).
  - by eapply (resume_pointer_eval receipt now inventory references built archive session s base pointer attemptID m key text body).
Qed.

(** C34: an upload is not resumed over another sidecar.  When the interrupted run had stored
    the archive and a sidecar whose bytes are not those of the metadata the resumption makes
    from the session, Publish reports the conflict and changes nothing: the intent stays
    pending, and every later run does the same.  The metadata is made with the session's own
    tools, so a session without any, whose generation was built with those of its pointer,
    is in this state. *)
Theorem Publish_upload_conflict {Receipt : Type} (receipt : Receipt) now inventory references built archive remote operation session s lease
    base pointer attemptID m key text body i st o :
  entitled now session operation s lease base pointer st ->
  attempted archive session s base pointer attemptID m key text body -> pending_upload session s attemptID m i ->
  stored (gm_ObjectKey m) archive st -> objs (rs_world st) !! gm_MetadataKey m = Some o -> sha256Hex (o_body o) <> sha256Hex text ->
  eval receipt now inventory references built archive (Publish (mkPublisher true true true remote) operation session) (mkEnv s [i] st) =
  ((attempt_result (gm_Generation m) session, Some ErrConflict), mkEnv s [i] st).
Proof.
  intros N A Hi Hst Ho Hne. destruct (n_owner _ _ _ _ _ _ _ _ N) as (_ & _ & Hid). destruct (n_base _ _ _ _ _ _ _ _ N) as (Hb & _ & Hp).
  rewrite (publish_enters receipt now inventory references built archive remote operation session s lease base pointer [i] st N).
  unfold publish_local, hasPendingTransition. cbn [p_pipeline p_pointers negb orb existsb]. rewrite (proj1 Hi).
  by eapply (resume_upload_refused receipt now inventory references built archive session s base pointer attemptID m key text body).
Qed.

(** * The session of CheckpointLive, interrupted *)
Definition live_attempt : string := "session-a-checkpoint-1".
Definition live_metadata : GenerationMetadata :=
  mkGenerationMetadata 1 "brain" (mkLineage "main") (sample_ref 2) (Some live_base)
    (gm_ObjectKey (sample_metadata 2 None)) (gm_MetadataKey (sample_metadata 2 None)) 3 sample_now c_zero "session-a" (mkVerification true false).
Definition stopped_session (state : string) : JournalSnapshot :=
  set_js_Checkpoint (mkCheckpoint state (Some (sample_ref 2)) "/build/2.tar.zst" (gm_ObjectKey live_metadata) false)
    (set_mirror (mkMirrorAttemptRecord 1 live_attempt MirrorCompleted "/staging" "" "" SNil) live_session).
Definition stopped_text : string := default "" (Marshal (set_remote_verified live_metadata)).
Definition stopped_body : string := default "" (Marshal (resumed_pointer live_session live_base live_metadata)).
Definition stopped_upload : IntentRecord :=
  checkpointAttemptIntent "session-a" live_attempt "GenerationUploaded" 5 sample_now (mkUploadRequest (gm_ObjectKey live_metadata) sample_sha 3).
Definition stopped_move : IntentRecord :=
  checkpointAttemptIntent "session-a" live_attempt "PointerCommitted" 6 sample_now (resumed_pointer live_session live_base live_metadata).
(** The archive arrived, the sidecar did not; and everything arrived. *)
Definition stopped_halfway : ref_store := ref_publish (gm_ObjectKey live_metadata) sample_archive live_store.
Definition stopped_late : ref_store :=
  ref_publish "brain/latest.json" stopped_body (ref_publish (gm_MetadataKey live_metadata) stopped_text stopped_halfway).

Ltac compute_field := repeat match goal with |- _ /\ _ => split end; vm_compute; first [reflexivity | discriminate | done].

Lemma halfway_entitled :
  entitled sample_now "session-a" live_operation (stopped_session "verified") live_lease live_base (sample_pointer 1 None) stopped_halfway.
Proof. split; compute_field. Qed.
Lemma late_entitled :
  entitled sample_now "session-a" live_operation (stopped_session "uploaded") live_lease live_base (sample_pointer 1 None) stopped_late.
Proof. split; compute_field. Qed.

Lemma stopped_attempted state : attempted sample_archive "session-a" (stopped_session state) live_base (sample_pointer 1 None) live_attempt
  live_metadata "brain/latest.json" stopped_text stopped_body.
Proof. split; unfold advances, announced; compute_field. Qed.

Lemma Publish_resumes_witness :
  done_with sample_archive "session-a" (stopped_session "verified") live_base live_metadata "brain/latest.json" stopped_text stopped_body
    (eval tt sample_now c_zero [] live_built sample_archive (Publish (mkPublisher true true true false) live_operation "session-a")
      (mkEnv (stopped_session "verified") [stopped_upload] stopped_halfway)) /\
  done_with sample_archive "session-a" (stopped_session "uploaded") live_base live_metadata "brain/latest.json" stopped_text stopped_body
    (eval tt sample_now c_zero [] live_built sample_archive (Publish (mkPublisher true true true false) live_operation "session-a")
      (mkEnv (stopped_session "uploaded") [stopped_move] stopped_late)).
Proof.
  split.
  - apply (Publish_resumes tt sample_now c_zero [] live_built sample_archive false live_operation "session-a" _ live_lease live_base
      (sample_pointer 1 None) live_attempt); [exact halfway_entitled|apply stopped_attempted|].
    apply uploading.
    + compute_field.
    + right. eexists. vm_compute. reflexivity.
    + left. vm_compute. reflexivity.
    + eexists. split; [vm_compute; reflexivity|]. split; [vm_compute; discriminate|]. split; vm_compute; reflexivity.
  - apply (Publish_resumes tt sample_now c_zero [] live_built sample_archive false live_operation "session-a" _ live_lease live_base
      (sample_pointer 1 None) live_attempt); [exact late_entitled|apply stopped_attempted|].
    apply moving; try match goal with |- _ = _ => vm_compute; reflexivity end.
    + eexists. vm_compute. reflexivity.
    + eexists. vm_compute. reflexivity.
    + right. eexists. split; [|vm_compute; reflexivity]. done.
Defined.

(** The run of CheckpointLive, stopped before it recorded its upload: the session has no
    tools, its generation has those of the pointer. *)
Definition stopped_uploaded : ref_store :=
  ref_publish (gm_MetadataKey live_metadata) (default "" (Marshal (set_remote_verified (bu_Metadata live_built)))) stopped_halfway.
Lemma uploaded_entitled :
  entitled sample_now "session-a" live_operation (stopped_session "verified") live_lease live_base (sample_pointer 1 None) stopped_uploaded.
Proof. split; compute_field. Qed.

Lemma Publish_upload_conflict_witness :
  eval tt sample_now c_zero [] live_built sample_archive (Publish (mkPublisher true true true false) live_operation "session-a")
    (mkEnv (stopped_session "verified") [stopped_upload] stopped_uploaded) =
  ((attempt_result (sample_ref 2) "session-a", Some ErrConflict), mkEnv (stopped_session "verified") [stopped_upload] stopped_uploaded).
Proof.
  eapply (Publish_upload_conflict tt sample_now c_zero [] live_built sample_archive false live_operation "session-a" (stopped_session "verified")
    live_lease live_base (sample_pointer 1 None) live_attempt live_metadata);
    [exact uploaded_entitled|apply stopped_attempted|compute_field|eexists; vm_compute; reflexivity|vm_compute; reflexivity|vm_compute; discriminate].
Defined.
